(* ===== verification/_CoqProject ===== *)
-Q . S2P
Prelude.v
Regex.v
Numbers.v
Effects.v
Quantities.v
Catalog.v
Json.v
JsNumber.v
Contract.v
Database.v
Quotas.v
Secrets.v
Security.v
Migrations.v
Http.v
ClientRecipes.v
Messages.v
Calls.v
I18n.v
OpenApi.v
Statistics.v
Series.v
History.v
Backends.v
Logs.v
Alerts.v
Accounts.v
Kubernetes.v
Worker.v
WorkerLease.v
WorkerSafety.v
QuotaSync.v
Inventory.v
InventoryFacts.v
ClusterClient.v
Diagnostics.v
Observations.v
Collector.v
Routes.v
RoutesFacts.v
Observability.v
Telemetry.v
Views.v
Projects.v
Documented.v
Reservation.v
Console.v
ConsoleForms.v
ConsoleKeys.v
ConsoleGuides.v
ConsoleCharts.v
ConsoleAdmin.v
Governance.v
System.v
