(* ===== verification/Prelude.v ===== *)
(** * A verification development of the expbuild control plane

    expbuild runs build caches on Kubernetes.  Its control plane is the program
    of [src/apps/admin-api/src]: an HTTP API and a few background processes
    over one PostgreSQL database and one Kubernetes cluster.  Its console is the
    React program of [src/apps/admin-web/src], which talks to that API alone.
    This development translates both into Rocq and proves what makes them
    correct; the file names below without a directory are those of
    [src/apps/admin-api/src], and of [src/apps/admin-web/src] where the console
    is described.

    ** The program

    A request to change an instance is written to the database as an
    _operation_, inside the transaction that checks the caller, the project's
    quota and the idempotency key.  A _worker_ claims operations under a lease,
    one at a time, brings the cluster to the requested state through a custom
    resource, and records the outcome.  Three more processes run beside it: the
    quota synchronisation keeps a ResourceQuota of each namespace in step with
    the project's limits, the inventory compares what the platform recorded
    with what the cluster holds, and the observation collector samples the
    instances.  The API also reads metrics, logs and statistics from services
    in the cluster.  The console keeps the token of a session, offers what the
    role of its user allows, draws an idempotency key for what it submits, and
    shows what it reads.

    ** Files and what they model

    Foundations:
    - [Prelude]: scope, record update, lemmas and tactics on options, strings
      and finite maps.
    - [Regex]: the regular expressions of the code, an executable matcher and
      its correctness against the language of a pattern.
    - [Numbers]: decimal texts and integers.  [JsNumber]: [Number(text)].
    - [Effects] ([errors.ts], [statusCode] of [kubernetes.ts]): exceptions,
      the state and exception monad [M S A] every handler is written in, its
      weakest preconditions [wp], and [within R], "every run moves the state
      along the preorder [R]".
    - [Json]: [JSON.parse] and [JSON.stringify].
    - [Database] ([migrations/*.sql], [db.ts]): tables as finite maps, unique
      indexes as failures, [World], [yield] (the point where the other
      processes run), [pool], [transaction], [kube].  [Migrations] ([migrate]
      of [db.ts]): the runner of the migrations, over the statements of SQL.

    Data of the platform:
    - [Quantities] ([quantities.ts]), [Catalog] ([template-catalog.ts],
      [client-profiles.ts]), [Contract] ([instance-contract.ts]), [Quotas]
      ([quotas.ts]), [Secrets] ([secrets.ts]), [Security] ([security.ts]).

    Processes and handlers:
    - [Worker] ([worker.ts]; [tick], [execute] and its steps, [finish],
      [defer], [bind]) with the theorems of [WorkerLease] and [WorkerSafety].
    - [QuotaSync] ([quota-sync.ts]; [ensure], [sync_tick]).
    - [Inventory] ([inventory.ts]; [compareInventory], [inventory_tick]) with
      the theorems of [InventoryFacts].
    - [Routes] ([instance-routes.ts], one definition per route) with the
      theorems of [RoutesFacts].
    - [Accounts] and [Projects] ([app.ts], [bootstrap.ts]) with the theorems of
      [Governance].
    - [Reservation] ([reservation-reconcile.ts] and its route in [app.ts]).
    - [System]: all of these as one family [process], and what holds in every
      reachable state.

    The cluster and the services in it:
    - [Kubernetes] ([KubernetesPort] of [kubernetes.ts]): the interface the
      worker and the routes are proved against; [memory_port], a small
      implementation for the witnesses.
    - [ClusterClient] ([KubernetesClient] of [kubernetes.ts] and
      [network-policy.ts]): the implementation of that interface, of
      [QuotaPort] and of [InventoryPort] over the API server.
    - [Http], [Statistics] ([statistics.ts]), [Series] and [History]
      ([history.ts]), [Backends] (client and metrics of
      [observation-backends.ts]), [Logs] (its logs and their redaction) and
      [Alerts] (its alerts and silences).
    - [Diagnostics] ([readDiagnosticEvents] and [readStatistics] of
      [kubernetes.ts]): what is read of an instance in the cluster.
    - [Observations] ([migrations/009_observability.sql]): the tables of
      snapshots, events and alerts, beside the tables of the [World].
    - [Collector] ([observation-store.ts]): the owned snapshot, the cycle of the
      collector with its leadership lock, its cursor and its samples, and the
      transaction that saves an observation.
    - [Observability] ([observability.ts], [alert-reconciliation.ts], the
      tokens of [telemetry.ts]): the routes over these services, the webhook
      and the reconciliation of stored alerts.  [Views] ([observability.ts], the
      audit of [app.ts], [telemetry.ts]): the routes that read the stored
      observations, and the health of the background processes.  [Telemetry]
      ([telemetry.ts]): the hooks that count the requests.

    The description of the API:
    - [OpenApi] ([openapi.ts]): the document the server publishes, [Documented]:
      a validator of JSON Schema and its agreement with the handlers.

    The console (file names of [src/apps/admin-web/src]):
    - [ClientRecipes] ([client-profiles.ts]): the shell recipes for a client of
      an instance.  [ConsoleGuides] ([ConnectionInfo.tsx]): when and how a page
      explains the connection to an instance.
    - [Messages] ([messages.ts] and the tables of labels of the pages), [Calls]
      (what the pages pass to [t]) and [I18n] ([i18n.ts]): the texts and their
      translation.
    - [Console] ([api.ts], [App.tsx], [PasswordForm.tsx], [ui.tsx]): the client
      of the API, the session of a page, permissions, the list of instances and
      the addresses of the pages.
    - [ConsoleForms] ([InstanceForm] of [App.tsx], [ProjectQuota.tsx]): the two
      forms.  [ConsoleKeys] ([RotateCredential.tsx], [RetryOperation.tsx],
      [RetainedVolume.tsx], [App.tsx]): what is submitted under a key, behind
      the interface [Keyed] and its laws [KeyedLaws].
    - [ConsoleCharts] ([LookupHistory.tsx], [Observability.tsx]): tables, charts
      and the panels of observations.
    - [ConsoleAdmin] ([Management.tsx], [PasswordForm.tsx],
      [ResourceInventory.tsx], [App.tsx], [Observability.tsx]): the panels of
      accounts, members, projects, inventory and alerts, and [console_sends],
      every request of the console.

    ** What the theorems show

    - The worker (C1-C4): every cycle returns and leaves the claimed operation
      finished or waiting; finished operations are final; success and deletion
      are only recorded after the cluster answered what they need.
      [WorkerLease] also shows that a claim takes the oldest due operation, that
      an operation past its deadline fails, and that a worker without its lease
      writes nothing.
    - The system (C5-C7): in every reachable state operations, keys and
      sessions are sound; no process loses or rewrites an accepted operation,
      and none leaves a project or the platform without its administrator.
    - The routes (C8-C11): exactly what an accepted request writes, that a
      repeated one is answered, under no more than its handler reads before it
      looks for the key, and a failed one changes nothing.
    - The cluster client (C12, C13): submissions only ever return or replace
      objects of the same instance, a quota is only reported as enforced after
      it was observed.
    - Quotas, inventory and reservations (C14-C20): admission is exact
      arithmetic against the limits, settling refines what was reserved; the
      inventory is healthy exactly when the cluster conforms, and only records
      comparisons of unchanged records; a reconciled floor is the least one the
      inventory accepts, and reconciling changes nothing but the reserved
      amounts, the time of the next scan and the audit; a quantity is rounded up
      to the least number of units.  [QuotaSync] also shows that the longest overdue project is
      served, and that [ensure] meets the interface of the worker's gate.
    - Inputs (C21), observed series (C22; the guard of the code lets through the
      names every object inherits) and the history of alerts (C23); the
      theorems of [Logs], [Statistics], [History] and [Diagnostics] show that
      what is read of an instance is its own.
    - The collector (C24, C25): an observation is saved whole, for the identity
      it was made of, or not at all; a cycle that runs alone serves the next
      twenty instances.  The overview of a project (C26) lists the oldest first
      and says what is missing, stale or failed.
    - The description of the API (C27): where it agrees with the handlers, and
      where it takes bodies they refuse (a name of blanks, a cache as large as
      its volume, the bounds on an alert).
    - The console: no address escapes from a recipe (C28); a key stands for one
      request (C29); the forms send what they show (C30, C31); requests carry
      what the service asks of them (C32), controls are offered to whom the
      service lets through (C33); the requests of the console are those the
      description of the API describes, and no write of it is left out (C34);
      nobody acts on the own account or on somebody they were not asked about,
      and a panel sends nothing between a request and its answer (C35); guides
      appear only for the configuration in force (C36), charts never bridge a
      gap (C37), and every text that a page shows is translated, with a value
      for each of its placeholders (C38).
      [ConsoleCharts] also shows that the table of lookups is exact and that a
      page never shows the answer to an earlier question.
    - The migrations run in the order of their names, once and as a whole (C39);
      the sealing of secrets (C40).

    ** How the code is rendered

    - A handler is a definition of type [M S A]; [await] is [yield], at which
      the world changes by any interference of the other processes, which the
      theorems bound by a relation (rely) that the process itself keeps
      (guarantee).  An empty list of interferences is a process that runs
      alone.
    - A transaction is atomic: the rows it reads are locked by [FOR UPDATE], an
      advisory lock or a unique index where the code relies on it, and a
      failure restores the database.  The quota synchronisation calls the
      cluster inside its transaction; no other process changes the locked row
      meanwhile.  The database and the processes share one clock; timestamps
      are microseconds, a [Date] is milliseconds.  [ORDER BY] breaks ties in
      stored order.
    - Strings are lists of the code units 0-255.  Numbers of a JSON document
      are exact; a fraction is kept exactly but never printed, and rounding to
      a double is not modelled.  [Promise.all] runs in order.
    - Loops are structural, or carry fuel that is shown or seen to be enough:
      the length of the text for [JSON.parse] and for a repeated pattern, the
      number of digits for [dec_str], five pages for a listing, as in the code.
    - Third-party code and services are parameters: the cipher, SHA-256 and
      scrypt of [node:crypto] (with their documented laws, classes [Aead] and
      [Digests]), bcrypt, zod's e-mail, UUID and ISO time, [new URL],
      [quantityToScalar], PostgreSQL's text of a timestamp and of [jsonb],
      [fetch] (class [Fetcher]) and the API server (class [ApiServer]).  Random
      values are arguments.

    ** Not modelled

    - Foreign keys and CHECK constraints, failures of the connection to the
      database (but the collector's loss of the connection that holds its lock,
      which is noticed before the transaction that saves an observation and not
      within it), and the identifiers and times of audit events.
    - [main.ts] (timers, signals, environment) and the transport of
      [kubernetes.ts]; of [telemetry.ts] the metrics of the process, the gauges
      of the connection pool and the durations of the workers.
    - Of the console: rendering and styles, the formats of [Intl], the
      constraints of input elements (a form may be submitted with anything), the
      timers that read again, the coordinates of a chart.  Its components are
      state machines over what the user does and what the service answers; a
      disabled button is an event that changes nothing.
    - The operator and the cache services (Go), the tools (Python) and the
      charts, which are other programs. *)
From Stdlib Require Import ZArith Lia Sorted.
From stdpp Require Import base tactics list option gmap strings numbers sorting.

(** ** Scope and notations *)
Declare Scope expbuild_scope.
Delimit Scope expbuild_scope with expbuild.
#[global] Open Scope Z_scope.

(** ** Record update

    [r <| f := v |>] is the record [r] with the field [f] replaced: an object
    spread in the code, or the [SET] list of an SQL update.  A record type is
    made updatable by one [Eta] instance, its eta expansion; the setter of a
    field is computed from the projection by [build_setter]. *)
Class Eta (R : Type) := eta : R → R.
#[global] Hint Mode Eta ! : typeclass_instances.

Class Setter {R T : Type} (proj : R → T) := rset : (T → T) → R → R.
Arguments rset {R T} proj {Setter} _ _ /.

Ltac build_setter :=
  match goal with
  | |- @Setter ?R ?T ?proj =>
      let e := eval cbv [eta] in (@eta R _) in
      let e := eval hnf in e in
      let p := eval pattern proj in e in
      match p with
      | ?g _ => exact (λ (f : T → T) (r : R), g (λ r' : R, f (proj r')) r)
      end
  end.

#[global] Hint Extern 0 (Setter _) => build_setter : typeclass_instances.

#[warnings="-postfix-notation-not-level-1"]
Notation "r <| f ::= g |>" := (rset f g r)
  (at level 12, f at next level, left associativity) : expbuild_scope.
#[warnings="-postfix-notation-not-level-1"]
Notation "r <| f := v |>" := (rset f (λ _, v) r)
  (at level 12, f at next level, left associativity) : expbuild_scope.
#[global] Open Scope expbuild_scope.

(** ** Characters of a JavaScript string

    A string is the sequence of its code units; the development restricts
    them to the range 0-255, which the patterns of the code never leave. *)
Abbreviation chars := String.list_ascii_of_string.
Abbreviation of_chars := String.string_of_list_ascii.

Lemma chars_app (s t : string) : chars (s +:+ t) = chars s ++ chars t.
Proof. induction s as [|c s IH]; simpl; [done|]. by rewrite IH. Qed.

Lemma of_chars_app (l k : list Ascii.ascii) :
  of_chars (l ++ k) = of_chars l +:+ of_chars k.
Proof. induction l as [|c l IH]; simpl; [done|]. by rewrite IH. Qed.

Lemma chars_of_chars (l : list Ascii.ascii) : chars (of_chars l) = l.
Proof. apply String.list_ascii_of_string_of_list_ascii. Qed.

Lemma of_chars_chars (s : string) : of_chars (chars s) = s.
Proof. apply String.string_of_list_ascii_of_string. Qed.

(** [s.length] *)
Definition js_length (s : string) : Z := Z.of_nat (String.length s).

Lemma js_length_chars (s : string) : js_length s = Z.of_nat (length (chars s)).
Proof. unfold js_length. f_equal. induction s; simpl; congruence. Qed.

Lemma text_nil_r (s : string) : s +:+ "" = s.
Proof. induction s; [done|]. unfold String.append in *. congruence. Qed.
Lemma text_app_assoc (s t u : string) : (s +:+ t) +:+ u = s +:+ t +:+ u.
Proof. induction s; [done|]. unfold String.append in *. congruence. Qed.

Create Rewrite HintDb text.
#[export] Hint Rewrite chars_app of_chars_app chars_of_chars of_chars_chars : text.

(** [l.join(separator)] *)
Fixpoint join (separator : string) (l : list string) : string :=
  match l with [] => "" | [x] => x | x :: l => x +:+ separator +:+ join separator l end.

(** ** Options read as JavaScript values *)

(** [!!s] for [s : string | undefined | null]: the empty string is falsy. *)
Definition truthy (o : option string) : bool :=
  match o with Some s => negb (String.eqb s "") | None => false end.

(** [a === b] between optional values. *)
Definition oeq `{EqDecision A} (a b : option A) : bool := bool_decide (a = b).

(** [a ?? b] *)
Definition nullish {A} (o : option A) (d : A) : A := default d o.

(** [xs.includes(x)] on a list of strings. *)
Definition includes (xs : list string) (x : string) : bool :=
  existsb (String.eqb x) xs.

Lemma includes_spec (xs : list string) (x : string) :
  includes xs x = true ↔ x ∈ xs.
Proof.
  unfold includes. rewrite existsb_exists. setoid_rewrite String.eqb_eq.
  setoid_rewrite <- list_elem_of_In. naive_solver.
Qed.

Lemma truthy_Some (o : option string) :
  truthy o = true → ∃ s, o = Some s ∧ s ≠ ""%string.
Proof.
  destruct o as [s|]; simpl; [|done]. intros H%negb_true_iff%String.eqb_neq.
  eauto.
Qed.

(** ** Booleans *)
Lemma negb_bool_decide (P : Prop) `{Decision P} : negb (bool_decide P) = true ↔ ¬ P.
Proof. rewrite negb_true_iff. apply bool_decide_eq_false. Qed.

Lemma orb_false (a b : bool) : a || b = false ↔ a = false ∧ b = false.
Proof. apply orb_false_iff. Qed.

(** Reflect the boolean guards of the code in the hypotheses. *)
Ltac boolify :=
  repeat match goal with
  | H : _ && _ = true |- _ => apply andb_true_iff in H; destruct H
  | H : _ || _ = false |- _ => apply orb_false_iff in H; destruct H
  | H : negb _ = true |- _ => apply negb_true_iff in H
  | H : negb _ = false |- _ => apply negb_false_iff in H
  | H : bool_decide _ = true |- _ => apply bool_decide_eq_true in H
  | H : bool_decide _ = false |- _ => apply bool_decide_eq_false in H
  | H : (_ <? _) = true |- _ => apply Z.ltb_lt in H
  | H : (_ <? _) = false |- _ => apply Z.ltb_ge in H
  | H : (_ <=? _) = true |- _ => apply Z.leb_le in H
  | H : (_ <=? _) = false |- _ => apply Z.leb_gt in H
  | H : (_ =? _) = true |- _ => apply Z.eqb_eq in H
  | H : (_ =? _) = false |- _ => apply Z.eqb_neq in H
  | H : String.eqb _ _ = true |- _ => apply String.eqb_eq in H
  | H : String.eqb _ _ = false |- _ => apply String.eqb_neq in H
  | H : Is_true (bool_decide _) |- _ => apply bool_decide_unpack in H
  end.

(** Split the first conditional of the goal. *)
Ltac split_if E :=
  match goal with
  | |- context [if ?b then _ else _] => destruct b eqn:E
  end.

Ltac split_if_in H :=
  match type of H with
  | context [if ?b then _ else _] => let E := fresh "E" in destruct b eqn:E
  end.

(** Split every conditional and match of the goal or of a hypothesis. *)
Ltac split_cases :=
  repeat (case_match; simplify_eq/=; try done).

(** ** Sums over a finite map

    [SELECT sum(f(row)) FROM table], the rows being the values of the map. *)
Section map_sum.
Context {K : Type} `{Countable K} {A : Type}.

Definition map_sum (f : A → Z) (m : gmap K A) : Z :=
  map_fold (λ _ x acc, f x + acc) 0 m.

Lemma map_sum_empty (f : A → Z) : map_sum f (∅ : gmap K A) = 0.
Proof. unfold map_sum. apply map_fold_empty. Qed.

Lemma map_sum_insert (f : A → Z) (m : gmap K A) i x :
  m !! i = None → map_sum f (<[i:=x]> m) = f x + map_sum f m.
Proof.
  intros Hi. unfold map_sum. rewrite map_fold_insert_L; [done| |done]. lia.
Qed.

Lemma map_sum_delete (f : A → Z) (m : gmap K A) i x :
  m !! i = Some x → map_sum f m = f x + map_sum f (delete i m).
Proof.
  intros Hi. rewrite <- (insert_delete_id m i x) at 1 by done.
  apply map_sum_insert, lookup_delete_eq.
Qed.

Lemma map_sum_update (f : A → Z) (m : gmap K A) i x y :
  m !! i = Some x → map_sum f (<[i:=y]> m) = map_sum f m - f x + f y.
Proof.
  intros Hi. rewrite <- insert_delete_eq.
  rewrite map_sum_insert by apply lookup_delete_eq.
  rewrite (map_sum_delete f m i x) by done. lia.
Qed.

Lemma map_sum_mono (f g : A → Z) (m : gmap K A) :
  (∀ i x, m !! i = Some x → f x ≤ g x) → map_sum f m ≤ map_sum g m.
Proof.
  induction m as [|i x m Hi IH] using map_ind; intros Hfg.
  - by rewrite !map_sum_empty.
  - rewrite !map_sum_insert by done.
    pose proof (Hfg i x (lookup_insert_eq _ _ _)).
    enough (map_sum f m ≤ map_sum g m) by lia.
    apply IH. intros j y Hj. apply (Hfg j y).
    rewrite lookup_insert_ne by congruence. done.
Qed.

Lemma map_sum_ext (f g : A → Z) (m : gmap K A) :
  (∀ i x, m !! i = Some x → f x = g x) → map_sum f m = map_sum g m.
Proof.
  intros Hfg. apply Z.le_antisymm; apply map_sum_mono; intros i x Hi;
    rewrite (Hfg i x Hi); lia.
Qed.

Lemma map_sum_nonneg (f : A → Z) (m : gmap K A) :
  (∀ i x, m !! i = Some x → 0 ≤ f x) → 0 ≤ map_sum f m.
Proof.
  intros Hf. etransitivity; [|apply (map_sum_mono (λ _, 0)), Hf].
  induction m as [|i x m Hi IH] using map_ind; [by rewrite map_sum_empty|].
  rewrite map_sum_insert by done. etransitivity; [apply IH|lia].
  intros j y Hj. apply (Hf j y). rewrite lookup_insert_ne by congruence. done.
Qed.

Lemma map_sum_lookup_le (f : A → Z) (m : gmap K A) i x :
  (∀ j y, m !! j = Some y → 0 ≤ f y) → m !! i = Some x → f x ≤ map_sum f m.
Proof.
  intros Hf Hi. rewrite (map_sum_delete f m i x Hi).
  enough (0 ≤ map_sum f (delete i m)) by lia.
  apply map_sum_nonneg. intros j y Hj. apply (Hf j y).
  by apply lookup_delete_Some in Hj as [_ ?].
Qed.
End map_sum.

(** ** Sizes of maps *)
Lemma size_le_keys {K A} `{Countable K} (m : gmap K A) (l : list K) :
  (∀ i, is_Some (m !! i) → i ∈ l) → (size m ≤ length l)%nat.
Proof.
  intros Hm. rewrite <- length_map_to_list, <- (length_fmap fst).
  apply submseteq_length, NoDup_submseteq; [apply NoDup_fst_map_to_list|].
  intros i ([j x] & -> & Hx%elem_of_map_to_list)%list_elem_of_fmap. apply Hm. by exists x.
Qed.
Lemma size_le_size {K A B} `{Countable K} (m : gmap K A) (m' : gmap K B) :
  (∀ i, is_Some (m !! i) → is_Some (m' !! i)) → (size m ≤ size m')%nat.
Proof.
  intros Hm. rewrite <- (length_map_to_list m'), <- (length_fmap fst). apply size_le_keys.
  intros i [x Hx]%Hm. apply list_elem_of_fmap. exists (i, x). split; [done|by apply elem_of_map_to_list].
Qed.

(** ** Choosing the first row of an ordered query *)
Section min_by.
Context {A : Type} (key : A → Z).

(** [ORDER BY key LIMIT 1] over the rows in their stored order. *)
Fixpoint min_by (l : list A) : option A :=
  match l with
  | [] => None
  | x :: l => match min_by l with
              | Some y => if key x <=? key y then Some x else Some y
              | None => Some x
              end
  end.

Lemma min_by_None l : min_by l = None ↔ l = [].
Proof.
  split; [|by intros ->]. destruct l as [|x l]; [done|]. simpl.
  by repeat case_match.
Qed.

Lemma min_by_Some l x : min_by l = Some x → x ∈ l ∧ ∀ y, y ∈ l → key x ≤ key y.
Proof.
  revert x. induction l as [|a l IH]; intros x; simpl; [done|].
  destruct (min_by l) as [b|] eqn:Hb.
  - destruct (IH b eq_refl) as [Hin Hle].
    case_match; boolify; intros [= <-]; (split; [set_solver|]);
      intros y [->|Hy]%elem_of_cons; try lia; specialize (Hle y Hy); lia.
  - apply min_by_None in Hb as ->. intros [= <-]. split; [set_solver|].
    intros y Hy%list_elem_of_singleton. by subst.
Qed.
End min_by.

(** ** Sorting and batches *)
Section stable_sort.
Context {A : Type} (le : A → A → bool).

(** [xs.sort(compare)], [le a b] being [compare(a, b) <= 0]: insertion keeps
    the order of equal elements, as [sort] does. *)
Fixpoint insert_by (x : A) (l : list A) : list A :=
  match l with
  | [] => [x]
  | y :: l' => if le x y then x :: l else y :: insert_by x l'
  end.
Definition stable_sort : list A → list A := foldr insert_by [].

Lemma insert_by_perm x l : insert_by x l ≡ₚ x :: l.
Proof. induction l as [|y l IH]; simpl; [done|]. destruct (le x y); [done|]. rewrite IH. apply Permutation_swap. Qed.
Lemma stable_sort_perm l : stable_sort l ≡ₚ l.
Proof. induction l as [|x l IH]; [done|]. simpl. by rewrite insert_by_perm, IH. Qed.

Context (R : relation A) `{!Transitive R}.
Context (le_R : ∀ a b, le a b = true → R a b) (nle_R : ∀ a b, le a b = false → R b a).

Lemma insert_by_sorted x l : StronglySorted R l → StronglySorted R (insert_by x l).
Proof using All.
  induction 1 as [|y l Hs IH Hy]; simpl; [by repeat constructor|]. destruct (le x y) eqn:E.
  - apply le_R in E. constructor; [by constructor|]. constructor; [done|].
    eapply Forall_impl; [exact Hy|]. intros z Hz. by transitivity y.
  - constructor; [done|]. rewrite insert_by_perm. constructor; [by apply nle_R|done].
Qed.
Lemma stable_sort_sorted l : StronglySorted R (stable_sort l).
Proof using All. induction l as [|x l IH]; [constructor|]. by apply insert_by_sorted. Qed.
End stable_sort.

(** *** Texts in order *)
Definition str_before (a b : string) : Prop := String.compare a b = Lt.
Lemma leb_before a b : String.leb b a = false ↔ str_before a b.
Proof.
  unfold str_before, String.leb. rewrite (String.compare_antisym b a). by destruct (String.compare a b).
Qed.
#[export] Instance str_before_strict : StrictOrder str_before.
Proof.
  split.
  - intros a Ha. apply leb_before in Ha. by destruct (String.leb_total a a); congruence.
  - intros a b c Hab%leb_before Hbc%leb_before. apply leb_before, not_true_iff_false. intros Hca.
    assert (String.le b a) as Hba.
    { transitivity c; [|unfold String.le; by rewrite Hca].
      destruct (String.leb_total b c) as [E|E]; [unfold String.le; by rewrite E|congruence]. }
    unfold String.le in Hba. by rewrite Hab in Hba.
Qed.
(** Sorting by a text. *)
Lemma stable_sort_by {A} (f : A → string) l :
  StronglySorted (λ a b, String.le (f a) (f b)) (stable_sort (λ a b, String.leb (f a) (f b)) l).
Proof.
  apply stable_sort_sorted.
  - intros x y z H1 H2. by transitivity (f y).
  - intros x y E. unfold String.le. by rewrite E.
  - intros x y E. unfold String.le. destruct (String.leb_total (f x) (f y)) as [E'|E']; [congruence|by rewrite E'].
Qed.
Lemma StronglySorted_strict {A} (f : A → string) l :
  StronglySorted (λ a b, String.le (f a) (f b)) l → NoDup (f <$> l) →
  StronglySorted (λ a b, str_before (f a) (f b)) l.
Proof.
  induction 1 as [|x l Hs IH Hx]; intros Hn; [constructor|]. apply NoDup_cons in Hn as [Hx' Hn].
  constructor; [by apply IH|]. rewrite Forall_forall in Hx |- *. intros y Hy. apply leb_before, not_true_iff_false.
  intros Hle. apply Hx'. apply list_elem_of_fmap. exists y. split; [|done]. apply (anti_symm String.le); [by apply Hx|].
  unfold String.le. by rewrite Hle.
Qed.
Lemma StronglySorted_NoDup {A} (R : relation A) `{!Irreflexive R} l : StronglySorted R l → NoDup l.
Proof.
  induction 1 as [|x l _ IH Hx]; constructor; [|done]. rewrite Forall_forall in Hx. intros Hin%Hx. by apply (irreflexivity R x).
Qed.

Lemma StronglySorted_take {A} (R : relation A) n l : StronglySorted R l → StronglySorted R (take n l).
Proof.
  intros H. revert n. induction H as [|x l Hs IH Hx]; intros [|n]; simpl; try constructor; [done|by apply Forall_take].
Qed.

Section batches.
Context {A : Type}.

(** [for (let i = 0; i < xs.length; i += 4) xs.slice(i, i + 4)] *)
Fixpoint batches (l : list A) : list (list A) :=
  match l with
  | [] => []
  | a :: b :: c :: d :: l => [a; b; c; d] :: batches l
  | _ => [l]
  end.
Lemma concat_batches l : concat (batches l) = l.
Proof.
  revert l. fix IH 1. intros [|a [|b [|c [|d l]]]]; try reflexivity. simpl. by rewrite IH.
Qed.
Lemma batches_length l : Forall (λ b, (length b ≤ 4)%nat) (batches l).
Proof.
  revert l. fix IH 1. intros [|a [|b [|c [|d l]]]]; repeat constructor; simpl; try lia. apply IH.
Qed.

(** [for (const x of xs) map.set(k, v)] on an insertion-ordered [Map]: a key
    that is there keeps its place. *)
Fixpoint map_set {V : Type} `{EqDecision A} (k : A) (v : V) (m : list (A * V)) : list (A * V) :=
  match m with
  | [] => [(k, v)]
  | e :: m => if decide (e.1 = k) then (k, v) :: m else e :: map_set k v m
  end.
Lemma map_set_elem {V} `{EqDecision A} k (v : V) m e :
  e ∈ map_set k v m → e = (k, v) ∨ e ∈ m.
Proof.
  induction m as [|x m IH]; simpl; [by intros ?%list_elem_of_singleton; left|].
  case_decide; intros [->|He]%elem_of_cons; [by left|by right; right|by right; left|].
  destruct (IH He); [by left|by right; right].
Qed.
Lemma map_set_keys {V} `{EqDecision A} k (v : V) m :
  NoDup m.*1 → NoDup (map_set k v m).*1 ∧ ∀ j, j ∈ (map_set k v m).*1 ↔ j = k ∨ j ∈ m.*1.
Proof.
  induction m as [|x m IH]; csimpl.
  { intros _. split; [apply NoDup_singleton|]. intros j. rewrite list_elem_of_singleton, elem_of_nil. tauto. }
  intros [Hx Hm]%NoDup_cons. destruct (IH Hm) as [Hn Hj]. case_decide as E; csimpl.
  - subst. split; [by constructor|]. intros j. rewrite !elem_of_cons. tauto.
  - split; [constructor; [rewrite Hj; by intros [?|?]|done]|]. intros j. rewrite !elem_of_cons, Hj. tauto.
Qed.
End batches.
