(* ===== verification/Regex.v ===== *)
(** * Regular expressions

    The code validates its inputs with anchored regular expressions.  This
    file gives the fragment it uses as a datatype, an executable matcher by
    derivatives, the language the pattern denotes, and the two capturing
    matches [^(r1)(r2)$] that the quantity and reservation parsers need. *)
From Stdlib Require Import ZArith Lia Ascii.
From stdpp Require Import base tactics list option strings numbers.
From S2P Require Import Prelude.

#[local] Open Scope list_scope.

(** Patterns.  [RChr p] is a character class. *)
Inductive re :=
  | RVoid
  | REps
  | RChr (p : ascii → bool)
  | RSeq (a b : re)
  | RAlt (a b : re)
  | RStar (a : re).

(** The language of a pattern. *)
Inductive lang : re → list ascii → Prop :=
  | lang_eps : lang REps []
  | lang_chr p c : p c = true → lang (RChr p) [c]
  | lang_seq a b s t : lang a s → lang b t → lang (RSeq a b) (s ++ t)
  | lang_alt_l a b s : lang a s → lang (RAlt a b) s
  | lang_alt_r a b s : lang b s → lang (RAlt a b) s
  | lang_star_nil a : lang (RStar a) []
  | lang_star_app a s t : lang a s → lang (RStar a) t → lang (RStar a) (s ++ t).

(** Smart constructors keep the derivatives of a pattern small. *)
Definition seq' (a b : re) : re :=
  match a, b with
  | RVoid, _ => RVoid
  | _, RVoid => RVoid
  | REps, _ => b
  | _, _ => RSeq a b
  end.
Definition alt' (a b : re) : re :=
  match a, b with
  | RVoid, _ => b
  | _, RVoid => a
  | _, _ => RAlt a b
  end.

Fixpoint nullable (r : re) : bool :=
  match r with
  | RVoid | RChr _ => false
  | REps | RStar _ => true
  | RSeq a b => nullable a && nullable b
  | RAlt a b => nullable a || nullable b
  end.

Fixpoint deriv (c : ascii) (r : re) : re :=
  match r with
  | RVoid | REps => RVoid
  | RChr p => if p c then REps else RVoid
  | RSeq a b =>
      if nullable a then alt' (seq' (deriv c a) b) (deriv c b)
      else seq' (deriv c a) b
  | RAlt a b => alt' (deriv c a) (deriv c b)
  | RStar a => seq' (deriv c a) (RStar a)
  end.

Fixpoint matches (r : re) (s : list ascii) : bool :=
  match s with
  | [] => nullable r
  | c :: s => matches (deriv c r) s
  end.

(** [/^r$/.test(s)] *)
Definition test (r : re) (s : string) : bool := matches r (chars s).

(** ** Derived patterns *)
Definition in_range (lo hi : ascii) (c : ascii) : bool :=
  (nat_of_ascii lo <=? nat_of_ascii c)%nat && (nat_of_ascii c <=? nat_of_ascii hi)%nat.
Definition is_char (a c : ascii) : bool := Ascii.eqb a c.
Definition is_digit : ascii → bool := in_range "0" "9".
Definition is_lower : ascii → bool := in_range "a" "z".
Definition is_upper : ascii → bool := in_range "A" "Z".
Definition is_alnum (c : ascii) : bool := is_lower c || is_upper c || is_digit c.
Definition is_hex (c : ascii) : bool :=
  in_range "a" "f" c || in_range "A" "F" c || is_digit c.
Definition one_of (s : string) (c : ascii) : bool := existsb (Ascii.eqb c) (chars s).

Definition rdigit : re := RChr is_digit.
Definition ropt (r : re) : re := RAlt r REps.
Definition rplus (r : re) : re := RSeq r (RStar r).
Fixpoint rlits (s : list ascii) : re :=
  match s with [] => REps | c :: s => RSeq (RChr (is_char c)) (rlits s) end.
Definition rlit (s : string) : re := rlits (chars s).
(** [r{n}] and [r{0,n}] *)
Fixpoint rtimes (n : nat) (r : re) : re :=
  match n with O => REps | S n => RSeq r (rtimes n r) end.
Fixpoint rupto (n : nat) (r : re) : re :=
  match n with O => REps | S n => ropt (RSeq r (rupto n r)) end.
Definition rbetween (lo hi : nat) (r : re) : re :=
  RSeq (rtimes lo r) (rupto (hi - lo) r).

(** [/^(r1)(r2)$/.exec(s)]: the two captures, the first one greedy. *)
Fixpoint captures_upto (n : nat) (r1 r2 : re) (s : list ascii) :
    option (list ascii * list ascii) :=
  if matches r1 (take n s) && matches r2 (drop n s)
  then Some (take n s, drop n s)
  else match n with O => None | S n => captures_upto n r1 r2 s end.
Definition captures (r1 r2 : re) (s : string) : option (string * string) :=
  match captures_upto (length (chars s)) r1 r2 (chars s) with
  | Some (a, b) => Some (of_chars a, of_chars b)
  | None => None
  end.

(** ** Correctness of the matcher *)
Lemma lang_seq_inv a b s :
  lang (RSeq a b) s ↔ ∃ s1 s2, s = s1 ++ s2 ∧ lang a s1 ∧ lang b s2.
Proof.
  split; [intros H; inversion H; subst; eauto 6|].
  intros (s1 & s2 & -> & ? & ?). by constructor.
Qed.

Lemma lang_alt_inv a b s : lang (RAlt a b) s ↔ lang a s ∨ lang b s.
Proof.
  split; [intros H; inversion H; subst; auto|].
  intros [?|?]; [by apply lang_alt_l|by apply lang_alt_r].
Qed.

Lemma lang_void s : ¬ lang RVoid s.
Proof. inversion 1. Qed.

Lemma lang_eps_inv s : lang REps s ↔ s = [].
Proof. split; [by inversion 1|intros ->; constructor]. Qed.

Lemma lang_chr_inv p s : lang (RChr p) s ↔ ∃ c, s = [c] ∧ p c = true.
Proof. split; [inversion 1; eauto|intros (c & -> & ?); by constructor]. Qed.

Lemma lang_seq_void_l b s : lang (RSeq RVoid b) s ↔ lang RVoid s.
Proof. split; [|by intros ?%lang_void]. by intros (? & ? & _ & ?%lang_void & _)%lang_seq_inv. Qed.

Lemma lang_seq_void_r a s : lang (RSeq a RVoid) s ↔ lang RVoid s.
Proof. split; [|by intros ?%lang_void]. by intros (? & ? & _ & _ & ?%lang_void)%lang_seq_inv. Qed.

Lemma lang_seq_eps_l b s : lang (RSeq REps b) s ↔ lang b s.
Proof.
  rewrite lang_seq_inv. setoid_rewrite lang_eps_inv. split.
  - by intros (? & ? & -> & -> & ?).
  - intros ?. by exists [], s.
Qed.

Lemma lang_seq' a b s : lang (seq' a b) s ↔ lang (RSeq a b) s.
Proof.
  destruct a, b; simpl; try done; symmetry;
    first [apply lang_seq_void_l|apply lang_seq_void_r|apply lang_seq_eps_l].
Qed.

Lemma lang_alt' a b s : lang (alt' a b) s ↔ lang (RAlt a b) s.
Proof.
  pose proof (lang_void s). pose proof (lang_alt_inv a b s).
  destruct a, b; simpl; try done; tauto.
Qed.

Lemma nullable_spec r : nullable r = true ↔ lang r [].
Proof.
  induction r; simpl.
  - split; [done|intros H; by apply lang_void in H].
  - split; [constructor|done].
  - split; [done|]. rewrite lang_chr_inv. by intros (? & ? & ?).
  - rewrite andb_true_iff, IHr1, IHr2, lang_seq_inv. split.
    + intros [H1 H2]. exists [], []. done.
    + intros (s1 & s2 & E & H1 & H2).
      by apply symmetry, app_eq_nil in E as [-> ->].
  - by rewrite orb_true_iff, IHr1, IHr2, lang_alt_inv.
  - split; [constructor|done].
Qed.

Lemma lang_star_cons a c s :
  lang (RStar a) (c :: s) ↔
  ∃ s1 s2, s = s1 ++ s2 ∧ lang a (c :: s1) ∧ lang (RStar a) s2.
Proof.
  split.
  - remember (RStar a) as r eqn:Hr. remember (c :: s) as t eqn:Ht.
    intros H. revert c s Hr Ht.
    induction H as [| | | | | |a' s1 s2 H1 _ H2 IH]; intros d u Hr Ht;
      try done; injection Hr as ->.
    destruct s1 as [|d' s1]; simpl in Ht; [by apply IH|].
    injection Ht as -> <-. eauto.
  - intros (s1 & s2 & -> & H1 & H2).
    change (c :: s1 ++ s2) with ((c :: s1) ++ s2). by constructor.
Qed.

Lemma deriv_spec c r s : lang (deriv c r) s ↔ lang r (c :: s).
Proof.
  revert s. induction r as [| |p|a IHa b IHb|a IHa b IHb|a IHa]; intros s; simpl.
  - split; intros H; by apply lang_void in H.
  - split; [intros H; by apply lang_void in H|by rewrite lang_eps_inv].
  - rewrite lang_chr_inv. destruct (p c) eqn:Hp.
    + rewrite lang_eps_inv. split; [intros ->; eauto|by intros (? & [= _ ->] & _)].
    + split; [intros H; by apply lang_void in H|].
      intros (d & [= <- ->] & Hd). congruence.
  - assert (lang (seq' (deriv c a) b) s ↔
            ∃ s1 s2, s = s1 ++ s2 ∧ lang a (c :: s1) ∧ lang b s2) as Hseq.
    { rewrite lang_seq', lang_seq_inv. by setoid_rewrite IHa. }
    assert (lang (RSeq a b) (c :: s) ↔
            (∃ s1 s2, s = s1 ++ s2 ∧ lang a (c :: s1) ∧ lang b s2) ∨
            (lang a [] ∧ lang b (c :: s))) as Hinv.
    { rewrite lang_seq_inv. split.
      - intros ([|d s1] & s2 & E & H1 & H2); simplify_list_eq; eauto 6.
      - intros [(s1 & s2 & -> & H1 & H2)|[H1 H2]].
        + by exists (c :: s1), s2.
        + by exists [], (c :: s). }
    rewrite Hinv. destruct (nullable a) eqn:Hn.
    + rewrite lang_alt', lang_alt_inv, Hseq, IHb.
      apply nullable_spec in Hn. tauto.
    + rewrite Hseq. split; [auto|]. intros [?|[H1%nullable_spec _]]; [done|congruence].
  - by rewrite lang_alt', !lang_alt_inv, IHa, IHb.
  - rewrite lang_seq', lang_seq_inv, lang_star_cons. by setoid_rewrite IHa.
Qed.

Theorem matches_spec r s : matches r s = true ↔ lang r s.
Proof.
  revert r. induction s as [|c s IH]; intros r; simpl.
  - apply nullable_spec.
  - by rewrite IH, deriv_spec.
Qed.

(** ** Languages of the derived patterns *)
Lemma lang_opt r s : lang (ropt r) s ↔ s = [] ∨ lang r s.
Proof. unfold ropt. rewrite lang_alt_inv, lang_eps_inv. tauto. Qed.

Lemma lang_star_chr p s : lang (RStar (RChr p)) s ↔ Forall (λ c, p c = true) s.
Proof.
  induction s as [|c s IH]; [split; [constructor|intros; apply lang_star_nil]|].
  rewrite lang_star_cons, Forall_cons_iff, <- IH. split.
  - by intros (s1 & s2 & -> & (d & [= <- ->] & ?)%lang_chr_inv & ?).
  - intros [? ?]. exists [], s. split_and!; [done| |done]. by constructor.
Qed.

Lemma lang_plus_chr p s :
  lang (rplus (RChr p)) s ↔ s ≠ [] ∧ Forall (λ c, p c = true) s.
Proof.
  unfold rplus. rewrite lang_seq_inv. split.
  - intros (? & s2 & -> & (c & -> & ?)%lang_chr_inv & ?%lang_star_chr).
    split; [done|by constructor].
  - intros [Hs HF]. destruct HF as [|c s Hc HF]; [done|].
    exists [c], s. rewrite lang_star_chr. split_and!; [done|by constructor|done].
Qed.

Lemma lang_lits l s : lang (rlits l) s ↔ s = l.
Proof.
  revert s. induction l as [|c l IH]; intros s; simpl; [apply lang_eps_inv|].
  rewrite lang_seq_inv. split.
  - intros (? & ? & -> & (d & -> & Hd%Ascii.eqb_eq)%lang_chr_inv & ->%IH).
    by subst.
  - intros ->. exists [c], l. rewrite IH. split_and!; [done| |done].
    constructor. apply Ascii.eqb_refl.
Qed.

Lemma lang_lit l s : lang (rlit l) s ↔ s = chars l.
Proof. apply lang_lits. Qed.

Lemma lang_rtimes_chr n p s :
  lang (rtimes n (RChr p)) s ↔ length s = n ∧ Forall (λ c, p c = true) s.
Proof.
  revert s. induction n as [|n IH]; intros s; simpl.
  - rewrite lang_eps_inv. split; [by intros ->|].
    by intros [->%length_zero_iff_nil _].
  - rewrite lang_seq_inv. split.
    + intros (? & s2 & -> & (c & -> & ?)%lang_chr_inv & [<- ?]%IH).
      split; [done|by constructor].
    + intros [Hl HF]. destruct HF as [|c s Hc HF]; simplify_eq/=.
      exists [c], s. rewrite IH. split_and!; [done|by constructor|done|done].
Qed.

Lemma lang_rupto_chr n p s :
  lang (rupto n (RChr p)) s ↔ (length s ≤ n)%nat ∧ Forall (λ c, p c = true) s.
Proof.
  revert s. induction n as [|n IH]; intros s; simpl.
  - rewrite lang_eps_inv. split; [intros ->; by split; [simpl|]|].
    intros [Hl _]. destruct s; [done|simpl in Hl; lia].
  - rewrite lang_opt, lang_seq_inv. split.
    + intros [->|(? & s2 & -> & (c & -> & ?)%lang_chr_inv & [? ?]%IH)]; simpl.
      * split; [lia|constructor].
      * split; [lia|by constructor].
    + intros [Hl HF]. destruct HF as [|c s Hc HF]; [by left|right].
      exists [c], s. simpl in Hl. rewrite IH.
      split_and!; [done|by constructor|lia|done].
Qed.

Lemma lang_between_chr lo hi p s :
  (lo ≤ hi)%nat →
  lang (rbetween lo hi (RChr p)) s ↔
  (lo ≤ length s ≤ hi)%nat ∧ Forall (λ c, p c = true) s.
Proof.
  intros Hle. unfold rbetween. rewrite lang_seq_inv. split.
  - intros (s1 & s2 & -> & [? ?]%lang_rtimes_chr & [? ?]%lang_rupto_chr).
    rewrite length_app, Forall_app. split; [lia|done].
  - intros [Hl HF]. exists (take lo s), (drop lo s).
    rewrite lang_rtimes_chr, lang_rupto_chr, take_drop, length_take, length_drop.
    rewrite <- (take_drop lo s), Forall_app in HF. destruct HF.
    split_and!; try done; lia.
Qed.

(** ** Captures *)
Lemma captures_upto_Some n r1 r2 s a b :
  captures_upto n r1 r2 s = Some (a, b) → s = a ++ b ∧ lang r1 a ∧ lang r2 b.
Proof.
  assert (∀ k, matches r1 (take k s) && matches r2 (drop k s) = true →
    s = take k s ++ drop k s ∧ lang r1 (take k s) ∧ lang r2 (drop k s)) as Hk.
  { intros k [?%matches_spec ?%matches_spec]%andb_true_iff. by rewrite take_drop. }
  induction n as [|n IH]; cbn [captures_upto].
  - destruct (_ && _) eqn:E; [|done]. intros [= <- <-]. by apply Hk.
  - destruct (_ && _) eqn:E; [|done]. intros [= <- <-]. by apply Hk.
Qed.

Lemma captures_upto_complete n r1 r2 s a b :
  s = a ++ b → (length a ≤ n)%nat → lang r1 a → lang r2 b →
  is_Some (captures_upto n r1 r2 s).
Proof.
  intros -> Hl H1%matches_spec H2%matches_spec.
  assert (matches r1 (take (length a) (a ++ b)) &&
          matches r2 (drop (length a) (a ++ b)) = true) as Ha.
  { by rewrite take_app_length, drop_app_length, H1, H2. }
  induction n as [|n IH]; cbn [captures_upto];
    (split_if E; [by eexists|]).
  - replace (length a) with 0%nat in Ha by lia. congruence.
  - destruct (decide (length a = S n)) as [Hn|]; [|apply IH; lia].
    rewrite <- Hn in E. congruence.
Qed.

Lemma captures_Some r1 r2 s a b :
  captures r1 r2 s = Some (a, b) →
  s = (a +:+ b)%string ∧ lang r1 (chars a) ∧ lang r2 (chars b).
Proof.
  unfold captures. repeat case_match; intros; simplify_eq.
  destruct (captures_upto_Some _ _ _ _ _ _ H) as (E & ? & ?).
  rewrite !chars_of_chars, <- of_chars_app, <- E, of_chars_chars. done.
Qed.

(** When the words of [r1] consist of [p] characters and no word of [r2] starts
    with one, a string splits in one way only, so the captures are determined
    whatever the order in which a matcher tries the splits. *)
Lemma captures_unique p r1 r2 a b :
  (∀ l, lang r1 l → Forall (λ c, p c = true) l) →
  (∀ c l, lang r2 (c :: l) → p c = false) →
  lang r1 (chars a) → lang r2 (chars b) →
  captures r1 r2 (a +:+ b) = Some (a, b).
Proof.
  intros Hp1 Hp2 Ha Hb. unfold captures.
  destruct (captures_upto_complete (length (chars (a +:+ b))) r1 r2
    (chars (a +:+ b)) (chars a) (chars b)) as [[x y] Hxy];
    [apply chars_app|rewrite chars_app, length_app; lia|done|done|].
  rewrite Hxy. apply captures_upto_Some in Hxy as (E & Hx & Hy).
  rewrite chars_app in E.
  enough (chars a = x ∧ chars b = y) as [<- <-] by (by rewrite !of_chars_chars).
  apply Hp1 in Hx, Ha. clear -Hp2 Hx Ha Hy Hb E.
  revert x Hx E. induction Ha as [|c l Hc Ha IH]; intros x Hx E; simpl in E.
  - destruct Hx as [|d x Hd Hx]; [done|]. simpl in E.
    rewrite E in Hb. apply Hp2 in Hb. congruence.
  - destruct Hx as [|d x Hd Hx]; simpl in E.
    + subst y. apply Hp2 in Hy. congruence.
    + injection E as -> E. destruct (IH x Hx E) as [-> ->]. done.
Qed.

Lemma captures_None r1 r2 s :
  captures r1 r2 s = None ↔
  ∀ a b, s = (a +:+ b)%string → ¬ (lang r1 (chars a) ∧ lang r2 (chars b)).
Proof.
  split.
  - intros Hc a b -> [Ha Hb]. unfold captures in Hc.
    destruct (captures_upto_complete (length (chars (a +:+ b))) r1 r2
      (chars (a +:+ b)) (chars a) (chars b)) as [[x y] Hxy];
      [apply chars_app|rewrite chars_app, length_app; lia|done|done|].
    by rewrite Hxy in Hc.
  - intros Hn. destruct (captures r1 r2 s) as [[a b]|] eqn:E; [|done].
    apply captures_Some in E as (-> & ? & ?). exfalso. by eapply Hn.
Qed.
