(* ===== verification/Numbers.v ===== *)
(** * JavaScript numbers and their decimal text

    Decimal printing ([String(n)], template literals) and reading ([BigInt],
    [Number]) of the nonnegative integers the code exchanges with PostgreSQL
    and Kubernetes, and the rounding of an integer to a double, which
    [Number(row.sum)] performs on the totals of an unbounded numeric sum. *)
From Stdlib Require Import ZArith Lia Ascii.
From stdpp Require Import base tactics list option strings numbers.
From S2P Require Import Prelude Regex.

#[local] Open Scope list_scope.

(** ** Digits *)
Definition digit_val (c : ascii) : Z := Z.of_nat (nat_of_ascii c) - 48.
Definition digit_chr (d : Z) : ascii := ascii_of_nat (Z.to_nat (d + 48)).

(** [BigInt(s)] of a string of digits. *)
Definition dec_val (l : list ascii) : Z :=
  fold_left (λ acc c, 10 * acc + digit_val c) l 0.

(** [String(n)] of a nonnegative integer: least significant digit first, [fuel]
    bounding the number of digits. *)
Fixpoint dec_digits (fuel : nat) (n : Z) (acc : list ascii) : list ascii :=
  match fuel with
  | O => acc
  | S fuel =>
      let acc := digit_chr (n mod 10) :: acc in
      if n <? 10 then acc else dec_digits fuel (n / 10) acc
  end.
Definition dec_fuel (n : Z) : nat := S (Z.to_nat (Z.log2 n)).
Definition dec_str (n : Z) : string := of_chars (dec_digits (dec_fuel n) n []).

(** [Number(s)] of an optionally signed string of digits. *)
Definition signed_val (l : list ascii) : Z :=
  match l with
  | c :: l' => if Ascii.eqb c "-" then - dec_val l'
               else if Ascii.eqb c "+" then dec_val l' else dec_val l
  | [] => 0
  end.

(** ** Rounding an integer to a double

    A double has a significand of 53 bits: an integer of at most 53 bits is
    exact, a larger one is rounded to a multiple of [2^e], ties to even. *)
Definition round_even (n d : Z) : Z :=
  let q := n / d in
  let r := n mod d in
  if (2 * r <? d) || ((2 * r =? d) && Z.even q) then q else q + 1.
Definition js_number (z : Z) : Z :=
  if z <? 2 ^ 53 then z
  else let d := 2 ^ (Z.log2 z - 52) in round_even z d * d.
Definition max_safe_integer : Z := 2 ^ 53 - 1.

(** ** Facts *)
Definition digits (l : list ascii) : Prop := Forall (λ c, is_digit c = true) l.

Lemma is_digit_spec c : is_digit c = true ↔ 0 ≤ digit_val c ≤ 9.
Proof.
  unfold is_digit, in_range, digit_val. rewrite andb_true_iff, !Nat.leb_le.
  change (nat_of_ascii "0") with 48%nat. change (nat_of_ascii "9") with 57%nat.
  lia.
Qed.

Lemma digit_chr_val d : 0 ≤ d ≤ 9 → digit_val (digit_chr d) = d.
Proof.
  intros ?. unfold digit_val, digit_chr.
  rewrite Ascii.nat_ascii_embedding; lia.
Qed.

Lemma digit_chr_digit d : 0 ≤ d ≤ 9 → is_digit (digit_chr d) = true.
Proof. intros ?. apply is_digit_spec. by rewrite digit_chr_val. Qed.

Lemma fold_digits l a :
  fold_left (λ acc c, 10 * acc + digit_val c) l a =
  a * 10 ^ Z.of_nat (length l) + dec_val l.
Proof.
  unfold dec_val. revert a. induction l as [|c l IH]; intros a.
  - simpl. lia.
  - cbn [fold_left length]. rewrite IH, (IH (10 * 0 + _)).
    rewrite Nat2Z.inj_succ, Z.pow_succ_r by lia. lia.
Qed.

Lemma dec_val_nil : dec_val [] = 0.
Proof. done. Qed.

Lemma dec_val_cons c l :
  dec_val (c :: l) = digit_val c * 10 ^ Z.of_nat (length l) + dec_val l.
Proof. unfold dec_val at 1. cbn [fold_left]. rewrite fold_digits. lia. Qed.

Lemma dec_val_app l k :
  dec_val (l ++ k) = dec_val l * 10 ^ Z.of_nat (length k) + dec_val k.
Proof. unfold dec_val at 1. rewrite fold_left_app. apply fold_digits. Qed.

Lemma dec_val_bounds l : digits l → 0 ≤ dec_val l < 10 ^ Z.of_nat (length l).
Proof.
  induction 1 as [|c l Hc _ IH]; [rewrite dec_val_nil; simpl; lia|].
  rewrite dec_val_cons. apply is_digit_spec in Hc.
  cbn [length]. rewrite Nat2Z.inj_succ, Z.pow_succ_r by lia. nia.
Qed.

Lemma dec_digits_spec fuel n acc :
  0 ≤ n < 2 ^ Z.of_nat fuel → 0 < Z.of_nat fuel → digits acc →
  digits (dec_digits fuel n acc) ∧ dec_digits fuel n acc ≠ [] ∧
  dec_val (dec_digits fuel n acc) = n * 10 ^ Z.of_nat (length acc) + dec_val acc.
Proof.
  revert n acc. induction fuel as [|fuel IH]; intros n acc Hn Hf Hacc; [lia|].
  cbn [dec_digits]. pose proof (Z.mod_pos_bound n 10 ltac:(lia)) as Hm.
  assert (digits (digit_chr (n mod 10) :: acc)) as Hacc'.
  { constructor; [apply digit_chr_digit; lia|done]. }
  rewrite Nat2Z.inj_succ, Z.pow_succ_r in Hn by lia.
  destruct (Z.ltb_spec n 10).
  - split_and!; [done|done|].
    rewrite dec_val_cons, digit_chr_val by lia. by rewrite Z.mod_small by lia.
  - pose proof (Z.div_mod n 10 ltac:(lia)).
    destruct (IH (n / 10) (digit_chr (n mod 10) :: acc)) as (H1 & H2 & H3);
      [lia| |done|].
    + destruct fuel; [simpl in Hn; lia|lia].
    + split_and!; [done|done|]. rewrite H3, dec_val_cons, digit_chr_val by lia.
      cbn [length]. rewrite Nat2Z.inj_succ, Z.pow_succ_r by lia. lia.
Qed.

Lemma dec_str_spec n :
  0 ≤ n → digits (chars (dec_str n)) ∧ chars (dec_str n) ≠ [] ∧
          dec_val (chars (dec_str n)) = n.
Proof.
  intros Hn. unfold dec_str. rewrite chars_of_chars.
  assert (n < 2 ^ Z.of_nat (dec_fuel n)).
  { unfold dec_fuel. rewrite Nat2Z.inj_succ, Z2Nat.id by apply Z.log2_nonneg.
    destruct (Z.eq_dec n 0) as [->|]; [done|].
    apply Z.log2_lt_pow2; lia. }
  destruct (dec_digits_spec (dec_fuel n) n []) as (? & ? & Hv);
    [lia|unfold dec_fuel; lia|constructor|].
  split_and!; [done|done|]. rewrite Hv, dec_val_nil. simpl. lia.
Qed.

Lemma dec_str_digits n : 0 ≤ n → digits (chars (dec_str n)).
Proof. intros. by apply dec_str_spec. Qed.

Lemma dec_val_str n : 0 ≤ n → dec_val (chars (dec_str n)) = n.
Proof. intros. by apply dec_str_spec. Qed.

Lemma dec_str_ne n : 0 ≤ n → chars (dec_str n) ≠ [].
Proof. intros. by apply dec_str_spec. Qed.

Lemma dec_str_inj n m : 0 ≤ n → 0 ≤ m → dec_str n = dec_str m → n = m.
Proof.
  intros Hn Hm E. rewrite <- (dec_val_str n Hn), <- (dec_val_str m Hm).
  by rewrite E.
Qed.

Lemma dec_str_lang n : 0 ≤ n → lang (rplus rdigit) (chars (dec_str n)).
Proof. intros Hn. apply lang_plus_chr. split; [by apply dec_str_ne|by apply dec_str_digits]. Qed.

(** The number of digits printed is at most the bit length. *)
Lemma dec_digits_length fuel n acc :
  (length (dec_digits fuel n acc) ≤ fuel + length acc)%nat.
Proof.
  revert n acc. induction fuel as [|fuel IH]; intros n acc; simpl; [lia|].
  case_match; simpl; [lia|]. etransitivity; [apply IH|]. simpl. lia.
Qed.

Lemma dec_str_length n :
  0 ≤ n < 2 ^ 63 → (length (chars (dec_str n)) ≤ 63)%nat.
Proof.
  intros Hn. unfold dec_str. rewrite chars_of_chars.
  etransitivity; [apply dec_digits_length|]. unfold dec_fuel. cbn [length].
  enough (Z.log2 n < 63) by (pose proof (Z.log2_nonneg n); lia).
  destruct (Z.eq_dec n 0) as [->|]; [done|]. apply Z.log2_lt_pow2; lia.
Qed.

(** ** Rounding *)
Lemma js_number_exact z : z < 2 ^ 53 → js_number z = z.
Proof. intros. unfold js_number. by rewrite (proj2 (Z.ltb_lt _ _)). Qed.

Lemma round_even_ge n d q : 0 < d → q * d ≤ n → q ≤ round_even n d.
Proof.
  intros Hd Hq. unfold round_even.
  pose proof (Z.div_le_lower_bound n d q Hd ltac:(lia)). case_match; lia.
Qed.

(** Rounding never takes a large total below the exact range, so comparing a
    rounded total with a limit in the exact range loses nothing. *)
Lemma js_number_large z : 2 ^ 53 ≤ z → 2 ^ 53 ≤ js_number z.
Proof.
  intros Hz. unfold js_number. rewrite (proj2 (Z.ltb_ge _ _)) by done.
  assert (53 ≤ Z.log2 z) as Hl by (apply Z.log2_le_pow2; lia).
  set (d := 2 ^ (Z.log2 z - 52)).
  assert (0 < d) by (apply Z.pow_pos_nonneg; lia).
  pose proof (Z.log2_spec z ltac:(lia)) as [Hlo _].
  assert (2 ^ Z.log2 z = 2 ^ 52 * d) as E.
  { unfold d. rewrite <- Z.pow_add_r by lia. f_equal. lia. }
  pose proof (round_even_ge z d (2 ^ 52) ltac:(done) ltac:(lia)).
  assert (2 ≤ d).
  { unfold d. replace 2 with (2 ^ 1) at 1 by done. apply Z.pow_le_mono_r; lia. }
  nia.
Qed.

Lemma js_number_gt z l : l < 2 ^ 53 → (l < js_number z ↔ l < z).
Proof.
  intros Hl. destruct (Z.lt_ge_cases z (2 ^ 53)) as [Hz|Hz].
  - by rewrite js_number_exact.
  - pose proof (js_number_large z Hz). lia.
Qed.
