(* ===== verification/Effects.v ===== *)
(** * Effects: exceptions, state and catching

    [errors.ts] and the exceptions the called libraries throw, the state and
    exception monad the handlers are written in, and the reasoning rules the
    component files share: [wp], the weakest precondition of a computation,
    and [within R], every run of a computation moves its state along the
    preorder [R] whether it returns or throws. *)
From Stdlib Require Import ZArith Lia.
From stdpp Require Import base tactics list option strings numbers relations.
From S2P Require Import Prelude.

(** ** Exceptions

    [codeval] is the value of an error's [code]: the HTTP status of the
    Kubernetes client, or the string of a system or database error.
    [KubeError] is an error of the Kubernetes client library or the network
    below it, of shape [{ code?, statusCode?, response?: { statusCode? } }];
    [PgUnique] is the PostgreSQL unique violation (code 23505), [ZodError] a
    failed schema, [JsError] a plain [Error]. *)
Inductive codeval := CNum (n : Z) | CStr (s : string).

#[export] Instance codeval_eq_dec : EqDecision codeval.
Proof. solve_decision. Defined.

Inductive exn :=
  | HttpError (statusCode : Z) (message : string)
  | OperationError (code : string) (superseded : bool)
  | ZodError
  | PgUnique (constraint : string)
  | KubeError (code : option codeval) (statusCode response_statusCode : option Z)
  | JsError (message : string).

#[export] Instance exn_eq_dec : EqDecision exn.
Proof. solve_decision. Defined.

(** [new OperationError(code)]: [superseded] defaults to false. *)
Definition opError (code : string) : exn := OperationError code false.

(** The value of [e?.code ?? e?.statusCode ?? e?.response?.statusCode]; an
    [OperationError] and a PostgreSQL error carry a string in [code]. *)
Definition statusCode (e : exn) : option codeval :=
  match e with
  | HttpError st _ => Some (CNum st)
  | OperationError c _ => Some (CStr c)
  | PgUnique _ => Some (CStr "23505")
  | KubeError (Some c) _ _ => Some c
  | KubeError None (Some c) _ => Some (CNum c)
  | KubeError None None (Some c) => Some (CNum c)
  | KubeError None None None => None
  | ZodError | JsError _ => None
  end.

Definition is_status (n : Z) (e : exn) : bool :=
  match statusCode e with Some (CNum m) => m =? n | _ => false end.

(** ** Results *)
Inductive res (A : Type) := Ok (a : A) | Throw (e : exn).
Arguments Ok {A} _.
Arguments Throw {A} _.

#[export] Instance res_eq_dec {A} `{EqDecision A} : EqDecision (res A).
Proof. solve_decision. Defined.

#[export] Instance res_ret : MRet res := λ A a, Ok a.
#[export] Instance res_bind : MBind res := λ A B k m,
  match m with Ok a => k a | Throw e => Throw e end.

Definition of_option {A} (e : exn) (o : option A) : res A :=
  match o with Some a => Ok a | None => Throw e end.
(** [if (b) throw e;] *)
Definition when_throw (b : bool) (e : exn) : res () :=
  if b then Throw e else Ok tt.
Definition is_ok {A} (r : res A) : bool :=
  match r with Ok _ => true | Throw _ => false end.

Lemma res_bind_Ok {A B} (m : res A) (k : A → res B) b :
  (m ≫= k) = Ok b ↔ ∃ a, m = Ok a ∧ k a = Ok b.
Proof. destruct m; cbn; [|by split; [|intros (? & ? & ?)]]. naive_solver. Qed.

Lemma res_bind_Throw {A B} (m : res A) (k : A → res B) e :
  (m ≫= k) = Throw e ↔ m = Throw e ∨ ∃ a, m = Ok a ∧ k a = Throw e.
Proof. destruct m; cbn; naive_solver. Qed.

Lemma res_seq_Ok {B} (m : res ()) (k : res B) b : (m ;; k) = Ok b ↔ m = Ok tt ∧ k = Ok b.
Proof. destruct m as [[]|]; cbn; naive_solver. Qed.

Lemma when_throw_Ok b e u : when_throw b e = Ok u ↔ b = false.
Proof. destruct b, u; simpl; by split. Qed.

Lemma when_throw_Throw b e e' : when_throw b e = Throw e' ↔ b = true ∧ e = e'.
Proof. destruct b; simpl; naive_solver. Qed.

Lemma of_option_Ok {A} e (o : option A) a : of_option e o = Ok a ↔ o = Some a.
Proof. destruct o; simpl; naive_solver. Qed.

(** A run of [mapM] is a run for every element. *)
Lemma mapM_res {A B} (f : A → res B) l k : mapM f l = Ok k → Forall2 (λ x y, f x = Ok y) l k.
Proof.
  revert k. induction l as [|x l IH]; intros k; simpl; [intros [= <-]; constructor|].
  intros (y & Ey & (ys & Eys & [= <-])%res_bind_Ok)%res_bind_Ok. constructor; [done|by apply IH].
Qed.

(** ** Stateful computations that may throw

    An exception keeps the state reached so far, as in JavaScript. *)
Definition M (S A : Type) : Type := S → res A * S.

#[export] Instance M_ret S : MRet (M S) := λ A a s, (Ok a, s).
#[export] Instance M_bind S : MBind (M S) := λ A B k m s,
  match m s with
  | (Ok a, s') => k a s'
  | (Throw e, s') => (Throw e, s')
  end.

Section operations.
Context {S : Type}.

Definition throw {A} (e : exn) : M S A := λ s, (Throw e, s).
(** A pure computation that may throw. *)
Definition lift {A} (r : res A) : M S A := λ s, (r, s).
(** [if (b) throw e;] *)
Definition throw_if (b : bool) (e : exn) : M S () :=
  if b then throw e else mret tt.
(** [if (b) await m;] *)
Definition when (b : bool) (m : M S ()) : M S () := if b then m else mret tt.
Definition get : M S S := λ s, (Ok s, s).
Definition gets {A} (f : S → A) : M S A := λ s, (Ok (f s), s).
Definition modify (f : S → S) : M S () := λ s, (Ok tt, f s).
(** [try { m } catch (e) { h(e) }] *)
Definition try_catch {A} (m : M S A) (h : exn → M S A) : M S A := λ s,
  match m s with
  | (Ok a, s') => (Ok a, s')
  | (Throw e, s') => h e s'
  end.
(** [for (const x of xs) await body(x);] *)
Fixpoint for_each {A} (xs : list A) (body : A → M S ()) : M S () :=
  match xs with
  | [] => mret tt
  | x :: xs => body x ;; for_each xs body
  end.
End operations.

(** [zoom] runs a computation on a part of the state. *)
Definition zoom {S T A} (get : T → S) (put : S → T → T) (m : M S A) : M T A :=
  λ t, let '(r, s) := m (get t) in (r, put s t).

(** ** Weakest preconditions *)
Section wp.
Context {S : Type}.
Implicit Types (s : S).

Definition wp {A} (m : M S A) (Q : A → S → Prop) (E : exn → S → Prop) s : Prop :=
  match m s with
  | (Ok a, s') => Q a s'
  | (Throw e, s') => E e s'
  end.

Lemma wp_ret {A} (a : A) Q E s : Q a s → wp (mret a) Q E s.
Proof. done. Qed.

Lemma wp_bind {A B} (m : M S A) (k : A → M S B) Q E s :
  wp m (λ a s', wp (k a) Q E s') E s → wp (m ≫= k) Q E s.
Proof. unfold wp, mbind, M_bind. destruct (m s) as [[a|e] s']; done. Qed.

Lemma wp_throw {A} e (Q : A → S → Prop) E s : E e s → wp (throw e) Q E s.
Proof. done. Qed.

Lemma wp_try_catch {A} (m : M S A) h Q E s :
  wp m Q (λ e s', wp (h e) Q E s') s → wp (try_catch m h) Q E s.
Proof. unfold wp, try_catch. destruct (m s) as [[a|e] s']; done. Qed.

Lemma wp_mono {A} (m : M S A) (Q Q' : A → S → Prop) (E E' : exn → S → Prop) s :
  wp m Q E s → (∀ a s', Q a s' → Q' a s') → (∀ e s', E e s' → E' e s') →
  wp m Q' E' s.
Proof. unfold wp. destruct (m s) as [[a|e] s']; auto. Qed.

Lemma bind_Ok_inv {A B} (m : M S A) (k : A → M S B) s b s' :
  (m ≫= k) s = (Ok b, s') → ∃ a s1, m s = (Ok a, s1) ∧ k a s1 = (Ok b, s').
Proof. unfold mbind, M_bind. destruct (m s) as [[a|e] s1]; naive_solver. Qed.

Lemma bind_Throw_inv {A B} (m : M S A) (k : A → M S B) s e s' :
  (m ≫= k) s = (Throw e, s') →
  m s = (Throw e, s') ∨ ∃ a s1, m s = (Ok a, s1) ∧ k a s1 = (Throw e, s').
Proof. unfold mbind, M_bind. destruct (m s) as [[a|e1] s1]; naive_solver. Qed.

Lemma lift_inv {A} (r : res A) s a s' : lift r s = (Ok a, s') → r = Ok a ∧ s' = s.
Proof. by intros [= -> <-]. Qed.

Lemma throw_if_Ok b e s u s' : throw_if (S:=S) b e s = (Ok u, s') ↔ b = false ∧ s' = s.
Proof.
  destruct b, u; simpl; [by split; [|intros [? _]]|].
  split; [by intros [= ->]|by intros [_ ->]].
Qed.

Lemma throw_if_bind {A} b e (k : () → M S A) s a s' :
  (throw_if b e ≫= k) s = (Ok a, s') ↔ b = false ∧ k tt s = (Ok a, s').
Proof.
  destruct b; unfold mbind, M_bind; simpl; [by split; [|intros [? _]]|].
  split; [by intros|by intros [_ ?]].
Qed.

Lemma bind_Ok {A B} (m : M S A) (k : A → M S B) s a s1 :
  m s = (Ok a, s1) → (m ≫= k) s = k a s1.
Proof. unfold mbind, M_bind. by intros ->. Qed.

Lemma bind_Throw {A B} (m : M S A) (k : A → M S B) s e s1 :
  m s = (Throw e, s1) → (m ≫= k) s = (Throw e, s1).
Proof. unfold mbind, M_bind. by intros ->. Qed.
End wp.

Lemma mapM_M {S A B} (f : A → M S B) l s k s' :
  mapM f l s = (Ok k, s') → Forall2 (λ x y, ∃ s1 s2, f x s1 = (Ok y, s2)) l k.
Proof.
  revert s k. induction l as [|x l IH]; intros s k; simpl; [intros [= <- _]; constructor|].
  intros (y & s1 & Ey & E)%bind_Ok_inv. apply bind_Ok_inv in E as (ys & s2 & Eys & [= <- <-]).
  constructor; [by exists s, s1|by eapply IH].
Qed.

(** ** Steps along a preorder *)
Section within.
Context {S : Type} (R : relation S) `{!PreOrder R}.

Definition within {A} (m : M S A) : Prop := ∀ s, R s (m s).2.

Lemma within_ret {A} (a : A) : within (mret a).
Proof. intros s. reflexivity. Qed.
Lemma within_throw {A} e : within (throw (A:=A) e).
Proof. intros s. reflexivity. Qed.
Lemma within_lift {A} (r : res A) : within (lift r).
Proof. intros s. reflexivity. Qed.
Lemma within_get : within get.
Proof. intros s. reflexivity. Qed.
Lemma within_gets {A} (f : S → A) : within (gets f).
Proof. intros s. reflexivity. Qed.
Lemma within_throw_if b e : within (throw_if b e).
Proof. destruct b; intros s; reflexivity. Qed.
Lemma within_when b m : within m → within (when b m).
Proof. destruct b; [done|]. intros _ s. reflexivity. Qed.
Lemma within_bind {A B} (m : M S A) (k : A → M S B) :
  within m → (∀ a, within (k a)) → within (m ≫= k).
Proof.
  intros Hm Hk s. unfold mbind, M_bind. specialize (Hm s).
  destruct (m s) as [[a|e] s1]; [|done].
  etransitivity; [apply Hm|apply Hk].
Qed.
Lemma within_assoc {A B C} (m : M S A) (f : A → M S B) (g : B → M S C) :
  within (m ≫= λ a, f a ≫= g) → within ((m ≫= f) ≫= g).
Proof.
  intros Hm s. specialize (Hm s). unfold mbind, M_bind in *. by destruct (m s) as [[a|e] s1].
Qed.
Lemma within_try_catch {A} (m : M S A) h :
  within m → (∀ e, within (h e)) → within (try_catch m h).
Proof.
  intros Hm Hh s. unfold try_catch. specialize (Hm s).
  destruct (m s) as [[a|e] s1]; [done|].
  etransitivity; [apply Hm|apply Hh].
Qed.
Lemma within_for_each {A} (xs : list A) body :
  (∀ x, within (body x)) → within (for_each xs body).
Proof.
  intros Hb. induction xs as [|x xs IH]; simpl; [apply within_ret|].
  apply within_bind; [apply Hb|done].
Qed.
Lemma within_mapM {A B} (f : A → M S B) (l : list A) : (∀ x, within (f x)) → within (mapM f l).
Proof.
  intros Hf. induction l as [|x l IH]; simpl; [apply within_ret|].
  apply within_bind; [apply Hf|]. intros y. apply within_bind; [done|]. intros ys. apply within_ret.
Qed.
Lemma within_if {A} (b : bool) (m1 m2 : M S A) :
  within m1 → within m2 → within (if b then m1 else m2).
Proof. by destruct b. Qed.
Lemma within_modify f : (∀ s, R s (f s)) → within (modify f).
Proof. done. Qed.
End within.

Create HintDb within discriminated.
#[export] Hint Resolve within_ret within_throw within_lift within_get within_gets
  within_throw_if within_when within_for_each : within.

(** Walk a handler written in the monad, leaving its state changes. *)
Ltac within_step :=
  match goal with
  | |- within _ (_ ≫= _) => apply within_bind; [typeclasses eauto| |intros ?]
  | |- within _ (try_catch _ _) => apply within_try_catch; [typeclasses eauto| |intros ?]
  | |- within _ (for_each _ _) => apply within_for_each; [typeclasses eauto|intros ?]
  | |- within _ (mapM _ _) => apply within_mapM; [typeclasses eauto|intros ?]
  | |- within _ (when _ _) => apply within_when; [typeclasses eauto|]
  | |- within _ (if _ then _ else _) => apply within_if
  | |- within _ (match ?x with _ => _ end) => destruct x
  | |- within _ (let _ := _ in _) => cbv zeta
  | |- within _ _ => solve [auto with within typeclass_instances]
  end.
Ltac within_solve := repeat within_step.

(** A computation on a part of the state moves the whole along any preorder
    its part's moves respect. *)
Lemma within_zoom {S T A} (R : relation S) (R' : relation T) get put (m : M S A) :
  within R m → (∀ t s, R (get t) s → R' t (put s t)) → within R' (zoom get put m).
Proof.
  intros Hm HR t. unfold zoom. specialize (Hm (get t)).
  destruct (m (get t)) as [r s]. by apply HR.
Qed.
