(* ===== verification/Quantities.v ===== *)
(** * Kubernetes quantities

    [apps/admin-api/src/quantities.ts]: reading a quantity as an exact
    fraction, comparing two of them without rounding, and rounding one up to a
    whole number of platform units. *)
From Stdlib Require Import ZArith Lia Ascii QArith.
From stdpp Require Import base tactics list option strings numbers sets.
From S2P Require Import Prelude Regex Numbers Effects.

#[local] Open Scope list_scope.
#[local] Open Scope Z_scope.

(** ** The source *)

Definition invalid_quantity : exn := JsError "Invalid resource quantity".

(** The first capture: an optional plus, then digits with an optional point and
    fraction, or a point and digits. *)
Definition quantity_number : re :=
  RSeq (ropt (rlit "+"))
    (RAlt (RSeq (rplus rdigit) (ropt (RSeq (rlit ".") (RStar rdigit))))
          (RSeq (rlit ".") (rplus rdigit))).

(** The second capture, optional: an exponent [[eE][+-]?\d+], a decimal suffix
    [[numkMGTPE]] or a binary suffix [[KMGTPE]i]. *)
Definition quantity_suffix : re :=
  ropt (RAlt (RSeq (RChr (one_of "eE")) (RSeq (ropt (RChr (one_of "+-"))) (rplus rdigit)))
       (RAlt (RChr (one_of "numkMGTPE"))
             (RSeq (RChr (one_of "KMGTPE")) (rlit "i")))).

(** [s.replace(/^\+/, '')] *)
Definition drop_plus (s : list ascii) : list ascii :=
  match s with c :: t => if Ascii.eqb c "+" then t else s | [] => s end.

(** The first two parts of [s.split('.')], the second defaulting to the empty
    string. *)
Fixpoint split_dot (s : list ascii) : list ascii * list ascii :=
  match s with
  | [] => ([], [])
  | c :: t => if Ascii.eqb c "." then ([], t)
              else let '(w, f) := split_dot t in (c :: w, f)
  end.

(** [['Ki', 'Mi', 'Gi', 'Ti', 'Pi', 'Ei'].indexOf(suffix)] *)
Definition binary_index (suffix : string) : Z :=
  if String.eqb suffix "Ki" then 0 else if String.eqb suffix "Mi" then 1
  else if String.eqb suffix "Gi" then 2 else if String.eqb suffix "Ti" then 3
  else if String.eqb suffix "Pi" then 4 else if String.eqb suffix "Ei" then 5
  else -1.

(** [powers[suffix]] *)
Definition powers (suffix : string) : option Z :=
  if String.eqb suffix "" then Some 0 else if String.eqb suffix "n" then Some (-9)
  else if String.eqb suffix "u" then Some (-6) else if String.eqb suffix "m" then Some (-3)
  else if String.eqb suffix "k" then Some 3 else if String.eqb suffix "M" then Some 6
  else if String.eqb suffix "G" then Some 9 else if String.eqb suffix "T" then Some 12
  else if String.eqb suffix "P" then Some 15 else if String.eqb suffix "E" then Some 18
  else None.

(** [/^[eE]/.test(suffix) && suffix.length > 1 ? Number(suffix.slice(1)) : powers[suffix]] *)
Definition decimal_exponent (suffix : string) : option Z :=
  match chars suffix with
  | c :: ((_ :: _) as rest) => if one_of "eE" c then Some (signed_val rest)
                             else powers suffix
  | _ => powers suffix
  end.

Definition rational (value : string) : res (Z * Z) :=
  if 128 <? js_length value then Throw invalid_quantity else
  match captures quantity_number quantity_suffix value with
  | None => Throw invalid_quantity
  | Some (number, suffix) =>
      let '(whole, fraction) := split_dot (drop_plus (chars number)) in
      let whole := if decide (whole = []) then ["0"%char] else whole in
      let numerator := dec_val (whole ++ fraction) in
      let denominator := 10 ^ Z.of_nat (length fraction) in
      let binary := binary_index suffix in
      if 0 <=? binary then Ok (numerator * 1024 ^ (binary + 1), denominator) else
      match decimal_exponent suffix with
      | None => Throw invalid_quantity
      | Some exponent =>
          if 128 <? Z.abs exponent then Throw invalid_quantity
          else if 0 <=? exponent then Ok (numerator * 10 ^ exponent, denominator)
          else Ok (numerator, denominator * 10 ^ (- exponent))
      end
  end.

Definition quantityExceeds (actual reserved : string) : res bool :=
  '(a, ad) ← rational actual;
  '(r, rd) ← rational reserved;
  mret (r * ad <? a * rd).

Definition quantityCeil (actual unit : string) : res Z :=
  '(a, ad) ← rational actual;
  '(u, ud) ← rational unit;
  when_throw (u <=? 0) (JsError "Invalid resource unit") ;;
  let numerator := a * ud in
  let denominator := ad * u in
  let rounded := (numerator + denominator - 1) / denominator in
  when_throw (2147483647 <? rounded) (JsError "Resource quantity exceeds platform limit") ;;
  mret rounded.

Example quantities_read :
  rational "5e12" = Ok (5 * 10 ^ 12, 1) ∧ rational "15E-1" = Ok (15, 10) ∧ rational "2e+3" = Ok (2000, 1) ∧
  rational "1.5Gi" = Ok (15 * 1024 ^ 3, 10) ∧ rational ".5" = Ok (5, 10) ∧ rational "1E" = Ok (10 ^ 18, 1).
Proof. vm_compute. by split_and!. Qed.

(** ** The value a quantity denotes *)

(** The fraction of a parsed quantity as a rational number. *)
Definition frac (p : Z * Z) : Q := Qmake p.1 (Z.to_pos p.2).

(** A suffix as a scale: a power of 1024, or a power of ten. *)
Inductive scale := SBinary (k : Z) | SDecimal (e : Z).
Definition scale_of (suffix : string) : option scale :=
  if 0 <=? binary_index suffix then Some (SBinary (binary_index suffix + 1))
  else SDecimal <$> decimal_exponent suffix.
Definition scale_value (s : scale) : Q :=
  match s with
  | SBinary k => inject_Z (1024 ^ k)
  | SDecimal e => if 0 <=? e then inject_Z (10 ^ e) else Qmake 1 (Z.to_pos (10 ^ (- e)))
  end.
Definition scale_ok (s : scale) : bool :=
  match s with SBinary _ => true | SDecimal e => Z.abs e <=? 128 end.

(** [denotes value q]: the quantity [value] is within the accepted size, is
    [whole.fraction] followed by a suffix, and [q] is the number it denotes. *)
Definition denotes (value : string) (q : Q) : Prop :=
  js_length value ≤ 128 ∧
  ∃ (plus : bool) (whole fraction : list ascii) (dot : bool) (suffix : string) (sc : scale),
    chars value = (if plus then ["+"%char] else []) ++ whole ++
                  (if dot then "."%char :: fraction else []) ++ chars suffix ∧
    digits whole ∧ digits fraction ∧ (dot = false → fraction = []) ∧
    (whole ≠ [] ∨ fraction ≠ []) ∧
    lang quantity_suffix (chars suffix) ∧
    scale_of suffix = Some sc ∧ scale_ok sc = true ∧
    (q == (inject_Z (dec_val (whole ++ fraction)) / inject_Z (10 ^ Z.of_nat (length fraction)))
          * scale_value sc)%Q.

(** ** Lemmas *)
Lemma rational_pos value n d : rational value = Ok (n, d) → 0 < d.
Proof.
  unfold rational. intros H.
  repeat (case_match; simplify_eq/=); boolify;
    repeat match goal with
    | |- 0 < _ * _ => apply Z.mul_pos_pos
    | |- 0 < 10 ^ _ => apply Z.pow_pos_nonneg; lia
    end.
Qed.

Lemma digits_app l k : digits (l ++ k) ↔ digits l ∧ digits k.
Proof. apply Forall_app. Qed.

Lemma digit_not c a : is_digit c = true → is_digit a = false → Ascii.eqb c a = false.
Proof. intros Hc Ha. apply Ascii.eqb_neq. intros ->. congruence. Qed.

Lemma split_dot_digits l : digits l → split_dot l = (l, []).
Proof.
  induction 1 as [|c l Hc _ IH]; simpl; [done|].
  by rewrite (digit_not c) by done; rewrite IH.
Qed.

Lemma split_dot_app l k : digits l → split_dot (l ++ "."%char :: k) = (l, k).
Proof.
  induction 1 as [|c l Hc _ IH]; simpl; [done|].
  by rewrite (digit_not c) by done; rewrite IH.
Qed.

Lemma drop_plus_digits l k : digits l → l ≠ [] → drop_plus (l ++ k) = l ++ k.
Proof. intros [|c l' Hc _] ?; simpl; [done|]. by rewrite (digit_not c) by done. Qed.

(** The shape of the first capture. *)
Lemma quantity_number_inv s :
  lang quantity_number s ↔
  ∃ (plus : bool) whole fraction (dot : bool),
    s = (if plus then ["+"%char] else []) ++ whole ++
        (if dot then "."%char :: fraction else []) ∧
    digits whole ∧ digits fraction ∧ (dot = false → fraction = []) ∧
    (whole ≠ [] ∨ fraction ≠ []).
Proof.
  unfold quantity_number. rewrite lang_seq_inv. split.
  - intros (p & t & -> & Hp%lang_opt & Ht).
    assert (∃ plus : bool, p = if plus then ["+"%char] else []) as [plus ->].
    { destruct Hp as [->| ->%lang_lit]; [by exists false|by exists true]. }
    exists plus. rewrite lang_alt_inv, !lang_seq_inv in Ht.
    destruct Ht as [(w & u & -> & [Hw Hwd]%lang_plus_chr & Hu%lang_opt)
                   |(u & w & -> & ->%lang_lit & [Hw Hwd]%lang_plus_chr)].
    + destruct Hu as [->|(v & f & -> & ->%lang_lit & Hf%lang_star_chr)%lang_seq_inv].
      * exists w, [], false. rewrite app_nil_r. split_and!; try done; [constructor|auto].
      * exists w, f, true. split_and!; try done. auto.
    + exists [], w, true. split_and!; try done; [constructor|auto].
  - intros (plus & w & f & dot & -> & Hw & Hf & Hdot & Hne).
    exists (if plus then ["+"%char] else []), (w ++ if dot then "."%char :: f else []).
    split_and!; [done| |].
    + apply lang_opt. destruct plus; [right; by apply lang_lit|by left].
    + apply lang_alt_inv. destruct (decide (w = [])) as [->|Hwne].
      * destruct Hne as [?|Hfne]; [done|]. destruct dot; [|by rewrite Hdot in Hfne].
        right. apply lang_seq_inv. exists ["."%char], f. split_and!; [done| |].
        -- by apply lang_lit.
        -- by apply lang_plus_chr.
      * left. apply lang_seq_inv. eexists w, _. split_and!; [done| |].
        -- by apply lang_plus_chr.
        -- apply lang_opt. destruct dot; [right|by left].
           apply lang_seq_inv. exists ["."%char], f. split_and!; [done| |].
           ++ by apply lang_lit.
           ++ by apply lang_star_chr.
Qed.

Definition number_char (c : ascii) : bool := is_digit c || one_of "+." c.

Lemma digits_number_char l : digits l → Forall (λ c, number_char c = true) l.
Proof. induction 1 as [|c l Hc _ IH]; constructor; [|done]. unfold number_char. by rewrite Hc. Qed.

Lemma quantity_number_chars l :
  lang quantity_number l → Forall (λ c, number_char c = true) l.
Proof.
  intros (plus & w & f & dot & -> & Hw & Hf & _)%quantity_number_inv.
  rewrite !Forall_app. split_and!.
  - destruct plus; repeat constructor.
  - by apply digits_number_char.
  - destruct dot; [constructor; [done|by apply digits_number_char]|constructor].
Qed.

Lemma one_of_spec s c : one_of s c = true ↔ c ∈ chars s.
Proof.
  unfold one_of. rewrite existsb_exists, list_elem_of_In. split.
  - intros (d & ? & ->%Ascii.eqb_eq). done.
  - intros ?. exists c. split; [done|apply Ascii.eqb_refl].
Qed.

Ltac char_cases H :=
  apply one_of_spec in H; repeat (apply elem_of_cons in H as [->|H]);
  try (by apply elem_of_nil in H).

Lemma quantity_suffix_head c l :
  lang quantity_suffix (c :: l) → number_char c = false.
Proof.
  intros [H|H]%lang_opt; [done|].
  apply lang_alt_inv in H as [H|[H|H]%lang_alt_inv].
  - apply lang_seq_inv in H as (? & ? & E & (d & -> & Hd)%lang_chr_inv & _).
    simplify_eq/=. char_cases Hd; done.
  - apply lang_chr_inv in H as (d & [= -> ->] & Hd). char_cases Hd; done.
  - apply lang_seq_inv in H as (? & ? & E & (d & -> & Hd)%lang_chr_inv & _).
    simplify_eq/=. char_cases Hd; done.
Qed.

Lemma quantity_captures a b :
  lang quantity_number (chars a) → lang quantity_suffix (chars b) →
  captures quantity_number quantity_suffix (a +:+ b) = Some (a, b).
Proof.
  apply (captures_unique number_char);
    [apply quantity_number_chars|apply quantity_suffix_head].
Qed.

(** [rational] computed on the parts of a quantity. *)
Lemma rational_parts (plus : bool) whole fraction (dot : bool) suffix value :
  js_length value ≤ 128 →
  chars value = (if plus then ["+"%char] else []) ++ whole ++
                (if dot then "."%char :: fraction else []) ++ chars suffix →
  digits whole → digits fraction → (dot = false → fraction = []) →
  (whole ≠ [] ∨ fraction ≠ []) → lang quantity_suffix (chars suffix) →
  rational value =
    let numerator := dec_val (whole ++ fraction) in
    let denominator := 10 ^ Z.of_nat (length fraction) in
    match scale_of suffix with
    | Some (SBinary k) => Ok (numerator * 1024 ^ k, denominator)
    | Some (SDecimal e) =>
        if 128 <? Z.abs e then Throw invalid_quantity
        else if 0 <=? e then Ok (numerator * 10 ^ e, denominator)
        else Ok (numerator, denominator * 10 ^ (- e))
    | None => Throw invalid_quantity
    end.
Proof.
  intros Hlen Hv Hw Hf Hdot Hne Hs. unfold rational.
  rewrite (proj2 (Z.ltb_ge _ _)) by done.
  set (num := (if plus then ["+"%char] else []) ++ whole ++
              (if dot then "."%char :: fraction else [])).
  assert (value = of_chars num +:+ suffix) as ->.
  { rewrite <- (of_chars_chars suffix), <- of_chars_app, <- (of_chars_chars value), Hv.
    unfold num. by rewrite <- !(assoc (++)). }
  rewrite quantity_captures; [|rewrite chars_of_chars|done].
  2: { apply quantity_number_inv. exists plus, whole, fraction, dot. done. }
  rewrite chars_of_chars.
  assert (split_dot (drop_plus num) = (whole, fraction)) as ->.
  { assert (drop_plus num = whole ++ if dot then "."%char :: fraction else []) as ->.
    { unfold num. destruct plus; [done|]. simpl.
      destruct (decide (whole = [])) as [->|]; [by destruct dot|].
      by apply drop_plus_digits. }
    destruct dot; [by apply split_dot_app|].
    rewrite app_nil_r, (Hdot eq_refl). by apply split_dot_digits. }
  assert (dec_val ((if decide (whole = []) then ["0"%char] else whole) ++ fraction)
          = dec_val (whole ++ fraction)) as ->.
  { case_decide as E; [|done]. subst. simpl app. rewrite dec_val_cons. done. }
  cbv zeta. unfold scale_of. destruct (0 <=? binary_index suffix); [done|].
  by destruct (decimal_exponent suffix).
Qed.

Lemma frac_value n d : 0 < d → (frac (n, d) == inject_Z n / inject_Z d)%Q.
Proof.
  intros Hd. unfold frac. simpl. rewrite <- (Z2Pos.id d Hd) at 2.
  by rewrite Qmake_Qdiv.
Qed.

Lemma inject_Z_ne d : 0 < d → ¬ (inject_Z d == 0)%Q.
Proof. intros Hd. unfold Qeq. simpl. lia. Qed.

(** The fraction computed for a scale is the scaled number. *)
Lemma scale_frac num den sc :
  0 < den →
  match sc with
  | SBinary k => 0 ≤ k → (frac (num * 1024 ^ k, den)%Z ==
                   inject_Z num / inject_Z den * scale_value sc)%Q
  | SDecimal e =>
      (frac (if (0 <=? e)%Z then (num * 10 ^ e, den) else (num, den * 10 ^ (- e)))%Z ==
       inject_Z num / inject_Z den * scale_value sc)%Q
  end.
Proof.
  intros Hden. pose proof (inject_Z_ne den Hden). destruct sc as [k|e].
  - intros Hk. rewrite frac_value by done. rewrite inject_Z_mult. simpl. by field.
  - destruct (Z.leb_spec 0 e) as [He|He]; simpl scale_value.
    + rewrite frac_value by done. rewrite (proj2 (Z.leb_le _ _)) by done.
      rewrite inject_Z_mult. by field.
    + assert (0 < 10 ^ (- e)) as Hp by (apply Z.pow_pos_nonneg; lia).
      pose proof (inject_Z_ne _ Hp).
      rewrite frac_value by (apply Z.mul_pos_pos; done).
      rewrite (proj2 (Z.leb_gt _ _)) by done.
      change (Qmake 1 (Z.to_pos (10 ^ (- e)))) with (frac (1, 10 ^ (- e))).
      rewrite frac_value by done. rewrite inject_Z_mult. by field.
Qed.

Lemma binary_index_ge suffix : -1 ≤ binary_index suffix.
Proof. unfold binary_index. repeat case_match; lia. Qed.

Lemma rational_sound value p : rational value = Ok p → denotes value (frac p).
Proof.
  intros H. assert (js_length value ≤ 128) as Hlen.
  { unfold rational in H. split_if_in H; [done|]. by apply Z.ltb_ge. }
  assert (∃ num suffix, captures quantity_number quantity_suffix value = Some (num, suffix))
    as (num & suffix & Hc).
  { unfold rational in H. split_if_in H; [done|].
    destruct (captures _ _ _) as [[? ?]|]; [eauto|done]. }
  apply captures_Some in Hc as (-> & (plus & w & f & dot & E & Hw & Hf & Hdot & Hne)%quantity_number_inv & Hs).
  assert (chars (num +:+ suffix) = (if plus then ["+"%char] else []) ++ w ++
            (if dot then "."%char :: f else []) ++ chars suffix) as Hv.
  { rewrite chars_app, E. by rewrite <- !(assoc (++)). }
  rewrite (rational_parts plus w f dot suffix) in H by done. cbv zeta in H.
  assert (0 < 10 ^ Z.of_nat (length f)) as Hden by (apply Z.pow_pos_nonneg; lia).
  destruct (scale_of suffix) as [sc|] eqn:Hsc; [|done].
  pose proof (scale_frac (dec_val (w ++ f)) _ sc Hden) as Hq.
  split; [done|]. exists plus, w, f, dot, suffix, sc. split_and!; try done;
    destruct sc as [k|e]; try done.
  - simpl. split_if_in H; [done|]. by apply Z.leb_le, Z.ltb_ge.
  - injection H as <-. apply Hq. unfold scale_of in Hsc.
    destruct (Z.leb_spec 0 (binary_index suffix)).
    + simplify_eq. lia.
    + destruct (decimal_exponent suffix); done.
  - split_if_in H; [done|]. rewrite <- Hq.
    by destruct (0 <=? e); injection H as <-.
Qed.

Lemma rational_complete value q :
  denotes value q → ∃ p, rational value = Ok p ∧ (frac p == q)%Q.
Proof.
  intros (Hlen & plus & w & f & dot & suffix & sc & Hv & Hw & Hf & Hdot & Hne & Hs & Hsc & Hok & Hq).
  rewrite (rational_parts plus w f dot suffix) by done. cbv zeta. rewrite Hsc.
  assert (0 < 10 ^ Z.of_nat (length f)) as Hden by (apply Z.pow_pos_nonneg; lia).
  pose proof (scale_frac (dec_val (w ++ f)) _ sc Hden) as Hf'.
  destruct sc as [k|e].
  - eexists. split; [done|]. rewrite Hq. apply Hf'.
    unfold scale_of in Hsc. destruct (Z.leb_spec 0 (binary_index suffix)).
    + simplify_eq. lia.
    + destruct (decimal_exponent suffix); done.
  - simpl in Hok. boolify. rewrite (proj2 (Z.ltb_ge _ _)) by done.
    exists (if 0 <=? e then (dec_val (w ++ f) * 10 ^ e, 10 ^ Z.of_nat (length f))
            else (dec_val (w ++ f), 10 ^ Z.of_nat (length f) * 10 ^ (- e))).
    split; [by destruct (0 <=? e)|]. by rewrite Hq.
Qed.

Lemma denotes_unique value q1 q2 : denotes value q1 → denotes value q2 → (q1 == q2)%Q.
Proof.
  intros (p1 & H1 & E1)%rational_complete (p2 & H2 & E2)%rational_complete.
  rewrite <- E1, <- E2. congruence.
Qed.

Lemma rational_throws value e :
  rational value = Throw e → e = invalid_quantity ∧ ∀ q, ¬ denotes value q.
Proof.
  intros H. split.
  - unfold rational in H. repeat (case_match; simplify_eq/=); done.
  - intros q (p & Hp & _)%rational_complete. congruence.
Qed.

(** Comparing two fractions by cross multiplication. *)
Lemma frac_lt a ad r rd :
  0 < ad → 0 < rd → (frac (r, rd) < frac (a, ad))%Q ↔ r * ad < a * rd.
Proof. intros Ha Hr. unfold frac, Qlt. simpl. rewrite !Z2Pos.id by done. done. Qed.

Lemma frac_le a ad r rd :
  0 < ad → 0 < rd → (frac (a, ad) <= frac (r, rd))%Q ↔ a * rd ≤ r * ad.
Proof. intros Ha Hr. unfold frac, Qle. simpl. rewrite !Z2Pos.id by done. done. Qed.

Lemma rational_nonneg value n d : rational value = Ok (n, d) → 0 ≤ n.
Proof.
  intros H. pose proof (rational_pos _ _ _ H) as Hd.
  apply rational_sound in H as (_ & plus & w & f & dot & suffix & sc & _ & Hw & Hf & _ & _ & _ & _ & _ & Hq).
  assert (0 <= scale_value sc)%Q as Hsc.
  { destruct sc as [k|e]; simpl; [|case_match];
      try (rewrite <- (Zle_Qle 0); apply Z.pow_nonneg; lia). done. }
  assert (0 <= inject_Z (dec_val (w ++ f)))%Q as Hv.
  { rewrite <- (Zle_Qle 0). apply dec_val_bounds, digits_app. done. }
  assert (0 <= frac (n, d))%Q as Hfr.
  { rewrite Hq. apply Qmult_le_0_compat; [|done].
    apply Qmult_le_0_compat; [done|]. apply Qinv_le_0_compat.
    rewrite <- (Zle_Qle 0). apply Z.pow_nonneg. lia. }
  unfold frac, Qle in Hfr. simpl in Hfr. lia.
Qed.

(** ** Platform units

    The code writes reservations as a decimal number followed by a unit. *)
Lemma quantity_suffix_unit c :
  c ∈ chars "numkMGTPE" → lang quantity_suffix [c].
Proof.
  intros Hc. apply lang_opt. right. apply lang_alt_inv. right.
  apply lang_alt_inv. left. apply lang_chr_inv. exists c. split; [done|].
  by apply one_of_spec.
Qed.

Lemma quantity_suffix_binary c :
  c ∈ chars "KMGTPE" → lang quantity_suffix [c; "i"%char].
Proof.
  intros Hc. apply lang_opt. right. apply lang_alt_inv. right.
  apply lang_alt_inv. right. apply lang_seq_inv. exists [c], ["i"%char].
  split; [done|]. split; [|by apply lang_lit].
  apply lang_chr_inv. exists c. split; [done|]. by apply one_of_spec.
Qed.

Lemma rational_printed n suffix :
  0 ≤ n < 2 ^ 63 → (String.length suffix ≤ 2)%nat → lang quantity_suffix (chars suffix) →
  rational (dec_str n +:+ suffix) =
    match scale_of suffix with
    | Some (SBinary k) => Ok (n * 1024 ^ k, 1)
    | Some (SDecimal e) =>
        if 128 <? Z.abs e then Throw invalid_quantity
        else if 0 <=? e then Ok (n * 10 ^ e, 1)
        else Ok (n, 1 * 10 ^ (- e))
    | None => Throw invalid_quantity
    end.
Proof.
  intros Hn Hl Hs.
  rewrite (rational_parts false (chars (dec_str n)) [] false suffix).
  - cbv zeta. rewrite app_nil_r, dec_val_str by lia. done.
  - rewrite js_length_chars, chars_app, length_app.
    pose proof (dec_str_length n Hn). pose proof (js_length_chars suffix) as E.
    unfold js_length in E. lia.
  - simpl. by rewrite chars_app.
  - apply dec_str_digits. lia.
  - constructor.
  - done.
  - left. apply dec_str_ne. lia.
  - done.
Qed.

Lemma rational_Gi n : 0 ≤ n < 2 ^ 63 → rational (dec_str n +:+ "Gi") = Ok (n * 1024 ^ 3, 1).
Proof. intros. rewrite rational_printed; [done|done|simpl; lia|]. apply quantity_suffix_binary. set_solver. Qed.
Lemma rational_Mi n : 0 ≤ n < 2 ^ 63 → rational (dec_str n +:+ "Mi") = Ok (n * 1024 ^ 2, 1).
Proof. intros. rewrite rational_printed; [done|done|simpl; lia|]. apply quantity_suffix_binary. set_solver. Qed.
Lemma rational_m n : 0 ≤ n < 2 ^ 63 → rational (dec_str n +:+ "m") = Ok (n, 10 ^ 3).
Proof. intros. rewrite rational_printed; [done|done|simpl; lia|]. apply quantity_suffix_unit. set_solver. Qed.

(** The three units of a reservation. *)
Definition platform_unit (u : string) : Prop := u = "Gi"%string ∨ u = "m"%string ∨ u = "Mi"%string.

Lemma platform_rational u :
  platform_unit u →
  ∃ s d, 0 < s ∧ 0 < d ∧ ∀ n, 0 ≤ n < 2 ^ 63 → rational (dec_str n +:+ u) = Ok (n * s, d).
Proof.
  intros [->|[->| ->]].
  - exists (1024 ^ 3), 1. split_and!; [done|done|apply rational_Gi].
  - exists 1, (10 ^ 3). split_and!; [done|done|]. intros n Hn. rewrite Z.mul_1_r. by apply rational_m.
  - exists (1024 ^ 2), 1. split_and!; [done|done|apply rational_Mi].
Qed.

Lemma quantityExceeds_printed u a b :
  platform_unit u → 0 ≤ a < 2 ^ 63 → 0 ≤ b < 2 ^ 63 →
  quantityExceeds (dec_str a +:+ u) (dec_str b +:+ u) = Ok (b <? a).
Proof.
  intros (s & d & Hs & Hd & H)%platform_rational Ha Hb.
  unfold quantityExceeds. rewrite (H a Ha), (H b Hb). cbn.
  f_equal. apply Bool.eq_iff_eq_true. rewrite !Z.ltb_lt.
  rewrite (Z.mul_comm b), (Z.mul_comm a), <- !Z.mul_assoc.
  rewrite !(Z.mul_comm _ d), !(Z.mul_assoc s d).
  symmetry. apply Z.mul_lt_mono_pos_l. by apply Z.mul_pos_pos.
Qed.

Lemma dec_str_1 : dec_str 1 = "1"%string.
Proof. reflexivity. Qed.

Lemma quantityCeil_printed u n :
  platform_unit u → 0 ≤ n ≤ 2147483647 →
  quantityCeil (dec_str n +:+ u) ("1" +:+ u) = Ok n.
Proof.
  intros (s & d & Hs & Hd & H)%platform_rational Hn.
  unfold quantityCeil. rewrite (H n) by lia. rewrite <- dec_str_1, (H 1) by lia.
  cbn. rewrite (proj2 (Z.leb_gt _ _)) by lia. cbn.
  assert ((n * s * d + d * (1 * s) - 1) / (d * (1 * s)) = n) as ->.
  { symmetry. apply Z.div_unique with (d * s - 1); nia. }
  rewrite (proj2 (Z.ltb_ge _ _)) by lia. done.
Qed.

(** ** Properties *)

(** [quantityExceeds] compares the two quantities exactly: when both are
    well formed it answers whether the number the first one denotes is larger
    than the number the second one denotes, and it throws only when one of
    them is not a quantity. *)
Theorem quantityExceeds_correct (actual reserved : string) :
  match quantityExceeds actual reserved with
  | Ok b => ∃ qa qr, denotes actual qa ∧ denotes reserved qr ∧ (b = true ↔ (qr < qa)%Q)
  | Throw e => e = invalid_quantity ∧ ∀ qa qr, ¬ (denotes actual qa ∧ denotes reserved qr)
  end.
Proof.
  unfold quantityExceeds. destruct (rational actual) as [[a ad]|e] eqn:Ha; cbn.
  2: { apply rational_throws in Ha as [-> Ha]. split; [done|]. intros qa qr [? _]. by eapply Ha. }
  destruct (rational reserved) as [[r rd]|e] eqn:Hr; cbn.
  2: { apply rational_throws in Hr as [-> Hr]. split; [done|]. intros qa qr [_ ?]. by eapply Hr. }
  eexists _, _. split; [by apply rational_sound|]. split; [by apply rational_sound|].
  rewrite Z.ltb_lt. symmetry. apply frac_lt; by eapply rational_pos.
Qed.

(** Rounding up: [n] is the least integer with [a/ad <= n * (u/ud)]. *)
Lemma ceil_least a ad u ud :
  0 ≤ a → 0 < ad → 0 < u → 0 < ud →
  let n := (a * ud + ad * u - 1) / (ad * u) in
  0 ≤ n ∧ (∀ m, a * ud ≤ m * (ad * u) ↔ n ≤ m).
Proof.
  intros Ha Had Hu Hud. cbv zeta.
  set (x := a * ud). set (d := ad * u).
  assert (0 ≤ x) by (apply Z.mul_nonneg_nonneg; lia).
  assert (0 < d) by (apply Z.mul_pos_pos; lia).
  split; [apply Z.div_pos; lia|]. intros m. split; intros Hm.
  - apply Z.lt_succ_r, Z.div_lt_upper_bound; nia.
  - pose proof (Z.div_mod (x + d - 1) d ltac:(lia)).
    pose proof (Z.mod_pos_bound (x + d - 1) d ltac:(lia)). nia.
Qed.

(** C20. [quantityCeil actual unit] is the least number of units that covers the
    quantity, it is in the range [0, 2^31 - 1] of the platform, and it throws
    exactly when a quantity is malformed, the unit is zero, or more than
    [2^31 - 1] units would be needed. *)
Theorem quantityCeil_correct (actual unit : string) :
  match quantityCeil actual unit with
  | Ok n => ∃ qa qu, denotes actual qa ∧ denotes unit qu ∧ (0 < qu)%Q ∧
      0 ≤ n ≤ 2147483647 ∧ (∀ m, (qa <= inject_Z m * qu)%Q ↔ n ≤ m)
  | Throw _ => ∀ qa qu, denotes actual qa → denotes unit qu →
      (qu <= 0)%Q ∨ ¬ (qa <= inject_Z 2147483647 * qu)%Q
  end.
Proof.
  unfold quantityCeil. destruct (rational actual) as [[a ad]|e] eqn:Ha; cbn.
  2: { apply rational_throws in Ha as [_ Ha]. intros qa qu H. by apply Ha in H. }
  destruct (rational unit) as [[u ud]|e] eqn:Hu; cbn.
  2: { apply rational_throws in Hu as [_ Hu]. intros qa qu _ H. by apply Hu in H. }
  pose proof (rational_nonneg _ _ _ Ha). pose proof (rational_pos _ _ _ Ha).
  pose proof (rational_pos _ _ _ Hu) as Hud.
  apply rational_sound in Ha, Hu.
  assert (∀ m, (frac (a, ad) <= inject_Z m * frac (u, ud))%Q ↔ a * ud ≤ m * (ad * u)) as Hle.
  { intros m. unfold frac, Qle. simpl. rewrite !Z2Pos.id by done. nia. }
  destruct (Z.leb_spec u 0) as [Hu0|Hu0]; cbn.
  - intros qa qu _ Hq. left. rewrite (denotes_unique _ _ _ Hq Hu).
    unfold frac, Qle. simpl. lia.
  - pose proof (ceil_least a ad u ud ltac:(done) ltac:(done) Hu0 Hud) as [Hn Hm].
    cbv zeta in Hn, Hm. destruct (Z.ltb_spec 2147483647 ((a * ud + ad * u - 1) / (ad * u))) as [Hb|Hb]; cbn.
    + intros qa qu Hqa Hqu. right.
      rewrite (denotes_unique _ _ _ Hqa Ha), (denotes_unique _ _ _ Hqu Hu).
      rewrite Hle, Hm. lia.
    + eexists _, _. split; [exact Ha|]. split; [exact Hu|]. split_and!; try lia.
      * unfold frac, Qlt. simpl. lia.
      * intros m. by rewrite Hle, Hm.
Qed.

(** Round trip with the text the platform writes: a reservation printed
    with its unit is read back as the same number of units, and comparing two
    printed reservations compares the numbers. *)
Theorem printed_quantity_roundtrip (u : string) (a b : Z) :
  platform_unit u → 0 ≤ a ≤ 2147483647 → 0 ≤ b ≤ 2147483647 →
  quantityCeil (dec_str a +:+ u) ("1" +:+ u) = Ok a ∧
  quantityExceeds (dec_str a +:+ u) (dec_str b +:+ u) = Ok (b <? a).
Proof.
  intros Hu Ha Hb. split; [by apply quantityCeil_printed|].
  apply quantityExceeds_printed; [done|lia|lia].
Qed.

Lemma printed_quantity_roundtrip_witness :
  quantityCeil "20Gi" "1Gi" = Ok 20 ∧ quantityExceeds "20Gi" "7Gi" = Ok true.
Proof.
  exact (printed_quantity_roundtrip "Gi" 20 7 (or_introl eq_refl)
    (conj (Zle_bool_imp_le 0 20 eq_refl) (Zle_bool_imp_le 20 2147483647 eq_refl))
    (conj (Zle_bool_imp_le 0 7 eq_refl) (Zle_bool_imp_le 7 2147483647 eq_refl))).
Defined.
