(* ===== verification/Catalog.v ===== *)
(** * Templates and instance inputs

    [apps/admin-api/src/template-catalog.ts] and
    [apps/admin-api/src/client-profiles.ts]: the schema of an instance request,
    the table of engine templates, and the queries on it.

    A request body is a JSON value.  A schema is a partial function from JSON
    to the typed value it produces, trimming and defaults applied; the error
    details of the schema library are not modelled, only that it rejects. *)
From Stdlib Require Import ZArith Lia Ascii.
From stdpp Require Import base tactics list option strings numbers sets.
From S2P Require Import Prelude Regex Numbers Effects.

(** ** JSON *)

(** A number is an integer, or the quotient [n / d] with a fractional part.  An
    object lists its fields, each key once. *)
#[warnings="-register-all"]
Inductive json :=
  | JNull
  | JBool (b : bool)
  | JInt (z : Z)
  | JFrac (n d : Z)
  | JStr (s : string)
  | JArr (l : list json)
  | JObj (fields : list (string * json)).

(** A value that may be null. *)
Definition json_nullable {A} (f : A → json) (o : option A) : json :=
  match o with Some a => f a | None => JNull end.

Fixpoint field (key : string) (fields : list (string * json)) : option json :=
  match fields with
  | [] => None
  | (k, v) :: fields => if String.eqb k key then Some v else field key fields
  end.

(** ** Schema combinators *)

(** [z.number().int().min(lo).max(hi)] *)
Definition z_int (lo hi : Z) (j : json) : option Z :=
  match j with
  | JInt z => if (lo <=? z) && (z <=? hi) then Some z else None
  | _ => None
  end.
(** [z.boolean()], [z.literal(0)], [z.string()] *)
Definition z_bool (j : json) : option bool :=
  match j with JBool b => Some b | _ => None end.
Definition z_zero (j : json) : option Z :=
  match j with JInt 0 => Some 0 | _ => None end.
Definition z_string (j : json) : option string :=
  match j with JStr s => Some s | _ => None end.
(** [z.enum([...])] over the members of a type. *)
Definition z_enum {A} (members : list A) (show : A → string) (j : json) : option A :=
  s ← z_string j; list_find (λ a, show a = s) members ≫= λ '(_, a), Some a.
(** A required field, and a field with [.default(d)]. *)
Definition required {A} (p : json → option A) (o : option json) : option A := o ≫= p.
Definition defaulted {A} (d : A) (p : json → option A) (o : option json) : option A :=
  match o with None => Some d | Some j => p j end.
(** [.strict()]: every key of the object is one of the schema's. *)
Definition only_keys (keys : list string) (fields : list (string * json)) : bool :=
  forallb (λ '(k, _), includes keys k) fields.

(** [s.trim()] *)
Definition is_space (c : ascii) : bool :=
  let n := nat_of_ascii c in
  ((9 <=? n) && (n <=? 13) || (n =? 32) || (n =? 160))%nat.
Fixpoint trim_start (l : list ascii) : list ascii :=
  match l with c :: t => if is_space c then trim_start t else l | [] => [] end.
Definition trim (s : string) : string :=
  of_chars (reverse (trim_start (reverse (trim_start (chars s))))).

(** [z.string().trim().min(lo).max(hi)] *)
Definition z_trimmed (lo hi : Z) (j : json) : option string :=
  s ← z_string j;
  let t := trim s in
  if (lo <=? js_length t) && (js_length t <=? hi) then Some t else None.

(** ** Instance inputs *)
Inductive Template := BazelRemote | WebdavApache | GradleHttp | TurborepoHttp | NxHttp | GoCacheprog.
Inductive Exposure := ClusterInternal | Gateway.
Inductive DesiredState := Running | Suspended.
Inductive DeletionPolicy := Retain | Delete.

#[export] Instance Template_eq_dec : EqDecision Template.
Proof. solve_decision. Defined.
#[export] Instance Exposure_eq_dec : EqDecision Exposure.
Proof. solve_decision. Defined.
#[export] Instance DesiredState_eq_dec : EqDecision DesiredState.
Proof. solve_decision. Defined.
#[export] Instance DeletionPolicy_eq_dec : EqDecision DeletionPolicy.
Proof. solve_decision. Defined.

Definition template_str (t : Template) : string :=
  match t with
  | BazelRemote => "bazel-remote" | WebdavApache => "webdav-apache"
  | GradleHttp => "gradle-http" | TurborepoHttp => "turborepo-http"
  | NxHttp => "nx-http" | GoCacheprog => "go-cacheprog"
  end.
Definition all_templates : list Template :=
  [BazelRemote; WebdavApache; GradleHttp; TurborepoHttp; NxHttp; GoCacheprog].
Definition exposure_str (e : Exposure) : string :=
  match e with ClusterInternal => "ClusterInternal" | Gateway => "Gateway" end.
Definition desiredState_str (d : DesiredState) : string :=
  match d with Running => "Running" | Suspended => "Suspended" end.
Definition deletionPolicy_str (d : DeletionPolicy) : string :=
  match d with Retain => "Retain" | Delete => "Delete" end.

Record Common := MkCommon {
  c_name : string; c_storageGiB : Z; c_cpuMillis : Z; c_memoryMiB : Z;
  c_exposure : Exposure; c_desiredState : DesiredState; c_deletionPolicy : DeletionPolicy }.

(** [readOnly] is a field of the Go schema only. *)
Record InstanceInput := MkInput {
  in_template : Template; in_name : string; in_storageGiB : Z; in_cpuMillis : Z;
  in_memoryMiB : Z; in_exposure : Exposure; in_desiredState : DesiredState;
  in_deletionPolicy : DeletionPolicy; in_cacheGiB : Z; in_readOnly : option bool }.

#[export] Instance InstanceInput_eq_dec : EqDecision InstanceInput.
Proof. solve_decision. Defined.

Definition common_keys : list string :=
  ["name"; "storageGiB"; "cpuMillis"; "memoryMiB"; "exposure"; "desiredState"; "deletionPolicy"].

Definition commonInput (fs : list (string * json)) : option Common :=
  name ← required (z_trimmed 1 100) (field "name" fs);
  storageGiB ← required (z_int 2 1048576) (field "storageGiB" fs);
  cpuMillis ← defaulted 500 (z_int 100 64000) (field "cpuMillis" fs);
  memoryMiB ← defaulted 512 (z_int 128 262144) (field "memoryMiB" fs);
  exposure ← defaulted ClusterInternal (z_enum [ClusterInternal; Gateway] exposure_str) (field "exposure" fs);
  desiredState ← defaulted Running (z_enum [Running; Suspended] desiredState_str) (field "desiredState" fs);
  deletionPolicy ← defaulted Retain (z_enum [Retain; Delete] deletionPolicy_str) (field "deletionPolicy" fs);
  Some (MkCommon name storageGiB cpuMillis memoryMiB exposure desiredState deletionPolicy).

(** [commonInput.extend({ template, cacheGiB, ...extra })], the object being
    strict; [mk] assembles the typed value. *)
Definition extended (extra : list string) (template : option json → option Template)
    (cacheGiB : json → option Z) (readOnly : option json → option (option bool))
    (j : json) : option InstanceInput :=
  match j with
  | JObj fs =>
      if only_keys (common_keys ++ ["template"; "cacheGiB"] ++ extra) fs then
        c ← commonInput fs;
        t ← template (field "template" fs);
        cache ← required cacheGiB (field "cacheGiB" fs);
        ro ← readOnly (field "readOnly" fs);
        Some (MkInput t (c_name c) (c_storageGiB c) (c_cpuMillis c) (c_memoryMiB c)
                (c_exposure c) (c_desiredState c) (c_deletionPolicy c) cache ro)
      else None
  | _ => None
  end.

Definition z_template (t : Template) : json → option Template := z_enum [t] template_str.
Definition no_readOnly (_ : option json) : option (option bool) := Some None.
(** [.refine(x => x.cacheGiB < x.storageGiB)] *)
Definition leaves_space (o : option InstanceInput) : option InstanceInput :=
  i ← o; if in_cacheGiB i <? in_storageGiB i then Some i else None.

Definition bazelInput (j : json) : option InstanceInput :=
  leaves_space (extended [] (defaulted BazelRemote (z_template BazelRemote)) (z_int 1 1048575) no_readOnly j).
Definition webdavInput (j : json) : option InstanceInput :=
  extended [] (required (z_template WebdavApache)) z_zero no_readOnly j.
Definition gradleInput (j : json) : option InstanceInput :=
  leaves_space (extended [] (required (z_template GradleHttp)) (z_int 1 1048575) no_readOnly j).
Definition turborepoInput (j : json) : option InstanceInput :=
  leaves_space (extended [] (required (z_template TurborepoHttp)) (z_int 1 1048575) no_readOnly j).
Definition nxInput (j : json) : option InstanceInput :=
  leaves_space (extended [] (required (z_template NxHttp)) (z_int 1 1048575) no_readOnly j).
Definition goCacheInput (j : json) : option InstanceInput :=
  leaves_space (extended ["readOnly"] (required (z_template GoCacheprog)) (z_int 1 1048575)
    (λ o, Some <$> defaulted true z_bool o) j).

(** The schema of each template. *)
Definition schema (t : Template) : json → option InstanceInput :=
  match t with
  | BazelRemote => bazelInput | WebdavApache => webdavInput | GradleHttp => gradleInput
  | TurborepoHttp => turborepoInput | NxHttp => nxInput | GoCacheprog => goCacheInput
  end.

(** [z.union([...])]: the first schema that accepts. *)
Definition z_union {A} (ps : list (json → option A)) (j : json) : option A :=
  foldr (λ p acc, match p j with Some a => Some a | None => acc end) None ps.
Definition instanceInput (j : json) : option InstanceInput :=
  z_union [bazelInput; webdavInput; gradleInput; turborepoInput; nxInput; goCacheInput] j.

(** ** The template table *)
Record Capabilities := MkCapabilities {
  cap_capacity : bool; cap_statistics : bool; cap_lookupHistory : bool; cap_lru : bool;
  cap_ttl : bool; cap_replicas : Z; cap_policyApplyMode : string; cap_policyCondition : string }.

#[export] Instance Capabilities_eq_dec : EqDecision Capabilities.
Proof. solve_decision. Defined.

Record TemplateOptions := MkOptions {
  webdavEnabled : bool; gradleEnabled : bool; turborepoEnabled : bool; nxEnabled : bool;
  goCacheEnabled : bool; gatewayEnabled : bool }.

Record TemplateDef := MkTemplate {
  t_name : string; t_version : string; t_enginePolicy : string; t_protocols : list string;
  t_input : Template; t_capabilities : Capabilities; t_enabled : TemplateOptions → bool }.

Definition templates : list TemplateDef := [
  MkTemplate "bazel-remote" "0.1.0" "lru" ["reapi"; "bazel-http"] BazelRemote
    (MkCapabilities true true true true false 1 "restart" "PolicyApplied") (λ _, true);
  MkTemplate "webdav-apache" "0.2.0" "none" ["webdav"; "http"] WebdavApache
    (MkCapabilities false true false false false 1 "unsupported" "PolicyApplied") webdavEnabled;
  MkTemplate "webdav-apache" "0.1.0" "none" ["webdav"; "http"] WebdavApache
    (MkCapabilities false false false false false 1 "unsupported" "PolicyApplied") (λ _, false);
  MkTemplate "gradle-http" "0.2.0" "lru" ["gradle-http"] GradleHttp
    (MkCapabilities true true false true false 1 "restart" "PolicyApplied") gradleEnabled;
  MkTemplate "gradle-http" "0.1.0" "lru" ["gradle-http"] GradleHttp
    (MkCapabilities true true false true false 1 "restart" "PolicyApplied") (λ _, false);
  MkTemplate "turborepo-http" "0.1.0" "lru" ["turborepo-http"] TurborepoHttp
    (MkCapabilities true false false true false 1 "restart" "PolicyApplied") turborepoEnabled;
  MkTemplate "nx-http" "0.1.0" "lru" ["nx-http"] NxHttp
    (MkCapabilities true false false true false 1 "restart" "PolicyApplied") nxEnabled;
  MkTemplate "go-cacheprog" "0.1.0" "lru" ["go-cacheprog"] GoCacheprog
    (MkCapabilities true false false true false 1 "restart" "PolicyApplied") goCacheEnabled ].

(** [xs.find(p)] *)
Definition js_find {A} (p : A → bool) (l : list A) : option A := head (filter (λ x, p x = true) l).

Definition templateDefinition (name : string) (version : option string) : res TemplateDef :=
  of_option (JsError "Unsupported template or version")
    (js_find (λ t, String.eqb (t_name t) name &&
                   match version with None => true | Some v => String.eqb (t_version t) v end)
       templates).

Definition templateEnabled (name : string) (options : TemplateOptions) : res bool :=
  t ← templateDefinition name None; mret (t_enabled t options).

Record ClientProfile := MkProfile {
  p_id : string; p_protocol : string; p_version : string; p_status : string }.

(** [version] may be undefined or null. *)
Definition clientProfiles (name : string) (version : option string) : list ClientProfile :=
  let tv n v := String.eqb name n && oeq version (Some v) in
  if tv "bazel-remote" "0.1.0" then
    [MkProfile "pants" "reapi" "2.33.1" "experimental";
     MkProfile "moonrepo" "reapi" "2.5.6" "experimental"]
  else if String.eqb name "webdav-apache" && includes ["0.1.0"; "0.2.0"] (nullish version "") then
    [MkProfile "sccache" "webdav" "0.18.0" "experimental";
     MkProfile "maven-build-cache" "webdav" "1.3.0" "experimental"]
  else if tv "turborepo-http" "0.1.0" then
    [MkProfile "turborepo" "turborepo-http" "2.11.7" "experimental"]
  else if tv "nx-http" "0.1.0" then [MkProfile "nx" "nx-http" "22.7.12" "experimental"]
  else if tv "go-cacheprog" "0.1.0" then
    [MkProfile "go-cacheprog" "go-cacheprog" "1.3.0" "experimental"]
  else [].

(** The items of [templateCatalog]; the JSON schema of an item is produced by
    the schema library from [ci_input]. *)
Record CatalogItem := MkItem {
  ci_name : string; ci_version : string; ci_exposures : list string;
  ci_clientProfiles : list ClientProfile; ci_protocols : list string;
  ci_capabilities : Capabilities; ci_input : Template }.

Definition templateCatalog (options : TemplateOptions) : list CatalogItem :=
  map (λ t, MkItem (t_name t) (t_version t)
              (if gatewayEnabled options then ["ClusterInternal"; "Gateway"] else ["ClusterInternal"])
              (clientProfiles (t_name t) (Some (t_version t)))
              (t_protocols t) (t_capabilities t) (t_input t))
    (filter (λ t, t_enabled t options = true) templates).

Definition instanceCapabilities (name : string) (version : option string) : option Capabilities :=
  if negb (truthy version) then None
  else t_capabilities <$>
    js_find (λ t, String.eqb (t_name t) name && oeq (Some (t_version t)) version) templates.

(** ** What an accepted input satisfies *)
Definition valid_cache (t : Template) (cache storage : Z) : Prop :=
  match t with
  | WebdavApache => cache = 0
  | _ => 1 ≤ cache ≤ 1048575 ∧ cache < storage
  end.
Definition valid_readOnly (t : Template) (ro : option bool) : Prop :=
  match t with GoCacheprog => is_Some ro | _ => ro = None end.
Definition valid_input (i : InstanceInput) : Prop :=
  (trim (in_name i) = in_name i ∧ 1 ≤ js_length (in_name i) ≤ 100) ∧
  2 ≤ in_storageGiB i ≤ 1048576 ∧ 100 ≤ in_cpuMillis i ≤ 64000 ∧
  128 ≤ in_memoryMiB i ≤ 262144 ∧
  valid_cache (in_template i) (in_cacheGiB i) (in_storageGiB i) ∧
  valid_readOnly (in_template i) (in_readOnly i).

(** The request body that asks for an input. *)
Definition to_json (i : InstanceInput) : json :=
  JObj ([("name", JStr (in_name i)); ("storageGiB", JInt (in_storageGiB i));
         ("cpuMillis", JInt (in_cpuMillis i)); ("memoryMiB", JInt (in_memoryMiB i));
         ("exposure", JStr (exposure_str (in_exposure i)));
         ("desiredState", JStr (desiredState_str (in_desiredState i)));
         ("deletionPolicy", JStr (deletionPolicy_str (in_deletionPolicy i)));
         ("template", JStr (template_str (in_template i)));
         ("cacheGiB", JInt (in_cacheGiB i))] ++
        match in_readOnly i with Some b => [("readOnly", JBool b)] | None => [] end)%list.

(** ** Lemmas *)
Lemma trim_start_app l : ∃ k, l = k ++ trim_start l.
Proof.
  induction l as [|c l [k IH]]; simpl; [by exists []|].
  destruct (is_space c); [|by exists []]. exists (c :: k). simpl. congruence.
Qed.

Lemma trim_start_head l : match trim_start l with c :: _ => is_space c = false | [] => True end.
Proof. induction l as [|c l IH]; simpl; [done|]. by destruct (is_space c) eqn:E. Qed.

Lemma trim_start_id l :
  match l with c :: _ => is_space c = false | [] => True end → trim_start l = l.
Proof. destruct l as [|c l]; simpl; [done|]. by intros ->. Qed.

Lemma trim_idemp s : trim (trim s) = trim s.
Proof.
  unfold trim. rewrite chars_of_chars. f_equal.
  set (l := trim_start (chars s)).
  destruct (trim_start_app (reverse l)) as [k Hk].
  set (m := trim_start (reverse l)) in *.
  assert (trim_start (reverse m) = reverse m) as E.
  { apply trim_start_id. assert (l = reverse m ++ reverse k) as El.
    { rewrite <- reverse_app, <- Hk. by rewrite reverse_involutive. }
    pose proof (trim_start_head (chars s)) as Hh. fold l in Hh.
    destruct (reverse m) as [|c m'] eqn:Em; [done|]. by rewrite El in Hh. }
  rewrite E, reverse_involutive. f_equal. apply trim_start_id, trim_start_head.
Qed.

Lemma z_int_Some lo hi j z : z_int lo hi j = Some z ↔ j = JInt z ∧ lo ≤ z ≤ hi.
Proof.
  destruct j; simpl; try naive_solver.
  destruct ((lo <=? z0) && (z0 <=? hi)) eqn:E; boolify.
  - naive_solver.
  - apply andb_false_iff in E. naive_solver lia.
Qed.

Lemma z_enum_show {A} (members : list A) (show : A → string) a j :
  z_enum members show j = Some a → j = JStr (show a) ∧ a ∈ members.
Proof.
  unfold z_enum. destruct j; simpl; try done.
  destruct (list_find _ members) as [[n b]|] eqn:E; simpl; [|done].
  intros [= ->]. apply list_find_Some in E as (Hb & <- & _).
  split; [done|]. by eapply list_elem_of_lookup_2.
Qed.

Lemma z_trimmed_Some lo hi j s :
  z_trimmed lo hi j = Some s → trim s = s ∧ lo ≤ js_length s ≤ hi.
Proof.
  unfold z_trimmed. destruct j; simpl; try done.
  destruct (_ && _) eqn:E; [|done]. intros [= <-]. boolify.
  split; [apply trim_idemp|done].
Qed.

(** Take an optional computation that returned apart. *)
Ltac option_inv :=
  repeat match goal with
  | H : (_ ≫= _) = Some _ |- _ => apply bind_Some in H as (? & ? & ?)
  | H : Some _ = Some _ |- _ => injection H as ?; subst
  | H : None = Some _ |- _ => discriminate H
  end.

Lemma defaulted_int d lo hi o z :
  lo ≤ d ≤ hi → defaulted d (z_int lo hi) o = Some z → lo ≤ z ≤ hi.
Proof. destruct o; simpl; [|by intros ? [= <-]]. by intros _ [_ ?]%z_int_Some. Qed.

Lemma commonInput_valid fs c :
  commonInput fs = Some c →
  (trim (c_name c) = c_name c ∧ 1 ≤ js_length (c_name c) ≤ 100) ∧
  2 ≤ c_storageGiB c ≤ 1048576 ∧ 100 ≤ c_cpuMillis c ≤ 64000 ∧
  128 ≤ c_memoryMiB c ≤ 262144.
Proof.
  unfold commonInput. intros H. option_inv. simpl. unfold required in *. option_inv.
  repeat match goal with
  | H : z_trimmed _ _ _ = _ |- _ => apply z_trimmed_Some in H
  | H : z_int _ _ _ = _ |- _ => apply z_int_Some in H as [_ H]
  | H : defaulted _ (z_int _ _) _ = _ |- _ => apply defaulted_int in H; [|lia]
  end. done.
Qed.

Lemma extended_valid extra template cacheGiB readOnly j i :
  extended extra template cacheGiB readOnly j = Some i →
  (∃ o, template o = Some (in_template i)) ∧ (∃ j, cacheGiB j = Some (in_cacheGiB i)) ∧
  (∃ o, readOnly o = Some (in_readOnly i)) ∧
  (trim (in_name i) = in_name i ∧ 1 ≤ js_length (in_name i) ≤ 100) ∧
  2 ≤ in_storageGiB i ≤ 1048576 ∧ 100 ≤ in_cpuMillis i ≤ 64000 ∧
  128 ≤ in_memoryMiB i ≤ 262144.
Proof.
  destruct j; simpl; try done. split_if E; [|done]. clear E. intros H. option_inv.
  unfold required in *. option_inv. simpl.
  match goal with H : commonInput _ = _ |- _ => apply commonInput_valid in H end.
  split_and!; eauto; tauto.
Qed.

Lemma leaves_space_Some o i :
  leaves_space o = Some i ↔ o = Some i ∧ in_cacheGiB i < in_storageGiB i.
Proof.
  destruct o as [k|]; simpl; [|naive_solver].
  destruct (Z.ltb_spec (in_cacheGiB k) (in_storageGiB k)); naive_solver lia.
Qed.

Lemma z_template_Some t j t' : z_template t j = Some t' → t' = t.
Proof. intros [_ H]%z_enum_show. by apply list_elem_of_singleton in H. Qed.

Lemma template_field_Some (b : bool) t o t' :
  (if b then defaulted t else required) (z_template t) o = Some t' → t' = t.
Proof.
  destruct b, o; simpl; try done; [apply z_template_Some|congruence|apply z_template_Some].
Qed.

Lemma schema_valid t j i : schema t j = Some i → valid_input i ∧ in_template i = t.
Proof.
  intros H. assert (in_template i = t ∧ valid_cache t (in_cacheGiB i) (in_storageGiB i) ∧
    valid_readOnly t (in_readOnly i) ∧ (trim (in_name i) = in_name i ∧ 1 ≤ js_length (in_name i) ≤ 100) ∧
    2 ≤ in_storageGiB i ≤ 1048576 ∧ 100 ≤ in_cpuMillis i ≤ 64000 ∧
    128 ≤ in_memoryMiB i ≤ 262144) as (E & Hc & Hr & Hn & Hs & Hcpu & Hm).
  2: { unfold valid_input. by rewrite E. }
  destruct t; simpl in H;
    try (apply leaves_space_Some in H as [H Hlt]);
    apply extended_valid in H as ((ot & Ht) & (oj & Hj) & (or & Hr) & Hn & Hrest);
    (apply (template_field_Some true) in Ht || apply (template_field_Some false) in Ht);
    rewrite Ht; (split; [done|]); simpl.
  all: try (apply z_int_Some in Hj as [_ Hj]).
  all: try (unfold no_readOnly in Hr; injection Hr as Hr).
  all: split_and!; try done; try tauto; try lia.
  - destruct oj as [| |[]| | | |]; simplify_eq/=. done.
  - destruct (defaulted true z_bool or); simplify_eq/=. by eexists.
Qed.

Lemma z_union_Some {A} (ps : list (json → option A)) j a :
  z_union ps j = Some a → ∃ p, p ∈ ps ∧ p j = Some a.
Proof.
  induction ps as [|p ps IH]; simpl; [done|].
  destruct (p j) eqn:E; intros H; simplify_eq.
  - exists p. set_solver.
  - destruct (IH H) as (p' & ? & ?). exists p'. set_solver.
Qed.

Lemma instanceInput_schema j :
  instanceInput j = z_union (map schema all_templates) j.
Proof. done. Qed.

Lemma instanceInput_Some j i :
  instanceInput j = Some i → schema (in_template i) j = Some i ∧ valid_input i.
Proof.
  rewrite instanceInput_schema. intros (p & Hp & H)%z_union_Some.
  apply list_elem_of_fmap in Hp as (t & -> & _).
  destruct (schema_valid t j i H) as [? ->]. done.
Qed.

Lemma template_str_inj t t' : template_str t = template_str t' → t = t'.
Proof. destruct t, t'; done. Qed.

(** The template a body names decides the schema that can accept it. *)
Definition body_template (t : Template) (j : json) : Prop :=
  ∃ fs, j = JObj fs ∧ (field "template" fs = Some (JStr (template_str t)) ∨
                       t = BazelRemote ∧ field "template" fs = None).

Lemma extended_template extra template cacheGiB readOnly j i :
  extended extra template cacheGiB readOnly j = Some i →
  ∃ fs, j = JObj fs ∧ template (field "template" fs) = Some (in_template i).
Proof.
  destruct j; simpl; try done. split_if E; [|done]. intros H. option_inv. eauto.
Qed.

Lemma schema_body t j i : schema t j = Some i → body_template t j.
Proof.
  intros H. destruct (schema_valid t j i H) as [_ Ht].
  destruct t; simpl in H;
    try (apply leaves_space_Some in H as [H _]);
    apply extended_template in H as (fs & -> & H); exists fs; split; try done;
    destruct (field "template" fs) as [v|]; simpl in H; try done; auto;
    left; rewrite Ht in H; apply z_enum_show in H as [-> _]; done.
Qed.

Lemma body_template_unique t t' j : body_template t j → body_template t' j → t = t'.
Proof.
  intros (fs & -> & H) (fs' & [= <-] & H').
  destruct H as [H|[-> H]], H' as [H'|[-> H']]; try congruence.
  apply template_str_inj. congruence.
Qed.

Lemma z_union_unique {A} (ps : list (json → option A)) p j a :
  p ∈ ps → p j = Some a → (∀ q b, q ∈ ps → q j = Some b → b = a) →
  z_union ps j = Some a.
Proof.
  intros Hp Ha Hu. induction ps as [|q ps IH]; [by apply not_elem_of_nil in Hp|].
  simpl. destruct (q j) as [b|] eqn:E; [f_equal; eapply Hu; [|done]; set_solver|].
  apply elem_of_cons in Hp as [->|Hp]; [congruence|].
  apply IH; [done|]. intros q' b ? ?. eapply Hu; [|done]. set_solver.
Qed.

Lemma instanceInput_complete j i :
  schema (in_template i) j = Some i → instanceInput j = Some i.
Proof.
  intros H. rewrite instanceInput_schema. eapply z_union_unique; [|done|].
  - apply list_elem_of_fmap. eexists. split; [done|]. destruct (in_template i); set_solver.
  - intros q b (t & -> & _)%list_elem_of_fmap Hb.
    rewrite (body_template_unique t (in_template i) j) in Hb; [congruence| |];
      by eapply schema_body.
Qed.

Lemma z_int_in lo hi z : lo ≤ z ≤ hi → z_int lo hi (JInt z) = Some z.
Proof. intros. by apply z_int_Some. Qed.

Lemma z_trimmed_in lo hi s :
  trim s = s → lo ≤ js_length s ≤ hi → z_trimmed lo hi (JStr s) = Some s.
Proof.
  intros E ?. unfold z_trimmed. simpl. rewrite E.
  by rewrite (proj2 (Z.leb_le _ _)), (proj2 (Z.leb_le _ _)) by lia.
Qed.

Lemma commonInput_to_json i fs :
  valid_input i → to_json i = JObj fs →
  commonInput fs = Some (MkCommon (in_name i) (in_storageGiB i) (in_cpuMillis i)
    (in_memoryMiB i) (in_exposure i) (in_desiredState i) (in_deletionPolicy i)).
Proof.
  intros ((Htrim & Hlen) & Hs & Hc & Hm & _) [= <-].
  unfold commonInput, required, defaulted. cbn -[z_int z_trimmed z_enum].
  rewrite z_trimmed_in, !z_int_in by done. cbn -[z_enum].
  by destruct (in_exposure i), (in_desiredState i), (in_deletionPolicy i).
Qed.

Lemma schema_to_json i : valid_input i → schema (in_template i) (to_json i) = Some i.
Proof.
  intros Hv. pose proof (commonInput_to_json i _ Hv eq_refl) as Hcom.
  destruct Hv as (_ & Hs & _ & _ & Hcache & Hro).
  destruct i as [t n s c m e d p cg ro]. simpl in *.
  assert (cg < s → leaves_space (Some (MkInput t n s c m e d p cg ro)) =
                   Some (MkInput t n s c m e d p cg ro)) as Hsp.
  { intros. by apply leaves_space_Some. }
  destruct t; simpl in Hro, Hcache; subst.
  all: try (destruct Hro as [b Hb]; subst ro).
  all: cbn -[commonInput] in Hcom; unfold schema, bazelInput, webdavInput, gradleInput, turborepoInput,
    nxInput, goCacheInput, extended, to_json;
    cbn -[commonInput z_int leaves_space]; rewrite Hcom; cbn -[z_int leaves_space].
  all: try (rewrite z_int_in by tauto; cbn -[leaves_space]; apply Hsp; tauto).
  done.
Qed.

(** ** The table *)
Lemma templateCatalog_elem options item :
  item ∈ templateCatalog options ↔
  ∃ t, t ∈ templates ∧ t_enabled t options = true ∧
    item = MkItem (t_name t) (t_version t)
             (if gatewayEnabled options then ["ClusterInternal"; "Gateway"] else ["ClusterInternal"])
             (clientProfiles (t_name t) (Some (t_version t)))
             (t_protocols t) (t_capabilities t) (t_input t).
Proof.
  unfold templateCatalog. rewrite list_elem_of_fmap. setoid_rewrite list_elem_of_filter.
  naive_solver.
Qed.

(** An enabled row is the first one of its name, the one a new instance gets. *)
Lemma template_row options t :
  t ∈ templates → t_enabled t options = true →
  templateDefinition (t_name t) None = Ok t ∧
  instanceCapabilities (t_name t) (Some (t_version t)) = Some (t_capabilities t).
Proof.
  intros Ht. revert t Ht. refine (proj1 (Forall_forall _ _) _).
  destruct options as [[] [] [] [] [] g];
    repeat (apply Forall_cons; split; [intros H; first [done|vm_compute; done]|]);
    apply Forall_nil; done.
Qed.

Lemma js_find_Some {A} (p : A → bool) l x :
  js_find p l = Some x → x ∈ l ∧ p x = true.
Proof.
  unfold js_find. destruct (filter _ l) as [|y k] eqn:E; [done|].
  intros [= ->]. assert (x ∈ filter (λ x, p x = true) l) as H by (rewrite E; set_solver).
  apply list_elem_of_filter in H. tauto.
Qed.

Lemma templateDefinition_Ok name version t :
  templateDefinition name version = Ok t → t ∈ templates ∧ t_name t = name.
Proof.
  unfold templateDefinition. intros (Hin & H)%of_option_Ok%js_find_Some.
  apply andb_true_iff in H as [H%String.eqb_eq _]. done.
Qed.

(** ** Properties *)

(** C21. The instance schema: whatever it accepts is a valid input (trimmed
    name, resources in range, a cache budget that leaves space in the volume,
    no budget for the engine without one, [readOnly] exactly for the Go
    engine), and every valid input is accepted unchanged from the body that
    spells it out. *)
Theorem instanceInput_exact (j : json) (i : InstanceInput) :
  (instanceInput j = Some i → valid_input i) ∧
  (valid_input i → instanceInput (to_json i) = Some i).
Proof.
  split; [by intros [_ ?]%instanceInput_Some|].
  intros ?. by apply instanceInput_complete, schema_to_json.
Qed.

(** The union of the six schemas is unambiguous: at most one of them
    accepts a body, so the result does not depend on their order, and the
    accepted input carries the template of the schema that accepted it. *)
Theorem instanceInput_unambiguous (j : json) (i : InstanceInput) :
  instanceInput j = Some i ↔
  ∃ t, schema t j = Some i ∧ in_template i = t ∧
       ∀ t' i', schema t' j = Some i' → t' = t.
Proof.
  split.
  - intros [H _]%instanceInput_Some. exists (in_template i). split_and!; [done|done|].
    intros t' i' H'. apply (body_template_unique t' (in_template i) j); by eapply schema_body.
  - intros (t & H & <- & _). by apply instanceInput_complete.
Qed.

(** The template table is consistent: a template can be enabled exactly
    when the catalog lists it, the catalog lists one version of it, the one
    that new instances get, and its capabilities and profiles are those the
    instance queries answer for that version. *)
Theorem catalog_consistent (name : string) (options : TemplateOptions) :
  (templateEnabled name options = Ok true ↔
     ∃ item, item ∈ templateCatalog options ∧ ci_name item = name) ∧
  (∀ item item', item ∈ templateCatalog options → item' ∈ templateCatalog options →
     ci_name item = ci_name item' → ci_version item = ci_version item') ∧
  (∀ item, item ∈ templateCatalog options →
     t_version <$> match templateDefinition (ci_name item) None with Ok t => Some t | _ => None end
       = Some (ci_version item) ∧
     instanceCapabilities (ci_name item) (Some (ci_version item)) = Some (ci_capabilities item) ∧
     clientProfiles (ci_name item) (Some (ci_version item)) = ci_clientProfiles item).
Proof.
  split; [|split].
  - unfold templateEnabled. setoid_rewrite templateCatalog_elem. split.
    + destruct (templateDefinition name None) as [t|] eqn:E; [|done]. intros [= Ht].
      apply templateDefinition_Ok in E as [Hin <-]. eexists. split; [by exists t|done].
    + intros (? & (t & Hin & Ht & ->) & <-). simpl.
      destruct (template_row options t Hin Ht) as [-> _]. cbn. by rewrite Ht.
  - intros ? ? (t & Hin & Ht & ->)%templateCatalog_elem
      (t' & Hin' & Ht' & ->)%templateCatalog_elem E. simpl in *.
    destruct (template_row options t Hin Ht) as [H _].
    destruct (template_row options t' Hin' Ht') as [H' _]. congruence.
  - intros ? (t & Hin & Ht & ->)%templateCatalog_elem. simpl.
    by destruct (template_row options t Hin Ht) as [-> ->].
Qed.
