(* ===== verification/Json.v ===== *)
(** * JSON texts

    [JSON.stringify] and [JSON.parse] on the documents of [Catalog.json]:
    sealed credentials and the documents whose digest identifies a request
    are JSON texts.  A text is a list of code units; both functions keep to
    the code units 0-255 the development works with, and [stringify] is only
    applied to documents without fractional numbers ([printable]). *)
From Stdlib Require Import ZArith Lia Ascii.
From stdpp Require Import base tactics list option strings.
From S2P Require Import Prelude Regex Numbers Effects Catalog.

Definition code (c : ascii) : Z := Z.of_nat (nat_of_ascii c).
Definition quote : ascii := Eval cbv in ascii_of_nat 34.
Definition backslash : ascii := Eval cbv in ascii_of_nat 92.

(** ** Printing *)
Definition hex_chr (d : Z) : ascii := ascii_of_nat (Z.to_nat (if d <? 10 then d + 48 else d + 87)).

(** The escape letter of a control character that has one. *)
Definition short_escape (c : ascii) : option ascii :=
  let n := code c in
  if n =? 34 then Some quote else if n =? 92 then Some backslash
  else if n =? 8 then Some "b"%char else if n =? 12 then Some "f"%char
  else if n =? 10 then Some "n"%char else if n =? 13 then Some "r"%char
  else if n =? 9 then Some "t"%char else None.

Definition print_char (c : ascii) : list ascii :=
  match short_escape c with
  | Some e => [backslash; e]
  | None => if code c <? 32
            then [backslash; "u"%char; "0"%char; "0"%char; hex_chr (code c / 16); hex_chr (code c mod 16)]
            else [c]
  end.
Definition print_string (s : string) : list ascii :=
  quote :: (chars s ≫= print_char) ++ [quote].

Definition print_int (z : Z) : list ascii :=
  if z <? 0 then "-"%char :: chars (dec_str (- z)) else chars (dec_str z).

(** The elements of an array or object between commas. *)
Fixpoint commas (l : list (list ascii)) : list ascii :=
  match l with
  | [] => []
  | [x] => x
  | x :: l => x ++ ","%char :: commas l
  end.

Fixpoint stringify (j : json) : list ascii :=
  match j with
  | JNull => chars "null"
  | JBool true => chars "true"
  | JBool false => chars "false"
  | JInt z => print_int z
  | JFrac _ _ => []
  | JStr s => print_string s
  | JArr l => "["%char :: commas (map stringify l) ++ ["]"%char]
  | JObj fs => "{"%char ::
      commas (map (λ '(k, v), print_string k ++ ":"%char :: stringify v) fs) ++ ["}"%char]
  end.

(** ** Parsing *)
Definition json_space (c : ascii) : bool := (code c =? 32) || (code c =? 9) || (code c =? 10) || (code c =? 13).
Fixpoint skip_space (l : list ascii) : list ascii :=
  match l with c :: l' => if json_space c then skip_space l' else l | [] => [] end.

Definition hex_val (c : ascii) : option Z :=
  let n := code c in
  if (48 <=? n) && (n <=? 57) then Some (n - 48)
  else if (97 <=? n) && (n <=? 102) then Some (n - 87)
  else if (65 <=? n) && (n <=? 70) then Some (n - 55) else None.

Definition unescape (e : ascii) : option ascii :=
  if Ascii.eqb e quote then Some quote else if Ascii.eqb e backslash then Some backslash
  else if Ascii.eqb e "/" then Some "/"%char else if Ascii.eqb e "b" then Some (ascii_of_nat 8)
  else if Ascii.eqb e "f" then Some (ascii_of_nat 12) else if Ascii.eqb e "n" then Some (ascii_of_nat 10)
  else if Ascii.eqb e "r" then Some (ascii_of_nat 13) else if Ascii.eqb e "t" then Some (ascii_of_nat 9)
  else None.

(** The rest of a string after its opening quote. *)
Fixpoint parse_chars (l : list ascii) : option (list ascii * list ascii) :=
  match l with
  | [] => None
  | c :: l =>
      if Ascii.eqb c quote then Some ([], l)
      else if Ascii.eqb c backslash then
        match l with
        | [] => None
        | e :: l =>
            match unescape e with
            | Some d => '(s, r) ← parse_chars l; Some (d :: s, r)
            | None =>
                if Ascii.eqb e "u" then
                  match l with
                  | a :: b :: c :: d :: l =>
                      a ← hex_val a; b ← hex_val b; c ← hex_val c; d ← hex_val d;
                      let n := ((a * 16 + b) * 16 + c) * 16 + d in
                      if n <? 256 then
                        '(s, r) ← parse_chars l; Some (ascii_of_nat (Z.to_nat n) :: s, r)
                      else None
                  | _ => None
                  end
                else None
            end
        end
      else if code c <? 32 then None
      else '(s, r) ← parse_chars l; Some (c :: s, r)
  end.

Fixpoint span (p : ascii → bool) (l : list ascii) : list ascii * list ascii :=
  match l with
  | c :: l' => if p c then let '(a, b) := span p l' in (c :: a, b) else ([], l)
  | [] => ([], [])
  end.

(** The number [whole.fraction * 10 ^ e], an integer or not. *)
Definition number_value (negative : bool) (whole fraction : list ascii) (e : Z) : json :=
  let m := dec_val (whole ++ fraction) in
  let e := e - Z.of_nat (length fraction) in
  let sign := if negative then -1 else 1 in
  if 0 <=? e then JInt (sign * js_number (m * 10 ^ e))
  else if m mod 10 ^ (- e) =? 0 then JInt (sign * js_number (m / 10 ^ (- e))) else JFrac (sign * m) (10 ^ (- e)).

Definition parse_exponent (l : list ascii) : option (Z * list ascii) :=
  match l with
  | c :: l' =>
      if Ascii.eqb c "e" || Ascii.eqb c "E" then
        let '(negative, l') := match l' with
          | s :: r => if Ascii.eqb s "-" then (true, r) else if Ascii.eqb s "+" then (false, r) else (false, l')
          | [] => (false, [])
          end in
        match span is_digit l' with
        | ([], _) => None
        | (ds, r) => Some ((if negative then - dec_val ds else dec_val ds), r)
        end
      else Some (0, l)
  | [] => Some (0, [])
  end.

Definition parse_number (l : list ascii) : option (json * list ascii) :=
  let '(negative, l) := match l with
    | c :: r => if Ascii.eqb c "-" then (true, r) else (false, l)
    | [] => (false, [])
    end in
  let '(whole, l) := span is_digit l in
  if match whole with
     | [] => true
     | c :: rest => Ascii.eqb c "0" && bool_decide (rest ≠ [])
     end then None
  else
    '(fraction, l) ← match l with
      | c :: r => if Ascii.eqb c "."
                  then match span is_digit r with ([], _) => None | (ds, r) => Some (ds, r) end
                  else Some ([], l)
      | [] => Some ([], [])
      end;
    '(e, l) ← parse_exponent l;
    Some (number_value negative whole fraction e, l).

(** A repeated key keeps its first place and takes its last value. *)
Fixpoint set_field (k : string) (v : json) (fs : list (string * json)) : list (string * json) :=
  match fs with
  | [] => [(k, v)]
  | (k', v') :: fs => if String.eqb k' k then (k', v) :: fs else (k', v') :: set_field k v fs
  end.
Definition fields_of (ps : list (string * json)) : list (string * json) :=
  fold_left (λ fs '(k, v), set_field k v fs) ps [].

Definition expect (p : list ascii) (l : list ascii) : option (list ascii) :=
  if bool_decide (take (length p) l = p) then Some (drop (length p) l) else None.

(** Values, the elements of an array and the fields of an object after the
    first bracket or comma.  Every call consumes a character, so the length of
    the text is enough fuel. *)
Fixpoint parse_value (fuel : nat) (l : list ascii) : option (json * list ascii) :=
  match fuel with
  | O => None
  | S fuel =>
      match skip_space l with
      | [] => None
      | c :: r =>
          if Ascii.eqb c quote then '(s, r) ← parse_chars r; Some (JStr (of_chars s), r)
          else if Ascii.eqb c "[" then
            match skip_space r with
            | d :: r' => if Ascii.eqb d "]" then Some (JArr [], r')
                         else '(vs, r) ← parse_items fuel r; Some (JArr vs, r)
            | [] => None
            end
          else if Ascii.eqb c "{" then
            match skip_space r with
            | d :: r' => if Ascii.eqb d "}" then Some (JObj [], r')
                         else '(fs, r) ← parse_fields fuel r; Some (JObj (fields_of fs), r)
            | [] => None
            end
          else if Ascii.eqb c "n" then r ← expect (chars "ull") r; Some (JNull, r)
          else if Ascii.eqb c "t" then r ← expect (chars "rue") r; Some (JBool true, r)
          else if Ascii.eqb c "f" then r ← expect (chars "alse") r; Some (JBool false, r)
          else parse_number (c :: r)
      end
  end
with parse_items (fuel : nat) (l : list ascii) : option (list json * list ascii) :=
  match fuel with
  | O => None
  | S fuel =>
      '(v, r) ← parse_value fuel l;
      match skip_space r with
      | c :: r => if Ascii.eqb c "]" then Some ([v], r)
                  else if Ascii.eqb c "," then '(vs, r) ← parse_items fuel r; Some (v :: vs, r)
                  else None
      | [] => None
      end
  end
with parse_fields (fuel : nat) (l : list ascii) : option (list (string * json) * list ascii) :=
  match fuel with
  | O => None
  | S fuel =>
      match skip_space l with
      | q :: r =>
          if negb (Ascii.eqb q quote) then None
          else
            '(k, r) ← parse_chars r;
            r ← match skip_space r with
                | c :: r => if Ascii.eqb c ":" then Some r else None
                | [] => None
                end;
            '(v, r) ← parse_value fuel r;
            match skip_space r with
            | c :: r => if Ascii.eqb c "}" then Some ([(of_chars k, v)], r)
                        else if Ascii.eqb c ","
                        then '(fs, r) ← parse_fields fuel r; Some ((of_chars k, v) :: fs, r)
                        else None
            | [] => None
            end
      | [] => None
      end
  end.

(** [JSON.parse(text)] *)
Definition json_parse (l : list ascii) : option json :=
  '(v, r) ← parse_value (S (2 * length l)) l;
  match skip_space r with [] => Some v | _ => None end.

(** ** What is printed and read back *)
Fixpoint printable (j : json) : Prop :=
  match j with
  | JNull | JBool _ | JStr _ => True
  | JInt z => Z.abs z < 2 ^ 53
  | JFrac _ _ => False
  | JArr l => (fix all l := match l with [] => True | j :: l => printable j ∧ all l end) l
  | JObj fs => NoDup fs.*1 ∧
      (fix all fs := match fs with [] => True | (_, j) :: fs => printable j ∧ all fs end) fs
  end.

Lemma printable_arr l : printable (JArr l) ↔ Forall printable l.
Proof.
  simpl. induction l as [|j l IH]; [by split|]. rewrite Forall_cons, <- IH. done.
Qed.
Lemma printable_obj fs : printable (JObj fs) ↔ NoDup fs.*1 ∧ Forall (λ p, printable p.2) fs.
Proof.
  simpl. apply and_iff_compat_l. induction fs as [|[k j] fs IH]; [by split|].
  rewrite Forall_cons, <- IH. done.
Qed.

(** What may follow a value: no character that would extend a number. *)
Definition stops (l : list ascii) : Prop :=
  match l with
  | c :: _ => is_digit c = false ∧ c ≠ "."%char ∧ c ≠ "e"%char ∧ c ≠ "E"%char
  | [] => True
  end.

Lemma parse_print_char c l :
  parse_chars (print_char c ++ l) = '(s, r) ← parse_chars l; Some (c :: s, r).
Proof. destruct c as [[] [] [] [] [] [] [] []]; reflexivity. Qed.

Lemma parse_chars_print cs l : parse_chars ((cs ≫= print_char) ++ quote :: l) = Some (cs, l).
Proof.
  induction cs as [|c cs IH]; [done|]. rewrite bind_cons, <- app_assoc, parse_print_char, IH. done.
Qed.

Lemma parse_string_print s l :
  parse_chars ((chars s ≫= print_char) ++ [quote] ++ l) = Some (chars s, l).
Proof. apply parse_chars_print. Qed.

Lemma span_all p a l :
  Forall (λ c, p c = true) a → match l with c :: _ => p c = false | [] => True end →
  span p (a ++ l) = (a, l).
Proof.
  intros Ha Hl. induction Ha as [|c a Hc _ IH]; simpl.
  - destruct l as [|c l]; [done|]. simpl. by rewrite Hl.
  - by rewrite Hc, IH.
Qed.

Lemma parse_exponent_stops l : stops l → parse_exponent l = Some (0, l).
Proof.
  destruct l as [|c l]; [done|]. intros (_ & _ & He & HE). simpl.
  by rewrite (proj2 (Ascii.eqb_neq _ _) He), (proj2 (Ascii.eqb_neq _ _) HE).
Qed.

(** A printed number has no leading zero. *)
Lemma dec_digits_head fuel n acc :
  0 < n < 2 ^ Z.of_nat fuel → ∃ c l, dec_digits fuel n acc = c :: l ∧ c ≠ "0"%char.
Proof.
  revert n acc. induction fuel as [|fuel IH]; intros n acc Hn; [simpl in Hn; lia|].
  rewrite Nat2Z.inj_succ, Z.pow_succ_r in Hn by lia. cbn [dec_digits].
  destruct (Z.ltb_spec n 10).
  - eexists _, _. split; [done|]. intros E%(f_equal digit_val).
    rewrite digit_chr_val, Z.mod_small in E by (pose proof (Z.mod_pos_bound n 10); lia).
    change (digit_val "0") with 0 in E. lia.
  - apply IH. pose proof (Z.div_mod n 10). pose proof (Z.mod_pos_bound n 10). lia.
Qed.

Lemma dec_str_head n :
  0 ≤ n → ∃ c l, chars (dec_str n) = c :: l ∧ (l = [] ∨ c ≠ "0"%char).
Proof.
  intros Hn. destruct (decide (n = 0)) as [->|].
  { exists "0"%char, []. split; [done|by left]. }
  unfold dec_str. rewrite chars_of_chars.
  destruct (dec_digits_head (dec_fuel n) n []) as (c & l & -> & Hc); [|by eauto].
  unfold dec_fuel. rewrite Nat2Z.inj_succ, Z2Nat.id by apply Z.log2_nonneg.
  split; [lia|]. apply Z.log2_lt_pow2; lia.
Qed.

Lemma parse_digits (negative : bool) n l :
  0 ≤ n < 2 ^ 53 → stops l →
  parse_number ((if negative then ["-"%char] else []) ++ chars (dec_str n) ++ l) =
    Some (JInt ((if negative then -1 else 1) * n), l).
Proof.
  intros Hn Hl. destruct (dec_str_head n) as (c & ds & E & Hc); [lia|].
  pose proof (dec_str_digits n) as Hd. rewrite E in Hd.
  assert (is_digit c = true) as Hdc by (by apply Forall_cons in Hd as [? _]; [|lia]).
  assert (span is_digit (chars (dec_str n) ++ l) = (c :: ds, l)) as Hs.
  { rewrite E. apply span_all; [by apply Hd; lia|]. destruct l; [done|]. by destruct Hl. }
  unfold parse_number.
  assert ((match (if negative then ["-"%char] else []) ++ chars (dec_str n) ++ l with
    | c :: r => if Ascii.eqb c "-" then (true, r)
                else (false, (if negative then ["-"%char] else []) ++ chars (dec_str n) ++ l)
    | [] => (false, [])
    end) = (negative, chars (dec_str n) ++ l)) as ->.
  { destruct negative; [done|]. simpl. rewrite E. simpl. by destruct (Ascii.eqb_spec c "-"); subst. }
  rewrite Hs. replace (Ascii.eqb c "0" && bool_decide (ds ≠ [])) with false; last first.
  { destruct Hc as [-> |Hc]; [by rewrite andb_false_r|].
    by rewrite (proj2 (Ascii.eqb_neq _ _) Hc). }
  assert ((match l with
    | c :: r => if Ascii.eqb c "." then match span is_digit r with ([], _) => None | (ds, r) => Some (ds, r) end
                else Some ([], l)
    | [] => Some ([], []) end) = Some ([], l)) as ->.
  { destruct l as [|d l]; [done|]. destruct Hl as (_ & Hd' & _).
    by rewrite (proj2 (Ascii.eqb_neq _ _) Hd'). }
  cbn [mbind option_bind]. rewrite parse_exponent_stops by done. cbn [mbind option_bind].
  unfold number_value. rewrite app_nil_r, <- E, dec_val_str by lia.
  change (0 <=? 0 - Z.of_nat (length (@nil ascii))) with true. cbv iota beta zeta.
  rewrite Z.mul_1_r, js_number_exact by lia. done.
Qed.

Lemma parse_print_int z l :
  Z.abs z < 2 ^ 53 → stops l → parse_number (print_int z ++ l) = Some (JInt z, l).
Proof.
  intros Hz Hl. unfold print_int. destruct (Z.ltb_spec z 0).
  - etransitivity; [apply (parse_digits true (- z) l); [lia|done]|]. repeat f_equal. lia.
  - etransitivity; [apply (parse_digits false z l); [lia|done]|]. repeat f_equal. lia.
Qed.

(** The first character of a printed value. *)
Definition value_head (c : ascii) : bool :=
  is_digit c || one_of "-[{ntf" c || Ascii.eqb c quote.
Lemma value_head_space c : value_head c = true → json_space c = false ∧ c ≠ "]"%char ∧ c ≠ "}"%char.
Proof. by destruct c as [[] [] [] [] [] [] [] []]. Qed.

Lemma stringify_head j : printable j → ∃ c l, stringify j = c :: l ∧ value_head c = true.
Proof.
  destruct j as [|[]|z|? ?|s|l|fs]; simpl; intros Hp; try done; try by eexists _, _.
  unfold print_int. case_match; [by eexists _, _|].
  destruct (dec_str_head z) as (c & l & E & _); [boolify; lia|].
  exists c, l. split; [done|].
  pose proof (dec_str_digits z ltac:(boolify; lia)) as Hd. rewrite E in Hd.
  apply Forall_cons in Hd as [Hd _]. unfold value_head. by rewrite Hd.
Qed.

Lemma skip_value j l : printable j → skip_space (stringify j ++ l) = stringify j ++ l.
Proof.
  intros (c & k & -> & [Hc _]%value_head_space)%stringify_head. simpl. by rewrite Hc.
Qed.

Lemma set_field_new k v fs : k ∉ fs.*1 → set_field k v fs = fs ++ [(k, v)].
Proof.
  induction fs as [|[k' v'] fs IH]; [done|]. intros [Hk Hf]%not_elem_of_cons. simpl.
  rewrite (proj2 (String.eqb_neq _ _)) by done. by rewrite IH.
Qed.

Lemma fields_of_distinct fs : NoDup fs.*1 → fields_of fs = fs.
Proof.
  unfold fields_of. intros Hn. rewrite <- (app_nil_l fs) at 2.
  assert (NoDup ([] ++ fs).*1) as H by done. revert H. clear Hn.
  generalize (@nil (string * json)) as acc.
  induction fs as [|[k v] fs IH]; intros acc Hn; simpl; [by rewrite app_nil_r|].
  rewrite set_field_new.
  - rewrite IH; [by rewrite <- app_assoc|]. by rewrite <- app_assoc.
  - rewrite fmap_app in Hn. apply NoDup_app in Hn as (_ & Hd & _).
    intros Hk. apply (Hd k Hk). left.
Qed.

(** Every value, list of items and list of fields that is printed is read
    back, whatever follows it. *)
Definition reads_value (fuel : nat) : Prop := ∀ j l,
  printable j → (length (stringify j) ≤ fuel)%nat → stops l →
  parse_value fuel (stringify j ++ l) = Some (j, l).
Definition reads_items (fuel : nat) : Prop := ∀ vs l,
  vs ≠ [] → Forall printable vs → (length (commas (map stringify vs)) + 1 ≤ fuel)%nat →
  parse_items fuel (commas (map stringify vs) ++ "]"%char :: l) = Some (vs, l).
Definition print_field (p : string * json) : list ascii :=
  print_string p.1 ++ ":"%char :: stringify p.2.
Definition reads_fields (fuel : nat) : Prop := ∀ fs l,
  fs ≠ [] → Forall (λ p, printable p.2) fs → (length (commas (map print_field fs)) + 1 ≤ fuel)%nat →
  parse_fields fuel (commas (map print_field fs) ++ "}"%char :: l) = Some (fs, l).

Lemma skip_char c l : json_space c = false → skip_space (c :: l) = c :: l.
Proof. intros Hc. simpl. by rewrite Hc. Qed.

Lemma commas_cons x y l : commas (x :: y :: l) = x ++ ","%char :: commas (y :: l).
Proof. done. Qed.

Lemma reads_items_S fuel : reads_value fuel → reads_items fuel → reads_items (S fuel).
Proof.
  intros Hv Hi vs l Hne Hp Hf. destruct vs as [|v vs]; [done|].
  apply Forall_cons in Hp as [Hpv Hp]. cbn [parse_items].
  destruct vs as [|w vs].
  - cbn [map commas] in *. rewrite Hv by (done || lia). done.
  - cbn [map] in *. rewrite commas_cons in *. rewrite length_app in Hf. cbn [length] in Hf.
    rewrite <- app_assoc. rewrite Hv by (done || lia). cbn [mbind option_bind app].
    rewrite skip_char by done. cbn -[commas parse_items].
    change (commas (stringify w :: map stringify vs)) with (commas (map stringify (w :: vs))) in *.
    rewrite Hi by (done || lia). done.
Qed.

Lemma reads_fields_S fuel : reads_value fuel → reads_fields fuel → reads_fields (S fuel).
Proof.
  intros Hv Hi fs l Hne Hp Hf. destruct fs as [|[k v] fs]; [done|].
  apply Forall_cons in Hp as [Hpv Hp]. simpl in Hpv.
  assert (∀ r, print_field (k, v) ++ r = quote :: (chars k ≫= print_char) ++
    quote :: ":"%char :: stringify v ++ r) as Hpf.
  { intros r. unfold print_field, print_string. simpl. by rewrite <- !app_assoc. }
  assert (length (stringify v) + 2 ≤ length (print_field (k, v)))%nat as Hlen.
  { unfold print_field, print_string. rewrite length_app. simpl. lia. }
  cbn [parse_fields]. destruct fs as [|w fs].
  - cbn [map commas] in *. rewrite Hpf, skip_char by done. cbn -[parse_chars parse_value skip_space].
    rewrite parse_chars_print. cbn -[parse_value skip_space].
    rewrite skip_char by done. cbn -[parse_value skip_space].
    rewrite Hv by (done || lia). cbn -[skip_space].
    rewrite skip_char by done. cbn. by rewrite of_chars_chars.
  - cbn [map] in *. rewrite commas_cons in *. rewrite length_app in Hf. cbn [length] in Hf.
    rewrite <- app_assoc, Hpf, skip_char by done. cbn -[parse_chars parse_value commas parse_fields skip_space print_field].
    rewrite parse_chars_print. cbn -[parse_value commas parse_fields skip_space print_field].
    rewrite skip_char by done. cbn -[parse_value commas parse_fields skip_space print_field].
    rewrite Hv by (done || lia). cbn -[commas parse_fields skip_space print_field].
    rewrite skip_char by done. cbn -[commas parse_fields print_field].
    change (commas (print_field w :: map print_field fs)) with (commas (map print_field (w :: fs))) in *.
    replace (Ascii.eqb quote quote) with true by done. cbn [negb].
    rewrite Hi by (done || lia). cbn. by rewrite of_chars_chars.
Qed.

Lemma stringify_obj fs :
  stringify (JObj fs) = "{"%char :: commas (map print_field fs) ++ ["}"%char].
Proof. simpl. do 3 f_equal. apply map_ext. by intros []. Qed.

Lemma expect_app p l : expect p (p ++ l) = Some l.
Proof.
  unfold expect. rewrite take_app_length, drop_app_length. by rewrite bool_decide_true.
Qed.

Lemma read_number fuel z l :
  Z.abs z < 2 ^ 53 → stops l → parse_value (S fuel) (print_int z ++ l) = Some (JInt z, l).
Proof.
  intros Hz Hl. rewrite <- (parse_print_int z l) by done.
  assert (∃ c k, print_int z = c :: k ∧ (is_digit c || Ascii.eqb c "-") = true)
    as (c & k & -> & Hc).
  { unfold print_int. case_match; [by eexists _, _|].
    destruct (dec_str_head z) as (c & k & E & _); [boolify; lia|].
    pose proof (dec_str_digits z ltac:(boolify; lia)) as Hd. rewrite E in *.
    apply Forall_cons in Hd as [Hd _]. eexists _, _. by rewrite Hd. }
  change ((c :: k) ++ l) with (c :: (k ++ l)). generalize (k ++ l) as r. intros r.
  destruct c as [[] [] [] [] [] [] [] []]; by try discriminate Hc.
Qed.

Lemma reads_all fuel : reads_value fuel ∧ reads_items fuel ∧ reads_fields fuel.
Proof.
  induction fuel as [|fuel (Hv & Hi & Hf)].
  { split_and!; intros x l; [|lia..]. intros (c & k & -> & _)%stringify_head. simpl. lia. }
  split_and!; [|by apply reads_items_S|by apply reads_fields_S].
  intros j l Hp Hl Hs. destruct j as [|[]|z|? ?|s|vs|fs]; try done.
  - by apply read_number.
  - cbn -[parse_chars skip_space]. rewrite <- app_assoc. cbn [app].
    rewrite skip_char by done. cbn -[parse_chars skip_space].
    rewrite parse_chars_print. cbn. by rewrite of_chars_chars.
  - apply printable_arr in Hp. destruct vs as [|v vs]; [done|].
    cbn [stringify length] in *. rewrite length_app in Hl. cbn [length] in Hl.
    destruct (stringify_head v) as (c & k & E & Hc); [by apply Forall_cons in Hp as [? _]|].
    assert (∃ k', commas (map stringify (v :: vs)) = c :: k') as [k' Ek].
    { cbn [map]. rewrite E. destruct (map stringify vs); by eexists. }
    cbn [app]. rewrite <- app_assoc. cbn [app].
    cbn [parse_value]. rewrite skip_char by done. cbn -[parse_items commas skip_space map].
    rewrite Ek at 1. cbn [app].
    apply value_head_space in Hc as (Hc1 & Hc2 & _).
    rewrite skip_char by done. rewrite (proj2 (Ascii.eqb_neq _ _) Hc2).
    rewrite Hi by (done || lia). done.
  - apply printable_obj in Hp as [Hn Hp]. destruct fs as [|[k v] fs]; [done|].
    rewrite stringify_obj in *.
    cbn [length] in *. rewrite length_app in Hl. cbn [length] in Hl.
    assert (∃ k', commas (map print_field ((k, v) :: fs)) = quote :: k') as [k' Ek].
    { cbn [map]. destruct (map print_field fs); by eexists. }
    cbn [app]. rewrite <- app_assoc. cbn [app].
    cbn [parse_value]. rewrite skip_char by done. cbn -[parse_fields commas skip_space map].
    rewrite Ek at 1. cbn [app].
    rewrite skip_char by done. change (Ascii.eqb quote "}") with false. cbv iota.
    rewrite Hf by (done || lia). cbn -[fields_of]. by rewrite fields_of_distinct.
Qed.

Lemma json_parse_stringify j : printable j → json_parse (stringify j) = Some j.
Proof.
  intros Hp. unfold json_parse.
  assert (∀ l, parse_value (S (2 * length l)) l = parse_value (S (2 * length l)) (l ++ [])) as Hnil.
  { intros l. by rewrite app_nil_r. }
  rewrite Hnil. destruct (reads_all (S (2 * length (stringify j)))) as [Hv _].
  rewrite Hv by (done || lia). done.
Qed.

Lemma stringify_inj j k : printable j → printable k → stringify j = stringify k → j = k.
Proof.
  intros Hj%json_parse_stringify Hk%json_parse_stringify E. rewrite E in Hj. congruence.
Qed.

(** An object of the given keys. *)
Lemma fields_printable ks vs :
  NoDup ks → length ks = length vs → Forall printable vs → printable (JObj (zip ks vs)).
Proof.
  intros Hn Hl Hv. apply printable_obj. split.
  - by rewrite fst_zip by lia.
  - apply Forall_forall. intros [k v] Hkv%list_elem_of_In%in_combine_r%list_elem_of_In.
    simpl. by eapply Forall_forall in Hv.
Qed.
