(* ===== verification/JsNumber.v ===== *)
(** * Numbers read from text

    [Number(text)], as [instance-routes.ts], [history.ts] and
    [observation-backends.ts] use it.  A value is kept exactly; where the code
    compares it, the rounding to a double is written out. *)
From Stdlib Require Import ZArith Lia Ascii.
From stdpp Require Import base tactics list option strings.
From S2P Require Import Prelude Regex Numbers Effects Catalog Json.

Inductive jsnum := NaN | Infinite (negative : bool) | Finite (n d : Z).

(** A decimal literal: digits, fraction and exponent after the sign. *)
Definition decimal_literal (l : list ascii) : option (Z * Z) :=
  let '(whole, l) := span is_digit l in
  let '(fraction, l) := match l with
    | c :: r => if Ascii.eqb c "." then span is_digit r else ([], l)
    | [] => ([], [])
    end in
  if bool_decide (whole ++ fraction = []) then None
  else
    '(e, rest) ← parse_exponent l;
    if bool_decide (rest = []) then
      let m := dec_val (whole ++ fraction) in
      let e := e - Z.of_nat (length fraction) in
      Some (if 0 <=? e then (m * 10 ^ e, 1) else (m, 10 ^ (- e)))
    else None.

(** The value of a digit in a literal with a radix. *)
Definition radix_literal (radix : Z) (l : list ascii) : option Z :=
  if bool_decide (l = []) then None
  else fold_left (λ acc c, acc ← acc; d ← hex_val c; if d <? radix then Some (acc * radix + d) else None)
         l (Some 0).

Definition js_Number (text : string) : jsnum :=
  match chars (trim text) with
  | [] => Finite 0 1
  | (c :: r) as l =>
      let radix := match l with
        | z :: x :: digits =>
            if Ascii.eqb z "0" then
              if one_of "xX" x then Some (16, digits) else if one_of "oO" x then Some (8, digits)
              else if one_of "bB" x then Some (2, digits) else None
            else None
        | _ => None
        end in
      match radix with
      | Some (base, digits) => match radix_literal base digits with Some n => Finite n 1 | None => NaN end
      | None =>
          let '(negative, l) := if Ascii.eqb c "-" then (true, r)
                                else if Ascii.eqb c "+" then (false, r) else (false, l) in
          if bool_decide (l = chars "Infinity") then Infinite negative
          else match decimal_literal l with
               | Some (n, d) => Finite (if negative then - n else n) d
               | None => NaN
               end
      end
  end.

Example numbers_read :
  js_Number "20" = Finite 20 1 ∧ js_Number " -2.5e3 " = Finite (-2500) 1 ∧ js_Number "0x1f" = Finite 31 1 ∧
  js_Number "" = Finite 0 1 ∧ js_Number "-Infinity" = Infinite true ∧ js_Number "1 2" = NaN.
Proof. vm_compute. by split_and!. Qed.

(** [n < v] for an integer [1 <= n < 2^52]: a value above [n] by at most half a
    unit in the last place is rounded to [n]. *)
Definition below_number (n : Z) (v : jsnum) : bool :=
  match v with
  | NaN => false
  | Infinite negative => negb negative
  | Finite m d => d <? (m - n * d) * 2 ^ (53 - Z.log2 n)
  end.

(** [Number.isFinite(v)]: a magnitude of [2 ^ 1024 - 2 ^ 970] or more rounds to
    infinity. *)
Definition is_finite (v : jsnum) : bool :=
  match v with Finite n d => Z.abs n <? d * (2 ^ 1024 - 2 ^ 970) | _ => false end.
(** [v < 0]: a magnitude of at most [2 ^ -1075] rounds to zero. *)
Definition is_negative (v : jsnum) : bool :=
  match v with Finite n d => d <? - n * 2 ^ 1075 | Infinite negative => negative | NaN => false end.
