(* ===== verification/Contract.v ===== *)
(** * The CacheInstance custom resource

    [apps/admin-api/src/instance-contract.ts]: the resource the control plane
    writes and observes, its revision, and the object rendered from an input.
    Strings the cluster may answer freely stay strings; an optional field of
    the type is an [option]; a [Record<string, string>] is a finite map. *)
From Stdlib Require Import ZArith Lia.
From stdpp Require Import base tactics list option strings gmap.
From S2P Require Import Prelude Numbers Effects Catalog.

(** ** The type *)
Record TemplateRef := MkTemplateRef { tr_name : string; tr_version : string }.
Record Reclaim := MkReclaim { rc_previousInstanceUID : string; rc_volumeUID : string }.
Record Storage := MkStorage {
  st_className : string; st_capacity : string; st_deletionPolicy : string;
  st_reclaim : option Reclaim }.
Record Access := MkAccess {
  ac_exposure : string; ac_credentialsSecretRef : string; ac_readOnly : option bool }.
Record Eviction := MkEviction { ev_maxCacheGiB : Z; ev_enginePolicy : string }.
Record ResourceSpec := MkResources {
  rs_requests : gmap string string; rs_limits : gmap string string }.

Record Spec := MkSpec {
  sp_instanceId : string; sp_projectId : string; sp_imageBindingMode : option string;
  sp_templateRef : TemplateRef; sp_desiredState : string; sp_storage : Storage;
  sp_access : Access; sp_eviction : Eviction; sp_resources : ResourceSpec }.

Record Metadata := MkMetadata {
  md_name : string; md_namespace : string; md_uid : option string;
  md_generation : option Z; md_resourceVersion : option string;
  md_labels : option (gmap string string); md_annotations : option (gmap string string);
  md_deletionTimestamp : option string }.

Record Condition := MkCondition {
  cd_type : string; cd_status : string; cd_reason : string; cd_message : option string;
  cd_observedGeneration : option Z }.
Record Endpoint := MkEndpoint { ep_protocol : string; ep_url : string }.
Record Status := MkStatus {
  ss_observedGeneration : option Z; ss_credentialRevision : option string;
  ss_endpoints : option (list Endpoint); ss_conditions : option (list Condition) }.

Record CacheObject := MkObject {
  co_apiVersion : string; co_kind : string; co_metadata : Metadata; co_spec : Spec;
  co_status : option Status }.

#[export] Instance TemplateRef_eq_dec : EqDecision TemplateRef.
Proof. solve_decision. Defined.
#[export] Instance Reclaim_eq_dec : EqDecision Reclaim.
Proof. solve_decision. Defined.
#[export] Instance Storage_eq_dec : EqDecision Storage.
Proof. solve_decision. Defined.
#[export] Instance Access_eq_dec : EqDecision Access.
Proof. solve_decision. Defined.
#[export] Instance Eviction_eq_dec : EqDecision Eviction.
Proof. solve_decision. Defined.
#[export] Instance ResourceSpec_eq_dec : EqDecision ResourceSpec.
Proof. solve_decision. Defined.
#[export] Instance Spec_eq_dec : EqDecision Spec.
Proof. solve_decision. Defined.

#[export] Instance eta_Storage : Eta Storage := λ r,
  MkStorage (st_className r) (st_capacity r) (st_deletionPolicy r) (st_reclaim r).
#[export] Instance eta_Access : Eta Access := λ r,
  MkAccess (ac_exposure r) (ac_credentialsSecretRef r) (ac_readOnly r).
#[export] Instance eta_TemplateRef : Eta TemplateRef := λ r,
  MkTemplateRef (tr_name r) (tr_version r).
#[export] Instance eta_Spec : Eta Spec := λ r,
  MkSpec (sp_instanceId r) (sp_projectId r) (sp_imageBindingMode r) (sp_templateRef r)
    (sp_desiredState r) (sp_storage r) (sp_access r) (sp_eviction r) (sp_resources r).
#[export] Instance eta_Metadata : Eta Metadata := λ r,
  MkMetadata (md_name r) (md_namespace r) (md_uid r) (md_generation r) (md_resourceVersion r)
    (md_labels r) (md_annotations r) (md_deletionTimestamp r).
#[export] Instance eta_CacheObject : Eta CacheObject := λ r,
  MkObject (co_apiVersion r) (co_kind r) (co_metadata r) (co_spec r) (co_status r).

(** ** Keys and small readers *)
Definition managed_by_key : string := "app.kubernetes.io/managed-by".
Definition project_key : string := "cache.expbuild.io/project-id".
Definition instance_key : string := "cache.expbuild.io/instance-id".
Definition operation_key : string := "cache.expbuild.io/operation-id".
Definition request_hash_key : string := "cache.expbuild.io/request-hash".
Definition display_name_key : string := "cache.expbuild.io/display-name".

(** [m?.[k]] *)
Definition prop (m : option (gmap string string)) (k : string) : option string :=
  m ≫= λ m, m !! k.
Definition annotation (c : CacheObject) (k : string) : option string :=
  prop (md_annotations (co_metadata c)) k.
Definition label (c : CacheObject) (k : string) : option string :=
  prop (md_labels (co_metadata c)) k.

(** ** The source *)
Definition labels (projectId : string) (instanceId : option string) : gmap string string :=
  match instanceId with
  | Some i => if truthy instanceId then {[ instance_key := i ]} else ∅
  | None => ∅
  end ∪ {[ managed_by_key := "expbuild"; project_key := projectId ]}.

(** A number or [undefined] in a template literal. *)
Definition show_opt_num (o : option Z) : string :=
  match o with
  | Some z => if z <? 0 then "-" +:+ dec_str (- z) else dec_str z
  | None => "undefined"
  end.
Definition show_opt_str (o : option string) : string :=
  match o with Some s => s | None => "undefined" end.

Definition revision (c : CacheObject) : string :=
  show_opt_str (md_uid (co_metadata c)) +:+ ":" +:+ show_opt_num (md_generation (co_metadata c)).

Definition desiredObject (input : InstanceInput) (projectId namespace id storageClass
    operationId requestHash : string) : res CacheObject :=
  template ← templateDefinition (template_str (in_template input)) None;
  let resources : gmap string string :=
    {[ "cpu" := dec_str (in_cpuMillis input) +:+ "m";
       "memory" := dec_str (in_memoryMiB input) +:+ "Mi" ]} in
  mret {|
    co_apiVersion := "cache.expbuild.io/v1alpha1"; co_kind := "CacheInstance";
    co_metadata := {|
      md_name := "c-" +:+ id; md_namespace := namespace; md_uid := None;
      md_generation := None; md_resourceVersion := None;
      md_labels := Some (labels projectId (Some id));
      md_annotations := Some {[ operation_key := operationId; request_hash_key := requestHash;
                                display_name_key := in_name input ]};
      md_deletionTimestamp := None |};
    co_spec := {|
      sp_instanceId := id; sp_projectId := projectId; sp_imageBindingMode := Some "PinnedV1";
      sp_templateRef := MkTemplateRef (t_name template) (t_version template);
      sp_desiredState := desiredState_str (in_desiredState input);
      sp_storage := MkStorage storageClass (dec_str (in_storageGiB input) +:+ "Gi")
                      (deletionPolicy_str (in_deletionPolicy input)) None;
      sp_access := MkAccess (exposure_str (in_exposure input)) ("c-" +:+ id +:+ "-auth")
                     (match in_template input with GoCacheprog => in_readOnly input | _ => None end);
      sp_eviction := MkEviction (in_cacheGiB input) (t_enginePolicy template);
      sp_resources := MkResources resources resources |};
    co_status := None |}.

(** ** Lemmas *)

(** The template of a valid input always has a definition: rendering the
    object of an input never throws. *)
Lemma templateDefinition_input (t : Template) :
  ∃ d, templateDefinition (template_str t) None = Ok d ∧ t_name d = template_str t.
Proof. destruct t; vm_compute; eauto. Qed.

Lemma desiredObject_total input projectId namespace id storageClass operationId requestHash :
  ∃ c, desiredObject input projectId namespace id storageClass operationId requestHash = Ok c.
Proof.
  unfold desiredObject. destruct (templateDefinition_input (in_template input)) as (d & -> & _).
  by eexists.
Qed.

(** What the later stages read of a rendered object. *)
Lemma desiredObject_fields input projectId namespace id storageClass operationId requestHash c :
  desiredObject input projectId namespace id storageClass operationId requestHash = Ok c →
  md_name (co_metadata c) = "c-" +:+ id ∧ md_namespace (co_metadata c) = namespace ∧
  sp_instanceId (co_spec c) = id ∧ sp_projectId (co_spec c) = projectId ∧
  tr_name (sp_templateRef (co_spec c)) = template_str (in_template input) ∧
  annotation c operation_key = Some operationId ∧
  annotation c request_hash_key = Some requestHash ∧
  label c project_key = Some projectId ∧ label c managed_by_key = Some "expbuild" ∧
  st_capacity (sp_storage (co_spec c)) = dec_str (in_storageGiB input) +:+ "Gi" ∧
  st_className (sp_storage (co_spec c)) = storageClass ∧
  rs_requests (sp_resources (co_spec c)) !! "cpu" = Some (dec_str (in_cpuMillis input) +:+ "m") ∧
  rs_requests (sp_resources (co_spec c)) !! "memory" = Some (dec_str (in_memoryMiB input) +:+ "Mi") ∧
  rs_limits (sp_resources (co_spec c)) = rs_requests (sp_resources (co_spec c)).
Proof.
  unfold desiredObject. destruct (templateDefinition_input (in_template input)) as (d & -> & Hd).
  intros [= <-]. unfold annotation, label. simpl. rewrite Hd. split_and!; try done.
  all: unfold labels; simpl.
  all: assert (project_key ≠ managed_by_key) by done.
  all: destruct (negb (String.eqb id "")); rewrite lookup_union_r; try done.
Qed.
