(* ===== verification/Database.v ===== *)
(** * The control-plane database and the world of a worker

    [apps/admin-api/migrations/*.sql] and [apps/admin-api/src/db.ts]: one
    record per table row, the tables as finite maps keyed by their primary
    key, the unique indexes as failures of the inserting statement, and
    [transaction].

    Timestamps are microseconds, the resolution of [timestamptz]; a column read
    by the code becomes a JavaScript [Date] in whole milliseconds
    ([js_date]).  The database and the processes share one clock. *)
From Stdlib Require Import ZArith Lia Init.Byte.
From stdpp Require Import base tactics list option strings gmap relations.
From S2P Require Import Prelude Effects Catalog Json Contract.

(** ** Rows *)
Inductive ProjectState := PPending | PReady | PFailed | PDeleting.
Inductive Role := RAdmin | RMaintainer | RViewer.
Inductive Lifecycle := LPending | LActive | LDeleting | LDeleted | LDetached | LFailed.
Inductive OpState := Pending | Applying | Reconciling | Succeeded | Failed | Superseded.
Inductive CredentialState := CPending | CActive | CRevoking | CRevoked.

(** The operation kinds the code writes; the column is free text. *)
Inductive Kind :=
  | ProjectCreate | InstanceCreate | InstanceReclaim | InstanceUpdate
  | InstanceRotate | InstanceDelete | VolumeDelete | OtherKind (s : string).

#[export] Instance ProjectState_eq_dec : EqDecision ProjectState.
Proof. solve_decision. Defined.
#[export] Instance Role_eq_dec : EqDecision Role.
Proof. solve_decision. Defined.
#[export] Instance Lifecycle_eq_dec : EqDecision Lifecycle.
Proof. solve_decision. Defined.
#[export] Instance OpState_eq_dec : EqDecision OpState.
Proof. solve_decision. Defined.
#[export] Instance CredentialState_eq_dec : EqDecision CredentialState.
Proof. solve_decision. Defined.
#[export] Instance Kind_eq_dec : EqDecision Kind.
Proof. solve_decision. Defined.

(** An issue and the document of an inventory scan, stored as JSON. *)
Inductive IssueKind := IKInstance | IKVolume.
#[export] Instance IssueKind_eq_dec : EqDecision IssueKind.
Proof. solve_decision. Defined.
Record InventoryIssue := MkIssue {
  is_code : string; is_kind : IssueKind; is_resourceName : string; is_instanceId : option string }.
Record InventoryResult := MkInventoryResult {
  ir_state : string; ir_issues : list InventoryIssue; ir_issueCount : Z; ir_truncated : bool;
  ir_busyInstances : Z; ir_counts : option (Z * Z); ir_error : option string }.

Record Project := MkProject {
  pr_name : string; pr_namespace : string; pr_state : ProjectState; pr_created_by : string;
  pr_created_at : Z;
  pr_quota_limits : json; pr_quota_revision : Z; pr_quota_observed_revision : option Z;
  pr_quota_checked_at : option Z; pr_quota_sync_error : option string; pr_quota_next_sync : Z;
  pr_inventory_result : option InventoryResult; pr_inventory_checked_at : option Z;
  pr_inventory_next_scan : Z; pr_inventory_worker_id : option string;
  pr_inventory_lease_until : option Z }.

Record User := MkUser {
  us_email : string; us_password_hash : string; us_platform_admin : bool; us_active : bool;
  us_created_at : Z }.

(** A session, keyed by the digest of its token. *)
Record Session := MkSession {
  se_user_id : string; se_csrf_hash : string; se_expires_at : Z }.

Record Binding := MkBinding {
  bi_project_id : string; bi_resource_name : string; bi_kubernetes_uid : option string;
  bi_lifecycle : Lifecycle; bi_created_by : string; bi_created_at : Z; bi_display_name : string;
  bi_template_name : string; bi_template_version : option string;
  bi_reserved_storage_gib : option Z; bi_reserved_cpu_millis : option Z;
  bi_reserved_memory_mib : option Z }.

(** The [request] document of an operation; absent fields are undefined. *)
Record OpRequest := MkRequest {
  rq_namespace : option string; rq_desired : option CacheObject;
  rq_expectedRevision : option string; rq_uid : option string; rq_instanceUid : option string;
  rq_previousInstanceUID : option string; rq_volumeUid : option string;
  rq_name : option string; rq_deletionPolicy : option string }.
Definition empty_request : OpRequest := MkRequest None None None None None None None None None.

Record Operation := MkOperation {
  op_id : string; op_project_id : string; op_instance_id : option string; op_kind : Kind;
  op_idempotency_key : string; op_request_hash : string; op_request : OpRequest;
  op_state : OpState; op_target_generation : option Z; op_worker_id : option string;
  op_lease_until : option Z; op_error_code : option string; op_created_by : string;
  op_created_at : Z; op_updated_at : Z; op_secret_payload : option (list byte);
  op_next_attempt_at : Z; op_attempts : Z; op_deadline_at : Z }.

Record Credential := MkCredential {
  cr_instance_id : string; cr_name : string; cr_secret_name : string; cr_revision : Z;
  cr_state : CredentialState }.

(** An audit event without its random identifier and its time; the details
    document is the list of its fields. *)
Record AuditEvent := MkAudit {
  ae_actor : option string; ae_project : option string; ae_instance : option string;
  ae_operation : option string; ae_action : string; ae_details : list (string * json) }.

(** [members] is keyed by project and user, [retries] by project and
    idempotency key; the audit log grows at the end. *)
Record DB := MkDB {
  db_projects : gmap string Project;
  db_users : gmap string User;
  db_sessions : gmap string Session;
  db_members : gmap (string * string) Role;
  db_bindings : gmap string Binding;
  db_operations : gmap string Operation;
  db_credentials : gmap string Credential;
  db_retries : gmap (string * string) string;
  db_audit : list AuditEvent }.

#[export] Instance eta_Project : Eta Project := λ r,
  MkProject (pr_name r) (pr_namespace r) (pr_state r) (pr_created_by r) (pr_created_at r) (pr_quota_limits r)
    (pr_quota_revision r) (pr_quota_observed_revision r) (pr_quota_checked_at r)
    (pr_quota_sync_error r) (pr_quota_next_sync r) (pr_inventory_result r)
    (pr_inventory_checked_at r) (pr_inventory_next_scan r) (pr_inventory_worker_id r)
    (pr_inventory_lease_until r).
#[export] Instance eta_User : Eta User := λ r,
  MkUser (us_email r) (us_password_hash r) (us_platform_admin r) (us_active r) (us_created_at r).
#[export] Instance eta_Binding : Eta Binding := λ r,
  MkBinding (bi_project_id r) (bi_resource_name r) (bi_kubernetes_uid r) (bi_lifecycle r)
    (bi_created_by r) (bi_created_at r) (bi_display_name r) (bi_template_name r)
    (bi_template_version r) (bi_reserved_storage_gib r) (bi_reserved_cpu_millis r)
    (bi_reserved_memory_mib r).
#[export] Instance eta_OpRequest : Eta OpRequest := λ r,
  MkRequest (rq_namespace r) (rq_desired r) (rq_expectedRevision r) (rq_uid r) (rq_instanceUid r)
    (rq_previousInstanceUID r) (rq_volumeUid r) (rq_name r) (rq_deletionPolicy r).
#[export] Instance eta_Operation : Eta Operation := λ r,
  MkOperation (op_id r) (op_project_id r) (op_instance_id r) (op_kind r) (op_idempotency_key r)
    (op_request_hash r) (op_request r) (op_state r) (op_target_generation r) (op_worker_id r)
    (op_lease_until r) (op_error_code r) (op_created_by r) (op_created_at r) (op_updated_at r)
    (op_secret_payload r) (op_next_attempt_at r) (op_attempts r) (op_deadline_at r).
#[export] Instance eta_Credential : Eta Credential := λ r,
  MkCredential (cr_instance_id r) (cr_name r) (cr_secret_name r) (cr_revision r) (cr_state r).
#[export] Instance eta_DB : Eta DB := λ r,
  MkDB (db_projects r) (db_users r) (db_sessions r) (db_members r) (db_bindings r) (db_operations r)
    (db_credentials r) (db_retries r) (db_audit r).

Definition empty_db : DB := MkDB ∅ ∅ ∅ ∅ ∅ ∅ ∅ ∅ [].

(** ** Time *)
Definition seconds (n : Z) : Z := n * 1000000.
(** A timestamp read by the code: milliseconds. *)
Definition js_date (t : Z) : Z := t / 1000.

(** ** Statement helpers *)
Definition active_state (s : OpState) : bool :=
  match s with Pending | Applying | Reconciling => true | _ => false end.

(** [GREATEST(column, v)] ignores NULL. *)
Definition greatest (o : option Z) (v : Z) : option Z :=
  Some (match o with Some x => Z.max x v | None => v end).

(** [a = b] in SQL: never true of NULL. *)
Definition sql_eq (a b : option string) : bool :=
  match a, b with Some x, Some y => String.eqb x y | _, _ => false end.

(** [UPDATE t SET ... WHERE id=$1 AND p] *)
Definition update_row {A} (p : A → bool) (f : A → A) (id : string) (m : gmap string A) :
    gmap string A :=
  match m !! id with
  | Some r => if p r then <[id := f r]> m else m
  | None => m
  end.
Definition always {A} (_ : A) : bool := true.
(** The same with an identifier that may be NULL. *)
Definition update_opt {A} (p : A → bool) (f : A → A) (id : option string) (m : gmap string A) :
    gmap string A :=
  match id with Some id => update_row p f id m | None => m end.
Definition lookup_opt {A} (m : gmap string A) (id : option string) : option A :=
  id ≫= λ id, m !! id.

(** The rows of a table. *)
Definition rows {A} (m : gmap string A) : list A := (map_to_list m).*2.

(** [INSERT INTO operations]: the primary key and the three unique indexes. *)
Definition same_key (a b : Operation) : bool :=
  String.eqb (op_project_id a) (op_project_id b) && bool_decide (op_kind a = op_kind b) &&
  String.eqb (op_idempotency_key a) (op_idempotency_key b).
Definition both_active (a b : Operation) : bool :=
  active_state (op_state a) && active_state (op_state b) &&
  match op_instance_id a with Some i => oeq (op_instance_id b) (Some i) | None => false end.
Definition both_initialize (a b : Operation) : bool :=
  active_state (op_state a) && active_state (op_state b) &&
  bool_decide (op_kind a = ProjectCreate) && bool_decide (op_kind b = ProjectCreate) &&
  String.eqb (op_project_id a) (op_project_id b).

Definition insert_operation (op : Operation) (db : DB) : res () * DB :=
  let others := rows (db_operations db) in
  if bool_decide (is_Some (db_operations db !! op_id op)) then
    (Throw (PgUnique "operations_pkey"), db)
  else if existsb (same_key op) others then
    (Throw (PgUnique "operations_project_id_kind_idempotency_key_key"), db)
  else if existsb (both_active op) others then (Throw (PgUnique "operations_one_active"), db)
  else if existsb (both_initialize op) others then
    (Throw (PgUnique "operations_one_project_init"), db)
  else (Ok tt, db <| db_operations ::= insert (op_id op) op |>).

(** A new row with the column defaults of the schema. *)
Definition new_operation (now : Z) (id project : string) (instance : option string) (kind : Kind)
    (key hash : string) (request : OpRequest) (secret : option (list byte)) (actor : string) :
    Operation :=
  {| op_id := id; op_project_id := project; op_instance_id := instance; op_kind := kind;
     op_idempotency_key := key; op_request_hash := hash; op_request := request;
     op_state := Pending; op_target_generation := None; op_worker_id := None;
     op_lease_until := None; op_error_code := None; op_created_by := actor;
     op_created_at := now; op_updated_at := now; op_secret_payload := secret;
     op_next_attempt_at := now; op_attempts := 0; op_deadline_at := now + seconds (20 * 60) |}.

Definition add_audit (e : AuditEvent) (db : DB) : DB := db <| db_audit ::= λ l, l ++ [e] |>.

(** ** The world

    The database, the cluster (of a type [K] the port chooses), the clock, and
    the interference of every other process: what happens to the world at the
    next point where this process waits.  An empty list means that nothing
    happens from then on. *)
Record Interference (K : Type) := MkInterference {
  if_elapsed : Z; if_db : DB → DB; if_kube : K → K }.
Arguments MkInterference {K} _ _ _.
Arguments if_elapsed {K} _.
Arguments if_db {K} _.
Arguments if_kube {K} _.

(** A sample of the process's operation metrics: the labels and the duration in
    milliseconds. *)
Record Completion := MkCompletion { cm_kind : Kind; cm_outcome : OpState; cm_millis : Z }.

Record World (K : Type) := MkWorld {
  w_db : DB; w_kube : K; w_now : Z; w_env : list (Interference K); w_metrics : list Completion }.
Arguments MkWorld {K} _ _ _ _ _.
Arguments w_metrics {K} _.
Arguments w_db {K} _.
Arguments w_kube {K} _.
Arguments w_now {K} _.
Arguments w_env {K} _.
#[export] Instance eta_World K : Eta (World K) := λ w,
  MkWorld (w_db w) (w_kube w) (w_now w) (w_env w) (w_metrics w).

Section world.
Context {K : Type}.

(** [await]: the other processes run. *)
Definition yield : M (World K) () := λ w,
  match w_env w with
  | [] => (Ok tt, w)
  | i :: env =>
      (Ok tt, MkWorld (if_db i (w_db w)) (if_kube i (w_kube w))
                      (w_now w + Z.max 0 (if_elapsed i)) env (w_metrics w))
  end.

(** [client.query] in a transaction: a read, an update, an update that may
    fail. [now()] is the time the transaction started. *)
Definition query {A} (f : Z → DB → A) : M (World K) A := λ w, (Ok (f (w_now w) (w_db w)), w).
Definition execute_sql (f : Z → DB → DB) : M (World K) () := λ w,
  (Ok tt, w <| w_db := f (w_now w) (w_db w) |>).
Definition execute_res {A} (f : Z → DB → res A * DB) : M (World K) A := λ w,
  let '(r, db) := f (w_now w) (w_db w) in (r, w <| w_db := db |>).

(** [pool.query]: the same outside a transaction. *)
Definition pool {A} (m : M (World K) A) : M (World K) A := yield ;; m.

(** [transaction(pool, run)]: BEGIN, run, COMMIT; an exception rolls the
    database back and is rethrown. *)
Definition atomically {A} (run : M (World K) A) : M (World K) A := λ w,
  match run w with
  | (Ok a, w') => (Ok a, w')
  | (Throw e, w') => (Throw e, w' <| w_db := w_db w |>)
  end.
Definition transaction {A} (run : M (World K) A) : M (World K) A :=
  yield ;; atomically run.

(** A call of the cluster port. *)
Definition on_kube {A} (m : M K A) : M (World K) A := zoom w_kube (λ k w, w <| w_kube := k |>) m.
Definition kube {A} (m : M K A) : M (World K) A := yield ;; on_kube m.

(** [Date.now()] *)
Definition date_now : M (World K) Z := gets (λ w, js_date (w_now w)).
End world.

(** ** Reasoning about the database of a world *)

Lemma update_row_lookup {A} (p : A → bool) f id (m : gmap string A) j :
  update_row p f id m !! j =
    if decide (id = j) then (λ r, if p r then f r else r) <$> m !! j else m !! j.
Proof.
  unfold update_row. destruct (m !! id) as [r|] eqn:E.
  - destruct (p r) eqn:Hp; case_decide; subst;
      rewrite ?lookup_insert_eq, ?lookup_insert_ne, ?E by done; simpl; by rewrite ?Hp.
  - case_decide; subst; [by rewrite E|done].
Qed.

Lemma rows_elem {A} (m : gmap string A) r : r ∈ rows m ↔ ∃ i, m !! i = Some r.
Proof.
  unfold rows. rewrite list_elem_of_fmap. split.
  - intros ([i r'] & -> & H%elem_of_map_to_list). eauto.
  - intros [i Hi]. exists (i, r). by rewrite elem_of_map_to_list.
Qed.

Lemma greatest_Some o v : ∃ x, greatest o v = Some x ∧ v ≤ x ∧ ∀ y, o = Some y → y ≤ x.
Proof. destruct o as [y|]; simpl; eexists; (split; [done|]); naive_solver lia. Qed.

Section world_rel.
Context {K : Type} (R : relation DB) `{!PreOrder R}.

(** The steps of a process, as its environment lets it take them: if every
    interference moves the database along [R], so does the run. *)
Definition env_moves (w : World K) : Prop := Forall (λ i, ∀ db, R db (if_db i db)) (w_env w).
Definition world_rel (w w' : World K) : Prop :=
  env_moves w → R (w_db w) (w_db w') ∧ env_moves w'.

#[export] Instance world_rel_preorder : PreOrder world_rel.
Proof.
  split.
  - intros w Hw. by split.
  - intros w1 w2 w3 H12 H23 H1. destruct (H12 H1) as [? H2]. destruct (H23 H2).
    split; [by etransitivity|done].
Qed.

Lemma world_yield : within world_rel yield.
Proof.
  intros [db k now [|i env] ms] Hw; unfold yield; simpl; [by split|].
  unfold env_moves in *. simpl in *. apply Forall_cons in Hw as [Hi Hw]. by split.
Qed.

Lemma world_query {A} (f : Z → DB → A) : within world_rel (query f).
Proof. intros w Hw. by split. Qed.

Lemma world_execute (f : Z → DB → DB) :
  (∀ now db, R db (f now db)) → within world_rel (execute_sql f).
Proof. intros Hf w Hw. split; [apply Hf|done]. Qed.

Lemma world_execute_res {A} (f : Z → DB → res A * DB) :
  (∀ now db, R db (f now db).2) → within world_rel (execute_res f).
Proof.
  intros Hf w Hw. unfold execute_res. specialize (Hf (w_now w) (w_db w)).
  destruct (f (w_now w) (w_db w)) as [r db]. by split.
Qed.

Lemma world_pool {A} (m : M (World K) A) : within world_rel m → within world_rel (pool m).
Proof. intros Hm. apply within_bind; [typeclasses eauto|apply world_yield|done]. Qed.

Lemma world_atomically {A} (m : M (World K) A) :
  within world_rel m → within world_rel (atomically m).
Proof.
  intros Hm w Hw. unfold atomically. specialize (Hm w Hw).
  destruct (m w) as [[a|e] w']; [done|]. destruct Hm. by split.
Qed.

Lemma world_transaction {A} (m : M (World K) A) :
  within world_rel m → within world_rel (transaction m).
Proof.
  intros Hm. apply within_bind; [typeclasses eauto|apply world_yield|].
  intros _. by apply world_atomically.
Qed.

Lemma world_on_kube {A} (m : M K A) : within world_rel (on_kube m).
Proof. intros w Hw. unfold on_kube, zoom. destruct (m (w_kube w)) as [r k]. by split. Qed.

Lemma world_kube {A} (m : M K A) : within world_rel (kube m).
Proof.
  apply within_bind; [typeclasses eauto|apply world_yield|]. intros _. apply world_on_kube.
Qed.

Lemma world_date_now : within world_rel date_now.
Proof. intros w Hw. by split. Qed.
End world_rel.

#[export] Hint Resolve world_yield world_query world_on_kube world_kube world_date_now : within.

(** As [within_step], through the world's own operations. *)
Ltac world_step :=
  match goal with
  | |- within (world_rel _) (pool _) => apply world_pool; [typeclasses eauto|]
  | |- within (world_rel _) (transaction _) => apply world_transaction; [typeclasses eauto|]
  | |- within (world_rel _) (execute_sql _) => apply world_execute; intros ? ?
  | |- within (world_rel _) (execute_res _) => apply world_execute_res; intros ? ?
  | _ => within_step
  end.
Ltac world_solve := repeat world_step.

(** ** Waiting, and what a returning computation has done *)
Section waiting.
Context {K : Type}.
Implicit Types (w : World K).

Definition after_yield w : World K := (yield w).2.
Lemma yield_eq w : yield w = (Ok tt, after_yield w).
Proof. unfold after_yield, yield. by destruct w as [? ? ? [] ?]. Qed.

Lemma pool_eq {A} (m : M (World K) A) w : pool m w = m (after_yield w).
Proof. unfold pool. by rewrite (bind_Ok _ _ _ _ _ (yield_eq w)). Qed.
Lemma transaction_eq {A} (m : M (World K) A) w : transaction m w = atomically m (after_yield w).
Proof. unfold transaction. by rewrite (bind_Ok _ _ _ _ _ (yield_eq w)). Qed.
Lemma committed {A} (m : M (World K) A) w a w' :
  transaction m w = (Ok a, w') → m (after_yield w) = (Ok a, w').
Proof. rewrite transaction_eq. unfold atomically. by destruct (m (after_yield w)) as [[]]. Qed.
Lemma kube_eq {A} (m : M K A) w : kube m w = on_kube m (after_yield w).
Proof. unfold kube. by rewrite (bind_Ok _ _ _ _ _ (yield_eq w)). Qed.

Lemma with_same_db w : w <| w_db := w_db w |> = w.
Proof. by destruct w. Qed.

Lemma execute_res_Ok_inv {A} (f : Z → DB → res A * DB) w a w' :
  execute_res f w = (Ok a, w') → ∃ db', f (w_now w) (w_db w) = (Ok a, db') ∧ w' = w <| w_db := db' |>.
Proof. unfold execute_res. destruct (f _ _) as [r db']. intros [= -> <-]. by exists db'. Qed.
Lemma query_Ok_inv {A} (f : Z → DB → A) w a w' :
  query f w = (Ok a, w') → a = f (w_now w) (w_db w) ∧ w' = w.
Proof. by intros [= <- <-]. Qed.
Lemma execute_sql_Ok_inv (f : Z → DB → DB) w u w' :
  execute_sql f w = (Ok u, w') → w' = w <| w_db := f (w_now w) (w_db w) |>.
Proof. by intros [= _ <-]. Qed.

Lemma insert_operation_Ok op db u db' :
  insert_operation op db = (Ok u, db') →
  db_operations db !! op_id op = None ∧ db' = db <| db_operations ::= <[op_id op := op]> |> ∧
  ∀ id o, db_operations db !! id = Some o → same_key op o = false ∧ both_active op o = false.
Proof.
  unfold insert_operation. cbv zeta. case_bool_decide as E; [done|].
  destruct (existsb (same_key op) _) eqn:E1; [done|]. destruct (existsb (both_active op) _) eqn:E2; [done|].
  destruct (existsb (both_initialize op) _); [done|]. intros [= _ <-]. split_and!; [by apply eq_None_not_Some|done|].
  intros id o Ho. assert (o ∈ rows (db_operations db)) as Hin%list_elem_of_In by (apply rows_elem; eauto).
  split; apply not_true_iff_false; intros Ht; [apply not_true_iff_false in E1; apply E1|apply not_true_iff_false in E2; apply E2];
    apply existsb_exists; eauto.
Qed.

(** A computation that does not wait: the clock stands and nobody interferes. *)
Definition immediate w w' : Prop := w_env w' = w_env w ∧ w_now w' = w_now w.
#[export] Instance immediate_preorder : PreOrder immediate.
Proof. split; [done|]. intros w1 w2 w3 [] []. split; congruence. Qed.

Lemma immediate_query {A} (f : Z → DB → A) : within immediate (query f).
Proof. by intros w. Qed.
Lemma immediate_execute (f : Z → DB → DB) : within immediate (execute_sql f).
Proof. by intros w. Qed.
Lemma immediate_execute_res {A} (f : Z → DB → res A * DB) : within immediate (execute_res f).
Proof. intros w. unfold execute_res. by destruct (f _ _). Qed.
Lemma immediate_on_kube {A} (m : M K A) : within immediate (on_kube m).
Proof. intros w. unfold on_kube, zoom. by destruct (m _). Qed.

(** A transaction moves the database along [R] if it does where it commits. *)
Lemma world_committed (R : relation DB) `{!PreOrder R} {A} (m : M (World K) A) :
  within immediate m → (∀ w a w', m w = (Ok a, w') → R (w_db w) (w_db w')) →
  within (world_rel R) (transaction m).
Proof.
  intros Hi Hm w Hw. rewrite transaction_eq. destruct (world_yield R w Hw) as [Hy Hw1].
  change ((yield w).2) with (after_yield w) in *. unfold atomically.
  specialize (Hi (after_yield w)). destruct (m (after_yield w)) as [[a|e] w'] eqn:E; destruct Hi as [He _]; simpl in He.
  - split; [etransitivity; [exact Hy|by eapply Hm]|]. unfold env_moves in *. simpl. by rewrite He.
  - split; [exact Hy|]. unfold env_moves in *. simpl in *. by rewrite He.
Qed.
End waiting.

#[export] Hint Resolve immediate_query immediate_execute immediate_execute_res immediate_on_kube : within.
