(* ===== verification/Quotas.v ===== *)
(** * Project quotas and resource reservations

    [apps/admin-api/src/quotas.ts]: the schema of the limits, the snapshot of a
    project's reservations, the admission check, reserving the resources of an
    accepted request and settling them when the operation has succeeded. *)
From Stdlib Require Import ZArith Lia Ascii.
From stdpp Require Import base tactics list option strings gmap.
From S2P Require Import Prelude Regex Numbers Effects Catalog Contract Database.

(** ** Limits *)
Record Quota := MkQuota {
  q_instances : option Z; q_storageGiB : option Z; q_cpuMillis : option Z; q_memoryMiB : option Z }.
#[export] Instance Quota_eq_dec : EqDecision Quota.
Proof. solve_decision. Defined.

(** [z.number().int().min(0).max(2147483647).nullable()] *)
Definition limit (j : json) : option (option Z) :=
  match j with JNull => Some None | _ => Some <$> z_int 0 2147483647 j end.

Definition quotaInput (j : json) : option Quota :=
  match j with
  | JObj fs =>
      if only_keys ["instances"; "storageGiB"; "cpuMillis"; "memoryMiB"] fs then
        instances ← required limit (field "instances" fs);
        storageGiB ← required limit (field "storageGiB" fs);
        cpuMillis ← required limit (field "cpuMillis" fs);
        memoryMiB ← required limit (field "memoryMiB" fs);
        Some (MkQuota instances storageGiB cpuMillis memoryMiB)
      else None
  | _ => None
  end.

(** [JSON.stringify(limits)] *)
Definition limit_json (o : option Z) : json :=
  match o with Some z => JInt z | None => JNull end.
Definition quota_json (q : Quota) : json :=
  JObj [("instances", limit_json (q_instances q)); ("storageGiB", limit_json (q_storageGiB q));
        ("cpuMillis", limit_json (q_cpuMillis q)); ("memoryMiB", limit_json (q_memoryMiB q))].

Record Reserved := MkReserved {
  re_instances : Z; re_storageGiB : Z; re_cpuMillis : Z; re_memoryMiB : Z }.
Record Resources := MkRequested { rr_storageGiB : Z; rr_cpuMillis : Z; rr_memoryMiB : Z }.

Record Synchronization := MkSync {
  sy_state : string; sy_observedRevision : option Z; sy_checkedAt : option Z;
  sy_error : option string }.
Record Snapshot := MkSnapshot {
  sn_synchronization : Synchronization; sn_limits : Quota; sn_revision : Z;
  sn_reserved : Reserved; sn_unknownReservations : Z }.

(** ** The aggregate query of a project's bindings *)
Definition not_in (l : list Lifecycle) (b : Binding) : bool := bool_decide (bi_lifecycle b ∉ l).

Definition count_instances (b : Binding) : Z := if not_in [LDeleted; LDetached] b then 1 else 0.
Definition held_storage (b : Binding) : Z :=
  if not_in [LDeleted] b then default 0 (bi_reserved_storage_gib b) else 0.
Definition held_cpu (b : Binding) : Z :=
  if not_in [LDeleted; LDetached] b then default 0 (bi_reserved_cpu_millis b) else 0.
Definition held_memory (b : Binding) : Z :=
  if not_in [LDeleted; LDetached] b then default 0 (bi_reserved_memory_mib b) else 0.
Definition count_unknown (b : Binding) : Z :=
  if not_in [LDeleted] b &&
     (oeq (bi_reserved_storage_gib b) None ||
      not_in [LDetached] b && (oeq (bi_reserved_cpu_millis b) None || oeq (bi_reserved_memory_mib b) None))
  then 1 else 0.

(** [SELECT sum(f) FROM instance_bindings WHERE project_id=$1] *)
Definition sum_bindings (f : Binding → Z) (projectId : string) (db : DB) : Z :=
  map_sum (λ b, if String.eqb (bi_project_id b) projectId then f b else 0) (db_bindings db).

Definition reserved_of (projectId : string) (db : DB) : Reserved :=
  {| re_instances := js_number (sum_bindings count_instances projectId db);
     re_storageGiB := js_number (sum_bindings held_storage projectId db);
     re_cpuMillis := js_number (sum_bindings held_cpu projectId db);
     re_memoryMiB := js_number (sum_bindings held_memory projectId db) |}.
Definition unknown_of (projectId : string) (db : DB) : Z :=
  js_number (sum_bindings count_unknown projectId db).

Section quotas.
Context {K : Type}.

Definition quotaSnapshot (projectId : string) : M (World K) Snapshot :=
  project ← query (λ _ db, db_projects db !! projectId);
  project ← lift (of_option (HttpError 404 "Project not found") project);
  reserved ← query (λ _ db, reserved_of projectId db);
  unknown ← query (λ _ db, unknown_of projectId db);
  limits ← lift (of_option ZodError (quotaInput (pr_quota_limits project)));
  mret {|
    sn_synchronization := {|
      sy_state := if truthy (pr_quota_sync_error project) then "Failed"
                  else if oeq (pr_quota_observed_revision project) (Some (pr_quota_revision project))
                  then "Applied" else "Pending";
      sy_observedRevision := pr_quota_observed_revision project;
      sy_checkedAt := js_date <$> pr_quota_checked_at project;
      sy_error := pr_quota_sync_error project |};
    sn_limits := limits; sn_revision := pr_quota_revision project;
    sn_reserved := reserved; sn_unknownReservations := unknown |}.
End quotas.

(** [limits[key] !== null && reserved[key] > limits[key]] for one key. *)
Definition check_limit (key : string) (limit : option Z) (reserved : Z) : res () :=
  match limit with
  | Some l => when_throw (l <? reserved) (HttpError 409 ("Project quota exceeded: " +:+ key))
  | None => mret tt
  end.

Definition checkQuota (limits : Quota) (reserved : Reserved) (unknown : Z) : res () :=
  when_throw (negb (unknown =? 0) &&
      existsb (λ v, negb (oeq v None))
        [q_instances limits; q_storageGiB limits; q_cpuMillis limits; q_memoryMiB limits])
    (HttpError 409 "Project has unresolved resource reservations") ;;
  check_limit "instances" (q_instances limits) (re_instances reserved) ;;
  check_limit "storageGiB" (q_storageGiB limits) (re_storageGiB reserved) ;;
  check_limit "cpuMillis" (q_cpuMillis limits) (re_cpuMillis reserved) ;;
  check_limit "memoryMiB" (q_memoryMiB limits) (re_memoryMiB reserved).

(** [UPDATE instance_bindings SET reserved_* = greatest(...)]: the row and the
    guard of its WHERE clause. *)
Definition raise_reservation (input : Resources) (b : Binding) : Binding :=
  b <| bi_reserved_storage_gib ::= λ o, greatest (Some (default 0 o)) (rr_storageGiB input) |>
    <| bi_reserved_cpu_millis ::= λ o, greatest (Some (default 0 o)) (rr_cpuMillis input) |>
    <| bi_reserved_memory_mib ::= λ o, greatest (Some (default 0 o)) (rr_memoryMiB input) |>.
Definition reservable (projectId : string) (b : Binding) : bool :=
  String.eqb (bi_project_id b) projectId && not_in [LDeleted; LDetached] b.

Definition has_reservation (b : Binding) : bool :=
  negb (oeq (bi_reserved_storage_gib b) None || oeq (bi_reserved_cpu_millis b) None ||
        oeq (bi_reserved_memory_mib b) None).

(** The digits before a unit: [/^(\d+)unit$/.exec(text)]. *)
Definition read_unit (unit text : string) : option Z :=
  match captures (rplus rdigit) (rlit unit) text with
  | Some (n, _) => Some (js_number (dec_val (chars n)))
  | None => None
  end.

Section quotas.
Context {K : Type}.

Definition reserveResources (projectId instanceId : string) (input : Resources)
    (creating : bool) : M (World K) () :=
  when (negb creating)
    (row ← query (λ _ db, db_bindings db !! instanceId);
     throw_if (match row with
               | Some b => negb (String.eqb (bi_project_id b) projectId) || negb (has_reservation b)
               | None => true
               end)
       (HttpError 409 "Instance has unresolved resource reservations")) ;;
  row ← query (λ _ db, db_bindings db !! instanceId);
  execute_sql (λ _ db, db <| db_bindings ::=
    update_row (reservable projectId) (raise_reservation input) instanceId |>) ;;
  throw_if (match row with Some b => negb (reservable projectId b) | None => true end)
    (HttpError 409 "Instance cannot reserve resources") ;;
  snapshot ← quotaSnapshot projectId;
  lift (checkQuota (sn_limits snapshot) (sn_reserved snapshot) (sn_unknownReservations snapshot)).

Definition settle_row (storage cpu memory : Z) (b : Binding) : Binding :=
  b <| bi_reserved_storage_gib ::= λ o, greatest o storage |>
    <| bi_reserved_cpu_millis := Some cpu |> <| bi_reserved_memory_mib := Some memory |>.

Definition settleResources (instanceId : string) (desired : CacheObject) : M (World K) () :=
  let requests := rs_requests (sp_resources (co_spec desired)) in
  match read_unit "Gi" (st_capacity (sp_storage (co_spec desired))),
        read_unit "m" (nullish (requests !! "cpu") ""),
        read_unit "Mi" (nullish (requests !! "memory") "") with
  | Some storage, Some cpu, Some memory =>
      execute_sql (λ _ db, db <| db_bindings ::=
        update_row always (settle_row storage cpu memory) instanceId |>)
  | _, _, _ => throw (JsError "Unsupported reservation units")
  end.
End quotas.

(** ** What a quota means *)
Definition within_limit (l : option Z) (z : Z) : Prop :=
  match l with Some l => z ≤ l | None => True end.
Definition valid_limit (l : option Z) : Prop :=
  match l with Some l => 0 ≤ l ≤ 2147483647 | None => True end.
Definition valid_quota (q : Quota) : Prop :=
  valid_limit (q_instances q) ∧ valid_limit (q_storageGiB q) ∧
  valid_limit (q_cpuMillis q) ∧ valid_limit (q_memoryMiB q).
Definition unlimited (q : Quota) : Prop := q = MkQuota None None None None.

(** The exact sums of a project's reservations respect its limits. *)
Definition within_quota (projectId : string) (db : DB) : Prop :=
  ∃ project q,
    db_projects db !! projectId = Some project ∧ quotaInput (pr_quota_limits project) = Some q ∧
    (unlimited q ∨ sum_bindings count_unknown projectId db = 0) ∧
    within_limit (q_instances q) (sum_bindings count_instances projectId db) ∧
    within_limit (q_storageGiB q) (sum_bindings held_storage projectId db) ∧
    within_limit (q_cpuMillis q) (sum_bindings held_cpu projectId db) ∧
    within_limit (q_memoryMiB q) (sum_bindings held_memory projectId db).

(** A binding holds at least what a request asks for. *)
Definition holds (input : Resources) (b : Binding) : Prop :=
  ∃ s c m, bi_reserved_storage_gib b = Some s ∧ bi_reserved_cpu_millis b = Some c ∧
    bi_reserved_memory_mib b = Some m ∧
    rr_storageGiB input ≤ s ∧ rr_cpuMillis input ≤ c ∧ rr_memoryMiB input ≤ m.

(** ** The limits schema *)
Lemma limit_Some j l : limit j = Some l → valid_limit l ∧ j = limit_json l.
Proof.
  unfold limit. intros H.
  assert ((j = JNull ∧ l = None) ∨ ∃ z, l = Some z ∧ z_int 0 2147483647 j = Some z) as
    [[-> ->]|(z & -> & [-> Hz]%z_int_Some)]; [|done..].
  destruct j; [left; by simplify_eq|right..]; apply fmap_Some in H as (k & ? & ->); by exists k.
Qed.

Lemma limit_print l : valid_limit l → limit (limit_json l) = Some l.
Proof.
  destruct l as [z|]; [|done]. intros Hz. unfold limit, limit_json. by rewrite z_int_in.
Qed.

Lemma quotaInput_valid j q : quotaInput j = Some q → valid_quota q.
Proof.
  unfold quotaInput, required. intros H. destruct j; try done. split_if_in H; [|done].
  option_inv.
  repeat match goal with H : limit _ = Some _ |- _ => apply limit_Some in H as [? _] end.
  by split_and!.
Qed.

(** ** Rounding of the aggregates *)
Lemma js_number_zero z : 0 ≤ z → js_number z = 0 ↔ z = 0.
Proof.
  intros Hz. destruct (decide (z < 2 ^ 53)) as [?|Hl].
  - by rewrite js_number_exact.
  - pose proof (js_number_large z). lia.
Qed.

Lemma count_unknown_nonneg b : 0 ≤ count_unknown b.
Proof. unfold count_unknown. by case_match. Qed.

Lemma sum_bindings_nonneg f projectId db :
  (∀ b, 0 ≤ f b) → 0 ≤ sum_bindings f projectId db.
Proof. intros Hf. apply map_sum_nonneg. intros. case_match; [apply Hf|done]. Qed.

Lemma check_limit_Ok key l z u :
  valid_limit l → check_limit key l (js_number z) = Ok u ↔ within_limit l z.
Proof.
  destruct u, l as [l|]; simpl; intros Hl; [|done]. rewrite when_throw_Ok, Z.ltb_ge.
  pose proof (js_number_gt z l). lia.
Qed.

Lemma unlimited_spec q :
  existsb (λ v, negb (oeq v None)) [q_instances q; q_storageGiB q; q_cpuMillis q; q_memoryMiB q]
    = false ↔ unlimited q.
Proof.
  unfold unlimited. destruct q as [[] [] [] []]; simpl; split; intros; try done.
Qed.

(** The admission check on the aggregates decides the quota on the exact sums. *)
Lemma checkQuota_Ok projectId db project q u :
  db_projects db !! projectId = Some project → quotaInput (pr_quota_limits project) = Some q →
  checkQuota q (reserved_of projectId db) (unknown_of projectId db) = Ok u ↔
  within_quota projectId db.
Proof.
  intros Hp Hq. destruct (quotaInput_valid _ _ Hq) as (V1 & V2 & V3 & V4).
  pose proof (sum_bindings_nonneg count_unknown projectId db count_unknown_nonneg) as Hn.
  pose proof (js_number_zero _ Hn) as Hz.
  unfold checkQuota, unknown_of, reserved_of.
  cbn [re_instances re_storageGiB re_cpuMillis re_memoryMiB].
  rewrite !res_seq_Ok, when_throw_Ok.
  rewrite andb_false_iff, unlimited_spec, negb_false_iff, Z.eqb_eq, Hz.
  rewrite !check_limit_Ok by done. split.
  - intros (Hu & ?). exists project, q. split_and!; tauto.
  - intros (project' & q' & Hp' & Hq' & Hu & ?). simplify_eq. tauto.
Qed.

(** ** Reading back the printed reservations *)
Lemma read_unit_printed u n :
  u ∈ ["Gi"; "m"; "Mi"]%string → 0 ≤ n < 2 ^ 53 → read_unit u (dec_str n +:+ u) = Some n.
Proof.
  intros Hu Hn. unfold read_unit. rewrite (captures_unique is_digit).
  - by rewrite dec_val_str, js_number_exact by lia.
  - by intros l [_ ?]%lang_plus_chr.
  - intros c l Hl%lang_lit. 
    repeat apply elem_of_cons in Hu as [-> |Hu]; [by injection Hl as -> ?..|].
    by apply elem_of_nil in Hu.
  - apply dec_str_lang. lia.
  - by apply lang_lit.
Qed.

(** ** Reservation and settlement on the sums *)
Definition resources_of (i : InstanceInput) : Resources :=
  MkRequested (in_storageGiB i) (in_cpuMillis i) (in_memoryMiB i).

Lemma raise_holds input b : holds input (raise_reservation input b).
Proof.
  unfold holds, raise_reservation. simpl.
  eexists _, _, _. split_and!; try done; lia.
Qed.

Lemma sum_bindings_update f projectId db id b b' :
  db_bindings db !! id = Some b → bi_project_id b' = bi_project_id b →
  sum_bindings f projectId (db <| db_bindings ::= <[id := b']> |>) =
  sum_bindings f projectId db +
    (if String.eqb (bi_project_id b) projectId then f b' - f b else 0).
Proof.
  intros Hb Hp. unfold sum_bindings. simpl. erewrite map_sum_update by done. rewrite Hp.
  case_match; lia.
Qed.

Lemma within_quota_same projectId db db' :
  db_projects db' = db_projects db → db_bindings db' = db_bindings db →
  within_quota projectId db → within_quota projectId db'.
Proof. intros EP EB. unfold within_quota, sum_bindings. by rewrite EP, EB. Qed.

Lemma within_limit_mono l z z' : z' ≤ z → within_limit l z → within_limit l z'.
Proof. destruct l; simpl; lia. Qed.

(** A change of one binding that raises none of the sums keeps the quota. *)
Lemma within_quota_update projectId db id b b' :
  db_bindings db !! id = Some b → bi_project_id b' = bi_project_id b →
  count_instances b' ≤ count_instances b → held_storage b' ≤ held_storage b →
  held_cpu b' ≤ held_cpu b → held_memory b' ≤ held_memory b →
  count_unknown b' ≤ count_unknown b →
  within_quota projectId db → within_quota projectId (db <| db_bindings ::= <[id := b']> |>).
Proof.
  intros Hb Hp Hi Hs Hc Hm Hu (pr & q & Hpr & Hq & Hun & ? & ? & ? & ?).
  assert (∀ f, f b' ≤ f b → sum_bindings f projectId (db <| db_bindings ::= <[id := b']> |>) ≤
    sum_bindings f projectId db) as Hle.
  { intros f Hf. rewrite (sum_bindings_update f projectId db id b b' Hb Hp). case_match; lia. }
  pose proof (sum_bindings_nonneg count_unknown projectId (db <| db_bindings ::= <[id := b']> |>)
    count_unknown_nonneg).
  exists pr, q. split_and!; try done; try (by eapply within_limit_mono; [apply Hle|]).
  destruct Hun as [|Hun]; [by left|right].
  apply Z.le_antisymm; [rewrite <- Hun; by apply Hle|done].
Qed.

Lemma settle_keeps_quota projectId db id b input :
  db_bindings db !! id = Some b → holds input b →
  within_quota projectId db →
  within_quota projectId (db <| db_bindings ::=
    <[id := settle_row (rr_storageGiB input) (rr_cpuMillis input) (rr_memoryMiB input) b]> |>).
Proof.
  intros Hb (s & c & m & Es & Ec & Em & ? & ? & ?). apply (within_quota_update _ _ _ b); [done..| | | | |];
    unfold count_instances, held_storage, held_cpu, held_memory, count_unknown, not_in;
    simpl; rewrite ?Es, ?Ec, ?Em; repeat case_bool_decide; simpl; lia.
Qed.

(** ** Running the operations *)
Section runs.
Context {K : Type}.
Implicit Types (w : World K).

Lemma quotaSnapshot_state projectId w r w' : quotaSnapshot projectId w = (r, w') → w' = w.
Proof.
  unfold quotaSnapshot, query, lift, mbind, M_bind, of_option.
  destruct (_ !! projectId) as [pr|]; [|by intros [= _ <-]]. cbn.
  destruct (quotaInput _); by intros [= _ <-].
Qed.

Lemma quotaSnapshot_Ok projectId w s w' :
  quotaSnapshot projectId w = (Ok s, w') →
  ∃ project, db_projects (w_db w) !! projectId = Some project ∧
    quotaInput (pr_quota_limits project) = Some (sn_limits s) ∧
    sn_reserved s = reserved_of projectId (w_db w) ∧
    sn_unknownReservations s = unknown_of projectId (w_db w).
Proof.
  unfold quotaSnapshot, query, lift, mbind, M_bind, of_option.
  destruct (_ !! projectId) as [pr|]; [|done]. cbn.
  destruct (quotaInput _) eqn:Hq; [|done]. intros [= <- _]. simpl. eauto.
Qed.

Lemma quotaSnapshot_total projectId w project q :
  db_projects (w_db w) !! projectId = Some project → quotaInput (pr_quota_limits project) = Some q →
  ∃ s, quotaSnapshot projectId w = (Ok s, w).
Proof.
  intros Hp Hq. unfold quotaSnapshot, query, lift, mbind, M_bind, of_option.
  rewrite Hp. cbn. rewrite Hq. by eexists.
Qed.

(** The admission check at the end of a reservation. *)
Lemma snapshot_check projectId w w' :
  (snapshot ← quotaSnapshot projectId;
   lift (checkQuota (sn_limits snapshot) (sn_reserved snapshot)
           (sn_unknownReservations snapshot))) w = (Ok tt, w') ↔
  within_quota projectId (w_db w) ∧ w' = w.
Proof.
  split.
  - intros (s & w1 & Hs & Hc)%bind_Ok_inv. pose proof (quotaSnapshot_state _ _ _ _ Hs) as ->.
    apply quotaSnapshot_Ok in Hs as (pr & Hp & Hq & Hr & Hu). injection Hc as Hc <-.
    split; [|done]. rewrite Hr, Hu in Hc. by eapply checkQuota_Ok.
  - intros [Hw ->]. pose proof Hw as (pr & q & Hp & Hq & _).
    destruct (quotaSnapshot_total projectId w pr q Hp Hq) as [s Hs].
    rewrite (bind_Ok _ _ _ _ _ Hs). unfold lift. f_equal.
    apply quotaSnapshot_Ok in Hs as (pr' & Hp' & Hq' & -> & ->).
    by eapply checkQuota_Ok.
Qed.

Definition reserved_db (projectId id : string) (input : Resources) (db : DB) : DB :=
  db <| db_bindings ::= update_row (reservable projectId) (raise_reservation input) id |>.

Lemma reserved_db_Some projectId id input db b :
  db_bindings db !! id = Some b → reservable projectId b = true →
  reserved_db projectId id input db = db <| db_bindings ::= <[id := raise_reservation input b]> |>.
Proof. intros Hb Hr. unfold reserved_db, update_row. simpl. by rewrite Hb, Hr. Qed.

(** The requirement on an existing instance. *)
Lemma reserve_guard projectId id creating w u w1 :
  when (negb creating)
    (row ← query (λ _ db, db_bindings db !! id);
     throw_if (match row with
               | Some b => negb (String.eqb (bi_project_id b) projectId) || negb (has_reservation b)
               | None => true
               end)
       (HttpError 409 "Instance has unresolved resource reservations")) w = (Ok u, w1) ↔
  w1 = w ∧ (creating = true ∨ ∃ b, db_bindings (w_db w) !! id = Some b ∧
    bi_project_id b = projectId ∧ has_reservation b = true).
Proof.
  destruct u, creating; cbn [negb when].
  { split; [by intros [= ->]; split; [|left]|by intros [-> _]]. }
  change ((row ← query (λ _ db, db_bindings db !! id); throw_if _ _) w) with
    (throw_if (S:=World K) (match db_bindings (w_db w) !! id with
               | Some b => negb (String.eqb (bi_project_id b) projectId) || negb (has_reservation b)
               | None => true
               end) (HttpError 409 "Instance has unresolved resource reservations") w).
  rewrite throw_if_Ok. destruct (db_bindings (w_db w) !! id) as [b|].
  - rewrite orb_false_iff, !negb_false_iff, String.eqb_eq. split.
    + intros [[? ?] ->]. split; [done|right]. by exists b.
    + intros [-> [?|(? & [= <-] & ? & ?)]]; done.
  - split; [by intros [? _]|]. by intros [_ [?|(? & ? & _)]].
Qed.

Lemma reserve_Ok projectId id input creating w w' :
  reserveResources projectId id input creating w = (Ok tt, w') ↔
  ∃ b, db_bindings (w_db w) !! id = Some b ∧ reservable projectId b = true ∧
    (creating = true ∨ has_reservation b = true) ∧
    within_quota projectId (reserved_db projectId id input (w_db w)) ∧
    w' = w <| w_db := reserved_db projectId id input (w_db w) |>.
Proof.
  unfold reserveResources. split.
  - intros ([] & w1 & [-> Hc]%reserve_guard & H)%bind_Ok_inv.
    apply bind_Ok_inv in H as (row & w1 & [= <- <-] & H).
    apply bind_Ok_inv in H as ([] & w2 & [= <-] & H).
    apply throw_if_bind in H as [Hb H]. apply snapshot_check in H as [Hq ->].
    destruct (db_bindings (w_db w) !! id) as [b|] eqn:E; [|done].
    apply negb_false_iff in Hb. exists b. split_and!; try done.
    destruct Hc as [?|(b' & ? & ? & ?)]; [by left|right; by simplify_eq].
  - intros (b & Hb & Hr & Hc & Hq & ->).
    assert (bi_project_id b = projectId) as Hp.
    { unfold reservable in Hr. boolify. done. }
    erewrite (bind_Ok _ _ _ tt); [|apply reserve_guard; split; [reflexivity|naive_solver]].
    erewrite bind_Ok by reflexivity. erewrite bind_Ok by reflexivity.
    apply throw_if_bind. rewrite Hb, Hr. split; [done|]. by apply snapshot_check.
Qed.

Lemma settle_Ok id c w storage cpu memory :
  read_unit "Gi" (st_capacity (sp_storage (co_spec c))) = Some storage →
  read_unit "m" (nullish (rs_requests (sp_resources (co_spec c)) !! "cpu"%string) "") = Some cpu →
  read_unit "Mi" (nullish (rs_requests (sp_resources (co_spec c)) !! "memory"%string) "") = Some memory →
  settleResources id c w = (Ok tt, w <| w_db ::= λ db, db <| db_bindings ::=
    update_row always (settle_row storage cpu memory) id |> |>).
Proof. intros Hs Hc Hm. unfold settleResources. by rewrite Hs, Hc, Hm. Qed.

Lemma settle_rendered input projectId namespace id storageClass operationId requestHash c w :
  valid_input input →
  desiredObject input projectId namespace id storageClass operationId requestHash = Ok c →
  settleResources id c w = (Ok tt, w <| w_db ::= λ db, db <| db_bindings ::=
    update_row always (settle_row (in_storageGiB input) (in_cpuMillis input) (in_memoryMiB input))
      id |> |>).
Proof.
  intros (_ & ? & ? & ? & _) Hd. apply desiredObject_fields in Hd as Hf.
  destruct Hf as (_&_&_&_&_&_&_&_&_& Es &_& Ec & Em &_).
  apply settle_Ok; rewrite ?Es, ?Ec, ?Em; apply read_unit_printed; (set_solver || lia).
Qed.
End runs.

(** The limits schema and the stored document are a round trip: parsing
    the JSON of a quota gives the quota back exactly when every limit is in
    range, and whatever the schema accepts is in range and re-parses. *)
Theorem quota_roundtrip (q : Quota) (j : json) :
  (quotaInput (quota_json q) = Some q ↔ valid_quota q) ∧
  (quotaInput j = Some q → valid_quota q ∧ quotaInput (quota_json q) = Some q).
Proof.
  assert (valid_quota q → quotaInput (quota_json q) = Some q) as Hp.
  { intros (V1 & V2 & V3 & V4). unfold quotaInput, required. simpl.
    rewrite !limit_print by done. by destruct q. }
  split; [split; [apply quotaInput_valid|done]|].
  intros Hq%quotaInput_valid. auto.
Qed.

(** C14. Admission is exact.  A reservation succeeds exactly when the instance
    is a live binding of the project (with known reservations, unless it is
    being created) and the project stays within its quota on the exact sums
    after its reservations have been raised to the request; it then changes
    nothing but that binding, which holds at least the request, so that no
    other project's sums change. *)
Theorem reserveResources_exact {K} (projectId id : string) (input : Resources)
    (creating : bool) (w w' : World K) :
  reserveResources projectId id input creating w = (Ok tt, w') ↔
  ∃ b, let db' := w_db w <| db_bindings ::= <[id := raise_reservation input b]> |> in
    db_bindings (w_db w) !! id = Some b ∧ bi_project_id b = projectId ∧
    (bi_lifecycle b ∉ [LDeleted; LDetached]) ∧ (creating = true ∨ has_reservation b = true) ∧
    within_quota projectId db' ∧ w' = w <| w_db := db' |> ∧
    holds input (raise_reservation input b) ∧
    (∀ other f, other ≠ projectId → sum_bindings f other db' = sum_bindings f other (w_db w)).
Proof.
  rewrite reserve_Ok. split; intros (b & Hb & H); exists b; cbv zeta in *.
  - destruct H as (Hr & Hc & Hq & ->). rewrite (reserved_db_Some _ _ _ _ b) in * by done.
    unfold reservable, not_in in Hr. boolify. subst.
    split_and!; try done; [apply raise_holds|].
    intros other f Ho. rewrite (sum_bindings_update f _ _ _ b) by done.
    rewrite (proj2 (String.eqb_neq _ _)) by done. lia.
  - destruct H as (<- & Hl & Hc & Hq & -> & _).
    assert (reservable (bi_project_id b) b = true) as Hr.
    { unfold reservable, not_in. rewrite String.eqb_refl. by apply bool_decide_eq_true. }
    rewrite (reserved_db_Some _ _ _ _ b) by done. done.
Qed.

(** C15. Settling an instance with the resource rendered from an accepted input
    never fails (the units it reads are the ones [desiredObject] prints): the
    binding's processor and memory reservations become the input's, its
    storage reservation never shrinks, nothing else changes, and a project
    within its quota stays within it if the binding held the input. *)
Theorem settleResources_rendered {K} (input : InstanceInput) (body : json)
    (projectId namespace id storageClass operationId requestHash : string)
    (c : CacheObject) (b : Binding) (w : World K) :
  instanceInput body = Some input →
  desiredObject input projectId namespace id storageClass operationId requestHash = Ok c →
  db_bindings (w_db w) !! id = Some b →
  ∃ b', settleResources id c w =
      (Ok tt, w <| w_db ::= λ db, db <| db_bindings ::= <[id := b']> |> |>) ∧
    b' = settle_row (in_storageGiB input) (in_cpuMillis input) (in_memoryMiB input) b ∧
    bi_reserved_cpu_millis b' = Some (in_cpuMillis input) ∧
    bi_reserved_memory_mib b' = Some (in_memoryMiB input) ∧
    (∃ s, bi_reserved_storage_gib b' = Some s ∧ in_storageGiB input ≤ s ∧
       ∀ s0, bi_reserved_storage_gib b = Some s0 → s0 ≤ s) ∧
    (holds (resources_of input) b → within_quota (bi_project_id b) (w_db w) →
     within_quota (bi_project_id b) (w_db w <| db_bindings ::= <[id := b']> |>)).
Proof.
  intros Hi Hd Hb. apply instanceInput_Some in Hi as [_ Hv].
  exists (settle_row (in_storageGiB input) (in_cpuMillis input) (in_memoryMiB input) b).
  split_and!; try done.
  - rewrite (settle_rendered _ _ _ _ _ _ _ _ w Hv Hd). unfold update_row, always. simpl. by rewrite Hb.
  - simpl. apply greatest_Some.
  - intros Hh Hq. by apply (settle_keeps_quota _ _ _ _ (resources_of input)).
Qed.

(** ** Witnesses *)
Definition sample_binding : Binding :=
  {| bi_project_id := "p"; bi_resource_name := "c-i"; bi_kubernetes_uid := None;
     bi_lifecycle := LPending; bi_created_by := "u"; bi_created_at := 0;
     bi_display_name := "cache"; bi_template_name := "bazel-remote"; bi_template_version := None;
     bi_reserved_storage_gib := Some 10; bi_reserved_cpu_millis := Some 500;
     bi_reserved_memory_mib := Some 512 |}.
Definition sample_project : Project :=
  {| pr_name := "project"; pr_namespace := "ns"; pr_state := PReady; pr_created_by := "u"; pr_created_at := 0;
     pr_quota_limits := quota_json (MkQuota (Some 1) (Some 20) None (Some 512));
     pr_quota_revision := 1; pr_quota_observed_revision := None; pr_quota_checked_at := None;
     pr_quota_sync_error := None; pr_quota_next_sync := 0; pr_inventory_result := None;
     pr_inventory_checked_at := None; pr_inventory_next_scan := 0;
     pr_inventory_worker_id := None; pr_inventory_lease_until := None |}.
Definition sample_db : DB :=
  empty_db <| db_projects := {[ "p" := sample_project ]} |>
           <| db_bindings := {[ "i" := sample_binding ]} |>.
Definition sample_world {K} (k : K) : World K := MkWorld sample_db k 0 [] [].
Definition sample_input : InstanceInput :=
  {| in_template := BazelRemote; in_name := "cache"; in_storageGiB := 20; in_cpuMillis := 250;
     in_memoryMiB := 512; in_exposure := ClusterInternal; in_desiredState := Running;
     in_deletionPolicy := Retain; in_cacheGiB := 10; in_readOnly := None |}.

Lemma settleResources_rendered_witness :
  ∃ c b', desiredObject sample_input "p" "ns" "i" "sc" "o" "h" = Ok c ∧
    settleResources "i" c (sample_world ()) = (Ok tt, b').
Proof.
  destruct (desiredObject_total sample_input "p" "ns" "i" "sc" "o" "h") as [c Hc].
  destruct (settleResources_rendered sample_input (to_json sample_input) "p" "ns" "i" "sc" "o" "h" c
    sample_binding (sample_world ())) as (b' & H & _);
    [by vm_compute|exact Hc|by vm_compute|].
  eexists c, _. split; [exact Hc|exact H].
Defined.

(** A storage limit of 20 admits 20 and refuses 21. *)
Lemma reserveResources_exact_witness :
  is_ok (reserveResources "p" "i" (MkRequested 20 250 512) true (sample_world ())).1 = true ∧
  (∃ b, db_bindings sample_db !! "i" = Some b ∧ bi_project_id b = "p"%string) ∧
  is_ok (reserveResources "p" "i" (MkRequested 21 250 512) true (sample_world ())).1 = false.
Proof.
  split; [by vm_compute|split; [|by vm_compute]].
  destruct (reserveResources "p" "i" (MkRequested 20 250 512) true (sample_world ()))
    as [[[]|e] w'] eqn:E; [|by vm_compute in E].
  apply (reserveResources_exact "p" "i" (MkRequested 20 250 512) true) in E
    as (b & Hb & Hp & _). by exists b.
Defined.
