(* ===== verification/Secrets.v ===== *)
(** * Sealed operation secrets

    [apps/admin-api/src/secrets.ts]: the key read from the environment and the
    authenticated encryption of the credentials stored with an operation.  The
    cipher ([aes-256-gcm] of [node:crypto]) is a parameter with its documented
    laws; the layout of the payload, the binding to the operation and the JSON
    text inside are the code's. *)
From Stdlib Require Import ZArith Lia Ascii Init.Byte Strings.Byte.
From stdpp Require Import base tactics list option strings.
From S2P Require Import Prelude Regex Numbers Effects Catalog Json.

(** ** Bytes *)
#[export] Instance byte_eq_dec : EqDecision byte := Byte.byte_eq_dec.

Definition hex_digit (c : ascii) : N :=
  let n := N_of_ascii c in
  if (n <? 58)%N then (n - 48)%N else if (n <? 71)%N then (n - 55)%N else (n - 87)%N.

(** [Buffer.from(s, 'hex')] of a string of hexadecimal pairs. *)
Fixpoint from_hex (l : list ascii) : list byte :=
  match l with
  | a :: b :: l => default x00 (Byte.of_N (hex_digit a * 16 + hex_digit b)) :: from_hex l
  | _ => []
  end.

(** [Buffer.from(s)]: the UTF-8 bytes of code units below 256. *)
Definition utf8_char (c : ascii) : list byte :=
  let n := N_of_ascii c in
  if (n <? 128)%N then [byte_of_ascii c]
  else [default x00 (Byte.of_N (192 + n / 64)); default x00 (Byte.of_N (128 + n mod 64))].
Definition utf8 (l : list ascii) : list byte := l ≫= utf8_char.

(** [buffer.toString('utf8')], as long as the text stays below code unit 256. *)
Fixpoint utf8_text (l : list byte) : option (list ascii) :=
  match l with
  | [] => Some []
  | a :: l =>
      let n := Byte.to_N a in
      if (n <? 128)%N then t ← utf8_text l; Some (ascii_of_N n :: t)
      else if (194 <=? n)%N && (n <=? 195)%N then
        match l with
        | b :: l =>
            let m := Byte.to_N b in
            if (128 <=? m)%N && (m <? 192)%N then
              t ← utf8_text l; Some (ascii_of_N ((n - 192) * 64 + (m - 128)) :: t)
            else None
        | [] => None
        end
      else None
  end.

(** ** The cipher *)

(** [createCipheriv]/[createDecipheriv] with additional data: a ciphertext and
    its tag, or the failure of [final()] when the tag does not fit. *)
Class Aead := {
  encrypt (key nonce aad plain : list byte) : list byte * list byte;
  decrypt (key nonce aad cipher tag : list byte) : option (list byte) }.

(** What an authenticated cipher promises: decryption inverts encryption,
    accepts nothing else, and the tag has sixteen bytes. *)
Class AeadLaws `{Aead} : Prop := {
  aead_tag key nonce aad plain : length (encrypt key nonce aad plain).2 = 16%nat;
  aead_spec key nonce aad plain cipher tag :
    decrypt key nonce aad cipher tag = Some plain ↔ encrypt key nonce aad plain = (cipher, tag) }.

(** ** The source *)
Definition encryptionKey (value : string) : res (list byte) :=
  when_throw (negb (test (rtimes 64 (RChr is_hex)) value))
    (JsError "OPERATION_ENCRYPTION_KEY must be 32 bytes encoded as hex") ;;
  mret (from_hex (chars value)).

Section seal.
Context `{Aead}.

(** [nonce] is the value of [randomBytes(12)]. *)
Definition seal (nonce key : list byte) (operationId : string) (data : json) : list byte :=
  let '(encrypted, tag) := encrypt key nonce (utf8 (chars operationId)) (utf8 (stringify data)) in
  nonce ++ tag ++ encrypted.

Definition unseal (key : list byte) (operationId : string) (payload : list byte) : res json :=
  when_throw (length payload <? 28)%nat (JsError "Invalid encrypted payload") ;;
  plain ← of_option (JsError "Unsupported state or unable to authenticate data")
    (decrypt key (take 12 payload) (utf8 (chars operationId)) (drop 28 payload)
       (take 16 (drop 12 payload)));
  text ← of_option (JsError "Unexpected token in JSON") (utf8_text plain);
  of_option (JsError "Unexpected token in JSON") (json_parse text).
End seal.

(** The credentials of an instance as a document. *)
Definition credential_json (htpasswd user password : string) : json :=
  JObj [("htpasswd", JStr htpasswd); ("probe-username", JStr user); ("probe-password", JStr password)].

(** ** Lemmas *)
Lemma utf8_text_app c l : utf8_text (utf8_char c ++ l) = t ← utf8_text l; Some (c :: t).
Proof. destruct c as [[] [] [] [] [] [] [] []]; reflexivity. Qed.

Lemma utf8_text_utf8 l : utf8_text (utf8 l) = Some l.
Proof.
  induction l as [|c l IH]; [done|]. unfold utf8. rewrite bind_cons, utf8_text_app.
  change (l ≫= utf8_char) with (utf8 l). by rewrite IH.
Qed.

Lemma utf8_inj l k : utf8 l = utf8 k → l = k.
Proof. intros E. apply (f_equal utf8_text) in E. rewrite !utf8_text_utf8 in E. congruence. Qed.

Lemma from_hex_length n l : length l = (2 * n)%nat → length (from_hex l) = n.
Proof.
  revert l. induction n as [|n IH]; intros l Hl; [by destruct l|].
  destruct l as [|a [|b l]]; simpl in *; [lia|lia|]. rewrite IH; lia.
Qed.

Lemma encryptionKey_Ok value key :
  encryptionKey value = Ok key ↔
  (length (chars value) = 64%nat ∧ Forall (λ c, is_hex c = true) (chars value)) ∧
  key = from_hex (chars value).
Proof.
  unfold encryptionKey. rewrite res_seq_Ok, when_throw_Ok, negb_false_iff.
  unfold test. rewrite matches_spec, lang_rtimes_chr. apply and_iff_compat_l.
  split; [by intros [= <-]|by intros ->].
Qed.

Section laws.
Context `{AeadLaws}.

Lemma unseal_Ok key operationId payload data :
  unseal key operationId payload = Ok data ↔
  (28 ≤ length payload)%nat ∧ ∃ text,
    encrypt key (take 12 payload) (utf8 (chars operationId)) text =
      (drop 28 payload, take 16 (drop 12 payload)) ∧
    ∃ t, utf8_text text = Some t ∧ json_parse t = Some data.
Proof.
  unfold unseal. rewrite res_seq_Ok, when_throw_Ok, Nat.ltb_ge.
  apply and_iff_compat_l. rewrite res_bind_Ok. split.
  - intros (text & Ht%of_option_Ok%aead_spec & Hd). exists text. split; [done|].
    apply res_bind_Ok in Hd as (t & ?%of_option_Ok & ?%of_option_Ok). eauto.
  - intros (text & Ht & t & Hu & Hj). exists text. split.
    + by apply of_option_Ok, aead_spec.
    + apply res_bind_Ok. exists t. by rewrite Hu, Hj.
Qed.

Lemma seal_layout nonce key operationId data :
  length nonce = 12%nat →
  let payload := seal nonce key operationId data in
  take 12 payload = nonce ∧ (28 ≤ length payload)%nat ∧
  encrypt key nonce (utf8 (chars operationId)) (utf8 (stringify data)) =
    (drop 28 payload, take 16 (drop 12 payload)).
Proof.
  intros Hn. unfold seal. pose proof (aead_tag key nonce (utf8 (chars operationId))
    (utf8 (stringify data))) as Ht.
  destruct (encrypt _ _ _ _) as [c t]. cbv zeta. simpl in Ht.
  rewrite (take_app_length' nonce _ 12) by done. rewrite (drop_app_length' nonce _ 12) by done.
  rewrite (take_app_length' t _ 16) by done. rewrite app_assoc.
  rewrite (drop_app_length' (nonce ++ t) _ 28) by (rewrite length_app; lia).
  rewrite !length_app. split_and!; [done|lia|done].
Qed.

Lemma unseal_seal nonce key operationId data :
  length nonce = 12%nat → printable data →
  unseal key operationId (seal nonce key operationId data) = Ok data.
Proof.
  intros Hn Hp. destruct (seal_layout nonce key operationId data Hn) as (E1 & E2 & E3).
  apply unseal_Ok. split; [done|]. exists (utf8 (stringify data)). rewrite E1. split; [done|].
  exists (stringify data). split; [apply utf8_text_utf8|by apply json_parse_stringify].
Qed.
End laws.

(** ** Properties *)

(** The tag binds the additional data: no two encryptions under one key and
    nonce agree unless their additional data do.  (A cipher makes an accident
    improbable, not impossible; this is the ideal it is used as.) *)
Class AeadBinding `{Aead} : Prop :=
  aead_bound key nonce aad aad' plain plain' :
    encrypt key nonce aad plain = encrypt key nonce aad' plain' → aad = aad'.

(** C40. Sealing is a round trip bound to its operation: a sealed document is
    unsealed to itself under the same key and operation; under another
    operation's identifier it is refused; and whatever a payload unseals to
    was encrypted for that very operation under that key. *)
Theorem seal_roundtrip `{AeadLaws, !AeadBinding} (nonce key payload : list byte)
    (operationId other : string) (data data' : json) :
  length nonce = 12%nat → printable data →
  unseal key operationId (seal nonce key operationId data) = Ok data ∧
  (other ≠ operationId → unseal key other (seal nonce key operationId data) =
     Throw (JsError "Unsupported state or unable to authenticate data")) ∧
  (unseal key other payload = Ok data' →
     ∃ text, encrypt key (take 12 payload) (utf8 (chars other)) text =
       (drop 28 payload, take 16 (drop 12 payload))).
Proof.
  intros Hn Hp. split_and!; [by apply unseal_seal| |].
  - intros Ho. destruct (seal_layout nonce key operationId data Hn) as (E1 & E2 & E3).
    unfold unseal. rewrite (proj2 (Nat.ltb_ge _ _) E2). cbn [when_throw mbind res_bind].
    destruct (decrypt _ _ _ _ _) as [text|] eqn:Ed; [exfalso|done].
    apply aead_spec in Ed. rewrite E1, <- E3 in Ed. apply aead_bound, utf8_inj in Ed.
    apply (f_equal of_chars) in Ed. rewrite !of_chars_chars in Ed. done.
  - intros (_ & text & Ht & _)%unseal_Ok. eauto.
Qed.

(** ** A cipher that satisfies the laws *)

(** The additional data in front of the text: no secrecy, the same laws. *)
Definition zero_tag : list byte := repeat x00 16.
Definition plain_encrypt (key nonce aad plain : list byte) : list byte * list byte :=
  (repeat x01 (length aad) ++ x00 :: aad ++ plain, zero_tag).
Definition plain_decrypt (key nonce aad cipher tag : list byte) : option (list byte) :=
  let plain := drop (length aad + (1 + length aad)) cipher in
  if bool_decide (plain_encrypt key nonce aad plain = (cipher, tag)) then Some plain else None.
Definition plain_aead : Aead := {| encrypt := plain_encrypt; decrypt := plain_decrypt |}.

Lemma plain_drop aad plain :
  drop (length aad + (1 + length aad)) (repeat x01 (length aad) ++ x00 :: aad ++ plain) = plain.
Proof.
  rewrite <- drop_drop. rewrite (drop_app_length' (repeat x01 (length aad))) by (by rewrite repeat_length).
  change (1 + length aad)%nat with (S (length aad)). cbn [drop]. apply drop_app_length.
Qed.

Lemma plain_laws : @AeadLaws plain_aead.
Proof.
  split; [done|]. intros key nonce aad plain cipher tag. simpl. unfold plain_decrypt. split.
  - case_bool_decide as E; [|done]. by intros [= <-].
  - intros E. pose proof E as [= <- <-]. by rewrite plain_drop, bool_decide_true.
Qed.

Lemma ones_inj n m l k : repeat x01 n ++ x00 :: l = repeat x01 m ++ x00 :: k → n = m.
Proof.
  revert m. induction n as [|n IH]; intros [|m]; simpl; try done.
  intros [= E]. f_equal. by apply IH.
Qed.

Lemma plain_binding : @AeadBinding plain_aead.
Proof.
  intros key nonce aad aad' plain plain' [= E]. pose proof (ones_inj _ _ _ _ E) as Hl.
  rewrite Hl in E. apply app_inv_head in E as [= E']. by apply app_inj_1 in E' as [? _].
Qed.

Lemma seal_roundtrip_witness :
  let sealed := @seal plain_aead (repeat x02 12) [x07] "op" (credential_json "h" "health" "secret") in
  @unseal plain_aead [x07] "op" sealed = Ok (credential_json "h" "health" "secret") ∧
  @unseal plain_aead [x07] "another" sealed = Throw (JsError "Unsupported state or unable to authenticate data") ∧
  ∃ text, @encrypt plain_aead [x07] (take 12 sealed) (utf8 (chars "op")) text = (drop 28 sealed, take 16 (drop 12 sealed)).
Proof.
  set (sealed := @seal plain_aead (repeat x02 12) [x07] "op" (credential_json "h" "health" "secret")).
  assert (printable (credential_json "h" "health" "secret")) as Hp.
  { apply printable_obj. split; [|by repeat constructor]. apply (bool_decide_unpack _). by vm_compute. }
  assert (∀ other, _) as H by (intros other; exact (@seal_roundtrip plain_aead plain_laws plain_binding (repeat x02 12)
    [x07] sealed "op" other _ (credential_json "h" "health" "secret") eq_refl Hp)).
  destruct (H "op") as (E & _ & Hs), (H "another") as (_ & Hr & _).
  split; [exact E|]. split; [by apply Hr|exact (Hs E)].
Defined.
