(* ===== verification/Security.v ===== *)
(** * Digests and passwords

    [apps/admin-api/src/security.ts].  SHA-256 and scrypt are functions of
    [node:crypto] and parameters here; the formats built on them are the
    code's. *)
From Stdlib Require Import ZArith Lia Ascii Init.Byte.
From stdpp Require Import base tactics list option strings.
From S2P Require Import Prelude Regex Numbers Effects Catalog Json Secrets.

(** What the code takes from [node:crypto]; a derived key has the 64 bytes it
    asks for. *)
Class Digests := {
  sha256 : list byte → list byte;
  scrypt (password salt : list byte) : list byte;
  scrypt_length password salt : length (scrypt password salt) = 64%nat }.

(** ** Hexadecimal *)
Definition hex_pair (b : byte) : list ascii :=
  let n := Z.of_N (Byte.to_N b) in [hex_chr (n / 16); hex_chr (n mod 16)].
Definition to_hex (l : list byte) : string := of_chars (l ≫= hex_pair).

(** [s.split(separator)] *)
Fixpoint split_on (c : ascii) (l : list ascii) : list (list ascii) :=
  match l with
  | [] => [[]]
  | d :: l =>
      if Ascii.eqb d c then [] :: split_on c l
      else match split_on c l with
           | x :: xs => (d :: x) :: xs
           | [] => [[d]]
           end
  end.

Section security.
Context `{Digests}.

(** [createHash('sha256').update(value).digest('hex')] *)
Definition digest (value : list ascii) : string := to_hex (sha256 (utf8 value)).

Definition derive (password salt : list ascii) : list byte := scrypt (utf8 password) (utf8 salt).

(** [random] is the value of [randomBytes(16)]. *)
Definition hashPassword (random : list byte) (password : string) : string :=
  let salt := to_hex random in
  "scrypt$" +:+ salt +:+ "$" +:+ to_hex (derive (chars password) (chars salt)).

Definition is_lower_hex (c : ascii) : bool := in_range "a" "f" c || is_digit c.

(** [Buffer.from(key, 'hex')] of 128 hexadecimal digits has 64 bytes, so the
    comparison never throws. *)
Definition verifyPassword (password encoded : string) : bool :=
  match split_on "$" (chars encoded) with
  | algorithm :: salt :: key :: _ =>
      if negb (bool_decide (algorithm = chars "scrypt")) || bool_decide (salt = []) ||
         bool_decide (key = []) || negb (matches (rtimes 128 (RChr is_lower_hex)) key)
      then false
      else bool_decide (derive (chars password) salt = from_hex key)
  | _ => false
  end.
End security.

(** ** Lemmas *)
Lemma hex_pair_inv b : from_hex (hex_pair b) = [b].
Proof. destruct b; reflexivity. Qed.

Lemma from_hex_app b l : from_hex (hex_pair b ++ l) = b :: from_hex l.
Proof. destruct b; reflexivity. Qed.

Lemma from_hex_to_hex l : from_hex (l ≫= hex_pair) = l.
Proof. induction l as [|b l IH]; [done|]. rewrite bind_cons, from_hex_app. by rewrite IH. Qed.

Lemma hex_pair_lower b : Forall (λ c, is_lower_hex c = true) (hex_pair b).
Proof. destruct b; repeat constructor. Qed.

Lemma to_hex_lower l : Forall (λ c, is_lower_hex c = true) (l ≫= hex_pair).
Proof.
  induction l as [|b l IH]; [constructor|]. rewrite bind_cons. apply Forall_app. split; [|done].
  apply hex_pair_lower.
Qed.

Lemma to_hex_length l : length (l ≫= hex_pair) = (2 * length l)%nat.
Proof.
  induction l as [|b l IH]; [done|]. rewrite bind_cons, length_app, IH. simpl. lia.
Qed.

Lemma split_on_app c a l : Forall (λ d, Ascii.eqb d c = false) a →
  split_on c (a ++ c :: l) = a :: split_on c l.
Proof.
  induction 1 as [|d a Hd _ IH]; simpl; [by rewrite Ascii.eqb_refl|]. by rewrite Hd, IH.
Qed.
Lemma split_on_end c a : Forall (λ d, Ascii.eqb d c = false) a → split_on c a = [a].
Proof. induction 1 as [|d a Hd _ IH]; simpl; [done|]. by rewrite Hd, IH. Qed.

Lemma lower_hex_dollar c : is_lower_hex c = true → Ascii.eqb c "$" = false.
Proof. by destruct c as [[] [] [] [] [] [] [] []]. Qed.

Lemma to_hex_inj l k : to_hex l = to_hex k → l = k.
Proof.
  intros E. apply (f_equal chars) in E. unfold to_hex in E. rewrite !chars_of_chars in E.
  apply (f_equal from_hex) in E. by rewrite !from_hex_to_hex in E.
Qed.

Section laws.
Context `{Digests}.

(** Two different documents with the same digest: a collision of SHA-256. *)
Definition collide (a b : json) : Prop :=
  stringify a ≠ stringify b ∧ sha256 (utf8 (stringify a)) = sha256 (utf8 (stringify b)).

(** The digest of a document identifies the document. *)
Lemma document_digest_inj a b :
  printable a → printable b → digest (stringify a) = digest (stringify b) → a = b ∨ collide a b.
Proof.
  intros Ha Hb E%to_hex_inj. destruct (decide (stringify a = stringify b)) as [Es|Hne]; [left|by right].
  by apply stringify_inj.
Qed.

Lemma hashPassword_split random password :
  split_on "$" (chars (hashPassword random password)) =
    [chars "scrypt"; random ≫= hex_pair;
     derive (chars password) (random ≫= hex_pair) ≫= hex_pair].
Proof.
  unfold hashPassword, to_hex. rewrite !chars_app, !chars_of_chars.
  change (chars "scrypt$") with (chars "scrypt" ++ ["$"%char]). rewrite <- app_assoc.
  change (["$"%char] ++ ?l) with ("$"%char :: l). rewrite split_on_app by (by repeat constructor).
  change (chars "$" ++ ?l) with ("$"%char :: l).
  rewrite split_on_app, split_on_end; [done|..];
    (eapply Forall_impl; [apply to_hex_lower|]; apply lower_hex_dollar).
Qed.

Lemma verifyPassword_hash random password attempt :
  random ≠ [] →
  verifyPassword attempt (hashPassword random password) =
    bool_decide (derive (chars attempt) (random ≫= hex_pair) = derive (chars password) (random ≫= hex_pair)).
Proof.
  intros Hr. unfold verifyPassword. rewrite hashPassword_split.
  set (salt := random ≫= hex_pair). set (key := derive (chars password) salt).
  assert (length (key ≫= hex_pair) = 128%nat) as Hl.
  { rewrite to_hex_length. subst key. unfold derive. by rewrite scrypt_length. }
  rewrite (bool_decide_true (chars "scrypt" = _)) by done.
  rewrite (bool_decide_false (salt = [])), (bool_decide_false (key ≫= hex_pair = [])).
  - cbn [negb orb]. rewrite (proj2 (matches_spec _ _)), from_hex_to_hex; [done|].
    apply lang_rtimes_chr. split; [done|apply to_hex_lower].
  - intros E. by rewrite E in Hl.
  - subst salt. destruct random; [done|]. rewrite bind_cons. by destruct b.
Qed.
End laws.

(** Passwords: the encoding of a password under any salt is verified by
    that password, and by another one only if scrypt cannot tell them apart;
    an encoding that is not of the form the code writes verifies nothing. *)
Theorem password_roundtrip `{Digests} (random : list byte) (password attempt encoded : string) :
  length random = 16%nat →
  verifyPassword password (hashPassword random password) = true ∧
  (verifyPassword attempt (hashPassword random password) = true →
     scrypt (utf8 (chars attempt)) (utf8 (chars (to_hex random))) =
     scrypt (utf8 (chars password)) (utf8 (chars (to_hex random)))) ∧
  (verifyPassword attempt encoded = true →
     ∃ salt key rest, split_on "$" (chars encoded) = chars "scrypt" :: salt :: key :: rest ∧
       salt ≠ [] ∧ derive (chars attempt) salt = from_hex key).
Proof.
  intros Hr. assert (random ≠ []) as Hne by (by destruct random).
  rewrite !verifyPassword_hash by done. split_and!.
  - by apply bool_decide_eq_true.
  - intros E%bool_decide_eq_true. unfold derive in E. unfold to_hex. by rewrite chars_of_chars.
  - unfold verifyPassword. destruct (split_on _ _) as [|a [|salt [|key rest]]]; try done.
    split_if E; [done|]. boolify. intros E'%bool_decide_eq_true. exists salt, key, rest.
    split_and!; congruence.
Qed.

(** A derivation that keeps the password, for the witness. *)
Definition plain_digests : Digests :=
  {| sha256 := λ l, l;
     scrypt := λ password _, take 64 (password ++ repeat x00 64);
     scrypt_length := λ password _, ltac:(cbn -[take repeat]; rewrite length_take, length_app, repeat_length; lia) |}.

Lemma password_roundtrip_witness :
  @verifyPassword plain_digests "secret" (@hashPassword plain_digests (repeat x01 16) "secret") = true.
Proof.
  apply (@password_roundtrip plain_digests (repeat x01 16) "secret" "" ""); reflexivity.
Defined.
