(* ===== verification/Migrations.v ===== *)
(** * The runner of migrations

    [migrate] of [apps/admin-api/src/db.ts], the whole work of [migrate.ts]: the
    files of the directory are applied in the order of their names, once each,
    in one transaction under an advisory lock.

    The directory is a list of names and texts; what PostgreSQL makes of a text
    is a parameter.  Names are bytes: no name is supposed to have a line or
    paragraph separator beyond ASCII, which [.] does not match either. *)
From Stdlib Require Import ZArith Lia Ascii Sorted.
From stdpp Require Import base tactics list option strings gmap.
From S2P Require Import Prelude Regex Numbers Effects Catalog Json Secrets Security.

(** [/^\d+_.*\.sql$/] *)
Definition migration_pattern : re :=
  RSeq (rplus rdigit) (RSeq (RChr (Ascii.eqb "_")) (RSeq (RStar (RChr (λ c, negb (Ascii.eqb c "010" || Ascii.eqb c "013"))))
    (rlit ".sql"))).

(** The table [schema_migrations], the checksum by name, and the rest of the
    database. *)
Record Schema (D : Type) := MkSchema { sm_migrations : gmap string string; sm_rest : D }.
Arguments MkSchema {D} _ _.
Arguments sm_migrations {D} _.
Arguments sm_rest {D} _.

Section migrate.
Context `{Digests} {D : Type} (run_sql : string → D → res D).

Definition migration_files (directory : list (string * string)) : list (string * string) :=
  stable_sort (λ a b, String.leb a.1 b.1) (filter (λ f, test migration_pattern f.1 = true) directory).
Definition checksum (sql : string) : string := digest (chars sql).

Definition run_text (sql : string) : M (Schema D) () := λ s,
  match run_sql sql (sm_rest s) with
  | Ok d => (Ok tt, MkSchema (sm_migrations s) d)
  | Throw e => (Throw e, s)
  end.
Definition migrate_file (f : string * string) : M (Schema D) () :=
  existing ← gets (λ s, sm_migrations s !! f.1);
  match existing with
  | Some c => throw_if (negb (String.eqb c (checksum f.2))) (JsError ("Migration checksum mismatch: " +:+ f.1))
  | None => run_text f.2 ;;
            modify (λ s, MkSchema (<[f.1 := checksum f.2]> (sm_migrations s)) (sm_rest s))
  end.
(** An exception rolls everything back. *)
Definition migrate (directory : list (string * string)) : M (Schema D) () := λ s,
  match for_each (migration_files directory) migrate_file s with
  | (Ok _, s') => (Ok tt, s')
  | (Throw e, _) => (Throw e, s)
  end.

(** ** What it does *)
Lemma filter_iff_elem {A} (P Q : A → Prop) `{∀ x, Decision (P x), ∀ x, Decision (Q x)} (l : list A) :
  (∀ x, x ∈ l → P x ↔ Q x) → filter P l = filter Q l.
Proof.
  induction l as [|x l IH]; intros Hl; [done|]. rewrite !filter_cons, IH by (intros y Hy; apply Hl; by right).
  specialize (Hl x (list_elem_of_here _ _)). by do 2 case_decide; try tauto.
Qed.
Fixpoint run_all (fs : list (string * string)) (d : D) : res D :=
  match fs with [] => Ok d | f :: fs => d ← run_sql f.2 d; run_all fs d end.
Definition is_new (s : Schema D) (f : string * string) : Prop := sm_migrations s !! f.1 = None.
#[export] Instance is_new_dec s f : Decision (is_new s f).
Proof. unfold is_new. apply _. Defined.

Lemma migrate_file_Ok f s u s' : migrate_file f s = (Ok u, s') →
  (sm_migrations s !! f.1 = Some (checksum f.2) ∧ s' = s) ∨
  is_new s f ∧ sm_migrations s' = <[f.1 := checksum f.2]> (sm_migrations s) ∧ run_sql f.2 (sm_rest s) = Ok (sm_rest s').
Proof.
  unfold migrate_file. intros (e & s1 & [= <- <-] & E)%bind_Ok_inv. unfold is_new.
  destruct (sm_migrations s !! f.1) as [c|] eqn:Ef.
  - apply throw_if_Ok in E as [Hc ->]. boolify. subst. by left.
  - right. apply bind_Ok_inv in E as ([] & s1 & E1 & [= _ <-]). unfold run_text in E1.
    destruct (run_sql f.2 (sm_rest s)) as [d|e]; [|done]. by injection E1 as <-.
Qed.

Lemma migrate_files_Ok fs s u s' :
  NoDup fs.*1 → for_each fs migrate_file s = (Ok u, s') →
  (∀ f, f ∈ fs → sm_migrations s' !! f.1 = Some (checksum f.2)) ∧
  (∀ name, name ∉ fs.*1 → sm_migrations s' !! name = sm_migrations s !! name) ∧
  (∀ name c, sm_migrations s !! name = Some c → sm_migrations s' !! name = Some c) ∧
  run_all (filter (is_new s) fs) (sm_rest s) = Ok (sm_rest s').
Proof.
  revert s. induction fs as [|f fs IH]; intros s; csimpl.
  { intros _ [= _ <-]. split_and!; [|done|done|done]. intros f Hf. by apply not_elem_of_nil in Hf. }
  intros [Hf Hn]%NoDup_cons ([] & s1 & E1%migrate_file_Ok & E2)%bind_Ok_inv.
  destruct (IH s1 Hn E2) as (Hin & Hout & Hold & Hrun).
  assert (∀ name, name ≠ f.1 → sm_migrations s1 !! name = sm_migrations s !! name) as Hne.
  { intros name ?. destruct E1 as [[_ ->]|(_ & -> & _)]; [done|by rewrite lookup_insert_ne]. }
  assert (filter (is_new s1) fs = filter (is_new s) fs) as Hfil.
  { apply filter_iff_elem. intros g Hg. unfold is_new. rewrite Hne; [done|].
    intros E. apply Hf. rewrite <- E. by apply list_elem_of_fmap_2. }
  assert (sm_migrations s1 !! f.1 = Some (checksum f.2)) as H1.
  { destruct E1 as [[? ->]|(_ & -> & _)]; [done|by rewrite lookup_insert_eq]. }
  split_and!.
  - intros g [->|Hg]%elem_of_cons; [by apply Hold|by apply Hin].
  - intros name [? ?]%not_elem_of_cons. by rewrite Hout, Hne.
  - intros name c Hc. apply Hold. destruct (decide (name = f.1)) as [->|]; [|by rewrite Hne].
    destruct E1 as [[? ->]|(Hnew & _)]; [done|]. unfold is_new in Hnew. congruence.
  - rewrite Hfil in Hrun. destruct E1 as [[Hs ->]|(Hnew & _ & Hsql)].
    + rewrite filter_cons_False by (unfold is_new; congruence). done.
    + rewrite filter_cons_True by done. simpl. by rewrite Hsql.
Qed.

Lemma migrate_files_recorded fs s :
  (∀ f, f ∈ fs → sm_migrations s !! f.1 = Some (checksum f.2)) → for_each fs migrate_file s = (Ok tt, s).
Proof.
  induction fs as [|f fs IH]; intros Hin; simpl; [done|].
  assert (migrate_file f s = (Ok tt, s)) as E.
  { unfold migrate_file, mbind, M_bind, gets. rewrite (Hin f (list_elem_of_here _ _)), String.eqb_refl. done. }
  rewrite (bind_Ok _ _ _ _ _ E). apply IH. intros g Hg. apply Hin. by right.
Qed.

Lemma migration_files_names directory :
  NoDup directory.*1 → NoDup (migration_files directory).*1.
Proof.
  intros Hn. unfold migration_files. rewrite stable_sort_perm. eapply sublist_NoDup; [exact Hn|].
  apply fmap_sublist, sublist_filter.
Qed.

(** The name of a migration: a number, [_], a text on one line, [.sql]. *)
Definition migration_name (name : string) : Prop :=
  ∃ number text, chars name = (number ++ "_"%char :: text ++ chars ".sql")%list ∧
    number ≠ [] ∧ Forall (λ c, in_range "0" "9" c = true) number ∧
    Forall (λ c, c ≠ "010"%char ∧ c ≠ "013"%char) text.
Lemma migration_pattern_spec name : test migration_pattern name = true ↔ migration_name name.
Proof.
  unfold test, migration_pattern, migration_name. rewrite matches_spec, lang_seq_inv. split.
  - intros (number & r & E & [Hne Hnum]%lang_plus_chr & Hr). apply lang_seq_inv in Hr as (u & r2 & -> & (c & -> & Hc)%lang_chr_inv & Hr).
    apply lang_seq_inv in Hr as (text & r3 & -> & Ht%lang_star_chr & ->%lang_lit). apply Ascii.eqb_eq in Hc as <-.
    exists number, text. split_and!; [done..|]. eapply Forall_impl; [exact Ht|]. simpl.
    intros c Hc. apply negb_true_iff, orb_false_iff in Hc as [?%Ascii.eqb_neq ?%Ascii.eqb_neq]. done.
  - intros (number & text & E & Hne & Hnum & Ht). exists number, ("_"%char :: text ++ chars ".sql")%list.
    split_and!; [done|by apply lang_plus_chr|]. apply lang_seq_inv. exists ["_"%char], (text ++ chars ".sql")%list.
    split_and!; [done|by apply lang_chr_inv; eexists|]. apply lang_seq_inv. exists text, (chars ".sql").
    split_and!; [done| |by apply lang_lit]. apply lang_star_chr. eapply Forall_impl; [exact Ht|]. simpl.
    intros c [?%Ascii.eqb_neq ?%Ascii.eqb_neq]. by apply negb_true_iff, orb_false_iff.
Qed.

(** Why a run stops. *)
Definition stopped (files : list (string * string)) (s : Schema D) (e : exn) : Prop :=
  (∃ f c, f ∈ files ∧ sm_migrations s !! f.1 = Some c ∧ c ≠ checksum f.2 ∧
          e = JsError ("Migration checksum mismatch: " +:+ f.1)) ∨
  ∃ ran f rest d, filter (is_new s) files = ran ++ f :: rest ∧ run_all ran (sm_rest s) = Ok d ∧ run_sql f.2 d = Throw e.
Lemma migrate_files_Throw fs s e s' :
  NoDup fs.*1 → for_each fs migrate_file s = (Throw e, s') → stopped fs s e.
Proof.
  revert s. induction fs as [|f fs IH]; intros s; [done|]. csimpl. intros [Hf Hn]%NoDup_cons E.
  unfold mbind, M_bind in E. destruct (migrate_file f s) as [[[]|e1] s1] eqn:E1.
  - assert (∀ g, g ∈ fs → sm_migrations s1 !! g.1 = sm_migrations s !! g.1) as Hsame.
    { intros g Hg. assert (g.1 ≠ f.1) by (intros Eg; apply Hf; rewrite <- Eg; by apply list_elem_of_fmap_2).
      apply migrate_file_Ok in E1 as [[_ ->]|(_ & -> & _)]; [done|by rewrite lookup_insert_ne]. }
    assert (filter (is_new s1) fs = filter (is_new s) fs) as Hfil.
    { apply filter_iff_elem. intros g Hg. unfold is_new. by rewrite Hsame. }
    destruct (IH s1 Hn E) as [(g & c & Hg & Hc & ?)|(ran & g & rest & d & Hfs & Hran & Hsql)].
    { left. exists g, c. rewrite Hsame in Hc by done. split_and!; [by right|naive_solver..]. }
    right. rewrite Hfil in Hfs. apply migrate_file_Ok in E1 as [[Hs ->]|(Hnew & _ & Hrun)].
    + exists ran, g, rest, d. rewrite filter_cons_False by (unfold is_new; congruence). done.
    + exists (f :: ran), g, rest, d. rewrite filter_cons_True, Hfs by done. simpl. rewrite Hrun. done.
  - injection E as <- <-. unfold migrate_file, mbind, M_bind, gets in E1. destruct (sm_migrations s !! f.1) as [c|] eqn:Ef.
    + left. exists f, c. unfold throw_if in E1. destruct (String.eqb_spec c (checksum f.2)); simpl in E1; [done|].
      injection E1 as <- _. split_and!; [by left|done..].
    + right. exists [], f, (filter (is_new s) fs), (sm_rest s). rewrite filter_cons_True by done. split_and!; [done..|].
      unfold run_text in E1. destruct (run_sql f.2 (sm_rest s)) as [d|e2] eqn:Er; [done|]. by injection E1 as -> _.
Qed.

(** C39. Running the migrations is atomic and idempotent.  The migrations are
    the files of the directory with the name of one, in the strict order of
    their names.  If a run succeeds, every one is recorded with the checksum of
    its text; exactly those that were not recorded before were executed, in
    that order; no record was changed or invented; running them again changes
    nothing; and no text differs from the recorded one.  If it fails, nothing
    has changed, and either a recorded migration has another text or the text
    of a new one failed after those before it. *)
Theorem migrate_exact directory s :
  NoDup directory.*1 →
  ∃ files, (∀ f, f ∈ files ↔ f ∈ directory ∧ migration_name f.1) ∧
    StronglySorted (λ f g, str_before f.1 g.1) files ∧
    match migrate directory s with
    | (Ok _, s') =>
        (∀ f, f ∈ files → sm_migrations s' !! f.1 = Some (checksum f.2)) ∧
        (∀ name c, sm_migrations s !! name = Some c → sm_migrations s' !! name = Some c) ∧
        (∀ name, name ∉ files.*1 → sm_migrations s' !! name = sm_migrations s !! name) ∧
        run_all (filter (is_new s) files) (sm_rest s) = Ok (sm_rest s') ∧
        migrate directory s' = (Ok tt, s') ∧
        ∀ f c, f ∈ files → sm_migrations s !! f.1 = Some c → c = checksum f.2
    | (Throw e, s') => s' = s ∧ stopped files s e
    end.
Proof.
  intros Hn. exists (migration_files directory). pose proof (migration_files_names _ Hn) as Hnames.
  split; [|split; [|]].
  - intros f. unfold migration_files. rewrite stable_sort_perm, list_elem_of_filter, migration_pattern_spec. tauto.
  - apply StronglySorted_strict; [|done]. apply stable_sort_by.
  - unfold migrate. destruct (for_each _ migrate_file s) as [[u|e] s'] eqn:E; [|split; [done|by eapply migrate_files_Throw]].
    apply migrate_files_Ok in E as (Hin & Hout & Hold & Hrun); [|done].
    split_and!; try done; [by rewrite migrate_files_recorded|].
    intros f c Hf Hc%Hold. rewrite (Hin f Hf) in Hc. by injection Hc.
Qed.
End migrate.

(** ** A witness: a directory with a file that is no migration, and a database
    that keeps the texts it has executed. *)
Definition sample_directory : list (string * string) :=
  [("002_b.sql", "b"); ("README.md", "x"); ("001_a.sql", "a")]%string.
Lemma migrate_exact_witness : ∃ s',
  @migrate plain_digests (list string) (λ sql d, Ok (d ++ [sql])) sample_directory (MkSchema ∅ []) = (Ok tt, s') ∧
  sm_rest s' = ["a"; "b"]%string ∧
  @migrate plain_digests (list string) (λ sql d, Ok (d ++ [sql])) sample_directory s' = (Ok tt, s').
Proof.
  pose proof (@migrate_exact plain_digests (list string) (λ sql d, Ok (d ++ [sql])) sample_directory (MkSchema ∅ [])) as Hm.
  destruct (@migrate plain_digests (list string) (λ sql d, Ok (d ++ [sql])) sample_directory (MkSchema ∅ [])) as [[[]|e] s'] eqn:E;
    [|apply (f_equal (λ x, is_ok x.1)) in E; vm_compute in E; discriminate E].
  destruct Hm as (files & Hfiles & Hsorted & _ & _ & _ & Hrun & Hagain & _).
  { refine (bool_decide_unpack _ _). vm_compute. exact I. }
  exists s'. split; [reflexivity|]. split; [|exact Hagain].
  assert (s' = MkSchema (sm_migrations s') ["a"; "b"]%string) as ->; [|reflexivity].
  apply (f_equal (λ x, sm_rest x.2)) in E. vm_compute in E. destruct s' as [ms d]. simpl in E. by subst d.
Defined.
