(* ===== verification/Http.v ===== *)
(** * Requests to other services

    What [statistics.ts], [history.ts] and [observation-backends.ts] share: a
    request of [fetch] and its answer, the bounded reading of a body, and the
    Base64 of [Buffer].

    An answer is its status and the sequence of reads of its body: each a chunk
    or a failure of the connection. *)
From Stdlib Require Import ZArith Lia Ascii Init.Byte.
From stdpp Require Import base tactics list option strings.
From S2P Require Import Prelude Regex Numbers Effects Catalog Json Secrets.

(** ** [fetch] *)
Record HttpRequest := MkFetch {
  fq_url : string; fq_query : list (string * string); fq_headers : list (string * string);
  fq_body : option json }.
Record HttpResponse := MkResponse { hr_ok : bool; hr_body : option (list (res (list byte))) }.

Class Fetcher (K : Type) := { fetch : HttpRequest → M K HttpResponse }.

(** The [while (true)] loop over [reader.read()]: [e] is thrown as soon as more
    than [limit] bytes were read. *)
Fixpoint read_chunks (limit : Z) (e : exn) (bytes : Z) (reads : list (res (list byte))) : res (list byte) :=
  match reads with
  | [] => Ok []
  | part :: reads =>
      chunk ← part;
      let bytes := bytes + Z.of_nat (length chunk) in
      when_throw (limit <? bytes) e ;;
      rest ← read_chunks limit e bytes reads;
      mret (chunk ++ rest)
  end.

(** A service that always answers with the same document, for witnesses. *)
Definition answering (j : json) : Fetcher () :=
  {| fetch := λ _, mret (MkResponse true (Some [Ok (utf8 (stringify j))])) |}.

(** [JSON.parse(Buffer.concat(chunks).toString("utf8"))] *)
Definition parse_body (bytes : list byte) : res json :=
  let syntax := JsError "Unexpected token in JSON" in
  text ← of_option syntax (utf8_text bytes); of_option syntax (json_parse text).

(** What was read is the whole body, and no more than the limit. *)
Lemma read_chunks_Ok limit e bytes reads body :
  read_chunks limit e bytes reads = Ok body →
  ∃ chunks, reads = Ok <$> chunks ∧ body = concat chunks ∧
    (chunks = [] ∨ bytes + Z.of_nat (length body) ≤ limit).
Proof.
  revert bytes body. induction reads as [|part reads IH]; intros bytes body; simpl.
  { intros [= <-]. exists []. by split_and!; [..|left]. }
  intros (chunk & -> & E)%res_bind_Ok. apply res_seq_Ok in E as [Hl%when_throw_Ok E].
  apply res_bind_Ok in E as (rest & Er & [= <-]). apply IH in Er as (chunks & -> & -> & Hc).
  exists (chunk :: chunks). split_and!; [done|done|right]. boolify. rewrite length_app.
  destruct Hc as [->|Hc]; simpl; lia.
Qed.

(** ** Addresses and tokens *)

(** The parts of a [URL] the code looks at; [new URL] is a parameter where it is
    used. *)
Record Url := MkUrl {
  url_protocol : string; url_username : string; url_password : string; url_host : string;
  url_pathname : string; url_search : string; url_hash : string }.
#[export] Instance eta_Url : Eta Url := λ r,
  MkUrl (url_protocol r) (url_username r) (url_password r) (url_host r) (url_pathname r) (url_search r) (url_hash r).

(** The base address of a service: no credentials, query or fragment, and a
    path that ends in a slash. *)
Definition base_url (parse_url : string → option Url) (invalid address : string) : res Url :=
  url ← of_option (JsError "Invalid URL") (parse_url address);
  when_throw (negb (includes ["http:"; "https:"] (url_protocol url)) ||
              negb (String.eqb (url_username url) "") || negb (String.eqb (url_password url) "") ||
              negb (String.eqb (url_search url) "") || negb (String.eqb (url_hash url) "")) (JsError invalid) ;;
  mret (if bool_decide (last (chars (url_pathname url)) = Some "/"%char) then url
        else url <| url_pathname ::= λ p, p +:+ "/" |>).

(** [new URL(path, base)] of a relative path, as text. *)
Definition resolve (base : Url) (path : string) : string :=
  url_protocol base +:+ "//" +:+ url_host base +:+ url_pathname base +:+ path.

(** [/^[a-zA-Z0-9._~+/-]+=*$/] *)
Definition token_pattern : re :=
  RSeq (rplus (RChr (λ c, is_alnum c || one_of "._~+/-" c))) (RStar (RChr (Ascii.eqb "="))).

(** ** Base64 *)
Definition b64_chr (v : Z) : ascii :=
  ascii_of_nat (Z.to_nat (if v <? 26 then 65 + v else if v <? 52 then 71 + v else if v <? 62 then v - 4
                          else if v =? 62 then 43 else 47)).
Definition b64_val (c : ascii) : option Z :=
  let n := Z.of_nat (nat_of_ascii c) in
  if (65 <=? n) && (n <=? 90) then Some (n - 65)
  else if (97 <=? n) && (n <=? 122) then Some (n - 71)
  else if (48 <=? n) && (n <=? 57) then Some (n + 4)
  else if (n =? 43) || (n =? 45) then Some 62
  else if (n =? 47) || (n =? 95) then Some 63 else None.

Definition byte_val (b : byte) : Z := Z.of_N (Byte.to_N b).
Definition to_byte (v : Z) : byte := default x00 (Byte.of_N (Z.to_N v)).

(** [buffer.toString('base64')] *)
Fixpoint base64 (l : list byte) : list ascii :=
  match l with
  | [] => []
  | [a] => let a := byte_val a in [b64_chr (a / 4); b64_chr (a mod 4 * 16); "="; "="]%char
  | [a; b] => let a := byte_val a in let b := byte_val b in
      [b64_chr (a / 4); b64_chr (a mod 4 * 16 + b / 16); b64_chr (b mod 16 * 4); "="%char]
  | a :: b :: c :: l => let a := byte_val a in let b := byte_val b in let c := byte_val c in
      b64_chr (a / 4) :: b64_chr (a mod 4 * 16 + b / 16) :: b64_chr (b mod 16 * 4 + c / 64) ::
      b64_chr (c mod 64) :: base64 l
  end.

(** [Buffer.from(s, 'base64')] of the digits; other characters are skipped. *)
Fixpoint of_digits (l : list Z) : list byte :=
  match l with
  | a :: b :: c :: d :: l => to_byte (a * 4 + b / 16) :: to_byte (b mod 16 * 16 + c / 4) ::
                             to_byte (c mod 4 * 64 + d) :: of_digits l
  | [a; b; c] => [to_byte (a * 4 + b / 16); to_byte (b mod 16 * 16 + c / 4)]
  | [a; b] => [to_byte (a * 4 + b / 16)]
  | _ => []
  end.
Definition of_base64 (s : list ascii) : list byte := of_digits (omap b64_val s).

Lemma byte_val_range b : 0 ≤ byte_val b < 256.
Proof. destruct b; vm_compute; split; discriminate || reflexivity. Qed.
Lemma to_byte_val b : to_byte (byte_val b) = b.
Proof. by destruct b. Qed.
Lemma to_byte_eq v b : v = byte_val b → to_byte v = b.
Proof. intros ->. apply to_byte_val. Qed.
Lemma b64_val_chr v : 0 ≤ v < 64 → b64_val (b64_chr v) = Some v.
Proof.
  intros Hv.
  assert (Forall (λ v, b64_val (b64_chr v) = Some v) (Z.of_nat <$> seq 0 64)) as H.
  { refine (bool_decide_unpack _ _). vm_compute. exact I. }
  rewrite Forall_forall in H. apply H, list_elem_of_fmap. exists (Z.to_nat v). rewrite elem_of_seq. lia.
Qed.

Lemma of_base64_inv l : of_base64 (base64 l) = l.
Proof.
  unfold of_base64. revert l. fix IH 1. intros [|a [|b [|c l]]].
  - done.
  - pose proof (byte_val_range a). cbn -[b64_chr b64_val]. cbv zeta.
    rewrite !b64_val_chr by (Z.div_mod_to_equations; lia). change (b64_val "=") with (@None Z). cbn -[Z.div Z.modulo].
    f_equal. apply to_byte_eq. Z.div_mod_to_equations; lia.
  - pose proof (byte_val_range a). pose proof (byte_val_range b). cbn -[b64_chr b64_val]. cbv zeta.
    rewrite !b64_val_chr by (Z.div_mod_to_equations; lia). change (b64_val "=") with (@None Z). cbn -[Z.div Z.modulo].
    repeat (f_equal; try (apply to_byte_eq; Z.div_mod_to_equations; lia)).
  - pose proof (byte_val_range a). pose proof (byte_val_range b). pose proof (byte_val_range c).
    cbn -[b64_chr b64_val]. cbv zeta.
    rewrite !b64_val_chr by (Z.div_mod_to_equations; lia). cbn -[Z.div Z.modulo]. rewrite IH.
    repeat (f_equal; try (apply to_byte_eq; Z.div_mod_to_equations; lia)).
Qed.
