(* ===== verification/ClientRecipes.v ===== *)
(** * Client recipes

    [apps/admin-web/src/client-profiles.ts]: the shell recipe the console shows
    for a client of an instance, built from the endpoint the operator reported.

    A recipe is the list of its lines.  A line that holds double quotes is
    written with backquotes in their place and read by [dq]; no line of the
    source holds a backquote.  [new URL] is a parameter. *)
From Stdlib Require Import ZArith Lia Ascii.
From stdpp Require Import base tactics list option strings sets.
From S2P Require Import Prelude Regex Numbers Effects Catalog Json Secrets Http.

(** ** Texts *)

(** A line written with backquotes for its double quotes. *)
Definition double_quote : ascii := "034".
Definition dq (s : string) : string :=
  of_chars ((λ c, if Ascii.eqb c "`" then double_quote else c) <$> chars s).
Definition newline : string := of_chars ["010"%char].

(** [value.replaceAll(c, by)] for a pattern of one character. *)
Definition replace_char (c : ascii) (by_ : string) (d : ascii) : list ascii :=
  if Ascii.eqb d c then chars by_ else [d].
Definition replaceAll (c : ascii) (by_ value : string) : string :=
  of_chars (chars value ≫= replace_char c by_).

Definition quote (value : string) : string := "'" +:+ replaceAll "'" "'\''" value +:+ "'".
Definition xml (value : string) : string :=
  replaceAll "'" "&apos;" (replaceAll double_quote "&quot;"
    (replaceAll ">" "&gt;" (replaceAll "<" "&lt;" (replaceAll "&" "&amp;" value)))).

(** ** Recipes *)

(** The lines that ask for the credentials. *)
Definition credentials : list string :=
  [ "read -r -p 'Cache username: ' CACHE_USER";
    "read -r -s -p 'Cache password: ' CACHE_PASSWORD";
    "printf '\n'" ].

(** [if (turborepo)] *)
Definition turborepoRecipe (origin instanceId : string) : list string :=
  [ "(";
    "set -euo pipefail";
    "# Experimental; requires an already installed Turborepo 2.11.7.";
    dq "test `$(turbo --version)` = '2.11.7'";
    "# Enter the instance password as the Bearer token, not a Vercel token.";
    "read -r -s -p 'Instance cache token: ' TURBO_TOKEN";
    "printf '\n'";
    "export TURBO_TOKEN";
    "export TURBO_API=" +:+ quote origin;
    "export TURBO_TEAMID=" +:+ quote ("team_" +:+ instanceId);
    "# Empty slug overrides any saved team slug; the server binds this team ID.";
    "export TURBO_TEAM=''";
    "CACHE_MODE='local:rw,remote:r'";
    "# Client-only read mode; the instance token still has read/write authority.";
    dq "if [ `${CI:-}` = true ]; then CACHE_MODE=local:rw,remote:rw; fi";
    dq "turbo run build --cache=`$CACHE_MODE`";
    ")" ].

(** [if (nx)] *)
Definition nxRecipe (origin : string) : list string :=
  [ "(";
    "set -euo pipefail";
    "# Experimental; requires Nx 22.7.12 already installed in this workspace.";
    "# Only use the read/write instance token in trusted build environments.";
    "read -r -s -p 'Instance cache token: ' NX_SELF_HOSTED_REMOTE_CACHE_ACCESS_TOKEN";
    "printf '\n'";
    "export NX_SELF_HOSTED_REMOTE_CACHE_ACCESS_TOKEN";
    "export NX_SELF_HOSTED_REMOTE_CACHE_SERVER=" +:+ quote origin;
    "export NX_DAEMON=false NX_NO_CLOUD=true";
    "# Ensure nx.json has no other remote-cache provider configured.";
    dq "test `$(node -p `require('./node_modules/nx/package.json').version`)` = '22.7.12'";
    "./node_modules/.bin/nx run-many -t build";
    ")" ].

(** [if (sccache)] *)
Definition sccacheRecipe (address : string) : list string :=
  [ "(";
    "set -euo pipefail";
    "# Experimental; requires sccache 0.18.0 with WebDAV and an unused local port.";
    dq "test `$(sccache --version)` = 'sccache 0.18.0'" ]
  ++ credentials
  ++ [ "export SCCACHE_WEBDAV_ENDPOINT=" +:+ quote address;
    "export SCCACHE_WEBDAV_KEY_PREFIX='sccache/'";
    dq "export SCCACHE_WEBDAV_USERNAME=`$CACHE_USER` SCCACHE_WEBDAV_PASSWORD=`$CACHE_PASSWORD`";
    "unset SCCACHE_WEBDAV_TOKEN SCCACHE_SERVER_UDS";
    "export SCCACHE_WEBDAV_RW_MODE=READ_ONLY";
    "# Local policy only; these instance credentials can still write.";
    dq "if [ `${CI:-}` = true ]; then export SCCACHE_WEBDAV_RW_MODE=READ_WRITE; fi";
    "export RUSTC_WRAPPER=sccache CARGO_INCREMENTAL=0";
    "# Use a dedicated daemon so an existing daemon cannot retain another backend.";
    "export SCCACHE_SERVER_PORT=4227";
    "sccache --start-server";
    "trap 'sccache --stop-server >/dev/null' EXIT";
    "cargo build --release";
    "sccache --show-stats";
    ")" ].

(** The last return: Pants. *)
Definition pantsRecipe (address : string) : list string :=
  [ "(";
    "set -euo pipefail";
    "# Experimental; project pants.toml must pin pants_version = '2.33.1'.";
    dq "test `$(pants --version)` = '2.33.1'" ]
  ++ credentials
  ++ [ dq "CACHE_AUTH=`$(printf '%s:%s' `$CACHE_USER` `$CACHE_PASSWORD` | base64 | tr -d '\r\n')`";
    "export PANTS_REMOTE_STORE_ADDRESS=" +:+ quote address;
    dq "export PANTS_REMOTE_STORE_HEADERS=`{'authorization': 'Basic $CACHE_AUTH'}`";
    "export PANTS_REMOTE_PROVIDER=reapi PANTS_REMOTE_EXECUTION=false";
    "export PANTS_REMOTE_CACHE_READ=true PANTS_REMOTE_CACHE_WRITE=false";
    "# Local policy only; these instance credentials can still write.";
    dq "if [ `${CI:-}` = true ]; then export PANTS_REMOTE_CACHE_WRITE=true; fi";
    "export PANTS_PANTSD=false";
    "pants test ::";
    "pants package ::";
    ")" ].

(** The goals whose parameters are reconciled, and their entry in the
    configuration. *)
Definition plugins : list (string * string * list string) :=
  [ ("maven-surefire-plugin", "test", ["skipTests"; "skip"; "skipExec"]);
    ("maven-failsafe-plugin", "integration-test", ["skipTests"; "skipITs"; "skip"]);
    ("maven-failsafe-plugin", "verify", ["skipTests"; "skipITs"; "skip"]);
    ("maven-compiler-plugin", "compile", ["source"; "target"; "release"]);
    ("maven-compiler-plugin", "testCompile", ["source"; "target"; "release"; "testSource"; "testTarget"; "testRelease"]) ].
Definition plugin_lines (p : string * string * list string) : list string :=
  let '(artifact, goal, props) := p in
  [ dq "        <plugin artifactId=`" +:+ artifact +:+ dq "` goal=`" +:+ goal +:+ dq "`>";
    "          <reconciles>" ]
  ++ ((λ prop, dq "            <reconcile propertyName=`" +:+ prop +:+ dq "`/>") <$> props)
  ++ [ "          </reconciles>"; "        </plugin>" ].

Definition maven_address (origin : string) : string := origin +:+ "/maven-build-cache".
Definition maven_property (origin : string) : string :=
  "-Dmaven.build.cache.remote.url=" +:+ maven_address origin.
(** [config] *)
Definition maven_config (origin : string) : list string :=
  [ dq "<?xml version=`1.0` encoding=`UTF-8`?>";
    dq "<cache xmlns=`http://maven.apache.org/BUILD-CACHE-CONFIG/1.4.0`>";
    "  <configuration>";
    "    <enabled>true</enabled>";
    "    <hashAlgorithm>SHA-256</hashAlgorithm>";
    dq "    <remote enabled=`true` saveToRemote=`false` id=`expbuild-maven`>";
    "      <url>" +:+ xml (maven_address origin) +:+ "</url>";
    "    </remote>";
    "  </configuration>";
    "  <executionControl>";
    "    <reconcile>";
    "      <plugins>" ]
  ++ (plugins ≫= plugin_lines)
  ++ [ "      </plugins>";
    "    </reconcile>";
    "  </executionControl>";
    "</cache>" ].

(** [mavenExample] *)
Definition mavenExample (origin : string) : list string :=
  [ "(";
    "set -euo pipefail";
    "umask 077";
    "# Experimental: Maven 3.9.16 + Build Cache Extension 1.3.0, already provisioned.";
    "# Merge the pinned extension into .mvn/extensions.xml before using this example.";
    "# Existing settings.xml must define server expbuild-maven with username/password";
    "# referencing ${env.EXPBUILD_MAVEN_USER} and ${env.EXPBUILD_MAVEN_PASSWORD}.";
    "# Python 3 validates the existing XML; this does not install or run the extension.";
    "python3 - <<'EXPBUILD_CHECK_EXTENSION'";
    "import xml.etree.ElementTree as ET";
    "root = ET.parse('.mvn/extensions.xml').getroot()";
    "def field(element, name):";
    "    return next(((x.text or '').strip() for x in element if x.tag.rsplit('}', 1)[-1] == name), '')";
    "matches = [e for e in root if e.tag.rsplit('}', 1)[-1] == 'extension' and field(e, 'groupId') == 'org.apache.maven.extensions' and field(e, 'artifactId') == 'maven-build-cache-extension']";
    "if len(matches) != 1 or field(matches[0], 'version') != '1.3.0':";
    "    raise SystemExit('Configure exactly one Build Cache Extension 1.3.0 before using this recipe.')";
    "EXPBUILD_CHECK_EXTENSION";
    "# This starter configuration is only for a fresh fixture. Preserve project-specific rules.";
    "if [ -e .mvn/maven-build-cache-config.xml ]; then printf '%s\n' 'Merge cache settings manually; existing project config found.' >&2; exit 1; fi";
    dq "case `$(mvn -B -Dstyle.color=never --version)` in 'Apache Maven 3.9.16'|'Apache Maven 3.9.16 ('*) ;; *) printf '%s\n' 'Maven 3.9.16 required.' >&2; exit 1;; esac";
    "read -r -p 'Cache username: ' EXPBUILD_MAVEN_USER";
    "read -r -s -p 'Cache password: ' EXPBUILD_MAVEN_PASSWORD";
    "printf '\n'";
    "export EXPBUILD_MAVEN_USER EXPBUILD_MAVEN_PASSWORD";
    dq "MAVEN_CACHE_TMP=`$(mktemp -d)`";
    dq "trap 'rm -rf -- `$MAVEN_CACHE_TMP`' EXIT";
    dq "cat >`$MAVEN_CACHE_TMP/config.xml` <<'EXPBUILD_MAVEN_CONFIG'" ]
  ++ maven_config origin
  ++ [ "EXPBUILD_MAVEN_CONFIG";
    "# Client-only no-push policy; WebDAV credentials can still write, overwrite and delete.";
    "mvn -B -Dmaven.resolver.transport=native -Daether.connector.http.supportWebDav=true \";
    dq "  -Dmaven.build.cache.configPath=`$MAVEN_CACHE_TMP/config.xml` \";
    dq "  -Dmaven.build.cache.location=`$MAVEN_CACHE_TMP/local` \";
    "  -Dmaven.build.cache.remote.enabled=true -Dmaven.build.cache.remote.save.enabled=false \";
    "  " +:+ quote (maven_property origin) +:+ " \";
    "  -Dmaven.build.cache.remote.server.id=expbuild-maven \";
    "  clean verify";
    ")" ].

(** [moonRecipe] *)
Definition moonRecipe (address : string) : list string :=
  [ "(";
    "set +x";
    "set -euo pipefail";
    "# Experimental moon 2.5.6; prepare the JSON workspace in docs/k8s-platform/moonrepo.md.";
    "# Requires Python 3 for a read-only configuration preflight. No installer is invoked.";
    "python3 - <<'MOON_PREFLIGHT'";
    "import json, os, pathlib, sys";
    "def require(ok, message):";
    "    if not ok: sys.exit(message)";
    "require(not any(k.startswith(('MOON_', 'STARBASE_', 'WARPGATE_')) for k in os.environ), 'Use a clean environment without moon overrides or tracing.')";
    "require(not pathlib.Path('.config/moon').exists(), 'Use only .moon/workspace.json.')";
    "directory = pathlib.Path('.moon')";
    "path = directory / 'workspace.json'";
    "require(not directory.is_symlink() and not path.is_symlink(), 'Symlinked workspace configuration is unsupported.')";
    "require(path.is_file() and sorted(p.name for p in directory.glob('workspace.*')) == ['workspace.json'], 'Use only .moon/workspace.json; alternative formats are unsupported.')";
    "require(not pathlib.Path('node_modules/@moonrepo/cli').exists(), 'A local moon package can override the pinned binary; use a dedicated system-only workspace.')";
    "config = json.loads(path.read_text())";
    "require(config.get('versionConstraint') == '=2.5.6', 'Pin versionConstraint to =2.5.6.')";
    "require('extends' not in config, 'Extended workspace configuration is unsupported by this recipe.')";
    "expected = {'api': 'grpc', 'auth': {'headers': {'authorization': '${EXPBUILD_MOON_AUTHORIZATION}'}}, 'cache': {'compression': 'none', 'instanceName': 'moon-outputs', 'localReadOnly': True, 'verifyIntegrity': True}}";
    "require(config.get('remote') == expected, 'Use the exact remote configuration from docs/k8s-platform/moonrepo.md.')";
    "require(config.get('pipeline') == {'installDependencies': False, 'syncProjects': False, 'syncWorkspace': False}, 'Disable automatic install and sync in this acceptance workspace.')";
    "MOON_PREFLIGHT";
    "export MOON_DAEMON=false MOON_TELEMETRY=false MOON_CACHE=read";
    "# Global read mode also blocks remote writes in CI, including CI=false.";
    dq "case `${EXPBUILD_MOON_WRITE:-false}` in";
    "  false) ;;";
    dq "  true) test `${CI:-}` = true; export MOON_CACHE=read-write ;;";
    "  *) printf '%s\n' 'EXPBUILD_MOON_WRITE must be false or true.' >&2; exit 1 ;;";
    "esac";
    dq "test `$(moon --version)` = 'moon 2.5.6'";
    "read -r -p 'Cache username: ' CACHE_USER";
    "read -r -s -p 'Cache password: ' CACHE_PASSWORD";
    "printf '\n'";
    dq "CACHE_AUTH=`$(printf '%s:%s' `$CACHE_USER` `$CACHE_PASSWORD` | base64 | tr -d '\r\n')`";
    dq "export EXPBUILD_MOON_AUTHORIZATION=`Basic $CACHE_AUTH`";
    "unset CACHE_USER CACHE_PASSWORD CACHE_AUTH";
    "export MOON_REMOTE_HOST=" +:+ quote address;
    "# app:build must be a reviewed system-only task; do not dump env/config or enable tracing.";
    dq "moon --log warn --cache `$MOON_CACHE` run app:build";
    ")" ].

(** [goCacheRecipe] *)
Definition goCacheRecipe (origin : string) : list string :=
  [ "(";
    "set -euo pipefail";
    "# Experimental: already installed Go 1.27.1 and platacard/cacheprog v1.3.0 required.";
    "export GOTOOLCHAIN=local";
    dq "test `$(go env GOVERSION)` = 'go1.27.1'";
    dq "EXPBUILD_CACHEPROG_BIN=`$(command -v cacheprog)`";
    dq "case `$EXPBUILD_CACHEPROG_BIN` in /*) ;; *) echo 'cacheprog must resolve to an absolute executable path' >&2; exit 1;; esac";
    dq "case `$EXPBUILD_CACHEPROG_BIN` in *[!a-zA-Z0-9_./-]*) echo 'Use a cacheprog path without spaces or shell metacharacters' >&2; exit 1;; esac";
    dq "`$EXPBUILD_CACHEPROG_BIN` --version | grep -Eq '^cacheprog version v?1\.3\.0( |$)'";
    "# Clear inherited cacheprog storage, auth and reset settings before choosing this instance.";
    dq "for EXPBUILD_ENV in ${!CACHEPROG_@}; do unset `$EXPBUILD_ENV`; done";
    "read -r -s -p 'Instance cache token: ' EXPBUILD_CACHE_TOKEN";
    "printf '\n'";
    dq "case `$EXPBUILD_CACHE_TOKEN` in ''|*[!a-zA-Z0-9_-]*) echo 'Expected the generated instance password' >&2; exit 1;; esac";
    "export CACHEPROG_REMOTE_STORAGE_TYPE=http";
    "export CACHEPROG_HTTP_STORAGE_BASE_URL=" +:+ quote origin;
    dq "export CACHEPROG_HTTP_STORAGE_EXTRA_HEADERS=`Authorization:Bearer $EXPBUILD_CACHE_TOKEN`";
    "unset EXPBUILD_CACHE_TOKEN";
    dq "EXPBUILD_GO_ROOT=`$(mktemp -d `${TMPDIR:-/tmp}/expbuild-go.XXXXXX`)`";
    dq "EXPBUILD_GO_ROOT=`$(cd `$EXPBUILD_GO_ROOT` && pwd -P)`";
    dq "trap 'rm -rf -- `$EXPBUILD_GO_ROOT`' EXIT";
    dq "export CACHEPROG_ROOT_DIRECTORY=`$EXPBUILD_GO_ROOT/helper`";
    dq "export GOCACHE=`$EXPBUILD_GO_ROOT/go-local`";
    dq "export GOCACHEPROG=`$EXPBUILD_CACHEPROG_BIN direct`";
    "export CACHEPROG_DISABLE_PUT=true";
    "# Server readOnly remains authoritative. Enable uploads only to a writable trusted instance.";
    dq "if [ `${EXPBUILD_GO_WRITE:-false}` = true ]; then";
    dq "  test `${CI:-}` = true || { echo 'Writes require trusted CI=true' >&2; exit 1; }";
    "  export CACHEPROG_DISABLE_PUT=false";
    "fi";
    "# The helper returns local DiskPath files; keep both directories until Go exits.";
    "go build ./...";
    ")" ].

(** ** [clientProfileExample] *)

Record Endpoint := MkEndpoint { ep_protocol : string; ep_url : string }.

(** The versions the recipes are written for. *)
Definition recipe_version (id : string) : option string :=
  match list_find (λ p, p.1 = id)
    [ ("pants", "2.33.1"); ("sccache", "0.18.0"); ("turborepo", "2.11.7"); ("nx", "22.7.12");
      ("maven-build-cache", "1.3.0"); ("moonrepo", "2.5.6"); ("go-cacheprog", "1.3.0") ] with
  | Some (_, (_, v)) => Some v
  | None => None
  end.

(** [url.origin]: opaque for a scheme that is not special. *)
Definition http_schemes : list string := ["http:"; "https:"].
Definition grpc_schemes : list string := ["grpc:"; "grpcs:"].
Definition origin (url : Url) : string :=
  if includes http_schemes (url_protocol url) then url_protocol url +:+ "//" +:+ url_host url else "null".

(** An address with anything but a scheme and a host is refused.  The host name
    of a URL is empty exactly when its host is. *)
Definition bare_address (address : string) (url : Url) : bool :=
  negb (String.eqb (url_host url) "" || negb (String.eqb (url_username url) "") ||
        negb (String.eqb (url_password url) "") || negb (String.eqb (url_search url) "") ||
        negb (String.eqb (url_hash url) "") || existsb is_space (chars address) ||
        (negb (String.eqb (url_pathname url) "") && negb (String.eqb (url_pathname url) "/"))).

Definition instance_pattern : re :=
  let hex n := rtimes n (RChr (λ c, is_digit c || in_range "a" "f" c)) in
  RSeq (hex 8%nat) (RSeq (rlit "-") (RSeq (hex 4%nat) (RSeq (rlit "-") (RSeq (hex 4%nat)
    (RSeq (rlit "-") (RSeq (hex 4%nat) (RSeq (rlit "-") (hex 12%nat)))))))).

(** The client a profile and an endpoint ask for, when the scheme fits. *)
Inductive Client := Sccache | Pants | Turborepo | Nx | Maven | Moon | GoCache.
#[export] Instance Client_eq_dec : EqDecision Client.
Proof. solve_decision. Defined.
Definition client_of (id protocol scheme : string) : option Client :=
  let fits i p schemes := String.eqb id i && String.eqb protocol p && includes schemes scheme in
  if fits "go-cacheprog" "go-cacheprog" http_schemes then Some GoCache
  else if fits "turborepo" "turborepo-http" http_schemes then Some Turborepo
  else if fits "nx" "nx-http" http_schemes then Some Nx
  else if fits "maven-build-cache" "webdav" http_schemes then Some Maven
  else if fits "moonrepo" "reapi" grpc_schemes then Some Moon
  else if fits "sccache" "webdav" http_schemes then Some Sccache
  else if fits "pants" "reapi" grpc_schemes then Some Pants
  else None.

Definition recipe_lines (client : Client) (address : string) (url : Url) (instanceId : option string) :
    option (list string) :=
  match client with
  | GoCache => Some (goCacheRecipe (origin url))
  | Turborepo =>
      match instanceId with
      | Some id => if test instance_pattern id then Some (turborepoRecipe (origin url) id) else None
      | None => None
      end
  | Nx => Some (nxRecipe (origin url))
  | Maven => Some (mavenExample (origin url))
  | Moon => Some (moonRecipe address)
  | Sccache => Some (sccacheRecipe address)
  | Pants => Some (pantsRecipe address)
  end.

Definition clientProfileExample (parse_url : string → option Url) (id : string) (endpoint : Endpoint)
    (version instanceId : option string) : option string :=
  if (match version with Some v => negb (oeq (Some v) (recipe_version id)) | None => false end) then None
  else
    url ← parse_url (ep_url endpoint);
    if negb (bare_address (ep_url endpoint) url) then None
    else
      client ← client_of id (ep_protocol endpoint) (url_protocol url);
      lines ← recipe_lines client (ep_url endpoint) url instanceId;
      Some (join newline lines).

(** * What a recipe does with its endpoint *)

(** ** Reading a shell word and a text of XML

    [shell_word] reads one word of a shell command up to the blank or the end of
    line that ends it: single quotes, a backslash outside of them, and the
    characters that stand for themselves; anything else is refused. *)
Definition plain_char (c : ascii) : bool :=
  is_alnum c || one_of "-_./:%+,@=" c.
Definition word_end (c : ascii) : bool := Ascii.eqb c " " || Ascii.eqb c "010".
Fixpoint shell_word (quoted : bool) (l : list ascii) : option (list ascii * list ascii) :=
  match l with
  | [] => if quoted then None else Some ([], [])
  | c :: l =>
      if quoted then
        if Ascii.eqb c "'" then shell_word false l else prod_map (cons c) id <$> shell_word true l
      else if Ascii.eqb c "'" then shell_word true l
      else if Ascii.eqb c "\" then
        match l with
        | [] => None
        | d :: l => prod_map (cons d) id <$> shell_word false l
        end
      else if word_end c then Some ([], c :: l)
      else if plain_char c then prod_map (cons c) id <$> shell_word false l
      else None
  end.

(** Character data: the five entities, and no markup. *)
Definition entity (name : string) : option ascii :=
  if String.eqb name "amp" then Some "&"%char else if String.eqb name "lt" then Some "<"%char
  else if String.eqb name "gt" then Some ">"%char else if String.eqb name "quot" then Some double_quote
  else if String.eqb name "apos" then Some "'"%char else None.
Fixpoint xml_data (name : option (list ascii)) (l : list ascii) : option (list ascii) :=
  match l with
  | [] => match name with None => Some [] | Some _ => None end
  | c :: l =>
      match name with
      | None => if Ascii.eqb c "&" then xml_data (Some []) l
                else if one_of "<>'" c || Ascii.eqb c double_quote then None
                else cons c <$> xml_data None l
      | Some n => if Ascii.eqb c ";" then d ← entity (of_chars n); cons d <$> xml_data None l
                  else xml_data (Some (n ++ [c])) l
      end
  end.

Lemma quote_word v rest : match rest with [] => True | c :: _ => word_end c = true end →
  shell_word false (chars (quote v) ++ rest) = Some (chars v, rest).
Proof.
  intros Hr. unfold quote, replaceAll. rewrite !chars_app, chars_of_chars, <-!app_assoc. simpl.
  induction (chars v) as [|c l IH]; simpl.
  { destruct rest as [|c rest]; [done|]. simpl. destruct (Ascii.eqb_spec c "'") as [->|_]; [done|].
    destruct (Ascii.eqb_spec c "\") as [->|_]; [done|]. by rewrite Hr. }
  change (list_bind _ _ ?f l) with (l ≫= f). rewrite <-app_assoc. revert IH.
  generalize ((l ≫= replace_char "'" "'\''") ++ "'"%char :: rest). intros t IH. unfold replace_char. destruct (Ascii.eqb_spec c "'") as [->|Hc]; simpl; [by rewrite IH|].
  apply Ascii.eqb_neq in Hc. by rewrite Hc, IH.
Qed.

(** One character at a time, the escape of XML. *)
Definition escape (c : ascii) : list ascii :=
  if Ascii.eqb c "&" then chars "&amp;" else if Ascii.eqb c "<" then chars "&lt;"
  else if Ascii.eqb c ">" then chars "&gt;" else if Ascii.eqb c double_quote then chars "&quot;"
  else if Ascii.eqb c "'" then chars "&apos;" else [c].

Lemma xml_escape v : chars (xml v) = chars v ≫= escape.
Proof.
  unfold xml, replaceAll. rewrite !chars_of_chars.
  induction (chars v) as [|c l IH]; [done|]. rewrite bind_cons, !bind_app, bind_cons, IH. f_equal. clear.
  unfold escape, replace_char. repeat match goal with |- context [Ascii.eqb c ?d] => destruct (Ascii.eqb_spec c d) as [->|?]; [reflexivity|] end.
  simpl. repeat match goal with H : c ≠ ?d |- _ => apply Ascii.eqb_neq in H; rewrite H; simpl; clear H end. done.
Qed.
Lemma xml_read v : xml_data None (chars (xml v)) = Some (chars v).
Proof.
  rewrite xml_escape. induction (chars v) as [|c l IH]; [done|]. rewrite bind_cons.
  revert IH. generalize (l ≫= escape). intros t IH. unfold escape.
  repeat match goal with |- context [if Ascii.eqb c ?d then _ else _] =>
    destruct (Ascii.eqb_spec c d) as [->|?]; [simpl; by rewrite IH|] end.
  simpl. unfold one_of. simpl.
  repeat match goal with H : c ≠ ?d |- _ => apply Ascii.eqb_neq in H; rewrite ?H; clear H end.
  simpl. by rewrite IH.
Qed.

(** ** Pieces of a recipe

    A recipe is a text of the program with words of the shell and character data
    of XML in it. *)
Inductive Piece := Text (s : string) | Word (v : string) | Data (v : string).
Definition piece_text (p : Piece) : string :=
  match p with Text s => s | Word v => quote v | Data v => xml v end.
Fixpoint render (ps : list Piece) : string :=
  match ps with [] => "" | [p] => piece_text p | p :: ps => piece_text p +:+ render ps end.
(** What is left of a piece without its value. *)
Definition skeleton (p : Piece) : Piece :=
  match p with Text s => Text s | Word _ => Word "" | Data _ => Data "" end.
Definition filled (ps : list Piece) : list string :=
  omap (λ p, match p with Text _ => None | Word v | Data v => Some v end) ps.
(** Every value is read back where it stands in the recipe. *)
Fixpoint reads (ps : list Piece) : Prop :=
  match ps with
  | [] => True
  | Text _ :: ps => reads ps
  | Word v :: ps => shell_word false (chars (render (Word v :: ps))) = Some (chars v, chars (render ps)) ∧ reads ps
  | Data v :: ps => xml_data None (chars (xml v)) = Some (chars v) ∧ reads ps
  end.

(** The lines of a client with the values left out, and the lines that hold them. *)
Definition blank (client : Client) : list string :=
  match client with
  | GoCache => goCacheRecipe "" | Turborepo => turborepoRecipe "" "" | Nx => nxRecipe ""
  | Maven => mavenExample "" | Moon => moonRecipe "" | Sccache => sccacheRecipe "" | Pants => pantsRecipe ""
  end.
Definition holes (client : Client) (address origin instance : string) : list (nat * list Piece) :=
  match client with
  | GoCache => [(15%nat, [Text "export CACHEPROG_HTTP_STORAGE_BASE_URL="; Word origin])]
  | Turborepo => [(8%nat, [Text "export TURBO_API="; Word origin]);
                  (9%nat, [Text "export TURBO_TEAMID="; Word ("team_" +:+ instance)])]
  | Nx => [(7%nat, [Text "export NX_SELF_HOSTED_REMOTE_CACHE_SERVER="; Word origin])]
  | Maven => [(33%nat, [Text "      <url>"; Data (maven_address origin); Text "</url>"]);
              (87%nat, [Text "  "; Word (maven_property origin); Text " \"])]
  | Moon => [(37%nat, [Text "export MOON_REMOTE_HOST="; Word address])]
  | Sccache => [(7%nat, [Text "export SCCACHE_WEBDAV_ENDPOINT="; Word address])]
  | Pants => [(8%nat, [Text "export PANTS_REMOTE_STORE_ADDRESS="; Word address])]
  end.
Definition piece_lines (client : Client) (address origin instance : string) : list (list Piece) :=
  foldr (λ h lines, <[h.1 := h.2]> lines) ((λ s, [Text s]) <$> blank client) (holes client address origin instance).
Fixpoint on_lines (lines : list (list Piece)) : list Piece :=
  match lines with [] => [] | [l] => l | l :: lines => l ++ Text newline :: on_lines lines end.
Definition client_pieces client address origin instance : list Piece :=
  on_lines (piece_lines client address origin instance).
(** The text of a client that no endpoint changes. *)
Definition client_skeleton (client : Client) : list Piece := skeleton <$> client_pieces client "" "" "".

Lemma render_cons p ps : render (p :: ps) = piece_text p +:+ render ps.
Proof. destruct ps; [|done]. simpl. by rewrite text_nil_r. Qed.
Lemma render_app ps qs : render (ps ++ qs) = render ps +:+ render qs.
Proof.
  induction ps as [|p ps IH]; [done|]. rewrite <-app_comm_cons, !render_cons, IH. by rewrite text_app_assoc.
Qed.
Lemma render_lines lines : render (on_lines lines) = join newline (render <$> lines).
Proof.
  induction lines as [|l lines IH]; [done|]. destruct lines as [|l' lines]; [done|].
  change (on_lines (l :: l' :: lines)) with (l ++ Text newline :: on_lines (l' :: lines)).
  by rewrite render_app, render_cons, IH.
Qed.

(** A word ends where it stands when a blank or the end of the line follows. *)
Fixpoint bounded (ps : list Piece) : bool :=
  match ps with
  | Word _ :: ((Text s :: _) as ps) => match chars s with c :: _ => word_end c | [] => false end && bounded ps
  | [Word _] => true
  | Word _ :: _ => false
  | _ :: ps => bounded ps
  | [] => true
  end.
Lemma bounded_reads ps : bounded ps = true → reads ps.
Proof.
  induction ps as [|p ps IH]; [done|]. destruct p as [s|v|v]; simpl; [done| |].
  - destruct ps as [|[s|w|w] ps]; [|..|done|done].
    + intros _. split; [|done]. rewrite <-(app_nil_r (chars (quote v))). by apply quote_word.
    + intros [Hs Hb]%andb_true_iff. split; [|by apply IH].
      change (quote v +:+ _) with (render (Word v :: Text s :: ps)).
      rewrite render_cons, chars_app. apply quote_word.
      rewrite render_cons, chars_app. cbn [piece_text]. by destruct (chars s).
  - intros Hb. split; [apply xml_read|by apply IH].
Qed.

Lemma client_pieces_text client address url instance lines :
  recipe_lines client address url instance = Some lines →
  render (client_pieces client address (origin url) (default "" instance)) = join newline lines.
Proof.
  unfold client_pieces. rewrite render_lines. intros E. f_equal.
  destruct client; simpl in E; try (destruct instance as [i|]; [|done]; destruct (test _ _); [|done]);
    injection E as <-; reflexivity.
Qed.
Lemma client_pieces_skeleton client address origin instance :
  skeleton <$> client_pieces client address origin instance = client_skeleton client.
Proof. destruct client; vm_compute; reflexivity. Qed.
Lemma client_pieces_bounded client address origin instance :
  bounded (client_pieces client address origin instance) = true.
Proof. destruct client; vm_compute; reflexivity. Qed.
(** The values of a client, in the order of its recipe. *)
Definition client_values (client : Client) (address origin instance : string) : list string :=
  match client with
  | GoCache | Nx => [origin]
  | Turborepo => [origin; "team_" +:+ instance]
  | Maven => [maven_address origin; maven_property origin]
  | Moon | Sccache | Pants => [address]
  end.
Lemma client_pieces_filled client address origin instance :
  filled (client_pieces client address origin instance) = client_values client address origin instance.
Proof. destruct client; vm_compute; reflexivity. Qed.

(** C28. The recipe of an endpoint is a fixed text of its client with the address
    of the endpoint, its origin and the identifier of the instance in it, and
    none of them escapes: each is read back by the shell as one word, or by XML
    as character data, exactly as it is; the endpoint had no credentials, query,
    fragment or blank in it. *)
Theorem recipe_words (parse_url : string → option Url) id endpoint version instanceId s :
  clientProfileExample parse_url id endpoint version instanceId = Some s →
  ∃ client url ps,
    parse_url (ep_url endpoint) = Some url ∧ bare_address (ep_url endpoint) url = true ∧
    client_of id (ep_protocol endpoint) (url_protocol url) = Some client ∧
    s = render ps ∧ skeleton <$> ps = client_skeleton client ∧ reads ps ∧
    filled ps = client_values client (ep_url endpoint) (origin url) (default "" instanceId).
Proof.
  unfold clientProfileExample. intros E. split_if_in E; [done|].
  apply bind_Some in E as (url & Eu & E). split_if_in E; [done|].
  apply bind_Some in E as (client & Ec & E). apply bind_Some in E as (lines & El & [= <-]).
  exists client, url, (client_pieces client (ep_url endpoint) (origin url) (default "" instanceId)). split_and!.
  - done.
  - by apply negb_false_iff.
  - done.
  - symmetry. by apply client_pieces_text.
  - apply client_pieces_skeleton.
  - apply bounded_reads, client_pieces_bounded.
  - apply client_pieces_filled.
Qed.

(** ** The recipes and the catalog *)

(** The clients of the API, and the schemes of their protocol. *)
Definition published (id protocol version : string) : Prop :=
  ∃ template template_version, MkProfile id protocol version "experimental" ∈ clientProfiles template (Some template_version).
Definition schemes (protocol : string) : list string :=
  if String.eqb protocol "reapi" then grpc_schemes else http_schemes.

(** The profile of each client. *)
Definition client_profile (client : Client) : ClientProfile :=
  let p id protocol version := MkProfile id protocol version "experimental" in
  match client with
  | Sccache => p "sccache" "webdav" "0.18.0" | Pants => p "pants" "reapi" "2.33.1"
  | Turborepo => p "turborepo" "turborepo-http" "2.11.7" | Nx => p "nx" "nx-http" "22.7.12"
  | Maven => p "maven-build-cache" "webdav" "1.3.0" | Moon => p "moonrepo" "reapi" "2.5.6"
  | GoCache => p "go-cacheprog" "go-cacheprog" "1.3.0"
  end.
Lemma client_of_spec id protocol scheme client :
  client_of id protocol scheme = Some client ↔
  id = p_id (client_profile client) ∧ protocol = p_protocol (client_profile client) ∧ scheme ∈ schemes protocol.
Proof.
  rewrite <-includes_spec. split.
  - unfold client_of. intros E.
    repeat (split_if_in E; [injection E as <-; boolify; subst; by split_and!|]). done.
  - intros (-> & -> & Hs). destruct client; simpl in *; unfold client_of; simpl; by rewrite Hs.
Qed.
Lemma recipe_version_profile client : recipe_version (p_id (client_profile client)) = Some (p_version (client_profile client)).
Proof. by destruct client. Qed.
Lemma published_profile id protocol version :
  published id protocol version ↔ ∃ client, client_profile client = MkProfile id protocol version "experimental".
Proof.
  split.
  - intros (t & v & Hp). unfold clientProfiles in Hp.
    repeat (split_if_in Hp; [clear -Hp|]);
      repeat match goal with
      | H : _ ∈ _ :: _ |- _ => apply elem_of_cons in H as [H|H]; [rewrite H; clear H|]
      | H : _ ∈ [] |- _ => by apply elem_of_nil in H
      end;
      [by exists Pants|by exists Moon|by exists Sccache|by exists Maven|by exists Turborepo|by exists Nx|by exists GoCache].
  - intros [client E]. exists (match client with Sccache | Maven => "webdav-apache" | Pants | Moon => "bazel-remote"
      | Turborepo => "turborepo-http" | Nx => "nx-http" | GoCache => "go-cacheprog" end), "0.1.0".
    rewrite <-E. destruct client; vm_compute; set_solver.
Qed.

(** The console has a recipe for exactly the clients the API publishes: for a
    known version there is one if and only if some template of the catalog lists
    the client with that protocol and version, the address is a bare address of a
    scheme of the protocol, and for Turborepo the instance is named by its
    identifier. *)
Theorem recipes_match_catalog (parse_url : string → option Url) id endpoint version instanceId :
  is_Some (clientProfileExample parse_url id endpoint (Some version) instanceId) ↔
  published id (ep_protocol endpoint) version ∧
  (∃ url, parse_url (ep_url endpoint) = Some url ∧ bare_address (ep_url endpoint) url = true ∧
    url_protocol url ∈ schemes (ep_protocol endpoint)) ∧
  (id = "turborepo" → ∃ i, instanceId = Some i ∧ test instance_pattern i = true).
Proof.
  split.
  - intros [s E]. unfold clientProfileExample in E. destruct (oeq _ _) eqn:Ev; [|done]. simpl in E.
    apply bool_decide_eq_true in Ev.
    apply bind_Some in E as (url & Eu & E). split_if_in E; [done|]. boolify.
    apply bind_Some in E as (client & Ec & E). apply bind_Some in E as (lines & El & _).
    apply client_of_spec in Ec as (-> & Ep & Hs). rewrite recipe_version_profile in Ev. injection Ev as ->. split_and!.
    + apply published_profile. exists client. rewrite Ep. by destruct client.
    + by exists url.
    + intros Ei. destruct client; try done. simpl in El. destruct instanceId as [i|]; [|done].
      exists i. split; [done|]. by destruct (test _ _).
  - intros (Hp & (url & Eu & Hb & Hs) & Hi). apply published_profile in Hp as [client E].
    unfold clientProfileExample. rewrite Eu. cbn [mbind option_bind]. rewrite Hb. cbn [negb].
    assert (id = p_id (client_profile client) ∧ ep_protocol endpoint = p_protocol (client_profile client) ∧
      version = p_version (client_profile client)) as (-> & Ep & ->) by by rewrite E.
    rewrite (proj2 (client_of_spec _ _ _ client) (conj eq_refl (conj Ep Hs))), recipe_version_profile.
    unfold oeq. rewrite (bool_decide_eq_true_2 _ eq_refl). cbn [negb mbind option_bind].
    destruct client; try done. destruct (Hi eq_refl) as (i & -> & Ht). simpl. by rewrite Ht.
Qed.

(** ** Witnesses *)
Definition sample_address : string := "https://cache.example.test".
Definition sample_url : Url := MkUrl "https:" "" "" "cache.example.test" "/" "" "".
Definition sample_parse (s : string) : option Url := if String.eqb s sample_address then Some sample_url else None.
Definition sample_instance : string := "123e4567-e89b-12d3-a456-426614174000".

Lemma recipe_words_witness : ∃ s client url ps,
  clientProfileExample sample_parse "turborepo" (MkEndpoint "turborepo-http" sample_address) None (Some sample_instance)
    = Some s ∧ s = render ps ∧ skeleton <$> ps = client_skeleton client ∧ reads ps ∧
  filled ps = client_values client sample_address (origin url) sample_instance ∧ client = Turborepo.
Proof.
  destruct (clientProfileExample sample_parse "turborepo" (MkEndpoint "turborepo-http" sample_address) None
    (Some sample_instance)) as [s|] eqn:E; [|vm_compute in E; discriminate E].
  destruct (recipe_words _ _ _ _ _ _ E) as (client & url & ps & Eu & _ & Ec & -> & Hk & Hr & Hf).
  exists (render ps), client, url, ps. split_and!; [reflexivity|reflexivity|exact Hk|exact Hr|exact Hf|].
  vm_compute in Eu. injection Eu as <-. vm_compute in Ec. by injection Ec as <-.
Defined.

Lemma recipes_match_catalog_witness :
  is_Some (clientProfileExample sample_parse "sccache" (MkEndpoint "webdav" sample_address) (Some "0.18.0") None) ∧
  ¬ is_Some (clientProfileExample sample_parse "sccache" (MkEndpoint "webdav" sample_address) (Some "0.18.1") None).
Proof.
  split.
  - apply (recipes_match_catalog sample_parse "sccache" (MkEndpoint "webdav" sample_address)). split_and!.
    + exists "webdav-apache", "0.2.0". vm_compute. set_solver.
    + exists sample_url. split_and!; [reflexivity|reflexivity|]. vm_compute. set_solver.
    + done.
  - intros H. vm_compute in H. by destruct H.
Defined.
