(* ===== verification/Calls.v ===== *)
(** * What the pages show

    The calls of [t] in [apps/admin-web/src]: the messages that are written in
    the call, in the order of the file, each with the names of the values it is
    given.  Of a choice between two messages each is listed.  A call whose
    message is the entry of a table ([stateNames[state] ?? state] and the like) or
    the label of a section is not listed: the labels of all tables are in
    [I18n.labels].  Nor are the texts of errors. *)
From stdpp Require Import base list strings.

(** A message with the names of its values. *)
Definition Shown : Type := string * list string.

(** [App.tsx] *)
Definition app_calls : list Shown := [
  ("请求失败，请重试", []);
  ("正在恢复会话…", []);
  ("让每一次构建，", []);
  ("少一些等待。", []);
  ("在一个地方管理团队的构建缓存、资源配置与服务状态。", []);
  ("构建缓存管理", []);
  ("欢迎回来", []);
  ("登录管理控制台", []);
  ("邮箱", []);
  ("密码", []);
  ("正在登录…", []);
  ("登录", []);
  ("没有账号？请联系平台管理员。", []);
  ("跳至主要内容", []);
  ("工作空间", []);
  ("项目导航", []);
  ("平台管理", []);
  ("平台导航", []);
  ("平台健康", []);
  ("用户管理", []);
  ("＋ 新建项目", []);
  ("修改密码", []);
  ("退出登录", []);
  ("切换导航", []);
  ("切换项目", []);
  ("正在加载…", []);
  ("暂无项目", []);
  ("＋ 新建项目", []);
  ("工作空间", []);
  ("平台管理", []);
  ("项目", []);
  ("修改密码", []);
  ("创建项目", []);
  ("项目名称", []);
  ("创建项目", []);
  ("取消", []);
  ("正在加载…", []);
  ("开始管理构建缓存", []);
  ("创建第一个项目，为团队配置缓存实例。", []);
  ("尚未加入项目，请联系管理员。", []);
  ("初始化再次失败，请查看操作记录，修复后可继续重试。", []);
  ("＋ 创建实例", []);
  ("项目状态：", []);
  ("。初始化完成后可以创建实例。", []);
  ("正在提交…", []);
  ("重试已提交", []);
  ("重试初始化", []);
  ("项目摘要", []);
  ("当前实例", []);
  ("不含已删除或已保留卷的实例", []);
  ("进行中的操作", []);
  ("等待、提交或部署中的变更", []);
  ("失败操作", []);
  ("最近 100 条操作中的失败记录", []);
  ("协议类型", []);
  ("当前实例使用的缓存协议", []);
  ("缓存服务", []);
  ("为团队管理每一份构建缓存", []);
  ("查看实例配置、连接客户端，或跟踪最近的变更。", []);
  ("查看所有实例", []);
  ("保存连接凭据", []);
  ("密码只显示一次，关闭后无法再次查看。请保存到团队的凭据管理工具。", []);
  ("用户名", []);
  ("密码", []);
  ("已保存，关闭", []);
  ("创建缓存实例", []);
  ("选择协议模板，配置独立的存储与运行资源。", []);
  ("实例列表", []);
  ("每 3 秒刷新", []);
  ("搜索实例", []);
  ("搜索名称或资源标识…", []);
  ("筛选协议", []);
  ("所有协议", []);
  ("筛选状态", []);
  ("所有状态", []);
  ("正在加载…", []);
  ("数据暂不可用，正在重试…", []);
  ("名称", []);
  ("协议", []);
  ("管理状态", []);
  ("收起", []);
  ("详情", []);
  ("没有匹配的实例", []);
  ("尚无缓存实例", []);
  ("调整搜索条件或清除筛选后重试。", []);
  ("创建一个实例，接入团队的构建工具。", []);
  ("清除筛选", []);
  ("显示 {shown} / {total} 个实例", ["shown"; "total"]);
  ("实例详情", []);
  ("最近操作", []);
  ("查看全部", []);
  ("最近 100 条操作记录，按创建时间排序。", []);
  ("正在加载…", []);
  ("数据暂不可用，正在重试…", []);
  ("暂无操作记录", []);
  ("原协议模板版本当前不可用，无法领回该实例。", []);
  ("当前没有可创建的模板。", []);
  ("缓存容量必须小于存储卷容量，以预留运行空间。", []);
  ("正在加载可用模板…", []);
  ("协议模板", []);
  ("访问方式", []);
  ("集群内部", []);
  ("独立域名（HTTPS / gRPC TLS）", []);
  ("实例名称", []);
  ("存储卷容量（GiB）", []);
  ("缓存容量（GiB）", []);
  ("CPU（毫核）", []);
  ("内存（MiB）", []);
  ("缓存预算必须小于存储卷容量。配置调整可能重启实例，以策略生效状态为准。", []);
  ("此模板未提供引擎容量预算。存储卷容量不是自动清理阈值，请预留空间并管理文件。", []);
  (" 引擎支持 LRU 淘汰。", []);
  (" 暂不支持 TTL。", []);
  ("运行状态", []);
  ("运行", []);
  ("暂停", []);
  ("服务端只读（Go 缓存）", []);
  ("删除实例时", []);
  ("保留存储卷", []);
  ("同时删除存储卷", []);
  ("WebDAV 支持认证文件读写与锁，不提供自动淘汰。", []);
  ("运行后可查看近似内容快照。", []);
  ("此版本不提供内容统计。", []);
  ("存储卷容量不是文件系统硬配额。", []);
  ("正在提交…", []);
  ("保存配置", []);
  ("确认领回实例", []);
  ("创建实例", []);
  ("取消", []);
  ("实例详情", []);
  ("从保留卷恢复实例", []);
  ("将重新创建服务并沿用已确认的存储卷。请核对容量和协议配置；新密码只在提交时显示一次。", []);
  ("领回请求已提交。此请求已受理过，密码不会再次返回；请等待操作完成，再轮换凭据。", []);
  ("关闭", []);
  ("请保存恢复后的新密码，关闭后无法再次查看。", []);
  ("用户名", []);
  ("密码", []);
  ("已保存，关闭", []);
  ("协议", []);
  ("淘汰策略", []);
  ("不支持自动淘汰", []);
  ("模板能力未知", []);
  ("存储卷", []);
  ("期望状态", []);
  ("运行", []);
  ("暂停", []);
  ("服务已就绪", []);
  ("服务尚未就绪", []);
  ("不支持自动淘汰", []);
  ("缓存策略已生效", []);
  ("缓存策略尚未确认生效", []);
  ("通过独立域名访问，请确认证书受信任且域名可达。", []);
  ("连接地址当前仅供集群内部使用。", []);
  ("此模板暂不支持容量统计。", []);
  ("模板能力未知，暂不查询统计。", []);
  ("编辑配置", []);
  ("轮换凭据", []);
  ("删除实例", []);
  ("指标与诊断", []);
  ("确认删除「{name}」？", ["name"]);
  ("存储卷也会被删除，缓存数据将丢失。", []);
  ("存储卷将保留，服务访问会停止。", []);
  ("确认删除", []);
  ("取消", []) ].

(** [ConnectionInfo.tsx] *)
Definition connection_calls : list Shown := [
  ("read -r -p '缓存用户名：' CACHE_USER", []);
  ("read -r -s -p '缓存密码：' CACHE_PASSWORD", []);
  ("read -r -p '缓存用户名：' CACHE_USER", []);
  ("# curl 将提示输入密码；此请求只查询目录信息。", []);
  ("read -r -p '缓存用户名：' EXPBUILD_CACHE_USER", []);
  ("read -r -s -p '缓存密码：' EXPBUILD_CACHE_PASSWORD", []);
  ("客户端连接指引", []);
  ("当前配置尚未确认就绪，恢复运行并就绪后显示连接示例。", []);
  ("当前端点尚无匹配的客户端示例。", []);
  ("在 Bash 终端运行。使用创建或轮换时保存的实例凭据；示例不包含实际密码。", []);
  ("客户端需要能够解析实例域名，并信任入口 TLS 证书。", []);
  ("这些地址仅供集群内部访问，请在可访问该服务的构建环境执行。", []);
  ("实验性配置", []);
  ("Go 缓存尚未通过真实客户端验收。服务端只读在实例设置中生效；客户端禁用上传不能代替授权。请勿向不可信任务提供可写实例令牌。", []);
  ("此配置尚未通过真实 Nx 客户端验收。实例令牌具有读写权限，仅限可信构建环境；不要提供给不受信任的任务。", []);
  ("这些配置尚未通过真实客户端完整验收。只读设置由客户端执行，实例凭据仍具备写入权限。请使用独立实例进行验证。", []);
  ("仅用于新的验证项目：预先配置 Maven 3.9.16、扩展 1.3.0、Python 3，以及 settings.xml 中的 expbuild-maven 凭据引用。已有缓存配置需人工合并。此功能不是依赖镜像仓库。", []);
  ("moonrepo 示例仅用于文档中的独立 JSON 验证工作区。默认只读；写入需显式开启并设置 CI=true。", []);
  ("在 Bazel 项目目录执行，将 //... 替换为需要构建的目标。该配置使用远程缓存，不启用远程执行。", []);
  ("在 Gradle 项目目录执行。仅当 CI=true 时向远程缓存上传；开发机默认只读取。请确保客户端信任入口 TLS 证书。", []) ].

(** [LookupHistory.tsx] *)
Definition history_calls : list Shown := [
  ("历史统计不可用", []);
  ("缓存查询历史", []);
  ("收起查询历史", []);
  ("查看查询历史", []);
  ("缓存查询历史", []);
  ("每秒查询次数，使用五分钟窗口平均。读取和存在性检查分别统计，不能代表构建命中率。缺少数据时显示空缺。", []);
  ("时间范围", []);
  ("最近一小时", []);
  ("最近六小时", []);
  ("最近一天", []);
  ("缓存类型", []);
  ("CAS 内容缓存", []);
  ("AC 动作缓存", []);
  ("查询类型", []);
  ("读取", []);
  ("存在性检查（含 FindMissing）", []);
  ("历史统计暂不可用，需要管理员配置 Prometheus 及实例采集。", []);
  ("正在读取历史统计…", []);
  ("查询速率（次/秒），最新记录在前", []);
  ("时间", []);
  ("命中", []);
  ("未命中", []);
  ("此范围暂无有效采样，不表示查询次数为零。", []) ].

(** [Management.tsx] *)
Definition management_calls : list Shown := [
  ("请求失败", []);
  ("平台管理", []);
  ("用户管理", []);
  ("创建账号，再按项目分配权限。停用账号会立即撤销登录会话。", []);
  ("创建用户", []);
  ("用户邮箱", []);
  ("初始密码", []);
  ("初始密码至少 12 字符，请通过安全渠道交给账号使用者。", []);
  ("创建账号", []);
  ("用户列表", []);
  ("刷新", []);
  ("正在加载…", []);
  ("邮箱", []);
  ("平台身份", []);
  ("状态", []);
  ("操作", []);
  ("平台管理员", []);
  ("普通用户", []);
  ("已启用", []);
  ("已停用", []);
  ("停用", []);
  ("启用", []);
  ("重置密码", []);
  ("停用账号", []);
  ("确认停用 {email}？该账号的会话将立即失效。唯一项目管理员必须先移交权限。", ["email"]);
  ("确认停用", []);
  ("取消", []);
  ("按邮箱添加已有账号。管理员管理成员及凭据；维护者配置实例；只读成员查看状态。", []);
  ("成员邮箱", []);
  ("项目角色", []);
  ("添加成员", []);
  ("正在加载…", []);
  ("邮箱", []);
  ("角色", []);
  ("操作", []);
  ("{value0} 的角色", ["value0"]);
  ("移除", []);
  ("移除 {email} 对此项目的访问权限？", ["email"]);
  ("确认移除", []);
  ("取消", []);
  ("创建项目", []);
  ("重试项目初始化", []);
  ("更新成员权限", []);
  ("移除成员", []);
  ("创建实例", []);
  ("更新实例", []);
  ("删除实例", []);
  ("清理保留卷", []);
  ("轮换凭据", []);
  ("操作完成", []);
  ("操作失败", []);
  ("恢复操作检查", []);
  ("操作被替代", []);
  ("最近 100 条记录；系统操作以“系统”显示。", []);
  ("刷新记录", []);
  ("时间", []);
  ("事件", []);
  ("操作者", []);
  ("详情", []);
  ("系统", []);
  ("暂无审计记录", []) ].

(** [Observability.tsx] *)
Definition observability_calls : list Shown := [
  ("结果已截断，请缩小查询范围。", []);
  ("查看采样值", []);
  ("时间", []);
  ("数值", []);
  ("实例可观测", []);
  ("实例可观测", []);
  ("刷新", []);
  ("观测视图", []);
  ("时间范围", []);
  ("最近一小时", []);
  ("最近六小时", []);
  ("最近一天", []);
  ("缺失采样保留为空。查询命中与构建任务命中不同；容量参考值可能是引擎预算或申请的卷大小。", []);
  ("最后返回时间点", []);
  ("Kubernetes 事件采集状态", []);
  ("次数", []);
  ("显示最近 15 分钟的运行日志，最多 500 条。日志内容保留原始语言。", []);
  ("已设置一小时静默。", []);
  ("静默结果暂时无法确认，请刷新告警后检查。", []);
  ("告警中心", []);
  ("项目可观测", []);
  ("告警中心", []);
  ("项目可观测", []);
  ("服务状态与监控数据状态分别展示。", []);
  ("刷新", []);
  ("有效观测覆盖 {covered} / {total} 个实例", ["covered"; "total"]);
  ("结果已截断，请缩小查询范围。", []);
  ("实例", []);
  ("服务状态", []);
  ("数据状态", []);
  ("内容用量", []);
  ("最后观测", []);
  ("当前告警", []);
  ("当前没有活跃告警。", []);
  ("查看实例诊断", []);
  ("静默一小时", []);
  ("告警历史", []);
  ("历史只包含已收到的通知，接收中断可能导致记录缺失。", []);
  ("最近核对时已不在活跃列表中，尚未收到恢复通知。", []);
  ("最后核对", []);
  ("所选实例", []);
  ("关闭", []);
  ("平台健康", []);
  ("管理服务、后台任务和观测数据源。此页面不代表所有缓存实例的可用性。", []);
  ("刷新", []);
  ("集群", []);
  ("最后观测", []);
  ("数据库连接", []);
  ("连接正常", []);
  ("等待连接数", []);
  ("指标采集端点", []);
  ("后台任务", []);
  ("尚未收到后台任务报告。", []);
  ("任务类型", []);
  ("最后成功", []);
  ("最后失败", []);
  ("等待中的操作", []);
  ("当前没有排队操作。", []);
  ("任务类型", []);
  ("状态", []);
  ("数量", []);
  ("最久等待秒数", []);
  ("观测数据源", []);
  ("已配置表示存在连接配置，不代表数据源当前可用。", []);
  ("已配置", []);
  ("尚未配置数据源", []) ].

(** [PasswordForm.tsx] *)
Definition password_calls : list Shown := [
  ("两次输入的新密码不一致。", []);
  ("密码变更失败", []);
  ("重置 {value0} 的密码", ["value0"]);
  ("修改我的密码", []);
  ("密码已更新，旧会话已撤销。请使用新密码重新登录。", []);
  ("关闭", []);
  ("更新后，该账号所有设备上的登录会话都会失效。", []);
  ("当前密码", []);
  ("新密码", []);
  ("确认新密码", []);
  ("正在更新…", []);
  ("确认更新密码", []);
  ("取消", []) ].

(** [ProjectQuota.tsx] *)
Definition quota_calls : list Shown := [
  ("配额读取失败", []);
  ("配额请输入 0 到 2147483647 的整数，或留空表示不限。", []);
  ("保存失败", []);
  ("项目配额", []);
  ("查看项目配额", []);
  ("额度按已受理的配置预留，并非实时用量。暂停实例仍占用额度，保留卷继续占用存储。", []);
  ("刷新配额", []);
  ("正在读取配额…", []);
  ("可刷新后核对当前配额再操作。", []);
  ("配额已保存", []);
  ("集群硬配额：", []);
  ("已同步", []);
  ("同步失败，后台会重试", []);
  ("待同步", []);
  ("最近核对：", []);
  ("有 {count} 个资源预留待核对，已知预留不代表完整用量。", ["count"]);
  ("资源", []);
  ("已知预留", []);
  ("上限", []);
  ("不限", []);
  ("留空表示不限，0 表示不允许预留。上限不能低于已有预留。", []);
  ("{resource}上限", ["resource"]);
  ("保存中…", []);
  ("保存配额", []);
  ("配额由平台管理员调整。", []) ].

(** [ResourceInventory.tsx] *)
Definition inventory_calls : list Shown := [
  ("对账结果读取失败", []);
  ("对账请求失败", []);
  ("重新核对实际资源，并只增加该实例的资源预留？如果超出项目额度，后续创建和扩容会被阻止。", []);
  ("资源预留校正失败", []);
  ("资源对账", []);
  ("查看资源对账", []);
  ("核对平台记录与实际实例、存储卷。发现差异后需检查原因，不会自动删除或接管资源。", []);
  ("提交中…", []);
  ("请求重新对账", []);
  ("已安排对账，结果将自动刷新。", []);
  ("等待对账结果…", []);
  ("上次核对：", []);
  ("结果已过期，请重新对账后判断当前状态。", []);
  ("上次未发现资源差异", []);
  ("未发现资源差异", []);
  ("发现 {value0} 项资源差异", ["value0"]);
  ("资源正在变化，等待下一次核对", []);
  ("无法完成对账，请检查集群连接或权限", []);
  ("已观察 {instances} 个实例资源、{volumes} 个存储卷。", ["instances"; "volumes"]);
  ("{count} 个实例有进行中的操作，暂缓判断其差异。", ["count"]);
  ("资源", []);
  ("类型", []);
  ("差异", []);
  ("处理", []);
  ("实例", []);
  ("存储卷", []);
  ("校正资源预留", []);
  ("仅显示前 200 项差异，请先处理当前问题再核对。", []) ].

(** [RetainedVolume.tsx] *)
Definition volume_calls : list Shown := [
  ("清理提交失败", []);
  ("保留的存储卷", []);
  ("操作失败后先核对原实例与存储卷；只在原实例已不存在且卷归属验证通过时继续处理。", []);
  ("实例已删除，存储卷可能仍占用容量和产生存储费用。", []);
  ("清理会删除卷声明；底层数据按存储系统的回收策略处理，平台不保证可恢复。", []);
  ("正在删除", []);
  ("存储卷声明已清理。", []);
  ("清理失败：{value0}", ["value0"]);
  ("清理请求已接受，等待结果。", []);
  ("重新检查存储卷", []);
  ("使用保留卷恢复实例", []);
  ("输入卷名确认清理", []);
  ("输入卷名确认清理", []);
  ("正在提交…", []);
  ("永久清理保留卷", []);
  ("重新检查存储卷", []);
  ("仅项目管理员可以恢复或清理保留卷。", []) ].

(** [RetryOperation.tsx] *)
Definition retry_calls : list Shown := [
  ("恢复提交失败", []);
  ("恢复请求已接受，请查看操作状态。", []);
  ("继续删除原实例并清理凭据，按原删除操作已记录的策略处理存储卷。此操作不会撤销删除；存在后续操作时无法恢复。", []);
  ("查找并核对这次创建留下的实例。只恢复配置和归属完全匹配的已有资源；资源不存在时不会重新创建，也不会生成新密码。", []);
  ("继续检查已提交配置的运行结果。不会重新创建实例、重置配置或生成新密码；存在后续操作时无法恢复。", []);
  ("正在提交…", []);
  ("确认继续删除", []);
  ("确认恢复", []);
  ("取消", []);
  ("继续删除", []);
  ("恢复检查", []) ].

(** [RotateCredential.tsx] *)
Definition rotate_calls : list Shown := [
  ("轮换提交失败", []);
  ("轮换缓存凭据", []);
  ("轮换已提交，请在操作记录中确认完成。服务切换期间可能短暂中断；完成后旧密码失效。暂停实例将在下次启动时使用新凭据。", []);
  ("请保存新密码，关闭后无法再次查看。", []);
  ("新用户名", []);
  ("新密码", []);
  ("此操作已提交过，密码不会重复返回。如首次响应丢失，请等待当前操作结束后重新发起轮换。", []);
  ("关闭", []);
  ("将生成新密码并滚动重启服务。新配置生效后，旧凭据会被撤销。请准备更新构建工具中的密码。", []);
  ("确认轮换", []);
  ("取消", []) ].

(** [Statistics.tsx] *)
Definition statistics_calls : list Shown := [
  ("统计暂不可用", []);
  ("实例未运行，实时统计不可用。", []);
  ("实例统计", []);
  ("缓存容量", []);
  ("统计采集暂不可用。", []);
  ("以下保留最近一次结果。", []);
  ("暂无有效数据。", []);
  ("已使用", []);
  ("申请卷容量", []);
  ("引擎容量", []);
  ("文件条目", []);
  ("缓存条目", []);
  ("缓存容量使用率", []);
  ("GET 命中", []);
  ("GET 缺失", []);
  ("PUT 成功", []);
  ("PUT 拒绝", []);
  ("采集于 {time}。", ["time"]);
  ("内容目录扫描是近似快照；申请卷容量不保证是底层存储硬上限，也不代表缓存命中率。", []);
  ("请求计数从当前进程启动时累计；归档用量不代表整个存储卷使用量，GET 命中也不等同于构建任务命中率。", []);
  ("已预留 {size}。这是引擎缓存统计，不代表整个存储卷的使用量。", ["size"]);
  ("未知", []);
  ("正在采集统计…", []) ].

(** [api.ts] *)
Definition api_calls : list Shown := [
  ("请求失败（{value0}）", ["value0"]);
  ("Turborepo HTTP（实验性）", []);
  ("Go cacheprog（实验性）", []);
  ("Nx HTTP（实验性）", []) ].

(** [ui.tsx] *)
Definition ui_calls : list Shown := [
  ("关闭", []) ].

Definition calls : list Shown :=
  (app_calls ++
   connection_calls ++
   history_calls ++
   management_calls ++
   observability_calls ++
   password_calls ++
   quota_calls ++
   inventory_calls ++
   volume_calls ++
   retry_calls ++
   rotate_calls ++
   statistics_calls ++
   api_calls ++
   ui_calls)%list.
