(* ===== verification/I18n.v ===== *)
(** * Languages of the console

    [apps/admin-web/src/i18n.ts]: the preferred language and where it is kept,
    and the translation of a message with its placeholders.

    A text is its UTF-8 bytes: the placeholders are ASCII, so the replacement
    reads the same on bytes and on code units.  The number and date formats are
    functions of [Intl] and are not modelled. *)
From Stdlib Require Import ZArith Lia Ascii.
From stdpp Require Import base tactics list option strings.
From S2P Require Import Prelude Regex Messages Calls.

(** ** The language *)
Inductive Locale := En | ZhCN.
#[export] Instance Locale_eq_dec : EqDecision Locale.
Proof. solve_decision. Defined.
Definition locale_str (l : Locale) : string := match l with En => "en" | ZhCN => "zh-CN" end.

(** A letter of a pattern with the flag [i]. *)
Definition fold_case (c : ascii) : ascii :=
  if is_upper c then ascii_of_nat (nat_of_ascii c + 32) else c.
(** [/^(zh|zh-CN|zh-SG|zh-Hans(?:-.+)?)$/i], on lower-case letters; [.] is not
    the end of a line. *)
Definition not_newline (c : ascii) : bool := negb (one_of (of_chars ["010"%char; "013"%char]) c).
Definition simplified : re :=
  RAlt (rlit "zh") (RAlt (rlit "zh-cn") (RAlt (rlit "zh-sg")
    (RSeq (rlit "zh-hans") (ropt (RSeq (rlit "-") (rplus (RChr not_newline))))))).

Definition detectLocale (saved : option string) (languages : list string) : Locale :=
  if oeq saved (Some "en"%string) then En
  else if oeq saved (Some "zh-CN"%string) then ZhCN
  else if matches simplified (fold_case <$> chars (nullish (head languages) "")) then ZhCN else En.

(** The module's variable and the browser's storage, which may refuse. *)
Record Preference := MkPreference { pf_locale : Locale; pf_saved : option string; pf_storage : bool }.

(** [initialLocale], over what is stored. *)
Definition initialLocale (saved : option string) (storage : bool) (languages : list string) : Locale :=
  detectLocale (if storage then saved else None) languages.
Definition setLocale (value : Locale) (p : Preference) : Preference :=
  MkPreference value (if pf_storage p then Some (locale_str value) else pf_saved p) (pf_storage p).
(** The listener of [storage]: another page has stored a preference. *)
Definition on_storage (languages : list string) (key : string) (newValue : option string) (p : Preference) :
    Preference :=
  if String.eqb key "expbuild-locale"
  then MkPreference (detectLocale newValue languages) newValue (pf_storage p) else p.

(** ** Messages *)

(** [\w] *)
Definition is_word (c : ascii) : bool := is_alnum c || Ascii.eqb c "_".

(** The global matches of [/\{(\w+)\}/g] and the characters between them.
    [pending] holds the word read since an opening brace. *)
Inductive piece := Char (c : ascii) | Hole (name : list ascii).
Fixpoint pieces (pending : option (list ascii)) (l : list ascii) : list piece :=
  let flush := match pending with None => [] | Some w => Char "{" :: (Char <$> w) end in
  match l with
  | [] => flush
  | c :: l =>
      if Ascii.eqb c "{" then flush ++ pieces (Some []) l
      else match pending with
           | None => Char c :: pieces None l
           | Some w =>
               if is_word c then pieces (Some (w ++ [c])) l
               else if Ascii.eqb c "}" && negb (bool_decide (w = [])) then Hole w :: pieces None l
               else flush ++ Char c :: pieces None l
           end
  end%list.

Definition braced (name : list ascii) : list ascii := ("{" :: name ++ ["}"])%list%char.

(** [table[key] ?? fallback] of an object literal whose keys are its own. *)
Definition named (table : list (string * string)) (key : string) : option string :=
  snd <$> head (filter (λ e, e.1 = key) table).

(** [String(values[name] ?? match)] *)
Definition fill (values : list (string * string)) (p : piece) : list ascii :=
  match p with
  | Char c => [c]
  | Hole name => match named values (of_chars name) with
                 | Some v => chars v
                 | None => braced name
                 end
  end.
Definition localized (locale : Locale) (message : string) : string :=
  match locale with ZhCN => message | En => nullish (named messages message) message end.
Definition t (locale : Locale) (message : string) (values : list (string * string)) : string :=
  of_chars (pieces None (chars (localized locale message)) ≫= fill values).

(** ** What the pieces are *)
Definition holes (l : list piece) : list string :=
  omap (λ p, match p with Hole n => Some (of_chars n) | Char _ => None end) l.
Definition placeholders (text : string) : list string := holes (pieces None (chars text)).

(** *** How a text is read

    The specification of the pattern: a placeholder is a word of one character or
    more between braces, and a text reads as its placeholders, every one that
    occurs, and the characters between them. *)
Definition word (n : list ascii) : Prop := n ≠ [] ∧ Forall (λ c, is_word c = true) n.
Inductive reads : list ascii → list piece → Prop :=
  | reads_nil : reads [] []
  | reads_hole n l ps : word n → reads l ps → reads (braced n ++ l) (Hole n :: ps)
  | reads_char c l ps : (∀ n l', word n → c :: l ≠ (braced n ++ l')%list) → reads l ps → reads (c :: l) (Char c :: ps).

(** Words end where another character comes. *)
Lemma words_end n w x y a b :
  Forall (λ c, is_word c = true) n → Forall (λ c, is_word c = true) w → is_word x = false → is_word y = false →
  (n ++ x :: a)%list = (w ++ y :: b)%list → n = w ∧ x = y ∧ a = b.
Proof.
  intros Hn. revert w. induction Hn as [|c n Hc _ IH]; intros [|d w] Hw Hx Hy E; simpl in E.
  - by injection E as -> ->.
  - apply Forall_cons in Hw as [Hd _]. injection E as -> _. congruence.
  - injection E as -> _. congruence.
  - apply Forall_cons in Hw as [_ Hw]. injection E as -> E. by destruct (IH w Hw Hx Hy E) as (-> & -> & ->).
Qed.
Lemma braced_inj n w a b : word n → word w → (braced n ++ a)%list = (braced w ++ b)%list → n = w ∧ a = b.
Proof.
  intros [_ Hn] [_ Hw]. unfold braced. simpl. rewrite <- !app_assoc. intros [= E].
  by apply words_end in E as (-> & _ & ->).
Qed.
Lemma reads_unique l ps qs : reads l ps → reads l qs → ps = qs.
Proof.
  intros H. revert qs. induction H as [|n l ps Hn _ IH|c l ps Hc _ IH]; intros qs Hq.
  - by inversion Hq.
  - remember (braced n ++ l)%list as text eqn:E. destruct Hq as [|w l' qs Hw Hr|c l' qs Hc Hr]; [done| |].
    + apply braced_inj in E as [-> ->]; [|done..]. f_equal. by apply IH.
    + destruct (Hc n l Hn E).
  - remember (c :: l) as text eqn:E. destruct Hq as [|w l' qs Hw Hr|d l' qs Hd Hr]; [done| |].
    + by destruct (Hc w l' Hw).
    + simplify_eq. f_equal. by apply IH.
Qed.

(** *** The pieces are that reading *)
Lemma reads_other c l ps : c ≠ "{"%char → reads l ps → reads (c :: l) (Char c :: ps).
Proof. intros Hc. apply reads_char. intros n l' _. unfold braced. simpl. congruence. Qed.
Lemma reads_words w l ps : Forall (λ c, is_word c = true) w → reads l ps → reads (w ++ l) ((Char <$> w) ++ ps).
Proof.
  induction 1 as [|c w Hc _ IH]; intros Hl; simpl; [done|]. apply reads_other; [by intros ->|by apply IH].
Qed.
(** An opening brace and a word that no closing brace follows. *)
Lemma reads_open w l ps :
  Forall (λ c, is_word c = true) w →
  match l with [] => True | c :: _ => is_word c = false ∧ (c = "}"%char → w = []) end →
  reads l ps → reads ("{"%char :: w ++ l) (Char "{" :: (Char <$> w) ++ ps).
Proof.
  intros Hw Hl Hr. apply reads_char; [|by apply reads_words]. intros n l' [Hne Hn]. unfold braced. simpl.
  rewrite <- app_assoc. intros [= E]. destruct l as [|c l].
  - assert ("}"%char ∈ w) as Hin by (rewrite app_nil_r in E; rewrite E; apply elem_of_app; right; by left).
    rewrite Forall_forall in Hw. by apply Hw in Hin.
  - destruct Hl as [Hc Hb]. apply words_end in E as (-> & -> & _); [|done..]. by apply Hne, Hb.
Qed.
Lemma pieces_reads pending l :
  match pending with None => True | Some w => Forall (λ c, is_word c = true) w end →
  reads (match pending with None => l | Some w => "{"%char :: w ++ l end) (pieces pending l).
Proof.
  revert pending. induction l as [|c l IH]; intros [w|] Hw; simpl.
  - rewrite <- (app_nil_r (Char <$> w)). apply reads_open; [done..|constructor].
  - constructor.
  - destruct (Ascii.eqb_spec c "{") as [->|Hb].
    { apply reads_open; [done|by split|]. by apply (IH (Some [])). }
    destruct (is_word c) eqn:Hc.
    { specialize (IH (Some (w ++ [c])%list)). simpl in IH. rewrite <- app_assoc in IH. apply IH, Forall_app.
      split; [done|by repeat constructor]. }
    destruct (_ && _) eqn:E; simpl.
    { apply andb_true_iff in E as [->%Ascii.eqb_eq Hne%negb_true_iff%bool_decide_eq_false].
      replace ("{"%char :: w ++ "}"%char :: l)%list with (braced w ++ l)%list by (unfold braced; simpl; by rewrite <- app_assoc).
      apply reads_hole; [done|]. by apply (IH None). }
    apply reads_open; [done| |apply reads_other; [done|by apply (IH None)]]. split; [done|]. intros ->.
    rewrite Ascii.eqb_refl in E. simpl in E. by apply negb_false_iff, bool_decide_eq_true in E.
  - destruct (Ascii.eqb_spec c "{") as [->|Hb]; [by apply (IH (Some []))|]. apply reads_other; [done|by apply (IH None)].
Qed.
Lemma text_reads text : reads (chars text) (pieces None (chars text)).
Proof. by apply (pieces_reads None). Qed.

(** ** The dictionary *)

(** Every label the tables show. *)
Definition labels : list string :=
  stateNames.*2 ++ operationNames.*2 ++ roles.*2 ++ actions.*2 ++ fields.*2 ++ issueMessages.*2 ++
  sourceNames.*2 ++ workerNames.*2 ++ stateText.*2 ++ metricNames.*2 ++
  (sec_label <$> sections) ++ (sec_description <$> sections).

(** Equal lists of names in any order. *)
Definition same_placeholders (a b : string) : bool :=
  bool_decide (stable_sort String.leb (placeholders a) = stable_sort String.leb (placeholders b)).
Lemma same_placeholders_perm a b : same_placeholders a b = true → placeholders a ≡ₚ placeholders b.
Proof.
  intros E%bool_decide_eq_true.
  by rewrite <-(stable_sort_perm String.leb (placeholders a)), E, stable_sort_perm.
Qed.

Definition translated (e : string * string) : bool :=
  negb (String.eqb e.2 "") && same_placeholders e.1 e.2.
Definition answered (c : Shown) : bool :=
  bool_decide (is_Some (named messages c.1)) && forallb (includes c.2) (placeholders c.1).
Lemma messages_checked :
  forallb translated messages && bool_decide (NoDup messages.*1) &&
  forallb (λ l, bool_decide (is_Some (named messages l))) labels && forallb answered calls = true.
Proof. vm_compute. reflexivity. Qed.

Lemma named_elem table k v : named table k = Some v → (k, v) ∈ table.
Proof.
  unfold named. intros ([k' v'] & E & [= <-])%fmap_Some.
  apply head_Some_elem_of, list_elem_of_filter in E as [E Hin]. simpl in E. by subst.
Qed.

Lemma translated_spec zh en : (zh, en) ∈ messages → en ≠ "" ∧ placeholders zh ≡ₚ placeholders en.
Proof.
  intros Hin. pose proof messages_checked as H. boolify.
  match goal with H : forallb translated _ = true |- _ => rewrite forallb_forall in H; specialize (H (zh, en)) end.
  rewrite <-list_elem_of_In in *. destruct (proj1 (andb_true_iff _ _) (H Hin)) as [Hn Hp]. boolify.
  split; [done|by apply same_placeholders_perm].
Qed.

Lemma localized_placeholders locale message n :
  n ∈ placeholders (localized locale message) → n ∈ placeholders message.
Proof.
  destruct locale; simpl; [|done]. destruct (named messages message) as [en|] eqn:E; simpl; [|done].
  apply named_elem, translated_spec in E as [_ E]. by rewrite E.
Qed.

(** An entry is found under its source: the sources are distinct. *)
Lemma localized_entry zh en : (zh, en) ∈ messages → localized En zh = en.
Proof.
  intros Hin. assert (NoDup messages.*1) as Hnd by (pose proof messages_checked as H; by boolify).
  simpl. unfold named. destruct (filter _ messages) as [|[k v] l] eqn:E.
  - assert ((zh, en) ∈ filter (λ e : string * string, e.1 = zh) messages) as Hf by by apply list_elem_of_filter.
    rewrite E in Hf. by apply not_elem_of_nil in Hf.
  - assert ((k, v) ∈ filter (λ e : string * string, e.1 = zh) messages) as Hf by (rewrite E; by left).
    apply list_elem_of_filter in Hf as [Hk Hkv]. simpl in Hk. subst k. simpl.
    apply list_elem_of_lookup in Hin as [i Hi], Hkv as [j Hj].
    assert (i = j) as ->; [|congruence]. eapply NoDup_lookup; [exact Hnd|..]; rewrite list_lookup_fmap; [by rewrite Hi|by rewrite Hj].
Qed.

(** The whole text of a message, every placeholder replaced. *)
Definition complete (values : list (string * string)) (p : piece) : list ascii :=
  match p with Char c => [c] | Hole name => chars (default "" (named values (of_chars name))) end.

Lemma fill_complete values l :
  (∀ n, n ∈ holes l → is_Some (named values n)) → l ≫= fill values = l ≫= complete values.
Proof.
  induction l as [|p l IH]; intros H; [done|]. rewrite !bind_cons. f_equal.
  - destruct p as [c|n]; [done|]. simpl. destruct (H (of_chars n)) as [v ->]; [by left|]. done.
  - apply IH. intros n Hn. apply H. destruct p; [done|by right].
Qed.
Lemma named_keys (values : list (string * string)) n : n ∈ values.*1 → is_Some (named values n).
Proof.
  intros ([k v] & -> & Hin)%list_elem_of_fmap. unfold named. cbn [fst].
  destruct (filter _ values) as [|e l] eqn:E; [|by eexists].
  assert ((k, v) ∈ filter (λ e : string * string, e.1 = k) values) as Hf by by apply list_elem_of_filter.
  rewrite E in Hf. by apply not_elem_of_nil in Hf.
Qed.
Lemma call_answered message names : (message, names) ∈ calls →
  (∃ en, named messages message = Some en ∧ (message, en) ∈ messages) ∧ ∀ n, n ∈ placeholders message → n ∈ names.
Proof.
  intros Hin%list_elem_of_In. pose proof messages_checked as H. apply andb_true_iff in H as [_ H].
  rewrite forallb_forall in H. apply H in Hin. apply andb_true_iff in Hin as [[en E]%bool_decide_eq_true Hn].
  split; [exists en; split; [done|by apply named_elem]|]. intros n Hp%list_elem_of_In. rewrite forallb_forall in Hn.
  by apply includes_spec, Hn.
Qed.


