(* ===== verification/OpenApi.v ===== *)
(** * The description of the API

    [apps/admin-api/src/openapi.ts]: the OpenAPI document the server publishes,
    as the JSON value the module builds when it is loaded.

    The schemas that the schema library derives from the validators of the code
    are parameters of the document: the fields of [z.toJSONSchema(instanceInput)]
    and of [z.toJSONSchema(quotaInput)]. *)
From Stdlib Require Import ZArith Lia Ascii.
From stdpp Require Import base tactics list option strings sets.
From S2P Require Import Prelude Regex Numbers Effects Catalog.

(** ** Schema constructors *)
Definition ref (name : string) : json := JObj [("$ref", JStr ("#/components/schemas/" +:+ name))].
Definition string_schema : json := JObj [("type", JStr "string")].
Definition uuid_schema : json := JObj [("type", JStr "string"); ("format", JStr "uuid")].
Definition bool_schema : json := JObj [("type", JStr "boolean")].
Definition object_with (properties : list (string * json)) (required : list string) (strict : bool) : json :=
  JObj ([("type", JStr "object"); ("properties", JObj properties); ("required", JArr (JStr <$> required))]
        ++ (if strict then [("additionalProperties", JBool false)] else [])).
(** The properties are required unless named otherwise. *)
Definition object (properties : list (string * json)) : json := object_with properties properties.*1 false.
Definition strict_object (properties : list (string * json)) : json := object_with properties properties.*1 true.
Definition list_schema (item : json) : json :=
  object [("items", JObj [("type", JStr "array"); ("items", item)])].
Definition nullable (schema : json) : json :=
  JObj [("anyOf", JArr [schema; JObj [("type", JStr "null")]])].

Definition password_schema : json :=
  JObj [("type", JStr "string"); ("minLength", JInt 12); ("maxLength", JInt 1024); ("writeOnly", JBool true)].
Definition email_schema : json :=
  JObj [("type", JStr "string"); ("format", JStr "email"); ("maxLength", JInt 254)].
Definition role_schema : json :=
  JObj [("type", JStr "string"); ("enum", JArr [JStr "admin"; JStr "maintainer"; JStr "viewer"])].
Definition ok_schema : json :=
  object [("ok", JObj [("const", JBool true)])].
Definition user_fields : list (string * json) :=
  [("id", uuid_schema); ("email", email_schema); ("platform_admin", bool_schema)].
Definition user_schema : json := object user_fields.
Definition operation_schema : json :=
  object [("id", uuid_schema); ("project_id", uuid_schema); ("instance_id", nullable (uuid_schema));
     ("kind", string_schema); ("state", JObj [("type", JStr "string"); ("enum", JArr [JStr "pending";
     JStr "applying"; JStr "reconciling"; JStr "succeeded"; JStr "failed"; JStr "superseded"])]);
     ("target_generation", nullable (JObj [("type", JArr [JStr "string"; JStr "integer"])]));
     ("error_code", nullable (string_schema)); ("created_at", JObj [("type", JStr "string");
     ("format", JStr "date-time")]); ("updated_at", JObj [("type", JStr "string");
     ("format", JStr "date-time")])].
Definition accepted_schema : json :=
  object_with [("operation", ref "Operation"); ("replayed", bool_schema);
     ("credentials", object [("username", string_schema); ("password", JObj [("type", JStr "string");
     ("description", JStr "Returned once, never on an idempotent replay. Store securely.")])])] ["operation"] false.

(** ** [schemas] *)
Definition InventoryResult_schema : json :=
  object_with [("state", JObj [("type", JStr "string"); ("enum", JArr [JStr "Healthy"; JStr "Drift";
     JStr "InProgress"; JStr "Unavailable"])]); ("issues", JObj [("type", JStr "array"); ("maxItems", JInt 200);
     ("items", object [("code", string_schema); ("kind", JObj [("type", JStr "string");
     ("enum", JArr [JStr "CacheInstance"; JStr "PersistentVolumeClaim"])]); ("resourceName", string_schema);
     ("instanceId", nullable (uuid_schema))])]); ("issueCount", JObj [("type", JStr "integer");
     ("minimum", JInt 0)]); ("truncated", bool_schema); ("busyInstances", JObj [("type", JStr "integer");
     ("minimum", JInt 0)]); ("counts", nullable (object [("instances", JObj [("type", JStr "integer");
     ("minimum", JInt 0)]); ("volumes", JObj [("type", JStr "integer"); ("minimum", JInt 0)])]));
     ("error", string_schema)] ["state"; "issues"; "issueCount"; "truncated"; "busyInstances"; "counts"] false.
Definition QuotaSnapshot_schema : json :=
  object [("limits", ref "QuotaLimits"); ("revision", string_schema);
     ("reserved", object ((λ key, (key, JObj [("type", JStr "integer"); ("minimum", JInt 0)])) <$> ["instances";
     "storageGiB"; "cpuMillis"; "memoryMiB"])); ("unknownReservations", JObj [("type", JStr "integer");
     ("minimum", JInt 0)]); ("synchronization", object [("state", JObj [("type", JStr "string");
     ("enum", JArr [JStr "Pending"; JStr "Applied"; JStr "Failed"])]);
     ("observedRevision", nullable (string_schema)); ("checkedAt", nullable (JObj [("type", JStr "string");
     ("format", JStr "date-time")])); ("error", nullable (string_schema))])].
Definition Error_schema : json :=
  object_with [("error", string_schema); ("issues", JObj [("type", JStr "array");
     ("items", object [("path", JObj [("type", JStr "array"); ("items", JObj [("type", JArr [JStr "string";
     JStr "integer"])])]); ("message", string_schema)])])] ["error"] false.
(** [{ ...instanceSchema, description }], [$schema] deleted. *)
Definition InstanceInput_schema (instance_fields : list (string * json)) : json :=
  JObj (map_set "description" (JStr
    "Full configuration, including for PATCH. exposure defaults to ClusterInternal; Gateway requires administrator-enabled shared HTTPS Gateway configuration. External endpoints appear only after backend and route readiness; ExternalReachability=Unknown means external DNS/TLS/client access has not been verified. For bazel-remote, gradle-http and experimental turborepo-http/nx-http/go-cacheprog, cacheGiB must be positive and strictly less than storageGiB. For webdav-apache, cacheGiB must be zero; automatic eviction is unsupported. Storage shrinking and template changes are forbidden. Optional templates require the deployment to enable their trusted images.")
    (filter (λ p, p.1 ≠ "$schema") instance_fields)).
Definition Project_schema : json :=
  object_with [("id", uuid_schema); ("name", string_schema); ("namespace", string_schema);
     ("state", JObj [("type", JStr "string"); ("enum", JArr [JStr "pending"; JStr "ready"; JStr "failed";
     JStr "deleting"])]); ("role", role_schema)] ["id"; "name"; "namespace"; "state"] false.
Definition InstanceSummary_schema : json :=
  object [("id", uuid_schema); ("template_name", string_schema); ("display_name", string_schema);
     ("lifecycle", JObj [("type", JStr "string"); ("enum", JArr [JStr "pending"; JStr "active"; JStr "deleting";
     JStr "deleted"; JStr "detached"; JStr "failed"])]); ("resource_name", string_schema);
     ("created_at", JObj [("type", JStr "string"); ("format", JStr "date-time")])].
Definition InstanceCapabilities_schema : json :=
  object [("capacity", bool_schema); ("statistics", bool_schema); ("lookupHistory", bool_schema);
     ("lru", bool_schema); ("ttl", bool_schema); ("replicas", JObj [("type", JStr "integer");
     ("minimum", JInt 1)]); ("policyApplyMode", JObj [("type", JStr "string"); ("enum", JArr [JStr "restart";
     JStr "unsupported"])]); ("policyCondition", string_schema)].
Definition ClientProfile_schema : json :=
  object [("id", string_schema); ("protocol", string_schema); ("version", string_schema);
     ("status", JObj [("type", JStr "string"); ("enum", JArr [JStr "experimental"])])].
Definition InstanceDetail_schema : json :=
  object [("clientProfiles", JObj [("type", JStr "array"); ("items", ref "ClientProfile")]);
     ("templateVersion", nullable (string_schema)); ("capabilities", nullable (ref "InstanceCapabilities"));
     ("template", JObj [("type", JStr "string"); ("enum", JArr [JStr "bazel-remote"; JStr "webdav-apache";
     JStr "gradle-http"; JStr "turborepo-http"; JStr "nx-http"; JStr "go-cacheprog"])]); ("id", uuid_schema);
     ("name", string_schema); ("lifecycle", string_schema); ("revision", nullable (string_schema));
     ("spec", nullable (JObj [("type", JStr "object");
     ("description", JStr "Desired CacheInstance spec; excludes credential contents.")]));
     ("status", nullable (JObj [("type", JStr "object");
     ("description", JStr "Observed Kubernetes conditions, endpoints and applied revisions. May lag spec.")]));
     ("observedAt", JObj [("type", JStr "string"); ("format", JStr "date-time")])].
Definition Statistics_schema : json :=
  object_with [("source", JObj [("type", JStr "string"); ("enum", JArr [JStr "bazel-remote-status";
     JStr "webdav-content-scan"; JStr "gradle-http-status"])]); ("observedAt", JObj [("type", JStr "string");
     ("format", JStr "date-time")]); ("usedBytes", JObj [("type", JStr "integer"); ("minimum", JInt 0)]);
     ("capacityBytes", JObj [("type", JStr "integer"); ("minimum", JInt 1)]);
     ("itemCount", JObj [("type", JStr "integer"); ("minimum", JInt 0)]);
     ("reservedBytes", nullable (JObj [("type", JStr "integer"); ("minimum", JInt 0)]));
     ("uncompressedBytes", nullable (JObj [("type", JStr "integer"); ("minimum", JInt 0)]));
     ("requestCounts", JObj [("type", JStr "object");
     ("properties", JObj [("getHits", JObj [("type", JStr "integer"); ("minimum", JInt 0)]);
     ("getMisses", JObj [("type", JStr "integer"); ("minimum", JInt 0)]);
     ("putSuccess", JObj [("type", JStr "integer"); ("minimum", JInt 0)]);
     ("putRejected", JObj [("type", JStr "integer"); ("minimum", JInt 0)])]); ("required", JArr [JStr "getHits";
     JStr "getMisses"; JStr "putSuccess"; JStr "putRejected"])])] ["source"; "observedAt"; "usedBytes";
     "capacityBytes"; "itemCount"; "reservedBytes"; "uncompressedBytes"] false.

Definition schemas (instance_fields quota_fields : list (string * json)) : list (string * json) :=
  [ ("InventoryResult", InventoryResult_schema);
    ("QuotaLimits", JObj quota_fields);
    ("QuotaSnapshot", QuotaSnapshot_schema);
    ("Error", Error_schema);
    ("User", user_schema);
    ("Operation", operation_schema);
    ("Accepted", accepted_schema);
    ("InstanceInput", InstanceInput_schema instance_fields);
    ("Project", Project_schema);
    ("InstanceSummary", InstanceSummary_schema);
    ("InstanceCapabilities", InstanceCapabilities_schema);
    ("ClientProfile", ClientProfile_schema);
    ("InstanceDetail", InstanceDetail_schema);
    ("Statistics", Statistics_schema) ].

(** ** [route] *)
Record Options := MkRouteOptions {
  o_body : option json; o_response : option json; o_code : option Z; o_public : bool;
  o_idempotent : bool; o_revision : bool; o_revisionDescription : option string;
  o_description : option string; o_headers : option json; o_query : list json;
  o_bearer : bool; o_contentType : option string }.
#[export] Instance eta_Options : Eta Options := λ r,
  MkRouteOptions (o_body r) (o_response r) (o_code r) (o_public r) (o_idempotent r) (o_revision r)
    (o_revisionDescription r) (o_description r) (o_headers r) (o_query r) (o_bearer r) (o_contentType r).
Definition no_options : Options :=
  MkRouteOptions None None None false false false None None None [] false None.
Record Route := MkRoute { r_method : string; r_path : string; r_id : string; r_summary : string; r_options : Options }.

(** The matches of [/\{([^}]+)\}/g]; [name] is what was read since an opening
    brace. *)
Fixpoint braces (name : option (list ascii)) (l : list ascii) : list string :=
  match l with
  | [] => []
  | c :: l =>
      match name with
      | None => braces (if Ascii.eqb c "{" then Some [] else None) l
      | Some n =>
          if Ascii.eqb c "}" then
            match n with [] => braces None l | _ => of_chars n :: braces None l end
          else braces (Some (n ++ [c])) l
      end
  end.
Definition path_names (path : string) : list string := braces None (chars path).

Definition parameter (name place : string) (schema : json) (description : option string) : json :=
  JObj ([("name", JStr name); ("in", JStr place); ("required", JBool true); ("schema", schema)]
        ++ match description with Some d => [("description", JStr d)] | None => [] end).
Definition key_schema : json :=
  JObj [("type", JStr "string"); ("minLength", JInt 8); ("maxLength", JInt 128); ("pattern", JStr "^[a-zA-Z0-9._:-]+$")].
Definition parameters (r : Route) : list json :=
  let o := r_options r in
  ((λ name, parameter name "path" uuid_schema None) <$> path_names (r_path r)) ++ o_query o
  ++ (if negb (String.eqb (r_method r) "get") && negb (o_bearer o) then
        [parameter "Origin" "header" string_schema (Some "Must exactly equal configured APP_ORIGIN.")]
        ++ (if o_public o then [] else
              [parameter "x-csrf-token" "header" string_schema
                 (Some "Token returned by login for the current session.")])
      else [])
  ++ (if o_idempotent o then
        [parameter "Idempotency-Key" "header" key_schema
           (Some "Reuse for retrying the same request. Reuse with a different payload returns 409.")]
      else [])
  ++ (if o_revision o then
        [parameter "If-Match" "header" string_schema
           (Some (nullish (o_revisionDescription o)
              "ETag from instance GET, containing UID:generation. Unchanged spec status updates do not invalidate it."))]
      else []).

Definition json_content (schema : json) : json :=
  JObj [("application/json", JObj [("schema", schema)])].
Definition error_responses : list (string * json) :=
  (λ '(code, description), (code, JObj [("description", JStr description); ("content", json_content (ref "Error"))])) <$>
  [ ("400", "Invalid input"); ("401", "Authentication required or invalid credentials");
    ("403", "Permission, Origin or CSRF denied"); ("404", "Resource not found, including inaccessible projects");
    ("409", "Conflict, stale version, active operation or invariant violation"); ("429", "Login rate limit");
    ("500", "Unexpected server error"); ("503", "Kubernetes or engine temporarily unavailable") ].
Definition success (o : Options) : json :=
  JObj ([("description", JStr (if oeq (o_code o) (Some 202)
           then "Accepted for asynchronous processing; poll operation state." else "Successful response"))]
        ++ match o_headers o with Some h => [("headers", h)] | None => [] end
        ++ [("content", JObj [(nullish (o_contentType o) "application/json",
               JObj [("schema", nullish (o_response o) ok_schema)])])]).
(** [{ ...errors, [code]: success }]: the keys of an object that are numbers are
    enumerated in their order, and a success is smaller than an error. *)
Definition responses (o : Options) : json :=
  JObj ((dec_str (nullish (o_code o) 200), success o) :: error_responses).
Definition security (o : Options) : json :=
  JArr (if o_bearer o then [JObj [("telemetryBearer", JArr [])]]
        else if o_public o then [] else [JObj [("session", JArr [])]]).
Definition operation_object (r : Route) : json :=
  let o := r_options r in
  JObj ([("operationId", JStr (r_id r)); ("summary", JStr (r_summary r));
         ("description", JStr (nullish (o_description o) (r_summary r)));
         ("security", security o); ("parameters", JArr (parameters r))]
        ++ match o_body o with
           | Some body => [("requestBody", JObj [("required", JBool true); ("content", json_content body)])]
           | None => []
           end
        ++ [("responses", responses o)]).
(** [paths[path] ??= {}; paths[path][method] = ...] *)
Definition methods_of (path : string) (paths : list (string * list (string * json))) : list (string * json) :=
  nullish (snd <$> head (filter (λ p, p.1 = path) paths)) [].
Definition route (paths : list (string * list (string * json))) (r : Route) : list (string * list (string * json)) :=
  map_set (r_path r) (map_set (r_method r) (operation_object r) (methods_of (r_path r) paths)) paths.

(** ** The operations *)
Definition base : string := "/v1/projects/{projectId}/instances".
Definition account_routes : list Route := [
  MkRoute "get" ("/healthz") "health"
    "Process health"
    (no_options
    <| o_public := true |>);
  MkRoute "get" ("/readyz") "readiness"
    "Database connectivity"
    (no_options
    <| o_public := true |>);
  MkRoute "post" ("/v1/auth/login") "login"
    "Create a session"
    (no_options
    <| o_public := true |>
    <| o_body := Some (strict_object [("email", email_schema); ("password", JObj [("type", JStr "string");
       ("minLength", JInt 1); ("maxLength", JInt 1024); ("writeOnly", JBool true)])]) |>
    <| o_response := Some (object [("csrfToken", string_schema)]) |>
    <| o_headers := Some (JObj [("Set-Cookie", JObj [("schema", string_schema);
       ("description", JStr "HttpOnly expbuild_session cookie; same-origin clients must retain it.")])]) |>);
  MkRoute "get" ("/v1/auth/me") "currentUser"
    "Current session user"
    (no_options
    <| o_response := Some (object [("user", ref "User")]) |>);
  MkRoute "post" ("/v1/auth/logout") "logout"
    "Revoke current session"
    (no_options);
  MkRoute "post" ("/v1/auth/password") "changePassword"
    "Change own password and revoke all own sessions"
    (no_options
    <| o_body := Some (strict_object [("currentPassword", JObj [("type", JStr "string"); ("minLength", JInt 1);
       ("maxLength", JInt 1024); ("writeOnly", JBool true)]); ("password", password_schema)]) |>
    <| o_response := Some (object [("ok", JObj [("const", JBool true)]);
       ("reauthenticate", JObj [("const", JBool true)])]) |>);
  MkRoute "get" ("/v1/users") "listUsers"
    "Platform administrator: list up to 200 users"
    (no_options
    <| o_response := Some (list_schema (object (user_fields ++ [("active", bool_schema);
       ("created_at", JObj [("type", JStr "string"); ("format", JStr "date-time")])]))) |>);
  MkRoute "post" ("/v1/users") "createUser"
    "Platform administrator: create a user"
    (no_options
    <| o_code := Some 201 |>
    <| o_body := Some (strict_object [("email", email_schema); ("password", password_schema)]) |>
    <| o_response := Some (object [("id", uuid_schema); ("email", email_schema)]) |>);
  MkRoute "patch" ("/v1/users/{userId}") "updateUser"
    "Platform administrator: activate or disable a user"
    (no_options
    <| o_body := Some (strict_object [("active", bool_schema)]) |>
    <| o_description := Some "Disabling revokes sessions. Cannot disable yourself or leave a project without an active administrator." |>);
  MkRoute "post" ("/v1/users/{userId}/password") "resetPassword"
    "Platform administrator: reset another user password and revoke sessions"
    (no_options
    <| o_body := Some (strict_object [("password", password_schema)]) |>) ].
Definition project_routes : list Route := [
  MkRoute "get" ("/v1/projects") "listProjects"
    "List up to 200 accessible projects"
    (no_options
    <| o_response := Some (list_schema (ref "Project")) |>);
  MkRoute "post" ("/v1/projects") "createProject"
    "Platform administrator: create and initialize a project"
    (no_options
    <| o_code := Some 202 |>
    <| o_body := Some (strict_object [("name", JObj [("type", JStr "string"); ("minLength", JInt 1);
       ("maxLength", JInt 100)])]) |>
    <| o_response := Some (object [("id", uuid_schema); ("namespace", string_schema);
       ("state", JObj [("const", JStr "pending")])]) |>
    <| o_description := Some "Creates project membership and queues namespace initialization. This route does not support idempotency; inspect project list before retrying an ambiguous response." |>);
  MkRoute "get" ("/v1/projects/{projectId}/inventory") "getProjectInventory"
    "Project member: read the last read-only resource inventory"
    (no_options
    <| o_response := Some (object [("result", nullable (ref "InventoryResult"));
       ("checkedAt", nullable (JObj [("type", JStr "string"); ("format", JStr "date-time")]))]) |>);
  MkRoute "post" ("/v1/projects/{projectId}/inventory/refresh") "refreshProjectInventory"
    "Project member: schedule a read-only inventory scan"
    (no_options
    <| o_code := Some 202 |>
    <| o_response := Some (object [("scheduled", JObj [("const", JBool true)])]) |>
    <| o_description := Some "Coalesced refresh requests, at least 10 seconds after the previous scan. Does not mutate Kubernetes resources or release resource reservations." |>);
  MkRoute "post" ("/v1/projects/{projectId}/instances/{instanceId}/reservations/reconcile") "reconcileInstanceReservation"
    "Platform administrator: raise an instance reservation to observed resource requirements"
    (no_options
    <| o_response := Some (object [("reserved", object [("storageGiB", string_schema);
       ("cpuMillis", nullable (string_schema)); ("memoryMiB", nullable (string_schema))])]) |>
    <| o_description := Some "Freshly scans the project namespace and checks instance/PVC ownership, UID, template and configuration. Refuses busy or ambiguous instances and concurrent platform changes. Only increases high-water reservations; detached volumes update storage only. May record usage above a configured quota, blocking new admissions until resolved. Does not modify Kubernetes resources or lower reservations." |>);
  MkRoute "get" ("/v1/projects/{projectId}/quota") "getProjectQuota"
    "Project member: read resource reservations and limits"
    (no_options
    <| o_response := Some (ref "QuotaSnapshot") |>);
  MkRoute "put" ("/v1/projects/{projectId}/quota") "updateProjectQuota"
    "Platform administrator: update project resource limits"
    (no_options
    <| o_body := Some (ref "QuotaLimits") |>
    <| o_response := Some (ref "QuotaSnapshot") |>
    <| o_revision := true |>
    <| o_revisionDescription := Some "Quota revision from GET project quota; not an instance revision." |>
    <| o_description := Some "If-Match is the quota revision. Null means unlimited; zero prevents new reservations. Rejects limits below current reservations or unresolved legacy usage. Admission reserves resources in the management API. Kubernetes ResourceQuota is reconciled asynchronously; synchronization reports the last observation." |>);
  MkRoute "post" ("/v1/projects/{projectId}/retry") "retryProject"
    "Project administrator: retry failed initialization"
    (no_options
    <| o_code := Some 202 |>
    <| o_idempotent := true |>
    <| o_response := Some (object [("operation", object [("id", uuid_schema); ("state", string_schema);
       ("error_code", nullable (string_schema))])]) |>);
  MkRoute "get" ("/v1/projects/{projectId}/members") "listMembers"
    "Project administrator: list members"
    (no_options
    <| o_response := Some (list_schema (object [("id", uuid_schema); ("email", email_schema);
       ("role", role_schema)])) |>);
  MkRoute "post" ("/v1/projects/{projectId}/members") "addMember"
    "Project administrator: add or update an existing account by email"
    (no_options
    <| o_body := Some (strict_object [("email", email_schema); ("role", role_schema)]) |>);
  MkRoute "put" ("/v1/projects/{projectId}/members/{userId}") "updateMember"
    "Project administrator: update role"
    (no_options
    <| o_body := Some (strict_object [("role", role_schema)]) |>);
  MkRoute "delete" ("/v1/projects/{projectId}/members/{userId}") "removeMember"
    "Project administrator: revoke project membership"
    (no_options
    <| o_description := Some "Cannot remove the last active project administrator. Existing sessions lose access immediately." |>);
  MkRoute "get" ("/v1/projects/{projectId}/audit") "audit"
    "Project administrator: latest 100 audit events"
    (no_options
    <| o_response := Some (list_schema (object [("id", uuid_schema); ("actor_id", nullable (uuid_schema));
       ("action", string_schema); ("details", JObj [("type", JStr "object")]);
       ("created_at", JObj [("type", JStr "string"); ("format", JStr "date-time")])])) |>) ].
Definition instance_routes : list Route := [
  MkRoute "get" ("/v1/templates") "templates"
    "List supported templates and input schema"
    (no_options
    <| o_response := Some (list_schema (object [("name", string_schema); ("version", string_schema);
       ("protocols", JObj [("type", JStr "array"); ("items", string_schema)]);
       ("clientProfiles", JObj [("type", JStr "array"); ("items", ref "ClientProfile")]);
       ("exposures", JObj [("type", JStr "array"); ("items", JObj [("type", JStr "string");
       ("enum", JArr [JStr "ClusterInternal"; JStr "Gateway"])])]);
       ("capabilities", JObj [("type", JStr "object")]); ("inputSchema", JObj [("type", JStr "object")])])) |>);
  MkRoute "get" (base) "listInstances"
    "Project member: list up to 200 instances"
    (no_options
    <| o_response := Some (list_schema (ref "InstanceSummary")) |>);
  MkRoute "post" (base) "createInstance"
    "Administrator or maintainer: provision instance"
    (no_options
    <| o_code := Some 202 |>
    <| o_idempotent := true |>
    <| o_body := Some (ref "InstanceInput") |>
    <| o_response := Some (ref "Accepted") |>
    <| o_description := Some "One active operation per instance. Credentials are returned once and only to an administrator; replay never reveals the password." |>);
  MkRoute "get" (base +:+ "/{instanceId}") "getInstance"
    "Project member: desired and observed state"
    (no_options
    <| o_response := Some (ref "InstanceDetail") |>
    <| o_headers := Some (JObj [("ETag", JObj [("schema", string_schema);
       ("description", JStr "Quoted UID:generation configuration revision, present when CR exists.")])]) |>);
  MkRoute "patch" (base +:+ "/{instanceId}") "updateInstance"
    "Administrator or maintainer: replace desired configuration"
    (no_options
    <| o_code := Some 202 |>
    <| o_idempotent := true |>
    <| o_revision := true |>
    <| o_body := Some (ref "InstanceInput") |>
    <| o_response := Some (ref "Accepted") |>);
  MkRoute "delete" (base +:+ "/{instanceId}") "deleteInstance"
    "Project administrator: delete instance according to Retain/Delete policy"
    (no_options
    <| o_code := Some 202 |>
    <| o_idempotent := true |>
    <| o_response := Some (ref "Accepted") |>);
  MkRoute "get" (base +:+ "/{instanceId}/retained-volume") "getRetainedVolume"
    "Project member: inspect detached storage"
    (no_options
    <| o_response := Some (object [("name", string_schema); ("namespace", string_schema);
       ("uid", string_schema); ("capacity", string_schema); ("allocatedCapacity", string_schema);
       ("storageClass", string_schema); ("phase", string_schema); ("deleting", bool_schema)]) |>
    <| o_headers := Some (JObj [("ETag", JObj [("schema", string_schema);
       ("description", JStr "Quoted PVC UID, used for storage cleanup; not the CR revision.")])]) |>
    <| o_description := Some "Detached instances or failed reclaim attempts with a bound UID. Validates namespace, project, instance and bound CR UID labels. Missing PVC returns 404, ownership conflicts return 409, observation failures return 503. Capacity and allocatedCapacity are PVC request and bound capacity, not measured file usage." |>);
  MkRoute "delete" (base +:+ "/{instanceId}/retained-volume") "deleteRetainedVolume"
    "Project administrator: irreversibly clean up detached storage"
    (no_options
    <| o_code := Some 202 |>
    <| o_idempotent := true |>
    <| o_revision := true |>
    <| o_revisionDescription := Some "PVC UID from GET retained-volume (not the instance UID:generation)." |>
    <| o_response := Some (ref "Accepted") |>
    <| o_description := Some "If-Match must contain the PVC UID from GET retained-volume. Queues volume.delete. Checks ownership, absence of the original instance and all Pod references; deletes only with PVC UID and resourceVersion preconditions. Completion means PVC absence, not guaranteed physical data erasure. Failure can be submitted again after inspection with a new idempotency key. No PV deletion permission is granted." |>);
  MkRoute "post" (base +:+ "/{instanceId}/retained-volume/reclaim") "reclaimRetainedVolume"
    "Project administrator: restore an instance from its retained volume"
    (no_options
    <| o_code := Some 202 |>
    <| o_idempotent := true |>
    <| o_revision := true |>
    <| o_revisionDescription := Some "PVC UID from GET retained-volume (not the old CR revision)." |>
    <| o_body := Some (ref "InstanceInput") |>
    <| o_response := Some (ref "Accepted") |>
    <| o_description := Some "Creates a new CacheInstance for the same binding and exact retained PVC UID. The template and storage class must match; requested capacity must cover PVC request, allocated capacity and historical reservation. Quota is reserved before the operation. The Operator transfers PVC identity only after the worker durably binds the new CR UID. Credentials are returned once. A failed operation with an existing CR may be resumed through operation retry; without a CR, a fresh reclaim request can be submitted after checking the volume." |>);
  MkRoute "post" (base +:+ "/{instanceId}/credentials/rotate") "rotateCredential"
    "Project administrator: rotate cache credentials"
    (no_options
    <| o_code := Some 202 |>
    <| o_idempotent := true |>
    <| o_revision := true |>
    <| o_response := Some (ref "Accepted") |>
    <| o_description := Some "Creates a new Secret and rolls the workload. New password is returned once. Completion is asynchronous; failed operations do not automatically roll back." |>) ].
Definition operation_routes : list Route := [
  MkRoute "get" (base +:+ "/{instanceId}/statistics") "statistics"
    "Project member: current engine statistics"
    (no_options
    <| o_response := Some (ref "Statistics") |>
    <| o_description := Some "Current engine snapshot, not PVC usage. Suspended instances and templates without statistics support return 409. Collection failures return 503 rather than zero values." |>);
  MkRoute "get" (base +:+ "/{instanceId}/statistics/history") "statisticsHistory"
    "Project member: AC/CAS lookup history"
    (no_options
    <| o_query := [JObj [("name", JStr "window"); ("in", JStr "query"); ("required", JBool false);
       ("schema", JObj [("type", JStr "string"); ("enum", JArr [JStr "1h"; JStr "6h"; JStr "24h"]);
       ("default", JStr "1h")])]] |>
    <| o_response := Some (object [("source", JObj [("const", JStr "prometheus")]);
       ("metric", JObj [("const", JStr "cache-lookups")]); ("window", JObj [("type", JStr "string");
       ("enum", JArr [JStr "1h"; JStr "6h"; JStr "24h"])]); ("start", JObj [("type", JStr "number")]);
       ("end", JObj [("type", JStr "number")]); ("stepSeconds", JObj [("type", JStr "integer")]);
       ("rateWindowSeconds", JObj [("const", JInt 300)]); ("series", JObj [("type", JStr "array");
       ("maxItems", JInt 8); ("items", object [("kind", JObj [("type", JStr "string"); ("enum", JArr [JStr "ac";
       JStr "cas"])]); ("method", JObj [("type", JStr "string"); ("enum", JArr [JStr "get"; JStr "contains"])]);
       ("outcome", JObj [("type", JStr "string"); ("enum", JArr [JStr "hit"; JStr "miss"])]);
       ("points", JObj [("type", JStr "array"); ("maxItems", JInt 300); ("items", JObj [("type", JStr "array");
       ("prefixItems", JArr [JObj [("type", JStr "number")]; JObj [("type", JArr [JStr "number"; JStr "null"]);
       ("minimum", JInt 0)]]); ("minItems", JInt 2); ("maxItems", JInt 2)])])])])]) |>
    <| o_description := Some "Optional Prometheus integration. Query window is 1h (default), 6h or 24h; arbitrary queries are rejected. Returns five-minute per-second lookup rates separated by kind, get/contains and hit/miss. Empty series means no data. Nonfinite samples are null. Uses the recorded immutable CR UID, including after deletion; membership is always required. This is not a build hit ratio." |>);
  MkRoute "get" ("/v1/projects/{projectId}/operations") "listOperations"
    "Project member: latest 100 operations"
    (no_options
    <| o_response := Some (list_schema (ref "Operation")) |>);
  MkRoute "get" ("/v1/projects/{projectId}/operations/{operationId}") "getOperation"
    "Project member: poll asynchronous operation"
    (no_options
    <| o_response := Some (ref "Operation") |>);
  MkRoute "post" ("/v1/projects/{projectId}/operations/{operationId}/retry") "retryOperation"
    "Project administrator: resume a failed bound operation"
    (no_options
    <| o_response := Some (ref "Accepted") |>
    <| o_code := Some 202 |>
    <| o_idempotent := true |>
    <| o_description := Some "Requires Idempotency-Key. Failed create/update/rotate operations with a bound target generation may resume checks without resubmitting configuration. Failed delete operations may resume cleanup using the original bound UID and captured deletion policy. Keeps the original operation identity and rejects replaced resources. A newer instance operation prevents retry. Replaying the same key does not restart the operation again. Unbound failed create operations may recover only an existing resource matching the original operation, request hash, ownership and complete spec; they never recreate missing resources or regenerate credentials." |>);
  MkRoute "get" ("/v1/openapi.json") "openapi"
    "Authenticated API contract"
    (no_options
    <| o_response := Some (JObj [("type", JStr "object")]) |>) ].
Definition observationState : json :=
  JObj [("type", JStr "string"); ("enum", JArr [JStr "ok"; JStr "no_data"; JStr "stale"; JStr "unsupported";
     JStr "not_configured"; JStr "error"])].
Definition timestamp : json :=
  JObj [("type", JStr "string"); ("format", JStr "date-time")].
Definition number_schema : json :=
  JObj [("type", JStr "number")].
Definition observationList (item : json) (maxItems : Z) : json :=
  object_with [("state", observationState); ("observedAt", timestamp); ("truncated", bool_schema);
    ("items", JObj [("type", JStr "array"); ("maxItems", JInt maxItems); ("items", item)])] ["state"; "items"] false.
Definition observationBase : string := "/v1/projects/{projectId}/instances/{instanceId}/observability".
Definition observability_routes : list Route := [
  MkRoute "get" ("/internal/metrics") "platformMetrics"
    "Installation bearer: scrape management and worker metrics"
    (no_options
    <| o_bearer := true |>
    <| o_response := Some (string_schema) |>
    <| o_contentType := Some "text/plain; version=0.0.4" |>
    <| o_description := Some "Disabled unless METRICS_SCRAPE_TOKEN is configured. This endpoint does not accept a browser session. Tokens must have at least 32 characters." |>);
  MkRoute "post" ("/internal/alerts") "receiveAlerts"
    "Installation bearer: receive Alertmanager webhook batches"
    (no_options
    <| o_bearer := true |>
    <| o_body := Some (object [("alerts", JObj [("type", JStr "array"); ("maxItems", JInt 50);
       ("items", object_with [("status", JObj [("enum", JArr [JStr "firing"; JStr "resolved"])]);
       ("fingerprint", string_schema); ("startsAt", timestamp); ("endsAt", timestamp);
       ("labels", JObj [("type", JStr "object"); ("additionalProperties", string_schema)]);
       ("annotations", JObj [("type", JStr "object"); ("additionalProperties", string_schema)])] ["status";
       "fingerprint"; "startsAt"; "endsAt"; "labels"] false)])]) |>
    <| o_description := Some "Dedicated ALERT_WEBHOOK_TOKEN required; no browser Origin/CSRF needed with this valid token. Foreign cluster/project/UID alerts are ignored. Retries are idempotent per project, immutable instance UID, fingerprint and startsAt; resolved episodes cannot be reopened by a delayed firing delivery." |>);
  MkRoute "get" ("/v1/platform/observability") "platformObservability"
    "Platform administrator: control plane observation snapshot"
    (no_options
    <| o_response := Some (object [("observedAt", timestamp); ("clusterId", string_schema);
       ("database", JObj [("const", JStr "ok")]); ("workers", JObj [("type", JStr "object");
       ("additionalProperties", object [("lastSuccess", nullable (timestamp));
       ("lastFailure", nullable (timestamp))])]); ("queues", JObj [("type", JStr "array");
       ("items", object [("kind", string_schema); ("state", string_schema); ("count", number_schema);
       ("oldest_seconds", number_schema)])]); ("connections", object [("total", number_schema);
       ("idle", number_schema); ("waiting", number_schema)]); ("integrations", object [("metrics", bool_schema);
       ("logs", bool_schema); ("alerts", bool_schema); ("alertHistory", bool_schema)]);
       ("metricsEndpoint", bool_schema)]) |>
    <| o_description := Some "Local replica worker polling status and database-backed queue snapshot. Integration flags describe configuration, not a successful live health check." |>);
  MkRoute "get" ("/v1/projects/{projectId}/observability") "projectObservability"
    "Project member: latest background observations and coverage"
    (no_options
    <| o_response := Some (object [("observedAt", timestamp); ("total", number_schema);
       ("covered", number_schema); ("truncated", bool_schema); ("items", JObj [("type", JStr "array");
       ("maxItems", JInt 500); ("items", object [("id", uuid_schema); ("display_name", string_schema);
       ("template_name", string_schema); ("lifecycle", string_schema);
       ("kubernetes_uid", nullable (string_schema)); ("observed_at", nullable (timestamp));
       ("dataState", observationState);
       ("payload", nullable (object [("phase", JObj [("enum", JArr [JStr "ready"; JStr "starting";
       JStr "suspended"; JStr "deleting"; JStr "unknown"])]); ("collection", JObj [("enum", JArr [JStr "ok";
       JStr "error"; JStr "unsupported"; JStr "suspended"])]); ("generation", nullable (number_schema));
       ("conditions", JObj [("type", JStr "array"); ("items", object [("type", string_schema);
       ("status", string_schema); ("reason", string_schema); ("current", bool_schema)])]);
       ("statistics", nullable (ref "Statistics"))]))])])]) |>);
  MkRoute "get" (observationBase +:+ "/metrics") "instanceObservationMetrics"
    "Project member: bounded metric trends"
    (no_options
    <| o_query := [JObj [("name", JStr "group"); ("in", JStr "query");
       ("schema", JObj [("enum", JArr [JStr "capacity"; JStr "lookups"; JStr "resources"; JStr "performance"]);
       ("default", JStr "capacity")])]; JObj [("name", JStr "window"); ("in", JStr "query");
       ("schema", JObj [("enum", JArr [JStr "1h"; JStr "6h"; JStr "24h"]); ("default", JStr "1h")])]] |>
    <| o_response := Some (object_with [("state", observationState); ("source", string_schema);
       ("group", string_schema); ("start", number_schema); ("end", number_schema); ("step", number_schema);
       ("observedAt", nullable (timestamp)); ("series", JObj [("type", JStr "array"); ("maxItems", JInt 20);
       ("items", object [("name", string_schema); ("unit", string_schema);
       ("points", JObj [("type", JStr "array"); ("maxItems", JInt 361); ("items", JObj [("type", JStr "array");
       ("prefixItems", JArr [number_schema; nullable (number_schema)]); ("minItems", JInt 2);
       ("maxItems", JInt 2)])])])])] ["state"; "series"] false) |>
    <| o_description := Some "Queries are server-owned and scoped to deployment cluster, project and original CR UID. Unknown query parameters are rejected. Null samples preserve gaps; zero is a measured value. observedAt is the last finite evaluation point, not the raw scrape timestamp. Rate windows are five minutes." |>);
  MkRoute "get" (observationBase +:+ "/logs") "instanceObservationLogs"
    "Project administrator or maintainer: bounded instance logs"
    (no_options
    <| o_query := [JObj [("name", JStr "minutes"); ("in", JStr "query");
       ("schema", JObj [("type", JStr "integer"); ("minimum", JInt 1); ("maximum", JInt 60);
       ("default", JInt 15)])]; JObj [("name", JStr "level"); ("in", JStr "query");
       ("schema", JObj [("enum", JArr [JStr "info"; JStr "warn"; JStr "error"])])]] |>
    <| o_response := Some (observationList (object [("time", timestamp); ("text", string_schema)]) 500) |>
    <| o_description := Some "Maximum 500 lines and 1 MiB upstream response, five-second timeout. Identity is verified on every returned stream. Application-level redaction is defense in depth; sanitize at ingestion and never emit credentials." |>);
  MkRoute "get" (observationBase +:+ "/events") "instanceObservationEvents"
    "Project member: latest condition changes and operations"
    (no_options
    <| o_response := Some (observationList (object [("id", uuid_schema); ("time", timestamp);
       ("code", string_schema); ("details", JObj [("type", JStr "object")])]) 100) |>
    <| o_description := Some "Retains the original immutable instance UID, including after deletion. At most 100 results; condition history is retained for 30 days. Operation and audit retention are independent." |>);
  MkRoute "get" ("/v1/projects/{projectId}/observability/alerts") "projectAlerts"
    "Project member: active instance alerts"
    (no_options
    <| o_response := Some (observationList (object [("fingerprint", string_schema);
       ("instanceUID", string_schema); ("instanceId", uuid_schema); ("instanceName", string_schema);
       ("name", string_schema); ("severity", string_schema); ("summary", string_schema);
       ("startsAt", timestamp); ("endsAt", timestamp); ("state", JObj [("enum", JArr [JStr "unprocessed";
       JStr "active"; JStr "suppressed"])])]) 500) |>);
  MkRoute "post" (observationBase +:+ "/silences") "silenceInstanceAlert"
    "Project administrator or maintainer: silence one bound alert rule"
    (no_options
    <| o_code := Some 201 |>
    <| o_body := Some (strict_object [("fingerprint", JObj [("type", JStr "string");
       ("pattern", JStr "^[a-fA-F0-9]{1,128}$")]); ("minutes", JObj [("type", JStr "integer");
       ("minimum", JInt 5); ("maximum", JInt 1440)])]) |>
    <| o_response := Some (object [("silenceID", uuid_schema)]) |>
    <| o_description := Some "Resolves the active fingerprint before constructing exact non-regex cluster/project/instance/rule matchers. Persists an audit attempt before the external write. If the outcome is unknown, refresh alerts before retrying." |>);
  MkRoute "get" ("/v1/projects/{projectId}/observability/alert-history") "projectAlertHistory"
    "Project member: received alert episodes"
    (no_options
    <| o_response := Some (observationList (object [("fingerprint", string_schema); ("starts_at", timestamp);
       ("ends_at", nullable (timestamp)); ("received_at", timestamp);
       ("active_confirmed", nullable (bool_schema)); ("checked_at", nullable (timestamp));
       ("state", JObj [("enum", JArr [JStr "firing"; JStr "resolved"])]);
       ("payload", object [("name", string_schema); ("severity", string_schema); ("summary", string_schema)]);
       ("instance_id", uuid_schema); ("display_name", string_schema)]) 100) |>
    <| o_description := Some "Webhook deliveries retained for 30 days after resolution. This is received history, not guaranteed complete backend history." |>) ].

Definition routes : list Route :=
  account_routes ++ project_routes ++ instance_routes ++ operation_routes ++ observability_routes.
Definition paths : list (string * list (string * json)) := foldl route [] routes.

(** ** [openapi] *)
Definition info : json :=
  JObj [("title", JStr "expbuild Management API"); ("version", JStr "0.1.0");
        ("description", JStr "Enterprise cache platform control plane. Cookie session authentication, Origin/CSRF checks on writes. Platform administrators may access every project; ordinary users require membership. Errors deliberately hide inaccessible projects.")].
Definition securitySchemes : json :=
  JObj [("session", JObj [("type", JStr "apiKey"); ("in", JStr "cookie"); ("name", JStr "expbuild_session")]);
        ("telemetryBearer", JObj [("type", JStr "http"); ("scheme", JStr "bearer");
           ("description", JStr "Dedicated scrape or webhook credential, selected by endpoint; never a user session.")])].
Definition openapi (instance_fields quota_fields : list (string * json)) : json :=
  JObj [("openapi", JStr "3.1.0"); ("info", info);
        ("servers", JArr [JObj [("url", JStr "/")]]);
        ("security", JArr [JObj [("session", JArr [])]]);
        ("paths", JObj (prod_map id JObj <$> paths));
        ("components", JObj [("securitySchemes", securitySchemes);
                             ("schemas", JObj (schemas instance_fields quota_fields))])].

(** * What the document promises about itself *)

(** ** Walking the document *)
Definition member (key : string) (j : json) : option json :=
  match j with JObj fs => field key fs | _ => None end.
Definition entries (j : option json) : list (string * json) :=
  match j with Some (JObj fs) => fs | _ => [] end.
Definition elements (j : option json) : list json :=
  match j with Some (JArr l) => l | _ => [] end.
(** Every target of a [$ref]. *)
Fixpoint refs (j : json) : list json :=
  match j with
  | JArr l => flat_map refs l
  | JObj fs => flat_map (λ p, if String.eqb p.1 "$ref" then [p.2] else refs p.2) fs
  | _ => []
  end.
(** The operations with their path and method. *)
Definition operations (doc : json) : list (string * string * json) :=
  entries (member "paths" doc) ≫= λ p, (λ m, (p.1, m.1, m.2)) <$> entries (Some p.2).
Definition operation_id (o : string * string * json) : string :=
  match member "operationId" o.2 with Some (JStr id) => id | _ => "" end.
Definition defined_schemas (doc : json) : list (string * json) :=
  entries (member "components" doc ≫= member "schemas").

Definition text_is (s : string) (j : option json) : bool :=
  match j with Some (JStr t) => String.eqb t s | _ => false end.
(** The names of the required parameters at a place, and who may call. *)
Definition required_in (place : string) (op : json) : list string :=
  omap (λ p, if text_is place (member "in" p) && match member "required" p with Some (JBool b) => b | _ => false end
             then match member "name" p with Some (JStr name) => Some name | _ => None end else None)
       (elements (member "parameters" op)).
Definition schemes_of (op : json) : list string :=
  elements (member "security" op) ≫= λ s, (entries (Some s)).*1.
Definition is_success (code : string) : bool :=
  match chars code with c :: _ => Ascii.eqb c "2" | [] => false end.

Record well_formed (o : string * string * json) : Prop := {
  wf_path : required_in "path" o.2 = path_names o.1.1;
  wf_public : schemes_of o.2 = [] ↔ o.1.1 ∈ ["/healthz"; "/readyz"; "/v1/auth/login"];
  wf_origin : o.1.2 ≠ "get" → "Origin" ∈ required_in "header" o.2 ∨ schemes_of o.2 = ["telemetryBearer"];
  wf_csrf : o.1.2 ≠ "get" → schemes_of o.2 = ["session"] → "x-csrf-token" ∈ required_in "header" o.2;
  wf_success : length (filter (λ p, is_success p.1 = true) (entries (member "responses" o.2))) = 1%nat }.

(** A reference that names a schema of the list. *)
Definition resolves (names : list string) (r : json) : Prop :=
  ∃ name, r = JStr ("#/components/schemas/" +:+ name) ∧ name ∈ names.
Definition resolvesb (names : list string) (r : json) : bool :=
  match r with JStr s => existsb (λ name, String.eqb s ("#/components/schemas/" +:+ name)) names | _ => false end.
Lemma resolvesb_spec names r : resolvesb names r = true → resolves names r.
Proof.
  destruct r as [| | | |s| |]; try done. intros (name & Hin & ->%String.eqb_eq)%existsb_exists.
  exists name. split; [done|]. by apply list_elem_of_In.
Qed.

Lemma refs_object fs : refs (JObj fs) = fs ≫= λ p, if String.eqb p.1 "$ref" then [p.2] else refs p.2.
Proof. simpl. induction fs as [|p fs IH]; [done|]. rewrite bind_cons, <-IH. done. Qed.
(** Removing fields, or setting one to a text, adds no reference. *)
Lemma refs_filter P `{∀ x, Decision (P x)} fs : refs (JObj (filter P fs)) ⊆ refs (JObj fs).
Proof.
  rewrite !refs_object. intros r (p & Hr & [_ Hp]%list_elem_of_filter)%list_elem_of_bind.
  apply list_elem_of_bind. eauto.
Qed.
Lemma refs_map_set key text fs : key ≠ "$ref" → refs (JObj (map_set key (JStr text) fs)) ⊆ refs (JObj fs).
Proof.
  intros Hk. rewrite !refs_object. intros r (p & Hr & Hp)%list_elem_of_bind.
  apply list_elem_of_bind. destruct p as [k v]. apply map_set_elem in Hp as [[= -> ->]|Hp].
  - apply String.eqb_neq in Hk. simpl in Hr. rewrite Hk in Hr. by apply elem_of_nil in Hr.
  - eauto.
Qed.
Lemma refs_fields (P : json → Prop) fs :
  Forall (λ p, p.1 ≠ "$ref" ∧ ∀ r, r ∈ refs p.2 → P r) fs → ∀ r, r ∈ refs (JObj fs) → P r.
Proof.
  rewrite Forall_forall, refs_object. intros Hfs r (p & Hr & Hp)%list_elem_of_bind.
  destruct (Hfs p Hp) as [Hk Hv]. apply String.eqb_neq in Hk. rewrite Hk in Hr. by apply Hv.
Qed.
Lemma closed_resolves names j : forallb (resolvesb names) (refs j) = true → ∀ r, r ∈ refs j → resolves names r.
Proof. rewrite forallb_forall. intros H r Hr. apply resolvesb_spec, H. by apply list_elem_of_In. Qed.

Definition well_formedb (o : string * string * json) : bool :=
  bool_decide (required_in "path" o.2 = path_names o.1.1) &&
  Bool.eqb (bool_decide (schemes_of o.2 = [])) (includes ["/healthz"; "/readyz"; "/v1/auth/login"] o.1.1) &&
  (String.eqb o.1.2 "get" ||
    (includes (required_in "header" o.2) "Origin" || bool_decide (schemes_of o.2 = ["telemetryBearer"])) &&
    (includes (required_in "header" o.2) "x-csrf-token" || negb (bool_decide (schemes_of o.2 = ["session"])))) &&
  bool_decide (length (filter (λ p, is_success p.1 = true) (entries (member "responses" o.2))) = 1%nat).
Lemma well_formedb_spec o : well_formedb o = true → well_formed o.
Proof.
  unfold well_formedb. intros H. boolify. split.
  - done.
  - match goal with H : Bool.eqb _ _ = true |- _ => apply Bool.eqb_prop in H; rename H into Hp end.
    rewrite <-includes_spec, <-Hp. by rewrite bool_decide_eq_true.
  - intros Hm. apply String.eqb_neq in Hm. rewrite Hm in *. simpl in *. boolify.
    match goal with H : includes _ "Origin" || _ = true |- _ => apply orb_true_iff in H as [H|H]; boolify end;
      [left; by apply includes_spec|by right].
  - intros Hm Hs. apply String.eqb_neq in Hm. rewrite Hm in *. simpl in *. boolify.
    rewrite Hs in *. match goal with H : includes _ "x-csrf-token" || _ = true |- _ => apply orb_true_iff in H as [H|H]; boolify end;
      [by apply includes_spec|done].
  - done.
Qed.

(** The document is consistent, whatever schemas the schema library
    generates as long as their own references resolve: operations have distinct
    identifiers, every reference names a schema of the document, and each
    operation declares exactly the parameters of its path, demands the Origin
    header (and the CSRF token of a session) when it writes, is public only where
    the server asks for no session, and has one successful answer. *)
Theorem openapi_well_formed instance_fields quota_fields :
  let doc := openapi instance_fields quota_fields in
  let resolved := resolves (defined_schemas doc).*1 in
  (∀ r, r ∈ refs (JObj instance_fields) ++ refs (JObj quota_fields) → resolved r) →
  NoDup (operation_id <$> operations doc) ∧ (∀ r, r ∈ refs doc → resolved r) ∧
  (∀ o, o ∈ operations doc → well_formed o).
Proof.
  intros doc resolved Hg. split_and!.
  - apply (bool_decide_unpack _). vm_compute. exact I.
  - assert (∀ v, forallb (resolvesb (defined_schemas doc).*1) (refs v) = true → ∀ r, r ∈ refs v → resolved r) as Hc
      by (intros v Hv; by apply closed_resolves).
    assert (∀ r, r ∈ refs (JObj (schemas instance_fields quota_fields)) → resolved r) as Hs.
    { apply refs_fields. unfold schemas. repeat (apply Forall_cons; split; [split; [done|]|]); [..|by apply Forall_nil];
        try (apply Hc; vm_compute; reflexivity); simpl snd.
      - intros r Hr. apply Hg. apply elem_of_app. by right.
      - intros r Hr%refs_map_set%refs_filter; [|done]. apply Hg. apply elem_of_app. by left. }
    apply refs_fields. repeat (apply Forall_cons; split; [split; [done|]|]); [..|by apply Forall_nil];
      try (apply Hc; vm_compute; reflexivity); simpl snd.
    apply refs_fields. repeat (apply Forall_cons; split; [split; [done|]|]); [..|by apply Forall_nil];
      [apply Hc; vm_compute; reflexivity|exact Hs].
  - intros o Ho%list_elem_of_In. apply well_formedb_spec. revert o Ho. apply forallb_forall. vm_compute. reflexivity.
Qed.

Lemma openapi_well_formed_witness :
  let doc := openapi [("anyOf", JArr [ref "ClientProfile"])] [("type", JStr "object")] in
  NoDup (operation_id <$> operations doc) ∧ (∀ o, o ∈ operations doc → well_formed o) ∧
  length (operations doc) = 49%nat.
Proof.
  destruct (openapi_well_formed [("anyOf", JArr [ref "ClientProfile"])] [("type", JStr "object")]) as (Hid & _ & Hw).
  - intros r ->%list_elem_of_singleton. exists "ClientProfile". split; [reflexivity|]. vm_compute. set_solver.
  - split_and!; [exact Hid|exact Hw|reflexivity].
Defined.
