(* ===== verification/Statistics.v ===== *)
(** * Engine statistics

    [apps/admin-api/src/statistics.ts]: reading the status page of the engine
    of an instance.  The page is fetched from the address of the instance's own
    service; the answer is bounded, parsed and validated.

    zod's reading of an ISO time is a parameter: whether it accepts the text,
    and the milliseconds [Date.parse] makes of it. *)
From Stdlib Require Import ZArith Lia Ascii Init.Byte.
From stdpp Require Import base tactics list option strings.
From S2P Require Import Prelude Regex Numbers Effects Catalog Json Secrets Http.

(** ** Schemas *)
Definition count : json → option Z := z_int 0 max_safe_integer.
Definition positive_count : json → option Z := z_int 1 max_safe_integer.
(** [.optional()] *)
Definition optional {A} (p : json → option A) (o : option json) : option (option A) :=
  match o with None => Some None | Some j => Some <$> p j end.
(** [z.object({ ... })] *)
Definition z_object {A} (p : list (string * json) → option A) (j : json) : option A :=
  match j with JObj fs => p fs | _ => None end.
Definition z_strict {A} (keys : list string) (p : list (string * json) → option A) (j : json) : option A :=
  match j with JObj fs => if only_keys keys fs then p fs else None | _ => None end.

Record EngineStatus := MkEngineStatus {
  CurrSize : Z; MaxSize : Z; NumFiles : Z; ReservedSize : option Z; UncompressedSize : option Z }.
Definition status : json → option EngineStatus := z_object (λ fs,
  curr ← required count (field "CurrSize" fs); max ← required positive_count (field "MaxSize" fs);
  files ← required count (field "NumFiles" fs); reserved ← optional count (field "ReservedSize" fs);
  raw ← optional count (field "UncompressedSize" fs);
  Some (MkEngineStatus curr max files reserved raw)).

Record GradleStatus := MkGradleStatus {
  sizeBytes : Z; gr_capacityBytes : Z; gr_entries : Z; getHits : Z; getMisses : Z; putSuccess : Z;
  putRejected : Z }.
Definition gradleStatus : json → option GradleStatus := z_object (λ fs,
  size ← required count (field "sizeBytes" fs); capacity ← required positive_count (field "capacityBytes" fs);
  entries ← required count (field "entries" fs); hits ← required count (field "getHits" fs);
  misses ← required count (field "getMisses" fs); success ← required count (field "putSuccess" fs);
  rejected ← required count (field "putRejected" fs);
  Some (MkGradleStatus size capacity entries hits misses success rejected)).

(** ** The result *)
Inductive Source := BazelRemoteStatus | WebdavContentScan | GradleHttpStatus.
#[export] Instance Source_eq_dec : EqDecision Source.
Proof. solve_decision. Defined.

(** The time is the process's own, or the text of the engine with its value. *)
Inductive ObservedAt := ObservedNow (ms : Z) | ObservedText (text : string) (ms : Z).
Definition observed_ms (o : ObservedAt) : Z := match o with ObservedNow t => t | ObservedText _ t => t end.

Record InstanceStatistics := MkStatistics {
  st_observedAt : ObservedAt; st_source : Source; usedBytes : Z; capacityBytes : Z; itemCount : Z;
  reservedBytes : option Z; uncompressedBytes : option Z; requestCounts : option (Z * Z * Z * Z) }.

(** [/^[a-z0-9](?:[a-z0-9-]{0,61}[a-z0-9])?$/] *)
Definition is_lower_alnum (c : ascii) : bool := in_range "a" "z" c || is_digit c.
Definition dns : re :=
  RSeq (RChr is_lower_alnum) (ropt (RSeq (rupto 61 (RChr (λ c, is_lower_alnum c || Ascii.eqb c "-")))
                                         (RChr is_lower_alnum))).

Section statistics.
Context {K : Type} `{Fetcher K} (clock : M K Z).
Context (iso_datetime : string → option (option Z)).

Record WebdavStatus := MkWebdavStatus {
  wd_observedAt : string; wd_at : option Z; wd_usedBytes : Z; wd_capacityBytes : Z; wd_itemCount : Z }.
Definition webdavStatus : json → option WebdavStatus :=
  z_strict ["observedAt"; "usedBytes"; "capacityBytes"; "itemCount"] (λ fs,
    '(text, at_ms) ← required (λ j, s ← z_string j; t ← iso_datetime s; Some (s, t)) (field "observedAt" fs);
    used ← required count (field "usedBytes" fs); capacity ← required positive_count (field "capacityBytes" fs);
    items ← required count (field "itemCount" fs);
    Some (MkWebdavStatus text at_ms used capacity items)).

(** The part the three readers repeat: the target is checked, the page is
    fetched with Basic authentication, and at most 64 KiB of it are read. *)
Definition status_request (port : string) (namespace name username password : string) : HttpRequest :=
  {| fq_url := "http://" +:+ name +:+ "." +:+ namespace +:+ ".svc:" +:+ port +:+ "/status"; fq_query := [];
     fq_headers := [("Authorization", "Basic " +:+
        of_chars (base64 (utf8 (chars (username +:+ ":" +:+ password)))))];
     fq_body := None |}.
Definition read_page (engine empty port namespace name username password : string) : M K json :=
  throw_if (negb (test dns namespace) || negb (test dns name) || String.eqb username "" || String.eqb password "")
    (JsError "Invalid statistics target") ;;
  response ← fetch (status_request port namespace name username password);
  throw_if (negb (hr_ok response)) (JsError (engine +:+ " statistics unavailable")) ;;
  reads ← lift (of_option (JsError ("Empty " +:+ empty +:+ " statistics")) (hr_body response));
  body ← lift (read_chunks 65536 (JsError (engine +:+ " statistics response too large")) 0 reads);
  lift (parse_body body).

Definition readEngineStatistics (namespace name username password : string) : M K InstanceStatistics :=
  page ← read_page "Engine" "engine" "8080" namespace name username password;
  data ← lift (of_option ZodError (status page));
  now ← clock;
  mret {| st_observedAt := ObservedNow now; st_source := BazelRemoteStatus; usedBytes := CurrSize data;
          capacityBytes := MaxSize data; itemCount := NumFiles data; reservedBytes := ReservedSize data;
          uncompressedBytes := UncompressedSize data; requestCounts := None |}.

Definition readWebDAVStatistics (namespace name username password : string) : M K InstanceStatistics :=
  page ← read_page "WebDAV" "WebDAV" "9093" namespace name username password;
  value ← lift (of_option ZodError (webdavStatus page));
  now ← clock;
  at_ms ← lift (match wd_at value with
             | Some t => let age := now - t in
                         if (age <? -30000) || (120000 <? age)
                         then Throw (JsError "WebDAV statistics sample is stale") else Ok t
             | None => Throw (JsError "WebDAV statistics sample is stale")
             end);
  mret {| st_observedAt := ObservedText (wd_observedAt value) at_ms; st_source := WebdavContentScan;
          usedBytes := wd_usedBytes value; capacityBytes := wd_capacityBytes value;
          itemCount := wd_itemCount value; reservedBytes := None; uncompressedBytes := None;
          requestCounts := None |}.

Definition readGradleStatistics (namespace name username password : string) : M K InstanceStatistics :=
  page ← read_page "Gradle" "Gradle" "8080" namespace name username password;
  value ← lift (of_option ZodError (gradleStatus page));
  throw_if (gr_capacityBytes value <? sizeBytes value) (JsError "Gradle statistics exceed the applied budget") ;;
  now ← clock;
  mret {| st_observedAt := ObservedNow now; st_source := GradleHttpStatus; usedBytes := sizeBytes value;
          capacityBytes := gr_capacityBytes value; itemCount := gr_entries value; reservedBytes := None;
          uncompressedBytes := None;
          requestCounts := Some (getHits value, getMisses value, putSuccess value, putRejected value) |}.

(** ** What a reader returns *)
Definition reader (source : Source) : string → string → string → string → M K InstanceStatistics :=
  match source with
  | BazelRemoteStatus => readEngineStatistics
  | WebdavContentScan => readWebDAVStatistics
  | GradleHttpStatus => readGradleStatistics
  end.
Definition port_of (source : Source) : string :=
  match source with WebdavContentScan => "9093" | _ => "8080" end.

Lemma read_page_Ok engine empty port namespace name username password k page k' :
  read_page engine empty port namespace name username password k = (Ok page, k') →
  test dns namespace = true ∧ test dns name = true ∧ username ≠ ""%string ∧ password ≠ ""%string ∧
  ∃ chunks, fetch (status_request port namespace name username password) k =
      (Ok (MkResponse true (Some (Ok <$> chunks))), k') ∧
    (chunks = [] ∨ Z.of_nat (length (concat chunks)) ≤ 65536) ∧ parse_body (concat chunks) = Ok page.
Proof.
  unfold read_page. intros [Ht E]%throw_if_bind. boolify.
  apply bind_Ok_inv in E as ([ok body] & k1 & Ef & E). apply throw_if_bind in E as [Ho E].
  apply bind_Ok_inv in E as (reads & k2 & [E1%of_option_Ok ->]%lift_inv & E).
  apply bind_Ok_inv in E as (bytes & k3 & [(chunks & -> & -> & Hl)%read_chunks_Ok ->]%lift_inv & E).
  apply lift_inv in E as [E ->]. simpl in *. boolify. subst. split_and!; try done. by exists chunks.
Qed.

Lemma count_Some j z : count j = Some z → 0 ≤ z < 2 ^ 53.
Proof. intros [-> Hz]%z_int_Some. unfold max_safe_integer in Hz. lia. Qed.
Lemma positive_count_Some j z : positive_count j = Some z → 0 < z < 2 ^ 53.
Proof. intros [-> Hz]%z_int_Some. unfold max_safe_integer in Hz. lia. Qed.
Lemma required_Some {A} (p : json → option A) o a : required p o = Some a → ∃ j, o = Some j ∧ p j = Some a.
Proof. destruct o as [j|]; [by exists j|done]. Qed.

(** The ranges of what the schemas accept. *)
Ltac read_fields H :=
  repeat match type of H with
  | (_ ≫= _) = Some _ => let Hx := fresh "Hx" in apply bind_Some in H as (? & Hx & H);
      try (apply required_Some in Hx as (? & _ & Hx));
      try (apply count_Some in Hx); try (apply positive_count_Some in Hx)
  end.

Lemma status_Some j d : status j = Some d →
  0 ≤ CurrSize d < 2 ^ 53 ∧ 0 < MaxSize d < 2 ^ 53 ∧ 0 ≤ NumFiles d < 2 ^ 53.
Proof. destruct j as [| | | | | |fs]; try done. unfold status, z_object. intros Hd. read_fields Hd. by simplify_eq/=. Qed.
Lemma gradleStatus_Some j d : gradleStatus j = Some d →
  0 ≤ sizeBytes d < 2 ^ 53 ∧ 0 < gr_capacityBytes d < 2 ^ 53 ∧ 0 ≤ gr_entries d < 2 ^ 53.
Proof. destruct j as [| | | | | |fs]; try done. unfold gradleStatus, z_object. intros Hd. read_fields Hd. by simplify_eq/=. Qed.
Lemma webdavStatus_Some j d : webdavStatus j = Some d →
  0 ≤ wd_usedBytes d < 2 ^ 53 ∧ 0 < wd_capacityBytes d < 2 ^ 53 ∧ 0 ≤ wd_itemCount d < 2 ^ 53.
Proof.
  destruct j as [| | | | | |fs]; try done. unfold webdavStatus, z_strict. destruct (only_keys _ _); [|done].
  intros Hd. apply bind_Some in Hd as ([text at_ms] & _ & Hd). read_fields Hd. by simplify_eq/=.
Qed.

(** Whatever answers, a reader only returns statistics it fetched from
    the instance's own service: the two labels of the address are DNS labels,
    one request was sent there with the given credentials, at most 64 KiB of
    its successful answer were read, and the values are exact non-negative
    integers, with a positive capacity; a Gradle cache is within its budget,
    and the sample is at most two minutes old and thirty seconds ahead. *)
Theorem statistics_exact source namespace name username password k s k' :
  reader source namespace name username password k = (Ok s, k') →
  test dns namespace = true ∧ test dns name = true ∧
  (∃ chunks k1, fetch (status_request (port_of source) namespace name username password) k =
      (Ok (MkResponse true (Some (Ok <$> chunks))), k1) ∧ Z.of_nat (length (concat chunks)) ≤ 65536 ∧
      ∃ now, clock k1 = (Ok now, k') ∧ now - 120000 ≤ observed_ms (st_observedAt s) ≤ now + 30000) ∧
  st_source s = source ∧ 0 ≤ usedBytes s < 2 ^ 53 ∧ 0 < capacityBytes s < 2 ^ 53 ∧ 0 ≤ itemCount s < 2 ^ 53 ∧
  (source = GradleHttpStatus → usedBytes s ≤ capacityBytes s).
Proof.
  assert (∀ chunks, chunks = [] ∨ Z.of_nat (length (concat chunks)) ≤ 65536 →
    Z.of_nat (length (concat (A:=byte) chunks)) ≤ 65536) as Hbytes by (intros chunks [->|?]; simpl; lia).
  destruct source; cbn [reader port_of]; intros E.
  - apply bind_Ok_inv in E as (page & k1 & (? & ? & _ & _ & chunks & Hf & Hl & _)%read_page_Ok & E).
    apply bind_Ok_inv in E as (d & k2 & [(? & ? & ?)%of_option_Ok%status_Some ->]%lift_inv & E).
    apply bind_Ok_inv in E as (now & k2 & Ec & [= <- <-]). do 2 (split; [done|]). split; [|simpl; split_and!; first [done|lia]].
    exists chunks, k1. do 2 (split; [by auto|]). exists now. simpl. split; [done|lia].
  - apply bind_Ok_inv in E as (page & k1 & (? & ? & _ & _ & chunks & Hf & Hl & _)%read_page_Ok & E).
    apply bind_Ok_inv in E as (d & k2 & [(? & ? & ?)%of_option_Ok%webdavStatus_Some ->]%lift_inv & E).
    apply bind_Ok_inv in E as (now & k2 & Ec & E).
    apply bind_Ok_inv in E as (t & k3 & [Et ->]%lift_inv & [= <- <-]). do 2 (split; [done|]). split; [|simpl; split_and!; first [done|lia]].
    exists chunks, k1. do 2 (split; [by auto|]). exists now. simpl.
    destruct (wd_at d) as [t0|]; [|done]. cbv zeta in Et. split_if_in Et; [done|]. simplify_eq. boolify.
    split; [done|lia].
  - apply bind_Ok_inv in E as (page & k1 & (? & ? & _ & _ & chunks & Hf & Hl & _)%read_page_Ok & E).
    apply bind_Ok_inv in E as (d & k2 & [(? & ? & ?)%of_option_Ok%gradleStatus_Some ->]%lift_inv & E).
    apply throw_if_bind in E as [Hb E]. boolify.
    apply bind_Ok_inv in E as (now & k2 & Ec & [= <- <-]). do 2 (split; [done|]). split; [|simpl; split_and!; first [done|lia]].
    exists chunks, k1. do 2 (split; [by auto|]). exists now. simpl. split; [done|lia].
Qed.
End statistics.

(** ** A witness: a Gradle cache answers in two chunks. *)
Definition sample_page : list ascii := stringify (JObj
  [("sizeBytes", JInt 10); ("capacityBytes", JInt 100); ("entries", JInt 2); ("getHits", JInt 5);
   ("getMisses", JInt 6); ("putSuccess", JInt 7); ("putRejected", JInt 0)]).
Definition page_fetcher : Fetcher () :=
  {| fetch := λ _, mret (MkResponse true (Some [Ok (take 20 (utf8 sample_page)); Ok (drop 20 (utf8 sample_page))])) |}.

Lemma statistics_exact_witness : ∃ s,
  @reader () page_fetcher (mret 5) (λ _, None) GradleHttpStatus "ns" "cache" "user" "secret" tt = (Ok s, tt) ∧
  usedBytes s ≤ capacityBytes s.
Proof.
  destruct (@reader () page_fetcher (mret 5) (λ _, None) GradleHttpStatus "ns" "cache" "user" "secret" tt)
    as [[s|e] []] eqn:E; [|vm_compute in E; discriminate E].
  exists s. split; [reflexivity|].
  apply (@statistics_exact () page_fetcher (mret 5) (λ _, None) GradleHttpStatus "ns" "cache" "user" "secret" tt s tt E).
  reflexivity.
Defined.
