(* ===== verification/Series.v ===== *)
(** * Time series of a metrics service

    What [apps/admin-api/src/history.ts] and the metrics of
    [apps/admin-api/src/observation-backends.ts] share: the window of a query,
    the schema of an answer, and the reading of its points.

    A time is a quotient; a value is kept as [Number] reads it. *)
From Stdlib Require Import ZArith Lia Ascii Sorted.
From stdpp Require Import base tactics list option strings gmap.
From S2P Require Import Prelude Regex Numbers Effects Catalog Json JsNumber Secrets Http Statistics.

(** ** Windows *)
Inductive Window := W1h | W6h | W24h.
#[export] Instance Window_eq_dec : EqDecision Window.
Proof. solve_decision. Defined.
Definition window_str (w : Window) : string := match w with W1h => "1h" | W6h => "6h" | W24h => "24h" end.
Definition z_window : json → option Window := z_enum [W1h; W6h; W24h] window_str.
(** Its length and the distance of its points, in seconds. *)
Definition window_range (w : Window) : Z * Z :=
  match w with W1h => (3600, 60) | W6h => (21600, 120) | W24h => (86400, 300) end.

Record Range := MkRange { rg_start : Z; rg_end : Z; rg_step : Z }.
(** The window that ends at the last multiple of the step before [now]
    (milliseconds). *)
Definition bounds (w : Window) (now : Z) : Range :=
  let '(seconds, step) := window_range w in
  let end_ := now / 1000 / step * step in
  MkRange (end_ - seconds) end_ step.

(** [/^[a-zA-Z0-9-]{1,63}$/] *)
Definition identity : re := rbetween 1 63 (RChr (λ c, is_alnum c || Ascii.eqb c "-")).
Definition z_identity (s : string) : res string := if test identity s then Ok s else Throw ZodError.

(** [String(n)] of an integer. *)
Definition int_text (z : Z) : string := of_chars (print_int z).
(** A quoted text of a query. *)
Definition quoted (s : string) : string := of_chars [quote] +:+ s +:+ of_chars [quote].

(** ** The schema of an answer *)
Definition Time : Type := Z * Z.
Definition time_le (a b : Time) : bool := a.1 * b.2 <=? b.1 * a.2.
Definition at_second (z : Z) : Time := (z, 1).

Definition z_finite (j : json) : option Time :=
  match j with JInt z => Some (z, 1) | JFrac n d => if 0 <? d then Some (n, d) else None | _ => None end.
Definition z_literal (s : string) (j : json) : option () :=
  t ← z_string j; if String.eqb t s then Some tt else None.
Definition z_array {A} (p : json → option A) (hi : Z) (j : json) : option (list A) :=
  match j with JArr l => if Z.of_nat (length l) <=? hi then mapM p l else None | _ => None end.
Definition z_max (hi : Z) (j : json) : option string :=
  s ← z_string j; if js_length s <=? hi then Some s else None.
Definition z_point (j : json) : option (Time * string) :=
  match j with JArr [t; v] => t ← z_finite t; v ← z_max 64 v; Some (t, v) | _ => None end.

Definition matrix {A} (metric : json → option A) (values results : Z) :
    json → option (list (A * list (Time * string))) :=
  z_object (λ fs,
    required (z_literal "success") (field "status" fs) ≫= λ _,
    optional (z_array z_string 0) (field "warnings" fs) ≫= λ _,
    required (z_object (λ data,
      required (z_literal "matrix") (field "resultType" data) ≫= λ _,
      required (z_array (z_object (λ series,
        m ← required metric (field "metric" series);
        vs ← required (z_array z_point values) (field "values" series);
        Some (m, vs))) results) (field "result" data))) (field "data" fs)).

(** ** Points *)

(** The value of a point: none where the service has no number, otherwise a
    finite number that is not negative. *)
Definition point_value (empty invalid : exn) (raw : string) : res (option jsnum) :=
  if includes ["NaN"; "+Inf"; "-Inf"] raw then Ok None
  else
    when_throw (String.eqb (trim raw) "") empty ;;
    let value := js_Number raw in
    when_throw (negb (is_finite value) || is_negative value) invalid ;;
    mret (Some value).

(** The points in order, each within the range and after the previous one. *)
Fixpoint read_points (start end_ : Z) (aligned : Time → bool) (timestamp : exn)
    (value : string → res (option jsnum)) (previous : Time) (values : list (Time * string)) :
    res (list (Time * option jsnum)) :=
  match values with
  | [] => Ok []
  | (time, raw) :: values =>
      when_throw (negb (time_le (at_second start) time) || negb (time_le time (at_second end_)) ||
                  time_le time previous || negb (aligned time)) timestamp ;;
      v ← value raw;
      points ← read_points start end_ aligned timestamp value time values;
      mret ((time, v) :: points)
  end.

(** *** What they are *)

(** The window ends at most one step before now, on a multiple of the step. *)
Lemma bounds_spec w now : let r := bounds w now in
  rg_end r * 1000 ≤ now < (rg_end r + rg_step r) * 1000 ∧ rg_end r mod rg_step r = 0 ∧
  rg_end r - rg_start r = (window_range w).1 ∧ rg_step r = (window_range w).2.
Proof.
  assert (∀ step, 0 < step → now / 1000 / step * step * 1000 ≤ now < (now / 1000 / step * step + step) * 1000 ∧
    (now / 1000 / step * step) mod step = 0) as H.
  { intros step Hs. split; [|by apply Z.mod_mul; lia]. Z.div_mod_to_equations. nia. }
  destruct w; unfold bounds, window_range; cbv zeta; simpl rg_end; simpl rg_step; simpl rg_start;
    (split; [by apply H|split; [by apply H|split; [simpl; lia|done]]]).
Qed.

Definition time_lt (a b : Time) : Prop := time_le b a = false.
Record good_points (start end_ : Z) (points : list (Time * option jsnum)) : Prop := {
  gp_range t v : (t, v) ∈ points → time_le (at_second start) t = true ∧ time_le t (at_second end_) = true;
  gp_order : StronglySorted (λ a b, time_lt a b) points.*1;
  gp_value t v : (t, Some v) ∈ points → is_finite v = true ∧ is_negative v = false }.

Lemma point_value_Ok empty invalid raw v :
  point_value empty invalid raw = Ok (Some v) → is_finite v = true ∧ is_negative v = false.
Proof.
  unfold point_value. destruct (includes _ _); [done|]. cbv zeta.
  intros (_ & [H%when_throw_Ok [= <-]]%res_seq_Ok)%res_seq_Ok. by boolify.
Qed.

Lemma time_le_trans a b c : 0 < a.2 → 0 < b.2 → 0 < c.2 →
  time_le a b = true → time_le b c = true → time_le a c = true.
Proof.
  destruct a as [a x], b as [b y], c as [c z]. unfold time_le. simpl. rewrite !Z.leb_le. intros. nia.
Qed.
Lemma time_lt_trans a b c : 0 < a.2 → 0 < b.2 → 0 < c.2 → time_lt a b → time_lt b c → time_lt a c.
Proof.
  destruct a as [a x], b as [b y], c as [c z]. unfold time_lt, time_le. simpl. rewrite !Z.leb_gt. intros. nia.
Qed.

Lemma read_points_Ok start end_ aligned timestamp value previous values points :
  (∀ raw v, value raw = Ok (Some v) → is_finite v = true ∧ is_negative v = false) →
  0 < previous.2 → Forall (λ v, 0 < v.1.2) values →
  read_points start end_ aligned timestamp value previous values = Ok points →
  points.*1 = values.*1 ∧ good_points start end_ points ∧
  Forall (λ p, time_lt previous p.1 ∧ aligned p.1 = true) points.
Proof.
  intros Hv. revert previous points. induction values as [|[t raw] values IH]; intros previous points Hp Hpos; simpl.
  { intros [= <-]. split_and!; [done| |constructor]. split; [set_solver|constructor|set_solver]. }
  apply Forall_cons in Hpos as [Ht Hpos]. simpl in Ht.
  intros [Hg%when_throw_Ok (v & Ev & (ps & Eps & [= <-])%res_bind_Ok)%res_bind_Ok]%res_seq_Ok.
  apply IH in Eps as (E1 & [Hr Ho Hval] & Hall); [|done..]. boolify. simpl.
  split_and!; [by f_equal| |].
  - split.
    + intros t' v' [[= -> ->]|Hin]%elem_of_cons; [done|by eapply Hr].
    + simpl. constructor; [done|]. apply Forall_fmap. eapply Forall_impl; [exact Hall|by intros ? []].
    + intros t' v' [[= -> <-]|Hin]%elem_of_cons; [by eapply Hv|by eapply Hval].
  - constructor; [done|]. rewrite Forall_forall in Hall |- *. intros p Hin. destruct (Hall p Hin) as [Hlt ?].
    split; [|done]. eapply time_lt_trans; [..|exact Hlt]; try done.
    assert (p.1 ∈ values.*1) as (x & Ex & Hx)%list_elem_of_fmap by (rewrite <- E1; by apply list_elem_of_fmap_2).
    rewrite Ex. rewrite Forall_forall in Hpos. by apply Hpos.
Qed.

Lemma z_point_pos j v : z_point j = Some v → 0 < v.1.2.
Proof.
  unfold z_point. destruct j as [| | | | |[|t [|w []]]|]; try done. intros (t' & Et & H)%bind_Some.
  apply bind_Some in H as (w' & _ & [= <-]). simpl. unfold z_finite in Et.
  destruct t; try done; [by simplify_eq|]. split_if_in Et; [|done]. simplify_eq. by boolify.
Qed.

Lemma mapM_option {A B} (f : A → option B) (P : B → Prop) l k :
  (∀ x y, f x = Some y → P y) → mapM f l = Some k → Forall P k ∧ length k = length l.
Proof.
  intros Hf. revert k. induction l as [|x l IH]; intros k; simpl; [by intros [= <-]|].
  intros (y & Ey & (ys & Eys & [= <-])%bind_Some)%bind_Some. apply IH in Eys as [? ?].
  split; [constructor; [by eapply Hf|done]|simpl; lia].
Qed.

Lemma z_array_Some {A} (p : json → option A) (P : A → Prop) hi j l :
  (∀ x y, p x = Some y → P y) → z_array p hi j = Some l → Forall P l ∧ Z.of_nat (length l) ≤ hi.
Proof.
  intros Hp. unfold z_array. destruct j as [| | | | |js|]; try done. split_if E; [|done].
  intros [H El]%(mapM_option _ _ _ _ Hp). split; [done|]. boolify. lia.
Qed.

(** An accepted answer is within the limits of the schema. *)
Lemma matrix_Some {A} (metric : json → option A) values results j l :
  matrix metric values results j = Some l →
  Z.of_nat (length l) ≤ results ∧
  Forall (λ s, Z.of_nat (length s.2) ≤ values ∧ Forall (λ v, 0 < v.1.2) s.2) l.
Proof.
  unfold matrix, z_object. destruct j as [| | | | | |fs]; try done.
  intros (? & _ & H)%bind_Some. apply bind_Some in H as (? & _ & H).
  apply required_Some in H as (d & _ & H). destruct d as [| | | | | |data]; try done.
  apply bind_Some in H as (? & _ & H). apply required_Some in H as (r & _ & H).
  eapply z_array_Some in H as [Hl ?]; [by split|].
  intros s [m vs] Hs. destruct s as [| | | | | |series]; try done.
  apply bind_Some in Hs as (? & _ & Hs). apply bind_Some in Hs as (vs' & Hvs & [= <- <-]).
  apply required_Some in Hvs as (a & _ & Hvs).
  apply (z_array_Some _ (λ v, 0 < v.1.2)) in Hvs as [? ?]; [by split|apply z_point_pos].
Qed.
