(* ===== verification/History.v ===== *)
(** * Lookup history

    [apps/admin-api/src/history.ts]: the history of a cache's lookups, read
    from Prometheus.  [new URL] is a parameter. *)
From Stdlib Require Import ZArith Lia Ascii Sorted Init.Byte.
From stdpp Require Import base tactics list option strings gmap.
From S2P Require Import Prelude Regex Numbers Effects Catalog Json JsNumber Secrets Http Statistics Series.

Record HistoryTarget := MkHistoryTarget { ht_projectId : string; ht_instanceUID : string }.

Inductive LookupKind := Ac | Cas.
Inductive LookupMethod := LGet | LContains.
Inductive LookupOutcome := Hit | Miss.
#[export] Instance LookupKind_eq_dec : EqDecision LookupKind.
Proof. solve_decision. Defined.
#[export] Instance LookupMethod_eq_dec : EqDecision LookupMethod.
Proof. solve_decision. Defined.
#[export] Instance LookupOutcome_eq_dec : EqDecision LookupOutcome.
Proof. solve_decision. Defined.
Definition kind_str (k : LookupKind) : string := match k with Ac => "ac" | Cas => "cas" end.
Definition method_str (m : LookupMethod) : string := match m with LGet => "get" | LContains => "contains" end.
Definition outcome_str (o : LookupOutcome) : string := match o with Hit => "hit" | Miss => "miss" end.

Definition Lookup : Type := LookupKind * LookupMethod * LookupOutcome.
Record HistorySeries := MkHistorySeries { hs_lookup : Lookup; hs_points : list (Time * option jsnum) }.
Record History := MkHistory {
  hi_window : Window; hi_start : Z; hi_end : Z; hi_stepSeconds : Z; hi_series : list HistorySeries }.

(** The labels of a series: exactly the three. *)
Definition lookup_metric : json → option Lookup :=
  z_strict ["kind"; "method"; "status"] (λ fs,
    k ← required (z_enum [Ac; Cas] kind_str) (field "kind" fs);
    m ← required (z_enum [LGet; LContains] method_str) (field "method" fs);
    o ← required (z_enum [Hit; Miss] outcome_str) (field "status" fs);
    Some (k, m, o)).

Definition history_query (project uid : string) : string :=
  "sum by (kind, method, status) (rate(bazel_remote_incoming_requests_total{expbuild_project_id=" +:+
  quoted project +:+ ",expbuild_instance_uid=" +:+ quoted uid +:+ ",kind=~" +:+ quoted "ac|cas" +:+
  ",method=~" +:+ quoted "get|contains" +:+ ",status=~" +:+ quoted "hit|miss" +:+ "}[5m]))".

(** The series in order; a repeated key is an error. *)
Fixpoint read_series (start end_ : Z) (keys : list Lookup) (result : list (Lookup * list (Time * string))) :
    res (list HistorySeries) :=
  match result with
  | [] => Ok []
  | (metric, values) :: result =>
      when_throw (bool_decide (metric ∈ keys)) (JsError "Duplicate history series") ;;
      points ← read_points start end_ (λ _, true) (JsError "Invalid history timestamp")
        (point_value (JsError "Invalid history value") (JsError "Invalid history rate")) (at_second (start - 1)) values;
      series ← read_series start end_ (metric :: keys) result;
      mret (MkHistorySeries metric points :: series)
  end.

Section history.
Context {K : Type} `{Fetcher K} (clock : M K Z) (parse_url : string → option Url).

(** The constructor: the base address and the value of [Authorization]. *)
Record PrometheusHistory := MkPrometheusHistory { ph_base : Url; ph_authorization : option string }.
Definition prometheusHistory (address : string) (bearerToken : option string) : res PrometheusHistory :=
  authorization ← match bearerToken with
    | Some token =>
        when_throw ((8192 <? js_length token) || negb (test token_pattern token))
          (JsError "Invalid Prometheus bearer token") ;;
        mret (Some ("Bearer " +:+ token))
    | None => mret None
    end;
  base ← base_url parse_url "Invalid Prometheus URL" address;
  mret (MkPrometheusHistory base authorization).

Definition history_request (this : PrometheusHistory) (project uid : string) (range : Range) : HttpRequest :=
  {| fq_url := resolve (ph_base this) "api/v1/query_range";
     fq_query := [("query", history_query project uid); ("start", int_text (rg_start range));
                  ("end", int_text (rg_end range)); ("step", int_text (rg_step range)); ("timeout", "4s")];
     fq_headers := ("Accept", "application/json") ::
                   match ph_authorization this with Some a => [("Authorization", a)] | None => [] end;
     fq_body := None |}.

Definition history_read (this : PrometheusHistory) (target : HistoryTarget) (window : Window) : M K History :=
  project ← lift (z_identity (ht_projectId target));
  uid ← lift (z_identity (ht_instanceUID target));
  now ← clock;
  let range := bounds window now in
  response ← fetch (history_request this project uid range);
  reads ← lift (of_option (JsError "History unavailable") (if hr_ok response then hr_body response else None));
  body ← lift (read_chunks (1024 * 1024) (JsError "History response too large") 0 reads);
  page ← lift (parse_body body);
  data ← lift (of_option ZodError (matrix lookup_metric 300 8 page));
  series ← lift (read_series (rg_start range) (rg_end range) [] data);
  mret (MkHistory window (rg_start range) (rg_end range) (rg_step range) series).

Lemma read_series_Ok start end_ keys result series :
  Forall (λ s, Forall (λ v, 0 < v.1.2) s.2) result → read_series start end_ keys result = Ok series →
  (hs_lookup <$> series) = result.*1 ∧ NoDup (hs_lookup <$> series) ∧
  (∀ s, s ∈ series → (hs_lookup s ∉ keys) ∧ good_points start end_ (hs_points s)) ∧
  Forall2 (λ s r, (hs_points s).*1 = r.2.*1) series result.
Proof.
  revert keys series. induction result as [|[m vs] result IH]; intros keys series Hp; simpl.
  { intros [= <-]. split_and!; [done|constructor|set_solver|constructor]. }
  apply Forall_cons in Hp as [Hv Hp].
  intros [Hd%when_throw_Ok (ps & Eps & (ss & Ess & [= <-])%res_bind_Ok)%res_bind_Ok]%res_seq_Ok.
  apply read_points_Ok in Eps as (E1 & Hg & _); [|by intros; eapply point_value_Ok|done|done].
  apply IH in Ess as (E2 & Hn & Hs & H2); [|done]. apply bool_decide_eq_false in Hd. csimpl. split_and!.
  - by f_equal.
  - constructor; [|done]. intros (s & E & Hin)%list_elem_of_fmap. destruct (Hs s Hin) as [Hk _].
    apply Hk. rewrite <- E. set_solver.
  - intros s [->|Hin]%elem_of_cons; [done|]. destruct (Hs s Hin) as [Hk ?]. split; [set_solver|done].
  - by constructor.
Qed.

(** A history that is returned was asked of the configured service, about
    the instance's own identity and nothing else, for the window that ends at
    most one step before now; it has at most eight series, one per kind of
    lookup, and the points of each are strictly increasing times within the
    window, with finite values that are not negative where there are any. *)
Theorem history_exact this target window k h k' :
  history_read this target window k = (Ok h, k') →
  test identity (ht_projectId target) = true ∧ test identity (ht_instanceUID target) = true ∧
  ∃ now k1 response, clock k = (Ok now, k1) ∧
    let range := bounds window now in
    fetch (history_request this (ht_projectId target) (ht_instanceUID target) range) k1 = (Ok response, k') ∧
    hi_window h = window ∧ hi_start h = rg_start range ∧ hi_end h = rg_end range ∧
    rg_end range * 1000 ≤ now < (rg_end range + rg_step range) * 1000 ∧
    rg_end range - rg_start range = (window_range window).1 ∧
    Z.of_nat (length (hi_series h)) ≤ 8 ∧ NoDup (hs_lookup <$> hi_series h) ∧
    ∀ s, s ∈ hi_series h →
      Z.of_nat (length (hs_points s)) ≤ 300 ∧ good_points (hi_start h) (hi_end h) (hs_points s).
Proof.
  unfold history_read. intros E.
  apply bind_Ok_inv in E as (project & k0 & [Ep ->]%lift_inv & E).
  apply bind_Ok_inv in E as (uid & k0 & [Eu ->]%lift_inv & E).
  unfold z_identity in Ep, Eu. split_if_in Ep; [|done]. split_if_in Eu; [|done]. simplify_eq.
  split; [done|split; [done|]].
  apply bind_Ok_inv in E as (now & k1 & Ec & E). cbv zeta in E.
  apply bind_Ok_inv in E as (response & k2 & Ef & E). apply bind_Ok_inv in E as (reads & k3 & [_ ->]%lift_inv & E).
  apply bind_Ok_inv in E as (body & k3 & [_ ->]%lift_inv & E).
  apply bind_Ok_inv in E as (page & k3 & [_ ->]%lift_inv & E).
  apply bind_Ok_inv in E as (data & k3 & [Hd%of_option_Ok%matrix_Some ->]%lift_inv & E).
  apply bind_Ok_inv in E as (series & k3 & [Es ->]%lift_inv & [= <- <-]).
  destruct Hd as [Hl Hv]. apply read_series_Ok in Es as (El & Hn & Hs & H2);
    [|eapply Forall_impl; [exact Hv|by intros ? []]].
  destruct (bounds_spec window now) as (Hb & _ & Hsec & _).
  exists now, k1, response. split; [done|]. split; [exact Ef|]. simpl.
  do 3 (split; [done|]). split; [exact Hb|]. split; [exact Hsec|]. split; [|split; [done|]].
  - rewrite <- (length_fmap hs_lookup), El, length_fmap. done.
  - intros s Hin. split; [|by apply Hs]. destruct (list_elem_of_lookup_1 _ _ Hin) as [i Hi].
    destruct (Forall2_lookup_l _ _ _ _ _ H2 Hi) as (r & Hr & E).
    rewrite <- (length_fmap fst), E, length_fmap.
    rewrite Forall_forall in Hv. apply Hv. by eapply list_elem_of_lookup_2.
Qed.

(** The times of a history are fractions with a positive denominator. *)
Lemma history_read_pos this target window k h k' :
  history_read this target window k = (Ok h, k') →
  ∀ s, s ∈ hi_series h → Forall (λ t, 0 < t.2) (hs_points s).*1.
Proof.
  unfold history_read. intros E.
  apply bind_Ok_inv in E as (project & k0 & _ & E). apply bind_Ok_inv in E as (uid & k1 & _ & E).
  apply bind_Ok_inv in E as (now & k2 & _ & E). apply bind_Ok_inv in E as (response & k3 & _ & E).
  apply bind_Ok_inv in E as (reads & k4 & _ & E). apply bind_Ok_inv in E as (body & k5 & _ & E).
  apply bind_Ok_inv in E as (page & k6 & _ & E).
  apply bind_Ok_inv in E as (data & k7 & [[_ Hv]%of_option_Ok%matrix_Some _]%lift_inv & E).
  apply bind_Ok_inv in E as (series & k8 & [Es _]%lift_inv & [= <- _]). simpl. intros s Hin.
  apply read_series_Ok in Es as (_ & _ & _ & H2); [|eapply Forall_impl; [exact Hv|by intros ? []]].
  destruct (list_elem_of_lookup_1 _ _ Hin) as [i Hi]. destruct (Forall2_lookup_l _ _ _ _ _ H2 Hi) as (r & Hr & ->).
  apply Forall_fmap. rewrite Forall_forall in Hv. by apply Hv, (list_elem_of_lookup_2 _ _ _ Hr).
Qed.
End history.

(** ** A witness *)
Definition sample_matrix : json := JObj
  [("status", JStr "success");
   ("data", JObj [("resultType", JStr "matrix");
     ("result", JArr [JObj
       [("metric", JObj [("kind", JStr "ac"); ("method", JStr "get"); ("status", JStr "hit")]);
        ("values", JArr [JArr [JInt 3660; JStr "0.5"]; JArr [JInt 3720; JStr "NaN"]])]])])].
Definition sample_base : Url := MkUrl "http:" "" "" "prometheus" "/" "" "".

Lemma history_exact_witness : ∃ h, 
  @history_read () (answering sample_matrix) (mret 7260123) (MkPrometheusHistory sample_base None)
    (MkHistoryTarget "p" "u") W1h tt = (Ok h, tt) ∧
  hi_series h = [MkHistorySeries (Ac, LGet, Hit) [((3660, 1), Some (Finite 5 10)); ((3720, 1), None)]] ∧
  NoDup (hs_lookup <$> hi_series h).
Proof.
  destruct (@history_read () (answering sample_matrix) (mret 7260123) (MkPrometheusHistory sample_base None)
    (MkHistoryTarget "p" "u") W1h tt) as [[h|e] []] eqn:E; [|vm_compute in E; discriminate E].
  exists h. split; [reflexivity|]. split; [vm_compute in E; injection E as <-; reflexivity|].
  destruct (@history_exact () (answering sample_matrix) (mret 7260123) (MkPrometheusHistory sample_base None)
    (MkHistoryTarget "p" "u") W1h tt h tt E) as (_ & _ & now & k1 & response & _ & H).
  apply H.
Defined.
