(* ===== verification/Backends.v ===== *)
(** * Observability backends

    [apps/admin-api/src/observation-backends.ts]: the client of a backend and
    its concurrency limit, the metrics of an instance from Prometheus, its logs
    from Loki, and the alerts of a project from Alertmanager.

    [new URL], zod's ISO times and [sanitizeLog] are parameters.  The state of
    a client is the number of its active requests, before the state [K] of the
    service. *)
From Stdlib Require Import ZArith Lia Ascii Sorted Init.Byte.
From stdpp Require Import base tactics list option strings gmap sorting.
From S2P Require Import Prelude Regex Numbers Effects Catalog Json JsNumber Secrets Http Statistics Series History.

(** ** The client *)
Record Backend := MkBackend { bk_url : Url; bk_token : option string }.
Definition backend (parse_url : string → option Url) (address : string) (token : option string) : res Backend :=
  base ← base_url parse_url "Invalid observability backend URL" address;
  when_throw (match token with
              | Some t => String.eqb t "" || (8192 <? js_length t) || negb (test token_pattern t)
              | None => false
              end) (JsError "Invalid observability backend token") ;;
  mret (MkBackend base token).

Section backend.
Context {K : Type} `{Fetcher K} (clock : M K Z).

Definition on_service {A} (m : M K A) : M (Z * K) A := zoom snd (λ k s, (s.1, k)) m.
Definition count_active (d : Z) : M (Z * K) () := modify (λ s, (s.1 + d, s.2)).
(** [try { m } finally { f }] *)
Definition finally {S A} (m : M S A) (f : S → S) : M S A := λ s, let '(r, s) := m s in (r, f s).

Definition backend_call (this : Backend) (path : string) (params : list (string * string)) (payload : option json) :
    M K json :=
  response ← fetch {|
    fq_url := resolve (bk_url this) path; fq_query := params;
    fq_headers := [("Accept", "application/json")] ++
      match payload with Some _ => [("Content-Type", "application/json")] | None => [] end ++
      match bk_token this with Some t => [("Authorization", "Bearer " +:+ t)] | None => [] end;
    fq_body := payload |};
  reads ← lift (of_option (JsError "Observation backend unavailable")
                  (if hr_ok response then hr_body response else None));
  body ← lift (read_chunks (1024 * 1024) (JsError "Observation response limit") 0 reads);
  lift (parse_body body).

(** [Backend.request] *)
Definition backend_request (this : Backend) (path : string) (params : list (string * string))
    (payload : option json) : M (Z * K) json :=
  active ← gets fst;
  throw_if (8 <=? active) (JsError "Observation query limit reached") ;;
  count_active 1 ;;
  finally (on_service (backend_call this path params payload)) (λ s, (s.1 - 1, s.2)).
End backend.

(** ** Metrics *)
Record Target := MkTarget {
  tg_projectId : string; tg_instanceUID : string; tg_namespace : string; tg_template : string;
  tg_version : string }.
Inductive Group := GCapacity | GLookups | GResources | GPerformance.
#[export] Instance Group_eq_dec : EqDecision Group.
Proof. solve_decision. Defined.
Definition group_str (g : Group) : string :=
  match g with GCapacity => "capacity" | GLookups => "lookups" | GResources => "resources"
             | GPerformance => "performance" end.

(** [name="value"] *)
Definition matcher (name value : string) : string := name +:+ "=" +:+ quoted value.

Definition selector (target : Target) (cluster : string) : res string :=
  c ← z_identity cluster; p ← z_identity (tg_projectId target); u ← z_identity (tg_instanceUID target);
  mret (matcher "expbuild_cluster_id" c +:+ "," +:+ matcher "expbuild_project_id" p +:+ "," +:+
        matcher "expbuild_instance_uid" u).

(** The object [descriptors]: a query and a unit by name, in insertion order. *)
Definition Descriptors : Type := list (string * (string * string)).
Definition engine (target : Target) (template version : string) : bool :=
  String.eqb (tg_template target) template && String.eqb (tg_version target) version.

Definition capacity_descriptors (select : string) (target : Target) : Descriptors :=
  ((λ e : string * string, (e.1,
     ("max(expbuild_instance_" +:+ e.1 +:+ "{" +:+ select +:+
      "} and on(expbuild_cluster_id,expbuild_project_id,expbuild_instance_uid,source) (expbuild_instance_statistics_timestamp_seconds{" +:+
      select +:+ "} > time()-120))", e.2)))
    <$> [("used_bytes", "bytes"); ("capacity_bytes", "bytes"); ("entries", "entries")]) ++
  if engine target "gradle-http" "0.2.0" then
    [("evictions", ("sum(rate(expbuild_cache_evictions_total{" +:+ select +:+ "}[5m]))", "entries/second"));
     ("evicted_bytes", ("sum(rate(expbuild_cache_evicted_bytes_total{" +:+ select +:+ "}[5m]))", "bytes/second"))]
  else [].

Definition lookup_descriptors (select : string) (target : Target) : Descriptors :=
  if engine target "bazel-remote" "0.1.0" then
    kind ← ["ac"; "cas"]; method ← ["get"; "contains"]; outcome ← ["hit"; "miss"];
    [(kind +:+ "_" +:+ method +:+ "_" +:+ outcome,
      ("sum(rate(bazel_remote_incoming_requests_total{" +:+ select +:+ "," +:+ matcher "kind" kind +:+ "," +:+
       matcher "method" method +:+ "," +:+ matcher "status" outcome +:+ "}[5m]))", "lookups/second"))]
  else if engine target "gradle-http" "0.2.0" then
    outcome ← ["hit"; "miss"];
    [("get_" +:+ outcome,
      ("sum(rate(expbuild_cache_lookups_total{" +:+ select +:+ "," +:+ matcher "outcome" outcome +:+ "}[5m]))",
       "lookups/second"))]
  else [].

(** A query by name, and the name of the misses of a series of hits. *)
Definition query_of (name : string) (d : Descriptors) : string :=
  match js_find (λ e, String.eqb e.1 name) d with Some (_, (q, _)) => q | None => "" end.
Definition hits_of (name : string) : option string :=
  let l := chars name in let n := (length l - 4)%nat in
  if bool_decide (drop n l = chars "_hit") then Some (of_chars (take n l) +:+ "_miss") else None.
Definition ratio_descriptors (d : Descriptors) : Descriptors :=
  omap (λ e, match hits_of e.1 with
             | Some missed =>
                 let hit := query_of e.1 d in let miss := query_of missed d in
                 Some (e.1 +:+ "_ratio", ("100 * (" +:+ hit +:+ ") / (((" +:+ hit +:+ ") + (" +:+ miss +:+ ")) > 0)",
                                         "percent"))
             | None => None
             end) d.

Definition resource_descriptors (cluster namespace uid : string) : Descriptors :=
  let ns := matcher "namespace" namespace in
  let cl := matcher "expbuild_cluster_id" cluster in
  let owned := matcher "label_cache_expbuild_io_instance_uid" uid in
  let containers := "container!=" +:+ quoted "" +:+ ",container!=" +:+ quoted "POD" in
  let pods := "max by(namespace,pod) (kube_pod_labels{" +:+ ns +:+ "," +:+ owned +:+ "," +:+ cl +:+ "})" in
  let joined q := "sum(max by(namespace,pod,container)(" +:+ q +:+ ") * on(namespace,pod) group_left() " +:+ pods +:+ ")" in
  let volumes := "max by(namespace,persistentvolumeclaim) (kube_persistentvolumeclaim_labels{" +:+ ns +:+ "," +:+
                 owned +:+ "," +:+ cl +:+ "})" in
  [("cpu_cores", (joined ("rate(container_cpu_usage_seconds_total{" +:+ ns +:+ "," +:+ containers +:+ "," +:+ cl +:+
                          "}[5m])"), "cores"));
   ("memory_bytes", (joined ("container_memory_working_set_bytes{" +:+ ns +:+ "," +:+ containers +:+ "," +:+ cl +:+ "}"),
                     "bytes"));
   ("restarts", (joined ("kube_pod_container_status_restarts_total{" +:+ ns +:+ "," +:+ cl +:+ "}"), "restarts"));
   ("memory_limit_bytes", (joined ("kube_pod_container_resource_limits{" +:+ ns +:+ "," +:+ matcher "resource" "memory" +:+
                                   "," +:+ matcher "unit" "byte" +:+ "," +:+ cl +:+ "}"), "bytes"));
   ("cpu_limit_cores", (joined ("kube_pod_container_resource_limits{" +:+ ns +:+ "," +:+ matcher "resource" "cpu" +:+
                                "," +:+ matcher "unit" "core" +:+ "," +:+ cl +:+ "}"), "cores"));
   ("throttled_seconds", (joined ("rate(container_cpu_cfs_throttled_seconds_total{" +:+ ns +:+ "," +:+ containers +:+
                                  "," +:+ cl +:+ "}[5m])"), "seconds/second"))] ++
  ((λ name, ("volume_" +:+ name,
      ("max(kubelet_volume_stats_" +:+ name +:+ "{" +:+ ns +:+ "," +:+ cl +:+
       "} * on(namespace,persistentvolumeclaim) group_left() " +:+ volumes +:+ ")", "bytes")))
   <$> ["used_bytes"; "capacity_bytes"]).

Definition performance_descriptors (select : string) (target : Target) : Descriptors :=
  if engine target "gradle-http" "0.2.0" then
    (method ← ["GET"; "PUT"];
     let by_method := select +:+ "," +:+ matcher "method" method in
     [(method +:+ "_requests", ("sum(rate(expbuild_cache_requests_total{" +:+ by_method +:+ "}[5m]))", "requests/second"));
      (method +:+ "_errors", ("sum(rate(expbuild_cache_requests_total{" +:+ by_method +:+ "," +:+
                              matcher "status_class" "5xx" +:+ "}[5m]))", "requests/second"));
      (method +:+ "_p95", ("histogram_quantile(0.95,sum by(le)(rate(expbuild_cache_request_duration_seconds_bucket{" +:+
                           by_method +:+ "}[5m])))", "seconds"))]) ++
    ((λ direction, (direction +:+ "_bytes",
        ("sum(rate(expbuild_cache_transfer_bytes_total{" +:+ select +:+ "," +:+ matcher "direction" direction +:+
         "}[5m]))", "bytes/second"))) <$> ["read"; "write"])
  else [].

(** The series of a group, each with its query. *)
Definition descriptors (cluster select : string) (target : Target) (group : Group) : res Descriptors :=
  match group with
  | GCapacity => mret (capacity_descriptors select target)
  | GLookups => let d := lookup_descriptors select target in mret (d ++ ratio_descriptors d)
  | GResources => ns ← z_identity (tg_namespace target); uid ← z_identity (tg_instanceUID target);
                  mret (resource_descriptors cluster ns uid)
  | GPerformance => mret (performance_descriptors select target)
  end.

(** Lookups and performance are only asked of an engine that reported lately. *)
Definition anchored (select : string) (target : Target) (group : Group) (d : Descriptors) : Descriptors :=
  if bool_decide (group ∈ [GLookups; GPerformance]) then
    let anchor := if String.eqb (tg_template target) "bazel-remote" then "bazel_remote_incoming_requests_total"
                  else if bool_decide (group = GLookups) then "expbuild_cache_lookups_total"
                  else "expbuild_cache_requests_total" in
    (λ e : string * (string * string), (e.1, ("(" +:+ e.2.1 +:+ ") and on() (max(timestamp(" +:+ anchor +:+ "{" +:+
       select +:+ "})) > time()-120)", e.2.2))) <$> d
  else d.

Definition metrics_query (d : Descriptors) : string :=
  join " or " ((λ e, "label_replace((" +:+ e.2.1 +:+ ")," +:+ quoted "series" +:+ "," +:+ quoted e.1 +:+ "," +:+
                     quoted "" +:+ "," +:+ quoted "" +:+ ")") <$> d).

(** [z.record(z.string(), z.string().max(n))] *)
Definition z_record {A} (p : json → option A) (j : json) : option (list (string * A)) :=
  match j with JObj fs => mapM (λ e, v ← p e.2; Some (e.1, v)) fs | _ => None end.
Definition entry (key : string) (labels : list (string * string)) : option string :=
  snd <$> js_find (λ e, String.eqb e.1 key) labels.

(** [descriptors[name]] also finds what every object inherits: a function, which
    has no unit. *)
Definition object_members : list string :=
  ["constructor"; "__defineGetter__"; "__defineSetter__"; "hasOwnProperty"; "__lookupGetter__";
   "__lookupSetter__"; "isPrototypeOf"; "propertyIsEnumerable"; "toString"; "valueOf"; "__proto__";
   "toLocaleString"].
Definition descriptor_unit (name : string) (d : Descriptors) : option (option string) :=
  match js_find (λ e, String.eqb e.1 name) d with
  | Some e => Some (Some e.2.2)
  | None => if includes object_members name then Some None else None
  end.

Record MetricSeries := MkMetricSeries {
  ms_name : string; ms_unit : option string; ms_points : list (Z * option jsnum) }.
Inductive MetricState := MUnsupported | MNoData | MStale | MOk.
Record Metrics := MkMetrics {
  me_state : MetricState; me_group : Group; me_range : Range; me_observedAt : option Z;
  me_series : list MetricSeries }.

(** The times of the grid, and the value of a series at each of them. *)
Definition grid (r : Range) : list Z :=
  (λ i, rg_start r + Z.of_nat i * rg_step r) <$> seq 0 (Z.to_nat ((rg_end r - rg_start r) / rg_step r + 1)).
Definition time_eq (a b : Time) : bool := a.1 * b.2 =? b.1 * a.2.
Definition value_at (points : list (Time * option jsnum)) (time : Z) : option jsnum :=
  match js_find (λ p, time_eq p.1 (at_second time)) points with Some (_, v) => v | None => None end.
Definition complete (r : Range) (points : list (Time * option jsnum)) : list (Z * option jsnum) :=
  (λ t, (t, value_at points t)) <$> grid r.
Definition on_grid (r : Range) (t : Time) : bool := (t.1 - rg_start r * t.2) mod (rg_step r * t.2) =? 0.

(** The latest time with a value; 0 before any. *)
Definition latest_time (latest : Z) (points : list (Time * option jsnum)) : Z :=
  fold_left (λ l p, match p.2 with Some _ => Z.max l (p.1.1 / p.1.2) | None => l end) points latest.

Fixpoint read_metrics (r : Range) (d : Descriptors) (names : list string) (latest : Z)
    (result : list (list (string * string) * list (Time * string))) : res (list MetricSeries * Z) :=
  match result with
  | [] => Ok ([], latest)
  | (metric, values) :: result =>
      let unexpected := JsError "Unexpected metric series" in
      name ← of_option unexpected (entry "series" metric);
      unit ← of_option unexpected (descriptor_unit name d);
      when_throw (String.eqb name "" || includes names name ||
                  existsb (λ e, negb (String.eqb e.1 "series")) metric) unexpected ;;
      let invalid := JsError "Invalid metric value" in
      points ← read_points (rg_start r) (rg_end r) (on_grid r) (JsError "Invalid metric timestamp")
        (point_value invalid invalid) (at_second (rg_start r - 1)) values;
      '(series, latest) ← read_metrics r d (name :: names) (latest_time latest points) result;
      mret (MkMetricSeries name unit (complete r points) :: series, latest)
  end.

Section metrics.
Context {K : Type} `{Fetcher K} (clock : M K Z).
Context (this : Backend) (cluster : string).

(** [ObservationMetrics.read] *)
Definition metrics_read (target : Target) (group : Group) (window : Window) : M (Z * K) Metrics :=
  select ← lift (selector target cluster);
  now ← on_service clock;
  let r := bounds window now in
  d ← lift (descriptors cluster select target group);
  if bool_decide (d = []) then mret (MkMetrics MUnsupported group r None [])
  else
    page ← backend_request this "api/v1/query_range"
      [("query", metrics_query (anchored select target group d)); ("start", int_text (rg_start r));
       ("end", int_text (rg_end r)); ("step", int_text (rg_step r)); ("timeout", "4s")] None;
    data ← lift (of_option ZodError (matrix (z_record (z_max 150)) 361 20 page));
    '(series, latest) ← lift (read_metrics r d [] 0 data);
    mret (MkMetrics
      (if latest =? 0 then MNoData else if latest <? rg_end r - rg_step r * 2 then MStale else MOk)
      group r (if latest =? 0 then None else Some (latest * 1000)) series).
End metrics.

(** A series may bear an inherited name: it is not refused, and has no unit. *)
Example inherited_series : read_metrics (MkRange 0 60 60) [] [] 0 [([("series", "constructor")], [])] =
  Ok ([MkMetricSeries "constructor" None [(0, None); (60, None)]], 0).
Proof. reflexivity. Qed.

(** ** What the metrics are *)
Lemma js_find_elem {A} (p : A → bool) (l : list A) x : x ∈ l → p x = true → ∃ y, js_find p l = Some y ∧ p y = true.
Proof.
  intros Hx Hp. unfold js_find. destruct (filter (λ x, p x = true) l) as [|y k] eqn:E.
  - assert (x ∈ filter (λ x, p x = true) l) as Hin by (by apply list_elem_of_filter). rewrite E in Hin.
    by apply not_elem_of_nil in Hin.
  - exists y. split; [done|].
    assert (y ∈ filter (λ x, p x = true) l) as Hin by (rewrite E; apply list_elem_of_here).
    by apply list_elem_of_filter in Hin as [? _].
Qed.

(** A value of the grid is a value the backend answered at that time. *)
Lemma value_at_Some points t v :
  value_at points t = Some v → ∃ time, (time, Some v) ∈ points ∧ time_eq time (at_second t) = true.
Proof.
  unfold value_at. destruct (js_find _ points) as [[time o]|] eqn:E; [|done]. intros ->.
  apply js_find_Some in E as [? ?]. by exists time.
Qed.

Lemma latest_time_spec latest points :
  latest ≤ latest_time latest points ∧
  (latest_time latest points = latest ∨
   ∃ p v, p ∈ points ∧ p.2 = Some v ∧ latest_time latest points = p.1.1 / p.1.2) ∧
  ∀ p v, p ∈ points → p.2 = Some v → p.1.1 / p.1.2 ≤ latest_time latest points.
Proof.
  revert latest. induction points as [|p points IH]; intros latest.
  { split_and!; [done|by left|]. by intros p v Hp%not_elem_of_nil. }
  destruct p as [time o].
  change (latest_time latest ((time, o) :: points))
    with (latest_time match o with Some _ => Z.max latest (time.1 / time.2) | None => latest end points).
  destruct o as [v|].
  - destruct (IH (Z.max latest (time.1 / time.2))) as (Hle & Hor & Hall). split_and!; [lia| |].
    + destruct Hor as [Eq|(q & w & Hq & Ew & El)]; [|right; exists q, w; set_solver].
      destruct (Z.max_spec latest (time.1 / time.2)) as [[_ Em]|[_ Em]]; rewrite Em in Eq |- *.
      * right. exists (time, Some v), v. by split_and!; [apply list_elem_of_here| |].
      * by left.
    + intros q w [->|Hq]%elem_of_cons Ew; [simpl; lia|by eapply Hall].
  - destruct (IH latest) as (Hle & Hor & Hall). split_and!; [done| |].
    + destruct Hor as [Eq|(q & w & Hq & Ew & El)]; [by left|right; exists q, w; set_solver].
    + intros q w [->|Hq]%elem_of_cons Ew; [done|by eapply Hall].
Qed.

Lemma grid_elem r t : 0 < rg_step r → t ∈ grid r ↔
  rg_start r ≤ t ≤ rg_end r ∧ (t - rg_start r) mod rg_step r = 0.
Proof.
  intros Hs. unfold grid. rewrite list_elem_of_fmap. setoid_rewrite elem_of_seq. split.
  - intros (i & -> & Hi). replace (rg_start r + Z.of_nat i * rg_step r - rg_start r) with (Z.of_nat i * rg_step r) by lia.
    rewrite Z.mod_mul by lia. split; [|done].
    assert (Z.of_nat i ≤ (rg_end r - rg_start r) / rg_step r) as Hle by lia.
    assert (Z.of_nat i * rg_step r ≤ rg_end r - rg_start r); [|lia].
    etransitivity; [apply Z.mul_le_mono_nonneg_r; [lia|exact Hle]|].
    rewrite Z.mul_comm. apply Z.mul_div_le. lia.
  - intros [[H1 H2] Hm]. exists (Z.to_nat ((t - rg_start r) / rg_step r)).
    assert (t - rg_start r = rg_step r * ((t - rg_start r) / rg_step r)) as E by (apply Z_div_exact_full_2; lia).
    assert (0 ≤ (t - rg_start r) / rg_step r ≤ (rg_end r - rg_start r) / rg_step r).
    { split; [apply Z.div_pos; lia|apply Z.div_le_mono; lia]. }
    split; lia.
Qed.

(** A time of the grid is an integer. *)
Lemma on_grid_integral r time : 0 < time.2 → 0 < rg_step r → on_grid r time = true →
  time_eq time (at_second (time.1 / time.2)) = true ∧ (time.1 / time.2 - rg_start r) mod rg_step r = 0.
Proof.
  destruct time as [n d]. unfold on_grid, time_eq, at_second. simpl. intros Hd Hs Hg. boolify.
  apply Z.div_exact in Hg; [|nia]. revert Hg. generalize ((n - rg_start r * d) / (rg_step r * d)). intros q Hg.
  assert (n = (rg_start r + rg_step r * q) * d) as -> by lia. rewrite Z.div_mul by lia. split.
  - apply Z.eqb_eq. lia.
  - replace (rg_start r + rg_step r * q - rg_start r) with (q * rg_step r) by lia. apply Z.mod_mul. lia.
Qed.

Lemma time_eq_sym_lt a b : time_eq a b = true → ¬ time_lt a b ∧ ¬ time_lt b a.
Proof. destruct a as [a x], b as [b y]. unfold time_eq, time_lt, time_le. simpl. rewrite Z.eqb_eq, !Z.leb_gt. intros E. rewrite E. split; lia. Qed.
Lemma time_eq_trans a b c : 0 < c.2 → time_eq a c = true → time_eq b c = true → time_eq a b = true.
Proof.
  destruct a as [a x], b as [b y], c as [c z]. unfold time_eq. simpl. rewrite !Z.eqb_eq. intros Hz Ea Eb.
  apply (Z.mul_reg_r _ _ z); [lia|].
  replace (a * y * z) with (a * z * y) by ring. replace (b * x * z) with (b * z * x) by ring.
  rewrite Ea, Eb. ring.
Qed.

(** A time is the time of one point only. *)
Lemma value_at_unique points time v t :
  StronglySorted (λ a b, time_lt a b) points.*1 → (time, Some v) ∈ points →
  time_eq time (at_second t) = true → value_at points t = Some v.
Proof.
  induction points as [|[time' o] points IH]; [by intros _ ?%not_elem_of_nil|].
  intros Hs Hin Et. apply StronglySorted_inv in Hs as [Hs Hall]. unfold value_at, js_find. cbn [filter list_filter].
  destruct (decide _) as [Ht|Ht]; simpl in Ht.
  - apply elem_of_cons in Hin as [[= <- <-]|Hin]; [done|].
    rewrite Forall_forall in Hall. exfalso.
    destruct (time_eq_sym_lt time' time) as [Hlt _]; [by apply (time_eq_trans _ _ (at_second t))|].
    apply Hlt, Hall. by apply (list_elem_of_fmap_2 fst _ (time, Some v)).
  - apply elem_of_cons in Hin as [[= <- <-]|Hin]; [done|]. by apply IH.
Qed.

(** *** The points of a series *)
Lemma complete_values r points :
  0 < rg_step r → good_points (rg_start r) (rg_end r) points →
  Forall (λ p, 0 < p.1.2 ∧ on_grid r p.1 = true) points →
  (complete r points).*1 = grid r ∧
  (∀ t v, (t, Some v) ∈ complete r points → is_finite v = true ∧ is_negative v = false) ∧
  ∀ t v, (t, Some v) ∈ complete r points ↔ ∃ time, (time, Some v) ∈ points ∧ time.1 / time.2 = t.
Proof.
  intros Hs [Hr Ho Hv] Hg. unfold complete. split_and!.
  - rewrite <- list_fmap_compose. apply list_fmap_id.
  - intros t v (t' & [= -> E] & _)%list_elem_of_fmap.
    symmetry in E. apply value_at_Some in E as (time & Hin & _). by eapply Hv.
  - rewrite Forall_forall in Hg. intros t v. rewrite list_elem_of_fmap. split.
    + intros (t' & [= -> E] & _). symmetry in E. apply value_at_Some in E as (time & Hin & Et).
      exists time. split; [done|]. destruct (Hg _ Hin) as [Hp _]. destruct time as [n d].
      unfold time_eq, at_second in Et. simpl in *. apply Z.eqb_eq in Et.
      replace n with (t' * d) by lia. apply Z.div_mul. lia.
    + intros (time & Hin & <-). destruct (Hg _ Hin) as [Hp Hal]. simpl in Hp, Hal.
      destruct (on_grid_integral r time) as [Et Em]; [done..|].
      exists (time.1 / time.2). split.
      * f_equal. symmetry. by eapply value_at_unique.
      * apply grid_elem; [done|]. split; [|done]. destruct (Hr _ _ Hin) as [H1 H2]. destruct time as [n d].
        unfold time_le, time_eq, at_second in *. simpl in *. rewrite Z.leb_le in H1, H2. rewrite Z.eqb_eq in Et. nia.
Qed.

(** [l] is the latest time of a value, or [latest] where no value is later. *)
Definition is_latest (latest l : Z) (values : Z → Prop) : Prop :=
  latest ≤ l ∧ (l = latest ∨ values l) ∧ ∀ t, values t → t ≤ l.
Definition has_value (series : list MetricSeries) (t : Z) : Prop :=
  ∃ x v, x ∈ series ∧ (t, Some v) ∈ ms_points x.

Lemma read_metrics_Ok r d names latest result series l :
  0 < rg_step r → Forall (λ s, Forall (λ v, 0 < v.1.2) s.2) result →
  read_metrics r d names latest result = Ok (series, l) →
  length series = length result ∧ NoDup (ms_name <$> series) ∧ is_latest latest l (has_value series) ∧
  ∀ x, x ∈ series → (ms_name x ∉ names) ∧ descriptor_unit (ms_name x) d = Some (ms_unit x) ∧
    (ms_points x).*1 = grid r ∧
    ∀ t v, (t, Some v) ∈ ms_points x → is_finite v = true ∧ is_negative v = false.
Proof.
  intros Hs. revert names latest series l.
  induction result as [|[metric values] result IH]; intros names latest series l Hp; cbn [read_metrics].
  { intros [= <- <-]. split_and!; [done|constructor| |by intros x Hx%not_elem_of_nil].
    split; [done|]. split; [by left|]. intros t (x & v & Hx%not_elem_of_nil & _). done. }
  apply Forall_cons in Hp as [Hv Hp]. simpl in Hv. cbv zeta.
  intros (name & _ & (unit & Eu%of_option_Ok & E)%res_bind_Ok)%res_bind_Ok.
  apply res_seq_Ok in E as [Hg%when_throw_Ok E]. apply res_bind_Ok in E as (points & Ep & E).
  apply res_bind_Ok in E as ([rest l'] & Er & [= <- <-]).
  pose proof Ep as (E1 & Hgood & Hal)%read_points_Ok; [|by intros; eapply point_value_Ok|done|done].
  assert (Forall (λ p, 0 < p.1.2 ∧ on_grid r p.1 = true) points) as Hgrid.
  { apply Forall_forall. intros p Hin. rewrite Forall_forall in Hal. rewrite Forall_forall in Hv. split; [|by apply Hal].
    assert (p.1 ∈ values.*1) as (x & -> & Hx)%list_elem_of_fmap by (rewrite <- E1; by apply list_elem_of_fmap_2).
    by apply Hv. }
  destruct (complete_values r points Hs Hgood Hgrid) as (Hc1 & Hc2 & Hc3).
  apply IH in Er as (Hl & Hn & (Hle & Hor & Hall) & Hx); [|done].
  destruct (latest_time_spec latest points) as (Hle' & Hor' & Hall').
  apply orb_false_iff in Hg as [Hg _]. apply orb_false_iff in Hg as [_ Hd].
  assert (name ∉ names) as Hnew by (intros Hin%includes_spec; congruence). csimpl. split_and!.
  - by f_equal.
  - constructor; [|done]. intros (x & E & Hin)%list_elem_of_fmap. destruct (Hx x Hin) as [Hk _].
    apply Hk. rewrite <- E. apply list_elem_of_here.
  - split; [lia|]. split.
    + destruct Hor as [->|(x & v & Hin & Hval)]; [|right; exists x, v; split; [by right|done]].
      destruct Hor' as [->|(p & v & Hin & Ev & ->)]; [by left|right]. eexists _, v.
      split; [apply list_elem_of_here|]. simpl. apply Hc3. exists p.1. split; [|done]. by destruct p; simpl in *; subst.
    + intros t (x & v & [->|Hin]%elem_of_cons & Hval); [|apply Hall; by exists x, v].
      apply Hc3 in Hval as (time & Hin & <-). etransitivity; [|exact Hle]. by apply (Hall' (time, Some v) v).
  - intros x [->|Hin]%elem_of_cons; [done|]. destruct (Hx x Hin) as [Hk ?]. split; [set_solver|done].
Qed.

Section metrics_exact.
Context {K : Type} `{Fetcher K} (clock : M K Z).
Context (this : Backend) (cluster : string).

(** A request that is answered found the client below its limit, and is no
    longer counted afterwards; one that is refused or fails is not either. *)
Lemma backend_request_Ok path params payload s j s' :
  backend_request this path params payload s = (Ok j, s') →
  s.1 < 8 ∧ s'.1 = s.1 ∧ backend_call this path params payload s.2 = (Ok j, s'.2).
Proof.
  unfold backend_request. intros E.
  apply bind_Ok_inv in E as (active & s1 & [= <- <-] & E). apply throw_if_bind in E as [Hl E].
  apply bind_Ok_inv in E as ([] & s1 & [= <-] & E). unfold finally, on_service, zoom in E. simpl in E.
  destruct (backend_call _ _ _ _ _) as [r k]. simplify_eq. boolify. simpl. split_and!; [lia|lia|done].
Qed.
Lemma backend_request_active path params payload s :
  (backend_request this path params payload s).2.1 = s.1.
Proof.
  unfold backend_request, mbind, M_bind, throw_if. simpl. destruct (8 <=? s.1); simpl; [done|].
  unfold finally, on_service, zoom. simpl. destruct (backend_call _ _ _ _ _) as [r k]. simpl. lia.
Qed.

(** The series of an answer: one the group names, or every object does, over the
    whole grid. *)
Lemma metrics_read_series target group window s m s' :
  metrics_read clock this cluster target group window s = (Ok m, s') →
  ∃ now select d, descriptors cluster select target group = Ok d ∧ me_range m = bounds window now ∧
    ∀ x, x ∈ me_series m → descriptor_unit (ms_name x) d = Some (ms_unit x) ∧ (ms_points x).*1 = grid (me_range m).
Proof.
  unfold metrics_read. intros E. apply bind_Ok_inv in E as (select & s0 & _ & E).
  apply bind_Ok_inv in E as (now & s1 & _ & E). cbv zeta in E.
  apply bind_Ok_inv in E as (d & s2 & [Ed _]%lift_inv & E). exists now, select, d. split; [done|].
  destruct (bool_decide (d = [])); [injection E as <- _; split; [done|by intros x Hx%not_elem_of_nil]|].
  apply bind_Ok_inv in E as (page & s3 & _ & E).
  apply bind_Ok_inv in E as (data & s4 & [[_ Hv]%of_option_Ok%matrix_Some _]%lift_inv & E).
  apply bind_Ok_inv in E as ([series latest] & s5 & [Er _]%lift_inv & [= <- _]). split; [done|]. simpl.
  apply read_metrics_Ok in Er as (_ & _ & _ & Hx); [intros x Hin; split; by apply Hx| |eapply Forall_impl; [exact Hv|by intros ? []]].
  destruct (bounds_spec window now) as (_ & _ & _ & ->). by destruct window.
Qed.

(** The series of a group and their units, as the console and the API document
    name them; what a template does not measure has none. *)
Definition known_series (target : Target) (group : Group) : list (string * string) :=
  let bazel := String.eqb (tg_template target) "bazel-remote" && String.eqb (tg_version target) "0.1.0" in
  let gradle := String.eqb (tg_template target) "gradle-http" && String.eqb (tg_version target) "0.2.0" in
  match group with
  | GCapacity =>
      [("used_bytes", "bytes"); ("capacity_bytes", "bytes"); ("entries", "entries")] ++
      if gradle then [("evictions", "entries/second"); ("evicted_bytes", "bytes/second")] else []
  | GLookups =>
      if bazel then
        [("ac_get_hit", "lookups/second"); ("ac_get_miss", "lookups/second");
         ("ac_contains_hit", "lookups/second"); ("ac_contains_miss", "lookups/second");
         ("cas_get_hit", "lookups/second"); ("cas_get_miss", "lookups/second");
         ("cas_contains_hit", "lookups/second"); ("cas_contains_miss", "lookups/second");
         ("ac_get_hit_ratio", "percent"); ("ac_contains_hit_ratio", "percent");
         ("cas_get_hit_ratio", "percent"); ("cas_contains_hit_ratio", "percent")]
      else if gradle then
        [("get_hit", "lookups/second"); ("get_miss", "lookups/second"); ("get_hit_ratio", "percent")]
      else []
  | GResources =>
      [("cpu_cores", "cores"); ("memory_bytes", "bytes"); ("restarts", "restarts"); ("memory_limit_bytes", "bytes");
       ("cpu_limit_cores", "cores"); ("throttled_seconds", "seconds/second");
       ("volume_used_bytes", "bytes"); ("volume_capacity_bytes", "bytes")]
  | GPerformance =>
      if gradle then
        [("GET_requests", "requests/second"); ("GET_errors", "requests/second"); ("GET_p95", "seconds");
         ("PUT_requests", "requests/second"); ("PUT_errors", "requests/second"); ("PUT_p95", "seconds");
         ("read_bytes", "bytes/second"); ("write_bytes", "bytes/second")]
      else []
  end.
Lemma descriptors_known select target group d :
  descriptors cluster select target group = Ok d → (λ e, (e.1, e.2.2)) <$> d = known_series target group.
Proof.
  unfold descriptors, known_series, capacity_descriptors, lookup_descriptors, performance_descriptors, engine.
  destruct group.
  - intros [= <-]. by destruct (String.eqb _ "gradle-http" && _).
  - intros [= <-]. destruct (String.eqb _ "bazel-remote" && _); [reflexivity|].
    by destruct (String.eqb _ "gradle-http" && _).
  - by intros (ns & _ & (uid & _ & [= <-])%res_bind_Ok)%res_bind_Ok.
  - intros [= <-]. by destruct (String.eqb _ "gradle-http" && _).
Qed.
(** The unit of a series that was accepted: a known one, or a name that every
    object has. *)
Lemma descriptor_unit_known select target group d name unit :
  descriptors cluster select target group = Ok d → descriptor_unit name d = Some unit →
  (∃ u, (name, u) ∈ known_series target group ∧ unit = Some u) ∨
  unit = None ∧ name ∈ ["constructor"; "__defineGetter__"; "__defineSetter__"; "hasOwnProperty"; "__lookupGetter__";
    "__lookupSetter__"; "isPrototypeOf"; "propertyIsEnumerable"; "toString"; "valueOf"; "__proto__"; "toLocaleString"].
Proof.
  intros Ed%descriptors_known. unfold descriptor_unit. destruct (js_find _ d) as [e|] eqn:Ef.
  - apply js_find_Some in Ef as [Hin <-%String.eqb_eq]. intros [= <-]. left. exists e.2.2. split; [|done].
    rewrite <- Ed. apply list_elem_of_fmap. by exists e.
  - destruct (includes object_members name) eqn:Ei; [|done]. apply includes_spec in Ei. intros [= <-]. by right.
Qed.

(** C22. Metrics that are returned are about the instance's own identity, for a
    window that ends at most one step before now, and leave the client's count
    of requests as it was.  No series appears twice; each bears the name and
    the unit of a series its group and template have, or it bears a name that
    every JavaScript object inherits ([constructor] and the like, which the code
    does not refuse) and no unit.  Each has one point at every time of the
    grid, gaps included, and its values are finite and not negative.  The state
    is [unsupported], without series, exactly where the template has none of the
    group.  [ok] and [stale] report the time of the latest value of any series:
    [ok] only within two steps of the end of the window; [no_data] means that
    there is no value at a positive time. *)
Theorem metrics_exact target group window s m s' :
  metrics_read clock this cluster target group window s = (Ok m, s') →
  test identity (tg_projectId target) = true ∧ test identity (tg_instanceUID target) = true ∧
  s'.1 = s.1 ∧ me_group m = group ∧ (∃ now, me_range m = bounds window now) ∧
  (known_series target group = [] ↔ me_state m = MUnsupported) ∧
  Z.of_nat (length (me_series m)) ≤ 20 ∧ NoDup (ms_name <$> me_series m) ∧
  (∀ x, x ∈ me_series m →
    ((∃ u, (ms_name x, u) ∈ known_series target group ∧ ms_unit x = Some u) ∨
     ms_unit x = None ∧ ms_name x ∈
       ["constructor"; "__defineGetter__"; "__defineSetter__"; "hasOwnProperty"; "__lookupGetter__"; "__lookupSetter__";
        "isPrototypeOf"; "propertyIsEnumerable"; "toString"; "valueOf"; "__proto__"; "toLocaleString"]) ∧
    (ms_points x).*1 = grid (me_range m) ∧
    ∀ t v, (t, Some v) ∈ ms_points x → is_finite v = true ∧ is_negative v = false) ∧
  match me_state m with
  | MUnsupported => me_series m = [] ∧ me_observedAt m = None
  | MNoData => me_observedAt m = None ∧ ∀ t, has_value (me_series m) t → t ≤ 0
  | MOk | MStale =>
      ∃ t, me_observedAt m = Some (t * 1000) ∧ has_value (me_series m) t ∧
           (∀ t', has_value (me_series m) t' → t' ≤ t) ∧
           (me_state m = MOk ↔ rg_end (me_range m) - 2 * rg_step (me_range m) ≤ t)
  end.
Proof.
  unfold metrics_read. intros E.
  apply bind_Ok_inv in E as (select & s0 & [Es ->]%lift_inv & E).
  assert (test identity (tg_projectId target) = true ∧ test identity (tg_instanceUID target) = true) as [Hp Hu].
  { revert Es. unfold selector, z_identity. intros (? & _ & E')%res_bind_Ok. revert E'.
    destruct (test identity (tg_projectId _)); [|done]. by destruct (test identity (tg_instanceUID _)). }
  apply bind_Ok_inv in E as (now & s1 & Ec & E). cbv zeta in E.
  assert (s1.1 = s.1) as H1 by (revert Ec; unfold on_service, zoom; destruct (clock _); by intros [= _ <-]).
  apply bind_Ok_inv in E as (d & s0 & [Ed ->]%lift_inv & E).
  pose proof (descriptors_known _ _ _ _ Ed) as Hknown. pose proof (λ name unit, descriptor_unit_known _ _ _ _ name unit Ed) as Hunit.
  split; [done|]. split; [done|]. destruct (bool_decide (d = [])) eqn:Hd.
  { injection E as <- <-. apply bool_decide_eq_true in Hd. subst d. simpl. rewrite <- Hknown.
    split_and!; try done; [by exists now|constructor|by intros x Hx%not_elem_of_nil]. }
  apply bool_decide_eq_false in Hd.
  assert (known_series target group ≠ []) as Hsome by (rewrite <- Hknown; by destruct d).
  apply bind_Ok_inv in E as (page & s2 & (_ & Ha & _)%backend_request_Ok & E).
  apply bind_Ok_inv in E as (data & s3 & [[Hl Hv]%of_option_Ok%matrix_Some ->]%lift_inv & E).
  apply bind_Ok_inv in E as ([series latest] & s3 & [Er ->]%lift_inv & [= <- <-]).
  simpl. split; [congruence|]. split; [done|]. split; [by exists now|].
  assert (0 < rg_step (bounds window now)) as Hs.
  { destruct (bounds_spec window now) as (_ & _ & _ & ->). by destruct window. }
  apply read_metrics_Ok in Er as (El & Hn & (Hle & Hor & Hall) & Hx);
    [|done|eapply Forall_impl; [exact Hv|by intros ? []]].
  split; [split; [done|by destruct (latest =? 0), (latest <? rg_end (bounds window now) - rg_step (bounds window now) * 2)]|].
  split; [by rewrite El|]. split; [done|].
  split; [intros x Hin; destruct (Hx x Hin) as (_ & Hux & ?); by split; [eapply Hunit|]|].
  destruct (latest =? 0) eqn:H0; boolify; [split; [done|intros t Ht; specialize (Hall t Ht); lia]|].
  assert (has_value series latest) as Hval by (by destruct Hor).
  destruct (latest <? _) eqn:Hst; boolify; exists latest; (split; [done|split; [done|split; [done|]]]).
  - split; [done|]. intros. lia.
  - split; [|done]. intros _. lia.
Qed.
End metrics_exact.

Definition sample_target : Target := MkTarget "p" "u" "expbuild-p" "bazel-remote" "0.1.0".
Definition sample_metrics : json := JObj
  [("status", JStr "success");
   ("data", JObj [("resultType", JStr "matrix");
     ("result", JArr [JObj
       [("metric", JObj [("series", JStr "used_bytes")]);
        ("values", JArr [JArr [JInt 7200; JStr "512"]; JArr [JInt 7260; JStr "NaN"]])]])])].

Lemma metrics_exact_witness : ∃ m,
  @metrics_read () (answering sample_metrics) (mret 7260123) (MkBackend sample_base None) "primary" sample_target
    GCapacity W1h (0, tt) = (Ok m, (0, tt)) ∧
  me_state m = MOk ∧ me_observedAt m = Some 7200000 ∧
  ∃ t, me_observedAt m = Some (t * 1000) ∧ has_value (me_series m) t.
Proof.
  destruct (@metrics_read () (answering sample_metrics) (mret 7260123) (MkBackend sample_base None) "primary"
    sample_target GCapacity W1h (0, tt)) as [[m|e] [n []]] eqn:E; [|vm_compute in E; discriminate E].
  destruct (@metrics_exact () (answering sample_metrics) (mret 7260123) (MkBackend sample_base None) "primary"
    sample_target GCapacity W1h (0, tt) m (n, tt) E) as (_ & _ & Hn & _ & _ & _ & _ & _ & _ & H).
  simpl in Hn. exists m. split; [by rewrite Hn|].
  assert (me_state m = MOk ∧ me_observedAt m = Some 7200000) as [E1 E2].
  { vm_compute in E. injection E as <- _. split; reflexivity. }
  rewrite E1 in H. destruct H as (t & Ht & Hv & _). split; [done|]. split; [done|]. by exists t.
Defined.
