(* ===== verification/Logs.v ===== *)
(** * Logs

    The logs of an instance from Loki, [ObservationLogs] of
    [apps/admin-api/src/observation-backends.ts], and the redaction of their
    text.

    [String.replace] with a global pattern is a pass over the text that
    replaces, at every position, the match a backtracking matcher finds first. *)
From Stdlib Require Import ZArith Lia Ascii Sorted.
From stdpp Require Import base tactics list option strings gmap.
From S2P Require Import Prelude Regex Numbers Effects Catalog Json JsNumber Secrets Http Statistics Series History.
From S2P Require Import Backends.

(** ** Backtracking *)
Section exec.
Context {X : Type}.

(** [r*]: once more if it consumes something and the rest matches, or not. *)
Fixpoint exec_star (step : list ascii → (list ascii → option X) → option X) (fuel : nat) (s : list ascii)
    (k : list ascii → option X) : option X :=
  match fuel with
  | O => k s
  | S n => match step s (λ t, if (length t <? length s)%nat then exec_star step n t k else None) with
           | Some x => Some x
           | None => k s
           end
  end.
(** The first way to match a prefix of [s] whose rest satisfies [k]. *)
Fixpoint exec (r : re) (s : list ascii) (k : list ascii → option X) : option X :=
  match r with
  | RVoid => None
  | REps => k s
  | RChr p => match s with c :: t => if p c then k t else None | [] => None end
  | RSeq a b => exec a s (λ t, exec b t k)
  | RAlt a b => match exec a s k with Some x => Some x | None => exec b s k end
  | RStar a => exec_star (exec a) (length s) s k
  end.

(** A match is a word of the pattern. *)
Lemma exec_lang r s k x : exec r s k = Some x → ∃ u t, s = u ++ t ∧ lang r u ∧ k t = Some x.
Proof.
  revert s k. induction r as [| |p|a IHa b IHb|a IHa b IHb|a IHa]; intros s k; simpl.
  - done.
  - intros Hk. exists [], s. by split_and!; [|constructor|].
  - destruct s as [|c s]; [done|]. destruct (p c) eqn:E; [|done]. intros Hk. exists [c], s. by split_and!; [|constructor|].
  - intros (u & t & -> & Hu & (v & w & -> & Hv & Hk)%IHb)%IHa. exists (u ++ v), w.
    split_and!; [by rewrite (assoc_L (++))|by constructor|done].
  - destruct (exec a s k) eqn:E; [intros [= ->]; apply IHa in E as (u & t & ? & ? & ?)|
                                  intros (u & t & ? & ? & ?)%IHb]; exists u, t; split_and!; try done;
      [by apply lang_alt_l|by apply lang_alt_r].
  - generalize (length s) at 1. intros n. revert s. induction n as [|n IH]; intros s; simpl.
    { intros Hk. exists [], s. by split_and!; [|constructor|]. }
    destruct (exec a s _) eqn:E; [intros [= ->]|intros Hk; exists [], s; by split_and!; [|constructor|]].
    apply IHa in E as (u & t & -> & Hu & E). split_if_in E; [|done]. apply IH in E as (v & w & -> & Hv & Hk).
    exists (u ++ v), w. split_and!; [by rewrite (assoc_L (++))|by constructor|done].
Qed.
End exec.

(** A replacement at a position: what is written, and the rest of the text. *)
Definition Replacement : Type := option ascii → list ascii → option (list ascii * list ascii).
Fixpoint replace_all (f : Replacement) (previous : option ascii) (skip : nat) (s : list ascii) : list ascii :=
  match s with
  | [] => []
  | c :: t =>
      match skip with
      | S n => replace_all f (Some c) n t
      | O => match f previous s with
             | Some (out, rest) => out ++ replace_all f (Some c) (length t - length rest) t
             | None => c :: replace_all f (Some c) 0 t
             end
      end
  end.

(** ** [sanitizeLog] *)
Definition is_word (c : ascii) : bool := is_alnum c || Ascii.eqb c "_".
(** A literal under the flag [i]. *)
Definition lower_chr (c : ascii) : ascii := if is_upper c then ascii_of_nat (nat_of_ascii c + 32) else c.
Fixpoint rlits_i (s : list ascii) : re :=
  match s with [] => REps | c :: s => RSeq (RChr (λ d, Ascii.eqb (lower_chr d) c)) (rlits_i s) end.
Definition rlit_i (s : string) : re := rlits_i (chars s).
Definition ralts (rs : list re) : re := foldr RAlt RVoid rs.
Definition rspaces : re := RStar (RChr is_space).
Definition none_of (s : list ascii) : re := RChr (λ c, negb (existsb (Ascii.eqb c) s)).
Definition is_newline (c : ascii) : bool := Ascii.eqb c "010" || Ascii.eqb c "013".

Definition consumed (s rest : list ascii) : list ascii := take (length s - length rest) s.

(** [/\b(Bearer|Basic)\s+[^\s,;]+/gi], with the double quote excluded too. *)
Definition redact_scheme : Replacement := λ previous s,
  if match previous with Some c => is_word c | None => false end then None
  else exec (ralts [rlit_i "bearer"; rlit_i "basic"]) s (λ s1,
    exec (RSeq (rplus (RChr is_space))
               (rplus (RChr (λ c, negb (is_space c || Ascii.eqb c quote || one_of ",;" c))))) s1 (λ rest,
      Some (consumed s s1 ++ chars " [redacted]", rest))).

(** A name of a secret, up to its value; and the value, quoted or not. *)
Definition secret_name : re :=
  RSeq (ralts (rlit_i <$> ["password"; "token"; "authorization"; "cookie"; "secret"; "credential"]))
  (RSeq (RStar (RChr (λ c, is_word c || Ascii.eqb c "-")))
  (RSeq (ropt (RChr (λ c, Ascii.eqb c quote || Ascii.eqb c "'")))
  (RSeq rspaces (RSeq (RChr (one_of ":=")) rspaces)))).
Definition quoted_value (q : ascii) : re :=
  RSeq (RChr (Ascii.eqb q))
  (RSeq (RStar (RAlt (RSeq (RChr (Ascii.eqb "\")) (RChr (λ c, negb (is_newline c)))) (none_of [q; "\"%char])))
        (RChr (Ascii.eqb q))).
Definition secret_value : re :=
  ralts [quoted_value quote; quoted_value "'"; rplus (RChr (λ c, negb (is_space c || one_of ",;}" c)))].
Definition redact_secret : Replacement := λ _ s,
  exec secret_name s (λ s1, exec secret_value s1 (λ rest, Some (consumed s s1 ++ chars "[redacted]", rest))).

(** [/https?:\/\/[^\s/@]+:[^\s/@]+@/gi] *)
Definition redact_url : Replacement := λ _ s,
  let part := rplus (RChr (λ c, negb (is_space c || one_of "/@" c))) in
  exec (RSeq (rlit_i "http") (RSeq (ropt (rlit_i "s")) (RSeq (rlit "://")
         (RSeq part (RSeq (RChr (Ascii.eqb ":")) (RSeq part (RChr (Ascii.eqb "@")))))))) s
    (λ rest, Some (chars "https://[redacted]@", rest)).

(** [/[\u0000-\u0008\u000b\u000c\u000e-\u001f]/] *)
Definition is_control (c : ascii) : bool :=
  let n := nat_of_ascii c in ((n <=? 8) || (n =? 11) || (n =? 12) || (14 <=? n) && (n <=? 31))%nat.

Definition sanitizeLog (value : string) : string :=
  of_chars (take 4096 (filter (λ c, negb (is_control c) = true)
    (replace_all redact_url None 0 (replace_all redact_secret None 0 (replace_all redact_scheme None 0 (chars value)))))).

Example sanitizeLog_scheme :
  sanitizeLog "GET authorization: bearer abc, next" = "GET authorization: [redacted] [redacted], next".
Proof. reflexivity. Qed.
Example sanitizeLog_secret :
  sanitizeLog "api_Token=s3cret; ftp http://u:p@host" = "api_Token=[redacted]; ftp https://[redacted]@host".
Proof. reflexivity. Qed.

Lemma sanitizeLog_bounds value :
  js_length (sanitizeLog value) ≤ 4096 ∧ Forall (λ c, is_control c = false) (chars (sanitizeLog value)).
Proof.
  unfold sanitizeLog. rewrite js_length_chars. set (l := filter _ _). split.
  - rewrite chars_of_chars, length_take. lia.
  - rewrite chars_of_chars. apply Forall_take, Forall_forall. intros c Hc. subst l.
    apply list_elem_of_filter in Hc as [Hc _]. by apply negb_true_iff.
Qed.

(** ** The schema of an answer *)
Definition z_digits (j : json) : option Z :=
  s ← z_string j; if test (rbetween 10 25 rdigit) s then Some (dec_val (chars s)) else None.
Definition log_value (j : json) : option (Z * string) :=
  match j with JArr [t; v] => t ← z_digits t; v ← z_max 65536 v; Some (t, v) | _ => None end.
Definition LogStream : Type := list (string * string) * list (Z * string).
Definition logResult : json → option (list LogStream) :=
  z_object (λ fs,
    required (z_literal "success") (field "status" fs) ≫= λ _,
    required (z_object (λ data,
      required (z_literal "streams") (field "resultType" data) ≫= λ _,
      required (z_array (z_object (λ s,
        labels ← required (z_record z_string) (field "stream" s);
        values ← required (z_array log_value 1001) (field "values" s);
        Some (labels, values))) 100) (field "result" data))) (field "data" fs)).

(** ** [ObservationLogs.read] *)
Record LogLine := MkLogLine { ll_time : Z; ll_text : string }.
Record Logs := MkLogs {
  lg_ok : bool; lg_start : Z; lg_end : Z; lg_truncated : bool; lg_items : list LogLine }.

(** The latest time of a [Date]. *)
Definition max_date : Z := 8640000000000000.
Definition log_line (v : Z * string) : res LogLine :=
  let time := v.1 / 1000000 in
  when_throw (max_date <? time) (JsError "Invalid time value") ;;
  mret (MkLogLine time (sanitizeLog v.2)).
Definition owned_stream (cluster : string) (target : Target) (stream : list (string * string)) : bool :=
  bool_decide (entry "expbuild_cluster_id" stream = Some cluster) &&
  bool_decide (entry "expbuild_project_id" stream = Some (tg_projectId target)) &&
  bool_decide (entry "expbuild_instance_uid" stream = Some (tg_instanceUID target)).

Fixpoint read_streams (cluster : string) (target : Target) (streams : list LogStream) : res (list LogLine) :=
  match streams with
  | [] => Ok []
  | (stream, values) :: streams =>
      when_throw (negb (owned_stream cluster target stream)) (JsError "Log ownership mismatch") ;;
      lines ← mapM log_line values;
      rest ← read_streams cluster target streams;
      mret (lines ++ rest)
  end.

(** [sort((a, b) => b.time.localeCompare(a.time))], which is stable: the newest
    first.  The order of the texts is that of the times up to the year 9999. *)
Definition sort_lines : list LogLine → list LogLine := stable_sort (λ a b, ll_time b <=? ll_time a).

Definition log_query (select : string) (level : option string) : res string :=
  filter_ ← match level with
            | Some l => if truthy level then
                          when_throw (negb (includes ["info"; "warn"; "error"] l)) ZodError ;;
                          mret (" | json | level=" +:+ quoted l)
                        else mret ""
            | None => mret ""
            end;
  mret ("{" +:+ select +:+ "}" +:+ filter_).

Definition log_params (query : string) (start end_ : Z) : list (string * string) :=
  [("query", query); ("start", int_text start +:+ "000000"); ("end", int_text end_ +:+ "000000");
   ("limit", "501"); ("direction", "backward")].

Section logs.
Context {K : Type} `{Fetcher K} (clock : M K Z).
Context (this : Backend) (cluster : string).

Definition logs_read (target : Target) (minutes : Z) (level : option string) : M (Z * K) Logs :=
  end_ ← on_service clock;
  let start := end_ - minutes * 60000 in
  select ← lift (selector target cluster);
  query ← lift (log_query select level);
  page ← backend_request this "loki/api/v1/query_range" (log_params query start end_) None;
  streams ← lift (of_option ZodError (logResult page));
  found ← lift (read_streams cluster target streams);
  let lines := sort_lines found in
  throw_if (existsb (λ l, (ll_time l <? start) || (end_ <? ll_time l)) lines)
    (JsError "Log timestamp outside query") ;;
  mret (MkLogs (negb (bool_decide (lines = []))) start end_ (500 <? Z.of_nat (length lines)) (take 500 lines)).
End logs.

(** ** What the logs are *)
Lemma log_line_Ok v l : log_line v = Ok l → l = MkLogLine (v.1 / 1000000) (sanitizeLog v.2).
Proof. unfold log_line. by intros [_ [= <-]]%res_seq_Ok. Qed.

(** Every line comes from a stream of the target, redacted. *)
Definition log_of (cluster : string) (target : Target) (streams : list LogStream) (l : LogLine) : Prop :=
  ∃ stream values v, (stream, values) ∈ streams ∧
    entry "expbuild_cluster_id" stream = Some cluster ∧
    entry "expbuild_project_id" stream = Some (tg_projectId target) ∧
    entry "expbuild_instance_uid" stream = Some (tg_instanceUID target) ∧ v ∈ values ∧
    l = MkLogLine (v.1 / 1000000) (sanitizeLog v.2).
Lemma read_streams_Ok cluster target streams lines l :
  read_streams cluster target streams = Ok lines → l ∈ lines → log_of cluster target streams l.
Proof.
  revert lines. induction streams as [|[stream values] streams IH]; intros lines; simpl.
  { intros [= <-]. by intros Hl%not_elem_of_nil. }
  intros [Ho%when_throw_Ok%negb_false_iff (here & Eh & (rest & Er & [= <-])%res_bind_Ok)%res_bind_Ok]%res_seq_Ok.
  intros [Hl|Hl]%elem_of_app.
  - apply mapM_res in Eh. destruct (list_elem_of_lookup_1 _ _ Hl) as [i Hi].
    destruct (Forall2_lookup_r _ _ _ _ _ Eh Hi) as (v & Hv & ->%log_line_Ok).
    unfold owned_stream in Ho. boolify. exists stream, values, v.
    split_and!; [apply list_elem_of_here|done|done|done|by eapply list_elem_of_lookup_2|done].
  - destruct (IH _ Er Hl) as (s & vs & v & Hs & Hrest). exists s, vs, v. split; [by right|done].
Qed.

(** The sort is a sort. *)
Definition newest (a b : LogLine) : Prop := ll_time b ≤ ll_time a.
Lemma sort_lines_perm l : sort_lines l ≡ₚ l.
Proof. apply stable_sort_perm. Qed.
Lemma sort_lines_sorted l : StronglySorted newest (sort_lines l).
Proof.
  apply stable_sort_sorted; unfold newest; [intros a b c; lia|intros a b E; boolify; lia..].
Qed.

Section facts.
Context {K : Type} `{Fetcher K} (clock : M K Z).
Context (this : Backend) (cluster : string).

(** Logs that are returned leave the client's count of requests as it was
    and come from the answer to a query for the target's own labels, of which
    every stream carries the cluster, the project and the instance: at most 500 lines, the newest first,
    and fewer only where none was left out; each within the requested minutes,
    its text redacted, at most 4096 characters long and without control
    characters. *)
Theorem logs_exact target minutes level s l s' :
  logs_read clock this cluster target minutes level s = (Ok l, s') →
  s'.1 = s.1 ∧ ∃ now k select query page streams,
    selector target cluster = Ok select ∧ log_query select level = Ok query ∧
    backend_call this "loki/api/v1/query_range" (log_params query (now - minutes * 60000) now) None k = (Ok page, s'.2) ∧
    logResult page = Some streams ∧
    lg_end l = now ∧ lg_start l = now - minutes * 60000 ∧
    (lg_ok l = true ↔ lg_items l ≠ []) ∧ (length (lg_items l) ≤ 500)%nat ∧
    (lg_truncated l = true → length (lg_items l) = 500%nat) ∧
    StronglySorted newest (lg_items l) ∧
    ∀ x, x ∈ lg_items l →
      lg_start l ≤ ll_time x ≤ lg_end l ∧ log_of cluster target streams x ∧
      js_length (ll_text x) ≤ 4096 ∧ Forall (λ c, is_control c = false) (chars (ll_text x)).
Proof.
  unfold logs_read. intros E. apply bind_Ok_inv in E as (now & s1 & Ec & E). cbv zeta in E.
  assert (s1.1 = s.1) as H1 by (revert Ec; unfold on_service, zoom; destruct (clock _); by intros [= _ <-]).
  apply bind_Ok_inv in E as (select & s2 & [Esel ->]%lift_inv & E).
  apply bind_Ok_inv in E as (query & s2 & [Equ ->]%lift_inv & E).
  apply bind_Ok_inv in E as (page & s2 & (_ & H2 & Ecall)%backend_request_Ok & E).
  apply bind_Ok_inv in E as (streams & s3 & [Estr%of_option_Ok ->]%lift_inv & E).
  apply bind_Ok_inv in E as (found & s3 & [Ef ->]%lift_inv & E).
  apply throw_if_bind in E as [Hout [= <- <-]]. split; [congruence|]. exists now, s1.2, select, query, page, streams. simpl.
  do 6 (split; [done|]). split_and!.
  - rewrite negb_true_iff, bool_decide_eq_false. by destruct (sort_lines found).
  - rewrite length_take. lia.
  - rewrite length_take. intros. boolify. lia.
  - apply StronglySorted_take, sort_lines_sorted.
  - intros x Hx. assert (x ∈ sort_lines found) as Hall by (rewrite <- (take_drop 500); apply elem_of_app; by left).
    clear Hx. rename Hall into Hx.
    assert (log_of cluster target streams x) as Hlog.
    { eapply read_streams_Ok; [done|]. by rewrite <- (sort_lines_perm found). }
    split; [|split; [done|]]; [|destruct Hlog as (? & ? & ? & _ & _ & _ & _ & _ & ->); apply sanitizeLog_bounds].
    destruct (existsb_exists (λ l, (ll_time l <? now - minutes * 60000) || (now <? ll_time l)) (sort_lines found)) as [_ Hex].
    rewrite Hout in Hex. destruct ((ll_time x <? now - minutes * 60000) || (now <? ll_time x)) eqn:Eo; [|boolify; lia].
    exfalso. assert (false = true) as [=]. apply Hex. exists x. split; [by apply list_elem_of_In|done].
Qed.
End facts.

Definition sample_log : json := JObj
  [("status", JStr "success");
   ("data", JObj [("resultType", JStr "streams");
     ("result", JArr [JObj
       [("stream", JObj [("expbuild_cluster_id", JStr "primary"); ("expbuild_project_id", JStr "p");
                         ("expbuild_instance_uid", JStr "u")]);
        ("values", JArr [JArr [JStr "7260000000000"; JStr "GET /cache password=hunter2"]])]])])].

Lemma logs_exact_witness : ∃ l,
  @logs_read () (answering sample_log) (mret 7260123) (MkBackend sample_base None) "primary" sample_target 15 None
    (0, tt) = (Ok l, (0, tt)) ∧
  lg_items l = [MkLogLine 7260000 "GET /cache password=[redacted]"] ∧ (lg_ok l = true ↔ lg_items l ≠ []).
Proof.
  destruct (@logs_read () (answering sample_log) (mret 7260123) (MkBackend sample_base None) "primary" sample_target
    15 None (0, tt)) as [[l|e] [n []]] eqn:E; [|vm_compute in E; discriminate E].
  destruct (@logs_exact () (answering sample_log) (mret 7260123) (MkBackend sample_base None) "primary" sample_target
    15 None (0, tt) l (n, tt) E) as (Hn & now & k & select & query & page & streams & _ & _ & _ & _ & _ & _ & Hok & _).
  simpl in Hn. exists l. split; [by rewrite Hn|]. split; [|exact Hok].
  vm_compute in E. injection E as <- _. reflexivity.
Defined.
