(* ===== verification/Alerts.v ===== *)
(** * Alerts

    The alerts of a project from Alertmanager and their silences:
    [ObservationAlerts] of [apps/admin-api/src/observation-backends.ts].

    zod's UUID and ISO time are parameters: [iso_datetime s] is [None] where the
    schema refuses [s], otherwise what [Date.parse] makes of it. *)
From Stdlib Require Import ZArith Lia Ascii.
From stdpp Require Import base tactics list option strings gmap.
From S2P Require Import Prelude Regex Numbers Effects Catalog Json JsNumber Secrets Http Statistics Series History.
From S2P Require Import Backends Logs.

(** ** [toISOString] *)

(** Year, month and day of a number of days since 1970-01-01: the years are
    counted from March in eras of 400. *)
Definition civil (days : Z) : Z * Z * Z :=
  let z := days + 719468 in
  let era := z / 146097 in
  let doe := z mod 146097 in
  let yoe := (doe - doe / 1460 + doe / 36524 - doe / 146096) / 365 in
  let doy := doe - (365 * yoe + yoe / 4 - yoe / 100) in
  let mp := (5 * doy + 2) / 153 in
  let month := if mp <? 10 then mp + 3 else mp - 9 in
  (yoe + era * 400 + (if month <=? 2 then 1 else 0), month, doy - (153 * mp + 2) / 5 + 1).
Definition pad (n : nat) (z : Z) : string :=
  let s := chars (dec_str z) in of_chars (replicate (n - length s) "0"%char ++ s).
Definition year_text (y : Z) : string :=
  if y <? 0 then "-" +:+ pad 6 (- y) else if 9999 <? y then "+" +:+ pad 6 y else pad 4 y.
Definition iso_string (ms : Z) : res string :=
  when_throw ((ms <? - max_date) || (max_date <? ms)) (JsError "Invalid time value") ;;
  let '(y, m, d) := civil (ms / 86400000) in
  let t := ms mod 86400000 in
  mret (year_text y +:+ "-" +:+ pad 2 m +:+ "-" +:+ pad 2 d +:+ "T" +:+ pad 2 (t / 3600000) +:+ ":" +:+
        pad 2 (t / 60000 mod 60) +:+ ":" +:+ pad 2 (t / 1000 mod 60) +:+ "." +:+ pad 3 (t mod 1000) +:+ "Z").

Example iso_epoch : iso_string 0 = Ok "1970-01-01T00:00:00.000Z"%string.
Proof. reflexivity. Qed.
Example iso_leap : iso_string 1709251199999 = Ok "2024-02-29T23:59:59.999Z"%string.
Proof. reflexivity. Qed.
Example iso_before : iso_string (-1) = Ok "1969-12-31T23:59:59.999Z"%string.
Proof. reflexivity. Qed.
Example iso_far : iso_string max_date = Ok "+275760-09-13T00:00:00.000Z"%string.
Proof. reflexivity. Qed.

(** ** The schema *)

(** [/^[a-fA-F0-9]{1,128}$/] and [/^[a-zA-Z0-9_:-]{1,128}$/] *)
Definition fingerprint_pattern : re := rbetween 1 128 (RChr is_hex).
Definition alert_name_pattern : re := rbetween 1 128 (RChr (λ c, is_alnum c || one_of "_:-" c)).
(** [function code(value)] *)
Definition alert_name (value : option string) : string :=
  match value with Some s => if truthy value && test alert_name_pattern s then s else "Unknown" | None => "Unknown" end.
Definition severity (labels : list (string * string)) : string :=
  match entry "severity" labels with
  | Some s => if includes ["critical"; "warning"; "info"] s then s else "warning"
  | None => "warning"
  end.

Inductive AlertState := Unprocessed | ActiveAlert | Suppressed.
Definition alert_state_str (s : AlertState) : string :=
  match s with Unprocessed => "unprocessed" | ActiveAlert => "active" | Suppressed => "suppressed" end.
(** A time as it was written, and as it is read. *)
Definition IsoTime : Type := string * option Z.
Record UpstreamAlert := MkUpstream {
  ua_fingerprint : string; ua_labels : list (string * string); ua_annotations : option (list (string * string));
  ua_startsAt : IsoTime; ua_endsAt : IsoTime; ua_state : option AlertState }.
Record ObservedAlert := MkAlert {
  oa_fingerprint : string; oa_instanceUID : option string; oa_name : string; oa_severity : string;
  oa_summary : string; oa_startsAt : IsoTime; oa_endsAt : IsoTime; oa_state : AlertState }.

Definition z_fingerprint (j : json) : option string :=
  s ← z_string j; if test fingerprint_pattern s then Some s else None.

Section alerts.
Context {K : Type} `{Fetcher K} (clock : M K Z).
Context (iso_datetime : string → option (option Z)) (is_uuid : string → bool).
Context (this : Backend) (cluster : string).

Definition z_iso (j : json) : option IsoTime := s ← z_string j; t ← iso_datetime s; Some (s, t).
Definition alertSchema : json → option UpstreamAlert := z_object (λ fs,
  fingerprint ← required z_fingerprint (field "fingerprint" fs);
  labels ← required (z_record (z_max 512)) (field "labels" fs);
  annotations ← optional (z_record (z_max 4096)) (field "annotations" fs);
  startsAt ← required z_iso (field "startsAt" fs);
  endsAt ← required z_iso (field "endsAt" fs);
  status ← optional (z_object (λ st,
    state ← required (z_enum [Unprocessed; ActiveAlert; Suppressed] alert_state_str) (field "state" st);
    _ ← optional (z_array z_string (2 ^ 53)) (field "silencedBy" st);
    Some state)) (field "status" fs);
  Some (MkUpstream fingerprint labels annotations startsAt endsAt status)).

(** The alerts of the project, of the cluster and, where [uid] is given, of the
    instance. *)
Definition own_alert (projectId : string) (uid : option string) (a : UpstreamAlert) : bool :=
  bool_decide (entry "expbuild_project_id" (ua_labels a) = Some projectId) &&
  bool_decide (entry "expbuild_cluster_id" (ua_labels a) = Some cluster) &&
  (negb (truthy uid) || bool_decide (entry "expbuild_instance_uid" (ua_labels a) = uid)).
Definition observed_alert (a : UpstreamAlert) : ObservedAlert := {|
  oa_fingerprint := ua_fingerprint a; oa_instanceUID := entry "expbuild_instance_uid" (ua_labels a);
  oa_name := alert_name (entry "alertname" (ua_labels a)); oa_severity := severity (ua_labels a);
  oa_summary := sanitizeLog (default "" (ua_annotations a ≫= entry "summary"));
  oa_startsAt := ua_startsAt a; oa_endsAt := ua_endsAt a; oa_state := default ActiveAlert (ua_state a) |}.

Definition alerts_params (projectId : string) : list (string * string) :=
  [("filter", matcher "expbuild_project_id" projectId); ("active", "true"); ("silenced", "true");
   ("inhibited", "true")].
(** [ObservationAlerts.read] *)
Definition alerts_read (projectId : string) (uid : option string) : M (Z * K) (list ObservedAlert) :=
  lift (z_identity projectId) ;;
  lift (z_identity cluster) ;;
  lift (match uid with Some u => if truthy uid then z_identity u else mret u | None => mret "" end) ;;
  page ← backend_request this "api/v2/alerts" (alerts_params projectId) None;
  result ← lift (of_option ZodError (z_array alertSchema 500 page));
  mret (observed_alert <$> filter (λ a, own_alert projectId uid a = true) result).

(** The body of a silence: four matchers by equality. *)
Definition silence_body (projectId uid name startsAt endsAt : string) : json :=
  JObj [("matchers", JArr ((λ e : string * string,
           JObj [("name", JStr e.1); ("value", JStr e.2); ("isRegex", JBool false); ("isEqual", JBool true)]) <$>
         [("expbuild_cluster_id", cluster); ("expbuild_project_id", projectId); ("expbuild_instance_uid", uid);
          ("alertname", name)]));
        ("startsAt", JStr startsAt); ("endsAt", JStr endsAt); ("createdBy", JStr "expbuild");
        ("comment", JStr "Project-scoped maintenance window")].
Definition z_silence : json → option string :=
  z_object (λ fs, s ← required z_string (field "silenceID" fs); if is_uuid s then Some s else None).

(** [ObservationAlerts.silence] *)
Definition silence (projectId uid fingerprint : string) (minutes : Z) : M (Z * K) string :=
  active ← alerts_read projectId (Some uid);
  found ← lift (of_option (JsError "Alert no longer active")
                  (js_find (λ a, String.eqb (oa_fingerprint a) fingerprint) active));
  now ← on_service clock;
  startsAt ← lift (iso_string now);
  endsAt ← lift (iso_string (now + minutes * 60000));
  page ← backend_request this "api/v2/silences" [] (Some (silence_body projectId uid (oa_name found) startsAt endsAt));
  lift (of_option ZodError (z_silence page)).

(** ** What they promise *)

Lemma z_identity_Ok s t : z_identity s = Ok t → t = s ∧ test identity s = true.
Proof. unfold z_identity. destruct (test identity s) eqn:E; [by intros [= <-]|done]. Qed.

(** Every alert that is read is an alert of the answer that is labelled with
    the project, the cluster and, where one was asked for, the instance. *)
Lemma alerts_read_Ok projectId uid s alerts s' a :
  alerts_read projectId uid s = (Ok alerts, s') → a ∈ alerts →
  s'.1 = s.1 ∧ test identity projectId = true ∧
  ∃ page upstream u, backend_call this "api/v2/alerts" (alerts_params projectId) None s.2 = (Ok page, s'.2) ∧
    z_array alertSchema 500 page = Some upstream ∧ u ∈ upstream ∧ a = observed_alert u ∧
    entry "expbuild_project_id" (ua_labels u) = Some projectId ∧
    entry "expbuild_cluster_id" (ua_labels u) = Some cluster ∧
    (truthy uid = true → oa_instanceUID a = uid).
Proof.
  unfold alerts_read. intros E Ha.
  apply bind_Ok_inv in E as (p & s1 & [[-> Hp]%z_identity_Ok ->]%lift_inv & E).
  apply bind_Ok_inv in E as (c & s1 & [_ ->]%lift_inv & E). apply bind_Ok_inv in E as (u & s1 & [_ ->]%lift_inv & E).
  apply bind_Ok_inv in E as (page & s1 & (_ & H1 & Hc)%backend_request_Ok & E).
  apply bind_Ok_inv in E as (upstream & s2 & [Hu%of_option_Ok ->]%lift_inv & [= <- <-]).
  apply list_elem_of_fmap in Ha as (v & -> & [Hown Hin]%list_elem_of_filter).
  unfold own_alert in Hown. apply andb_true_iff in Hown as [Hown Hi]. boolify.
  split; [done|]. split; [done|]. exists page, upstream, v. split_and!; try done.
  intros Ht. rewrite Ht in Hi. simpl in *. by boolify.
Qed.

(** A silence that is accepted was asked for an alert that Alertmanager had
    just answered for this instance, project and cluster; it matches exactly
    these and the name of the alert, begins now and lasts the given minutes. *)
Lemma silence_Ok projectId uid fingerprint minutes s id s' :
  uid ≠ ""%string → silence projectId uid fingerprint minutes s = (Ok id, s') →
  s'.1 = s.1 ∧ is_uuid id = true ∧ ∃ alerts a s1 now k startsAt endsAt page,
    alerts_read projectId (Some uid) s = (Ok alerts, s1) ∧ a ∈ alerts ∧ oa_fingerprint a = fingerprint ∧
    oa_instanceUID a = Some uid ∧ clock s1.2 = (Ok now, k) ∧
    iso_string now = Ok startsAt ∧ iso_string (now + minutes * 60000) = Ok endsAt ∧
    backend_call this "api/v2/silences" [] (Some (silence_body projectId uid (oa_name a) startsAt endsAt)) k =
      (Ok page, s'.2).
Proof.
  unfold silence. intros Hne E. apply bind_Ok_inv in E as (alerts & s1 & Er & E).
  apply bind_Ok_inv in E as (a & s2 & [Ha%of_option_Ok%js_find_Some ->]%lift_inv & E).
  destruct Ha as [Ha Hf]. apply bind_Ok_inv in E as (now & s2 & Ec & E).
  apply bind_Ok_inv in E as (startsAt & s3 & [E1 ->]%lift_inv & E).
  apply bind_Ok_inv in E as (endsAt & s3 & [E2 ->]%lift_inv & E).
  apply bind_Ok_inv in E as (page & s3 & (_ & H3 & Hc)%backend_request_Ok & E).
  apply lift_inv in E as [Ez%of_option_Ok ->].
  destruct (alerts_read_Ok _ _ _ _ _ _ Er Ha) as (H1 & _ & _ & _ & u & _ & _ & _ & _ & _ & _ & Hi).
  unfold on_service, zoom in Ec. destruct (clock s1.2) as [r k] eqn:Ek. injection Ec as -> <-. simpl in *.
  split; [congruence|]. split.
  { destruct page as [| | | | | |fs]; try done. simpl in Ez. apply bind_Some in Ez as (t & _ & Ez). by split_if_in Ez; simplify_eq. }
  exists alerts, a, s1, now, k, startsAt, endsAt, page. split_and!; try done.
  - by apply String.eqb_eq.
  - apply Hi. unfold truthy. by apply negb_true_iff, String.eqb_neq.
Qed.
End alerts.
