(* ===== verification/Accounts.v ===== *)
(** * Accounts and sessions

    [apps/admin-api/src/app.ts]: the origin check and the error handler of
    every request, sessions, the access check of a project, logging in and
    out, passwords and the platform's users.

    Random values (tokens, salts, identifiers) are arguments; a password hash
    is one derivation of [security.ts].  The login throttle is memory of the
    process, a component of the state of the login handler. *)
From Stdlib Require Import ZArith Lia Ascii Init.Byte.
From stdpp Require Import base tactics list option strings gmap sorting.
From S2P Require Import Prelude Regex Numbers Effects Catalog Json Database Secrets Security.

(** ** Requests *)
Record Actor := MkActor { at_id : string; at_email : string; at_platform_admin : bool }.

(** The parts of a request the handlers read.  A header that is absent or
    repeated is [None]. *)
Record Request := MkHttpRequest {
  hd_method : string; hd_ip : string; hd_origin : option string; hd_session : option string;
  hd_csrf_token : option string; hd_idempotency_key : option string; hd_if_match : option string;
  hd_body : json; hd_query : json }.

Definition safe_method (m : string) : bool := includes ["GET"; "HEAD"; "OPTIONS"] m.

(** The [onRequest] hook; [webhook]: the request is an alert of the monitoring
    stack carrying its token. *)
Definition check_origin (origin : string) (webhook : bool) (request : Request) : res () :=
  if webhook then mret tt
  else when_throw (negb (safe_method (hd_method request)) && negb (oeq (hd_origin request) (Some origin)))
         (HttpError 403 "Invalid origin").

(** [setErrorHandler]: the status and, where it is not the text of a library,
    the [error] of the reply. *)
Definition error_reply (e : exn) : Z * option string :=
  match e with
  | ZodError => (400, Some "Invalid request"%string)
  | PgUnique _ => (409, Some "Resource already exists"%string)
  | HttpError status message =>
      (status, Some (if status =? 500 then "Internal server error"%string else message))
  | KubeError code status _ =>
      if bool_decide (code = Some (CStr "23505")) then (409, Some "Resource already exists"%string)
      else match status with
           | Some n => if (400 <=? n) && (n <? 500) then (n, None) else (500, Some "Internal server error"%string)
           | None => (500, Some "Internal server error"%string)
           end
  | OperationError code _ =>
      if String.eqb code "23505" then (409, Some "Resource already exists"%string)
      else (500, Some "Internal server error"%string)
  | JsError _ => (500, Some "Internal server error"%string)
  end.

(** ** Schemas *)

(** [s.toLowerCase()] over the characters of the model. *)
Definition to_lower (s : string) : string :=
  of_chars (map (λ c, let n := nat_of_ascii c in
    if ((65 <=? n) && (n <=? 90) || (192 <=? n) && (n <=? 222) && negb (n =? 215))%nat
    then ascii_of_nat (n + 32) else c) (chars s)).

(** [z.string().min(lo).max(hi)] *)
Definition z_text (lo hi : Z) (j : json) : option string :=
  s ← z_string j; if (lo <=? js_length s) && (js_length s <=? hi) then Some s else None.

(** [z.string().email().max(254).transform(x => x.toLowerCase())]; the grammar
    of addresses is zod's. *)
Definition z_email (is_email : string → bool) (j : json) : option string :=
  s ← z_string j; if is_email s && (js_length s <=? 254) then Some (to_lower s) else None.

(** [z.object({ ... }).strict()] *)
Definition strict {A} (keys : list string) (p : list (string * json) → option A) (j : json) : option A :=
  match j with JObj fs => if only_keys keys fs then p fs else None | _ => None end.

(** ** Request bodies *)
Definition password_change_body : json → option (string * string) :=
  strict ["currentPassword"; "password"] (λ fs,
    current ← required (z_text 1 1024) (field "currentPassword" fs);
    password ← required (z_text 12 1024) (field "password" fs);
    Some (current, password)).
Definition new_password_body : json → option string :=
  strict ["password"] (λ fs, required (z_text 12 1024) (field "password" fs)).
Definition new_user_body (is_email : string → bool) : json → option (string * string) :=
  strict ["email"; "password"] (λ fs,
    email ← required (z_email is_email) (field "email" fs);
    password ← required (z_text 12 1024) (field "password" fs);
    Some (email, password)).
Definition active_body : json → option bool :=
  strict ["active"] (λ fs, required z_bool (field "active" fs)).

(** ** The login throttle *)
Record Attempt := MkAttempt { tr_count : Z; tr_until : Z }.

(** One attempt at [now]: expired entries are dropped, then the address is
    refused at its tenth attempt, or when ten thousand others are counted. *)
Definition throttle (now : Z) (ip : string) (attempts : gmap string Attempt) :
    res () * gmap string Attempt :=
  let attempts := filter (λ r, negb (tr_until r.2 <? now) = true) attempts in
  let attempt := nullish (attempts !! ip) (MkAttempt 0 (now + 60000)) in
  if (10 <=? tr_count attempt) ||
     bool_decide (attempts !! ip = None) && (10000 <=? Z.of_nat (size attempts))
  then (Throw (HttpError 429 "Too many login attempts"), attempts)
  else (Ok tt, <[ip := MkAttempt (tr_count attempt + 1) (tr_until attempt)]> attempts).

(** ** Statements *)
Definition delete_sessions (user : string) (db : DB) : DB :=
  db <| db_sessions ::= filter (λ r, negb (String.eqb (se_user_id r.2) user) = true) |>.

Definition insert_session (token_hash : string) (s : Session) (db : DB) : res () * DB :=
  if bool_decide (is_Some (db_sessions db !! token_hash)) then (Throw (PgUnique "sessions_pkey"), db)
  else (Ok tt, db <| db_sessions ::= <[token_hash := s]> |>).

Definition insert_user (id : string) (u : User) (db : DB) : res () * DB :=
  if bool_decide (is_Some (db_users db !! id)) then (Throw (PgUnique "users_pkey"), db)
  else if existsb (λ o, String.eqb (us_email o) (us_email u)) (rows (db_users db))
  then (Throw (PgUnique "users_email_key"), db)
  else (Ok tt, db <| db_users ::= <[id := u]> |>).

(** The one user with an address (the column is unique). *)
Definition user_by_email (email : string) (db : DB) : option (string * User) :=
  head (filter (λ r, us_email r.2 = email) (map_to_list (db_users db))).

(** The live session of a token, with its user. *)
Definition live_session (now : Z) (token_hash : string) (db : DB) : option (Session * User) :=
  s ← db_sessions db !! token_hash;
  u ← db_users db !! se_user_id s;
  if (now <? se_expires_at s) && us_active u then Some (s, u) else None.

(** A project the account alone administers: another active administrator is
    missing. *)
Definition active_admin (projectId : string) (db : DB) (r : (string * string) * Role) : bool :=
  String.eqb r.1.1 projectId && bool_decide (r.2 = RAdmin) &&
  match db_users db !! r.1.2 with Some u => us_active u | None => false end.
Definition project_admins (projectId : string) (db : DB) : list string :=
  (λ r, r.1.2) <$> filter (λ r, active_admin projectId db r = true) (map_to_list (db_members db)).
Definition orphans (user : string) (db : DB) : bool :=
  existsb (λ r, String.eqb r.1.2 user && bool_decide (r.2 = RAdmin) &&
                negb (existsb (λ a, negb (String.eqb a user)) (project_admins r.1.1 db)))
    (map_to_list (db_members db)).
Definition other_platform_admin (user : string) (db : DB) : bool :=
  existsb (λ r, us_platform_admin r.2 && us_active r.2 && negb (String.eqb r.1 user))
    (map_to_list (db_users db)).

(** ** Handlers *)
Section accounts.
Context {K : Type} `{Digests}.
(** zod's checks of a uuid and of an address. *)
Context (is_uuid is_email : string → bool).

Definition digest_of (text : string) : string := digest (chars text).

Definition user (request : Request) : M (World K) Actor :=
  throw_if (negb (truthy (hd_session request)) || (128 <? js_length (nullish (hd_session request) "")))
    (HttpError 401 "Authentication required") ;;
  found ← pool (query (λ now, live_session now (digest_of (nullish (hd_session request) ""))));
  match found with
  | None => throw (HttpError 401 "Authentication required")
  | Some (s, u) =>
      when (negb (safe_method (hd_method request)))
        (throw_if (match hd_csrf_token request with
                   | Some csrf => (128 <? js_length csrf) || negb (String.eqb (digest_of csrf) (se_csrf_hash s))
                   | None => true
                   end) (HttpError 403 "Invalid CSRF token")) ;;
      mret (MkActor (se_user_id s) (us_email u) (us_platform_admin u))
  end.

Definition projectAccess (request : Request) (projectId : string) (allowed : list Role) :
    M (World K) Actor :=
  actor ← user request;
  found ← pool (query (λ _ db, _ ← db_projects db !! projectId; Some (db_members db !! (projectId, at_id actor))));
  match found with
  | None => throw (HttpError 404 "Project not found")
  | Some role =>
      throw_if (negb (at_platform_admin actor) && oeq role None) (HttpError 404 "Project not found") ;;
      throw_if (negb (at_platform_admin actor) &&
                negb (match role with Some r => bool_decide (r ∈ allowed) | None => false end))
        (HttpError 403 "Permission denied") ;;
      mret actor
  end.

Definition audit_account (actor : string) (action : string) (details : list (string * json)) : M (World K) () :=
  execute_sql (λ _, add_audit (MkAudit (Some actor) None None None action details)).

(** [POST /v1/auth/login], over the throttle and the world.  [dummyHash] is the
    process's hash of a random token, [sessionToken] and [csrf] are fresh. *)
Definition login_body (j : json) : option (string * string) :=
  strict ["email"; "password"] (λ fs,
    email ← required (z_email is_email) (field "email" fs);
    password ← required (z_text 1 1024) (field "password" fs);
    Some (email, password)) j.

(** What follows the throttle: the credentials are checked and the session is
    opened, unless they changed meanwhile. *)
Definition authenticate (dummyHash sessionToken csrf email password : string) (request : Request) :
    M (World K) string :=
  found ← pool (query (λ _, user_by_email email));
  let valid := verifyPassword password
    (match found with Some (_, u) => us_password_hash u | None => dummyHash end) in
  match found with
  | None => throw (HttpError 401 "Invalid credentials")
  | Some (id, u) =>
      throw_if (negb (us_active u) || negb valid) (HttpError 401 "Invalid credentials") ;;
      transaction
        (fresh ← query (λ _ db, db_users db !! id);
         throw_if (match fresh with
                   | Some f => negb (us_active f) || negb (String.eqb (us_password_hash f) (us_password_hash u))
                   | None => true
                   end) (HttpError 401 "Credentials changed; sign in again") ;;
         when (truthy (hd_session request))
           (execute_sql (λ _ db, db <| db_sessions ::=
              delete (digest_of (nullish (hd_session request) "")) |>)) ;;
         execute_res (λ now, insert_session (digest_of sessionToken)
           (MkSession id (digest_of csrf) (now + seconds 86400))) ;;
         audit_account id "auth.login" []) ;;
      mret csrf
  end.

Definition login (dummyHash sessionToken csrf : string) (request : Request) :
    M (gmap string Attempt * World K) string :=
  '(email, password) ← lift (of_option ZodError (login_body (hd_body request)));
  now ← zoom snd (λ w s, (s.1, w)) date_now;
  zoom fst (λ a s, (a, s.2)) (throttle now (hd_ip request)) ;;
  zoom snd (λ w s, (s.1, w)) (authenticate dummyHash sessionToken csrf email password request).

(** [GET /v1/auth/me] and [POST /v1/auth/logout] *)
Definition me (request : Request) : M (World K) Actor := user request.
Definition logout (request : Request) : M (World K) () :=
  user request ;;
  pool (execute_sql (λ _ db, db <| db_sessions ::= delete (digest_of (nullish (hd_session request) "")) |>)).

(** [updatePassword]; [salt] is the salt of the new hash. *)
Definition updatePassword (salt : list byte) (request : Request) (targetId password : string)
    (currentPassword : option string) : M (World K) () :=
  actor ← user request;
  let self := String.eqb targetId (at_id actor) in
  throw_if (negb self && negb (at_platform_admin actor)) (HttpError 403 "Platform administrator required") ;;
  let passwordHash := hashPassword salt password in
  transaction
    (fresh ← query (λ now db,
       u ← db_users db !! at_id actor;
       s ← db_sessions db !! digest_of (nullish (hd_session request) "");
       if String.eqb (se_user_id s) (at_id actor) && (now <? se_expires_at s) then Some u else None);
     throw_if (match fresh with
               | Some u => negb (us_active u) || negb self && negb (us_platform_admin u)
               | None => true
               end) (HttpError 403 "Permission denied") ;;
     target ← query (λ _ db, db_users db !! targetId);
     target ← lift (of_option (HttpError 404 "User not found") target);
     throw_if (self && (negb (truthy currentPassword) ||
                        negb (verifyPassword (nullish currentPassword "") (us_password_hash target))))
       (HttpError 403 "Current password is incorrect") ;;
     execute_sql (λ _ db, db <| db_users ::=
       update_row always (λ u, u <| us_password_hash := passwordHash |>) targetId |>) ;;
     execute_sql (λ _, delete_sessions targetId) ;;
     audit_account (at_id actor) (if self then "auth.password.change" else "user.password.reset")
       [("userId", JStr targetId)]).

(** [POST /v1/auth/password] *)
Definition change_password (salt : list byte) (request : Request) : M (World K) () :=
  actor ← user request;
  '(current, password) ← lift (of_option ZodError (password_change_body (hd_body request)));
  updatePassword salt request (at_id actor) password (Some current).

(** [POST /v1/users/:userId/password] *)
Definition reset_password (salt : list byte) (request : Request) (userId : string) : M (World K) () :=
  actor ← user request;
  throw_if (negb (at_platform_admin actor)) (HttpError 403 "Platform administrator required") ;;
  throw_if (negb (is_uuid userId)) ZodError ;;
  throw_if (String.eqb userId (at_id actor)) (HttpError 400 "Use the account password change endpoint") ;;
  password ← lift (of_option ZodError (new_password_body (hd_body request)));
  updatePassword salt request userId password None.

(** [GET /v1/users]: newest first, at most 200. *)
Definition newest_user (a b : string * User) : Prop := us_created_at b.2 ≤ us_created_at a.2.
#[local] Instance newest_user_dec a b : Decision (newest_user a b).
Proof. unfold newest_user. apply _. Defined.
Definition get_users (request : Request) : M (World K) (list (string * User)) :=
  actor ← user request;
  throw_if (negb (at_platform_admin actor)) (HttpError 403 "Platform administrator required") ;;
  pool (query (λ _ db, take 200 (merge_sort newest_user (map_to_list (db_users db))))).

(** [POST /v1/users] *)
Definition create_user (id : string) (salt : list byte) (request : Request) : M (World K) (string * string) :=
  actor ← user request;
  throw_if (negb (at_platform_admin actor)) (HttpError 403 "Platform administrator required") ;;
  '(email, password) ← lift (of_option ZodError (new_user_body is_email (hd_body request)));
  transaction
    (execute_res (λ now, insert_user id (MkUser email (hashPassword salt password) false true now)) ;;
     audit_account (at_id actor) "user.create" [("userId", JStr id)]) ;;
  mret (id, email).

(** [bootstrap.ts]: the first administrator, from the environment. *)
Definition bootstrap (id : string) (salt : list byte) (email password : string) : M (World K) () :=
  throw_if (negb (is_email email) || negb ((12 <=? js_length password) && (js_length password <=? 1024))) ZodError ;;
  pool (execute_res (λ now, insert_user id (MkUser (to_lower email) (hashPassword salt password) true true now))).

(** [PATCH /v1/users/:userId] *)
Definition patch_user (request : Request) (userId : string) : M (World K) () :=
  actor ← user request;
  throw_if (negb (at_platform_admin actor)) (HttpError 403 "Platform administrator required") ;;
  throw_if (negb (is_uuid userId)) ZodError ;;
  active ← lift (of_option ZodError (active_body (hd_body request)));
  throw_if (String.eqb userId (at_id actor) && negb active) (HttpError 409 "Cannot disable your own account") ;;
  transaction
    (target ← query (λ _ db, db_users db !! userId);
     target ← lift (of_option (HttpError 404 "User not found") target);
     when (negb active)
       (orphaned ← query (λ _, orphans userId);
        throw_if orphaned (HttpError 409 "Transfer project administration before disabling this account") ;;
        admins ← query (λ _, other_platform_admin userId);
        throw_if (us_platform_admin target && negb admins) (HttpError 409 "Platform must retain an administrator") ;;
        execute_sql (λ _, delete_sessions userId)) ;;
     execute_sql (λ _ db, db <| db_users ::= update_row always (λ u, u <| us_active := active |>) userId |>) ;;
     audit_account (at_id actor) "user.update" [("userId", JStr userId); ("active", JBool active)]).
End accounts.

(** ** The access checks *)
Section access.
Context {K : Type} `{Digests}.
Implicit Types w : World K.

(** They only read. *)
Lemma user_within (R : relation DB) `{!PreOrder R} request : within (world_rel (K:=K) R) (user request).
Proof. unfold user. world_solve. Qed.
Lemma projectAccess_within (R : relation DB) `{!PreOrder R} request projectId allowed :
  within (world_rel (K:=K) R) (projectAccess request projectId allowed).
Proof. pose proof (user_within R). unfold projectAccess. world_solve. Qed.

(** The request carries the token of a live session of an active account, the
    one that acts, and, where its method writes, the session's CSRF token. *)
Definition signed_in (request : Request) (actor : Actor) (now : Z) (db : DB) : Prop :=
  ∃ token s u, hd_session request = Some token ∧ live_session now (digest_of token) db = Some (s, u) ∧
    actor = MkActor (se_user_id s) (us_email u) (us_platform_admin u) ∧
    (safe_method (hd_method request) = false →
     ∃ csrf, hd_csrf_token request = Some csrf ∧ digest_of csrf = se_csrf_hash s).
Lemma user_Ok request w actor w' :
  user request w = (Ok actor, w') → w' = after_yield w ∧ signed_in request actor (w_now w') (w_db w').
Proof.
  unfold user. intros [Ht (found & w1 & Eq & E)%bind_Ok_inv]%throw_if_bind. rewrite pool_eq in Eq.
  injection Eq as <- <-. destruct (hd_session request) as [token|] eqn:Et; [|done]. simpl in E.
  destruct (live_session _ _ _) as [[s u]|] eqn:El; [|done].
  apply bind_Ok_inv in E as (? & w2 & Ec & [= <- <-]).
  assert (w2 = after_yield w ∧ (safe_method (hd_method request) = false → ∃ csrf,
    hd_csrf_token request = Some csrf ∧ digest_of csrf = se_csrf_hash s)) as [-> Hc].
  { destruct (safe_method _); [by injection Ec as _ <-|]. apply throw_if_Ok in Ec as [Ec ->]. split; [done|].
    intros _. destruct (hd_csrf_token request) as [csrf|]; [|done]. exists csrf. split; [done|].
    apply orb_false_iff in Ec as [_ Ec]. by apply String.eqb_eq, negb_false_iff. }
  split; [done|]. by exists token, s, u.
Qed.
End access.
#[export] Hint Resolve user_within projectAccess_within : within.
