(* ===== verification/Kubernetes.v ===== *)
(** * The cluster as the control plane uses it

    The interface of [apps/admin-api/src/kubernetes.ts] ([KubernetesPort]) and
    the data it exchanges.  The worker and the routes are written and proved
    against this interface: a cluster state [K] and operations on it that may
    throw. *)
From Stdlib Require Import ZArith.
From stdpp Require Import base tactics list option strings gmap.
From S2P Require Import Prelude Effects Catalog Contract.

(** [V1OwnerReference] and [V1ObjectMeta], the fields the code reads. *)
Record OwnerReference := MkOwner { ow_uid : string; ow_kind : string; ow_name : string }.
Record ObjectMeta := MkMeta {
  om_name : option string; om_namespace : option string; om_uid : option string;
  om_resourceVersion : option string; om_labels : option (gmap string string);
  om_annotations : option (gmap string string); om_ownerReferences : option (list OwnerReference);
  om_deletionTimestamp : bool }.
#[export] Instance eta_ObjectMeta : Eta ObjectMeta := λ r,
  MkMeta (om_name r) (om_namespace r) (om_uid r) (om_resourceVersion r) (om_labels r) (om_annotations r)
    (om_ownerReferences r) (om_deletionTimestamp r).

(** [V1PersistentVolumeClaim]: the metadata, the requested size and the class of
    the specification, the phase and the capacity of the status. *)
Record Volume := MkVolumeClaim {
  pv_metadata : option ObjectMeta; pv_requested : option string; pv_storageClass : option string;
  pv_phase : option string; pv_capacity : option string }.

Record RetainedVolumeIdentity := MkVolumeIdentity {
  vi_namespace : string; vi_name : string; vi_projectId : string; vi_instanceId : string;
  vi_instanceUid : string }.
Record RetainedVolume := MkVolume {
  vo_name : string; vo_namespace : string; vo_uid : string; vo_capacity : string;
  vo_allocatedCapacity : string; vo_storageClass : string; vo_phase : string; vo_deleting : bool }.

(** The document unsealed from an operation is passed on as it is. *)
Class KubernetesPort (K : Type) := {
  approveRetainedVolumeReclaim : option (CacheObject → string → M K ());
  getRetainedVolume : RetainedVolumeIdentity → M K (option RetainedVolume);
  deleteRetainedVolume : RetainedVolumeIdentity → string → M K ();
  ensureProject (namespace projectId : string) : M K ();
  ensureCredentials (namespace name projectId instanceId operationId : string) (data : json) : M K ();
  getInstance (namespace name : string) : M K (option CacheObject);
  createInstance (desired : CacheObject) : M K CacheObject;
  updateInstance (desired : CacheObject) (expectedRevision : string) : M K CacheObject;
  deleteInstance (namespace name uid : string) : M K ();
  deleteCredentials (namespace name projectId instanceId : string) : M K () }.

(** ** A cluster in memory

    The smallest implementation of the interface, on which the witnesses of
    the client's theorems run: objects by name, each reconciled as soon as it
    is written; credentials and volumes leave no trace. *)
Definition memory : Type := gmap string CacheObject.

Definition reconciled (uid : string) (generation : Z) (c : CacheObject) : CacheObject :=
  let state := sp_desiredState (co_spec c) in
  c <| co_metadata ::= λ m, m <| md_uid := Some uid |> <| md_generation := Some generation |> |>
    <| co_status := Some (MkStatus (Some generation) None None
         (Some [MkCondition "Ready" "True" state None (Some generation)])) |>.

Definition memory_create (desired : CacheObject) : M memory CacheObject := λ k,
  match k !! md_name (co_metadata desired) with
  | Some _ => (Throw (KubeError (Some (CNum 409)) None None), k)
  | None => let c := reconciled ("uid-" +:+ md_name (co_metadata desired)) 1 desired in
            (Ok c, <[md_name (co_metadata desired) := c]> k)
  end.
Definition memory_update (desired : CacheObject) (expected : string) : M memory CacheObject := λ k,
  match k !! md_name (co_metadata desired) with
  | Some current =>
      if String.eqb (revision current) expected then
        let c := reconciled (default ""%string (md_uid (co_metadata current)))
                   (default 0 (md_generation (co_metadata current)) + 1) desired in
        (Ok c, <[md_name (co_metadata desired) := c]> k)
      else (Throw (opError "instance_configuration_changed"), k)
  | None => (Throw (opError "instance_disappeared"), k)
  end.

Definition memory_port : KubernetesPort memory :=
  {| approveRetainedVolumeReclaim := None;
     getRetainedVolume := λ _, mret None;
     deleteRetainedVolume := λ _ _, mret tt;
     ensureProject := λ _ _, mret tt;
     ensureCredentials := λ _ _ _ _ _ _, mret tt;
     getInstance := λ _ name k, (Ok (k !! name), k);
     createInstance := memory_create;
     updateInstance := memory_update;
     deleteInstance := λ _ name _ k, (Ok tt, delete name k);
     deleteCredentials := λ _ _ _ _, mret tt |}.
