(* ===== verification/Worker.v ===== *)
(** * The operation worker

    [apps/admin-api/src/worker.ts]: claiming an operation under a lease,
    executing it against the cluster, and writing its outcome while the lease
    is held.  [tick] is the whole cycle; the steps of [execute] are one
    definition per kind of operation. *)
From Stdlib Require Import ZArith Lia Init.Byte.
From stdpp Require Import base tactics list option strings gmap.
From S2P Require Import Prelude Numbers Effects Catalog Contract Database Quotas Secrets Kubernetes.

Definition state_str (s : OpState) : string :=
  match s with
  | Pending => "pending" | Applying => "applying" | Reconciling => "reconciling"
  | Succeeded => "succeeded" | Failed => "failed" | Superseded => "superseded"
  end.

Definition kind_in (ks : list Kind) (k : Kind) : bool := bool_decide (k ∈ ks).
Definition creates : Kind → bool := kind_in [InstanceCreate; InstanceReclaim].

(** ** Claiming *)
Definition eligible (now : Z) (op : Operation) : bool :=
  active_state (op_state op) && (op_next_attempt_at op <=? now) &&
  match op_lease_until op with Some l => l <? now | None => true end.

Definition claim_row (claim : string) (now : Z) (op : Operation) : Operation :=
  op <| op_worker_id := Some claim |> <| op_lease_until := Some (now + seconds 30) |>
     <| op_attempts ::= Z.add 1 |>
     <| op_state ::= λ s, match s with Pending => Applying | s => s end |>
     <| op_updated_at := now |>.

(** The rows a claimed operation may still write: [worker_id=$2 AND lease_until>now()]. *)
Definition owned_by (worker : option string) (op : Operation) : bool := sql_eq (op_worker_id op) worker.
Definition lease_held (now : Z) (worker : option string) (op : Operation) : bool :=
  owned_by worker op && match op_lease_until op with Some l => now <? l | None => false end.

Section worker.
Context {K : Type} `{KubernetesPort K} `{Aead}.
(** The constructor's arguments: the sealing key, the quota gate and whether
    telemetry is configured. *)
Context (key : list byte) (quotaGate : option (string → M (World K) bool)) (telemetry : bool).

Definition claim_operation (claim : string) : M (World K) (option Operation) :=
  transaction
    (selected ← query (λ now db, min_by op_created_at (filter (λ op, eligible now op = true)
       (rows (db_operations db))));
     match selected with
     | None => mret None
     | Some selected =>
         execute_sql (λ now db, db <| db_operations ::=
           update_row always (claim_row claim now) (op_id selected) |>) ;;
         query (λ _ db, db_operations db !! op_id selected)
     end).

Definition held (operation : Operation) : M (World K) bool :=
  query (λ now db, match db_operations db !! op_id operation with
    | Some op => lease_held now (op_worker_id operation) op &&
                 bool_decide (op_state op ∈ [Applying; Reconciling])
    | None => false
    end).

(** [UPDATE operations SET state=$3,... WHERE id=$1 AND worker_id=$2] *)
Definition close_row (state : OpState) (code : option string) (now : Z) (op : Operation) : Operation :=
  op <| op_state := state |> <| op_error_code := code |> <| op_secret_payload := None |>
     <| op_worker_id := None |> <| op_lease_until := None |> <| op_updated_at := now |>.

Definition finish (operation : Operation) (state : OpState) (code : option string)
    (apply : M (World K) ()) : M (World K) () :=
  committed ← transaction
    (held ← held operation;
     if negb held then mret false
     else
       apply ;;
       (match op_instance_id operation, rq_desired (op_request operation) with
        | Some instance, Some desired =>
            when (bool_decide (state = Succeeded) && negb (String.eqb instance "") &&
                  kind_in [InstanceCreate; InstanceReclaim; InstanceUpdate] (op_kind operation))
              (settleResources instance desired)
        | _, _ => mret tt
        end) ;;
       execute_sql (λ now db, db <| db_operations ::=
         update_row (owned_by (op_worker_id operation)) (close_row state code now) (op_id operation) |>) ;;
       when (bool_decide (state = Failed) && bool_decide (op_kind operation = ProjectCreate))
         (execute_sql (λ _ db, db <| db_projects ::=
            update_row always (λ p, p <| pr_state := PFailed |>) (op_project_id operation) |>)) ;;
       when (bool_decide (state = Failed) && creates (op_kind operation))
         (execute_sql (λ _ db, db <| db_bindings ::=
            update_opt always (λ b, b <| bi_lifecycle := LFailed |>) (op_instance_id operation) |>)) ;;
       execute_sql (λ _, add_audit (MkAudit None (Some (op_project_id operation))
         (op_instance_id operation) (Some (op_id operation)) ("operation." +:+ state_str state)
         [("code", json_nullable JStr code)])) ;;
       mret true);
  now ← date_now;
  when (committed && telemetry)
    (modify (λ w, w <| w_metrics ::= cons (MkCompletion (op_kind operation) state
       (Z.max 0 (now - js_date (op_created_at operation)))) |>)).

Definition defer_row (code : option string) (now : Z) (op : Operation) : Operation :=
  op <| op_lease_until := None |> <| op_worker_id := None |>
     <| op_next_attempt_at := now + seconds 2 |> <| op_error_code := code |> <| op_updated_at := now |>.
Definition defer (operation : Operation) (code : option string) : M (World K) () :=
  pool (execute_sql (λ now db, db <| db_operations ::=
    update_row (lease_held now (op_worker_id operation)) (defer_row code now) (op_id operation) |>)).

(** The guard of the identity update in [bind]. *)
Definition bindable (operation : Operation) (uid : string) (b : Binding) : bool :=
  String.eqb (bi_project_id b) (op_project_id operation) &&
  match bi_kubernetes_uid b with
  | None => true
  | Some u => String.eqb u uid ||
      bool_decide (op_kind operation = InstanceReclaim) &&
      sql_eq (Some u) (rq_previousInstanceUID (op_request operation)) && negb (String.eqb u uid)
  end.

Definition bind (operation : Operation) (object : CacheObject) : M (World K) Operation :=
  match md_uid (co_metadata object), md_generation (co_metadata object) with
  | Some uid, Some generation =>
      throw_if (String.eqb uid "") (opError "missing_kubernetes_identity") ;;
      bound ← transaction
        (held ← held operation;
         if negb held then mret false
         else
           changed ← query (λ _ db, match lookup_opt (db_bindings db) (op_instance_id operation) with
             | Some b => bindable operation uid b
             | None => false
             end);
           execute_sql (λ _ db, db <| db_bindings ::= update_opt (bindable operation uid)
             (λ b, b <| bi_kubernetes_uid := Some uid |>) (op_instance_id operation) |>) ;;
           throw_if (negb changed) (opError "instance_identity_conflict") ;;
           execute_sql (λ now db, db <| db_operations ::=
             update_row (owned_by (op_worker_id operation))
               (λ op, op <| op_state := Reconciling |> <| op_target_generation := Some generation |>
                         <| op_updated_at := now |>) (op_id operation) |>) ;;
           mret true);
      throw_if (negb bound) (opError "operation_lease_lost") ;;
      mret (operation <| op_state := Reconciling |> <| op_target_generation := Some generation |>)
  | _, _ => throw (opError "missing_kubernetes_identity")
  end.

(** ** Executing *)

(** [!s] for a field that has to be a non-empty string. *)
Definition need {A} (o : option string) (e : exn) (k : string → M (World K) A) : M (World K) A :=
  match o with
  | Some s => if String.eqb s "" then throw e else k s
  | None => throw e
  end.

Definition invalid {A} : M (World K) A := throw (opError "invalid_operation").

Definition execute_project_create (operation : Operation) : M (World K) () :=
  need (rq_namespace (op_request operation)) (opError "invalid_operation") (λ namespace,
    kube (ensureProject namespace (op_project_id operation)) ;;
    finish operation Succeeded None
      (execute_sql (λ _ db, db <| db_projects ::=
         update_row always (λ p, p <| pr_state := PReady |>) (op_project_id operation) |>))).

Definition set_lifecycle (operation : Operation) (l : Lifecycle) : M (World K) () :=
  execute_sql (λ _ db, db <| db_bindings ::=
    update_opt always (λ b, b <| bi_lifecycle := l |>) (op_instance_id operation) |>).

Definition execute_volume_delete (operation : Operation) : M (World K) () :=
  let request := op_request operation in
  let invalid := opError "invalid_operation" in
  need (rq_namespace request) invalid (λ namespace,
  need (rq_name request) invalid (λ name,
  need (rq_uid request) invalid (λ uid,
  need (rq_instanceUid request) invalid (λ instanceUid,
  need (op_instance_id operation) invalid (λ instance,
    row ← pool (query (λ _ db,
      b ← db_bindings db !! instance;
      p ← db_projects db !! bi_project_id b;
      if String.eqb (bi_project_id b) (op_project_id operation) then Some (b, p) else None));
    throw_if (match row with
              | Some (b, p) =>
                  negb (bool_decide (bi_lifecycle b ∈ [LDetached; LFailed])) ||
                  negb (oeq (bi_kubernetes_uid b) (Some instanceUid)) ||
                  negb (String.eqb (pr_namespace p) namespace) ||
                  negb (String.eqb (bi_resource_name b) name)
              | None => true
              end) (opError "volume_binding_conflict") ;;
    let identity := MkVolumeIdentity namespace name (op_project_id operation) instance instanceUid in
    volume ← kube (getRetainedVolume identity);
    match volume with
    | Some volume =>
        throw_if (negb (String.eqb (vo_uid volume) uid)) (opError "volume_identity_conflict") ;;
        kube (deleteRetainedVolume identity uid) ;;
        defer operation None
    | None => finish operation Succeeded None (set_lifecycle operation LDeleted)
    end))))).

(** The credential rows of an instance. *)
Definition credentials_of (instance : option string) (db : DB) : list Credential :=
  filter (λ c, sql_eq (Some (cr_instance_id c)) instance = true) (rows (db_credentials db)).
Definition set_credentials (instance : option string) (f : Credential → CredentialState) (db : DB) : DB :=
  db <| db_credentials ::= fmap (λ c,
    if sql_eq (Some (cr_instance_id c)) instance then c <| cr_state := f c |> else c) |>.

Definition delete_credentials (operation : Operation) (namespace : string)
    (credentials : list Credential) : M (World K) () :=
  for_each credentials (λ c, kube (deleteCredentials namespace (cr_secret_name c)
    (op_project_id operation) (nullish (op_instance_id operation) ""))).

Definition execute_instance_delete (operation : Operation) : M (World K) () :=
  let request := op_request operation in
  let invalid := opError "invalid_operation" in
  need (rq_namespace request) invalid (λ namespace,
  need (rq_name request) invalid (λ name,
  need (rq_uid request) invalid (λ uid,
    current ← kube (getInstance namespace name);
    match current with
    | Some current =>
        throw_if (negb (oeq (md_uid (co_metadata current)) (Some uid)))
          (opError "instance_identity_conflict") ;;
        let policy := st_deletionPolicy (sp_storage (co_spec current)) in
        throw_if (truthy (rq_deletionPolicy request) && negb (oeq (rq_deletionPolicy request) (Some policy)))
          (opError "deletion_policy_changed") ;;
        pool (execute_sql (λ now db, db <| db_operations ::=
          update_row (lease_held now (op_worker_id operation))
            (λ op, op <| op_request ::= λ r, r <| rq_deletionPolicy := Some policy |> |>)
            (op_id operation) |>)) ;;
        kube (deleteInstance namespace name uid) ;;
        defer operation None
    | None =>
        let policy := nullish (rq_deletionPolicy request) "Retain" in
        credentials ← pool (query (λ _, credentials_of (op_instance_id operation)));
        delete_credentials operation namespace credentials ;;
        finish operation Succeeded None
          (set_lifecycle operation (if String.eqb policy "Delete" then LDeleted else LDetached) ;;
           execute_sql (λ _, set_credentials (op_instance_id operation) (λ _, CRevoked)))
    end))).

(** The volume an instance is reclaimed from, before anything is created. *)
Definition check_reclaim (operation : Operation) (desired : CacheObject) : M (World K) () :=
  let e := opError "invalid_reclaim_request" in
  need (rq_previousInstanceUID (op_request operation)) e (λ previous,
  need (rq_volumeUid (op_request operation)) e (λ volumeUid,
  need (op_instance_id operation) e (λ instance,
    volume ← kube (getRetainedVolume (MkVolumeIdentity (md_namespace (co_metadata desired))
      (md_name (co_metadata desired)) (op_project_id operation) instance previous));
    throw_if (match volume with
              | Some v => negb (String.eqb (vo_uid v) volumeUid) || vo_deleting v ||
                          negb (String.eqb (vo_phase v) "Bound") ||
                          negb (String.eqb (vo_storageClass v) (st_className (sp_storage (co_spec desired))))
              | None => true
              end) (opError "volume_identity_conflict")))).

(** The first passage: prepare the namespace and the credentials, submit the
    object and bind its identity. *)
Definition submit (operation : Operation) (desired : CacheObject) :
    M (World K) (CacheObject * Operation) :=
  let kind := op_kind operation in
  let namespace := md_namespace (co_metadata desired) in
  when (bool_decide (kind = InstanceReclaim)) (check_reclaim operation desired) ;;
  when (creates kind) (kube (ensureProject namespace (op_project_id operation))) ;;
  when (kind_in [InstanceCreate; InstanceReclaim; InstanceRotate] kind)
    (match op_secret_payload operation with
     | None => throw (opError "credentials_unavailable")
     | Some payload =>
         data ← lift (unseal key (op_id operation) payload);
         kube (ensureCredentials namespace (ac_credentialsSecretRef (sp_access (co_spec desired)))
           (op_project_id operation) (nullish (op_instance_id operation) "") (op_id operation) data)
     end) ;;
  object ← (if creates kind then kube (createInstance desired)
            else need (rq_expectedRevision (op_request operation)) (opError "invalid_operation")
                   (λ expected, kube (updateInstance desired expected)));
  operation ← bind operation object;
  mret (object, operation).

(** [isDeepStrictEqual] of the specifications and the identity the request
    wrote: an object made by this exact request. *)
Definition recoverable (operation : Operation) (desired current : CacheObject) : bool :=
  negb (truthy (md_deletionTimestamp (co_metadata current))) &&
  String.eqb (md_name (co_metadata current)) (md_name (co_metadata desired)) &&
  String.eqb (md_namespace (co_metadata current)) (md_namespace (co_metadata desired)) &&
  String.eqb (co_apiVersion current) (co_apiVersion desired) &&
  String.eqb (co_kind current) (co_kind desired) &&
  oeq (annotation current operation_key) (Some (op_id operation)) &&
  oeq (annotation current request_hash_key) (annotation desired request_hash_key) &&
  forallb (λ '(k, v), oeq (label current k) (Some v))
    (map_to_list (nullish (md_labels (co_metadata desired)) ∅)) &&
  bool_decide (co_spec current = co_spec desired).

(** A later passage: read the object back, binding it first when a creation
    was interrupted before its identity was recorded. *)
Definition recover (operation : Operation) (desired : CacheObject) :
    M (World K) (CacheObject * Operation) :=
  current ← kube (getInstance (md_namespace (co_metadata desired)) (md_name (co_metadata desired)));
  match current with
  | None => throw (opError "instance_disappeared")
  | Some current =>
      if creates (op_kind operation) && oeq (op_target_generation operation) None then
        throw_if (negb (recoverable operation desired current)) (opError "instance_recovery_conflict") ;;
        operation ← bind operation current;
        mret (current, operation)
      else mret (current, operation)
  end.

Definition approve_reclaim (operation : Operation) (desired object : CacheObject) : M (World K) () :=
  let reclaim := st_reclaim (sp_storage (co_spec desired)) in
  match approveRetainedVolumeReclaim, md_uid (co_metadata object) with
  | Some approve, Some uid =>
      throw_if (negb (oeq (rc_previousInstanceUID <$> reclaim) (rq_previousInstanceUID (op_request operation))) ||
                negb (oeq (rc_volumeUID <$> reclaim) (rq_volumeUid (op_request operation))) ||
                String.eqb uid "") (opError "invalid_reclaim_request") ;;
      kube (approve desired uid)
  | _, _ => throw (opError "invalid_reclaim_request")
  end.

(** [object.metadata.uid === row?.kubernetes_uid]: [undefined] is not [null]. *)
Definition same_uid (uid : option string) (row : option Binding) : bool :=
  match row with
  | Some b => match bi_kubernetes_uid b with Some u => oeq uid (Some u) | None => false end
  | None => oeq uid None
  end.

(** [conditions?.find(x => x.type === 'Ready' && x.observedGeneration === generation)] *)
Definition ready_condition (object : CacheObject) : option Condition :=
  status ← co_status object;
  conditions ← ss_conditions status;
  js_find (λ x, String.eqb (cd_type x) "Ready" &&
                oeq (cd_observedGeneration x) (md_generation (co_metadata object))) conditions.

Definition is_done (object : CacheObject) : bool :=
  oeq (co_status object ≫= ss_observedGeneration) (md_generation (co_metadata object)) &&
  (if String.eqb (sp_desiredState (co_spec object)) "Suspended"
   then oeq (cd_reason <$> ready_condition object) (Some "Suspended"%string)
   else oeq (cd_status <$> ready_condition object) (Some "True"%string)).

(** The secrets of the revisions a rotation or reclaim replaces. *)
Definition older_credentials (instance : option string) (secret : string) (db : DB) : list Credential :=
  let mine := credentials_of instance db in
  match js_find (λ c, String.eqb (cr_secret_name c) secret) mine with
  | Some c => filter (λ o, cr_revision o < cr_revision c) mine
  | None => []
  end.

Definition conclude (operation : Operation) (desired object : CacheObject) : M (World K) () :=
  binding ← pool (query (λ _ db, lookup_opt (db_bindings db) (op_instance_id operation)));
  throw_if (negb (same_uid (md_uid (co_metadata object)) binding) ||
            negb (oeq (Some (sp_instanceId (co_spec object))) (op_instance_id operation)) ||
            negb (String.eqb (sp_projectId (co_spec object)) (op_project_id operation)))
    (opError "instance_identity_conflict") ;;
  throw_if (negb (oeq (md_generation (co_metadata object))
                      (Some (js_number (nullish (op_target_generation operation) 0)))) ||
            negb (oeq (annotation object operation_key) (Some (op_id operation))))
    (OperationError "instance_configuration_superseded" true) ;;
  let secret := ac_credentialsSecretRef (sp_access (co_spec desired)) in
  let condition := ready_condition object in
  if is_done object then
    when (kind_in [InstanceRotate; InstanceReclaim] (op_kind operation))
      (old ← pool (query (λ _, older_credentials (op_instance_id operation) secret));
       delete_credentials operation (md_namespace (co_metadata desired)) old) ;;
    finish operation Succeeded None
      (execute_sql (λ _ db, db <| db_bindings ::= update_opt always
         (λ b, b <| bi_lifecycle := LActive |>
                 <| bi_display_name := nullish (annotation desired display_name_key) "" |>)
         (op_instance_id operation) |>) ;;
       execute_sql (λ _, set_credentials (op_instance_id operation)
         (λ c, if String.eqb (cr_secret_name c) secret then CActive else CRevoked)))
  else
    match condition with
    | Some c =>
        if includes ["InvalidConfiguration"; "CredentialsRejected"] (cd_reason c)
        then throw (opError ("controller_" +:+ cd_reason c))
        else defer operation None
    | None => defer operation None
    end.

Definition execute_instance (operation : Operation) : M (World K) () :=
  match rq_desired (op_request operation) with
  | None => throw (opError "invalid_operation")
  | Some desired =>
      '(object, operation) ← (if bool_decide (op_state operation = Reconciling)
                              then recover operation desired else submit operation desired);
      when (bool_decide (op_kind operation = InstanceReclaim)) (approve_reclaim operation desired object) ;;
      conclude operation desired object
  end.

Definition execute (operation : Operation) : M (World K) () :=
  ready ← match quotaGate with
          | Some gate => if kind_in [InstanceCreate; InstanceReclaim; InstanceUpdate; InstanceRotate]
                              (op_kind operation)
                         then gate (op_project_id operation) else mret true
          | None => mret true
          end;
  if negb ready then defer operation (Some "project_quota_not_ready"%string)
  else
    match op_kind operation with
    | ProjectCreate => execute_project_create operation
    | VolumeDelete => execute_volume_delete operation
    | InstanceDelete => execute_instance_delete operation
    | InstanceCreate | InstanceReclaim | InstanceUpdate | InstanceRotate => execute_instance operation
    | OtherKind _ => throw (opError "unsupported_operation")
    end.

(** ** The cycle *)

(** [[400, 403, 422].includes(statusCode(error) ?? 0)] *)
Definition rejected (e : exn) : option Z :=
  match statusCode e with
  | Some (CNum n) => if bool_decide (n ∈ [400; 403; 422]) then Some n else None
  | _ => None
  end.

Definition settle_failure (operation : Operation) (e : exn) : M (World K) () :=
  match e with
  | OperationError code superseded =>
      finish operation (if superseded then Superseded else Failed) (Some code) (mret tt)
  | e => match rejected e with
         | Some n => finish operation Failed (Some ("kubernetes_" +:+ dec_str n)) (mret tt)
         | None => defer operation (Some "kubernetes_unavailable"%string)
         end
  end.

Definition attempt (operation : Operation) : M (World K) () :=
  now ← date_now;
  throw_if (js_date (op_deadline_at operation) <? now) (opError "operation_deadline_exceeded") ;;
  execute operation.

Definition tick (claim : string) : M (World K) bool :=
  operation ← claim_operation claim;
  match operation with
  | None => mret false
  | Some operation =>
      try_catch (attempt operation) (settle_failure operation) ;;
      mret true
  end.
End worker.
