(* ===== verification/WorkerLease.v ===== *)
(** * The worker and its lease

    Theorems on [Worker]: what a claim takes, that a worker without its lease
    writes nothing, and that a cycle never leaves an operation behind under
    its lease. *)
From Stdlib Require Import ZArith Lia Init.Byte.
From stdpp Require Import base tactics list option strings gmap relations.
From S2P Require Import Prelude Numbers Effects Catalog Contract Database Quotas Secrets Kubernetes Worker.

(** ** Waiting *)
Section waiting.
Context {K : Type}.
Implicit Types (w : World K).

Lemma execute_noop (f : Z → DB → DB) w :
  f (w_now w) (w_db w) = w_db w → execute_sql f w = (Ok tt, w).
Proof. intros E. unfold execute_sql. by rewrite E, with_same_db. Qed.
Lemma update_row_noop {A} (p : A → bool) f id (m : gmap string A) :
  (∀ r, m !! id = Some r → p r = false) → update_row p f id m = m.
Proof.
  intros Hp. unfold update_row. destruct (m !! id) as [r|] eqn:E; [|done]. by rewrite Hp.
Qed.

(** The time the rest of the run can take. *)
Definition remaining (env : list (Interference K)) : Z :=
  foldr (λ i acc, Z.max 0 (if_elapsed i) + acc) 0 env.
Lemma remaining_nonneg env : 0 ≤ remaining env.
Proof. induction env; simpl; lia. Qed.
Lemma after_yield_time w :
  w_now (after_yield w) + remaining (w_env (after_yield w)) = w_now w + remaining (w_env w).
Proof. unfold after_yield, yield. destruct w as [? ? ? [] ?]; simpl; lia. Qed.

(** Steps without waiting that leave the operations alone. *)
Definition same_ops w w' : Prop :=
  w_env w' = w_env w ∧ w_now w' = w_now w ∧ w_kube w' = w_kube w ∧
  db_operations (w_db w') = db_operations (w_db w).
#[export] Instance same_ops_preorder : PreOrder same_ops.
Proof. split; [done|]. intros w1 w2 w3 (? & ? & ? & ?) (? & ? & ? & ?). split_and!; congruence. Qed.

Lemma same_ops_query {A} (f : Z → DB → A) : within same_ops (query f).
Proof. done. Qed.
Lemma same_ops_execute (f : Z → DB → DB) :
  (∀ now db, db_operations (f now db) = db_operations db) → within same_ops (execute_sql f).
Proof. intros Hf w. split_and!; [done..|apply Hf]. Qed.
Lemma same_ops_settle id c : within same_ops (settleResources (K:=K) id c).
Proof.
  unfold settleResources. cbv zeta. within_solve. by apply same_ops_execute.
Qed.
End waiting.

(** ** Fencing *)
Section fencing.
Context {K : Type} `{KubernetesPort K}.
Context (telemetry : bool).
Implicit Types (w : World K) (operation : Operation).

(** The row a worker believes to own is still its own and active. *)
Definition still_held operation w : bool :=
  match db_operations (w_db w) !! op_id operation with
  | Some op => lease_held (w_now w) (op_worker_id operation) op &&
               bool_decide (op_state op ∈ [Applying; Reconciling])
  | None => false
  end.

Lemma held_eq operation w : held operation w = (Ok (still_held operation w), w).
Proof. done. Qed.

Lemma finish_fenced operation state code apply w :
  still_held operation (after_yield w) = false →
  finish telemetry operation state code apply w = (Ok tt, after_yield w).
Proof.
  intros Hh. unfold finish, mbind, M_bind. rewrite transaction_eq. unfold atomically.
  by rewrite held_eq, Hh.
Qed.

Lemma bind_fenced operation object w :
  still_held operation (after_yield w) = false →
  ∃ e w', bind operation object w = (Throw e, w') ∧
    (w' = w ∨ w' = after_yield w).
Proof.
  intros Hh. unfold bind. destruct (md_uid _) as [uid|]; [|eauto 10].
  destruct (md_generation _) as [g|]; [|by eauto 10].
  unfold mbind, M_bind. destruct (String.eqb uid ""); [by eauto 10|].
  cbn [throw_if mret M_ret]. rewrite transaction_eq. unfold atomically.
  rewrite held_eq, Hh. eauto 10.
Qed.

Definition lease_lost operation w : Prop :=
  ∀ op, db_operations (w_db w) !! op_id operation = Some op →
    lease_held (w_now w) (op_worker_id operation) op = false.

Lemma lease_lost_held operation w : lease_lost operation w → still_held operation w = false.
Proof.
  intros Hl. unfold still_held. destruct (_ !! op_id operation) as [op|] eqn:E; [|done].
  by rewrite (Hl op E).
Qed.

Lemma defer_fenced operation code w :
  lease_lost operation (after_yield w) → defer operation code w = (Ok tt, after_yield w).
Proof.
  intros Hl. unfold defer. rewrite pool_eq. apply execute_noop.
  simpl. rewrite update_row_noop by exact Hl. by destruct (w_db _).
Qed.
End fencing.

(** ** A held operation and its resolution *)
Section lease.
Context {K : Type} `{KubernetesPort K} `{Aead}.
Context (key : list byte) (telemetry : bool).
Context (id claim : string) (lease : Z).
Implicit Types (w : World K) (operation : Operation).

(** The other processes respect a claim: none writes an operation that carries
    another worker's identifier. *)
Definition respects (i : Interference K) : Prop := ∀ db id op,
  db_operations db !! id = Some op → op_worker_id op = Some claim →
  db_operations (if_db i db) !! id = Some op.

(** The operation is claimed, and stays so as long as the run can take. *)
Definition Held w : Prop :=
  (∃ op, db_operations (w_db w) !! id = Some op ∧ op_worker_id op = Some claim ∧
     op_lease_until op = Some lease ∧ op_state op ∈ [Applying; Reconciling]) ∧
  Forall respects (w_env w) ∧ w_now w + remaining (w_env w) < lease.

(** It no longer carries a worker or a lease: it is finished, with its secret
    erased, or waits to be claimed again. *)
Definition terminal (s : OpState) : bool := bool_decide (s ∈ [Succeeded; Failed; Superseded]).
Definition Resolved w : Prop :=
  ∃ op, db_operations (w_db w) !! id = Some op ∧ op_worker_id op = None ∧ op_lease_until op = None ∧
    (terminal (op_state op) = true ∧ op_secret_payload op = None ∨
     active_state (op_state op) = true ∧ op_next_attempt_at op = w_now w + seconds 2).

Lemma Held_yield w : Held w → Held (after_yield w).
Proof.
  intros ((op & Hop & Hw & Hl & Hs) & Henv & Ht).
  rewrite <- after_yield_time in Ht.
  destruct w as [db k now [|i env] ms]; simpl in *; [by split; [eauto|]|].
  apply Forall_cons in Henv as [Hi Henv]. split; [|done].
  exists op. split_and!; try done. by apply Hi.
Qed.

Lemma Held_same w w' : same_ops w w' → Held w → Held w'.
Proof.
  intros (He & Hn & _ & Ho) (Hop & Henv & Ht). unfold Held. by rewrite He, Hn, Ho.
Qed.

Lemma remaining_lt w : Held w → w_now w < lease.
Proof. intros (_ & _ & Ht). pose proof (remaining_nonneg (w_env w)). lia. Qed.

(** Computations that keep the claim whether they return or throw. *)
Definition keeps {A} (m : M (World K) A) : Prop := ∀ w, Held w → Held (m w).2.

Lemma keeps_same {A} (m : M (World K) A) : within same_ops m → keeps m.
Proof. intros Hm w. apply Held_same, Hm. Qed.
Lemma keeps_bind {A B} (m : M (World K) A) (k : A → M (World K) B) :
  keeps m → (∀ a, keeps (k a)) → keeps (m ≫= k).
Proof.
  intros Hm Hk w Hw. unfold mbind, M_bind. specialize (Hm w Hw).
  destruct (m w) as [[a|e] w1]; [by apply Hk|done].
Qed.
Lemma keeps_pool {A} (m : M (World K) A) : keeps m → keeps (pool m).
Proof. intros Hm w Hw. rewrite pool_eq. by apply Hm, Held_yield. Qed.
Lemma keeps_on_kube {A} (m : M K A) : keeps (on_kube m).
Proof. intros w Hw. unfold on_kube, zoom. by destruct (m (w_kube w)). Qed.
Lemma keeps_kube {A} (m : M K A) : keeps (kube m).
Proof. intros w Hw. rewrite kube_eq. by apply keeps_on_kube, Held_yield. Qed.
Lemma keeps_for_each {A} (xs : list A) body : (∀ x, keeps (body x)) → keeps (for_each xs body).
Proof. intros Hb. induction xs; simpl; [by intros w|]. by apply keeps_bind. Qed.

Lemma wp_within {A} (m : M (World K) A) w (Q : A → World K → Prop) (E : exn → World K → Prop) :
  within same_ops m → (∀ a w', same_ops w w' → Q a w') → (∀ e w', same_ops w w' → E e w') →
  wp m Q E w.
Proof.
  intros Hm HQ HE. specialize (Hm w). unfold wp. destruct (m w) as [[a|e] w']; auto.
Qed.

Lemma wp_transaction {A} (m : M (World K) A) w (Q : A → World K → Prop) (E : exn → World K → Prop) :
  wp m Q (λ e w', E e (w' <| w_db := w_db (after_yield w) |>)) (after_yield w) →
  wp (transaction m) Q E w.
Proof.
  unfold wp. rewrite transaction_eq. unfold atomically.
  by destruct (m (after_yield w)) as [[a|e] w'].
Qed.

Lemma Held_rollback w w' : Held w → same_ops w w' → Held (w' <| w_db := w_db w |>).
Proof. intros (Hop & Henv & Ht) (He & Hn & _ & _). unfold Held. simpl. by rewrite He, Hn. Qed.

Lemma Resolved_same w w' : same_ops w w' → Resolved w → Resolved w'.
Proof. intros (_ & Hn & _ & Ho) Hr. unfold Resolved. by rewrite Hn, Ho. Qed.

Lemma Held_still operation w :
  op_id operation = id → op_worker_id operation = Some claim → Held w → still_held operation w = true.
Proof.
  intros Hid Hc Hw. pose proof (remaining_lt w Hw). destruct Hw as ((op & Hop & Hwk & Hl & Hs) & _).
  unfold still_held. rewrite Hid, Hop. unfold lease_held, owned_by. rewrite Hwk, Hc, Hl. simpl.
  rewrite String.eqb_refl, (proj2 (Z.ltb_lt _ _)) by done. simpl. by apply bool_decide_eq_true.
Qed.

Section operation.
Context (operation : Operation) (Hid : op_id operation = id)
  (Hclaim : op_worker_id operation = Some claim).

(** The last writes of [finish]: the operation's row, then the rest. *)
Definition close_operation (state : OpState) (code : option string) : M (World K) () :=
  execute_sql (λ now db, db <| db_operations ::=
    update_row (owned_by (op_worker_id operation)) (close_row state code now) (op_id operation) |>).
Definition report_operation (state : OpState) (code : option string) : M (World K) bool :=
  when (bool_decide (state = Failed) && bool_decide (op_kind operation = ProjectCreate))
    (execute_sql (λ _ db, db <| db_projects ::=
       update_row always (λ p, p <| pr_state := PFailed |>) (op_project_id operation) |>)) ;;
  when (bool_decide (state = Failed) && creates (op_kind operation))
    (execute_sql (λ _ db, db <| db_bindings ::=
       update_opt always (λ b, b <| bi_lifecycle := LFailed |>) (op_instance_id operation) |>)) ;;
  execute_sql (λ _, add_audit (MkAudit None (Some (op_project_id operation))
    (op_instance_id operation) (Some (op_id operation)) ("operation." +:+ state_str state)
    [("code", json_nullable JStr code)])) ;;
  mret true.

Lemma report_same state code : within same_ops (report_operation state code).
Proof. unfold report_operation. within_solve; by apply same_ops_execute. Qed.

Lemma report_total state code w : ∃ w', report_operation state code w = (Ok true, w').
Proof. unfold report_operation, when. split_if E1; split_if E2; eexists; reflexivity. Qed.

Lemma close_resolves state code w :
  terminal state = true → Held w → Resolved (close_operation state code w).2.
Proof.
  intros Hs ((op & Hop & Hwk & _) & _).
  exists (close_row state code (w_now w) op). simpl. split_and!; try done; [|by left].
  rewrite Hid, update_row_lookup, decide_True, Hop by done. simpl. unfold owned_by.
  rewrite Hwk, Hclaim. simpl. by rewrite String.eqb_refl.
Qed.

Lemma close_report state code w :
  terminal state = true → Held w →
  ∃ w', (close_operation state code ;; report_operation state code) w = (Ok true, w') ∧
    same_ops (close_operation state code w).2 w' ∧ Resolved w'.
Proof.
  intros Hs Hw. pose proof (close_resolves state code w Hs Hw) as Hr.
  destruct (report_total state code (close_operation state code w).2) as [w' Hw'].
  pose proof (report_same state code (close_operation state code w).2) as Hs'.
  rewrite Hw' in Hs'. exists w'. split_and!; [|done|by eapply Resolved_same].
  by rewrite (bind_Ok _ _ w tt (close_operation state code w).2).
Qed.

(** The reservations an outcome settles. *)
Definition settlement (state : OpState) : M (World K) () :=
  match op_instance_id operation, rq_desired (op_request operation) with
  | Some instance, Some desired =>
      when (bool_decide (state = Succeeded) && negb (String.eqb instance "") &&
            kind_in [InstanceCreate; InstanceReclaim; InstanceUpdate] (op_kind operation))
        (settleResources instance desired)
  | _, _ => mret tt
  end.
Lemma settlement_same state : within same_ops (settlement state).
Proof. unfold settlement. within_solve. apply same_ops_settle. Qed.

Definition finish_body (state : OpState) (code : option string) (apply : M (World K) ()) :
    M (World K) bool :=
  held ← held operation;
  if negb held then mret false
  else apply ;; settlement state ;; close_operation state code ;; report_operation state code.

Lemma finish_eq state code apply : finish telemetry operation state code apply =
  (committed ← transaction (finish_body state code apply);
   now ← date_now;
   when (committed && telemetry)
     (modify (λ w, w <| w_metrics ::= cons (MkCompletion (op_kind operation) state
        (Z.max 0 (now - js_date (op_created_at operation)))) |>))).
Proof. reflexivity. Qed.

Lemma finish_body_spec state code apply w :
  terminal state = true → within same_ops apply → Held w →
  wp (finish_body state code apply) (λ _ w', Resolved w') (λ _ w', same_ops w w') w.
Proof.
  intros Hs Ha Hw. unfold finish_body. apply wp_bind. unfold wp at 1.
  rewrite held_eq, (Held_still operation w Hid Hclaim Hw). cbn [negb].
  apply wp_bind, wp_within; [done| |done]. intros _ w1 H1.
  apply wp_bind, wp_within; [apply settlement_same| |intros _ w2 H2; by etransitivity].
  intros _ w2 H2. assert (Held w2) as Hw2 by (eapply Held_same, Hw; by etransitivity).
  destruct (close_report state code w2 Hs Hw2) as (w' & E & _ & Hr). unfold wp.
  cbv beta. by rewrite E.
Qed.

(** A computation that resolves the held operation, or keeps it held when it
    throws. *)
Definition resolves {A} (m : M (World K) A) : Prop :=
  ∀ w, Held w → wp m (λ _ w', Resolved w') (λ _ w', Held w') w.

Lemma resolves_throw {A} e : resolves (A:=A) (throw e).
Proof. by intros w Hw. Qed.
Lemma resolves_bind {A B} (m : M (World K) A) (k : A → M (World K) B) :
  keeps m → (∀ a, resolves (k a)) → resolves (m ≫= k).
Proof.
  intros Hm Hk w Hw. apply wp_bind. specialize (Hm w Hw). unfold wp at 1.
  destruct (m w) as [[a|e] w1]; [by apply Hk|done].
Qed.
Lemma resolves_need {A} o e (k : string → M (World K) A) :
  (∀ s, resolves (k s)) → resolves (need o e k).
Proof.
  intros Hk. unfold need. destruct o as [s|]; [|apply resolves_throw].
  destruct (String.eqb s ""); [apply resolves_throw|done].
Qed.

Lemma finish_resolves state code apply :
  terminal state = true → within same_ops apply →
  resolves (finish telemetry operation state code apply).
Proof.
  intros Hs Ha w Hw. rewrite finish_eq. apply wp_bind, wp_transaction.
  apply Held_yield in Hw. eapply wp_mono; [by apply finish_body_spec|..].
  - intros c w1 Hr. cbv beta. unfold date_now, when. apply wp_bind. unfold wp at 1, gets.
    destruct (c && telemetry); [|exact Hr]. exact Hr.
  - intros e w1 H1. by apply Held_rollback.
Qed.

Lemma finish_failure state code w :
  terminal state = true → state ≠ Succeeded → Held w →
  ∃ w', finish telemetry operation state code (mret tt) w = (Ok tt, w') ∧ Resolved w' ∧
    w_kube w' = w_kube (after_yield w) ∧
    db_operations (w_db w') =
      db_operations (w_db (close_operation state code (after_yield w)).2).
Proof.
  intros Hs Hns Hw%Held_yield. rewrite finish_eq.
  destruct (close_report state code (after_yield w) Hs Hw) as (w1 & E & (_ & _ & Hk & Ho) & Hr).
  assert (transaction (finish_body state code (mret tt)) w = (Ok true, w1)) as Et.
  { rewrite transaction_eq. unfold atomically, finish_body.
    rewrite (bind_Ok _ _ _ _ _ (held_eq operation _)), (Held_still operation _ Hid Hclaim Hw).
    cbn [negb]. rewrite (bind_Ok _ _ _ tt (after_yield w)) by done.
    rewrite (bind_Ok _ _ _ tt (after_yield w)), E; [done|].
    unfold settlement. rewrite bool_decide_false by done. by repeat case_match. }
  rewrite (bind_Ok _ _ _ _ _ Et). unfold date_now, when, mbind, M_bind, gets.
  destruct telemetry; eexists; (split; [reflexivity|]); done.
Qed.

Lemma defer_resolves code w :
  Held w → ∃ w', defer operation code w = (Ok tt, w') ∧ Resolved w'.
Proof.
  intros Hw%Held_yield. unfold defer. rewrite pool_eq. eexists. split; [done|].
  pose proof (remaining_lt _ Hw). destruct Hw as ((op & Hop & Hwk & Hl & Hs) & _).
  exists (defer_row code (w_now (after_yield w)) op). simpl. split_and!; try done.
  - rewrite Hid, update_row_lookup, decide_True, Hop by done. unfold lease_held, owned_by.
    simpl. rewrite Hwk, Hclaim, Hl. simpl.
    by rewrite String.eqb_refl, (proj2 (Z.ltb_lt _ _)).
  - right. split; [|done]. apply elem_of_cons in Hs as [-> |[-> |[]%not_elem_of_nil]%elem_of_cons]; done.
Qed.

Lemma resolves_defer code : resolves (defer operation code).
Proof.
  intros w Hw. destruct (defer_resolves code w Hw) as (w' & E & Hr). unfold wp. by rewrite E.
Qed.
End operation.

(** *** Through the steps of [execute] *)
Definition mine operation : Prop := op_id operation = id ∧ op_worker_id operation = Some claim.

Definition keeps_with {A} (m : M (World K) A) (Q : A → Prop) : Prop :=
  ∀ w, Held w → wp m (λ a w', Held w' ∧ Q a) (λ _ w', Held w') w.

Lemma resolves_with {A B} (m : M (World K) A) Q (k : A → M (World K) B) :
  keeps_with m Q → (∀ a, Q a → resolves (k a)) → resolves (m ≫= k).
Proof.
  intros Hm Hk w Hw. apply wp_bind. eapply wp_mono; [by apply Hm| |done].
  intros a w' [Hw' HQ]. by apply Hk.
Qed.
Lemma keeps_with_bind {A B} (m : M (World K) A) (k : A → M (World K) B) Q :
  keeps m → (∀ a, keeps_with (k a) Q) → keeps_with (m ≫= k) Q.
Proof.
  intros Hm Hk w Hw. apply wp_bind. specialize (Hm w Hw). unfold wp at 1.
  destruct (m w) as [[a|e] w1]; [by apply Hk|done].
Qed.
Lemma keeps_with_wp {A B} (m : M (World K) A) Q (k : A → M (World K) B) Q' :
  keeps_with m Q → (∀ a, Q a → keeps_with (k a) Q') → keeps_with (m ≫= k) Q'.
Proof.
  intros Hm Hk w Hw. apply wp_bind. eapply wp_mono; [by apply Hm| |done].
  intros a w' [Hw' HQ]. by apply Hk.
Qed.
Lemma keeps_with_ret {A} (a : A) (Q : A → Prop) : Q a → keeps_with (mret a) Q.
Proof. by intros HQ w Hw. Qed.

Lemma keeps_when b m : keeps m → keeps (when b m).
Proof. destruct b; [done|]. by intros _ w. Qed.
Lemma keeps_throw {A} e : keeps (A:=A) (throw e).
Proof. by intros w Hw. Qed.
Lemma keeps_need {A} o e (k : string → M (World K) A) :
  (∀ s, keeps (k s)) → keeps (need o e k).
Proof.
  intros Hk. unfold need. destruct o as [s|]; [destruct (String.eqb s "")|]; auto using keeps_throw.
Qed.

(** Recording an identity keeps the row claimed. *)
Lemma update_keeps (f : Z → Operation → Operation) operation w :
  mine operation → Held w →
  (∀ now op, op_worker_id (f now op) = op_worker_id op ∧ op_lease_until (f now op) = op_lease_until op ∧
     (op_state (f now op) = op_state op ∨ op_state (f now op) = Reconciling)) →
  ∀ p, Held (execute_sql (λ now db, db <| db_operations ::=
    update_row (p now) (f now) (op_id operation) |>) w).2.
Proof.
  intros [Hid _] ((op & Hop & Hwk & Hl & Hs) & Henv & Ht) Hf p.
  split; [|done]. simpl. rewrite Hid, update_row_lookup, decide_True, Hop by done.
  destruct (Hf (w_now w) op) as (E1 & E2 & E3). cbn [fmap option_fmap option_map].
  eexists. split; [done|]. destruct (p (w_now w) op); [|done].
  rewrite E1, E2. split_and!; [done..|]. destruct E3 as [-> | ->]; [done|set_solver].
Qed.

Lemma bind_keeps operation object :
  mine operation → keeps_with (bind operation object) mine.
Proof.
  intros Hm w Hw. unfold bind. destruct (md_uid _) as [uid|]; [|done].
  destruct (md_generation _) as [g|]; [|done].
  destruct (String.eqb uid ""); [done|]. apply wp_bind, wp_ret. cbv beta.
  apply wp_bind, wp_transaction. apply Held_yield in Hw. destruct Hm as [Hid Hc].
  apply wp_bind. unfold wp at 1. rewrite held_eq, (Held_still operation _ Hid Hc Hw). cbn [negb].
  apply wp_bind. change (wp (query ?f) ?Q ?E ?w) with (Q (f (w_now w) (w_db w)) w). cbv beta.
  set (changed := match lookup_opt _ _ with Some _ => _ | None => _ end).
  apply wp_bind, wp_within; [by apply same_ops_execute|..]; [|by intros; apply Held_rollback].
  intros _ w1 H1. destruct changed; cbn [negb throw_if]; apply wp_bind.
  2: { apply wp_throw. by apply Held_rollback. }
  apply wp_ret. cbv beta. apply wp_bind.
  assert (Held w1) as Hw1 by (by eapply Held_same).
  match goal with |- wp (execute_sql ?f) ?Q ?E ?w => change (Q tt (execute_sql f w).2) end.
  cbv beta. apply wp_ret. cbn [negb throw_if]. apply wp_bind, wp_ret. apply wp_ret. split; [|done].
  apply (update_keeps (λ now op, op <| op_state := Reconciling |> <| op_target_generation := Some g |>
    <| op_updated_at := now |>)); [done|done|]. intros. split_and!; auto.
Qed.

Ltac keeps_step :=
  match goal with
  | |- keeps (_ ≫= _) => apply keeps_bind; [|intros ?]
  | |- keeps (pool _) => apply keeps_pool
  | |- keeps (kube _) => apply keeps_kube
  | |- keeps (when _ _) => apply keeps_when
  | |- keeps (need _ _ _) => apply keeps_need; intros ?
  | |- keeps (for_each _ _) => apply keeps_for_each; intros ?
  | |- keeps (throw _) => apply keeps_throw
  | |- keeps (match ?x with _ => _ end) => destruct x
  | |- keeps _ => apply keeps_same; solve [auto with within typeclass_instances]
  end.
Ltac keeps_solve := repeat keeps_step.
Ltac resolves_step :=
  match goal with
  | |- resolves (need _ _ _) => apply resolves_need; intros ?
  | |- resolves (throw _) => apply resolves_throw
  | |- resolves (defer _ _) => apply resolves_defer; done
  | |- resolves (_ ≫= _) => apply resolves_bind; [solve [keeps_solve]|intros ?]
  | |- resolves (match ?x with _ => _ end) => destruct x
  | |- resolves (let _ := _ in _) => cbv zeta
  end.
Ltac resolves_solve := repeat resolves_step.

Lemma project_create_resolves operation :
  mine operation → resolves (execute_project_create telemetry operation).
Proof.
  intros [Hid Hc]. unfold execute_project_create. resolves_solve.
  apply finish_resolves; try done.
Qed.

Lemma set_lifecycle_same operation l : within same_ops (set_lifecycle (K:=K) operation l).
Proof. by apply same_ops_execute. Qed.
Lemma set_credentials_same instance f :
  within same_ops (execute_sql (K:=K) (λ _, set_credentials instance f)).
Proof. by apply same_ops_execute. Qed.
Hint Resolve set_lifecycle_same set_credentials_same same_ops_query : within.

Lemma volume_delete_resolves operation :
  mine operation → resolves (execute_volume_delete telemetry operation).
Proof.
  intros [Hid Hc]. unfold execute_volume_delete. cbv zeta. resolves_solve.
  apply finish_resolves; try done; auto with within.
Qed.

Lemma delete_credentials_keeps operation namespace l : keeps (delete_credentials operation namespace l).
Proof. unfold delete_credentials. keeps_solve. Qed.

Lemma instance_delete_resolves operation :
  mine operation → resolves (execute_instance_delete telemetry operation).
Proof.
  intros Hm. pose proof Hm as [Hid Hc]. unfold execute_instance_delete. cbv zeta.
  do 3 (apply resolves_need; intros ?). apply resolves_bind; [keeps_solve|intros [current|]].
  - do 2 (apply resolves_bind; [keeps_solve|intros ?]).
    apply resolves_bind; [|intros ?; resolves_solve].
    apply keeps_pool. intros w Hw.
    apply (update_keeps (λ _ op, op <| op_request ::= λ r, r <| rq_deletionPolicy :=
      Some (st_deletionPolicy (sp_storage (co_spec current))) |> |>)); [done|done|]. auto.
  - apply resolves_bind; [keeps_solve|intros ?].
    apply resolves_bind; [apply delete_credentials_keeps|intros ?].
    apply finish_resolves; try done; within_solve.
Qed.

Lemma check_reclaim_keeps operation desired : keeps (check_reclaim operation desired).
Proof. unfold check_reclaim. cbv zeta. keeps_solve. Qed.

Lemma submit_keeps operation desired :
  mine operation → keeps_with (submit key operation desired) (λ r, mine r.2).
Proof.
  intros Hm. unfold submit. cbv zeta.
  apply keeps_with_bind; [apply keeps_when, check_reclaim_keeps|intros _].
  do 2 (apply keeps_with_bind; [keeps_solve|intros _]).
  apply keeps_with_bind; [keeps_solve|intros object].
  eapply keeps_with_wp; [by apply bind_keeps|]. intros operation' Hm'. by apply keeps_with_ret.
Qed.

Lemma recover_keeps operation desired :
  mine operation → keeps_with (recover operation desired) (λ r, mine r.2).
Proof.
  intros Hm. unfold recover. apply keeps_with_bind; [keeps_solve|intros [current|]].
  - split_if E; [|by apply keeps_with_ret].
    apply keeps_with_bind; [keeps_solve|intros _].
    eapply keeps_with_wp; [by apply bind_keeps|]. intros operation' Hm'. by apply keeps_with_ret.
  - by intros w Hw.
Qed.

Lemma approve_keeps operation desired object : keeps (approve_reclaim operation desired object).
Proof. unfold approve_reclaim. cbv zeta. keeps_solve. Qed.

Lemma conclude_resolves operation desired object :
  mine operation → resolves (conclude telemetry operation desired object).
Proof.
  intros [Hid Hc]. unfold conclude. cbv zeta.
  apply resolves_bind; [keeps_solve|intros binding].
  do 2 (apply resolves_bind; [keeps_solve|intros _]).
  split_if E; [|resolves_solve].
  apply resolves_bind; [apply keeps_when, keeps_bind; [keeps_solve|]; intros; apply delete_credentials_keeps|].
  intros _. apply finish_resolves; try done; within_solve; by apply same_ops_execute.
Qed.

Lemma execute_instance_resolves operation :
  mine operation → resolves (execute_instance key telemetry operation).
Proof.
  intros Hm. unfold execute_instance. destruct (rq_desired _) as [desired|]; [|apply resolves_throw].
  apply (resolves_with _ (λ r, mine r.2)).
  - split_if E; [by apply recover_keeps|by apply submit_keeps].
  - intros [object operation'] Hm'. apply resolves_bind; [apply keeps_when, approve_keeps|].
    intros _. by apply conclude_resolves.
Qed.
End lease.

(** ** Claiming *)
Section claiming.
Context {K : Type} `{KubernetesPort K}.
Implicit Types (w : World K).

Definition keys_ok (db : DB) : Prop := ∀ id op, db_operations db !! id = Some op → op_id op = id.

Lemma claim_operation_eq claim w :
  let w1 := after_yield w in
  let candidates := filter (λ op, eligible (w_now w1) op = true) (rows (db_operations (w_db w1))) in
  claim_operation claim w =
    match min_by op_created_at candidates with
    | None => (Ok None, w1)
    | Some selected =>
        let w2 := (execute_sql (λ now db, db <| db_operations ::=
          update_row always (claim_row claim now) (op_id selected) |>) w1).2 in
        (Ok (db_operations (w_db w2) !! op_id selected), w2)
    end.
Proof.
  cbv zeta. unfold claim_operation. rewrite transaction_eq. unfold atomically.
  rewrite (bind_Ok _ _ _ (min_by op_created_at (filter (λ op, eligible (w_now (after_yield w)) op = true)
    (rows (db_operations (w_db (after_yield w)))))) (after_yield w)) by done.
  destruct (min_by _ _) as [selected|]; done.
Qed.

Lemma claim_row_active claim now op :
  eligible now op = true → op_state (claim_row claim now op) ∈ [Applying; Reconciling].
Proof.
  unfold eligible. simpl. destruct (op_state op); simpl; intros; try done; set_solver.
Qed.

Lemma claim_row_busy claim now op t :
  t ≤ now + seconds 30 → eligible t (claim_row claim now op) = false.
Proof.
  intros Ht. unfold eligible. simpl. rewrite (proj2 (Z.ltb_ge _ _)) by done. apply andb_false_r.
Qed.

Lemma claim_operation_Some claim w :
  keys_ok (w_db (after_yield w)) →
  let w1 := after_yield w in
  (∃ old, let op := claim_row claim (w_now w1) old in
     claim_operation claim w = (Ok (Some op), w1 <| w_db ::= λ db, db <| db_operations ::=
       <[op_id old := op]> |> |>) ∧
     db_operations (w_db w1) !! op_id old = Some old ∧ eligible (w_now w1) old = true ∧
     ∀ id o, db_operations (w_db w1) !! id = Some o → eligible (w_now w1) o = true →
       op_created_at old ≤ op_created_at o) ∨
  (claim_operation claim w = (Ok None, w1) ∧
   ∀ id o, db_operations (w_db w1) !! id = Some o → eligible (w_now w1) o = false).
Proof.
  intros Hk w1. pose proof (claim_operation_eq claim w) as E. cbv zeta in E. fold w1 in E.
  destruct (min_by _ _) as [old|] eqn:Em; [left|right].
  - apply min_by_Some in Em as [Hin Hmin].
    apply list_elem_of_filter in Hin as [He [id Hid]%rows_elem].
    pose proof (Hk _ _ Hid) as Hid'. subst id. exists old. rewrite E. clear E.
    split_and!; [|done|done|].
    + unfold execute_sql, update_row, always. simpl. rewrite Hid. simpl. by rewrite lookup_insert_eq.
    + intros id o Ho Heo. apply Hmin, list_elem_of_filter. split; [done|]. apply rows_elem. eauto.
  - split; [done|]. intros id o Ho. apply min_by_None in Em.
    destruct (eligible (w_now w1) o) eqn:He; [|done]. exfalso.
    assert (o ∈ filter (λ op, eligible (w_now w1) op = true) (rows (db_operations (w_db w1)))) as Hin;
      [|by rewrite Em in Hin; apply not_elem_of_nil in Hin].
    apply list_elem_of_filter. split; [done|]. apply rows_elem. eauto.
Qed.
End claiming.

(** ** A whole cycle *)
Section cycle.
Context {K : Type} `{KubernetesPort K} `{Aead}.
Context (key : list byte) (quotaGate : option (string → M (World K) bool)) (telemetry : bool).
Context (claim : string).
Implicit Types (w : World K).

Lemma settle_failure_resolves id lease operation e w :
  mine id claim operation → Held id claim lease w →
  ∃ w', settle_failure telemetry operation e w = (Ok tt, w') ∧ Resolved id w'.
Proof.
  intros [Hid Hc] Hw. unfold settle_failure.
  assert (∀ state code, terminal state = true → state ≠ Succeeded →
    ∃ w', finish telemetry operation state code (mret tt) w = (Ok tt, w') ∧ Resolved id w') as Hf.
  { intros state code Hs Hns.
    destruct (finish_failure telemetry id claim lease operation Hid Hc state code w)
      as (w' & E & Hr & _); eauto. }
  destruct e; try (destruct (rejected _)); try (by apply Hf); try (by eapply defer_resolves).
  destruct superseded; by apply Hf.
Qed.

(** The quota gate leaves the claimed operation alone. *)
Definition gate_keeps : Prop :=
  match quotaGate with
  | Some gate => ∀ id lease projectId, keeps id claim lease (gate projectId)
  | None => True
  end.

Lemma execute_resolves id lease operation :
  gate_keeps → mine id claim operation →
  resolves id claim lease (execute key quotaGate telemetry operation).
Proof.
  intros Hg Hm. unfold execute. apply resolves_bind.
  - unfold gate_keeps in Hg. destruct quotaGate; [split_if E|]; [apply Hg|by intros w..].
  - intros ready. destruct ready; cbn [negb]; [|by apply resolves_defer; apply Hm].
    destruct (op_kind operation); first
      [by apply project_create_resolves|by apply execute_instance_resolves
      |by apply instance_delete_resolves|by apply volume_delete_resolves|apply resolves_throw].
Qed.

Lemma attempt_resolves id lease operation w :
  gate_keeps → mine id claim operation → Held id claim lease w →
  ∃ w', (try_catch (attempt key quotaGate telemetry operation) (settle_failure telemetry operation) ;;
         mret true) w = (Ok true, w') ∧ Resolved id w'.
Proof.
  intros Hg Hm Hw.
  assert (resolves id claim lease (attempt key quotaGate telemetry operation)) as Hr.
  { unfold attempt. apply resolves_bind; [by intros ?|intros now].
    apply resolves_bind; [by destruct (_ <? _); intros ?|intros _]. by apply execute_resolves. }
  specialize (Hr w Hw). unfold wp in Hr. unfold mbind, M_bind, try_catch.
  destruct (attempt key quotaGate telemetry operation w) as [[[]|e] w1]; [by eexists|].
  destruct (settle_failure_resolves id lease operation e w1 Hm Hr) as (w' & -> & ?). by eexists.
Qed.
End cycle.

(** ** Properties *)

(** A worker that lost its lease writes nothing.  If, when the write
    would start, the operation's row no longer carries the worker's identifier
    under an unexpired lease, then neither recording an outcome, nor postponing
    the operation, nor recording a cluster identity changes anything: the
    first two return without effect, the last throws. *)
Theorem lost_lease_writes_nothing {K} `{KubernetesPort K} (telemetry : bool)
    (operation : Operation) (w : World K) :
  lease_lost operation (after_yield w) →
  (∀ state code apply, finish telemetry operation state code apply w = (Ok tt, after_yield w)) ∧
  (∀ code, defer operation code w = (Ok tt, after_yield w)) ∧
  (∀ object, ∃ e w', bind operation object w = (Throw e, w') ∧ (w' = w ∨ w' = after_yield w)).
Proof.
  intros Hl. pose proof (lease_lost_held operation _ Hl) as Hh.
  split_and!; intros; [by apply finish_fenced|by apply defer_fenced|by apply bind_fenced].
Qed.

(** A claim takes the oldest operation that is due and not leased, and
    makes it the worker's alone: the row carries the claim for thirty seconds,
    during which no worker's claim finds it eligible; no other row changes; and
    nothing is claimed only when nothing is due. *)
Theorem claim_takes_oldest {K} `{KubernetesPort K} (claim : string) (w : World K) :
  keys_ok (w_db (after_yield w)) →
  let w1 := after_yield w in let now := w_now w1 in
  let operations := db_operations (w_db w1) in
  ∃ r w', claim_operation claim w = (Ok r, w') ∧
    match r with
    | Some op => ∃ id old, operations !! id = Some old ∧ eligible now old = true ∧
        (∀ id' o, operations !! id' = Some o → eligible now o = true →
           op_created_at old ≤ op_created_at o) ∧
        op = claim_row claim now old ∧ op_worker_id op = Some claim ∧
        op_state op ∈ [Applying; Reconciling] ∧
        (∀ t, t ≤ now + seconds 30 → eligible t op = false) ∧
        w_db w' = w_db w1 <| db_operations := <[id := op]> operations |>
    | None => w' = w1 ∧ ∀ id o, operations !! id = Some o → eligible now o = false
    end.
Proof.
  intros Hk w1 now operations.
  destruct (claim_operation_Some claim w Hk) as [(old & E & Hold & He & Hmin)|[E Hn]].
  - eexists _, _. split; [exact E|]. exists (op_id old), old.
    split_and!; try done; [by apply (claim_row_active claim now old)|intros t; apply (claim_row_busy claim now old)].
  - eexists _, _. split; [exact E|]. done.
Qed.

(** C1. A cycle never leaves an operation behind under its lease.  Whatever
    the cluster answers and however it fails, [tick] returns; if it claimed an
    operation, that operation ends up finished with its secret, worker and
    lease erased, or waiting, unleased, for the next attempt two seconds
    later; provided that the other processes respect the claim, that the
    cycle takes less than the thirty seconds of its lease, and that the quota
    gate does not touch the operation. *)
Theorem tick_resolves {K} `{KubernetesPort K} `{Aead} (key : list byte)
    (quotaGate : option (string → M (World K) bool)) (telemetry : bool) (claim : string)
    (w : World K) :
  keys_ok (w_db (after_yield w)) → Forall (respects claim) (w_env w) →
  remaining (w_env w) < seconds 30 → gate_keeps quotaGate claim →
  ∃ claimed w', tick key quotaGate telemetry claim w = (Ok claimed, w') ∧
    let operations := db_operations (w_db (after_yield w)) in
    if claimed then ∃ id op, operations !! id = Some op ∧
      eligible (w_now (after_yield w)) op = true ∧ Resolved id w'
    else ∀ id op, operations !! id = Some op → eligible (w_now (after_yield w)) op = false.
Proof.
  intros Hk Henv Ht Hg. unfold tick, mbind at 1, M_bind at 1.
  destruct (claim_operation_Some claim w Hk) as [(old & -> & Hold & He & _)|[-> Hn]].
  2: { eexists false, _. by split. }
  set (w1 := after_yield w) in *. set (op := claim_row claim (w_now w1) old).
  set (w2 := w1 <| w_db ::= λ db, db <| db_operations ::= <[op_id old := op]> |> |>).
  assert (Held (op_id old) claim (w_now w1 + seconds 30) w2) as Hw2.
  { split; [|split].
    - exists op. simpl. rewrite lookup_insert_eq. split_and!; try done. by apply (claim_row_active claim (w_now w1) old).
    - subst w2 w1. clear -Henv. destruct w as [? ? ? [|i env] ?]; [done|]. by inversion Henv.
    - subst w2 w1. clear -Ht. destruct w as [? ? ? [|i env] ?]; simpl in *; lia. }
  destruct (attempt_resolves key quotaGate telemetry claim (op_id old) (w_now w1 + seconds 30) op w2 Hg) as (w' & E & Hr);
    [by split|done|].
  exists true, w'. split; [exact E|]. by exists (op_id old), old.
Qed.

(** The deadline is checked before anything is done: an operation claimed
    after its deadline fails with [operation_deadline_exceeded] without a call
    of the cluster, its secret, worker and lease erased. *)
Theorem deadline_fails {K} `{KubernetesPort K} `{Aead} (key : list byte)
    (quotaGate : option (string → M (World K) bool)) (telemetry : bool) (claim : string)
    (w w1 : World K) (op : Operation) :
  keys_ok (w_db w) → w_env w = [] → claim_operation claim w = (Ok (Some op), w1) →
  js_date (op_deadline_at op) < js_date (w_now w) →
  ∃ w', tick key quotaGate telemetry claim w = (Ok true, w') ∧ w_kube w' = w_kube w ∧
    db_operations (w_db w') !! op_id op =
      Some (close_row Failed (Some "operation_deadline_exceeded"%string) (w_now w) op).
Proof.
  intros Hk Henv Hc Hd. assert (after_yield w = w) as Hy by (destruct w; simpl in *; by subst).
  destruct (claim_operation_Some claim w) as [(old & E & Hold & He & _)|[E _]];
    [by rewrite Hy| |by rewrite E in Hc].
  rewrite Hy in *. rewrite E in Hc. injection Hc as Hop Hw1.
  assert (Held (op_id op) claim (w_now w + seconds 30) w1) as Hh.
  { subst. split; [|split]; simpl.
    - eexists. rewrite lookup_insert_eq. split_and!; try done.
      by apply (claim_row_active claim (w_now w) old).
    - by rewrite Henv.
    - rewrite Henv. unfold seconds. simpl. lia. }
  assert (after_yield w1 = w1) as Hy1 by (subst; destruct w; simpl in *; by subst).
  destruct (finish_failure telemetry (op_id op) claim (w_now w + seconds 30) op eq_refl
    ltac:(by subst) Failed (Some "operation_deadline_exceeded"%string) w1)
    as (w' & Ef & _ & Hkube & Hops); [done..|].
  rewrite Hy1 in *. exists w'. split_and!.
  - unfold tick. rewrite (bind_Ok _ _ w (Some op) w1) by (by rewrite E, <- Hop, <- Hw1).
    unfold attempt, try_catch, mbind, M_bind, date_now, gets.
    replace (w_now w1) with (w_now w) by (by subst).
    rewrite (proj2 (Z.ltb_lt _ _) Hd). cbn [throw_if throw]. unfold throw, settle_failure, opError.
    by rewrite Ef.
  - rewrite Hkube. by subst.
  - rewrite Hops. subst w1. simpl. rewrite update_row_lookup, decide_True by done.
    rewrite <- Hop. simpl. rewrite lookup_insert_eq. simpl. unfold owned_by. simpl.
    by rewrite String.eqb_refl.
Qed.

(** ** Witnesses *)

(** A project waiting to be initialised, in a quiet world at time [now]. *)
Definition sample_operation : Operation :=
  new_operation 0 "op" "p" None ProjectCreate "key-0001" "hash"
    (empty_request <| rq_namespace := Some "ns"%string |>) None "u".
Definition operation_world (now : Z) : World memory :=
  MkWorld (sample_db <| db_operations := {[ "op" := sample_operation ]} |>) ∅ now [] [].

Lemma operation_world_keys now : keys_ok (w_db (operation_world now)).
Proof. intros id op. simpl. by intros [<- <-]%lookup_singleton_Some. Qed.

Lemma lost_lease_writes_nothing_witness :
  defer sample_operation None (operation_world 5) = (Ok tt, operation_world 5).
Proof.
  apply (@lost_lease_writes_nothing memory memory_port false sample_operation (operation_world 5)).
  intros op Hop. by vm_compute in Hop; simplify_eq.
Defined.

Lemma claim_takes_oldest_witness :
  ∃ op w', claim_operation "worker" (operation_world 5) = (Ok (Some op), w') ∧
    op_worker_id op = Some "worker"%string.
Proof.
  destruct (@claim_takes_oldest memory memory_port "worker" (operation_world 5)
    (operation_world_keys 5)) as (r & w' & E & Hr).
  destruct r as [op|].
  - destruct Hr as (id & old & _ & _ & _ & _ & Hw & _). exists op, w'. split; [exact E|exact Hw].
  - destruct Hr as [_ Hn]. specialize (Hn "op"%string sample_operation). by vm_compute in Hn.
Defined.

Lemma tick_resolves_witness :
  ∃ w', @tick memory memory_port plain_aead [] None false "worker" (operation_world 5) = (Ok true, w') ∧
    Resolved "op" w'.
Proof.
  destruct (@tick_resolves memory memory_port plain_aead [] None false "worker" (operation_world 5)
    (operation_world_keys 5) (Forall_nil_2 _) eq_refl I) as (claimed & w' & E & Hr).
  destruct claimed.
  - destruct Hr as (id & op & Hop & _ & Hr).
    change (({[ "op"%string := sample_operation ]} : gmap string Operation) !! id = Some op) in Hop.
    apply lookup_singleton_Some in Hop as [<- _].
    exists w'. split; [exact E|exact Hr].
  - specialize (Hr "op"%string sample_operation). by vm_compute in Hr.
Defined.

Lemma deadline_fails_witness :
  ∃ w', @tick memory memory_port plain_aead [] None false "worker" (operation_world (seconds 1201)) =
    (Ok true, w') ∧ w_kube w' = ∅.
Proof.
  destruct (claim_operation "worker" (operation_world (seconds 1201))) as [[[op|]|e] w1] eqn:E;
    [|by vm_compute in E..].
  destruct (@deadline_fails memory memory_port plain_aead [] None false "worker"
    (operation_world (seconds 1201)) w1 op (operation_world_keys _) eq_refl E) as (w' & E' & Hk & _).
  - vm_compute in E. injection E as <- _. reflexivity.
  - exists w'. split; [exact E'|exact Hk].
Defined.
