(* ===== verification/WorkerSafety.v ===== *)
(** * What the worker never does

    Theorems on [Worker] that hold along every run, whatever the cluster
    answers and however the other processes interleave: a finished operation
    is final, a recorded cluster identity is kept, and success is only
    recorded after it was observed.  Each is a preorder on databases that
    every step of the worker respects. *)
From Stdlib Require Import ZArith Lia Init.Byte.
From stdpp Require Import base tactics list option strings gmap relations.
From S2P Require Import Prelude Numbers Effects Catalog Contract Database Quotas Secrets Kubernetes.
From S2P Require Import Worker WorkerLease.

(** ** Walking the worker

    A step of the worker, for a relation [R]: everything is a write by one of
    a few statements, or a call of the cluster whose answer the rest may
    rely on. *)
Section walking.
Context {K : Type} (R : relation DB) `{!PreOrder R}.

Lemma within_kube {A B} (m : M K A) (f : A → M (World K) B) :
  (∀ a, (∃ k k', m k = (Ok a, k')) → within (world_rel R) (f a)) →
  within (world_rel R) (kube m ≫= f).
Proof.
  intros Hf w Hw. unfold mbind, M_bind. rewrite kube_eq.
  destruct (world_yield R w) as [H1 He1]; [done|]. change ((yield w).2) with (after_yield w) in *.
  unfold on_kube, zoom. destruct (m (w_kube (after_yield w))) as [[a|e] k'] eqn:Em; [|by split].
  destruct (Hf a (ex_intro _ _ (ex_intro _ _ Em)) (after_yield w <| w_kube := k' |>)) as [H2 He2];
    [done|]. split; [|done]. by etransitivity.
Qed.

Lemma within_need {A} o e (k : string → M (World K) A) :
  (∀ s, o = Some s → within (world_rel R) (k s)) → within (world_rel R) (need o e k).
Proof.
  intros Hk. unfold need. destruct o as [s|]; [destruct (String.eqb s "")|];
    [apply within_throw; typeclasses eauto|by apply Hk|apply within_throw; typeclasses eauto].
Qed.

Lemma within_guard {A} b e (k : () → M (World K) A) :
  (b = false → within (world_rel R) (k tt)) → within (world_rel R) (throw_if b e ≫= k).
Proof. intros Hk. destruct b; [by intros w|]. intros w. apply (Hk eq_refl). Qed.

End walking.

(** ** What the cluster has to have answered

    The ground on which an operation may be recorded as succeeded. *)
Section evidence.
Context {K : Type} `{KubernetesPort K}.

(** The cluster answered [m] with [a], in some state. *)
Definition answered {A} (m : M K A) (a : A) : Prop := ∃ k k', m k = (Ok a, k').

(** An object the cluster returned for the request. *)
Definition observed (operation : Operation) (desired object : CacheObject) : Prop :=
  answered (createInstance desired) object ∨
  (∃ expected, answered (updateInstance desired expected) object) ∨
  answered (getInstance (md_namespace (co_metadata desired)) (md_name (co_metadata desired))) (Some object).

(** It is the instance's, was written by this operation, and the controller
    reports this very generation as reached. *)
Definition confirmed (operation : Operation) (object : CacheObject) : Prop :=
  op_instance_id operation = Some (sp_instanceId (co_spec object)) ∧
  op_project_id operation = sp_projectId (co_spec object) ∧
  annotation object operation_key = Some (op_id operation) ∧
  (∃ g, md_generation (co_metadata object) = Some g ∧
     (co_status object ≫= ss_observedGeneration) = Some g ∧
     ∃ c, ready_condition object = Some c ∧ cd_observedGeneration c = Some g ∧
       if String.eqb (sp_desiredState (co_spec object)) "Suspended"
       then cd_reason c = "Suspended"%string else cd_status c = "True"%string).

Definition evidence (operation : Operation) : Prop :=
  let request := op_request operation in
  match op_kind operation with
  | ProjectCreate => ∃ namespace, rq_namespace request = Some namespace ∧
      answered (ensureProject namespace (op_project_id operation)) tt
  | VolumeDelete => ∃ namespace name uid instance, rq_namespace request = Some namespace ∧
      rq_name request = Some name ∧ rq_instanceUid request = Some uid ∧
      op_instance_id operation = Some instance ∧
      answered (getRetainedVolume (MkVolumeIdentity namespace name (op_project_id operation) instance uid)) None
  | InstanceDelete => ∃ namespace name, rq_namespace request = Some namespace ∧
      rq_name request = Some name ∧ answered (getInstance namespace name) None
  | OtherKind _ => False
  | _ => ∃ desired object, rq_desired request = Some desired ∧ observed operation desired object ∧
      confirmed operation object
  end.

(** The operations that may declare an instance deleted. *)
Definition deletes (operation : Operation) : Prop :=
  evidence operation ∧
  (op_kind operation = VolumeDelete ∨
   op_kind operation = InstanceDelete ∧ rq_deletionPolicy (op_request operation) = Some "Delete"%string).

(** The writes of the worker, each with what the code has established when it
    makes them: what a relation has to allow. *)
Record allows (R : relation DB) (operation : Operation) : Prop := {
  allows_defer code now db : R db (db <| db_operations ::=
    update_row (lease_held now (op_worker_id operation)) (defer_row code now) (op_id operation) |>);
  allows_policy now policy db : R db (db <| db_operations ::=
    update_row (lease_held now (op_worker_id operation))
      (λ op, op <| op_request ::= λ r, r <| rq_deletionPolicy := Some policy |> |>) (op_id operation) |>);
  allows_uid uid db : R db (db <| db_bindings ::= update_opt (bindable operation uid)
    (λ b, b <| bi_kubernetes_uid := Some uid |>) (op_instance_id operation) |>);
  allows_target g now db : R db (db <| db_operations ::= update_row (owned_by (op_worker_id operation))
    (λ op, op <| op_state := Reconciling |> <| op_target_generation := Some g |>
              <| op_updated_at := now |>) (op_id operation) |>);
  allows_lifecycle l db : (l = LDeleted → deletes operation) → R db (db <| db_bindings ::=
    update_opt always (λ b, b <| bi_lifecycle := l |>) (op_instance_id operation) |>);
  allows_active name db : R db (db <| db_bindings ::= update_opt always
    (λ b, b <| bi_lifecycle := LActive |> <| bi_display_name := name |>) (op_instance_id operation) |>);
  allows_settle id s c m db : R db (db <| db_bindings ::= update_row always (settle_row s c m) id |>);
  allows_credentials instance f db : R db (set_credentials instance f db);
  allows_project s db : R db (db <| db_projects ::=
    update_row always (λ p, p <| pr_state := s |>) (op_project_id operation) |>);
  allows_audit e db : R db (add_audit e db);
  allows_close state code now db : terminal state = true → (state = Succeeded → evidence operation) →
    R db (db <| db_operations ::=
      update_row (owned_by (op_worker_id operation)) (close_row state code now) (op_id operation) |>) }.
End evidence.

(** ** Every step of the worker is one of those writes *)
Section steps.
Context {K : Type} `{KubernetesPort K} `{Aead}.
Context (R : relation DB) `{!PreOrder R}.
Context (key : list byte) (quotaGate : option (string → M (World K) bool)) (telemetry : bool).
Context (Hgate : match quotaGate with
                 | Some gate => ∀ projectId, within (world_rel R) (gate projectId)
                 | None => True
                 end).

Lemma held_within operation : within (world_rel (K:=K) R) (held operation).
Proof. unfold held. world_solve. Qed.

Lemma finish_within operation state code (apply : M (World K) ()) :
  allows R operation → terminal state = true → (state = Succeeded → evidence operation) →
  within (world_rel R) apply → within (world_rel R) (finish telemetry operation state code apply).
Proof.
  intros Ha Hs He Hap. unfold finish. world_solve; try (by apply Ha); try done.
  - unfold settleResources. cbv zeta. world_solve. apply Ha.
Qed.

Lemma defer_within operation code : allows R operation → within (world_rel (K:=K) R) (defer operation code).
Proof. intros Ha. unfold defer. world_solve. apply Ha. Qed.

Lemma bind_within operation object :
  allows R operation → within (world_rel (K:=K) R) (bind operation object).
Proof. intros Ha. unfold bind. world_solve; first [apply Ha|apply held_within]. Qed.

(** The record [bind] hands on differs in two fields no write depends on. *)
Lemma allows_bound operation s g :
  allows R operation → allows R (operation <| op_state := s |> <| op_target_generation := g |>).
Proof. intros []. by split. Qed.

Lemma bind_then {A} operation object (k : Operation → M (World K) A) :
  allows R operation →
  (∀ s g, within (world_rel R) (k (operation <| op_state := s |> <| op_target_generation := g |>))) →
  within (world_rel R) (operation ← bind operation object; k operation).
Proof.
  intros Ha Hk w Hw. pose proof (bind_within operation object Ha w Hw) as Hb.
  unfold mbind, M_bind. destruct (bind operation object w) as [[operation'|e] w1] eqn:E; [|done].
  assert (∃ s g, operation' = operation <| op_state := s |> <| op_target_generation := g |>)
    as (s & g & ->).
  { unfold bind in E. destruct (md_uid _); [|done]. destruct (md_generation _) as [g|]; [|done].
    apply throw_if_bind in E as [_ E]. apply bind_Ok_inv in E as (bound & w2 & _ & E).
    apply throw_if_bind in E as [_ E]. injection E as <- _. by eexists _, _. }
  destruct Hb as [Hb1 Hb2]. destruct (Hk s g w1 Hb2). split; [|done]. by etransitivity.
Qed.

Ltac walk_step :=
  match goal with
  | |- within _ (kube _ ≫= _) => apply within_kube; [typeclasses eauto|intros ? ?]
  | |- within _ (throw_if _ _ ≫= _) => apply within_guard; [typeclasses eauto|intros ?]
  | |- within _ (need _ _ _) => apply within_need; [typeclasses eauto|intros ? ?]
  | |- within _ (defer _ _) => by apply defer_within
  | |- within _ (delete_credentials _ _ _) => unfold delete_credentials
  | |- within _ (if ?b then _ else _) => let E := fresh "E" in destruct b eqn:E
  | _ => world_step
  end.
Ltac walk := repeat walk_step.

Lemma project_create_within operation :
  op_kind operation = ProjectCreate → allows R operation →
  within (world_rel R) (execute_project_create (K:=K) telemetry operation).
Proof.
  intros Hk Ha. unfold execute_project_create. walk.
  apply finish_within; try done; [|world_solve; apply Ha].
  intros _. unfold evidence. rewrite Hk. destruct a; eauto.
Qed.

Lemma set_lifecycle_within operation l :
  allows R operation → (l = LDeleted → deletes operation) →
  within (world_rel (K:=K) R) (set_lifecycle operation l).
Proof. intros Ha Hl. unfold set_lifecycle. world_solve. by apply Ha. Qed.

Lemma volume_delete_within operation :
  op_kind operation = VolumeDelete → allows R operation →
  within (world_rel R) (execute_volume_delete (K:=K) telemetry operation).
Proof.
  intros Hk Ha. unfold execute_volume_delete. cbv zeta. walk.
  assert (evidence operation) as He by (unfold evidence; rewrite Hk; eauto 10).
  apply finish_within; try done. apply set_lifecycle_within; [done|]. intros _. split; auto.
Qed.

Lemma instance_delete_within operation :
  op_kind operation = InstanceDelete → allows R operation →
  within (world_rel R) (execute_instance_delete (K:=K) telemetry operation).
Proof.
  intros Hk Ha. unfold execute_instance_delete. cbv zeta. walk; try apply Ha.
  assert (evidence operation) as He by (unfold evidence; rewrite Hk; eauto 10).
  apply finish_within; try done. world_solve; [|apply Ha].
  apply set_lifecycle_within; [done|]. split_if E'; [|done]. intros _. split; [done|right].
  split; [done|]. apply String.eqb_eq in E'. unfold nullish in E'.
  destruct (rq_deletionPolicy _); simpl in E'; by subst.
Qed.

Lemma check_reclaim_within operation desired :
  within (world_rel (K:=K) R) (check_reclaim operation desired).
Proof. unfold check_reclaim. cbv zeta. walk. Qed.

Lemma is_done_spec object g :
  md_generation (co_metadata object) = Some g → is_done object = true →
  (co_status object ≫= ss_observedGeneration) = Some g ∧
  ∃ c, ready_condition object = Some c ∧ cd_observedGeneration c = Some g ∧
    if String.eqb (sp_desiredState (co_spec object)) "Suspended"
    then cd_reason c = "Suspended"%string else cd_status c = "True"%string.
Proof.
  intros Hg Hd. unfold is_done, oeq in Hd. apply andb_true_iff in Hd as [H1 H2].
  apply bool_decide_eq_true in H1. split; [congruence|].
  destruct (ready_condition object) as [c|] eqn:Ec; [|by case_match].
  exists c. split; [done|]. split.
  - unfold ready_condition in Ec. apply bind_Some in Ec as (st & _ & Ec).
    apply bind_Some in Ec as (cs & _ & [_ Ec]%js_find_Some). unfold oeq in Ec. boolify. congruence.
  - case_match; apply bool_decide_eq_true in H2; by injection H2.
Qed.

Definition instance_kinds : list Kind := [InstanceCreate; InstanceReclaim; InstanceUpdate; InstanceRotate].

Lemma evidence_instance operation desired object :
  op_kind operation ∈ instance_kinds → rq_desired (op_request operation) = Some desired →
  observed operation desired object → confirmed operation object → evidence operation.
Proof.
  intros Hk Hd Ho Hc. unfold evidence. unfold instance_kinds in Hk.
  repeat (apply elem_of_cons in Hk as [-> |Hk]; [by exists desired, object|]).
  by apply not_elem_of_nil in Hk.
Qed.

Lemma conclude_within operation desired object :
  op_kind operation ∈ instance_kinds → rq_desired (op_request operation) = Some desired →
  observed operation desired object → allows R operation →
  within (world_rel R) (conclude (K:=K) telemetry operation desired object).
Proof.
  intros Hk Hd Ho Ha. unfold conclude. cbv zeta. walk; try done.
  apply finish_within; try done; [|world_solve; apply Ha].
  intros _. eapply evidence_instance; [done..|]. unfold oeq in *. boolify.
  split_and!; try done. eexists. split; [eassumption|]. by apply is_done_spec.
Qed.

Lemma approve_within operation desired object :
  within (world_rel (K:=K) R) (approve_reclaim operation desired object).
Proof. unfold approve_reclaim. cbv zeta. walk. Qed.

(** What follows the two ways of getting hold of the object. *)
Definition rest_within operation desired (m : M (World K) (CacheObject * Operation)) : Prop :=
  ∀ k : CacheObject * Operation → M (World K) (),
    (∀ object s g, observed operation desired object →
       within (world_rel R) (k (object, operation)) ∧
       within (world_rel R) (k (object, operation <| op_state := s |> <| op_target_generation := g |>))) →
    within (world_rel R) (m ≫= k).

Lemma handed_over {A} operation desired object (k : CacheObject * Operation → M (World K) A) :
  allows R operation → observed operation desired object →
  (∀ object s g, observed operation desired object →
     within (world_rel R) (k (object, operation)) ∧
     within (world_rel R) (k (object, operation <| op_state := s |> <| op_target_generation := g |>))) →
  within (world_rel R) ((operation ← bind operation object; mret (object, operation)) ≫= k).
Proof.
  intros Ha Ho Hk. apply within_assoc, bind_then; [done|]. intros s g.
  apply (Hk object s g Ho).
Qed.

Lemma submit_within operation desired :
  allows R operation → rest_within operation desired (submit key operation desired).
Proof.
  intros Ha k Hk. unfold submit. cbv zeta.
  apply within_assoc, within_bind; [typeclasses eauto|walk; apply check_reclaim_within|intros _].
  do 2 (apply within_assoc, within_bind; [typeclasses eauto|walk|intros _]).
  apply within_assoc. destruct (creates (op_kind operation)).
  - apply within_kube; [typeclasses eauto|]. intros object Ho.
    apply (handed_over _ desired); [done| |done]. by left.
  - unfold need. destruct (rq_expectedRevision _) as [r|]; [destruct (String.eqb r "")|];
      [by intros w| |by intros w].
    apply within_kube; [typeclasses eauto|]. intros object Ho.
    apply (handed_over _ desired); [done| |done]. right. left. by exists r.
Qed.

Lemma recover_within operation desired :
  allows R operation → rest_within operation desired (recover operation desired).
Proof.
  intros Ha k Hk. unfold recover. apply within_assoc, within_kube; [typeclasses eauto|].
  intros [current|] Hc; [|by intros w].
  assert (observed operation desired current) as Ho by (by right; right).
  split_if E.
  - apply within_assoc, within_guard; [typeclasses eauto|intros _].
    by apply (handed_over _ desired).
  - intros w. by apply (Hk current Pending None).
Qed.

Lemma execute_instance_within operation :
  op_kind operation ∈ instance_kinds → allows R operation →
  within (world_rel R) (execute_instance (K:=K) key telemetry operation).
Proof.
  intros Hk Ha. unfold execute_instance. destruct (rq_desired _) as [desired|] eqn:Hd; [|by intros w].
  assert (rest_within operation desired (if bool_decide (op_state operation = Reconciling)
    then recover operation desired else submit key operation desired)) as Hr.
  { split_if E; [by apply recover_within|by apply submit_within]. }
  apply Hr. intros object s g Ho. split.
  all: apply within_bind; [typeclasses eauto|walk; apply approve_within|intros _].
  all: apply conclude_within; try done. by apply allows_bound.
Qed.

Lemma execute_within operation :
  allows R operation → within (world_rel R) (execute (K:=K) key quotaGate telemetry operation).
Proof.
  intros Ha. unfold execute. apply within_bind; [typeclasses eauto| |intros ready].
  - destruct quotaGate; walk.
  - destruct ready; cbn [negb]; [|by apply defer_within].
    destruct (op_kind operation) eqn:Hk; first
      [by apply project_create_within|by apply instance_delete_within|by apply volume_delete_within
      |by intros w|apply execute_instance_within; [rewrite Hk; unfold instance_kinds; set_solver|done]].
Qed.

Lemma attempt_within operation :
  allows R operation →
  within (world_rel R) (try_catch (attempt (K:=K) key quotaGate telemetry operation)
    (settle_failure telemetry operation)).
Proof.
  intros Ha. apply within_try_catch; [typeclasses eauto| |].
  - unfold attempt. walk. by apply execute_within.
  - intros e. unfold settle_failure. walk; apply finish_within; try done; auto with within.
    all: by destruct superseded.
Qed.
End steps.

(** ** The four relations *)

(** *** Finished operations are final *)
Definition cleared (op : Operation) : Prop :=
  op_worker_id op = None ∧ op_lease_until op = None ∧ op_secret_payload op = None.
(** Rows are stored under their identifier, and finished ones keep no worker,
    lease or secret. *)
Definition orderly (db : DB) : Prop :=
  keys_ok db ∧ ∀ id op, db_operations db !! id = Some op → terminal (op_state op) = true → cleared op.
Definition final_step (db db' : DB) : Prop := orderly db → orderly db' ∧
  ∀ id op, db_operations db !! id = Some op → terminal (op_state op) = true →
    db_operations db' !! id = Some op.

#[export] Instance final_step_preorder : PreOrder final_step.
Proof.
  split; [by intros db Hdb|]. intros db1 db2 db3 H12 H23 H1.
  destruct (H12 H1) as [H2 Hk]. destruct (H23 H2) as [H3 Hk']. auto.
Qed.

Lemma final_same db db' : db_operations db' = db_operations db → final_step db db'.
Proof. intros E [Hk Hc]. unfold orderly, keys_ok. by rewrite E. Qed.

Lemma final_update p f id db :
  (∀ op, p op = true → cleared op → False) →
  (∀ op, p op = true → terminal (op_state op) = false →
     op_id (f op) = op_id op ∧ (terminal (op_state (f op)) = true → cleared (f op))) →
  final_step db (db <| db_operations ::= update_row p f id |>).
Proof.
  intros Hp Hf [Hk Hc].
  assert (∀ j op, db_operations db !! j = Some op → p op = true → terminal (op_state op) = false) as Hn.
  { intros j op Hop E. destruct (terminal (op_state op)) eqn:Ht; [exfalso; eauto|done]. }
  split; [split|].
  - intros j op. simpl. rewrite update_row_lookup. case_decide; [subst j|apply Hk].
    intros (o & Ho & ->)%fmap_Some. rewrite <- (Hk _ _ Ho).
    destruct (p o) eqn:E; [apply Hf; eauto|done].
  - intros j op. simpl. rewrite update_row_lookup. case_decide; [subst j|apply Hc].
    intros (o & Ho & ->)%fmap_Some. destruct (p o) eqn:E; [apply Hf; eauto|eauto].
  - intros j op Hop Ht. simpl. rewrite update_row_lookup. case_decide; [subst j|done].
    rewrite Hop. simpl. destruct (p op) eqn:E; [exfalso|done]. eauto.
Qed.

Lemma owned_cleared worker op : owned_by worker op = true → cleared op → False.
Proof. unfold owned_by. intros Ho (Hw & _). by rewrite Hw in Ho. Qed.
Lemma held_cleared now worker op : lease_held now worker op = true → cleared op → False.
Proof. unfold lease_held. intros [Ho _]%andb_true_iff. by eapply owned_cleared. Qed.

Lemma final_allows {K} `{KubernetesPort K} operation : allows final_step operation.
Proof.
  split; intros; try by apply final_same.
  all: apply final_update; try apply owned_cleared; try apply held_cleared.
  all: intros op _ Hn; split; [done|]; simpl; intros Ht; try done; congruence.
Qed.

Lemma final_claim claim now id old db :
  db_operations db !! id = Some old → eligible now old = true → op_id old = id →
  final_step db (db <| db_operations ::= <[id := claim_row claim now old]> |>).
Proof.
  intros Hold He Hid [Hk Hc]. pose proof (claim_row_active claim now old He) as Ha.
  assert (terminal (op_state old) = false) as Hn.
  { unfold eligible in He. by destruct (op_state old). }
  split; [split|].
  - intros j op. simpl. rewrite lookup_insert. case_decide; [intros [= <-]; by subst|apply Hk].
  - intros j op. simpl. rewrite lookup_insert. case_decide; [intros [= <-] Ht|apply Hc].
    exfalso. apply elem_of_cons in Ha as [Ha|[Ha|[]%not_elem_of_nil]%elem_of_cons];
      by rewrite Ha in Ht.
  - intros j op Hop Ht. simpl. rewrite lookup_insert. case_decide; [subst j|done]. congruence.
Qed.

(** *** Instances keep their identity *)
Definition same_request (a b : Operation) : Prop :=
  op_kind a = op_kind b ∧ op_instance_id a = op_instance_id b ∧
  rq_previousInstanceUID (op_request a) = rq_previousInstanceUID (op_request b).
(** The request [operation] was read from is still the one stored. *)
Definition current_request (operation : Operation) (db : DB) : Prop :=
  ∃ op, db_operations db !! op_id operation = Some op ∧ same_request operation op.
(** A stored request to reclaim the instance from the identity [u]. *)
Definition reclaimed_from (db : DB) (id u : string) : Prop := ∃ oid op,
  db_operations db !! oid = Some op ∧ op_kind op = InstanceReclaim ∧ op_instance_id op = Some id ∧
  rq_previousInstanceUID (op_request op) = Some u.
Definition identity_step (db db' : DB) : Prop :=
  (∀ id op, db_operations db !! id = Some op →
     ∃ op', db_operations db' !! id = Some op' ∧ same_request op op') ∧
  (∀ id b, db_bindings db !! id = Some b →
     ∃ b', db_bindings db' !! id = Some b' ∧ bi_project_id b' = bi_project_id b ∧
       bi_resource_name b' = bi_resource_name b ∧
       ∀ u, bi_kubernetes_uid b = Some u → bi_kubernetes_uid b' = Some u ∨ reclaimed_from db' id u).
(** The same, by a worker that holds a copy of a stored request. *)
Definition identity_by (operation : Operation) (db db' : DB) : Prop :=
  current_request operation db → identity_step db db'.

Lemma same_request_trans a b c : same_request a b → same_request b c → same_request a c.
Proof. intros (? & ? & ?) (? & ? & ?). split_and!; congruence. Qed.

#[export] Instance identity_step_preorder : PreOrder identity_step.
Proof.
  split.
  - intros db. split; intros id x Hx; exists x; (split; [done|]); [done|]. auto.
  - intros d1 d2 d3 [O12 B12] [O23 B23]. split.
    + intros id op Hop. destruct (O12 _ _ Hop) as (op2 & Hop2 & ?).
      destruct (O23 _ _ Hop2) as (op3 & ? & ?). exists op3. split; [done|by eapply same_request_trans].
    + intros id b Hb. destruct (B12 _ _ Hb) as (b2 & Hb2 & ? & ? & H2).
      destruct (B23 _ _ Hb2) as (b3 & ? & ? & ? & H3). exists b3. split_and!; try congruence.
      intros u Hu. destruct (H2 u Hu) as [Hu2|(oid & op & Hop & ? & ? & ?)]; [by apply H3|right].
      destruct (O23 _ _ Hop) as (op3 & ? & ? & ? & ?). exists oid, op3. split_and!; congruence.
Qed.

Lemma current_request_step operation db db' :
  current_request operation db → identity_step db db' → current_request operation db'.
Proof.
  intros (op & Hop & Hs) [HO _]. destruct (HO _ _ Hop) as (op' & ? & ?).
  exists op'. split; [done|by eapply same_request_trans].
Qed.

#[export] Instance identity_by_preorder operation : PreOrder (identity_by operation).
Proof.
  split; [by intros db _|]. intros d1 d2 d3 H12 H23 Hc. specialize (H12 Hc).
  etransitivity; [exact H12|]. apply H23. by eapply current_request_step.
Qed.

Lemma identity_same db db' :
  db_operations db' = db_operations db → db_bindings db' = db_bindings db → identity_step db db'.
Proof.
  intros EO EB. split; intros id x Hx; exists x; rewrite ?EO, ?EB; (split; [done|]); [done|]. auto.
Qed.

Lemma identity_operations p f id db :
  (∀ op, same_request op (f op)) →
  identity_step db (db <| db_operations ::= update_row p f id |>).
Proof.
  intros Hf. split.
  - intros j op Hop. simpl. rewrite update_row_lookup, Hop. case_decide; [|by exists op].
    simpl. destruct (p op); eexists; (split; [done|]); [apply Hf|done].
  - intros j b Hb. exists b. simpl. auto.
Qed.

Lemma identity_bindings p f id db :
  (∀ b, bi_project_id (f b) = bi_project_id b ∧ bi_resource_name (f b) = bi_resource_name b ∧
        bi_kubernetes_uid (f b) = bi_kubernetes_uid b) →
  identity_step db (db <| db_bindings ::= update_row p f id |>).
Proof.
  intros Hf. split; [intros j op Hop; exists op; by split|].
  intros j b Hb. simpl. rewrite update_row_lookup, Hb.
  case_decide; [|by exists b; auto]. simpl. destruct (Hf b) as (? & ? & E).
  destruct (p b); eexists; (split; [done|]); [|auto]. split_and!; [done..|]. rewrite E. auto.
Qed.

Lemma identity_bindings_opt p f id db :
  (∀ b, bi_project_id (f b) = bi_project_id b ∧ bi_resource_name (f b) = bi_resource_name b ∧
        bi_kubernetes_uid (f b) = bi_kubernetes_uid b) →
  identity_step db (db <| db_bindings ::= update_opt p f id |>).
Proof.
  intros Hf. destruct id as [id|]; [by apply identity_bindings|]. by apply identity_same.
Qed.

Lemma identity_bind operation uid db :
  current_request operation db →
  identity_step db (db <| db_bindings ::= update_opt (bindable operation uid)
    (λ b, b <| bi_kubernetes_uid := Some uid |>) (op_instance_id operation) |>).
Proof.
  intros (op & Hop & Hk & Hi & Hpu).
  destruct (op_instance_id operation) as [id|]; [|by apply identity_same].
  split; [intros j o Ho; exists o; by split|].
  intros j b Hb. simpl. rewrite update_row_lookup, Hb. case_decide; [subst j|by exists b; auto].
  simpl. destruct (bindable operation uid b) eqn:Eb; [|by exists b; auto].
  eexists. split; [done|]. split_and!; [done..|]. simpl. intros u Hu.
  unfold bindable in Eb. rewrite Hu in Eb. apply andb_true_iff in Eb as [_ Eb].
  apply orb_true_iff in Eb as [->%String.eqb_eq|Eb]; [by left|right].
  unfold sql_eq in Eb. destruct (rq_previousInstanceUID (op_request operation)) as [v|] eqn:Ev;
    [|by rewrite andb_false_r in Eb].
  boolify. subst. eexists _, op. split; [exact Hop|]. split_and!; congruence.
Qed.

Lemma identity_allows {K} `{KubernetesPort K} operation : allows (identity_by operation) operation.
Proof.
  split; intros; intros Hc; try (by apply identity_same); try (by apply identity_operations);
    try (by apply identity_bindings); try (by apply identity_bindings_opt); try (by apply identity_bind).
Qed.

(** *** Deletion and success need their ground *)
Section grounds.
Context {K : Type} `{KubernetesPort K} (operation : Operation).

Definition deleted_in (db : DB) (id : string) : Prop :=
  ∃ b, db_bindings db !! id = Some b ∧ bi_lifecycle b = LDeleted.
Definition deletion_step (db db' : DB) : Prop := ∀ id,
  deleted_in db' id → deleted_in db id ∨ deletes operation ∧ op_instance_id operation = Some id.

Definition succeeded_in (db : DB) : Prop :=
  ∃ op, db_operations db !! op_id operation = Some op ∧ op_state op = Succeeded.
Definition success_step (db db' : DB) : Prop :=
  succeeded_in db' → succeeded_in db ∨ evidence operation.

#[export] Instance deletion_step_preorder : PreOrder deletion_step.
Proof.
  split; [by left|]. intros d1 d2 d3 H12 H23 id [H2|?]%H23; [by apply H12|by right].
Qed.
#[export] Instance success_step_preorder : PreOrder success_step.
Proof. split; [by left|]. intros d1 d2 d3 H12 H23 [H2|?]%H23; [by apply H12|by right]. Qed.

Lemma deletion_same db db' : db_bindings db' = db_bindings db → deletion_step db db'.
Proof. intros E id Hd. left. unfold deleted_in in *. by rewrite E in Hd. Qed.

Lemma deletion_update p f id db :
  (∀ b, bi_lifecycle (f b) = LDeleted →
     bi_lifecycle b = LDeleted ∨ deletes operation ∧ op_instance_id operation = Some id) →
  deletion_step db (db <| db_bindings ::= update_row p f id |>).
Proof.
  intros Hf j (b & Hb & Hl). simpl in Hb. rewrite update_row_lookup in Hb.
  case_decide; [subst j|by left; exists b].
  apply fmap_Some in Hb as (b0 & Hb0 & ->). destruct (p b0); [|by left; exists b0].
  destruct (Hf b0 Hl) as [?|?]; [left; by exists b0|by right].
Qed.

Lemma deletion_update_opt p f id db :
  (∀ i b, id = Some i → bi_lifecycle (f b) = LDeleted →
     bi_lifecycle b = LDeleted ∨ deletes operation ∧ op_instance_id operation = Some i) →
  deletion_step db (db <| db_bindings ::= update_opt p f id |>).
Proof.
  intros Hf. destruct id as [id|]; [apply deletion_update; eauto|by apply deletion_same].
Qed.

Lemma deletion_allows : allows deletion_step operation.
Proof.
  split; intros; try (by apply deletion_same).
  - apply deletion_update_opt. simpl. auto.
  - apply deletion_update_opt. simpl. intros i b Hi ->. auto.
  - by apply deletion_update_opt.
  - apply deletion_update. simpl. auto.
Qed.

Lemma success_same db db' : db_operations db' = db_operations db → success_step db db'.
Proof. intros E Hs. left. unfold succeeded_in in *. by rewrite E in Hs. Qed.

Lemma success_update p f db :
  (∀ op, op_state (f op) = Succeeded → op_state op = Succeeded ∨ evidence operation) →
  success_step db (db <| db_operations ::= update_row p f (op_id operation) |>).
Proof.
  intros Hf (op & Hop & Hs). simpl in Hop. rewrite update_row_lookup, decide_True in Hop by done.
  apply fmap_Some in Hop as (o & Ho & ->). destruct (p o); [|left; by exists o].
  destruct (Hf o Hs) as [?|?]; [left; by exists o|by right].
Qed.

Lemma success_allows : allows success_step operation.
Proof.
  split; intros; try (by apply success_same); apply success_update; simpl; auto; done.
Qed.
End grounds.

(** ** Whole cycles *)
Definition gate_within {K} (R : relation DB) (quotaGate : option (string → M (World K) bool)) : Prop :=
  match quotaGate with
  | Some gate => ∀ projectId, within (world_rel R) (gate projectId)
  | None => True
  end.

Section cycles.
Context {K : Type} `{KubernetesPort K} `{Aead}.
Context (key : list byte) (quotaGate : option (string → M (World K) bool)) (telemetry : bool).
Context (claim : string).
Implicit Types (w : World K).

Lemma tick_after_claim (R : relation DB) `{!PreOrder R} operation w w1 :
  gate_within R quotaGate → claim_operation claim w = (Ok (Some operation), w1) →
  env_moves R w1 → allows R operation →
  R (w_db w1) (w_db (tick key quotaGate telemetry claim w).2).
Proof.
  intros Hg Hc Henv Ha. unfold tick. rewrite (bind_Ok _ _ _ _ _ Hc).
  destruct (attempt_within R key quotaGate telemetry Hg operation Ha w1 Henv) as [Hr _].
  unfold mbind, M_bind. destruct (try_catch _ _ w1) as [[[]|e] w2]; exact Hr.
Qed.

Lemma claimed_row w w1 operation :
  keys_ok (w_db (after_yield w)) → claim_operation claim w = (Ok (Some operation), w1) →
  db_operations (w_db w1) !! op_id operation = Some operation.
Proof.
  intros Hk Hc. destruct (claim_operation_Some claim w Hk) as [(old & E & _)|[E _]];
    rewrite E in Hc; [|done].
  injection Hc as <- <-. simpl. apply lookup_insert_eq.
Qed.

Lemma claimed_active w w1 operation :
  keys_ok (w_db (after_yield w)) → claim_operation claim w = (Ok (Some operation), w1) →
  op_state operation ∈ [Applying; Reconciling].
Proof.
  intros Hk Hc. destruct (claim_operation_Some claim w Hk) as [(old & E & _ & He & _)|[E _]];
    rewrite E in Hc; [|done].
  injection Hc as <- _. by apply (claim_row_active claim (w_now (after_yield w)) old).
Qed.

Lemma tick_final w :
  gate_within final_step quotaGate → env_moves final_step w → orderly (w_db w) →
  final_step (w_db w) (w_db (tick key quotaGate telemetry claim w).2).
Proof.
  intros Hg Henv Ho. destruct (world_yield final_step w Henv) as [Hy Henv'].
  change ((yield w).2) with (after_yield w) in *.
  pose proof (proj1 (Hy Ho)) as Ho1.
  destruct (claim_operation_Some claim w (proj1 Ho1)) as [(old & Hc & Hold & He & _)|[Hc _]].
  - pose proof (tick_after_claim final_step _ _ _ Hg Hc Henv' (final_allows _)) as Ht.
    etransitivity; [exact Hy|]. etransitivity; [|exact Ht].
    by apply (final_claim claim (w_now (after_yield w)) (op_id old) old).
  - unfold tick. rewrite (bind_Ok _ _ _ _ _ Hc). exact Hy.
Qed.
End cycles.

(** ** Properties *)

(** C2. A finished operation is final.  A cycle of a worker, with any
    interleaving of processes that respect the same rule, leaves every
    succeeded, failed or superseded operation exactly as it was, and keeps the
    database orderly: finished operations carry no worker, lease or secret. *)
Theorem finished_is_final {K} `{KubernetesPort K} `{Aead} (key : list byte)
    (quotaGate : option (string → M (World K) bool)) (telemetry : bool) (claim : string)
    (w : World K) (id : string) (op : Operation) :
  gate_within final_step quotaGate → env_moves final_step w → orderly (w_db w) →
  let db' := w_db (tick key quotaGate telemetry claim w).2 in
  orderly db' ∧
  (db_operations (w_db w) !! id = Some op → terminal (op_state op) = true →
   db_operations db' !! id = Some op).
Proof.
  intros Hg Henv Ho. destruct (tick_final key quotaGate telemetry claim w Hg Henv Ho Ho). auto.
Qed.

(** A recorded cluster identity is kept.  Along a cycle on a claimed
    operation no instance loses its project or resource name, and its cluster
    identity only ever changes when a stored request reclaims the instance
    from the very identity it had. *)
Theorem identity_is_kept {K} `{KubernetesPort K} `{Aead} (key : list byte)
    (quotaGate : option (string → M (World K) bool)) (telemetry : bool) (claim : string)
    (w w1 : World K) (operation : Operation) (id : string) (b : Binding) :
  keys_ok (w_db (after_yield w)) → claim_operation claim w = (Ok (Some operation), w1) →
  gate_within (identity_by operation) quotaGate → env_moves (identity_by operation) w1 →
  db_bindings (w_db w1) !! id = Some b →
  let db' := w_db (tick key quotaGate telemetry claim w).2 in
  ∃ b', db_bindings db' !! id = Some b' ∧ bi_project_id b' = bi_project_id b ∧
    bi_resource_name b' = bi_resource_name b ∧
    ∀ u, bi_kubernetes_uid b = Some u → bi_kubernetes_uid b' = Some u ∨ reclaimed_from db' id u.
Proof.
  intros Hk Hc Hg Henv Hb.
  assert (current_request operation (w_db w1)) as Hr.
  { exists operation. split; [|done]. by eapply claimed_row. }
  destruct (tick_after_claim key quotaGate telemetry claim (identity_by operation) operation w w1
    Hg Hc Henv (identity_allows operation) Hr) as [_ HB].
  by apply HB.
Qed.

(** C3. Success is only recorded after it was observed.  If nobody else marks
    the claimed operation succeeded, then a cycle that does has the ground
    [evidence]: the namespace was ensured (project creation), the cluster
    answered that the object or volume is gone (deletions), or it returned an
    object that is the instance's, carries this operation's identifier and is
    reported ready (or suspended, as desired) at its current generation. *)
Theorem success_is_observed {K} `{KubernetesPort K} `{Aead} (key : list byte)
    (quotaGate : option (string → M (World K) bool)) (telemetry : bool) (claim : string)
    (w w1 : World K) (operation : Operation) :
  keys_ok (w_db (after_yield w)) → claim_operation claim w = (Ok (Some operation), w1) →
  gate_within (success_step operation) quotaGate → env_moves (success_step operation) w1 →
  succeeded_in operation (w_db (tick key quotaGate telemetry claim w).2) →
  evidence operation.
Proof.
  intros Hk Hc Hg Henv Hs.
  destruct (tick_after_claim key quotaGate telemetry claim (success_step operation) operation w w1
    Hg Hc Henv (success_allows operation) Hs) as [(op & Hop & Hst)|?]; [exfalso|done].
  rewrite (claimed_row claim w w1 operation Hk Hc) in Hop. injection Hop as <-.
  pose proof (claimed_active claim w w1 operation Hk Hc) as Ha. rewrite Hst in Ha.
  by repeat (apply elem_of_cons in Ha as [?|Ha]; [done|]); apply not_elem_of_nil in Ha.
Qed.

(** C4. An instance is only declared deleted by a deletion.  Along a cycle on
    a claimed operation no instance becomes deleted (its storage reservation
    released) unless the operation is that instance's volume deletion and the
    cluster answered that the volume is gone, or its instance deletion with
    the policy [Delete] recorded and the object gone; an instance deletion
    without a recorded policy retains the storage. *)
Theorem deletion_is_earned {K} `{KubernetesPort K} `{Aead} (key : list byte)
    (quotaGate : option (string → M (World K) bool)) (telemetry : bool) (claim : string)
    (w w1 : World K) (operation : Operation) (id : string) :
  claim_operation claim w = (Ok (Some operation), w1) →
  gate_within (deletion_step operation) quotaGate → env_moves (deletion_step operation) w1 →
  deleted_in (w_db (tick key quotaGate telemetry claim w).2) id → ¬ deleted_in (w_db w1) id →
  op_instance_id operation = Some id ∧ evidence operation ∧
  (op_kind operation = VolumeDelete ∨
   op_kind operation = InstanceDelete ∧
   rq_deletionPolicy (op_request operation) = Some "Delete"%string).
Proof.
  intros Hc Hg Henv Hd Hn.
  destruct (tick_after_claim key quotaGate telemetry claim (deletion_step operation) operation w w1
    Hg Hc Henv (deletion_allows operation) id Hd) as [?|[[He Hk] Hi]]; [done|].
  by split_and!.
Qed.

(** ** Witnesses *)

(** A finished operation, a running deletion of the instance [i] and its binding. *)
Definition finished_operation : Operation :=
  close_row Succeeded None 3 (sample_operation <| op_id := "done"%string |>).
Definition deleting_operation : Operation :=
  new_operation 0 "del" "p" (Some "i"%string) InstanceDelete "key-0002" "hash"
    (empty_request <| rq_namespace := Some "ns"%string |> <| rq_name := Some "c-i"%string |>
                   <| rq_uid := Some "u1"%string |> <| rq_deletionPolicy := Some "Delete"%string |>) None "u".
Definition deleting_world : World memory :=
  MkWorld (sample_db <| db_operations := {[ "done" := finished_operation; "del" := deleting_operation ]} |>
                     <| db_bindings := {[ "i" := sample_binding <| bi_kubernetes_uid := Some "u1"%string |>
                                              <| bi_lifecycle := LDeleting |> ]} |>) ∅ 5 [] [].

Lemma deleting_world_orderly : orderly (w_db deleting_world).
Proof.
  split; intros id op; simpl; rewrite lookup_insert; case_decide; subst;
    try (by intros [= <-]); by intros [<- <-]%lookup_singleton_Some.
Qed.

Lemma finished_is_final_witness :
  db_operations (w_db (@tick memory memory_port plain_aead [] None false "worker" deleting_world).2)
    !! "done"%string = Some finished_operation.
Proof.
  apply (@finished_is_final memory memory_port plain_aead [] None false "worker" deleting_world "done"
    finished_operation I (Forall_nil_2 _) deleting_world_orderly); reflexivity.
Defined.

Lemma identity_is_kept_witness :
  ∃ b', db_bindings (w_db (@tick memory memory_port plain_aead [] None false "worker" deleting_world).2)
    !! "i"%string = Some b' ∧ bi_project_id b' = "p"%string.
Proof.
  destruct (claim_operation (K:=memory) "worker" deleting_world) as [[[operation|]|e] w1] eqn:E;
    [|by vm_compute in E..].
  destruct (@identity_is_kept memory memory_port plain_aead [] None false "worker" deleting_world w1
    operation "i" (sample_binding <| bi_kubernetes_uid := Some "u1"%string |> <| bi_lifecycle := LDeleting |>)
    (proj1 deleting_world_orderly) E I) as (b' & Hb & Hp & _).
  - vm_compute in E. injection E as _ <-. constructor.
  - vm_compute in E. injection E as _ <-. reflexivity.
  - exists b'. split; [exact Hb|exact Hp].
Defined.

Lemma success_is_observed_witness :
  ∃ operation, op_kind operation = ProjectCreate ∧ @evidence memory memory_port operation.
Proof.
  destruct (claim_operation (K:=memory) "worker" (operation_world 5)) as [[[operation|]|e] w1] eqn:E;
    [|by vm_compute in E..].
  exists operation. split; [by vm_compute in E; injection E as <- _|].
  apply (@success_is_observed memory memory_port plain_aead [] None false "worker" (operation_world 5) w1
    operation (operation_world_keys 5) E I).
  - vm_compute in E. injection E as _ <-. constructor.
  - vm_compute in E. injection E as <- _. eexists. split; vm_compute; reflexivity.
Defined.

Lemma deletion_is_earned_witness :
  ∃ operation, op_instance_id operation = Some "i"%string ∧ op_kind operation = InstanceDelete ∧
    @evidence memory memory_port operation.
Proof.
  destruct (claim_operation (K:=memory) "worker" deleting_world) as [[[operation|]|e] w1] eqn:E;
    [|by vm_compute in E..].
  exists operation.
  destruct (@deletion_is_earned memory memory_port plain_aead [] None false "worker" deleting_world w1
    operation "i" E I) as (Hi & He & _).
  - vm_compute in E. injection E as _ <-. constructor.
  - eexists. split; vm_compute; reflexivity.
  - vm_compute in E. injection E as _ <-. intros (b & Hb & Hl). vm_compute in Hb.
    injection Hb as <-. discriminate Hl.
  - split; [exact Hi|split; [by vm_compute in E; injection E as <- _|exact He]].
Defined.
