(* ===== verification/QuotaSync.v ===== *)
(** * Quota synchronisation

    [apps/admin-api/src/quota-sync.ts]: applying a project's limits to its
    namespace, by the gate the operation worker asks before it provisions
    ([ensure]) and by the periodic cycle ([tick]).

    The project's row stays locked from the read to the write, so the call of
    the cluster inside the transaction sees no interference on it: the other
    processes run before the transaction starts. *)
From Stdlib Require Import ZArith Lia Init.Byte.
From stdpp Require Import base tactics list option strings gmap.
From S2P Require Import Prelude Numbers Effects Catalog Contract Database Quotas Secrets Kubernetes Worker.
From S2P Require Import WorkerLease WorkerSafety.

(** [QuotaPort] *)
Class QuotaPort (K : Type) := {
  ensureProjectQuota (namespace projectId revision : string) (limits : Quota) : M K bool }.

(** The text of a failed call. *)
Definition failure_code (e : exn) : string :=
  match e with
  | OperationError code _ => code
  | e => match statusCode e with
         | Some (CNum n) => if (400 <=? n) && (n <=? 599) then "kubernetes_" +:+ dec_str n
                            else "kubernetes_unavailable"
         | _ => "kubernetes_unavailable"
         end
  end.

(** [UPDATE projects SET quota_observed_revision ...] *)
Definition sync_row (now : Z) (ready : bool) (error : option string) (p : Project) : Project :=
  p <| pr_quota_observed_revision := if ready then Some (pr_quota_revision p) else None |>
    <| pr_quota_checked_at := Some now |> <| pr_quota_sync_error := error |>
    <| pr_quota_next_sync := now + seconds (if ready then 30 else 2) |>.

Definition sync_due (now : Z) (p : Project) : bool :=
  bool_decide (pr_state p = PReady) && (pr_quota_next_sync p <=? now).

Section sync.
Context {K : Type} `{QuotaPort K}.

(** [private async apply(client, project)] *)
Definition apply_quota (projectId : string) (p : Project) : M (World K) bool :=
  '(ready, error) ← try_catch
    (limits ← lift (of_option ZodError (quotaInput (pr_quota_limits p)));
     ready ← on_kube (ensureProjectQuota (pr_namespace p) projectId (dec_str (pr_quota_revision p)) limits);
     mret (ready, None))
    (λ failure, mret (false, Some (failure_code failure)));
  execute_sql (λ now db, db <| db_projects ::= update_row always (sync_row now ready error) projectId |>) ;;
  mret ready.

Definition ensure (projectId : string) : M (World K) bool :=
  transaction
    (project ← query (λ _ db, db_projects db !! projectId);
     match project with
     | Some p => if bool_decide (pr_state p = PReady) then apply_quota projectId p else mret false
     | None => mret false
     end).

Definition sync_tick : M (World K) bool :=
  transaction
    (selected ← query (λ now db, min_by (λ r, pr_quota_next_sync r.2)
       (filter (λ r, sync_due now r.2 = true) (map_to_list (db_projects db))));
     match selected with
     | Some (projectId, p) => apply_quota projectId p ;; mret true
     | None => mret false
     end).
End sync.

(** ** The outcome of a call *)
Section facts.
Context {K : Type} `{QuotaPort K}.
Implicit Types (w : World K).

(** What the port answers for a project: ready, an error, and the cluster. *)
Definition call_outcome (projectId : string) (p : Project) (k : K) : bool * option string * K :=
  match quotaInput (pr_quota_limits p) with
  | None => (false, Some "kubernetes_unavailable"%string, k)
  | Some limits =>
      match ensureProjectQuota (pr_namespace p) projectId (dec_str (pr_quota_revision p)) limits k with
      | (Ok ready, k') => (ready, None, k')
      | (Throw e, k') => (false, Some (failure_code e), k')
      end
  end.

Lemma apply_quota_eq projectId p w :
  apply_quota projectId p w =
    let '(ready, error, k) := call_outcome projectId p (w_kube w) in
    (Ok ready, w <| w_kube := k |> <| w_db := w_db w <| db_projects ::=
                 update_row always (sync_row (w_now w) ready error) projectId |> |>).
Proof.
  unfold apply_quota, call_outcome, mbind, M_bind, try_catch, lift, on_kube, zoom, execute_sql.
  destruct (quotaInput _) as [limits|]; simpl.
  - destruct (ensureProjectQuota _ _ _ _ _) as [[ready|e] k]; reflexivity.
  - by destruct w.
Qed.

(** The world after the project [p] was synchronised. *)
Definition synced (projectId : string) (p : Project) w : World K :=
  let '(ready, error, k) := call_outcome projectId p (w_kube w) in
  w <| w_kube := k |>
    <| w_db := w_db w <| db_projects ::= <[projectId := sync_row (w_now w) ready error p]> |> |>.

Lemma atomically_Ok {A} (m : M (World K) A) w a w' : m w = (Ok a, w') → atomically m w = (Ok a, w').
Proof. intros E. unfold atomically. by rewrite E. Qed.

Lemma apply_quota_row projectId p w :
  db_projects (w_db w) !! projectId = Some p →
  apply_quota projectId p w = (Ok (call_outcome projectId p (w_kube w)).1.1, synced projectId p w).
Proof.
  intros Hp. rewrite apply_quota_eq. unfold synced.
  destruct (call_outcome _ _ _) as [[ready error] k]. simpl. do 3 f_equal.
  unfold update_row. rewrite Hp. simpl. by destruct (w_db w).
Qed.

Lemma ensure_eq projectId w :
  let w1 := after_yield w in
  ensure projectId w =
    match db_projects (w_db w1) !! projectId with
    | Some p => if bool_decide (pr_state p = PReady)
                then (Ok (call_outcome projectId p (w_kube w1)).1.1, synced projectId p w1)
                else (Ok false, w1)
    | None => (Ok false, w1)
    end.
Proof.
  intros w1. unfold ensure. rewrite transaction_eq. fold w1. unfold atomically, mbind, M_bind, query.
  destruct (db_projects (w_db w1) !! projectId) as [p|] eqn:Hp; [|done].
  destruct (bool_decide _); [|done]. by rewrite (apply_quota_row projectId p w1 Hp).
Qed.

Lemma sync_tick_eq w :
  let w1 := after_yield w in
  sync_tick w =
    match min_by (λ r, pr_quota_next_sync r.2)
            (filter (λ r, sync_due (w_now w1) r.2 = true) (map_to_list (db_projects (w_db w1)))) with
    | Some (projectId, p) => (Ok true, synced projectId p w1)
    | None => (Ok false, w1)
    end.
Proof.
  intros w1. unfold sync_tick. rewrite transaction_eq. fold w1. unfold atomically, mbind at 1, M_bind at 1, query.
  destruct (min_by _ _) as [[projectId p]|] eqn:Em; [|done].
  apply min_by_Some in Em as [[_ Hp%elem_of_map_to_list]%list_elem_of_filter _].
  unfold mbind, M_bind. by rewrite (apply_quota_row projectId p w1 Hp).
Qed.

(** Only the four columns of the synchronisation change. *)
Definition same_project (p p' : Project) : Prop :=
  ∃ o c e n, p' = p <| pr_quota_observed_revision := o |> <| pr_quota_checked_at := c |>
                    <| pr_quota_sync_error := e |> <| pr_quota_next_sync := n |>.

Lemma sync_row_same now ready error p : same_project p (sync_row now ready error p).
Proof. by eexists _, _, _, _. Qed.
End facts.

(** ** The gate of the worker *)
Section gate.
Context {K : Type} `{KubernetesPort K} `{QuotaPort K}.

(** A synchronisation touches projects only. *)
Lemma ensure_within (R : relation DB) `{!PreOrder R} projectId :
  (∀ db f, R db (db <| db_projects ::= f |>)) → within (world_rel R) (ensure (K:=K) projectId).
Proof.
  intros HR. unfold ensure, apply_quota. world_solve. apply HR.
Qed.

Lemma ensure_keeps id claim lease projectId : keeps id claim lease (ensure (K:=K) projectId).
Proof.
  intros w Hw. rewrite ensure_eq. apply Held_yield in Hw. set (w1 := after_yield w) in *.
  destruct (db_projects (w_db w1) !! projectId) as [p|]; [|exact Hw].
  destruct (bool_decide _); [|exact Hw]. simpl. unfold synced.
  destruct (call_outcome _ _ _) as [[ready error] k]. destruct Hw as (Ho & He & Ht). by split_and!.
Qed.
End gate.

(** ** Properties *)

(** Asking for a project's quota is exact.  It never throws; it says yes
    only for a ready project whose stored limits are valid and for which the
    cluster answered, for these limits at the current revision, that they are
    in force; then the snapshot shows them applied, and otherwise pending or
    failed with the reason; and nothing but the four synchronisation columns
    of this project changes, the next attempt following after 30 seconds, or 2
    when it was not ready. *)
Theorem quota_sync_exact {K} `{QuotaPort K} (projectId : string) (w : World K) :
  let w1 := after_yield w in
  ∃ ready w', ensure projectId w = (Ok ready, w') ∧ w_now w' = w_now w1 ∧
    match db_projects (w_db w1) !! projectId with
    | Some p =>
        if bool_decide (pr_state p = PReady) then
          ∃ p' error, w_db w' = w_db w1 <| db_projects ::= <[projectId := p']> |> ∧
            p' = sync_row (w_now w1) ready error p ∧
            (ready = true ↔ ∃ limits k', quotaInput (pr_quota_limits p) = Some limits ∧
               ensureProjectQuota (pr_namespace p) projectId (dec_str (pr_quota_revision p)) limits (w_kube w1) =
                 (Ok true, k')) ∧
            (ready = true → error = None) ∧
            (∀ s w2, quotaSnapshot projectId w' = (Ok s, w2) →
               sy_state (sn_synchronization s) =
                 if ready then "Applied"%string else if truthy error then "Failed"%string else "Pending"%string) ∧
            pr_quota_next_sync p' = w_now w1 + seconds (if ready then 30 else 2)
        else ready = false ∧ w' = w1
    | None => ready = false ∧ w' = w1
    end.
Proof.
  intros w1. rewrite ensure_eq. fold w1.
  destruct (db_projects (w_db w1) !! projectId) as [p|] eqn:Hp; [|by eexists _, _].
  destruct (bool_decide _) eqn:Er; [|by eexists _, _].
  unfold synced, call_outcome.
  destruct (quotaInput (pr_quota_limits p)) as [limits|] eqn:Hq;
    [destruct (ensureProjectQuota _ _ _ _ _) as [[ready|e] k] eqn:Ek|];
    (eexists _, _; split; [reflexivity|]; split; [done|]; eexists _, _; split; [done|];
     split; [done|]; split; [|split; [done|split; [|done]]]).
  all: try (intros s w2; unfold quotaSnapshot, mbind, M_bind, query, lift; simpl;
    rewrite lookup_insert_eq; simpl; rewrite Hq; simpl; intros [= <- _]; simpl).
  - simpl. split; [intros ->; eauto|]. intros (l & k' & [= <-] & E). congruence.
  - destruct ready; simpl; [|done]. unfold oeq. by rewrite bool_decide_true.
  - split; [done|]. intros (l & k' & [= <-] & E). congruence.
  - done.
  - split; [done|]. by intros (l & k' & ? & _).
Qed.

(** The periodic cycle serves whoever is due, longest overdue first.  It
    never throws; it picks the ready project with the earliest due time, after
    which that project is not due again for two seconds at least and no other
    project has changed; and it reports that there was nothing to do exactly
    when no ready project is due. *)
Theorem sync_tick_serves {K} `{QuotaPort K} (w : World K) :
  let w1 := after_yield w in let projects := db_projects (w_db w1) in
  ∃ worked w', sync_tick w = (Ok worked, w') ∧
    if worked then ∃ id p p', projects !! id = Some p ∧ sync_due (w_now w1) p = true ∧
      (∀ id' q, projects !! id' = Some q → sync_due (w_now w1) q = true →
         pr_quota_next_sync p ≤ pr_quota_next_sync q) ∧
      w_db w' = w_db w1 <| db_projects := <[id := p']> projects |> ∧ same_project p p' ∧
      (∀ t, t < w_now w1 + seconds 2 → sync_due t p' = false)
    else w' = w1 ∧ ∀ id p, projects !! id = Some p → sync_due (w_now w1) p = false.
Proof.
  intros w1 projects. rewrite sync_tick_eq. fold w1 projects.
  set (due := filter (λ r, sync_due (w_now w1) r.2 = true) (map_to_list projects)).
  assert (∀ id q, projects !! id = Some q → sync_due (w_now w1) q = true → (id, q) ∈ due) as Hdue.
  { intros id q Hq Hd. by apply list_elem_of_filter; split; [|apply elem_of_map_to_list]. }
  destruct (min_by _ due) as [[id p]|] eqn:Em.
  - apply min_by_Some in Em as [[Hd Hp%elem_of_map_to_list]%list_elem_of_filter Hmin].
    eexists true, _. split; [reflexivity|]. unfold synced.
    destruct (call_outcome id p (w_kube w1)) as [[ready error] k].
    exists id, p, (sync_row (w_now w1) ready error p). split_and!; try done.
    + intros id' q Hq Hd'. apply (Hmin (id', q)), (Hdue id' q Hq Hd').
    + apply sync_row_same.
    + intros t Ht. unfold sync_due, sync_row. simpl. rewrite (proj2 (Z.leb_gt _ _)), andb_false_r; [done|].
      destruct ready; unfold seconds in *; lia.
  - apply min_by_None in Em. eexists false, _. split; [reflexivity|]. split; [done|].
    intros id p Hp. apply not_true_iff_false. intros Hd. specialize (Hdue id p Hp Hd).
    rewrite Em in Hdue. by apply not_elem_of_nil in Hdue.
Qed.

(** The worker may use the synchronisation as its gate: [ensure] keeps a
    claimed operation under its lease, and moves the database along each of
    the relations the guarantees of the worker rely on (finished operations
    are final, identities are kept, success and deletion need their ground). *)
Theorem ensure_is_admissible {K} `{KubernetesPort K} `{QuotaPort K} (claim : string)
    (operation : Operation) :
  let gate := Some (ensure (K:=K)) in
  gate_keeps gate claim ∧ gate_within final_step gate ∧ gate_within (identity_by operation) gate ∧
  gate_within (success_step operation) gate ∧ gate_within (deletion_step operation) gate.
Proof.
  split_and!; try (intros projectId; apply ensure_within; [typeclasses eauto|]).
  - intros id lease projectId. apply ensure_keeps.
  - intros db f. by apply final_same.
  - intros db f _. by apply identity_same.
  - intros db f. by apply success_same.
  - intros db f. by apply deletion_same.
Qed.

(** The cluster in memory accepts every quota. *)
Definition memory_quota : QuotaPort memory := {| ensureProjectQuota := λ _ _ _ _, mret true |}.
