(* ===== verification/Inventory.v ===== *)
(** * The resource inventory

    [apps/admin-api/src/inventory.ts]: comparing what the platform has recorded
    about a project with what the cluster holds, and the cycle that stores the
    result.  A [Map] is the list of its entries in insertion order.

    PostgreSQL's text of a timestamp and its [jsonb] text of a document are
    parameters; they only enter the fingerprint. *)
From Stdlib Require Import ZArith Lia Ascii Init.Byte.
From stdpp Require Import base tactics list option strings gmap sorting.
From S2P Require Import Prelude Regex Numbers Effects Quantities Catalog Json Contract Database Quotas.
From S2P Require Import Secrets Security Kubernetes Worker.

(** ** What is compared *)

(** A column the driver returns as text, or a number. *)
Inductive Amount := AText (s : string) | AInteger (z : Z) | AFraction (n d : Z).

Record InventoryBinding := MkInventoryBinding {
  ib_id : string; ib_resource_name : string; ib_kubernetes_uid : option string;
  ib_lifecycle : Lifecycle; ib_template_name : string; ib_template_version : option string;
  ib_reserved_storage_gib : option Amount; ib_reserved_cpu_millis : option Amount;
  ib_reserved_memory_mib : option Amount; ib_busy : bool; ib_expected_spec : option Spec;
  ib_operation_stamp : option string }.

Record InventoryResources := MkResourcesFound {
  ir_instances : list CacheObject; ir_volumes : list Volume }.

Class InventoryPort (K : Type) := {
  inspectProjectResources (namespace projectId : string) : M K InventoryResources }.

(** ** Maps in insertion order *)
Section maps.
Context {V : Type}.
Definition ordered := list (option string * V).

(** [m.get(k)] and [m.delete(k)]; [m.set(k, v)] is [map_set]. *)
Fixpoint map_get (k : option string) (m : ordered) : option V :=
  match m with
  | [] => None
  | (k', v) :: m => if oeq k' k then Some v else map_get k m
  end.
Definition map_delete (k : option string) (m : ordered) : ordered := filter (λ e, e.1 ≠ k) m.
(** [new Map(l.map(x => [key(x), x]))] *)
Definition map_of (key : V → option string) (l : list V) : ordered :=
  fold_left (λ m x, map_set (key x) x m) l [].
End maps.

(** ** One binding *)

(** [String(reserved)] if it is a natural number the code trusts. *)
Definition reserved_text (reserved : option Amount) : option string :=
  let natural s := if test (RAlt (RChr (Ascii.eqb "0"))
                         (RSeq (RChr (λ c, is_digit c && negb (Ascii.eqb c "0"))) (RStar rdigit))) s
                   then Some s else None in
  match reserved with
  | Some (AText s) => natural s
  | Some (AInteger z) => if (- max_safe_integer <=? z) && (z <=? max_safe_integer)
                         then natural (show_opt_num (Some z)) else None
  | Some (AFraction _ _) | None => None
  end.

(** [checkReservation]: every value is evaluated before any is judged. *)
Definition checkReservation (actual : list (option string)) (reserved : option Amount) (suffix : string) :
    option string :=
  match reserved_text reserved with
  | None => Some "ResourceReservationUnknown"%string
  | Some text =>
      match mapM (λ value, quantityExceeds value (text +:+ suffix)) (omap id actual) with
      | Throw _ => Some "ResourceQuantityInvalid"%string
      | Ok exceeded => if existsb id exceeded then Some "ResourceReservationInsufficient"%string else None
      end
  end.

Definition owned_labels (project instance : string) (labels : option (gmap string string)) : bool :=
  oeq (prop labels project_key) (Some project) && oeq (prop labels instance_key) (Some instance) &&
  oeq (prop labels managed_by_key) (Some "expbuild"%string).

Definition terminal_binding (b : InventoryBinding) : bool := bool_decide (ib_lifecycle b ∈ [LDeleted; LDetached]).

(** The [if] chain over the instance. *)
Definition instance_state (project : string) (b : InventoryBinding) (c : CacheObject) : option string :=
  let meta := co_metadata c in let spec := co_spec c in
  if negb (String.eqb (sp_projectId spec) project) || negb (String.eqb (sp_instanceId spec) (ib_id b)) ||
     negb (truthy (ib_kubernetes_uid b)) || negb (oeq (md_uid meta) (ib_kubernetes_uid b))
  then Some "InstanceIdentityConflict"%string
  else if negb (owned_labels project (ib_id b) (md_labels meta)) then Some "InstanceOwnershipConflict"%string
  else if terminal_binding b then Some "UnexpectedInstance"%string
  else if truthy (md_deletionTimestamp meta) then Some "UnexpectedInstanceDeletion"%string
  else if negb (String.eqb (tr_name (sp_templateRef spec)) (ib_template_name b)) ||
          match ib_template_version b with
          | Some v => negb (String.eqb (tr_version (sp_templateRef spec)) v)
          | None => false
          end
  then Some "TemplateIdentityConflict"%string
  else if oeq (ib_template_version b) None then Some "TemplateVersionUnknown"%string
  else match ib_expected_spec b with
       | Some expected => if bool_decide (spec = expected) then None else Some "ConfigurationDrift"%string
       | None => None
       end.

(** [undefined === null] is false: identities are compared when both are there. *)
Definition accountable (project : string) (b : InventoryBinding) (c : CacheObject) : bool :=
  negb (terminal_binding b) && sql_eq (md_uid (co_metadata c)) (ib_kubernetes_uid b) &&
  String.eqb (sp_projectId (co_spec c)) project && String.eqb (sp_instanceId (co_spec c)) (ib_id b) &&
  owned_labels project (ib_id b) (md_labels (co_metadata c)).

Definition instance_reservations (b : InventoryBinding) (c : CacheObject) : list (option string) :=
  let requests := rs_requests (sp_resources (co_spec c)) in let limits := rs_limits (sp_resources (co_spec c)) in
  [checkReservation [Some (st_capacity (sp_storage (co_spec c)))] (ib_reserved_storage_gib b) "Gi";
   checkReservation [requests !! "cpu"; limits !! "cpu"] (ib_reserved_cpu_millis b) "m";
   checkReservation [requests !! "memory"; limits !! "memory"] (ib_reserved_memory_mib b) "Mi"].

Definition instance_issues (project : string) (b : InventoryBinding) (instance : option CacheObject) :
    list string :=
  match instance with
  | Some c => omap id (instance_state project b c ::
                if accountable project b c then instance_reservations b c else [])
  | None => if terminal_binding b then []
            else if bool_decide (ib_lifecycle b = LActive) then ["MissingInstance"%string]
            else ["ProvisioningIncomplete"%string]
  end.

Definition foreign_volume (project : string) (b : InventoryBinding) (v : Volume) : bool :=
  let labels := pv_metadata v ≫= om_labels in
  let owners := nullish (pv_metadata v ≫= om_ownerReferences) [] in
  negb (truthy (ib_kubernetes_uid b)) || negb (owned_labels project (ib_id b) labels) ||
  negb (oeq (prop labels "cache.expbuild.io/instance-uid") (ib_kubernetes_uid b)) ||
  existsb (λ o, negb (oeq (Some (ow_uid o)) (ib_kubernetes_uid b)) ||
                negb (String.eqb (ow_kind o) "CacheInstance") ||
                negb (String.eqb (ow_name o) (ib_resource_name b))) owners ||
  bool_decide (ib_lifecycle b = LDetached) && (0 <? Z.of_nat (length owners)).

Definition volume_issues (project : string) (b : InventoryBinding) (volume : option Volume) : list string :=
  match volume with
  | Some v =>
      if foreign_volume project b v then ["VolumeOwnershipConflict"%string]
      else if bool_decide (ib_lifecycle b = LDeleted) then ["ResidualVolume"%string]
      else if match pv_metadata v with Some m => om_deletionTimestamp m | None => false end
      then ["VolumeDeletionInProgress"%string]
      else omap id
        [if oeq (pv_phase v) (Some "Bound"%string) then None else Some "VolumeNotBound"%string;
         checkReservation [pv_requested v; pv_capacity v] (ib_reserved_storage_gib b) "Gi"]
  | None =>
      if bool_decide (ib_lifecycle b ∈ [LActive; LDetached])
      then [if bool_decide (ib_lifecycle b = LDetached) then "MissingRetainedVolume"%string
            else "MissingVolume"%string]
      else []
  end.

(** [issue(code, kind)] reports each code of a kind once. *)
Definition once {A} `{EqDecision A} (l : list A) : list A :=
  fold_left (λ acc x, if bool_decide (x ∈ acc) then acc else acc ++ [x]) l [].

Definition data_name (b : InventoryBinding) : string := ib_resource_name b +:+ "-data".
Definition binding_issues (project : string) (b : InventoryBinding) (instance : option CacheObject)
    (volume : option Volume) : list InventoryIssue :=
  ((λ code, MkIssue code IKInstance (ib_resource_name b) (Some (ib_id b))) <$>
     once (instance_issues project b instance)) ++
  ((λ code, MkIssue code IKVolume (data_name b) (Some (ib_id b))) <$> once (volume_issues project b volume)).

(** ** The comparison *)
Definition instance_name (c : CacheObject) : option string := Some (md_name (co_metadata c)).
Definition volume_name (v : Volume) : option string := pv_metadata v ≫= om_name.

(** The loop over the bindings: the issues, the busy bindings and what is left. *)
Fixpoint compare_bindings (project : string) (bindings : list InventoryBinding)
    (instances : ordered (V:=CacheObject)) (volumes : ordered (V:=Volume)) :
    list InventoryIssue * Z * ordered (V:=CacheObject) * ordered (V:=Volume) :=
  match bindings with
  | [] => ([], 0, instances, volumes)
  | b :: bindings =>
      let instance := map_get (Some (ib_resource_name b)) instances in
      let volume := map_get (Some (data_name b)) volumes in
      let '(issues, busy, instances, volumes) := compare_bindings project bindings
        (map_delete (Some (ib_resource_name b)) instances) (map_delete (Some (data_name b)) volumes) in
      if ib_busy b then (issues, 1 + busy, instances, volumes)
      else (binding_issues project b instance volume ++ issues, busy, instances, volumes)
  end.

Definition untracked (instances : ordered (V:=CacheObject)) (volumes : ordered (V:=Volume)) :
    list InventoryIssue :=
  ((λ e, MkIssue "UntrackedInstance" IKInstance (md_name (co_metadata e.2)) None) <$> instances) ++
  ((λ e, MkIssue "UntrackedVolume" IKVolume (nullish (volume_name e.2) "") None) <$> volumes).

Definition all_issues (project : string) (bindings : list InventoryBinding) (found : InventoryResources) :
    list InventoryIssue * Z :=
  let '(issues, busy, instances, volumes) := compare_bindings project bindings
    (map_of instance_name (ir_instances found)) (map_of volume_name (ir_volumes found)) in
  (issues ++ untracked instances volumes, busy).

Definition compareInventory (project : string) (bindings : list InventoryBinding)
    (found : InventoryResources) : InventoryResult :=
  let '(issues, busy) := all_issues project bindings found in
  let issueCount := Z.of_nat (length issues) in
  {| ir_state := if negb (issueCount =? 0) then "Drift" else if negb (busy =? 0) then "InProgress" else "Healthy";
     ir_issues := take 200 issues; ir_issueCount := issueCount;
     ir_truncated := Z.of_nat (length (take 200 issues)) <? issueCount;
     ir_busyInstances := busy;
     ir_counts := Some (Z.of_nat (length (ir_instances found)), Z.of_nat (length (ir_volumes found)));
     ir_error := None |}.

(** ** The query *)
Definition string_le (a b : string) : Prop := Is_true (String.leb a b).
#[export] Instance string_le_dec : RelDecision string_le.
Proof. intros a b. unfold string_le. apply _. Defined.

(** The operations of an instance, latest first (ties by identifier). *)
Definition later (a b : Operation) : Prop :=
  op_created_at b < op_created_at a ∨ op_created_at a = op_created_at b ∧ string_le (op_id b) (op_id a).
#[export] Instance later_dec : RelDecision later.
Proof. intros a b. unfold later. apply _. Defined.
Definition operations_of (instance : string) (db : DB) : list Operation :=
  merge_sort later (filter (λ op, op_instance_id op = Some instance) (rows (db_operations db))).

Section query.
Context (timestamp_text : Z → string).

Definition operation_stamp (instance : string) (db : DB) : option string :=
  match reverse (operations_of instance db) with
  | [] => None
  | op :: ops =>
      let text op := op_id op +:+ ":" +:+ state_str (op_state op) +:+ ":" +:+ timestamp_text (op_updated_at op) in
      Some (fold_left (λ acc op, acc +:+ "," +:+ text op) ops (text op))
  end.

Definition binding_row (id : string) (b : Binding) (db : DB) : InventoryBinding :=
  let amount o := AText <$> (dec_str <$> o) in
  {| ib_id := id; ib_resource_name := bi_resource_name b; ib_kubernetes_uid := bi_kubernetes_uid b;
     ib_lifecycle := bi_lifecycle b; ib_template_name := bi_template_name b;
     ib_template_version := bi_template_version b;
     ib_reserved_storage_gib := amount (bi_reserved_storage_gib b);
     ib_reserved_cpu_millis := amount (bi_reserved_cpu_millis b);
     ib_reserved_memory_mib := amount (bi_reserved_memory_mib b);
     ib_busy := existsb (λ op, active_state (op_state op)) (operations_of id db);
     ib_expected_spec := co_spec <$> head (omap (λ op, rq_desired (op_request op)) (operations_of id db));
     ib_operation_stamp := operation_stamp id db |}.

(** [bindingSQL]: at most 1001 rows by identifier. *)
Definition by_id (a b : string * Binding) : Prop := string_le a.1 b.1.
#[local] Instance by_id_dec : RelDecision by_id.
Proof. intros a b. unfold by_id. apply _. Defined.
Definition binding_rows (projectId : string) (db : DB) : list InventoryBinding :=
  (λ r, binding_row r.1 r.2 db) <$>
    take 1001 (merge_sort by_id (filter (λ r, bi_project_id r.2 = projectId) (map_to_list (db_bindings db)))).

(** [JSON.stringify(rows)]: the columns in the order of the query. *)
Definition lifecycle_str (l : Lifecycle) : string :=
  match l with
  | LPending => "pending" | LActive => "active" | LDeleting => "deleting" | LDeleted => "deleted"
  | LDetached => "detached" | LFailed => "failed"
  end.
Definition amount_json (a : Amount) : json :=
  match a with AText s => JStr s | AInteger z => JInt z | AFraction n d => JFrac n d end.
Context (spec_json : Spec → json) `{Digests}.
Definition row_json (b : InventoryBinding) : json :=
  JObj [("id", JStr (ib_id b)); ("resource_name", JStr (ib_resource_name b));
        ("kubernetes_uid", json_nullable JStr (ib_kubernetes_uid b));
        ("lifecycle", JStr (lifecycle_str (ib_lifecycle b)));
        ("template_name", JStr (ib_template_name b));
        ("template_version", json_nullable JStr (ib_template_version b));
        ("reserved_storage_gib", json_nullable amount_json (ib_reserved_storage_gib b));
        ("reserved_cpu_millis", json_nullable amount_json (ib_reserved_cpu_millis b));
        ("reserved_memory_mib", json_nullable amount_json (ib_reserved_memory_mib b));
        ("busy", JBool (ib_busy b));
        ("expected_spec", json_nullable spec_json (ib_expected_spec b));
        ("operation_stamp", json_nullable JStr (ib_operation_stamp b))].
Definition fingerprint (rows : list InventoryBinding) : string :=
  digest (stringify (JArr (row_json <$> rows))).

(** ** The cycle *)

(** A result without a comparison. *)
Definition no_comparison (state error : string) : InventoryResult :=
  {| ir_state := state; ir_issues := []; ir_issueCount := 0; ir_truncated := false;
     ir_busyInstances := 0; ir_counts := None; ir_error := Some error |}.
Definition unavailable (e : exn) : InventoryResult :=
  no_comparison "Unavailable" (match e with OperationError code _ => code | _ => "kubernetes_unavailable" end).
Definition changed : InventoryResult := no_comparison "InProgress" "platform_changed_during_scan".

Definition scan_due (now : Z) (p : Project) : bool :=
  bool_decide (pr_state p = PReady) && (pr_inventory_next_scan p <=? now) &&
  match pr_inventory_lease_until p with None => true | Some t => t <? now end.
Definition scan_row (worker : string) (now : Z) (p : Project) : Project :=
  p <| pr_inventory_worker_id := Some worker |> <| pr_inventory_lease_until := Some (now + seconds 180) |>.
Definition scanning (worker : string) (p : Project) : bool :=
  sql_eq (pr_inventory_worker_id p) (Some worker).
Definition scan_held (worker : string) (now : Z) (p : Project) : bool :=
  scanning worker p && match pr_inventory_lease_until p with Some t => now <? t | None => false end.
Definition result_row (result : InventoryResult) (now : Z) (p : Project) : Project :=
  p <| pr_inventory_result := Some result |> <| pr_inventory_checked_at := Some now |>
    <| pr_inventory_next_scan := now + seconds (if String.eqb (ir_state result) "InProgress" then 5 else 60) |>
    <| pr_inventory_worker_id := None |> <| pr_inventory_lease_until := None |>.

Context {K : Type} `{InventoryPort K}.

Definition claim_project (worker : string) : M (World K) (option (string * string)) :=
  transaction
    (found ← query (λ now db, min_by (λ r, pr_inventory_next_scan r.2)
       (filter (λ r, scan_due now r.2 = true) (map_to_list (db_projects db))));
     match found with
     | None => mret None
     | Some (id, p) =>
         execute_sql (λ now db, db <| db_projects ::= update_row always (scan_row worker now) id |>) ;;
         mret (Some (id, pr_namespace p))
     end).

(** The scan: its result, and the fingerprint of the rows it compared. *)
Definition scan (id namespace : string) : M (World K) (InventoryResult * option string) :=
  bindings ← pool (query (λ _, binding_rows id));
  let before := if 1000 <? Z.of_nat (length bindings) then None else Some (fingerprint bindings) in
  result ← try_catch
    (throw_if (1000 <? Z.of_nat (length bindings)) (opError "inventory_limit_exceeded") ;;
     found ← kube (inspectProjectResources namespace id);
     mret (compareInventory id bindings found))
    (λ error, mret (unavailable error));
  mret (result, before).

Definition settle_scan (worker id : string) (result : InventoryResult) (before : option string) :
    M (World K) () :=
  transaction
    (held ← query (λ now db, match db_projects db !! id with Some p => scan_held worker now p | None => false end);
     if held : bool then (
       bindings ← query (λ _, binding_rows id);
       let result := match before with
                     | Some f => if String.eqb f (fingerprint bindings) then result else changed
                     | None => result
                     end in
       execute_sql (λ now db, db <| db_projects ::= update_row (scanning worker) (result_row result now) id |>))
     else mret tt).

(** [ResourceInventory.tick] *)
Definition inventory_tick (worker : string) : M (World K) bool :=
  project ← claim_project worker;
  match project with
  | None => mret false
  | Some (id, namespace) =>
      '(result, before) ← scan id namespace;
      settle_scan worker id result before ;;
      mret true
  end.
End query.
