(* ===== verification/InventoryFacts.v ===== *)
(** * What an inventory scan means

    Theorems on [Inventory]: a comparison is healthy exactly when the cluster
    holds what the platform recorded, and a stored result is about the rows
    the platform has when it is stored. *)
From Stdlib Require Import ZArith Lia Ascii Init.Byte QArith.
From stdpp Require Import base tactics list option strings gmap sorting relations.
From S2P Require Import Prelude Regex Numbers Effects Quantities Catalog Json Contract Database Quotas.
From S2P Require Import Secrets Security Kubernetes Worker Inventory.
#[local] Open Scope Z_scope.

(** ** Reservations *)

(** The reservation covers every quantity there is. *)
Definition covered (actual : list (option string)) (reserved : option Amount) (suffix : string) : Prop :=
  ∃ text, reserved_text reserved = Some text ∧
    ∀ value, Some value ∈ actual → ∃ qa qr, denotes value qa ∧ denotes (text +:+ suffix) qr ∧ (qa <= qr)%Q.

Lemma quantityExceeds_false value reserved :
  quantityExceeds value reserved = Ok false ↔
  ∃ qa qr, denotes value qa ∧ denotes reserved qr ∧ (qa <= qr)%Q.
Proof.
  unfold quantityExceeds. split.
  - destruct (rational value) as [[a ad]|] eqn:Ha; [|done]. cbn.
    destruct (rational reserved) as [[r rd]|] eqn:Hr; [|done]. cbn. intros [= E%Z.ltb_ge].
    exists (frac (a, ad)), (frac (r, rd)). split_and!; [by apply rational_sound..|].
    apply frac_le; [by eapply rational_pos|by eapply rational_pos|lia].
  - intros (qa & qr & ([a ad] & Ha & Ea)%rational_complete & ([r rd] & Hr & Er)%rational_complete & Hle).
    rewrite <- Ea, <- Er in Hle. rewrite Ha, Hr. cbn. f_equal. apply Z.ltb_ge.
    apply (frac_le a ad r rd); [by eapply rational_pos..|done].
Qed.

Lemma mapM_exceeds reserved l :
  (∃ es, mapM (λ value, quantityExceeds value reserved) l = Ok es ∧ existsb id es = false) ↔
  Forall (λ value, quantityExceeds value reserved = Ok false) l.
Proof.
  induction l as [|v l IH]; [split; [constructor|by exists []]|]. rewrite Forall_cons, <- IH. simpl. split.
  - intros (es & E & Hf). destruct (quantityExceeds v reserved) as [b|] eqn:Ev; [|done]. cbn in E.
    destruct (mapM _ l) as [es'|]; [|done]. cbn in E. injection E as <-. cbn in Hf.
    apply orb_false_iff in Hf as [Hb Hf]. unfold id in Hb. subst. eauto.
  - intros (-> & es & E & Hf). cbn. rewrite E. cbn. by exists (false :: es).
Qed.

Lemma checkReservation_None actual reserved suffix :
  checkReservation actual reserved suffix = None ↔ covered actual reserved suffix.
Proof.
  unfold checkReservation, covered. destruct (reserved_text reserved) as [text|]; [|naive_solver].
  assert ((∀ value, Some value ∈ actual → ∃ qa qr, denotes value qa ∧ denotes (text +:+ suffix) qr ∧ (qa <= qr)%Q)
    ↔ Forall (λ value, quantityExceeds value (text +:+ suffix) = Ok false) (omap id actual)) as Hl.
  { rewrite Forall_forall. setoid_rewrite quantityExceeds_false. setoid_rewrite list_elem_of_omap.
    unfold id. naive_solver. }
  rewrite <- mapM_exceeds in Hl. split.
  - intros H. exists text. split; [done|]. apply Hl.
    destruct (mapM _ _) as [es|]; [|done]. exists es. split; [done|].
    by destruct (existsb id es).
  - intros (t & [= <-] & H). apply Hl in H as (es & -> & ->). done.
Qed.

(** ** A sound binding *)
Record owned (project instance : string) (labels : option (gmap string string)) : Prop := {
  ow_project : prop labels project_key = Some project;
  ow_instance : prop labels instance_key = Some instance;
  ow_manager : prop labels managed_by_key = Some "expbuild"%string }.

(** The object is the binding's, unchanged since it was accepted. *)
Record matching (project : string) (b : InventoryBinding) (c : CacheObject) : Prop := {
  mt_project : sp_projectId (co_spec c) = project;
  mt_instance : sp_instanceId (co_spec c) = ib_id b;
  mt_uid : md_uid (co_metadata c) = ib_kubernetes_uid b ∧ truthy (ib_kubernetes_uid b) = true;
  mt_owned : owned project (ib_id b) (md_labels (co_metadata c));
  mt_kept : truthy (md_deletionTimestamp (co_metadata c)) = false;
  mt_template : tr_name (sp_templateRef (co_spec c)) = ib_template_name b;
  mt_version : ib_template_version b = Some (tr_version (sp_templateRef (co_spec c)));
  mt_spec expected : ib_expected_spec b = Some expected → co_spec c = expected }.

(** Its reservations cover what it asks for. *)
Record budgeted (b : InventoryBinding) (c : CacheObject) : Prop := {
  bg_storage : covered [Some (st_capacity (sp_storage (co_spec c)))] (ib_reserved_storage_gib b) "Gi";
  bg_cpu : covered [rs_requests (sp_resources (co_spec c)) !! "cpu"; rs_limits (sp_resources (co_spec c)) !! "cpu"]
             (ib_reserved_cpu_millis b) "m";
  bg_memory : covered [rs_requests (sp_resources (co_spec c)) !! "memory";
                       rs_limits (sp_resources (co_spec c)) !! "memory"] (ib_reserved_memory_mib b) "Mi" }.

Definition instance_sound (project : string) (b : InventoryBinding) (o : option CacheObject) : Prop :=
  match o with
  | Some c => ib_lifecycle b ≠ LDeleted ∧ ib_lifecycle b ≠ LDetached ∧ matching project b c ∧ budgeted b c
  | None => ib_lifecycle b = LDeleted ∨ ib_lifecycle b = LDetached
  end.

(** The volume is the binding's, bound, and no larger than what is reserved. *)
Record fitting (project : string) (b : InventoryBinding) (v : Volume) : Prop := {
  ft_uid : prop (pv_metadata v ≫= om_labels) "cache.expbuild.io/instance-uid" = ib_kubernetes_uid b ∧
           truthy (ib_kubernetes_uid b) = true;
  ft_owned : owned project (ib_id b) (pv_metadata v ≫= om_labels);
  ft_owners o : o ∈ nullish (pv_metadata v ≫= om_ownerReferences) [] →
    Some (ow_uid o) = ib_kubernetes_uid b ∧ ow_kind o = "CacheInstance"%string ∧
    ow_name o = ib_resource_name b ∧ ib_lifecycle b ≠ LDetached;
  ft_kept : ∀ m, pv_metadata v = Some m → om_deletionTimestamp m = false;
  ft_bound : pv_phase v = Some "Bound"%string;
  ft_reserved : covered [pv_requested v; pv_capacity v] (ib_reserved_storage_gib b) "Gi" }.

Definition volume_sound (project : string) (b : InventoryBinding) (o : option Volume) : Prop :=
  match o with
  | Some v => ib_lifecycle b ≠ LDeleted ∧ fitting project b v
  | None => ib_lifecycle b ≠ LActive ∧ ib_lifecycle b ≠ LDetached
  end.

Lemma owned_labels_spec project instance labels :
  owned_labels project instance labels = true ↔ owned project instance labels.
Proof.
  unfold owned_labels, oeq. rewrite !andb_true_iff, !bool_decide_eq_true. split; [intros [[] ?]; by split|].
  by intros [].
Qed.

Lemma terminal_spec b : terminal_binding b = true ↔ ib_lifecycle b = LDeleted ∨ ib_lifecycle b = LDetached.
Proof. unfold terminal_binding. rewrite bool_decide_eq_true. set_solver. Qed.

Lemma terminal_false b :
  terminal_binding b = false ↔ ib_lifecycle b ≠ LDeleted ∧ ib_lifecycle b ≠ LDetached.
Proof. rewrite <- not_true_iff_false, terminal_spec. tauto. Qed.

Lemma instance_state_None project b c :
  instance_state project b c = None ↔ terminal_binding b = false ∧ matching project b c.
Proof.
  split.
  - unfold instance_state. cbv zeta. intros H.
    repeat match type of H with (if ?x then _ else _) = _ => destruct x eqn:?; [done|] end.
    boolify. unfold oeq in *. boolify. split; [done|]. split; try done.
    + by apply owned_labels_spec.
    + destruct (ib_template_version b) as [v|]; [|done]. boolify. congruence.
    + intros expected E. rewrite E in H. case_bool_decide; [done|discriminate H].
  - intros [Ht []]. unfold instance_state, oeq. cbv zeta.
    destruct mt_uid0 as [Hu Hu']. apply owned_labels_spec in mt_owned0.
    rewrite mt_project0, mt_instance0, Hu, Hu', mt_owned0, Ht, mt_kept0, mt_template0, mt_version0,
      !String.eqb_refl, !bool_decide_true by done. cbn.
    destruct (ib_expected_spec b) as [e|]; [|done]. rewrite (bool_decide_true (co_spec c = e)) by auto. done.
Qed.

Lemma matching_accountable project b c :
  terminal_binding b = false → matching project b c → accountable project b c = true.
Proof.
  intros Ht []. destruct mt_uid0 as [Hu (uid & E & _)%truthy_Some]. apply owned_labels_spec in mt_owned0.
  unfold accountable. rewrite Ht, mt_project0, mt_instance0, mt_owned0, Hu, E, !String.eqb_refl.
  simpl. by rewrite String.eqb_refl.
Qed.

Lemma omap_id_nil {A} (l : list (option A)) : omap id l = [] ↔ Forall (λ o, o = None) l.
Proof.
  induction l as [|o l IH]; [done|]. rewrite Forall_cons, <- IH. destruct o; simpl; [|tauto].
  split; [done|by intros [? _]].
Qed.

Lemma instance_issues_nil project b o : instance_issues project b o = [] ↔ instance_sound project b o.
Proof.
  destruct o as [c|]; unfold instance_issues, instance_sound.
  - rewrite omap_id_nil, Forall_cons, instance_state_None, terminal_false. split.
    + intros [[[? ?] Hm] Hr]. rewrite matching_accountable in Hr by (by rewrite ?terminal_false).
      unfold instance_reservations in Hr. rewrite !Forall_cons, !checkReservation_None in Hr.
      destruct Hr as (? & ? & ? & _). by split_and!.
    + intros (? & ? & Hm & []). split; [by split_and!|]. case_match; [|constructor].
      repeat constructor; by apply checkReservation_None.
  - destruct (terminal_binding b) eqn:E.
    + split; [by intros _; apply terminal_spec|done].
    + split; [by case_bool_decide|]. intros H%terminal_spec. congruence.
Qed.

Lemma foreign_volume_false project b v :
  foreign_volume project b v = false ↔
  (prop (pv_metadata v ≫= om_labels) "cache.expbuild.io/instance-uid" = ib_kubernetes_uid b ∧
   truthy (ib_kubernetes_uid b) = true) ∧
  owned project (ib_id b) (pv_metadata v ≫= om_labels) ∧
  ∀ o, o ∈ nullish (pv_metadata v ≫= om_ownerReferences) [] →
    Some (ow_uid o) = ib_kubernetes_uid b ∧ ow_kind o = "CacheInstance"%string ∧
    ow_name o = ib_resource_name b ∧ ib_lifecycle b ≠ LDetached.
Proof.
  unfold foreign_volume. cbv zeta. set (owners := nullish _ _).
  rewrite !orb_false_iff, !negb_false_iff, owned_labels_spec, <- !not_true_iff_false, existsb_exists.
  unfold oeq. rewrite andb_true_iff, !bool_decide_eq_true, Z.ltb_lt. split.
  - intros ((((Hu & Ho) & Hi) & Hw) & Hd). split_and!; [done|done|done|]. intros o Hin.
    assert ((negb (bool_decide (Some (ow_uid o) = ib_kubernetes_uid b)) ||
      negb (String.eqb (ow_kind o) "CacheInstance") || negb (String.eqb (ow_name o) (ib_resource_name b))) = false) as E.
    { apply not_true_iff_false. intros E. apply Hw. exists o. split; [by apply list_elem_of_In|exact E]. }
    boolify. split_and!; [done|done|done|]. intros El. apply Hd. split; [done|].
    destruct owners; [by apply not_elem_of_nil in Hin|simpl; lia].
  - intros ((Hi & Hu) & Ho & Hw). split_and!; [done|done|done| |].
    + intros (o & Hin%list_elem_of_In & E). destruct (Hw o Hin) as (E1 & E2 & E3 & _).
      rewrite E1, E2, E3, !String.eqb_refl, bool_decide_true in E by done. done.
    + intros [El Hl]. destruct owners as [|o os]; [simpl in Hl; lia|].
      by destruct (Hw o (list_elem_of_here _ _)) as (_ & _ & _ & ?).
Qed.

Lemma volume_issues_nil project b o : volume_issues project b o = [] ↔ volume_sound project b o.
Proof.
  destruct o as [v|]; unfold volume_issues, volume_sound.
  - destruct (foreign_volume project b v) eqn:Ef.
    { split; [done|]. intros [_ []]. apply not_false_iff_true in Ef. destruct Ef.
      by apply foreign_volume_false. }
    apply foreign_volume_false in Ef as (Hu & Ho & Hw).
    case_bool_decide; [by split; [|intros [? _]]|].
    destruct (match pv_metadata v with Some m => om_deletionTimestamp m | None => false end) eqn:Ed.
    { split; [done|]. intros [_ []]. destruct (pv_metadata v) as [m|]; [|done]. by rewrite (ft_kept0 m) in Ed. }
    rewrite omap_id_nil, !Forall_cons, checkReservation_None. split.
    + intros (Hb & Hc & _). split; [done|]. split; try done.
      * intros m Em. by rewrite Em in Ed.
      * destruct (oeq _ _) eqn:E; [|done]. unfold oeq in E. by boolify.
    + intros [_ []]. unfold oeq. rewrite bool_decide_true by done. split_and!; [done|done|constructor].
  - case_bool_decide as E.
    + split; [done|]. set_solver.
    + split; [|done]. set_solver.
Qed.

(** ** Maps keyed by name *)
Section maps.
Context {V : Type}.
Implicit Types (m : ordered (V:=V)) (k : option string).

Lemma map_set_new k v m : k ∉ m.*1 → map_set k v m = m ++ [(k, v)].
Proof.
  induction m as [|[j w] m IH]; simpl; [done|]. intros [Hj Hm]%not_elem_of_cons. simpl in *.
  rewrite decide_False by done. by rewrite IH.
Qed.

(** Distinct keys: the map lists the values as they are. *)
Lemma map_of_distinct (key : V → option string) l :
  NoDup (key <$> l) → map_of key l = map (λ x, (key x, x)) l.
Proof.
  intros Hd. unfold map_of. rewrite <- (app_nil_l (map _ l)).
  assert (∀ x, x ∈ l → key x ∉ (@nil (option string * V)).*1) as Hn by (intros ? _; apply not_elem_of_nil).
  revert Hn. generalize (@nil (option string * V)) as m.
  induction l as [|x l IH]; intros m Hn; simpl; [by rewrite app_nil_r|].
  apply NoDup_cons in Hd as [Hx Hd]. rewrite map_set_new by (apply Hn, list_elem_of_here).
  rewrite IH; [by rewrite <- app_assoc|done|].
  intros y Hy. rewrite fmap_app, elem_of_app. intros [Hm|E%list_elem_of_singleton].
  - by apply (Hn y); [apply list_elem_of_further|].
  - apply Hx. simpl in E. rewrite <- E. by apply list_elem_of_fmap_2.
Qed.

Lemma map_get_delete k k' m : k ≠ k' → map_get k (map_delete k' m) = map_get k m.
Proof.
  intros Hne. unfold map_delete, ordered in *. induction m as [|[j w] m IH]; [done|].
  rewrite filter_cons. simpl. unfold oeq. case_decide as E; simpl in E.
  - simpl. unfold oeq. by rewrite IH.
  - subst j. rewrite bool_decide_false by done. apply IH.
Qed.

Lemma map_get_list (key : V → option string) k (l : list V) :
  map_get k (map (λ x, (key x, x)) l) = js_find (λ x, oeq (key x) k) l.
Proof.
  induction l as [|x l IH]; simpl; [done|]. unfold js_find in *. rewrite filter_cons, IH. unfold oeq. by repeat case_decide; case_bool_decide.
Qed.
End maps.

(** ** The comparison *)
Definition instance_of (b : InventoryBinding) (found : InventoryResources) : option CacheObject :=
  js_find (λ c, oeq (instance_name c) (Some (ib_resource_name b))) (ir_instances found).
Definition volume_of (b : InventoryBinding) (found : InventoryResources) : option Volume :=
  js_find (λ v, oeq (volume_name v) (Some (data_name b))) (ir_volumes found).

(** The cluster holds what the platform recorded, and nothing else. *)
Record conforms (project : string) (bindings : list InventoryBinding) (found : InventoryResources) : Prop := {
  cf_quiet b : b ∈ bindings → ib_busy b = false;
  cf_instance b : b ∈ bindings → instance_sound project b (instance_of b found);
  cf_volume b : b ∈ bindings → volume_sound project b (volume_of b found);
  cf_instances c : c ∈ ir_instances found → ∃ b, b ∈ bindings ∧ instance_name c = Some (ib_resource_name b);
  cf_volumes v : v ∈ ir_volumes found → ∃ b, b ∈ bindings ∧ volume_name v = Some (data_name b) }.

Lemma data_name_inj b b' : data_name b = data_name b' → ib_resource_name b = ib_resource_name b'.
Proof.
  unfold data_name. intros E%(f_equal chars). rewrite !chars_app in E. apply app_inv_tail in E.
  by rewrite <- (of_chars_chars (ib_resource_name b)), E, of_chars_chars.
Qed.

Lemma map_delete_elem {V} k (m : ordered (V:=V)) e : e ∈ map_delete k m ↔ e ∈ m ∧ e.1 ≠ k.
Proof. unfold map_delete. rewrite list_elem_of_filter. tauto. Qed.

Lemma kept_out {A B} (P : A → Prop) (k : option string) (f : B → option string) e (b : B) (bs : list B) :
  (P e ∧ k ≠ f b) ∧ (∀ b', b' ∈ bs → k ≠ f b') ↔ P e ∧ ∀ b', b' = b ∨ b' ∈ bs → k ≠ f b'.
Proof.
  split.
  - intros [[He Hk] Hall]. split; [done|]. intros b' [->|Hin]; auto.
  - intros [He Hall]. split_and!; auto.
Qed.

(** The loop over the bindings, for distinct names. *)
Lemma compare_bindings_spec project bindings I V issues busy I' V' :
  NoDup (ib_resource_name <$> bindings) →
  compare_bindings project bindings I V = (issues, busy, I', V') →
  issues = concat (map (λ b, if ib_busy b then [] else
    binding_issues project b (map_get (Some (ib_resource_name b)) I) (map_get (Some (data_name b)) V)) bindings) ∧
  0 ≤ busy ∧ (busy = 0 ↔ ∀ b, b ∈ bindings → ib_busy b = false) ∧
  (∀ e, e ∈ I' ↔ e ∈ I ∧ ∀ b, b ∈ bindings → e.1 ≠ Some (ib_resource_name b)) ∧
  (∀ e, e ∈ V' ↔ e ∈ V ∧ ∀ b, b ∈ bindings → e.1 ≠ Some (data_name b)).
Proof.
  revert I V issues busy I' V'. induction bindings as [|b bindings IH]; intros I V issues busy I' V' Hd.
  { intros [= <- <- <- <-]. simpl. split_and!; [done|lia| | |].
    - split; [by intros _ b Hb%not_elem_of_nil|done].
    - intros e. split; [|by intros []]. intros He. split; [done|by intros b Hb%not_elem_of_nil].
    - intros e. split; [|by intros []]. intros He. split; [done|by intros b Hb%not_elem_of_nil]. }
  apply NoDup_cons in Hd as [Hb Hd]. simpl.
  destruct (compare_bindings _ _ _ _) as [[[rest n] I1] V1] eqn:E. apply IH in E as (Ei & Hn & Hq & HI & HV); [|done].
  assert (∀ b', b' ∈ bindings → ib_resource_name b' ≠ ib_resource_name b) as Hne.
  { intros b' Hin Eq. apply Hb. rewrite <- Eq. by apply list_elem_of_fmap_2. }
  assert (rest = concat (map (λ b, if ib_busy b then [] else
    binding_issues project b (map_get (Some (ib_resource_name b)) I) (map_get (Some (data_name b)) V)) bindings)) as Ei'.
  { rewrite Ei. f_equal. apply map_ext_in. intros b' Hin%list_elem_of_In. case_match; [done|].
    rewrite !map_get_delete; [done| |]; intros [= Eq]; [apply data_name_inj in Eq|]; by apply (Hne b'). }
  setoid_rewrite map_delete_elem in HI. setoid_rewrite map_delete_elem in HV.
  intros Eq. setoid_rewrite elem_of_cons.
  assert (I' = I1 ∧ V' = V1 ∧ issues = (if ib_busy b then [] else binding_issues project b
    (map_get (Some (ib_resource_name b)) I) (map_get (Some (data_name b)) V)) ++ rest ∧
    busy = if ib_busy b then 1 + n else n) as (-> & -> & -> & ->) by (destruct (ib_busy b); by simplify_eq).
  rewrite <- Ei'. split_and!; [done|destruct (ib_busy b); lia| | |].
  - destruct (ib_busy b) eqn:Eb; [|rewrite Hq].
    + split; [lia|]. intros H. rewrite (H b) in Eb by auto. done.
    + split; [by intros H b' [->|Hin]; auto|]. intros H b' Hin. apply H. by right.
  - intros e. rewrite HI. apply (kept_out (λ e, e ∈ I) e.1 (λ b, Some (ib_resource_name b))). 
  - intros e. rewrite HV. apply (kept_out (λ e, e ∈ V) e.1 (λ b, Some (data_name b))).
Qed.

Lemma once_nil {A} `{EqDecision A} (l : list A) : once l = [] ↔ l = [].
Proof.
  split; [|by intros ->]. unfold once. destruct l as [|x l]; [done|]. simpl.
  assert (∀ acc, acc ≠ [] →
    fold_left (λ acc x, if bool_decide (x ∈ acc) then acc else acc ++ [x]) l acc ≠ []) as H.
  { induction l as [|y l IH]; intros acc Ha; [done|]. simpl. apply IH. case_bool_decide; [done|]. by destruct acc. }
  intros E. by apply (H [x]) in E.
Qed.

Lemma binding_issues_nil project b instance volume :
  binding_issues project b instance volume = [] ↔ instance_sound project b instance ∧ volume_sound project b volume.
Proof.
  unfold binding_issues. rewrite <- instance_issues_nil, <- volume_issues_nil, <- (once_nil (instance_issues _ _ _)),
    <- (once_nil (volume_issues _ _ _)).
  destruct (once (instance_issues _ _ _)), (once (volume_issues _ _ _)); simpl; split; try done; by intros [].
Qed.

Lemma concat_map_nil {A B} (f : A → list B) l : concat (map f l) = [] ↔ ∀ x, x ∈ l → f x = [].
Proof.
  induction l as [|x l IH]; simpl; [split; [by intros _ x Hx%not_elem_of_nil|done]|].
  setoid_rewrite elem_of_cons. split.
  - intros [E1 E2]%app_eq_nil y [->|Hy]; [done|]. by apply IH.
  - intros H. rewrite (H x), (proj2 IH); auto.
Qed.

Lemma listed {V} (key : V → option string) (l : list V) (P : option string → Prop) :
  (∀ e, ¬ (e ∈ map (λ x, (key x, x)) l ∧ P e.1)) ↔ ∀ x, x ∈ l → ¬ P (key x).
Proof.
  split.
  - intros H x Hx HP. apply (H (key x, x)). split; [|done].
    change (map ?f l) with (f <$> l). by apply (list_elem_of_fmap_2 (λ x, (key x, x))).
  - intros H e [He HP]. apply list_elem_of_fmap in He as (x & -> & Hx). by apply (H x).
Qed.

Lemma untracked_nil (I : ordered (V:=CacheObject)) (V : ordered (V:=Volume)) :
  untracked I V = [] ↔ (∀ e, e ∉ I) ∧ ∀ e, e ∉ V.
Proof.
  unfold untracked. split.
  - intros [E1 E2]%app_eq_nil. apply fmap_nil_inv in E1, E2. subst. split; intros e; apply not_elem_of_nil.
  - intros [H1 H2]. destruct I as [|e I]; [|by destruct (H1 e (list_elem_of_here _ _))].
    by destruct V as [|e V]; [|destruct (H2 e (list_elem_of_here _ _))].
Qed.

Lemma not_all_named {B} (f : B → option string) (k : option string) (bs : list B) :
  ¬ (∀ b, b ∈ bs → k ≠ f b) ↔ ∃ b, b ∈ bs ∧ k = f b.
Proof.
  split; [|by intros (b & Hb & E) H; apply (H b)]. intros H.
  destruct (decide (k ∈ f <$> bs)) as [(b & E & Hb)%list_elem_of_fmap|Hn]; [by exists b|].
  exfalso. apply H. intros b Hb E. apply Hn. rewrite E. by apply list_elem_of_fmap_2.
Qed.

(** What is left of the named values when those of the bindings are taken. *)
Lemma nothing_left {V B} (key : V → option string) (f : B → option string) (l : list V) (bs : list B)
    (rest : list (option string * V)) :
  (∀ e, e ∈ rest ↔ e ∈ map (λ x, (key x, x)) l ∧ ∀ b, b ∈ bs → e.1 ≠ f b) →
  (∀ e, e ∉ rest) ↔ ∀ x, x ∈ l → ∃ b, b ∈ bs ∧ key x = f b.
Proof.
  intros Hr. setoid_rewrite Hr. rewrite (listed key l (λ k, ∀ b, b ∈ bs → k ≠ f b)).
  by setoid_rewrite not_all_named.
Qed.

(** C16. A comparison is healthy exactly when the cluster conforms: nothing is
    busy; every binding finds the instance and the volume its lifecycle calls
    for, with its identity, its template, its accepted specification, and
    quantities its reservations cover; and nothing else is there. *)
Theorem healthy_exact project bindings found :
  NoDup (ib_resource_name <$> bindings) → NoDup (instance_name <$> ir_instances found) →
  NoDup (volume_name <$> ir_volumes found) →
  ir_state (compareInventory project bindings found) = "Healthy"%string ↔ conforms project bindings found.
Proof.
  intros Hb Hi Hv. unfold compareInventory, all_issues. rewrite !map_of_distinct by done.
  destruct (compare_bindings _ _ _ _) as [[[issues busy] I'] V'] eqn:E.
  apply compare_bindings_spec in E as (-> & Hn & Hq & HI & HV); [|done]. cbn [ir_state].
  set (bound := concat _).
  assert (bound = [] ↔ ∀ b, b ∈ bindings → ib_busy b = false →
    instance_sound project b (instance_of b found) ∧ volume_sound project b (volume_of b found)) as Hs.
  { unfold bound. rewrite concat_map_nil. setoid_rewrite map_get_list.
    split; intros H b Hin; specialize (H b Hin).
    - intros Eb. rewrite Eb in H. by apply binding_issues_nil in H.
    - destruct (ib_busy b); [done|]. apply binding_issues_nil. auto. }
  apply (nothing_left instance_name (λ b, Some (ib_resource_name b))) in HI.
  apply (nothing_left volume_name (λ b, Some (data_name b))) in HV.
  pose proof (untracked_nil I' V') as Hu. rewrite HI, HV in Hu.
  destruct (Z.of_nat (length (bound ++ untracked I' V')) =? 0) eqn:El; boolify; simpl.
  - assert (bound ++ untracked I' V' = []) as [Eb Eu]%app_eq_nil by (apply length_zero_iff_nil; lia).
    pose proof (proj1 Hs Eb) as Hok. apply Hu in Eu as [].
    destruct (busy =? 0) eqn:En; boolify; simpl; (split; [try done|intros []; try done]).
    + intros _. rewrite Hq in En. split; [done| | |done|done]; intros b Hin; by apply Hok; auto.
    + exfalso. apply En. by apply Hq.
  - split; [done|]. intros []. exfalso. apply El.
    rewrite (proj2 Hs), (proj2 Hu); [done|by split|]. intros b Hin _. split; auto.
Qed.

(** ** What a stored result is about *)
Section scan.
Context {K : Type} `{InventoryPort K} `{Digests} (timestamp_text : Z → string) (spec_json : Spec → json).
Implicit Types (w : World K).

(** Two rows with the same columns; the specification as its document. *)
Record same_columns (a b : InventoryBinding) : Prop := {
  sc_id : ib_id a = ib_id b; sc_name : ib_resource_name a = ib_resource_name b;
  sc_uid : ib_kubernetes_uid a = ib_kubernetes_uid b; sc_lifecycle : ib_lifecycle a = ib_lifecycle b;
  sc_template : ib_template_name a = ib_template_name b;
  sc_version : ib_template_version a = ib_template_version b;
  sc_storage : ib_reserved_storage_gib a = ib_reserved_storage_gib b;
  sc_cpu : ib_reserved_cpu_millis a = ib_reserved_cpu_millis b;
  sc_memory : ib_reserved_memory_mib a = ib_reserved_memory_mib b;
  sc_busy : ib_busy a = ib_busy b;
  sc_spec : json_nullable spec_json (ib_expected_spec a) = json_nullable spec_json (ib_expected_spec b);
  sc_stamp : ib_operation_stamp a = ib_operation_stamp b }.

Lemma nullable_str_inj : Inj (=) (=) (json_nullable JStr).
Proof. intros [] []; naive_solver. Qed.
Lemma nullable_amount_inj : Inj (=) (=) (json_nullable amount_json).
Proof. intros [[]|] [[]|]; naive_solver. Qed.
Lemma lifecycle_str_inj : Inj (=) (=) lifecycle_str.
Proof. by intros [] []. Qed.

Lemma row_json_columns a b : row_json spec_json a = row_json spec_json b → same_columns a b.
Proof.
  unfold row_json. intros E. injection E as ????????????.
  split; auto using nullable_str_inj, nullable_amount_inj, lifecycle_str_inj.
Qed.

Lemma nullable_printable {A} (f : A → json) o : (∀ a, printable (f a)) → printable (json_nullable f o).
Proof. destruct o; simpl; auto. Qed.

(** The rows of the query print: a reservation is text. *)
Lemma row_json_printable id b db :
  (∀ s, printable (spec_json s)) → printable (row_json spec_json (binding_row timestamp_text id b db)).
Proof.
  intros Hs.
  apply (fields_printable ["id"; "resource_name"; "kubernetes_uid"; "lifecycle"; "template_name";
    "template_version"; "reserved_storage_gib"; "reserved_cpu_millis"; "reserved_memory_mib"; "busy";
    "expected_spec"; "operation_stamp"] [_; _; _; _; _; _; _; _; _; _; _; _]);
    [apply (bool_decide_unpack _); by vm_compute|reflexivity|].
  repeat first [apply Forall_nil_2 | apply Forall_cons_2]; simpl; try exact I;
    try (apply nullable_printable; done).
  all: by destruct (_ : option Z).
Qed.

Lemma rows_printable id db :
  (∀ s, printable (spec_json s)) → printable (JArr (row_json spec_json <$> binding_rows timestamp_text id db)).
Proof.
  intros Hs. apply printable_arr, Forall_fmap, Forall_fmap, Forall_forall. intros [i b] _.
  by apply row_json_printable.
Qed.

(** Two reads of the rows with the same fingerprint. *)
Definition same_rows (rows rows' : list InventoryBinding) : Prop :=
  Forall2 same_columns rows rows' ∨ collide (JArr (row_json spec_json <$> rows)) (JArr (row_json spec_json <$> rows')).

Lemma fingerprint_same id db db' :
  (∀ s, printable (spec_json s)) →
  fingerprint spec_json (binding_rows timestamp_text id db) =
    fingerprint spec_json (binding_rows timestamp_text id db') →
  same_rows (binding_rows timestamp_text id db) (binding_rows timestamp_text id db').
Proof.
  intros Hs E. apply document_digest_inj in E as [E|?]; [|by right|by apply rows_printable..].
  injection E as E. left. apply list_eq_Forall2, (proj1 (Forall2_fmap _ _ _ _ _)) in E.
  eapply Forall2_impl; [exact E|apply row_json_columns].
Qed.

Let rows_of (id : string) (db : DB) : list InventoryBinding := binding_rows timestamp_text id db.

(** What a scan may report about rows it read. *)
Inductive reported (id namespace : string) (rows : list InventoryBinding) : InventoryResult → Prop :=
| reported_comparison found k k' : inspectProjectResources namespace id k = (Ok found, k') →
    reported id namespace rows (compareInventory id rows found)
| reported_failure e k k' : inspectProjectResources namespace id k = (Throw e, k') →
    reported id namespace rows (unavailable e).

Lemma scan_spec id namespace w : ∃ result before w',
  scan timestamp_text spec_json id namespace w = (Ok (result, before), w') ∧
  let rows := rows_of id (w_db (after_yield w)) in
  (1000 < Z.of_nat (length rows) ∧ before = None ∧ result = unavailable (opError "inventory_limit_exceeded")) ∨
  (Z.of_nat (length rows) ≤ 1000 ∧ before = Some (fingerprint spec_json rows) ∧ reported id namespace rows result).
Proof.
  unfold scan. rewrite (bind_Ok _ _ _ (rows_of id (w_db (after_yield w))) (after_yield w));
    [|unfold pool; by rewrite (bind_Ok _ _ _ _ _ (yield_eq w))].
  cbv zeta. destruct (1000 <? _) eqn:El; boolify.
  - eexists _, _, _. split; [reflexivity|]. by left.
  - unfold throw_if, try_catch, mbind, M_bind, mret, M_ret. rewrite kube_eq. unfold on_kube, zoom.
    set (w1 := after_yield (after_yield w)).
    destruct (inspectProjectResources namespace id (w_kube w1)) as [[found|e] k'] eqn:Ei;
      (eexists _, _, _; split; [reflexivity|]; right; split; [done|split; [done|]]);
      by econstructor.
Qed.

(** The write that ends a scan, where its lease still holds. *)
Definition settled_scan (worker id : string) (result : InventoryResult) (w : World K) : DB :=
  w_db w <| db_projects ::= update_row (scanning worker) (result_row result (w_now w)) id |>.
Definition scan_holds (worker id : string) (w : World K) : bool :=
  match db_projects (w_db w) !! id with Some p => scan_held worker (w_now w) p | None => false end.

Lemma settle_scan_eq worker id result before w :
  settle_scan timestamp_text spec_json worker id result before w =
    (Ok tt, let w1 := after_yield w in
       if scan_holds worker id w1 then
         w1 <| w_db := settled_scan worker id
           (match before with
            | Some f => if String.eqb f (fingerprint spec_json (rows_of id (w_db w1))) then result else changed
            | None => result
            end) w1 |>
       else w1).
Proof.
  unfold settle_scan. rewrite transaction_eq. cbv zeta. set (w1 := after_yield w).
  unfold atomically, mbind, M_bind, query. unfold scan_holds, scan_held.
  by destruct (match db_projects (w_db w1) !! id with Some _ => _ | None => _ end).
Qed.

Lemma claim_project_eq worker w :
  claim_project worker w =
    let w1 := after_yield w in
    match min_by (λ r, pr_inventory_next_scan r.2)
            (filter (λ r, scan_due (w_now w1) r.2 = true) (map_to_list (db_projects (w_db w1)))) with
    | None => (Ok None, w1)
    | Some (id, p) => (Ok (Some (id, pr_namespace p)),
        w1 <| w_db ::= λ db, db <| db_projects ::= update_row always (scan_row worker (w_now w1)) id |> |>)
    end.
Proof.
  unfold claim_project. rewrite transaction_eq. cbv zeta. unfold atomically, mbind, M_bind, query.
  by destruct (min_by _ _) as [[id p]|].
Qed.

(** The result stored with [rows] read at the start and the database at the end. *)
Inductive current (id namespace : string) (db : DB) : InventoryResult → Prop :=
| current_changed : current id namespace db changed
| current_limit : current id namespace db (unavailable (opError "inventory_limit_exceeded"))
| current_rows rows result : same_rows rows (rows_of id db) → reported id namespace rows result →
    current id namespace db result.

(** C17. A cycle of the inventory always returns.  It claims the ready project
    whose scan is the longest due and not leased; and at its end, if its lease
    has passed to another, it writes nothing; otherwise it stores one result
    and releases the project, and what it stores is either that the platform
    changed meanwhile, or that there are too many instances, or the comparison
    (or the failure) of the cluster's answer with exactly the columns the rows
    have at that moment - or SHA-256 collides. *)
Theorem inventory_tick_exact worker w :
  (∀ s, printable (spec_json s)) →
  let w0 := after_yield w in
  (inventory_tick timestamp_text spec_json worker w = (Ok false, w0) ∧
   ∀ id p, db_projects (w_db w0) !! id = Some p → scan_due (w_now w0) p = false) ∨
  ∃ id p w2 w', inventory_tick timestamp_text spec_json worker w = (Ok true, w') ∧
    db_projects (w_db w0) !! id = Some p ∧ scan_due (w_now w0) p = true ∧
    (∀ id' p', db_projects (w_db w0) !! id' = Some p' → scan_due (w_now w0) p' = true →
       pr_inventory_next_scan p ≤ pr_inventory_next_scan p') ∧
    (∃ r, scan timestamp_text spec_json id (pr_namespace p)
       (w0 <| w_db ::= λ db, db <| db_projects ::= update_row always (scan_row worker (w_now w0)) id |> |>) = (Ok r, w2)) ∧
    let w3 := after_yield w2 in
    if scan_holds worker id w3
    then ∃ result, current id (pr_namespace p) (w_db w3) result ∧ w_db w' = settled_scan worker id result w3
    else w' = w3.
Proof.
  intros Hs w0. unfold inventory_tick.
  pose proof (claim_project_eq worker w) as Ec. cbv zeta in Ec. fold w0 in Ec.
  destruct (min_by _ _) as [[id p]|] eqn:Em.
  - right. apply min_by_Some in Em as [Hin Hmin]. apply list_elem_of_filter in Hin as [Hdue Hin%elem_of_map_to_list].
    rewrite (bind_Ok _ _ _ _ _ Ec).
    match type of Ec with _ = (_, ?w1) => set (w1' := w1) in * end.
    destruct (scan_spec id (pr_namespace p) w1') as (result & before & w2 & Es & Hr).
    exists id, p, w2. rewrite (bind_Ok _ _ _ _ _ Es), (bind_Ok _ _ _ _ _ (settle_scan_eq _ _ _ _ _)).
    cbv zeta in *. eexists. split; [reflexivity|]. split_and!; [done|done| |by eexists|].
    { intros id' p' Hp' Hd'. apply (Hmin (id', p')). apply list_elem_of_filter. by rewrite elem_of_map_to_list. }
    set (w3 := after_yield w2). destruct (scan_holds worker id w3); [|done].
    eexists. split; [|reflexivity]. destruct Hr as [(_ & -> & ->)|(_ & -> & Hr)]; [constructor|].
    split_if Ef; [|constructor]. apply String.eqb_eq in Ef.
    eapply current_rows; [by apply fingerprint_same|done].
  - left. rewrite (bind_Ok _ _ _ _ _ Ec). split; [done|]. apply min_by_None in Em.
    intros id p Hp. apply not_true_iff_false. intros Hd.
    assert ((id, p) ∈ @nil (string * Project)) as []%not_elem_of_nil.
    rewrite <- Em. apply list_elem_of_filter. by rewrite elem_of_map_to_list.
Qed.
End scan.

(** ** Witnesses *)
Definition sample_labels : gmap string string :=
  {[ project_key := "p"%string; instance_key := "i"%string; managed_by_key := "expbuild"%string;
     "cache.expbuild.io/instance-uid"%string := "u"%string ]}.
Definition sample_spec : Spec :=
  MkSpec "i" "p" None (MkTemplateRef "bazel-remote" "1") "Running" (MkStorage "standard" "10Gi" "Retain" None)
    (MkAccess "cluster" "secret" None) (MkEviction 8 "lru")
    (MkResources {[ "cpu"%string := "250m"%string; "memory"%string := "512Mi"%string ]}
                 {[ "cpu"%string := "0.5"%string; "memory"%string := "1Gi"%string ]}).
Definition sample_instance : CacheObject :=
  MkObject "v1" "CacheInstance" (MkMetadata "cache" "ns" (Some "u"%string) None None (Some sample_labels) None None)
    sample_spec None.
Definition sample_volume : Volume :=
  MkVolumeClaim (Some (MkMeta (Some "cache-data"%string) None None None (Some sample_labels) None None false))
    (Some "10Gi"%string) None (Some "Bound"%string) (Some "10Gi"%string).
Definition sample_row : InventoryBinding :=
  {| ib_id := "i"; ib_resource_name := "cache"; ib_kubernetes_uid := Some "u"%string; ib_lifecycle := LActive;
     ib_template_name := "bazel-remote"; ib_template_version := Some "1"%string;
     ib_reserved_storage_gib := Some (AText "10"); ib_reserved_cpu_millis := Some (AText "500");
     ib_reserved_memory_mib := Some (AInteger 1024); ib_busy := false; ib_expected_spec := Some sample_spec;
     ib_operation_stamp := None |}.
Definition sample_found : InventoryResources := MkResourcesFound [sample_instance] [sample_volume].

Lemma healthy_exact_witness : conforms "p" [sample_row] sample_found.
Proof.
  apply healthy_exact; [apply NoDup_singleton|apply NoDup_singleton|apply NoDup_singleton|].
  vm_compute. reflexivity.
Defined.

(** A cluster that holds nothing. *)
Definition empty_inventory : InventoryPort memory :=
  {| inspectProjectResources := λ _ _, mret (MkResourcesFound [] []) |}.
Definition scanned_project : Project :=
  MkProject "Project" "ns" PReady "u" 0 JNull 1 None None None 0 None None 3 None (Some 4).
Definition scanned_world : World memory :=
  MkWorld (empty_db <| db_projects := {[ "p"%string := scanned_project ]} |>) ∅ 5 [] [].

Lemma inventory_tick_exact_witness : ∃ w' p,
  @inventory_tick (λ _, "") (λ _, JNull) plain_digests memory empty_inventory "worker" scanned_world = (Ok true, w') ∧
  db_projects (w_db w') !! "p"%string = Some p ∧ pr_inventory_next_scan p = 60000005 ∧
  pr_inventory_lease_until p = None.
Proof.
  destruct (@inventory_tick_exact memory empty_inventory plain_digests (λ _, "") (λ _, JNull) "worker" scanned_world)
    as [[E _]|(id & p & w2 & w' & E & _)]; [intros s; exact I|vm_compute in E; discriminate E|].
  eexists _, _. split; [exact E|]. vm_compute in E. injection E as <-.
  split; [vm_compute; reflexivity|split; reflexivity].
Defined.
