(* ===== verification/ClusterClient.v ===== *)
(** * The client of the cluster

    [KubernetesClient] of [apps/admin-api/src/kubernetes.ts] and
    [network-policy.ts]: the implementation of the interfaces the worker, the
    quota synchronisation and the inventory call, over the API server.

    The API server is an interface: one operation per call of the client
    library, each of which may fail.  A resource is what the code reads of it.
    [quantityToScalar] belongs to the library and is a parameter. *)
From Stdlib Require Import ZArith Lia Ascii.
From stdpp Require Import base tactics list option strings gmap.
From S2P Require Import Prelude Regex Numbers Effects Catalog Json Contract Database Quotas Secrets Http Series.
From S2P Require Import Kubernetes Inventory QuotaSync.

(** ** Resources *)
Record NetworkPolicy := MkNetworkPolicy { np_metadata : option ObjectMeta; np_spec : json }.
Record Secret := MkSecret {
  se_metadata : option ObjectMeta; se_immutable : bool; se_data : option (gmap string string) }.
(** The limits of the specification and of the status, and the usage. *)
Record ResourceQuota := MkResourceQuota {
  rq_metadata : option ObjectMeta; rq_hard : option (gmap string string); rq_scopes : list string;
  rq_scopeSelector : bool; rq_status_hard : option (gmap string string);
  rq_used : option (gmap string string) }.
(** The claims its volumes name, one per volume. *)
Record Pod := MkPod { po_metadata : option ObjectMeta; po_claims : list (option string) }.
Record Page (A : Type) := MkPage { pg_items : list A; pg_continue : option string }.
Arguments MkPage {A} _ _.
Arguments pg_items {A} _.
Arguments pg_continue {A} _.
(** [preconditions] of a deletion. *)
Record Preconditions := MkPreconditions { pc_uid : option string; pc_resourceVersion : option string }.

Class ApiServer (K : Type) := {
  createNamespace (body : ObjectMeta) : M K ();
  readNamespace (name : string) : M K (option ObjectMeta);
  createNamespacedNetworkPolicy (namespace : string) (body : NetworkPolicy) : M K ();
  readNamespacedNetworkPolicy (namespace name : string) : M K NetworkPolicy;
  createNamespacedSecret (namespace : string) (body : Secret) : M K ();
  readNamespacedSecret (namespace name : string) : M K Secret;
  deleteNamespacedSecret (namespace name : string) (body : Preconditions) : M K ();
  createNamespacedResourceQuota (namespace : string) (body : ResourceQuota) : M K ();
  readNamespacedResourceQuota (namespace name : string) : M K ResourceQuota;
  replaceNamespacedResourceQuota (namespace name : string) (body : ResourceQuota) : M K ();
  deleteNamespacedResourceQuota (namespace name : string) (body : Preconditions) : M K ();
  readNamespacedPersistentVolumeClaim (namespace name : string) : M K Volume;
  listNamespacedPersistentVolumeClaim (namespace : string) (limit : Z) (continuation : option string) :
    M K (Page Volume);
  deleteNamespacedPersistentVolumeClaim (namespace name : string) (body : Preconditions) : M K ();
  listNamespacedPod (namespace : string) : M K (Page Pod);
  getNamespacedCustomObject (namespace name : string) : M K CacheObject;
  createNamespacedCustomObject (namespace : string) (body : CacheObject) : M K CacheObject;
  replaceNamespacedCustomObject (namespace name : string) (body : CacheObject) : M K CacheObject;
  deleteNamespacedCustomObject (namespace name : string) (body : Preconditions) : M K ();
  listNamespacedCustomObject (namespace : string) (limit : Z) (continuation : option string) :
    M K (Page CacheObject) }.

(** ** Values *)

(** [isDeepStrictEqual] of two documents: the order of keys is irrelevant. *)
Fixpoint deep_equal (a b : json) : bool :=
  match a, b with
  | JNull, JNull => true
  | JBool x, JBool y => Bool.eqb x y
  | JInt x, JInt y => x =? y
  | JFrac n d, JFrac n' d' => n * d' =? n' * d
  | JStr x, JStr y => String.eqb x y
  | JArr l, JArr k =>
      (fix equal l k := match l, k with
                        | [], [] => true
                        | x :: l, y :: k => deep_equal x y && equal l k
                        | _, _ => false
                        end) l k
  | JObj fs, JObj gs =>
      (length fs =? length gs)%nat &&
      forallb (λ e, match e with (k, v) => match field k gs with Some w => deep_equal v w | None => false end end) fs
  | _, _ => false
  end.

Definition instance_uid_key : string := "cache.expbuild.io/instance-uid".
Definition revision_key : string := "cache.expbuild.io/quota-revision".
Definition reclaim_marker : string := "cache.expbuild.io/reclaim-bound-uid".

(** [meta?.labels?.[k] === v] *)
Definition meta_label (meta : option ObjectMeta) (k : string) : option string := prop (meta ≫= om_labels) k.
Definition label_is (meta : option ObjectMeta) (k v : string) : bool := oeq (meta_label meta k) (Some v).
Definition owned_by (projectId : string) (meta : option ObjectMeta) : bool :=
  label_is meta project_key projectId && label_is meta managed_by_key "expbuild".
Definition deleting (meta : option ObjectMeta) : bool :=
  match meta with Some m => om_deletionTimestamp m | None => false end.
Definition new_meta (name : string) (namespace : option string) (ls : gmap string string)
    (annotations : option (gmap string string)) : ObjectMeta :=
  MkMeta (Some name) namespace None None (Some ls) annotations None false.

(** ** Network policies *)
Definition string_map (m : list (string * string)) : json := JObj ((λ e, (e.1, JStr e.2)) <$> m).
Definition labels_json (projectId : string) : json :=
  string_map [(managed_by_key, "expbuild"); (project_key, projectId)].

Definition isolation_policy (namespace projectId : string) : NetworkPolicy := {|
  np_metadata := Some (new_meta "expbuild-isolation" (Some namespace) (labels projectId None) None);
  np_spec := JObj [("podSelector", JObj []); ("policyTypes", JArr [JStr "Ingress"]);
    ("ingress", JArr [JObj [("_from", JArr [JObj [("namespaceSelector",
       JObj [("matchLabels", string_map [("cache.expbuild.io/control-plane", "true")])])]])]])] |}.

(** [/^[a-zA-Z0-9][a-zA-Z0-9-]{0,47}$/] *)
Definition access_identity : re :=
  RSeq (RChr is_alnum) (rupto 47 (RChr (λ c, is_alnum c || Ascii.eqb c "-"))).
Definition clientAccessPolicy (namespace projectId : string) : res NetworkPolicy :=
  when_throw (negb (test access_identity projectId)) (JsError "Invalid project identity for network access") ;;
  let port n := JObj [("protocol", JStr "TCP"); ("port", JInt n)] in
  mret {|
    np_metadata := Some (new_meta "expbuild-client-access" (Some namespace) (labels projectId None) None);
    np_spec := JObj [("podSelector", JObj [("matchLabels", labels_json projectId)]);
      ("policyTypes", JArr [JStr "Ingress"]);
      ("ingress", JArr [JObj [
         ("_from", JArr [JObj [
            ("namespaceSelector", JObj [("matchLabels", string_map [("cache.expbuild.io/access-" +:+ projectId, "true")])]);
            ("podSelector", JObj [("matchLabels", string_map [("cache.expbuild.io/client", "true")])])]]);
         ("ports", JArr [port 8080; port 9092])]])] |}.

(** ** Limits of a namespace *)

(** The object [hard]. *)
Definition hard_limits (limits : Quota) : gmap string string :=
  let entry o suffix keys :=
    match o with Some z => (λ k, (k, dec_str z +:+ suffix)) <$> keys | None => [] end in
  list_to_map (
    entry (q_instances limits) "" ["count/cacheinstances.cache.expbuild.io"] ++
    entry (q_storageGiB limits) "Gi" ["requests.storage"] ++
    entry (q_cpuMillis limits) "m" ["requests.cpu"; "limits.cpu"] ++
    entry (q_memoryMiB limits) "Mi" ["requests.memory"; "limits.memory"]).
(** [/^[1-9][0-9]*$/] *)
Definition revision_pattern : re :=
  RSeq (RChr (λ c, is_digit c && negb (Ascii.eqb c "0"))) (RStar rdigit).

(** [Buffer.from(v).toString('base64')] of every value; the documents the
    platform seals hold strings only. *)
Definition secret_data (data : json) : res (gmap string string) :=
  match data with
  | JObj fs =>
      es ← mapM (λ e : string * json,
             v ← of_option (JsError "Invalid secret value") (z_string e.2);
             mret (e.1, of_chars (base64 (utf8 (chars v))))) fs;
      mret (list_to_map es)
  | _ => Throw (JsError "Invalid secret value")
  end.

(** [expectedRevision.split(':')[0]] *)
Fixpoint before_colon (l : list ascii) : list ascii :=
  match l with
  | [] => []
  | c :: l => if Ascii.eqb c ":" then [] else c :: before_colon l
  end.

Section client.
Context {K : Type} `{ApiServer K}.
Context (quantityToScalar : string → option string).

(** [try { m } catch (e) { if (statusCode(e) !== status) throw e; h }] *)
Definition unless_status {A} (status : Z) (m h : M K A) : M K A :=
  try_catch m (λ e, if is_status status e then h else throw e).

(** ** Projects *)
Definition create_policy (namespace : string) (policy : NetworkPolicy) (check : NetworkPolicy → M K ()) : M K () :=
  unless_status 409 (createNamespacedNetworkPolicy namespace policy)
    (current ← readNamespacedNetworkPolicy namespace (default "" (np_metadata policy ≫= om_name)); check current).

Definition ensure_project (namespace projectId : string) : M K () :=
  unless_status 409 (createNamespace (new_meta namespace None (labels projectId None) None)) (mret tt) ;;
  found ← readNamespace namespace;
  throw_if (negb (owned_by projectId found)) (opError "namespace_ownership_conflict") ;;
  create_policy namespace (isolation_policy namespace projectId) (λ current,
    throw_if (negb (owned_by projectId (np_metadata current))) (opError "policy_ownership_conflict")) ;;
  access ← lift (clientAccessPolicy namespace projectId);
  create_policy namespace access (λ current,
    throw_if (negb (owned_by projectId (np_metadata current))) (opError "policy_ownership_conflict") ;;
    throw_if (deleting (np_metadata current) || negb (deep_equal (np_spec current) (np_spec access)))
      (opError "client_policy_configuration_conflict")).

(** [collect(page)]: at most [count] pages and a thousand items. *)
Fixpoint collect {A} (page : option string → M K (Page A)) (count : nat) (items : list A)
    (continuation : option string) : M K (list A) :=
  match count with
  | O => throw (opError "inventory_limit_exceeded")
  | S count =>
      result ← page continuation;
      let items := items ++ pg_items result in
      throw_if (1000 <? Z.of_nat (length items)) (opError "inventory_limit_exceeded") ;;
      if truthy (pg_continue result) then collect page count items (pg_continue result) else mret items
  end.

Definition inspect_project (namespace projectId : string) : M K InventoryResources :=
  ns ← readNamespace namespace;
  throw_if (negb (truthy (ns ≫= om_uid)) || deleting ns || negb (owned_by projectId ns))
    (opError "namespace_ownership_conflict") ;;
  instances ← collect (listNamespacedCustomObject namespace 200) 5 [] None;
  volumes ← collect (listNamespacedPersistentVolumeClaim namespace 200) 5 [] None;
  final ← readNamespace namespace;
  throw_if (negb (oeq (final ≫= om_uid) (ns ≫= om_uid)) || deleting final || negb (owned_by projectId final))
    (opError "namespace_changed_during_scan") ;;
  mret (MkResourcesFound instances volumes).

(** ** The quota of a namespace *)

(** [equal(actual)]: an unreadable quantity is not equal. *)
Definition quota_equal (hard : gmap string string) (actual : option (gmap string string)) : bool :=
  match actual with
  | None => false
  | Some actual =>
      (size actual =? size hard)%nat &&
      forallb (λ e : string * string, match actual !! e.1 with
                   | Some v => match quantityToScalar v, quantityToScalar e.2 with
                               | Some a, Some b => String.eqb a b
                               | _, _ => false
                               end
                   | None => false
                   end) (map_to_list hard)
  end.
(** A stored revision that is no number, or one above the desired. *)
Definition revision_ahead (desiredRevision : string) (current : ResourceQuota) : bool :=
  let previous := prop (rq_metadata current ≫= om_annotations) revision_key in
  truthy previous &&
  match previous with
  | Some p => negb (test revision_pattern p) || (dec_val (chars desiredRevision) <? dec_val (chars p))
  | None => false
  end.
Definition quota_foreign (projectId : string) (current : ResourceQuota) : bool :=
  let meta := rq_metadata current in
  negb (truthy (meta ≫= om_uid)) || negb (truthy (meta ≫= om_resourceVersion)) ||
  negb (bool_decide (default [] (meta ≫= om_ownerReferences) = [])) || negb (owned_by projectId meta).

Definition ensure_quota (namespace projectId desiredRevision : string) (limits : Quota) : M K bool :=
  let name := "expbuild-resources"%string in
  ns ← readNamespace namespace;
  throw_if (deleting ns || negb (owned_by projectId ns)) (opError "namespace_ownership_conflict") ;;
  let hard := hard_limits limits in
  current ← unless_status 404 (q ← readNamespacedResourceQuota namespace name; mret (Some q)) (mret None);
  let body metadata := MkResourceQuota (Some metadata) (Some hard) [] false None None in
  match current with
  | None =>
      if bool_decide (hard = ∅) then mret true
      else createNamespacedResourceQuota namespace
             (body (new_meta name (Some namespace) (labels projectId None) (Some {[revision_key := desiredRevision]}))) ;;
           mret false
  | Some current =>
      throw_if (quota_foreign projectId current) (opError "quota_ownership_conflict") ;;
      throw_if (negb (bool_decide (rq_scopes current = [])) || rq_scopeSelector current) (opError "quota_scope_conflict") ;;
      if deleting (rq_metadata current) then mret false
      else
        throw_if (revision_ahead desiredRevision current) (opError "quota_revision_conflict") ;;
        if bool_decide (hard = ∅) then
          deleteNamespacedResourceQuota namespace name
            (MkPreconditions (rq_metadata current ≫= om_uid) (rq_metadata current ≫= om_resourceVersion)) ;;
          mret false
        else if negb (quota_equal hard (rq_hard current)) ||
                negb (oeq (prop (rq_metadata current ≫= om_annotations) revision_key) (Some desiredRevision)) then
          let meta := default (MkMeta None None None None None None None false) (rq_metadata current) in
          replaceNamespacedResourceQuota namespace name
            (body (meta <| om_annotations ::= λ a, Some (<[revision_key := desiredRevision]> (default ∅ a)) |>)) ;;
          mret false
        else mret (quota_equal hard (rq_status_hard current) &&
                   forallb (λ k, bool_decide (is_Some (prop (rq_used current) k))) (map_to_list hard).*1)
  end.

(** ** Credentials *)
Definition ensure_credentials (namespace name projectId instanceId operationId : string) (data : json) : M K () :=
  contents ← lift (secret_data data);
  unless_status 409
    (createNamespacedSecret namespace
       (MkSecret (Some (new_meta name (Some namespace) (labels projectId (Some instanceId))
                          (Some {[operation_key := operationId]}))) true (Some contents)))
    (found ← readNamespacedSecret namespace name;
     let meta := se_metadata found in
     throw_if (negb (label_is meta instance_key instanceId) || negb (label_is meta project_key projectId) ||
               negb (oeq (prop (meta ≫= om_annotations) operation_key) (Some operationId)) ||
               negb (bool_decide (default ∅ (se_data found) = contents)))
       (opError "credential_ownership_conflict")).

Definition delete_secret (namespace name projectId instanceId : string) : M K () :=
  unless_status 404
    (secret ← readNamespacedSecret namespace name;
     let meta := se_metadata secret in
     throw_if (negb (label_is meta project_key projectId) || negb (label_is meta instance_key instanceId))
       (opError "credential_ownership_conflict") ;;
     deleteNamespacedSecret namespace name (MkPreconditions (meta ≫= om_uid) None))
    (mret tt).

(** ** Instances *)
Definition get_object (namespace name : string) : M K (option CacheObject) :=
  unless_status 404 (c ← getNamespacedCustomObject namespace name; mret (Some c)) (mret None).

Definition same_annotation (k : string) (a b : CacheObject) : bool := oeq (annotation a k) (annotation b k).
Definition same_instance (a b : CacheObject) : bool :=
  String.eqb (sp_instanceId (co_spec a)) (sp_instanceId (co_spec b)) &&
  String.eqb (sp_projectId (co_spec a)) (sp_projectId (co_spec b)).
Definition terminating (c : CacheObject) : bool := truthy (md_deletionTimestamp (co_metadata c)).

Definition create_object (desired : CacheObject) : M K CacheObject :=
  let namespace := md_namespace (co_metadata desired) in
  unless_status 409 (createNamespacedCustomObject namespace desired)
    (found ← get_object namespace (md_name (co_metadata desired));
     current ← lift (of_option (opError "instance_ownership_conflict") found);
     throw_if (negb (same_instance current desired) || negb (same_annotation operation_key current desired) ||
               negb (same_annotation request_hash_key current desired)) (opError "instance_ownership_conflict") ;;
     throw_if (negb (bool_decide (co_spec current = co_spec desired)) || terminating current)
       (OperationError "instance_configuration_superseded" true) ;;
     mret current).

Definition approve_reclaim_volume (desired : CacheObject) (uid : string) : M K () :=
  throw_if (negb (bool_decide (is_Some (st_reclaim (sp_storage (co_spec desired))))) || String.eqb uid "")
    (opError "invalid_reclaim_request") ;;
  found ← get_object (md_namespace (co_metadata desired)) (md_name (co_metadata desired));
  let conflict := opError "instance_reclaim_conflict" in
  current ← lift (of_option conflict found);
  throw_if (negb (oeq (md_uid (co_metadata current)) (Some uid)) || terminating current ||
            negb (same_instance current desired) || negb (same_annotation operation_key current desired) ||
            negb (bool_decide (co_spec current = co_spec desired))) conflict ;;
  let marker := annotation current reclaim_marker in
  if oeq marker (Some uid) then mret tt
  else
    throw_if (truthy marker) conflict ;;
    throw_if (negb (truthy (md_resourceVersion (co_metadata current)))) (opError "missing_kubernetes_identity") ;;
    replaceNamespacedCustomObject (md_namespace (co_metadata current)) (md_name (co_metadata current))
      (current <| co_metadata ::= λ m, m <| md_annotations ::= λ a, Some (<[reclaim_marker := uid]> (default ∅ a)) |> |>) ;;
    mret tt.

(** The desired object with the binding mode it was created with. *)
Definition keep_binding_mode (current desired : CacheObject) : CacheObject :=
  let mode := sp_imageBindingMode (co_spec current) in
  desired <| co_spec ::= λ s, s <| sp_imageBindingMode := if truthy mode then mode else None |> |>.
Definition replacement (current desired : CacheObject) : CacheObject :=
  current <| co_metadata ::= λ m, m <| md_annotations ::= λ a,
               Some (default ∅ (md_annotations (co_metadata desired)) ∪ default ∅ a) |> |>
          <| co_spec := co_spec desired |>.

Definition update_object (desired : CacheObject) (expectedRevision : string) : M K CacheObject :=
  let identity_conflict := opError "instance_identity_conflict" in
  found ← get_object (md_namespace (co_metadata desired)) (md_name (co_metadata desired));
  current ← lift (of_option identity_conflict found);
  throw_if (negb (same_instance current desired) || terminating current) identity_conflict ;;
  throw_if (negb (oeq (md_uid (co_metadata current)) (Some (of_chars (before_colon (chars expectedRevision))))))
    identity_conflict ;;
  let desired := keep_binding_mode current desired in
  if same_annotation operation_key current desired then
    throw_if (negb (same_annotation request_hash_key current desired) ||
              negb (bool_decide (co_spec current = co_spec desired)))
      (OperationError "instance_configuration_superseded" true) ;;
    mret current
  else
    throw_if (negb (String.eqb (revision current) expectedRevision)) (OperationError "instance_version_conflict" true) ;;
    replaceNamespacedCustomObject (md_namespace (co_metadata desired)) (md_name (co_metadata desired))
      (replacement current desired).

Definition delete_object (namespace name uid : string) : M K () :=
  try_catch (deleteNamespacedCustomObject namespace name (MkPreconditions (Some uid) None)) (λ e,
    throw_if (is_status 409 e) (opError "instance_identity_conflict") ;;
    if is_status 404 e then mret tt else throw e).

(** ** Retained volumes *)
Definition claim_foreign (i : RetainedVolumeIdentity) (meta : option ObjectMeta) : bool :=
  negb (truthy (meta ≫= om_uid)) || negb (truthy (meta ≫= om_resourceVersion)) ||
  negb (label_is meta project_key (vi_projectId i)) || negb (label_is meta instance_key (vi_instanceId i)) ||
  negb (label_is meta instance_uid_key (vi_instanceUid i)) || negb (label_is meta managed_by_key "expbuild") ||
  negb (bool_decide (default [] (meta ≫= om_ownerReferences) = [])).

Definition retainedClaim (i : RetainedVolumeIdentity) : M K (option Volume) :=
  ns ← readNamespace (vi_namespace i);
  throw_if (negb (owned_by (vi_projectId i) ns)) (opError "namespace_ownership_conflict") ;;
  unless_status 404
    (pvc ← readNamespacedPersistentVolumeClaim (vi_namespace i) (vi_name i +:+ "-data");
     throw_if (claim_foreign i (pv_metadata pvc)) (opError "volume_ownership_conflict") ;;
     mret (Some pvc))
    (mret None).

Definition get_retained (i : RetainedVolumeIdentity) : M K (option RetainedVolume) :=
  found ← retainedClaim i;
  match found with
  | None => mret None
  | Some pvc => mret (Some (MkVolume
      (default "" (pv_metadata pvc ≫= om_name)) (vi_namespace i) (default "" (pv_metadata pvc ≫= om_uid))
      (default "" (pv_requested pvc)) (default "" (pv_capacity pvc)) (default "" (pv_storageClass pvc))
      (default "Unknown" (pv_phase pvc)) (deleting (pv_metadata pvc))))
  end.

Definition delete_retained (i : RetainedVolumeIdentity) (uid : string) : M K () :=
  found ← retainedClaim i;
  match found with
  | None => mret tt
  | Some pvc =>
      throw_if (negb (oeq (pv_metadata pvc ≫= om_uid) (Some uid))) (opError "volume_identity_conflict") ;;
      instance ← get_object (vi_namespace i) (vi_name i);
      throw_if (bool_decide (is_Some instance)) (opError "volume_instance_exists") ;;
      pods ← listNamespacedPod (vi_namespace i);
      throw_if (existsb (λ p, existsb (λ c, oeq c (pv_metadata pvc ≫= om_name)) (po_claims p)) (pg_items pods))
        (opError "volume_in_use") ;;
      try_catch (deleteNamespacedPersistentVolumeClaim (vi_namespace i) (default "" (pv_metadata pvc ≫= om_name))
                   (MkPreconditions (Some uid) (pv_metadata pvc ≫= om_resourceVersion))) (λ e,
        throw_if (is_status 409 e) (opError "volume_identity_conflict") ;;
        if is_status 404 e then mret tt else throw e)
  end.

(** ** The interfaces *)
Definition KubernetesClient : KubernetesPort K := {|
  approveRetainedVolumeReclaim := Some approve_reclaim_volume;
  getRetainedVolume := get_retained; deleteRetainedVolume := delete_retained;
  ensureProject := ensure_project; ensureCredentials := ensure_credentials;
  getInstance := get_object; createInstance := create_object; updateInstance := update_object;
  deleteInstance := delete_object; deleteCredentials := delete_secret |}.
Definition client_inventory : InventoryPort K := {| inspectProjectResources := inspect_project |}.
Definition client_quota : QuotaPort K := {| ensureProjectQuota := ensure_quota |}.
End client.

(** ** What the calls guarantee *)
Section facts.
Context {K : Type} `{ApiServer K}.
Context (quantityToScalar : string → option string).

Lemma unless_status_Ok {A} status (m h : M K A) k a k' :
  unless_status status m h k = (Ok a, k') →
  m k = (Ok a, k') ∨ ∃ e k1, m k = (Throw e, k1) ∧ is_status status e = true ∧ h k1 = (Ok a, k').
Proof.
  unfold unless_status, try_catch. destruct (m k) as [[b|e] k1]; [by left|].
  destruct (is_status status e) eqn:E; [|done]. right. by exists e, k1.
Qed.

(** Equal limits bound the same resources by the same amounts. *)
Lemma quota_equal_true hard actual :
  quota_equal quantityToScalar hard actual = true →
  ∃ m, actual = Some m ∧ dom m = dom hard ∧
    ∀ key w, hard !! key = Some w →
      ∃ v a, m !! key = Some v ∧ quantityToScalar v = Some a ∧ quantityToScalar w = Some a.
Proof.
  unfold quota_equal. destruct actual as [m|]; [|done]. intros [Hs%Nat.eqb_eq Hall]%andb_true_iff.
  rewrite forallb_forall in Hall. exists m. split; [done|].
  assert (∀ key w, hard !! key = Some w →
    ∃ v a, m !! key = Some v ∧ quantityToScalar v = Some a ∧ quantityToScalar w = Some a) as Hk.
  { intros key w Hw. specialize (Hall (key, w)). simpl in Hall.
    destruct (m !! key) as [v|] eqn:Ev.
    - exists v. destruct (quantityToScalar v) as [a|] eqn:Ea, (quantityToScalar w) as [b|] eqn:Eb;
        try (exfalso; cut (false = true); [done|]; apply Hall, list_elem_of_In; by apply elem_of_map_to_list).
      exists a. split; [done|]. split; [done|]. f_equal. symmetry. apply String.eqb_eq, Hall, list_elem_of_In.
      by apply elem_of_map_to_list.
    - exfalso. cut (false = true); [done|]. apply Hall, list_elem_of_In. by apply elem_of_map_to_list. }
  split; [|exact Hk]. symmetry. apply (set_subseteq_size_eq (C:=gset string)).
  - intros key [w Hw]%elem_of_dom. apply elem_of_dom. destruct (Hk key w Hw) as (v & _ & -> & _). by eexists.
  - rewrite !size_dom. lia.
Qed.

(** A resource of the project. *)
Definition labelled (projectId : string) (meta : option ObjectMeta) : Prop :=
  meta_label meta "cache.expbuild.io/project-id" = Some projectId ∧
  meta_label meta "app.kubernetes.io/managed-by" = Some "expbuild"%string.
Lemma owned_by_labelled projectId meta : owned_by projectId meta = true → labelled projectId meta.
Proof. unfold owned_by, label_is, oeq. intros Ho. by boolify. Qed.

(** A quota object that enforces [hard] at a revision. *)
Record enforces (projectId desiredRevision : string) (hard : gmap string string) (q : ResourceQuota) : Prop := {
  en_owned : labelled projectId (rq_metadata q);
  en_kept : deleting (rq_metadata q) = false;
  en_all : rq_scopes q = [] ∧ rq_scopeSelector q = false;
  en_revision : prop (rq_metadata q ≫= om_annotations) revision_key = Some desiredRevision;
  en_status : ∃ m, rq_status_hard q = Some m ∧ dom m = dom hard ∧
    ∀ key w, hard !! key = Some w →
      ∃ v a, m !! key = Some v ∧ quantityToScalar v = Some a ∧ quantityToScalar w = Some a;
  en_used : ∀ key, is_Some (hard !! key) → is_Some (prop (rq_used q) key) }.

(** C13. A quota is only reported as enforced when the namespace is the
    project's own and, of the limits asked for, the API server has just
    answered either that there is no quota object where there is no limit, or
    a quota object of the project, of that revision, not being deleted and
    without scopes, whose status carries exactly the limited resources with
    the same quantities and a usage for each; and nothing was written. *)
Theorem ensure_quota_enforced namespace projectId desiredRevision limits k k' :
  ensure_quota quantityToScalar namespace projectId desiredRevision limits k = (Ok true, k') →
  ∃ meta k1, readNamespace namespace k = (Ok meta, k1) ∧ labelled projectId meta ∧ deleting meta = false ∧
    ((hard_limits limits = ∅ ∧ ∃ e, readNamespacedResourceQuota namespace "expbuild-resources" k1 = (Throw e, k') ∧
        is_status 404 e = true) ∨
     ∃ q, readNamespacedResourceQuota namespace "expbuild-resources" k1 = (Ok q, k') ∧
        enforces projectId desiredRevision (hard_limits limits) q).
Proof.
  unfold ensure_quota. intros E. apply bind_Ok_inv in E as (meta & k1 & En & E).
  apply throw_if_bind in E as [Hns E]. boolify. exists meta, k1.
  split; [done|split; [by apply owned_by_labelled|split; [done|]]]. cbv zeta in E.
  apply bind_Ok_inv in E as (current & k2 & [Er|(e & k3 & Er & He & [= <- <-])]%unless_status_Ok & E).
  - apply bind_Ok_inv in Er as (q & k3 & Eq & [= <- <-]). apply throw_if_bind in E as [Hf E].
    apply throw_if_bind in E as [Hs E]. destruct (deleting (rq_metadata q)) eqn:Hd; [done|].
    apply throw_if_bind in E as [_ E].
    case_bool_decide; [by apply bind_Ok_inv in E as ([] & k4 & _ & [=])|].
    destruct (negb (quota_equal _ _ (rq_hard q)) || _) eqn:Hc; [by apply bind_Ok_inv in E as ([] & k4 & _ & [=])|].
    injection E as E <-. right. exists q. split; [done|].
    apply andb_true_iff in E as [Est Hu]. apply orb_false_iff in Hc as [_ Hrev]. apply orb_false_iff in Hs as [Hsc Hse].
    unfold quota_foreign in Hf. apply orb_false_iff in Hf as [_ Ho]. split; try done.
    + by apply owned_by_labelled, negb_false_iff.
    + split; [|done]. by apply negb_false_iff, bool_decide_eq_true in Hsc.
    + apply negb_false_iff in Hrev. unfold oeq in Hrev. by apply bool_decide_eq_true in Hrev.
    + by apply quota_equal_true.
    + intros key [w Hw]. rewrite forallb_forall in Hu. eapply bool_decide_eq_true, Hu, list_elem_of_In.
      apply list_elem_of_fmap. exists (key, w). split; [done|]. by apply elem_of_map_to_list.
  - apply bind_Throw_inv in Er as [Er|(q & k4 & _ & [=])]. left.
    case_bool_decide; [injection E as <-|by apply bind_Ok_inv in E as ([] & k4 & _ & [=])].
    split; [done|]. by exists e.
Qed.

(** ** The scan is complete *)

(** The pages of a listing from a continuation on, to the last one. *)
Inductive pages {A} (page : option string → M K (Page A)) : option string → K → list A → K → Prop :=
  | last_page c k p k' : page c k = (Ok p, k') → truthy (pg_continue p) = false → pages page c k (pg_items p) k'
  | next_page c k p k1 items k' : page c k = (Ok p, k1) → truthy (pg_continue p) = true →
      pages page (pg_continue p) k1 items k' → pages page c k (pg_items p ++ items) k'.

Lemma collect_Ok {A} (page : option string → M K (Page A)) count before c k items k' :
  collect page count before c k = (Ok items, k') →
  ∃ found, items = before ++ found ∧ pages page c k found k' ∧ Z.of_nat (length items) ≤ 1000.
Proof.
  revert before c k. induction count as [|count IH]; intros before c k; [done|]. cbn [collect].
  intros E. apply bind_Ok_inv in E as (p & k1 & Ep & E). cbv zeta in E. apply throw_if_bind in E as [Hl E].
  destruct (truthy (pg_continue p)) eqn:Hc.
  - apply IH in E as (found & -> & Hp & Hle). exists (pg_items p ++ found).
    split_and!; [by rewrite (assoc_L (++))|by eapply next_page|done].
  - injection E as <- <-. exists (pg_items p). boolify. split_and!; [done|by apply last_page|done].
Qed.

(** A scan that is returned holds every instance and every volume the API
    server listed, page after page to the last, at most a thousand of each; and
    the namespace was the project's own, not being deleted, and the same one,
    before and after. *)
Theorem inspect_complete namespace projectId k found k' :
  inspect_project namespace projectId k = (Ok found, k') →
  ∃ ns final k1 k2 k3, readNamespace namespace k = (Ok ns, k1) ∧
    pages (listNamespacedCustomObject namespace 200) None k1 (ir_instances found) k2 ∧
    pages (listNamespacedPersistentVolumeClaim namespace 200) None k2 (ir_volumes found) k3 ∧
    readNamespace namespace k3 = (Ok final, k') ∧
    (∃ uid, ns ≫= om_uid = Some uid ∧ final ≫= om_uid = Some uid) ∧
    (∀ m, m = ns ∨ m = final → labelled projectId m ∧ deleting m = false) ∧
    Z.of_nat (length (ir_instances found)) ≤ 1000 ∧ Z.of_nat (length (ir_volumes found)) ≤ 1000.
Proof.
  unfold inspect_project. intros E. apply bind_Ok_inv in E as (ns & k1 & En & E).
  apply throw_if_bind in E as [Hns E].
  apply bind_Ok_inv in E as (instances & k2 & (fi & -> & Hi & Hli)%collect_Ok & E).
  apply bind_Ok_inv in E as (volumes & k3 & (fv & -> & Hv & Hlv)%collect_Ok & E).
  apply bind_Ok_inv in E as (final & k4 & Ef & E). apply throw_if_bind in E as [Hf [= <- <-]].
  unfold oeq in Hf. boolify. exists ns, final, k1, k2, k3. simpl in *. do 4 (split; [done|]). split.
  { destruct (ns ≫= om_uid) as [uid|]; [|done]. by exists uid. }
  split; [|done]. by intros m [->| ->]; split; try apply owned_by_labelled.
Qed.
End facts.

(** ** Submitted objects *)
Section objects.
Context {K : Type} `{ApiServer K}.

(** [c] is what [desired] asks for: the same instance, submitted by the same
    operation with the same request, and not being deleted. *)
Record carries_out (desired c : CacheObject) : Prop := {
  ca_instance : sp_instanceId (co_spec c) = sp_instanceId (co_spec desired) ∧
                sp_projectId (co_spec c) = sp_projectId (co_spec desired);
  ca_operation : annotation c operation_key = annotation desired operation_key;
  ca_request : annotation c request_hash_key = annotation desired request_hash_key;
  ca_spec : co_spec c = co_spec desired }.

Lemma get_object_Ok namespace name k c k' :
  get_object namespace name k = (Ok (Some c), k') → getNamespacedCustomObject namespace name k = (Ok c, k').
Proof.
  intros [E|(e & k1 & _ & _ & [=])]%unless_status_Ok. by apply bind_Ok_inv in E as (d & k1 & Ed & [= <- <-]).
Qed.

(** [body] is [current] with another specification and other annotations. *)
Definition replaces (current body : CacheObject) : Prop :=
  let m := co_metadata body in let n := co_metadata current in
  md_name m = md_name n ∧ md_namespace m = md_namespace n ∧ md_uid m = md_uid n ∧
  md_resourceVersion m = md_resourceVersion n ∧ md_labels m = md_labels n ∧
  sp_imageBindingMode (co_spec body) =
    if truthy (sp_imageBindingMode (co_spec current)) then sp_imageBindingMode (co_spec current) else None.

(** C12. Submitting is idempotent and never takes an object over: a creation
    returns what the API server created, or, where the name is taken, the
    object the same operation has already submitted for the same instance with
    the same specification; an update returns such an object too, or replaces
    the object it has just read at the expected revision, keeping its name, its
    identity, its labels and its binding mode. *)
Theorem submissions_are_owned desired expected k c k' :
  (create_object desired k = (Ok c, k') →
   createNamespacedCustomObject (md_namespace (co_metadata desired)) desired k = (Ok c, k') ∨
   carries_out desired c ∧ terminating c = false ∧
   ∃ k1, getNamespacedCustomObject (md_namespace (co_metadata desired)) (md_name (co_metadata desired)) k1 = (Ok c, k')) ∧
  (update_object desired expected k = (Ok c, k') →
   ∃ current k1, getNamespacedCustomObject (md_namespace (co_metadata desired)) (md_name (co_metadata desired)) k =
       (Ok current, k1) ∧
     sp_instanceId (co_spec current) = sp_instanceId (co_spec desired) ∧
     sp_projectId (co_spec current) = sp_projectId (co_spec desired) ∧ terminating current = false ∧
     let kept := keep_binding_mode current desired in
     (c = current ∧ k' = k1 ∧ carries_out kept c ∨
      revision current = expected ∧ annotation current operation_key ≠ annotation desired operation_key ∧
      ∃ body, replaceNamespacedCustomObject (md_namespace (co_metadata desired)) (md_name (co_metadata desired)) body k1 =
          (Ok c, k') ∧
        co_spec body = co_spec kept ∧ replaces current body ∧
        ∀ key v, annotation desired key = Some v → annotation body key = Some v)).
Proof.
  split.
  - intros [E|(e & k1 & _ & _ & E)]%unless_status_Ok; [by left|right].
    apply bind_Ok_inv in E as (found & k2 & Ef & E).
    apply bind_Ok_inv in E as (current & k3 & [->%of_option_Ok ->]%lift_inv & E).
    apply throw_if_bind in E as [Hi E]. apply throw_if_bind in E as [Hs [= <- <-]].
    apply get_object_Ok in Ef. unfold same_annotation, same_instance, oeq in Hi. boolify.
    split; [by split|]. split; [done|]. by exists k1.
  - intros E. unfold update_object in E. cbv zeta in E. apply bind_Ok_inv in E as (found & k2 & Ef & E).
    apply bind_Ok_inv in E as (current & k3 & [->%of_option_Ok ->]%lift_inv & E).
    apply throw_if_bind in E as [Hi E]. apply throw_if_bind in E as [Hu E].
    apply get_object_Ok in Ef. apply orb_false_iff in Hi as [Hi%negb_false_iff Ht].
    unfold same_instance in Hi. apply andb_true_iff in Hi as [Hi1%String.eqb_eq Hi2%String.eqb_eq].
    exists current, k2. do 4 (split; [done|]). cbv zeta. destruct (same_annotation operation_key _ _) eqn:Ho.
    + apply throw_if_bind in E as [Hs [= <- <-]]. left. unfold same_annotation, oeq in Hs, Ho. boolify.
      do 2 (split; [done|]). split; done.
    + apply throw_if_bind in E as [Hr E]. right. unfold same_annotation, oeq in Ho. boolify.
      split; [done|]. split; [done|]. exists (replacement current (keep_binding_mode current desired)).
      split; [exact E|]. split; [done|]. split; [done|]. intros key v Hv.
      unfold annotation, prop, replacement. simpl. unfold annotation, prop in Hv.
      destruct (md_annotations (co_metadata desired)) as [m|]; simpl in *; [|done]. by apply lookup_union_Some_l.
Qed.
End objects.

(** ** Witnesses *)
Definition server_error : exn := KubeError (Some (CNum 500)) None None.
Definition not_found : exn := KubeError (Some (CNum 404)) None None.
Definition conflict : exn := KubeError (Some (CNum 409)) None None.
Definition project_namespace : ObjectMeta :=
  MkMeta (Some "expbuild-p") None (Some "ns-uid") (Some "1") (Some (labels "p" None)) None None false.

(** A server with the namespace of one project, its quota object and one
    instance, that refuses every name it is asked to create. *)
Definition sample_server (q : ResourceQuota) (c : CacheObject) : ApiServer () := {|
  createNamespace := λ _, throw conflict;
  readNamespace := λ _, mret (Some project_namespace);
  createNamespacedNetworkPolicy := λ _ _, mret tt;
  readNamespacedNetworkPolicy := λ _ _, throw not_found;
  createNamespacedSecret := λ _ _, mret tt;
  readNamespacedSecret := λ _ _, throw not_found;
  deleteNamespacedSecret := λ _ _ _, mret tt;
  createNamespacedResourceQuota := λ _ _, throw conflict;
  readNamespacedResourceQuota := λ _ _, mret q;
  replaceNamespacedResourceQuota := λ _ _ _, mret tt;
  deleteNamespacedResourceQuota := λ _ _ _, mret tt;
  readNamespacedPersistentVolumeClaim := λ _ _, throw not_found;
  listNamespacedPersistentVolumeClaim := λ _ _ _, mret (MkPage [] None);
  deleteNamespacedPersistentVolumeClaim := λ _ _ _, mret tt;
  listNamespacedPod := λ _, mret (MkPage [] None);
  getNamespacedCustomObject := λ _ _, mret c;
  createNamespacedCustomObject := λ _ _, throw conflict;
  replaceNamespacedCustomObject := λ _ _ body, mret body;
  deleteNamespacedCustomObject := λ _ _ _, mret tt;
  listNamespacedCustomObject := λ _ _ continuation,
    mret (match continuation with None => MkPage [c] (Some "next") | Some _ => MkPage [c] None end) |}.

Definition sample_limits : Quota := MkQuota (Some 3) None (Some 500) None.
Definition sample_quota : ResourceQuota :=
  MkResourceQuota
    (Some (MkMeta (Some "expbuild-resources") None (Some "q") (Some "1") (Some (labels "p" None))
             (Some {[revision_key := "7"]}) None false))
    (Some (hard_limits sample_limits)) [] false (Some (hard_limits sample_limits)) (Some (hard_limits sample_limits)).
Definition sample_object : CacheObject :=
  let resources : gmap string string := {[ "cpu" := "250m"; "memory" := "256Mi" ]} in
  MkObject "cache.expbuild.io/v1alpha1" "CacheInstance"
    (MkMetadata "c-i" "expbuild-p" (Some "u") (Some 1) (Some "9") (Some (labels "p" (Some "i")))
       (Some {[operation_key := "op"; request_hash_key := "h"]}) None)
    (MkSpec "i" "p" (Some "PinnedV1") (MkTemplateRef "bazel-remote" "0.1.0") "Running"
       (MkStorage "fast" "10Gi" "Retain" None) (MkAccess "ClusterInternal" "c-i-auth" None) (MkEviction 8 "LRU")
       (MkResources resources resources)) None.

Lemma ensure_quota_enforced_witness :
  let server := sample_server sample_quota sample_object in
  ensure_quota Some "expbuild-p" "p" "7" sample_limits tt = (Ok true, tt) ∧
  ∃ meta k1, readNamespace "expbuild-p" tt = (Ok meta, k1) ∧ labelled "p" meta.
Proof.
  intros server. assert (ensure_quota Some "expbuild-p" "p" "7" sample_limits tt = (Ok true, tt)) as E by (vm_compute; reflexivity).
  split; [exact E|].
  destruct (ensure_quota_enforced Some "expbuild-p" "p" "7" sample_limits tt tt E) as (meta & k1 & Hr & Ho & _).
  exists meta, k1. by split.
Defined.

Lemma inspect_complete_witness :
  let server := sample_server sample_quota sample_object in
  inspect_project "expbuild-p" "p" tt = (Ok (MkResourcesFound [sample_object; sample_object] []), tt) ∧
  ∃ k1 k2, pages (listNamespacedCustomObject "expbuild-p" 200) None k1 [sample_object; sample_object] k2.
Proof.
  intros server.
  assert (inspect_project "expbuild-p" "p" tt = (Ok (MkResourcesFound [sample_object; sample_object] []), tt)) as E
    by (vm_compute; reflexivity).
  split; [exact E|].
  destruct (inspect_complete "expbuild-p" "p" tt _ tt E) as (ns & final & k1 & k2 & k3 & _ & Hp & _).
  by exists k1, k2.
Defined.

Lemma submissions_are_owned_witness :
  let server := sample_server sample_quota sample_object in
  create_object sample_object tt = (Ok sample_object, tt) ∧
  (createNamespacedCustomObject "expbuild-p" sample_object tt = (Ok sample_object, tt) ∨
   carries_out sample_object sample_object).
Proof.
  intros server. assert (create_object sample_object tt = (Ok sample_object, tt)) as E by (vm_compute; reflexivity).
  split; [exact E|].
  destruct (submissions_are_owned sample_object "u:1" tt sample_object tt) as [Hc _].
  destruct (Hc E) as [?|(? & _)]; [by left|by right].
Defined.
