(* ===== verification/Diagnostics.v ===== *)
(** * Diagnostics of an instance

    [readDiagnosticEvents] and [readStatistics] of [KubernetesClient]
    ([apps/admin-api/src/kubernetes.ts]): the events the cluster recorded about
    an instance, its pods and its volumes, and the statistics of its engine,
    read with the credentials of its own secret.

    The listings with a selector are one more interface of the API server.  A
    time of an event is a [Date], [None] when it is invalid. *)
From Stdlib Require Import ZArith Lia Ascii Sorted Init.Byte.
From stdpp Require Import base tactics list option strings gmap.
From S2P Require Import Prelude Regex Numbers Effects Catalog Json Contract Secrets Http Statistics.
From S2P Require Import Kubernetes ClusterClient.

(** ** Events *)
#[warnings="-notation-for-abbreviation"]
Notation JsDate := (option Z).
Record CoreEvent := MkCoreEvent {
  ev_uid : option string; ev_creationTimestamp : option JsDate;
  ev_involved_uid : option string; ev_involved_namespace : option string; ev_involved_kind : option string;
  ev_reason : option string; ev_type : option string; ev_count : option Z;
  ev_lastTimestamp : option JsDate; ev_eventTime : option JsDate }.

(** The time is that of [toISOString]. *)
Record DiagnosticEvent := MkDiagnosticEvent {
  de_uid : string; de_resourceUID : string; de_kind : string; de_reason : string; de_type : string;
  de_count : Z; de_lastOccurred : option Z }.
#[export] Instance DiagnosticEvent_eq_dec : EqDecision DiagnosticEvent.
Proof. solve_decision. Defined.
Inductive DiagnosticState := DiagnosticsOk | DiagnosticsTruncated.
#[export] Instance DiagnosticState_eq_dec : EqDecision DiagnosticState.
Proof. solve_decision. Defined.
Record DiagnosticEvents := MkDiagnosticEvents { dg_state : DiagnosticState; dg_items : list DiagnosticEvent }.

Class DiagnosticServer (K : Type) := {
  listSelectedPods (namespace labelSelector : string) (limit : Z) : M K (Page Pod);
  listSelectedVolumes (namespace labelSelector : string) (limit : Z) : M K (Page Volume);
  listNamespacedEvent (namespace fieldSelector : string) (limit : Z) : M K (Page CoreEvent) }.

(** [/^[a-zA-Z0-9_.-]{1,100}$/] *)
Definition safe_pattern : re := rbetween 1 100 (RChr (λ c, is_alnum c || one_of "_.-" c)).
Definition safe (value : option string) : string :=
  match value with Some s => if truthy value && test safe_pattern s then s else "Unknown" | None => "Unknown" end.

Definition label_selector (uid projectId : string) : string :=
  instance_uid_key +:+ "=" +:+ uid +:+ "," +:+ project_key +:+ "=" +:+ projectId +:+ "," +:+ managed_by_key +:+ "=expbuild".
Definition field_selector (resourceUID : string) : string := "involvedObject.uid=" +:+ resourceUID.

(** ** The resources of an instance *)

(** The identity of a resource that carries the labels of the instance. *)
Definition owned_item (namespace uid projectId : string) (meta : option ObjectMeta) : option string :=
  u ← meta ≫= om_uid;
  if truthy (Some u) && oeq (meta ≫= om_namespace) (Some namespace) && label_is meta instance_uid_key uid &&
     label_is meta project_key projectId && label_is meta managed_by_key "expbuild"
  then Some u else None.
Definition add_resources (namespace uid projectId kind : string) (metas : list (option ObjectMeta))
    (resources : list (string * string)) : list (string * string) :=
  fold_left (λ m meta, match owned_item namespace uid projectId meta with
                       | Some u => map_set u kind m
                       | None => m
                       end) metas resources.
Definition instance_resources (namespace uid projectId : string) (pods : list Pod) (volumes : list Volume) :
    list (string * string) :=
  add_resources namespace uid projectId "PersistentVolumeClaim" (pv_metadata <$> volumes)
    (add_resources namespace uid projectId "Pod" (po_metadata <$> pods) [(uid, "CacheInstance"%string)]).

(** ** An event *)
Definition concerns (namespace : string) (resource : string * string) (ev : CoreEvent) : bool :=
  oeq (ev_involved_uid ev) (Some resource.1) && oeq (ev_involved_namespace ev) (Some namespace) &&
  oeq (ev_involved_kind ev) (Some resource.2) && truthy (ev_uid ev).
(** [event.lastTimestamp ?? event.eventTime ?? event.metadata.creationTimestamp] *)
Definition event_date (ev : CoreEvent) : option JsDate :=
  match ev_lastTimestamp ev with
  | Some d => Some d
  | None => match ev_eventTime ev with Some d => Some d | None => ev_creationTimestamp ev end
  end.
Definition render_event (resource : string * string) (ev : CoreEvent) (time : option Z) : DiagnosticEvent :=
  {| de_uid := default "" (ev_uid ev); de_resourceUID := resource.1; de_kind := resource.2;
     de_reason := safe (ev_reason ev); de_type := safe (ev_type ev);
     de_count := Z.max 1 (default 1 (ev_count ev)); de_lastOccurred := time |}.
(** [b.lastOccurred.localeCompare(a.lastOccurred) <= 0], a missing time being
    the empty text. *)
Definition newer_event (a b : DiagnosticEvent) : bool :=
  match de_lastOccurred b, de_lastOccurred a with
  | None, _ => true
  | Some _, None => false
  | Some x, Some y => x <=? y
  end.

Section diagnostics.
Context {K : Type} `{DiagnosticServer K} (clock : M K Z).

Definition days (n : Z) : Z := n * 86400000.
Definition diagnostic_event (namespace : string) (resource : string * string) (ev : CoreEvent) :
    M K (option DiagnosticEvent) :=
  if negb (concerns namespace resource ev) then mret None
  else match event_date ev with
       | None => mret (Some (render_event resource ev None))
       | Some None => mret None
       | Some (Some time) =>
           now ← clock;
           if time <? now - days 30 then mret None
           else now ← clock;
                if now + 300000 <? time then mret None else mret (Some (render_event resource ev (Some time)))
       end.
Definition list_events (namespace : string) (resource : string * string) :
    M K ((string * string) * Page CoreEvent) :=
  page ← listNamespacedEvent namespace (field_selector resource.1) 100; mret (resource, page).
Definition page_events (namespace : string) (answer : (string * string) * Page CoreEvent) :
    M K (list (option DiagnosticEvent)) :=
  mapM (diagnostic_event namespace answer.1) (pg_items answer.2).

(** The batches of four resources. *)
Fixpoint read_batches (namespace : string) (resources : list (list (string * string))) (truncated : bool)
    (items : list DiagnosticEvent) : M K (bool * list DiagnosticEvent) :=
  match resources with
  | [] => mret (truncated, items)
  | batch :: resources =>
      answers ← mapM (list_events namespace) batch;
      found ← mapM (page_events namespace) answers;
      read_batches namespace resources (truncated || existsb (λ a, truthy (pg_continue a.2)) answers)
        (items ++ omap id (concat found))
  end.

Definition readDiagnosticEvents (object : CacheObject) : M K DiagnosticEvents :=
  let namespace := md_namespace (co_metadata object) in
  let projectId := sp_projectId (co_spec object) in
  throw_if (negb (truthy (md_uid (co_metadata object)))) (opError "observation_identity_missing") ;;
  let uid := default "" (md_uid (co_metadata object)) in
  pods ← listSelectedPods namespace (label_selector uid projectId) 20;
  volumes ← listSelectedVolumes namespace (label_selector uid projectId) 20;
  throw_if (truthy (pg_continue pods) || truthy (pg_continue volumes)) (opError "observation_resource_limit") ;;
  let resources := instance_resources namespace uid projectId (pg_items pods) (pg_items volumes) in
  let selected := take 8 resources in
  '(truncated, items) ← read_batches namespace (batches selected) (length selected <? length resources)%nat [];
  mret {| dg_state := if truncated || (100 <? length items)%nat then DiagnosticsTruncated else DiagnosticsOk;
          dg_items := take 100 (stable_sort newer_event items) |}.
End diagnostics.

(** ** [readStatistics] *)

(** [Buffer.from(secret.data?.[key] ?? '', 'base64').toString('utf8')], over
    the characters of the model. *)
Definition probe_credential (data : option (gmap string string)) (key : string) : res string :=
  text ← of_option (JsError "Invalid credential text") (utf8_text (of_base64 (chars (default "" (prop data key)))));
  mret (of_chars text).
Definition statistics_source (template : TemplateRef) : option Source :=
  if String.eqb (tr_name template) "webdav-apache" && String.eqb (tr_version template) "0.2.0" then Some WebdavContentScan
  else if String.eqb (tr_name template) "bazel-remote" && String.eqb (tr_version template) "0.1.0" then Some BazelRemoteStatus
  else if String.eqb (tr_name template) "gradle-http" && includes ["0.1.0"; "0.2.0"] (tr_version template)
  then Some GradleHttpStatus else None.

Section read_statistics.
Context {K : Type} `{ApiServer K} `{Fetcher K} (clock : M K Z).
Context (iso_datetime : string → option (option Z)).

Definition readStatistics (object : CacheObject) : M K InstanceStatistics :=
  let namespace := md_namespace (co_metadata object) in
  secret ← readNamespacedSecret namespace (ac_credentialsSecretRef (sp_access (co_spec object)));
  throw_if (negb (label_is (se_metadata secret) project_key (sp_projectId (co_spec object))) ||
            negb (label_is (se_metadata secret) instance_key (sp_instanceId (co_spec object))))
    (opError "credential_ownership_conflict") ;;
  username ← lift (probe_credential (se_data secret) "probe-username");
  password ← lift (probe_credential (se_data secret) "probe-password");
  source ← lift (of_option (opError "statistics_template_unsupported")
                   (statistics_source (sp_templateRef (co_spec object))));
  reader clock iso_datetime source namespace (md_name (co_metadata object)) username password.
End read_statistics.

(** ** What the events are *)

Lemma instance_resources_keys namespace uid projectId pods volumes :
  let m := instance_resources namespace uid projectId pods volumes in
  NoDup m.*1 ∧ uid ∈ m.*1 ∧
  ∀ r, r ∈ m → r = (uid, "CacheInstance"%string) ∨
    ∃ meta, owned_item namespace uid projectId meta = Some r.1 ∧
      ((r.2 = "Pod"%string ∧ ∃ p, p ∈ pods ∧ po_metadata p = meta) ∨
       (r.2 = "PersistentVolumeClaim"%string ∧ ∃ v, v ∈ volumes ∧ pv_metadata v = meta)).
Proof.
  assert (∀ kind metas m, NoDup m.*1 →
    let m' := add_resources namespace uid projectId kind metas m in
    NoDup m'.*1 ∧ (∀ j, j ∈ m.*1 → j ∈ m'.*1) ∧
    ∀ r, r ∈ m' → r ∈ m ∨ ∃ meta, meta ∈ metas ∧ owned_item namespace uid projectId meta = Some r.1 ∧ r.2 = kind) as Hadd.
  { intros kind metas. induction metas as [|meta metas IH]; intros m Hm; [by split_and!; auto|]. cbn [add_resources fold_left].
    destruct (owned_item namespace uid projectId meta) as [u|] eqn:Eo.
    - destruct (map_set_keys u kind m Hm) as [Hn Hk].
      destruct (IH _ Hn) as (H1 & H2 & H3). split_and!; [done|intros j Hj; apply H2, Hk; by right|].
      intros r [Hr|(x & Hx & Hr)]%H3; [|right; exists x; split; [by right|done]].
      apply map_set_elem in Hr as [->|Hr]; [|by left]. right. exists meta. split; [by left|done].
    - destruct (IH _ Hm) as (H1 & H2 & H3). split_and!; [done|done|].
      intros r [Hr|(x & Hx & Hr)]%H3; [by left|right; exists x; split; [by right|done]]. }
  intros m. destruct (Hadd "Pod"%string (po_metadata <$> pods) [(uid, "CacheInstance"%string)]) as (P1 & P2 & P3); [apply NoDup_singleton|].
  destruct (Hadd "PersistentVolumeClaim"%string (pv_metadata <$> volumes) _ P1) as (V1 & V2 & V3).
  split_and!; [exact V1|apply V2, P2; by left|]. intros r [Hr|(meta & Hm & Ho & Hk)]%V3.
  - apply P3 in Hr as [->%list_elem_of_singleton|(meta & Hm & Ho & Hk)]; [by left|right]. exists meta. split; [done|left].
    apply list_elem_of_fmap in Hm as (p & -> & Hp). eauto.
  - right. exists meta. split; [done|right]. apply list_elem_of_fmap in Hm as (p & -> & Hp). eauto.
Qed.

(** A resource that carries the three labels of the instance in its namespace. *)
Definition labelled (namespace uid projectId : string) (meta : option ObjectMeta) (u : string) : Prop :=
  u ≠ ""%string ∧ meta ≫= om_uid = Some u ∧ meta ≫= om_namespace = Some namespace ∧
  label_is meta "cache.expbuild.io/instance-uid" uid = true ∧ label_is meta "cache.expbuild.io/project-id" projectId = true ∧
  label_is meta "app.kubernetes.io/managed-by" "expbuild" = true.
Lemma owned_item_labelled namespace uid projectId meta u :
  owned_item namespace uid projectId meta = Some u → labelled namespace uid projectId meta u.
Proof.
  unfold owned_item. intros (v & Hv & E)%bind_Some. split_if_in E; [|done]. injection E as ->. boolify.
  repeat match goal with H : oeq _ _ = true |- _ => apply bool_decide_eq_true in H
                       | H : truthy _ = true |- _ => apply truthy_Some in H as (? & [= <-] & ?) end.
  by split_and!.
Qed.

(** The event is about that resource. *)
Definition about (namespace : string) (resource : string * string) (ev : CoreEvent) : Prop :=
  ev_involved_uid ev = Some resource.1 ∧ ev_involved_namespace ev = Some namespace ∧
  ev_involved_kind ev = Some resource.2 ∧ ∃ uid, ev_uid ev = Some uid ∧ uid ≠ ""%string.
Lemma concerns_about namespace resource ev : concerns namespace resource ev = true ↔ about namespace resource ev.
Proof.
  unfold concerns, about, oeq. rewrite !andb_true_iff, !bool_decide_eq_true. split.
  - intros (((Hu & Hn) & Hk) & Ht%truthy_Some). done.
  - intros (Hu & Hn & Hk & v & -> & Hv). split_and!; try done. by apply negb_true_iff, String.eqb_neq.
Qed.

Section facts.
Context {K : Type} `{DiagnosticServer K} (clock : M K Z).

(** What becomes of an event: it is left out exactly when it is about another
    object, has no valid time, or lies outside the window of a reading of the
    clock. *)
Definition reading (now : Z) : Prop := ∃ s s', clock s = (Ok now, s').
Inductive observed (namespace : string) (resource : string * string) (ev : CoreEvent) : option DiagnosticEvent → Prop :=
  | observed_foreign : ¬ about namespace resource ev → observed namespace resource ev None
  | observed_undated : about namespace resource ev → event_date ev = None →
      observed namespace resource ev (Some (render_event resource ev None))
  | observed_invalid : event_date ev = Some None → observed namespace resource ev None
  | observed_old time now : event_date ev = Some (Some time) → reading now → time < now - days 30 →
      observed namespace resource ev None
  | observed_ahead time now : event_date ev = Some (Some time) → reading now → now + 300000 < time →
      observed namespace resource ev None
  | observed_recent time before after : about namespace resource ev → event_date ev = Some (Some time) →
      reading before → reading after → before - days 30 ≤ time → time ≤ after + 300000 →
      observed namespace resource ev (Some (render_event resource ev (Some time))).

Lemma diagnostic_event_Ok namespace resource ev s o s' :
  diagnostic_event clock namespace resource ev s = (Ok o, s') → observed namespace resource ev o.
Proof.
  unfold diagnostic_event. destruct (concerns _ _ ev) eqn:Hc; simpl;
    [apply concerns_about in Hc|intros [= <- _]; constructor; rewrite <-concerns_about; by rewrite Hc].
  destruct (event_date ev) as [[time|]|] eqn:Ed; [|intros [= <- _]; by constructor..].
  intros (before & s1 & Eb & E)%bind_Ok_inv. split_if_in E; boolify.
  { injection E as <- _. eapply observed_old; [done| |done]. by exists s, s1. }
  apply bind_Ok_inv in E as (after & s2 & Ea & E).
  split_if_in E; boolify; injection E as <- _.
  - eapply observed_ahead; [done| |done]. by exists s1, s2.
  - eapply observed_recent; [done|done|by exists s, s1|by exists s1, s2|done|done].
Qed.

(** The answer to the listing of a resource, and what its events became. *)
Definition answered (namespace : string) (r : string * string) (page : Page CoreEvent) : Prop :=
  ∃ s s', listNamespacedEvent namespace (field_selector r.1) 100 s = (Ok page, s').
Definition observed_page (namespace : string) (r : string * string) (page : Page CoreEvent)
    (os : list (option DiagnosticEvent)) : Prop :=
  Forall2 (observed namespace r) (pg_items page) os.

Lemma read_batches_Ok namespace resources truncated items s b found s' :
  read_batches clock namespace resources truncated items s = (Ok (b, found), s') →
  ∃ pages oss, Forall2 (answered namespace) (concat resources) pages ∧
    Forall2 (λ a os, observed_page namespace a.1 a.2 os) (zip (concat resources) pages) oss ∧
    found = items ++ omap id (concat oss) ∧
    (b = true ↔ truncated = true ∨ ∃ p, p ∈ pages ∧ truthy (pg_continue p) = true).
Proof.
  revert truncated items s. induction resources as [|batch resources IH]; intros truncated items s; cbn [read_batches].
  { intros [= <- <- _]. exists [], []. rewrite app_nil_r. split_and!; [constructor..|done|].
    split; [by left|]. intros [?|(p & Hp & _)]; [done|by apply not_elem_of_nil in Hp]. }
  intros (answers & s1 & Ea & E)%bind_Ok_inv. apply bind_Ok_inv in E as (oss1 & s2 & Eo & E).
  apply IH in E as (pages & oss & Hp & Ho & -> & Hb). apply mapM_M in Ea, Eo.
  assert (answers.*1 = batch ∧ Forall2 (answered namespace) batch (answers.*2)) as [<- Ha].
  { clear -Ea. induction Ea as [|r [r' page] batch answers (t & t' & E) _ [IH1 IH2]]; [by split; constructor|].
    unfold list_events in E. apply bind_Ok_inv in E as (p & t1 & E & [= <- <- _]). csimpl. split; [by f_equal|].
    constructor; [by exists t, t1|done]. }
  assert (Forall2 (λ a os, observed_page namespace a.1 a.2 os) answers oss1) as Ho1.
  { eapply Forall2_impl; [exact Eo|]. intros a os (t & t' & E). apply mapM_M in E.
    eapply Forall2_impl; [exact E|]. intros ev o (t1 & t2 & Ed). by eapply diagnostic_event_Ok. }
  exists (answers.*2 ++ pages), (oss1 ++ oss). rewrite concat_cons. split_and!.
  - by apply Forall2_app.
  - rewrite zip_with_app by by rewrite !length_fmap. rewrite zip_fst_snd. by apply Forall2_app.
  - by rewrite concat_app, omap_app, (assoc_L (++)).
  - rewrite Hb, orb_true_iff, existsb_exists. setoid_rewrite elem_of_app. setoid_rewrite list_elem_of_fmap.
    setoid_rewrite <- list_elem_of_In. naive_solver.
Qed.

(** Diagnostics are what the cluster recorded about the resources of this
    instance.  The events are those of at most eight resources, the instance
    itself and the pods and volumes of the listings that carry its labels (a
    project, the instance and the platform) in its namespace, each once: of
    every answer exactly the events of that resource within the last thirty
    days, the newest hundred of them in order; and they are reported as whole
    exactly when no resource, no page and no event was left out. *)
Theorem diagnostics_exact object k d k' :
  readDiagnosticEvents clock object k = (Ok d, k') →
  let namespace := md_namespace (co_metadata object) in
  let selector uid := label_selector uid (sp_projectId (co_spec object)) in
  ∃ uid pods volumes k1 k2, md_uid (co_metadata object) = Some uid ∧ uid ≠ ""%string ∧
    listSelectedPods namespace (selector uid) 20 k = (Ok pods, k1) ∧
    listSelectedVolumes namespace (selector uid) 20 k1 = (Ok volumes, k2) ∧
    truthy (pg_continue pods) = false ∧ truthy (pg_continue volumes) = false ∧
    let resources := instance_resources namespace uid (sp_projectId (co_spec object)) (pg_items pods) (pg_items volumes) in
    NoDup resources.*1 ∧ uid ∈ resources.*1 ∧
    (∀ r, r ∈ resources → r = (uid, "CacheInstance"%string) ∨
       ∃ meta, labelled namespace uid (sp_projectId (co_spec object)) meta r.1 ∧
         ((r.2 = "Pod"%string ∧ ∃ p, p ∈ pg_items pods ∧ po_metadata p = meta) ∨
          (r.2 = "PersistentVolumeClaim"%string ∧ ∃ v, v ∈ pg_items volumes ∧ pv_metadata v = meta))) ∧
    ∃ pages oss, Forall2 (answered namespace) (take 8 resources) pages ∧
      Forall2 (λ a os, observed_page namespace a.1 a.2 os) (zip (take 8 resources) pages) oss ∧
      (∃ all, all ≡ₚ omap id (concat oss) ∧ StronglySorted (λ a b, newer_event a b = true) all ∧ dg_items d = take 100 all) ∧
      (dg_state d = DiagnosticsOk ↔ (length resources ≤ 8)%nat ∧ (∀ p, p ∈ pages → truthy (pg_continue p) = false) ∧
         (length (omap id (concat oss)) ≤ 100)%nat).
Proof.
  intros E. cbv zeta. unfold readDiagnosticEvents in E. cbv zeta in E. apply throw_if_bind in E as [Hu E].
  apply negb_false_iff, truthy_Some in Hu as (uid & Hu & Hne). rewrite Hu in E. cbn [from_option id] in E.
  apply bind_Ok_inv in E as (pods & k1 & Ep & E). apply bind_Ok_inv in E as (volumes & k2 & Ev & E).
  apply throw_if_bind in E as [Hc E]. boolify. apply bind_Ok_inv in E as ([b items] & k3 & Er & [= <- <-]).
  apply read_batches_Ok in Er as (pages & oss & Hp & Ho & -> & Hb). rewrite concat_batches in Hp, Ho. rewrite app_nil_l.
  exists uid, pods, volumes, k1, k2. do 6 (split; [done|]). cbv zeta.
  destruct (instance_resources_keys (md_namespace (co_metadata object)) uid (sp_projectId (co_spec object))
    (pg_items pods) (pg_items volumes)) as (Hn & Hi & Hr). do 2 (split; [done|]). split.
  { intros r [?|(meta & Hown & Hm)]%Hr; [by left|right]. exists meta. split; [by apply owned_item_labelled|done]. }
  exists pages, oss. do 2 (split; [done|]). split.
  - exists (stable_sort newer_event (omap id (concat oss))). split_and!; [apply stable_sort_perm| |done].
    apply stable_sort_sorted; [|done|].
    + intros x y z. unfold newer_event. destruct (de_lastOccurred x), (de_lastOccurred y), (de_lastOccurred z); try done.
      rewrite !Z.leb_le. lia.
    + intros x y. unfold newer_event. destruct (de_lastOccurred x), (de_lastOccurred y); try done. rewrite Z.leb_le, Z.leb_gt. lia.
  - simpl. destruct (b || _) eqn:Eb; simpl.
    + split; [done|]. intros (Hl & Hpages & Hlen). apply orb_true_iff in Eb as [Eb|Eb%Nat.ltb_lt]; [|lia].
      apply Hb in Eb as [Eb%Nat.ltb_lt|(p & Hin & Ht)]; [rewrite length_take in Eb; lia|by rewrite (Hpages p Hin) in Ht].
    + apply orb_false_iff in Eb as [-> Eb%Nat.ltb_ge]. split; [intros _|done].
      split_and!; [|intros p Hin; apply not_true_iff_false; intros Ht|done].
      * apply not_lt. intros Hlt. enough (false = true) by done. apply Hb. left. apply Nat.ltb_lt. rewrite length_take. lia.
      * enough (false = true) by done. apply Hb. right. by exists p.
Qed.
End facts.

(** ** What the statistics are *)

(** The engines whose status the client can read are exactly those the catalog
    says have statistics. *)
Lemma statistics_source_capable template :
  is_Some (statistics_source template) ↔
    cap_statistics <$> instanceCapabilities (tr_name template) (Some (tr_version template)) = Some true.
Proof.
  destruct template as [name version]. split.
  - intros [source E]. unfold statistics_source in E. cbn [tr_name tr_version] in *. repeat split_if_in E; try done; boolify; subst; try reflexivity.
    match goal with Hv : includes _ version = true |- _ => apply includes_spec in Hv end.
    repeat match goal with Hv : version ∈ _ |- _ => apply elem_of_cons in Hv as [->|Hv]; [reflexivity|] end. set_solver.
  - simpl. unfold instanceCapabilities. destruct (negb _); [done|]. destruct (js_find _ templates) as [t|] eqn:E; [|done].
    apply js_find_Some in E as [Hin Ht]. unfold oeq in Ht. boolify. simplify_eq. simpl. intros [= Hs].
    unfold templates in Hin.
    repeat (apply elem_of_cons in Hin as [->|Hin]; [try done; vm_compute; by eexists|]). by apply not_elem_of_nil in Hin.
Qed.

(** The credentials [ensure_credentials] wrote are read back as they were. *)
Lemma probe_credential_stored fs contents key v :
  NoDup fs.*1 → secret_data (JObj fs) = Ok contents → (key, JStr v) ∈ fs → probe_credential (Some contents) key = Ok v.
Proof.
  intros Hn (es & Hes & [= <-])%res_bind_Ok Hin. apply mapM_res in Hes.
  assert (es.*1 = fs.*1) as Hk.
  { clear -Hes. induction Hes as [|x y l k (v & _ & [= <-])%res_bind_Ok _ IH]; [done|]. csimpl. by f_equal. }
  apply list_elem_of_lookup_1 in Hin as [i Hi]. destruct (Forall2_lookup_l _ _ _ _ _ Hes Hi) as (e & He & E).
  simpl in E. injection E as <-.
  unfold probe_credential. simpl.
  rewrite (elem_of_list_to_map_1 es key (of_chars (base64 (utf8 (chars v)))));
    [|by rewrite Hk|by eapply list_elem_of_lookup_2].
  simpl. rewrite chars_of_chars, of_base64_inv, utf8_text_utf8. simpl. by rewrite of_chars_chars.
Qed.

(** Statistics are those of this instance.  They are only returned for a
    template whose catalog entry has statistics, after the secret the object
    names was found to carry the labels of its project and its instance; and
    they come from the reader of that engine, asked at the object's own name
    and namespace with the credentials stored in that secret, which are the
    ones the control plane generated for it. *)
Theorem statistics_are_own {K} `{ApiServer K} `{Fetcher K} (clock : M K Z) iso_datetime object k s k' :
  readStatistics clock iso_datetime object k = (Ok s, k') →
  let namespace := md_namespace (co_metadata object) in
  let template := sp_templateRef (co_spec object) in
  cap_statistics <$> instanceCapabilities (tr_name template) (Some (tr_version template)) = Some true ∧
  ∃ source secret k1 username password, statistics_source template = Some source ∧
    readNamespacedSecret namespace (ac_credentialsSecretRef (sp_access (co_spec object))) k = (Ok secret, k1) ∧
    meta_label (se_metadata secret) project_key = Some (sp_projectId (co_spec object)) ∧
    meta_label (se_metadata secret) instance_key = Some (sp_instanceId (co_spec object)) ∧
    reader clock iso_datetime source namespace (md_name (co_metadata object)) username password k1 = (Ok s, k') ∧
    ∀ fs, NoDup fs.*1 → secret_data (JObj fs) = Ok (default ∅ (se_data secret)) →
      (∀ v, ("probe-username"%string, JStr v) ∈ fs → username = v) ∧
      (∀ v, ("probe-password"%string, JStr v) ∈ fs → password = v).
Proof.
  unfold readStatistics. cbv zeta. intros (secret & k1 & Es & E)%bind_Ok_inv. apply throw_if_bind in E as [Hl E].
  apply bind_Ok_inv in E as (username & k2 & [Eu ->]%lift_inv & E).
  apply bind_Ok_inv in E as (password & k2 & [Ew ->]%lift_inv & E).
  apply bind_Ok_inv in E as (source & k2 & [Et%of_option_Ok ->]%lift_inv & E).
  split; [by apply statistics_source_capable; eexists|]. unfold label_is, oeq in Hl. boolify.
  exists source, secret, k1, username, password. do 5 (split; [done|]).
  intros fs Hn Hd. assert (∀ key v, probe_credential (se_data secret) key = Ok v → probe_credential (Some (default ∅ (se_data secret))) key = Ok v) as Hdef.
  { intros key v. unfold probe_credential. by destruct (se_data secret). }
  apply Hdef in Eu, Ew.
  split; intros v Hv; pose proof (probe_credential_stored _ _ _ _ Hn Hd Hv) as Hp; congruence.
Qed.

(** ** Witnesses *)
Definition sample_pod : Pod :=
  MkPod (Some (MkMeta None (Some "expbuild-p") (Some "pod") None
     (Some {[instance_uid_key := "u"; project_key := "p"; managed_by_key := "expbuild"]}) None None false)) [].
Definition sample_event (uid involved kind reason : string) (time : Z) : CoreEvent :=
  MkCoreEvent (Some uid) None (Some involved) (Some "expbuild-p"%string) (Some kind) (Some reason) (Some "Normal"%string)
    (Some 0) (Some (Some time)) None.
(** A cluster with one pod of the instance, and one event of each. *)
Definition sample_diagnostics : DiagnosticServer () := {|
  listSelectedPods := λ _ _ _, mret (MkPage [sample_pod] None);
  listSelectedVolumes := λ _ _ _, mret (MkPage [] None);
  listNamespacedEvent := λ _ selector _,
    mret (MkPage (if String.eqb selector "involvedObject.uid=u" then [sample_event "e1" "u" "CacheInstance" "Synced" 5; sample_event "e0" "other" "CacheInstance" "Synced" 5]
                  else [sample_event "e2" "pod" "Pod" "not a code" 7]) None) |}.
Lemma diagnostics_exact_witness : ∃ d,
  @readDiagnosticEvents () sample_diagnostics (mret 9) sample_object tt = (Ok d, tt) ∧
  dg_items d = [MkDiagnosticEvent "e2" "pod" "Pod" "Unknown" "Normal" 1 (Some 7);
                MkDiagnosticEvent "e1" "u" "CacheInstance" "Synced" "Normal" 1 (Some 5)] ∧
  ∃ pages, length pages = 2%nat ∧ Forall2 (@answered () sample_diagnostics "expbuild-p") [("u", "CacheInstance"); ("pod", "Pod")]%string pages.
Proof.
  destruct (@readDiagnosticEvents () sample_diagnostics (mret 9) sample_object tt) as [[d|e] []] eqn:E;
    pose proof E as E'; vm_compute in E'; [|discriminate E']. exists d. injection E' as <-.
  split; [reflexivity|]. split; [reflexivity|].
  edestruct (@diagnostics_exact () sample_diagnostics (mret 9) sample_object tt _ tt E)
    as (uid & pods & volumes & k1 & k2 & Hu & _ & Hp & Hv & _ & _ & _ & _ & _ & pages & oss & Ha & _).
  exists pages. vm_compute in Hu, Hp, Hv. injection Hu as <-. injection Hp as <- <-. injection Hv as <- <-.
  split; [|exact Ha]. symmetry. apply (Forall2_length _ _ _ Ha).
Defined.

Definition probe_secret : Secret :=
  MkSecret (Some (new_meta "c-i-auth" None (labels "p" (Some "i")) None)) true
    (Some (match secret_data (JObj [("probe-username", JStr "probe"); ("probe-password", JStr "hidden")]) with
           | Ok m => m | Throw _ => ∅ end)).
Definition probed_object : CacheObject :=
  sample_object <| co_spec ::= λ s, s <| sp_templateRef := MkTemplateRef "gradle-http" "0.2.0" |> |>.
Definition probed_server : ApiServer () :=
  let server := sample_server sample_quota sample_object in {|
  createNamespace := @createNamespace () server; readNamespace := @readNamespace () server;
  createNamespacedNetworkPolicy := @createNamespacedNetworkPolicy () server;
  readNamespacedNetworkPolicy := @readNamespacedNetworkPolicy () server;
  createNamespacedSecret := @createNamespacedSecret () server;
  readNamespacedSecret := λ _ _, mret probe_secret;
  deleteNamespacedSecret := @deleteNamespacedSecret () server;
  createNamespacedResourceQuota := @createNamespacedResourceQuota () server;
  readNamespacedResourceQuota := @readNamespacedResourceQuota () server;
  replaceNamespacedResourceQuota := @replaceNamespacedResourceQuota () server;
  deleteNamespacedResourceQuota := @deleteNamespacedResourceQuota () server;
  readNamespacedPersistentVolumeClaim := @readNamespacedPersistentVolumeClaim () server;
  listNamespacedPersistentVolumeClaim := @listNamespacedPersistentVolumeClaim () server;
  deleteNamespacedPersistentVolumeClaim := @deleteNamespacedPersistentVolumeClaim () server;
  listNamespacedPod := @listNamespacedPod () server;
  getNamespacedCustomObject := @getNamespacedCustomObject () server;
  createNamespacedCustomObject := @createNamespacedCustomObject () server;
  replaceNamespacedCustomObject := @replaceNamespacedCustomObject () server;
  deleteNamespacedCustomObject := @deleteNamespacedCustomObject () server;
  listNamespacedCustomObject := @listNamespacedCustomObject () server |}.

Lemma statistics_are_own_witness : ∃ s,
  @readStatistics () probed_server page_fetcher (mret 5) (λ _, None) probed_object tt = (Ok s, tt) ∧
  ∃ password, @reader () page_fetcher (mret 5) (λ _, None) GradleHttpStatus "expbuild-p" "c-i" "probe" password tt = (Ok s, tt).
Proof.
  destruct (@readStatistics () probed_server page_fetcher (mret 5) (λ _, None) probed_object tt) as [[s|e] []] eqn:E;
    [|vm_compute in E; discriminate E].
  exists s. split; [reflexivity|].
  destruct (@statistics_are_own () probed_server page_fetcher (mret 5) (λ _, None) probed_object tt s tt E)
    as (_ & source & secret & k1 & username & password & Hs & Hr & _ & _ & Hread & Hc).
  vm_compute in Hs. injection Hs as <-. injection Hr as <- <-. exists password.
  destruct (Hc [("probe-username", JStr "probe"); ("probe-password", JStr "hidden")]%string) as [Hu _].
  - refine (bool_decide_unpack _ _). vm_compute. exact I.
  - reflexivity.
  - rewrite (Hu "probe"%string) in Hread by apply list_elem_of_here. exact Hread.
Defined.
