(* ===== verification/Observations.v ===== *)
(** * The tables of the observations

    [migrations/009_observability.sql]: the latest snapshot of every instance,
    the events about instances and the history of alerts, written by the
    collector ([observation-store.ts]) and the webhook and read by the routes of
    [observability.ts].

    They are kept beside the database of the platform: the state a process of
    the observations works on is the pair of these tables and of what else it
    uses.  [kube_rel R] says that a run moves that state along [R]. *)
From Stdlib Require Import ZArith Lia.
From stdpp Require Import base tactics list option strings gmap relations.
From S2P Require Import Prelude Effects Catalog Json Contract Database Statistics Diagnostics.

(** ** Rows *)
Inductive Phase := Ready | Starting | Suspended | Deleting | PhaseUnknown.
Inductive Collection := CollectionOk | CollectionError | CollectionUnsupported | CollectionSuspended.
Inductive EventsCollection := EventsOk | EventsTruncated | EventsError | EventsUnsupported.
#[export] Instance Phase_eq_dec : EqDecision Phase.
Proof. solve_decision. Defined.
#[export] Instance Collection_eq_dec : EqDecision Collection.
Proof. solve_decision. Defined.
#[export] Instance EventsCollection_eq_dec : EqDecision EventsCollection.
Proof. solve_decision. Defined.

Record SnapshotCondition := MkSnapshotCondition {
  sc_type : string; sc_status : string; sc_reason : string; sc_current : bool }.
#[export] Instance SnapshotCondition_eq_dec : EqDecision SnapshotCondition.
Proof. solve_decision. Defined.
Record Snapshot := MkSnapshot {
  sn_phase : Phase; sn_collection : Collection; sn_generation : option Z;
  sn_conditions : list SnapshotCondition; sn_statistics : option InstanceStatistics;
  sn_eventsCollection : option EventsCollection }.
#[export] Instance eta_Snapshot : Eta Snapshot := λ r,
  MkSnapshot (sn_phase r) (sn_collection r) (sn_generation r) (sn_conditions r) (sn_statistics r) (sn_eventsCollection r).

(** A row of [observation_snapshots], under the instance it is of. *)
Record SnapshotRow := MkSnapshotRow {
  sr_project_id : string; sr_instance_uid : string; sr_observed_at : Z; sr_payload : Snapshot }.

(** The details of an event: what the collector saw change, or an event of the
    cluster. *)
Inductive EventDetails :=
  | InstanceObserved (phase : Phase) (generation : option Z) (conditions : list SnapshotCondition)
  | KubernetesEvent (event : DiagnosticEvent).
#[export] Instance EventDetails_eq_dec : EqDecision EventDetails.
Proof. solve_decision. Defined.
Record EventRow := MkEventRow {
  oe_project_id : string; oe_instance_id : string; oe_instance_uid : string; oe_observed_at : Z;
  oe_code : string; oe_source_uid : option string; oe_details : EventDetails }.
#[export] Instance eta_EventRow : Eta EventRow := λ r,
  MkEventRow (oe_project_id r) (oe_instance_id r) (oe_instance_uid r) (oe_observed_at r) (oe_code r)
    (oe_source_uid r) (oe_details r).

Inductive HistoryState := Firing | Resolved.
#[export] Instance HistoryState_eq_dec : EqDecision HistoryState.
Proof. solve_decision. Defined.
Record AlertRow := MkAlertRow {
  ar_state : HistoryState; ar_ends_at : option Z; ar_received_at : Z; ar_payload : json;
  ar_active_confirmed : option bool; ar_checked_at : option Z }.
(** Project, instance identity, fingerprint and start: the primary key. *)
#[warnings="-notation-for-abbreviation"]
Notation AlertKey := (string * string * string * Z)%type.
#[warnings="-notation-for-abbreviation"]
Notation AlertTable := (gmap AlertKey AlertRow).

Record Observations := MkObservations {
  ob_snapshots : gmap string SnapshotRow; ob_events : gmap string EventRow; ob_alerts : AlertTable }.
#[export] Instance eta_Observations : Eta Observations := λ r,
  MkObservations (ob_snapshots r) (ob_events r) (ob_alerts r).
Definition no_observations : Observations := MkObservations ∅ ∅ ∅.

(** ** Statements *)
Section statements.
Context {S : Type}.
(** What a process of the observations works on beside the database. *)
#[warnings="-notation-for-abbreviation"]
Notation Beside := (Observations * S)%type.

Definition on_tables (f : Z → Observations → Observations) : M (World Beside) () := λ w,
  (Ok tt, w <| w_kube ::= λ r, (f (w_now w) r.1, r.2) |>).
Definition on_tables_res {A} (f : Z → Observations → res A * Observations) : M (World Beside) A := λ w,
  let '(r, t) := f (w_now w) (w_kube w).1 in (r, w <| w_kube ::= λ r, (t, r.2) |>).
Definition read_tables {A} (f : Observations → A) : M (World Beside) A := gets (λ w, f (w_kube w).1).
(** A call of what else it uses. *)
Definition on_rest {A} (m : M S A) : M (World Beside) A := on_kube (zoom snd (λ s r, (r.1, s)) m).
(** BEGIN, run, COMMIT; an exception rolls the tables back. *)
Definition atomically_tables {A} (run : M (World Beside) A) : M (World Beside) A := λ w,
  match run w with
  | (Ok a, w') => (Ok a, w')
  | (Throw e, w') => (Throw e, w' <| w_kube ::= λ r, ((w_kube w).1, r.2) |> <| w_db := w_db w |>)
  end.
End statements.

(** ** Runs beside the database *)
Section kube_rel.
Context {K : Type} (R : relation K) `{!PreOrder R}.

(** Runs that move the state beside the database along [R], with an
    environment that does. *)
Definition kube_moves (w : World K) : Prop := Forall (λ i, ∀ k, R k (if_kube i k)) (w_env w).
Definition kube_rel (w w' : World K) : Prop := kube_moves w → R (w_kube w) (w_kube w') ∧ kube_moves w'.

#[export] Instance kube_rel_preorder : PreOrder kube_rel.
Proof.
  split.
  - intros w Hw. by split.
  - intros w1 w2 w3 H12 H23 H1. destruct (H12 H1) as [? H2]. destruct (H23 H2). split; [by etransitivity|done].
Qed.
Lemma kube_rel_yield : within kube_rel yield.
Proof.
  intros [db k now [|i env] ms] Hw; unfold yield; simpl; [by split|].
  unfold kube_moves in *. simpl in *. apply Forall_cons in Hw as [Hi Hw]. by split.
Qed.
Lemma kube_rel_query {A} (f : Z → DB → A) : within kube_rel (query f).
Proof. intros w Hw. by split. Qed.
Lemma kube_rel_date_now : within kube_rel date_now.
Proof. intros w Hw. by split. Qed.
Lemma kube_rel_pool {A} (m : M (World K) A) : within kube_rel m → within kube_rel (pool m).
Proof. intros Hm. apply within_bind; [typeclasses eauto|apply kube_rel_yield|done]. Qed.
Lemma kube_rel_on_kube {A} (m : M K A) : within R m → within kube_rel (on_kube m).
Proof.
  intros Hm w Hw. unfold on_kube, zoom. specialize (Hm (w_kube w)). destruct (m (w_kube w)) as [r k]. by split.
Qed.
Lemma kube_rel_kube {A} (m : M K A) : within R m → within kube_rel (kube m).
Proof. intros Hm. apply within_bind; [typeclasses eauto|apply kube_rel_yield|]. intros _. by apply kube_rel_on_kube. Qed.
End kube_rel.
#[export] Hint Resolve kube_rel_yield kube_rel_query kube_rel_date_now : within.

(** ** What a process may do to the tables *)
Section tables.
Context {S : Type} (T : relation Observations) `{!PreOrder T} (R : relation S) `{!PreOrder R}.

Definition beside (r r' : Observations * S) : Prop := T r.1 r'.1 ∧ R r.2 r'.2.
#[export] Instance beside_preorder : PreOrder beside.
Proof. split; [by intros r|]. intros r1 r2 r3 [] []. split; by etransitivity. Qed.

Lemma beside_tables f : (∀ now t, T t (f now t)) → within (kube_rel beside) (on_tables f).
Proof. intros Hf w Hw. split; [split; simpl; [apply Hf|done]|done]. Qed.
Lemma beside_tables_res {A} (f : Z → Observations → res A * Observations) :
  (∀ now t, T t (f now t).2) → within (kube_rel beside) (on_tables_res f).
Proof.
  intros Hf w Hw. unfold on_tables_res. specialize (Hf (w_now w) (w_kube w).1). destruct (f _ _) as [r t].
  split; [split; simpl; [done|done]|done].
Qed.
Lemma beside_read {A} (f : Observations → A) : within (kube_rel beside) (read_tables f).
Proof. intros w Hw. by split. Qed.
Lemma beside_rest {A} (m : M S A) : within R m → within (kube_rel beside) (on_rest m).
Proof.
  intros Hm. apply kube_rel_on_kube. intros r. unfold zoom. specialize (Hm r.2). destruct (m r.2). by split.
Qed.
Lemma beside_atomically {A} (m : M (World (Observations * S)) A) :
  within (kube_rel beside) m → within (kube_rel beside) (atomically_tables m).
Proof.
  intros Hm w Hw. unfold atomically_tables. destruct (Hm w Hw) as [[Ht Hr] He].
  destruct (m w) as [[a|e] w']; [done|]. simpl in *. split; [by split|done].
Qed.
End tables.
#[export] Hint Resolve beside_read beside_rest : within.
