(* ===== verification/Collector.v ===== *)
(** * The observation collector

    [apps/admin-api/src/observation-store.ts]: the snapshot of an instance that
    is the caller's own ([ownedSnapshot]), the cycle that takes one of every
    live instance ([ObservationCollector.tick]), what is stored of it ([save]),
    and the gauges a scrape reads.

    One process at a time collects: it holds a session lock of PostgreSQL
    through a connection of its own, its [leader].  The connection may break
    while the process waits; the [error] event then runs [lostLeadership] and
    every later query on the connection fails.  The event is part of the
    interference of the world: the memory of the process belongs to the state
    beside the database.  The transaction that saves an observation is one
    step: a connection that breaks within it is not modelled, only one that
    broke before. *)
From Stdlib Require Import ZArith Lia Sorted.
From stdpp Require Import base tactics list option strings gmap relations sorting.
From S2P Require Import Prelude Regex Effects Catalog Json Contract Database Http Statistics Kubernetes ClusterClient.
From S2P Require Import Diagnostics Observations.

(** ** [ownedSnapshot] *)

(** A row of the query: the binding with the namespace of its project. *)
Record ObservedBinding := MkObservedBinding {
  bb_id : string; bb_project_id : string; bb_kubernetes_uid : string; bb_template_name : string;
  bb_template_version : option string; bb_namespace : string; bb_resource_name : string }.

Definition code (s : string) : string := if test safe_pattern s then s else "Unknown".
Definition snapshot_condition (generation : option Z) (c : Condition) : SnapshotCondition :=
  {| sc_type := code (cd_type c);
     sc_status := if includes ["True"; "False"; "Unknown"] (cd_status c) then cd_status c else "Unknown";
     sc_reason := code (cd_reason c); sc_current := oeq (cd_observedGeneration c) generation |}.
Definition foreign_object (object : CacheObject) (binding : ObservedBinding) : bool :=
  negb (oeq (md_uid (co_metadata object)) (Some (bb_kubernetes_uid binding))) ||
  negb (String.eqb (sp_instanceId (co_spec object)) (bb_id binding)) ||
  negb (String.eqb (sp_projectId (co_spec object)) (bb_project_id binding)) ||
  negb (String.eqb (md_namespace (co_metadata object)) (bb_namespace binding)) ||
  negb (String.eqb (md_name (co_metadata object)) (bb_resource_name binding)) ||
  negb (String.eqb (tr_name (sp_templateRef (co_spec object))) (bb_template_name binding)) ||
  negb (oeq (Some (tr_version (sp_templateRef (co_spec object)))) (bb_template_version binding)).
Definition is_ready (c : SnapshotCondition) : bool :=
  String.eqb (sc_type c) "Ready" && String.eqb (sc_status c) "True" && sc_current c.
Definition ownedSnapshot (object : CacheObject) (binding : ObservedBinding) : res Snapshot :=
  when_throw (foreign_object object binding) (JsError "Observation ownership conflict") ;;
  let generation := md_generation (co_metadata object) in
  let conditions := snapshot_condition generation <$> take 20 (default [] (co_status object ≫= ss_conditions)) in
  let suspended := String.eqb (sp_desiredState (co_spec object)) "Suspended" in
  mret {| sn_phase := if truthy (md_deletionTimestamp (co_metadata object)) then Deleting
                      else if suspended then Suspended
                      else if existsb is_ready conditions then Ready else Starting;
          sn_collection := if suspended then CollectionSuspended else CollectionUnsupported;
          sn_generation := generation; sn_conditions := conditions; sn_statistics := None;
          sn_eventsCollection := None |}.

(** A code is kept where it is one. *)
Lemma code_safe s : test safe_pattern (code s) = true.
Proof. unfold code. by destruct (test safe_pattern s) eqn:E. Qed.
Lemma code_eq s c : test safe_pattern c = true → c ≠ "Unknown"%string → code s = c ↔ s = c.
Proof.
  intros Hc Hne. unfold code. destruct (test safe_pattern s) eqn:E; [done|].
  split; [by intros <-|]. intros ->. by rewrite Hc in E.
Qed.

(** A snapshot is only taken of the instance itself: of the object with the
    identity, the names, the project and the template version of the binding.
    It says the instance is ready exactly when the object is neither deleted
    nor suspended and one of its first twenty conditions is a Ready condition
    that is true for the current generation; and it holds at most twenty
    conditions, of which every text is a code. *)
Theorem ownedSnapshot_exact object binding :
  let spec := co_spec object in let meta := co_metadata object in
  (is_ok (ownedSnapshot object binding) = true ↔
     md_uid meta = Some (bb_kubernetes_uid binding) ∧ sp_instanceId spec = bb_id binding ∧
     sp_projectId spec = bb_project_id binding ∧ md_namespace meta = bb_namespace binding ∧
     md_name meta = bb_resource_name binding ∧ tr_name (sp_templateRef spec) = bb_template_name binding ∧
     bb_template_version binding = Some (tr_version (sp_templateRef spec))) ∧
  ∀ s, ownedSnapshot object binding = Ok s →
    (sn_phase s = Ready ↔ truthy (md_deletionTimestamp meta) = false ∧ sp_desiredState spec ≠ "Suspended"%string ∧
       ∃ c, c ∈ take 20 (default [] (co_status object ≫= ss_conditions)) ∧ cd_type c = "Ready"%string ∧
         cd_status c = "True"%string ∧ cd_observedGeneration c = md_generation meta) ∧
    (length (sn_conditions s) ≤ 20)%nat ∧
    (∀ c, c ∈ sn_conditions s → test safe_pattern (sc_type c) = true ∧ test safe_pattern (sc_reason c) = true ∧
       sc_status c ∈ ["True"; "False"; "Unknown"]%string) ∧
    sn_generation s = md_generation meta ∧ sn_statistics s = None.
Proof.
  cbv zeta. unfold ownedSnapshot. split.
  - unfold foreign_object, oeq. split.
    + intros E. destruct (_ || _) eqn:Ef in E; [done|]. boolify. by split_and!.
    + intros (E1 & E2 & E3 & E4 & E5 & E6 & E7). rewrite E1, E2, E3, E4, E5, E6, E7, !String.eqb_refl.
      by rewrite !bool_decide_eq_true_2.
  - intros s [_ [= <-]]%res_seq_Ok. simpl. split_and!; [|rewrite length_fmap, length_take; lia| |done|done].
    + destruct (truthy _); [by split; [|intros [? _]]|]. destruct (String.eqb_spec (sp_desiredState (co_spec object)) "Suspended");
        [by split; [|intros (_ & ? & _)]|].
      assert (∀ c, is_ready (snapshot_condition (md_generation (co_metadata object)) c) = true ↔
        cd_type c = "Ready"%string ∧ cd_status c = "True"%string ∧ cd_observedGeneration c = md_generation (co_metadata object)) as Hready.
      { intros c. unfold is_ready. cbn [sc_type sc_status sc_current snapshot_condition]. unfold oeq. rewrite !andb_true_iff, !String.eqb_eq, bool_decide_eq_true, code_eq by done.
        destruct (includes ["True"; "False"; "Unknown"]%string (cd_status c)) eqn:Ei; [tauto|].
        split; [by intros [[_ ?] _]|]. intros (_ & Et & _). by rewrite Et in Ei. }
      destruct (existsb is_ready _) eqn:Ex; (split; [|done]) || (split; [done|]).
      * intros _. apply existsb_exists in Ex as (c' & (c & -> & Hc)%list_elem_of_In%list_elem_of_fmap & Hr%Hready). by split_and!; [..|exists c].
      * intros (_ & _ & c & Hc & Hr%Hready). exfalso. apply not_true_iff_false in Ex. apply Ex, existsb_exists.
        eexists. split; [apply list_elem_of_In, list_elem_of_fmap; by exists c|done].
    + intros c' (c & -> & _)%list_elem_of_fmap. cbn [sc_type sc_status sc_reason snapshot_condition]. split_and!; [apply code_safe..|].
      destruct (includes _ _) eqn:E; [by apply includes_spec in E|]. by apply includes_spec.
Qed.

(** ** The process *)

(** A sample of the scrape view, and the memory of the process: the cursor, the
    time of the last cleanup in milliseconds, the connection that holds the
    lock, and the samples by instance. *)
Record Sample := MkSample { sa_at : Z; sa_labels : list (string * string); sa_snapshot : Snapshot }.
Record Memory := MkMemory {
  me_cursor : string; me_lastCleanup : Z; me_leader : option nat; me_samples : gmap string Sample }.
#[export] Instance eta_Memory : Eta Memory := λ r, MkMemory (me_cursor r) (me_lastCleanup r) (me_leader r) (me_samples r).
Definition first_instance : string := "00000000-0000-0000-0000-000000000000".
Definition started : Memory := MkMemory first_instance 0 None ∅.
(** [lostLeadership] *)
Definition lost_leadership (m : Memory) : Memory :=
  m <| me_leader := None |> <| me_samples := ∅ |> <| me_cursor := first_instance |>.

(** What the collector asks of the cluster beside [KubernetesPort]. *)
Class CollectorPort (C : Type) := {
  port_readDiagnosticEvents : option (CacheObject → M C DiagnosticEvents);
  port_readStatistics : CacheObject → M C InstanceStatistics }.

(** ** Statements *)
Definition live_lifecycle (l : Lifecycle) : bool := match l with LActive | LDeleting => true | _ => false end.
Definition live_binding (db : DB) (r : string * Binding) : option ObservedBinding :=
  let '(id, b) := r in
  uid ← bi_kubernetes_uid b;
  p ← db_projects db !! bi_project_id b;
  if live_lifecycle (bi_lifecycle b)
  then Some (MkObservedBinding id (bi_project_id b) uid (bi_template_name b) (bi_template_version b) (pr_namespace p)
               (bi_resource_name b))
  else None.
Definition after_cursor (cursor id : string) : bool := negb (String.leb id cursor).
(** The twenty live instances with the least identifiers above the cursor. *)
Definition due_bindings (cursor : string) (db : DB) : list ObservedBinding :=
  take 20 (stable_sort (λ a b, String.leb (bb_id a) (bb_id b))
    (filter (λ b, after_cursor cursor (bb_id b) = true) (omap (live_binding db) (map_to_list (db_bindings db))))).

(** The row of the binding is still the one the snapshot was taken of. *)
Definition current_identity (binding : ObservedBinding) (db : DB) : bool :=
  match db_bindings db !! bb_id binding with
  | Some b => oeq (bi_kubernetes_uid b) (Some (bb_kubernetes_uid binding)) && live_lifecycle (bi_lifecycle b)
  | None => false
  end.

Definition insert_event (id : string) (row : EventRow) (t : Observations) : res () * Observations :=
  if bool_decide (is_Some (ob_events t !! id)) then (Throw (PgUnique "observation_events_pkey"), t)
  else (Ok tt, t <| ob_events ::= <[id := row]> |>).
Definition same_source (uid source : string) (r : EventRow) : bool :=
  String.eqb (oe_instance_uid r) uid && oeq (oe_source_uid r) (Some source).
(** [ON CONFLICT(instance_uid,source_uid) DO UPDATE ... WHERE details IS DISTINCT] *)
Definition upsert_event (now : Z) (id source : string) (row : EventRow) (t : Observations) : res () * Observations :=
  match js_find (λ e : string * EventRow, same_source (oe_instance_uid row) source e.2) (map_to_list (ob_events t)) with
  | Some (j, old) =>
      (Ok tt, if bool_decide (oe_details old = oe_details row) then t
              else t <| ob_events ::= <[j := old <| oe_observed_at := now |> <| oe_details := oe_details row |>]> |>)
  | None => insert_event id row t
  end.
(** [ORDER BY observed_at DESC,id DESC] *)
Definition newest_first (a b : string * EventRow) : bool :=
  (oe_observed_at b.2 <? oe_observed_at a.2) || (oe_observed_at a.2 =? oe_observed_at b.2) && String.leb b.1 a.1.
Definition kept_events (instance : string) (t : Observations) : list string :=
  (take 1000 (stable_sort newest_first
    (filter (λ e, oe_instance_id e.2 = instance) (map_to_list (ob_events t))))).*1.
Definition prune_events (instance : string) (t : Observations) : Observations :=
  t <| ob_events ::= filter (λ e, (negb (String.eqb (oe_instance_id e.2) instance) ||
                                   includes (kept_events instance t) e.1) = true) |>.
Definition upsert_snapshot (id : string) (row : SnapshotRow) (t : Observations) : Observations :=
  t <| ob_snapshots ::= λ m, <[id := match m !! id with
         | None => row
         | Some old => MkSnapshotRow (sr_project_id old) (sr_instance_uid row) (sr_observed_at row) (sr_payload row)
         end]> m |>.
(** The two deletions of the cleanup, of at most a thousand rows each. *)
Definition month_ago (now : Z) : Z := now - seconds (30 * 86400).
Definition delete_old_events (now : Z) (t : Observations) : Observations :=
  let old := (take 1000 (stable_sort (λ a b, oe_observed_at a.2 <=? oe_observed_at b.2)
    (filter (λ e : string * EventRow, (oe_observed_at e.2 <? month_ago now) = true) (map_to_list (ob_events t))))).*1 in
  t <| ob_events ::= filter (λ e, negb (includes old e.1) = true) |>.
Definition old_alert (now : Z) (r : AlertRow) : bool :=
  (ar_received_at r <? month_ago now) && bool_decide (ar_state r = Resolved).
Definition delete_old_alerts (now : Z) (t : Observations) : Observations :=
  let old := (take 1000 (filter (λ e : AlertKey * AlertRow, old_alert now e.2 = true) (map_to_list (ob_alerts t)))).*1 in
  t <| ob_alerts ::= filter (λ e, bool_decide (e.1 ∉ old) = true) |>.

(** [signature(s)]: the conditions are compared in the order of their types.
    Any order of the texts that has no ties decides the same equality. *)
Definition signature (s : Snapshot) : Phase * option Z * list SnapshotCondition :=
  (sn_phase s, sn_generation s, stable_sort (λ a b, String.leb (sc_type a) (sc_type b)) (sn_conditions s)).
Definition unchanged_snapshot (binding : ObservedBinding) (snapshot : Snapshot) (old : option SnapshotRow) : bool :=
  match old with
  | Some row => String.eqb (sr_instance_uid row) (bb_kubernetes_uid binding) &&
                bool_decide (signature (sr_payload row) = signature snapshot)
  | None => false
  end.
Definition event_row (binding : ObservedBinding) (now : Z) (code : string) (source : option string)
    (details : EventDetails) : EventRow :=
  MkEventRow (bb_project_id binding) (bb_id binding) (bb_kubernetes_uid binding) now code source details.
Definition observed_row (binding : ObservedBinding) (now : Z) (snapshot : Snapshot) : EventRow :=
  event_row binding now "instance.observed" None
    (InstanceObserved (sn_phase snapshot) (sn_generation snapshot) (sn_conditions snapshot)).
Definition kubernetes_row (binding : ObservedBinding) (now : Z) (e : DiagnosticEvent) : EventRow :=
  event_row binding now ("kubernetes." +:+ de_reason e) (Some (de_uid e)) (KubernetesEvent e).
Definition source_text (s : Snapshot) : string :=
  match sn_statistics s with
  | Some st => match st_source st with
               | BazelRemoteStatus => "bazel-remote-status"
               | WebdavContentScan => "webdav-content-scan"
               | GradleHttpStatus => "gradle-http-status"
               end
  | None => "operator-status"
  end.

(** ** The collector *)

(** The tables, the memory of the process and the cluster. *)
#[warnings="-notation-for-abbreviation"]
Notation Beside C := (Observations * (Memory * C))%type.

Section collector.
Context {C : Type} `{KubernetesPort C} `{CollectorPort C} (random_uuid : M C string).

Definition memory_now : M (World (Beside C)) Memory := gets (λ w, (w_kube w).2.1).
Definition on_memory (f : Memory → Memory) : M (World (Beside C)) () :=
  on_rest (modify (λ s, (f s.1, s.2))).
Definition on_cluster {A} (m : M C A) : M (World (Beside C)) A := on_rest (zoom snd (λ c s, (s.1, c)) m).

Definition await_cluster {A} (m : M C A) : M (World (Beside C)) A := yield ;; on_cluster m.

(** [await client.query(...)]: it fails once the connection was lost. *)
Definition leads (client : nat) (m : Memory) : bool := oeq (me_leader m) (Some client).
Definition client_query {A} (client : nat) (m : M (World (Beside C)) A) : M (World (Beside C)) A :=
  yield ;;
  now ← memory_now;
  throw_if (negb (leads client now)) (JsError "Client was closed and is not queryable") ;;
  m.

(** *** [save] *)
Definition insert_change (binding : ObservedBinding) (snapshot : Snapshot) : M (World (Beside C)) () :=
  id ← on_cluster random_uuid;
  on_tables_res (λ now, insert_event id (observed_row binding now snapshot)).
Definition insert_kubernetes (binding : ObservedBinding) (e : DiagnosticEvent) : M (World (Beside C)) () :=
  id ← on_cluster random_uuid;
  on_tables_res (λ now, upsert_event now id (de_uid e) (kubernetes_row binding now e)).
Definition store (binding : ObservedBinding) (snapshot : Snapshot) (events : list DiagnosticEvent) (at_ms : Z) :
    M (World (Beside C)) () :=
  old ← read_tables (λ t, ob_snapshots t !! bb_id binding);
  when (negb (unchanged_snapshot binding snapshot old)) (insert_change binding snapshot) ;;
  for_each events (insert_kubernetes binding) ;;
  on_tables (λ _, prune_events (bb_id binding)) ;;
  on_tables (λ _, upsert_snapshot (bb_id binding)
    (MkSnapshotRow (bb_project_id binding) (bb_kubernetes_uid binding) (at_ms * 1000) snapshot)).
Definition save_transaction (binding : ObservedBinding) (snapshot : Snapshot) (events : list DiagnosticEvent)
    (at_ms : Z) : M (World (Beside C)) bool :=
  current ← query (λ _, current_identity binding);
  if negb current then mret false else store binding snapshot events at_ms ;; mret true.

Definition sample_of (binding : ObservedBinding) (snapshot : Snapshot) (at_ms : Z) : Sample :=
  MkSample at_ms [("expbuild_project_id", bb_project_id binding); ("expbuild_instance_uid", bb_kubernetes_uid binding);
                  ("source", source_text snapshot)] snapshot.
Definition keep_sample (client : nat) (id : string) (s : Sample) (m : Memory) : Memory :=
  if leads client m && ((Z.of_nat (size (me_samples m)) <? 10000) || bool_decide (is_Some (me_samples m !! id)))
  then m <| me_samples ::= <[id := s]> |> else m.
(** After COMMIT or ROLLBACK. *)
Definition publish (client : nat) (binding : ObservedBinding) (snapshot : Snapshot) (at_ms : Z) (stored : bool) :
    M (World (Beside C)) () :=
  on_memory (if stored then keep_sample client (bb_id binding) (sample_of binding snapshot at_ms)
             else λ m, m <| me_samples ::= delete (bb_id binding) |>).
Definition save (client : nat) (binding : ObservedBinding) (snapshot : Snapshot)
    (events : option DiagnosticEvents) : M (World (Beside C)) () :=
  let items := match events with Some e => dg_items e | None => [] end in
  at_ms ← date_now;
  stored ← client_query client (atomically_tables (save_transaction binding snapshot items at_ms));
  yield ;;
  publish client binding snapshot at_ms stored.

(** *** One instance *)
Definition unknown_snapshot : Snapshot :=
  MkSnapshot PhaseUnknown CollectionError None [] None (Some EventsError).
Definition events_state (s : DiagnosticState) : EventsCollection :=
  match s with DiagnosticsOk => EventsOk | DiagnosticsTruncated => EventsTruncated end.
Definition running (p : Phase) : bool := match p with Ready | Starting => true | _ => false end.
Definition has_statistics (binding : ObservedBinding) : bool :=
  match instanceCapabilities (bb_template_name binding) (bb_template_version binding) with
  | Some c => cap_statistics c
  | None => false
  end.
(** The object, with its snapshot where it is the caller's own. *)
Definition own_object (binding : ObservedBinding) : M (World (Beside C)) (option (CacheObject * Snapshot)) :=
  try_catch
    (found ← await_cluster (getInstance (bb_namespace binding) (bb_resource_name binding));
     match found with
     | None => mret None
     | Some object => snapshot ← lift (ownedSnapshot object binding); mret (Some (object, snapshot))
     end)
    (λ _, mret None).
Definition read_events (object : CacheObject) : M (World (Beside C)) (EventsCollection * option DiagnosticEvents) :=
  match port_readDiagnosticEvents with
  | None => mret (EventsUnsupported, None)
  | Some read => try_catch (events ← await_cluster (read object); mret (events_state (dg_state events), Some events))
                           (λ _, mret (EventsError, None))
  end.
Definition read_statistics (object : CacheObject) (snapshot : Snapshot) : M (World (Beside C)) Snapshot :=
  try_catch (s ← await_cluster (port_readStatistics object);
             mret (snapshot <| sn_statistics := Some s |> <| sn_collection := CollectionOk |>))
            (λ _, mret (snapshot <| sn_collection := CollectionError |>)).
(** The function of a batch: what cannot be read is unknown, or an error of
    that part alone. *)
Definition observe_instance (binding : ObservedBinding) :
    M (World (Beside C)) (ObservedBinding * Snapshot * option DiagnosticEvents) :=
  found ← own_object binding;
  match found with
  | None => mret (binding, unknown_snapshot, None)
  | Some (object, snapshot) =>
      '(state, events) ← read_events object;
      let snapshot := snapshot <| sn_eventsCollection := Some state |> in
      snapshot ← (if running (sn_phase snapshot) && has_statistics binding then read_statistics object snapshot
                  else mret snapshot);
      mret (binding, snapshot, events)
  end.

(** *** [tick] *)
Definition collect_batch (client : nat) (batch : list ObservedBinding) : M (World (Beside C)) () :=
  observed ← mapM observe_instance batch;
  for_each observed (λ o, save client o.1.1 o.1.2 o.2).
Definition cleanup (client : nat) : M (World (Beside C)) () :=
  client_query client (on_tables delete_old_events) ;;
  client_query client (on_tables delete_old_alerts) ;;
  now ← date_now;
  on_memory (λ m, m <| me_lastCleanup := now |>).
Definition recent_sample (now : Z) (s : Sample) : bool := negb (sa_at s <? now - 120000).
Definition lead (client : nat) : M (World (Beside C)) bool :=
  client_query client (mret tt) ;;
  m ← memory_now;
  rows ← client_query client (query (λ _, due_bindings (me_cursor m)));
  when (bool_decide (rows = [])) (on_memory (λ m, m <| me_cursor := first_instance |>)) ;;
  for_each (batches rows) (collect_batch client) ;;
  match last rows with
  | Some b => on_memory (λ m, m <| me_cursor := bb_id b |>)
  | None => mret tt
  end ;;
  now ← date_now;
  on_memory (λ m, m <| me_samples ::= filter (λ e, recent_sample now e.2 = true) |>) ;;
  now ← date_now;
  m ← memory_now;
  when (3600000 <? now - me_lastCleanup m) (cleanup client) ;;
  mret (length rows =? 20)%nat.

(** [lock] is the answer of [pg_try_advisory_lock] on the new connection
    [candidate]: [None] when the query fails. *)
Definition collector_tick (candidate : nat) (lock : option bool) : M (World (Beside C)) bool :=
  m ← memory_now;
  let guarded client :=
    try_catch (lead client)
      (λ e, m ← memory_now; when (leads client m) (on_memory lost_leadership) ;; throw e) in
  match me_leader m with
  | Some client => guarded client
  | None =>
      yield ;;
      yield ;;
      match lock with
      | None => throw (JsError "Connection terminated unexpectedly")
      | Some false => mret false
      | Some true => on_memory (λ m, m <| me_leader := Some candidate |>) ;; guarded candidate
      end
  end.
(** [close()] *)
Definition close_collector : M (World (Beside C)) () :=
  m ← memory_now;
  on_memory (λ m, m <| me_leader := None |> <| me_samples := ∅ |>) ;;
  match me_leader m with Some _ => yield | None => mret tt end.
End collector.

(** ** The gauges *)

(** A value in thousandths; the times are seconds. *)
Definition gauge_value (name : string) (s : Sample) : option Z :=
  let snapshot := sa_snapshot s in
  let stats := sn_statistics snapshot in
  let flag (b : bool) := if b then 1000 else 0 in
  if String.eqb name "snapshot_timestamp_seconds" then Some (sa_at s)
  else if String.eqb name "statistics_timestamp_seconds" then (λ st, observed_ms (st_observedAt st)) <$> stats
  else if String.eqb name "ready" then Some (flag (bool_decide (sn_phase snapshot = Ready)))
  else if String.eqb name "expected_running" then Some (flag (running (sn_phase snapshot)))
  else if String.eqb name "statistics_available" then
    match sn_collection snapshot with
    | CollectionUnsupported | CollectionSuspended => None
    | c => Some (flag (bool_decide (c = CollectionOk)))
    end
  else if String.eqb name "used_bytes" then (λ st, usedBytes st * 1000) <$> stats
  else if String.eqb name "capacity_bytes" then (λ st, capacityBytes st * 1000) <$> stats
  else if String.eqb name "entries" then (λ st, itemCount st * 1000) <$> stats
  else None.
(** [collect()] of the gauge [name]: the values by labels. *)
Definition collect_gauge (name : string) (now : Z) (m : Memory) : list (list (string * string) * Z) :=
  omap (λ s, if 120000 <? now - sa_at s then None else v ← gauge_value name s; Some (sa_labels s, v))
    (rows (me_samples m)).
Definition leader_gauge (m : Memory) : Z := match me_leader m with Some _ => 1 | None => 0 end.

(** ** The client of the cluster as the collector's port *)
Definition client_collector {K} `{ApiServer K} `{DiagnosticServer K} `{Fetcher K} (clock : M K Z)
    (iso_datetime : string → option (option Z)) : CollectorPort K := {|
  port_readDiagnosticEvents := Some (readDiagnosticEvents clock);
  port_readStatistics := readStatistics clock iso_datetime |}.

(** ** The events of a cycle *)
Definition same_event (r r' : EventRow) : Prop :=
  oe_project_id r' = oe_project_id r ∧ oe_instance_id r' = oe_instance_id r ∧ oe_instance_uid r' = oe_instance_uid r ∧
  oe_code r' = oe_code r ∧ oe_source_uid r' = oe_source_uid r.
(** No event of the cluster is stored twice. *)
Definition unique_sources (t : Observations) : Prop := ∀ i j r q source,
  ob_events t !! i = Some r → ob_events t !! j = Some q → oe_instance_uid r = oe_instance_uid q →
  oe_source_uid r = Some source → oe_source_uid q = Some source → i = j.

(** What storing the observation of [binding] may add: rows of that instance;
    only the details and the time of its own events change. *)
Record adds (binding : ObservedBinding) (t t' : Observations) : Prop := {
  ad_snapshots : ob_snapshots t' = ob_snapshots t;
  ad_alerts : ob_alerts t' = ob_alerts t;
  ad_old id r : ob_events t !! id = Some r → ∃ r', ob_events t' !! id = Some r' ∧ same_event r r' ∧
    (r' = r ∨ oe_instance_uid r = bb_kubernetes_uid binding ∧ is_Some (oe_source_uid r));
  ad_new id r : ob_events t' !! id = Some r → ob_events t !! id = None →
    oe_instance_id r = bb_id binding ∧ oe_instance_uid r = bb_kubernetes_uid binding;
  ad_sources : unique_sources t → unique_sources t' }.
#[export] Instance adds_preorder binding : PreOrder (adds binding).
Proof.
  split.
  - intros t. split; try done; [|by intros id r ->]. intros id r Hr. exists r. split; [done|]. by split; [|left].
  - intros t1 t2 t3 [S1 A1 O1 N1 U1] [S2 A2 O2 N2 U2]. split; [congruence|congruence| | |by auto].
    + intros id r Hr. destruct (O1 _ _ Hr) as (r1 & H1 & E1 & D1). destruct (O2 _ _ H1) as (r2 & H2 & E2 & D2).
      exists r2. split; [done|]. unfold same_event in *. split; [intuition congruence|].
      destruct D1 as [->|D1]; [done|by right].
    + intros id r Hr Hn. destruct (ob_events t2 !! id) as [r2|] eqn:E; [|by eapply N2].
      destruct (N1 _ _ E Hn) as [Hi Hu]. destruct (O2 _ _ E) as (r3 & H3 & (_ & Ei & Eu & _) & _). split; congruence.
Qed.

Lemma insert_event_adds binding id row t t' :
  insert_event id row t = (Ok tt, t') →
  oe_instance_id row = bb_id binding → oe_instance_uid row = bb_kubernetes_uid binding →
  (∀ source, oe_source_uid row = Some source → ∀ j q, ob_events t !! j = Some q → same_source (oe_instance_uid row) source q = false) →
  adds binding t t' ∧ ob_events t !! id = None ∧ ob_events t' !! id = Some row.
Proof.
  unfold insert_event. case_bool_decide as Hn; [done|]. intros [= <-] Hi Hu Hs.
  apply eq_None_not_Some in Hn. simpl. split; [|by rewrite lookup_insert_eq]. split; try done; simpl.
  - intros j r Hr. exists r. rewrite lookup_insert_ne by congruence. split; [done|]. by split; [|left].
  - intros j r. destruct (decide (id = j)) as [<-|]; [rewrite lookup_insert_eq; by intros [= <-]|].
    rewrite lookup_insert_ne by done. congruence.
  - assert (∀ j q source, ob_events t !! j = Some q → oe_instance_uid row = oe_instance_uid q →
      oe_source_uid row = Some source → oe_source_uid q = Some source → False) as Hno.
    { intros j q source Hq Eu Er Eq. specialize (Hs _ Er _ _ Hq). unfold same_source, oeq in Hs.
      rewrite Eu, Eq, String.eqb_refl, bool_decide_eq_true_2 in Hs by done. done. }
    intros Huniq i j r q source. simpl.
    destruct (decide (id = i)) as [<-|], (decide (id = j)) as [<-|];
      rewrite ?lookup_insert_eq, ?lookup_insert_ne by done; [done|..].
    + intros [= <-] Hq Eu Er Eq. exfalso. by eapply Hno.
    + intros Hr [= <-] Eu Er Eq. exfalso. by eapply Hno.
    + by apply Huniq.
Qed.
Lemma upsert_event_adds binding now id source row t t' :
  upsert_event now id source row t = (Ok tt, t') → oe_instance_id row = bb_id binding →
  oe_instance_uid row = bb_kubernetes_uid binding → oe_source_uid row = Some source →
  adds binding t t' ∧
  (∃ j r, ob_events t' !! j = Some r ∧ same_source (bb_kubernetes_uid binding) source r = true ∧ oe_details r = oe_details row) ∧
  ∀ i r, ob_events t !! i = Some r → ∃ r', ob_events t' !! i = Some r' ∧ same_event r r' ∧
    (r' = r ∨ oe_source_uid r = Some source ∧ oe_details r' = oe_details row).
Proof.
  unfold upsert_event. intros E Hi Hu Hsrc. rewrite <- Hu. destruct (js_find _ _) as [[j old]|] eqn:Ef.
  - apply js_find_Some in Ef as [Hj%elem_of_map_to_list Hs]. simpl in Hs. injection E as <-.
    case_bool_decide as Ed.
    { split; [reflexivity|]. split; [by exists j, old|]. intros i r Hr. exists r. split; [done|]. by split; [|left]. }
    assert (oe_instance_uid old = oe_instance_uid row ∧ oe_source_uid old = Some source) as [Eu Es].
    { unfold same_source, oeq in Hs. by boolify. }
    assert (∀ i r, ob_events t !! i = Some r → ∃ r',
      <[j:=old <| oe_observed_at := now |> <| oe_details := oe_details row |>]> (ob_events t) !! i = Some r' ∧ same_event r r' ∧
      (r' = r ∨ oe_source_uid r = Some source ∧ oe_details r' = oe_details row)) as Hold.
    { intros i r Hr. destruct (decide (j = i)) as [<-|]; [rewrite lookup_insert_eq|rewrite lookup_insert_ne by done; exists r; split; [done|]; by split; [|left]].
      rewrite Hj in Hr. injection Hr as <-. eexists. split; [done|]. split; [done|by right]. }
    split; [|split; [exists j; eexists; split; [simpl; by rewrite lookup_insert_eq|done]|exact Hold]]. split; try done; simpl.
    + intros i r Hr. destruct (decide (j = i)) as [<-|].
      * destruct (Hold _ _ Hr) as (r' & H1 & H2 & _). rewrite Hj in Hr. injection Hr as <-.
        exists r'. split; [done|]. split; [done|]. right. rewrite Es. split; [congruence|by eexists].
      * rewrite lookup_insert_ne by done. exists r. split; [done|]. by split; [|left].
    + intros i r Hr Hn. rewrite lookup_insert_ne in Hr by congruence. congruence.
    + intros Huniq i k r q src. simpl.
      assert (∀ i r, <[j:=old <| oe_observed_at := now |> <| oe_details := oe_details row |>]> (ob_events t) !! i = Some r →
        ∃ r0, ob_events t !! i = Some r0 ∧ oe_instance_uid r0 = oe_instance_uid r ∧ oe_source_uid r0 = oe_source_uid r) as Hback.
      { intros i' r'. destruct (decide (j = i')) as [<-|]; [rewrite lookup_insert_eq; intros [= <-]; by exists old|].
        rewrite lookup_insert_ne by done. intros ?. by exists r'. }
      intros (r0 & Hr & U1 & S1)%Hback (q0 & Hq & U2 & S2)%Hback Ew E1 E2. apply (Huniq i k r0 q0 src Hr Hq); congruence.
  - pose proof E as E0. eapply insert_event_adds in E as (Ha & Hn & He); [|done|done|].
    + split; [done|]. split.
      { exists id, row. split; [done|]. split; [|done]. unfold same_source, oeq. rewrite String.eqb_refl, Hsrc. simpl. by apply bool_decide_eq_true. }
      intros i r Hr. exists r. split; [|by split; [|left]].
      unfold insert_event in E0. case_bool_decide; [done|]. injection E0 as <-. simpl. by rewrite lookup_insert_ne by congruence.
    + rewrite Hsrc. intros src [= <-] j q Hq. apply not_true_iff_false. intros Hs.
      unfold js_find in Ef. apply head_None in Ef. assert ((j, q) ∈ filter (λ e : string * EventRow, same_source (oe_instance_uid row) source e.2 = true) (map_to_list (ob_events t))) as Hin
        by (apply list_elem_of_filter; split; [done|by apply elem_of_map_to_list]).
      rewrite Ef in Hin. by apply not_elem_of_nil in Hin.
Qed.

(** What the statement writes: an own row is inserted, or the one with that
    source shows the details now. *)
Lemma upsert_event_rows now id source row t t' :
  upsert_event now id source row t = (Ok tt, t') →
  (∀ i r, ob_events t !! i = Some r → ∃ r', ob_events t' !! i = Some r' ∧ (r' = r ∨
     oe_instance_uid r = oe_instance_uid row ∧ oe_source_uid r = Some source ∧
     r' = r <| oe_observed_at := now |> <| oe_details := oe_details row |>)) ∧
  ∀ i r, ob_events t' !! i = Some r → ob_events t !! i = None → r = row.
Proof.
  unfold upsert_event. destruct (js_find _ _) as [[j old]|] eqn:Ef.
  - apply js_find_Some in Ef as [Hj%elem_of_map_to_list Hs]. simpl in Hs. intros [= <-].
    assert (oe_instance_uid old = oe_instance_uid row ∧ oe_source_uid old = Some source) as [Eu Es].
    { unfold same_source, oeq in Hs. by boolify. }
    case_bool_decide; [split; [intros i r Hr; exists r; split; [done|by left]|congruence]|]. split; intros i r Hr; simpl in *.
    + destruct (decide (j = i)) as [<-|Hne]; [rewrite lookup_insert_eq|rewrite lookup_insert_ne by done; exists r; split; [done|by left]].
      rewrite Hj in Hr. injection Hr as <-. eexists. split; [done|]. by right.
    + destruct (decide (j = i)) as [<-|Hne]; [congruence|]. rewrite lookup_insert_ne in Hr by done. congruence.
  - unfold insert_event. case_bool_decide as Hn; [done|]. apply eq_None_not_Some in Hn. intros [= <-].
    split; intros i r Hr; simpl in *.
    + exists r. rewrite lookup_insert_ne by congruence. split; [done|by left].
    + destruct (decide (id = i)) as [<-|Hne]; [|rewrite lookup_insert_ne in Hr by done; congruence].
      rewrite lookup_insert_eq in Hr. congruence.
Qed.

(** ** Bounds *)
Definition events_of (instance : string) (t : Observations) : gmap string EventRow :=
  filter (λ e, oe_instance_id e.2 = instance) (ob_events t).
Definition bounded_events (t : Observations) : Prop := ∀ instance, (size (events_of instance t) ≤ 1000)%nat.

Lemma events_of_lookup instance t id r :
  events_of instance t !! id = Some r ↔ ob_events t !! id = Some r ∧ oe_instance_id r = instance.
Proof. unfold events_of. by rewrite map_lookup_filter_Some. Qed.
Lemma prune_events_lookup instance t id r :
  ob_events (prune_events instance t) !! id = Some r ↔
    ob_events t !! id = Some r ∧ (oe_instance_id r ≠ instance ∨ id ∈ kept_events instance t).
Proof.
  unfold prune_events. simpl. rewrite map_lookup_filter_Some. simpl.
  by rewrite orb_true_iff, negb_true_iff, String.eqb_neq, includes_spec.
Qed.
Lemma prune_bounded instance t :
  (size (events_of instance (prune_events instance t)) ≤ 1000)%nat ∧
  ∀ other, other ≠ instance → events_of other (prune_events instance t) = events_of other t.
Proof.
  split.
  - transitivity (length (kept_events instance t)); [|unfold kept_events; rewrite length_fmap, length_take; lia].
    apply size_le_keys. intros id [r [Hr Hi]%events_of_lookup]. by apply prune_events_lookup in Hr as [_ [?|?]].
  - intros other Hne. apply map_eq. intros id. apply option_eq. intros r.
    rewrite !events_of_lookup, prune_events_lookup. naive_solver.
Qed.
Lemma adds_others binding t t' other :
  adds binding t t' → other ≠ bb_id binding → (size (events_of other t') ≤ size (events_of other t))%nat.
Proof.
  intros Ha Hne. apply size_le_size. intros id [r [Hr Hi]%events_of_lookup].
  destruct (ob_events t !! id) as [r0|] eqn:E.
  - exists r0. apply events_of_lookup. split; [done|].
    destruct (ad_old _ _ _ Ha _ _ E) as (r1 & H1 & (_ & Hid & _) & _). congruence.
  - destruct (ad_new _ _ _ Ha _ _ Hr E) as [Hid _]. congruence.
Qed.

(** ** What a run that stores an observation leaves in the tables *)

(** The binding is still that of the instance that was observed, and live. *)
Definition still_observed (binding : ObservedBinding) (db : DB) : Prop :=
  ∃ b, db_bindings db !! bb_id binding = Some b ∧ bi_kubernetes_uid b = Some (bb_kubernetes_uid binding) ∧
    (bi_lifecycle b = LActive ∨ bi_lifecycle b = LDeleting).
Lemma current_identity_spec binding db : current_identity binding db = true ↔ still_observed binding db.
Proof.
  unfold current_identity, still_observed, oeq.
  destruct (db_bindings db !! bb_id binding) as [b|]; [|by split; [|intros (b & [=] & _)]].
  assert (live_lifecycle (bi_lifecycle b) = true ↔ bi_lifecycle b = LActive ∨ bi_lifecycle b = LDeleting) as Hl.
  { destruct (bi_lifecycle b); simpl; split; intros; destruct_or?; by auto. }
  rewrite andb_true_iff, bool_decide_eq_true, Hl. split; [intros [? ?]; by exists b|]. by intros (b' & [= <-] & ?).
Qed.

(** The snapshot stored of that instance shows the same state: the phase, the
    generation, and the conditions in some order. *)
Definition same_state (binding : ObservedBinding) (snapshot : Snapshot) (t : Observations) : Prop :=
  ∃ row, ob_snapshots t !! bb_id binding = Some row ∧ sr_instance_uid row = bb_kubernetes_uid binding ∧
    sn_phase (sr_payload row) = sn_phase snapshot ∧ sn_generation (sr_payload row) = sn_generation snapshot ∧
    sn_conditions (sr_payload row) ≡ₚ sn_conditions snapshot.
Lemma unchanged_same_state binding snapshot t :
  unchanged_snapshot binding snapshot (ob_snapshots t !! bb_id binding) = true → same_state binding snapshot t.
Proof.
  unfold unchanged_snapshot. destruct (ob_snapshots t !! bb_id binding) as [row|] eqn:Er; [|done].
  rewrite andb_true_iff, String.eqb_eq, bool_decide_eq_true. intros [Hu [= Hp Hg Hc]]. exists row. split_and!; try done.
  by rewrite <- (stable_sort_perm (λ a b, String.leb (sc_type a) (sc_type b)) (sn_conditions (sr_payload row))), Hc, stable_sort_perm.
Qed.
Lemma same_state_unchanged binding snapshot t :
  same_state binding snapshot t → NoDup (sc_type <$> sn_conditions snapshot) →
  unchanged_snapshot binding snapshot (ob_snapshots t !! bb_id binding) = true.
Proof.
  intros (row & -> & Hu & Hp & Hg & Hc) Hnd. unfold unchanged_snapshot, signature.
  rewrite Hu, Hp, Hg, String.eqb_refl. apply bool_decide_eq_true. f_equal.
  set (sort := stable_sort (λ a b, String.leb (sc_type a) (sc_type b))).
  assert (∀ l, StronglySorted (λ a b, String.le (sc_type a) (sc_type b)) (sort l)) as Hs.
  { intros l. apply stable_sort_by. }
  apply (StronglySorted_unique_strong _ _ _) with (2 := Hs _) (3 := Hs _).
  - unfold sort. intros x y. rewrite !stable_sort_perm, Hc. intros Hx Hy Hxy Hyx.
    assert (sc_type x = sc_type y) as E by by apply (anti_symm String.le).
    apply list_elem_of_lookup in Hx as [i Hi], Hy as [j Hj].
    assert (i = j) as ->; [|congruence]. eapply NoDup_lookup; [exact Hnd|..]; rewrite list_lookup_fmap; [by rewrite Hi|by rewrite Hj, E].
  - unfold sort. by rewrite !stable_sort_perm.
Qed.

(** An instance's state becomes an event unless it is the one stored. *)
Definition noted (binding : ObservedBinding) (snapshot : Snapshot) (now : Z) (t t' : Observations) : Prop :=
  same_state binding snapshot t ∧ t' = t ∨
  ¬ (same_state binding snapshot t ∧ NoDup (sc_type <$> sn_conditions snapshot)) ∧
  ∃ id, ob_events t !! id = None ∧ t' = t <| ob_events ::= <[id :=
    MkEventRow (bb_project_id binding) (bb_id binding) (bb_kubernetes_uid binding) now "instance.observed" None
      (InstanceObserved (sn_phase snapshot) (sn_generation snapshot) (sn_conditions snapshot))]> |>.

(** The events the cluster reported: each has one row of the instance, whose
    details are the last that were reported under its uid; other rows stay. *)
Definition from_source (binding : ObservedBinding) (e : DiagnosticEvent) (r : EventRow) : Prop :=
  oe_instance_uid r = bb_kubernetes_uid binding ∧ oe_source_uid r = Some (de_uid e).
Definition refreshed (binding : ObservedBinding) (now : Z) (events : list DiagnosticEvent) (r r' : EventRow) : Prop :=
  r' = r ∨ ∃ e, e ∈ events ∧ from_source binding e r ∧
    r' = r <| oe_observed_at := now |> <| oe_details := KubernetesEvent e |>.
Record reported (binding : ObservedBinding) (now : Z) (events : list DiagnosticEvent) (t t' : Observations) : Prop := {
  rp_old id r : ob_events t !! id = Some r → ∃ r', ob_events t' !! id = Some r' ∧ refreshed binding now events r r';
  rp_new id r : ob_events t' !! id = Some r → ob_events t !! id = None → ∃ e, e ∈ events ∧
    refreshed binding now events
      (MkEventRow (bb_project_id binding) (bb_id binding) (bb_kubernetes_uid binding) now
         ("kubernetes." +:+ de_reason e) (Some (de_uid e)) (KubernetesEvent e)) r;
  rp_events e : e ∈ events → ∃ id r e', ob_events t' !! id = Some r ∧ from_source binding e r ∧
    e' ∈ events ∧ de_uid e' = de_uid e ∧ oe_details r = KubernetesEvent e' }.

(** Of an instance's events the newest thousand stay. *)
Record pruned (instance : string) (t t' : Observations) : Prop := {
  pr_sub id r : ob_events t' !! id = Some r → ob_events t !! id = Some r;
  pr_size : (size (events_of instance t') ≤ 1000)%nat;
  pr_dropped id r : ob_events t !! id = Some r → ob_events t' !! id = None →
    oe_instance_id r = instance ∧ size (events_of instance t') = 1000%nat ∧
    ∀ j q, ob_events t' !! j = Some q → oe_instance_id q = instance → oe_observed_at r ≤ oe_observed_at q }.

(** The tables after an observation was stored. *)
Definition stored (binding : ObservedBinding) (snapshot : Snapshot) (events : list DiagnosticEvent) (at_ms now : Z)
    (t t' : Observations) : Prop :=
  ob_snapshots t' = <[bb_id binding := MkSnapshotRow
      (match ob_snapshots t !! bb_id binding with Some old => sr_project_id old | None => bb_project_id binding end)
      (bb_kubernetes_uid binding) (at_ms * 1000) snapshot]> (ob_snapshots t) ∧
  ob_alerts t' = ob_alerts t ∧
  ∃ t1 t2, noted binding snapshot now t t1 ∧ reported binding now events t1 t2 ∧ pruned (bb_id binding) t2 t'.

(** The same, as the statements leave them. *)
Definition saved (binding : ObservedBinding) (snapshot : Snapshot) (events : list DiagnosticEvent) (at_ms now : Z)
    (t t' : Observations) : Prop :=
  ∃ t1 t2, noted binding snapshot now t t1 ∧ reported binding now events t1 t2 ∧ adds binding t t2 ∧
    t' = upsert_snapshot (bb_id binding)
           (MkSnapshotRow (bb_project_id binding) (bb_kubernetes_uid binding) (at_ms * 1000) snapshot)
           (prune_events (bb_id binding) t2).

Lemma refreshed_trans binding now events r r1 r2 :
  refreshed binding now events r r1 → refreshed binding now events r1 r2 → refreshed binding now events r r2.
Proof.
  intros [->|(e & He & Hs & ->)] [->|(e' & He' & Hs' & ->)]; [by left|right..]; [by exists e'|by exists e|].
  exists e'. split_and!; [done|exact Hs'|by destruct r].
Qed.
Lemma prune_pruned instance t t' : t' = prune_events instance t → pruned instance t t'.
Proof.
  intros ->. split.
  - intros id r. by intros [? _]%prune_events_lookup.
  - apply prune_bounded.
  - intros id r Hr Hn.
    assert (oe_instance_id r = instance ∧ id ∉ kept_events instance t) as [Hi Hk].
    { split; [destruct (decide (oe_instance_id r = instance)); [done|]|intros ?]; exfalso;
        rewrite (proj2 (prune_events_lookup instance t id r)) in Hn by auto; done. }
    unfold kept_events in Hk. set (l := stable_sort newest_first _) in Hk.
    assert (l ≡ₚ filter (λ e, oe_instance_id e.2 = instance) (map_to_list (ob_events t))) as Hl by apply stable_sort_perm.
    assert (NoDup l.*1) as Hnd.
    { rewrite Hl. assert (NoDup (map_to_list (ob_events t)).*1) as Hm by apply NoDup_fst_map_to_list.
      eapply sublist_NoDup; [exact Hm|]. apply fmap_sublist, sublist_filter. }
    assert (StronglySorted (λ a b : string * EventRow, oe_observed_at b.2 ≤ oe_observed_at a.2) l) as Hs.
    { apply stable_sort_sorted; [intros ???; lia|unfold newest_first; intros a b E; boolify; lia..]. }
    assert ((id, r) ∈ l) as Hin by (rewrite Hl; apply list_elem_of_filter; by rewrite elem_of_map_to_list).
    rewrite <- (take_drop 1000 l) in Hin, Hs. apply elem_of_app in Hin as [Hin|Hin].
    { destruct Hk. apply list_elem_of_fmap. by exists (id, r). }
    assert (length (kept_events instance t) = 1000%nat) as Hlen.
    { unfold kept_events. fold l. rewrite length_fmap, length_take. assert (length (drop 1000 l) ≠ 0%nat) as Hd
        by (intros E%nil_length_inv; rewrite E in Hin; by apply not_elem_of_nil in Hin). rewrite length_drop in Hd. lia. }
    split_and!; [done| |].
    + apply Nat.le_antisymm; [apply prune_bounded|]. rewrite <- Hlen, <- (size_list_to_set (C:=gset string)), <- size_dom.
      * apply subseteq_size. intros j Hj%elem_of_list_to_set. pose proof Hj as Hj'. unfold kept_events in Hj'. fold l in Hj'.
        apply list_elem_of_fmap in Hj' as ([j' q] & -> & (i & Hq%list_elem_of_lookup_2 & _)%elem_of_take).
        rewrite Hl in Hq. apply list_elem_of_filter in Hq as [Hqi Hq%elem_of_map_to_list]. apply elem_of_dom. exists q.
        apply events_of_lookup. split; [|done]. apply prune_events_lookup. by split; [|right].
      * unfold kept_events. fold l. rewrite fmap_take. eapply sublist_NoDup; [exact Hnd|]. apply sublist_take.
    + intros j q [Hq [?|Hj]]%prune_events_lookup Hqi; [done|].
      unfold kept_events in Hj. fold l in Hj. apply list_elem_of_fmap in Hj as ([j' q'] & E & Hj). simpl in E. subst j'.
      assert (q' = q) as ->.
      { assert ((j, q') ∈ l) as Hq' by (rewrite <- (take_drop 1000 l); apply elem_of_app; by left).
        rewrite Hl in Hq'. apply list_elem_of_filter in Hq' as [_ Hq'%elem_of_map_to_list]. congruence. }
      exact (StronglySorted_app_1_elem_of _ _ _ _ _ Hs Hj Hin).
Qed.
Lemma saved_stored binding snapshot events at_ms now t t' :
  saved binding snapshot events at_ms now t t' → stored binding snapshot events at_ms now t t'.
Proof.
  intros (t1 & t2 & Hn & Hr & [Hs Ha _ _ _] & ->). split_and!.
  - simpl. rewrite Hs. by destruct (ob_snapshots t !! bb_id binding).
  - done.
  - exists t1, t2. split_and!; [done..|]. by destruct (prune_pruned (bb_id binding) t2 _ eq_refl) as [? ? ?].
Qed.

(** The tables as every process keeps them. *)
Record tables_kept (t t' : Observations) : Prop := {
  tk_bounded : bounded_events t → bounded_events t';
  tk_sources : unique_sources t → unique_sources t' }.
#[export] Instance tables_kept_preorder : PreOrder tables_kept.
Proof. split; [by split|]. intros t1 t2 t3 [] []. split; auto. Qed.

Lemma unique_sources_sub t t' :
  (∀ id r, ob_events t' !! id = Some r → ob_events t !! id = Some r) → unique_sources t → unique_sources t'.
Proof. intros Hs Hu i j r q source Hr%Hs Hq%Hs. by apply Hu. Qed.
Lemma bounded_sub t t' :
  (∀ id r, ob_events t' !! id = Some r → ob_events t !! id = Some r) → bounded_events t → bounded_events t'.
Proof.
  intros Hs Hb instance. etransitivity; [|apply (Hb instance)]. apply size_le_size.
  intros id [r [Hr Hi]%events_of_lookup]. exists r. apply events_of_lookup. auto.
Qed.
Lemma sub_kept t t' :
  (∀ id r, ob_events t' !! id = Some r → ob_events t !! id = Some r) → tables_kept t t'.
Proof. intros Hs. split; [by apply bounded_sub|by apply unique_sources_sub]. Qed.
Lemma saved_kept binding snapshot events at_ms now t t' :
  saved binding snapshot events at_ms now t t' → tables_kept t t'.
Proof.
  intros (? & t1 & _ & _ & Ha & ->). split.
  - intros Hb instance. change (events_of instance _) with (events_of instance (prune_events (bb_id binding) t1)).
    destruct (prune_bounded (bb_id binding) t1) as [Hown Hother]. destruct (decide (instance = bb_id binding)) as [->|Hne]; [done|].
    rewrite Hother by done. etransitivity; [by eapply adds_others|apply Hb].
  - intros Hu%(ad_sources _ _ _ Ha). eapply unique_sources_sub; [|exact Hu]. intros id r. simpl.
    intros [? _]%prune_events_lookup. done.
Qed.

Section facts.
Context {C : Type} `{KubernetesPort C} `{CollectorPort C} (random_uuid : M C string).
Implicit Types (w : World (Beside C)) (binding : ObservedBinding).
#[warnings="-notation-for-abbreviation"]
Notation tables w := (fst (w_kube w)).
#[warnings="-notation-for-abbreviation"]
Notation memory w := (fst (snd (w_kube w))).

(** A run that does not wait and leaves the memory alone. *)
Definition quick w w' : Prop :=
  w_env w' = w_env w ∧ w_now w' = w_now w ∧ w_db w' = w_db w ∧ memory w' = memory w.
#[export] Instance quick_preorder : PreOrder quick.
Proof. split; [done|]. intros w1 w2 w3 (? & ? & ? & ?) (? & ? & ? & ?). repeat split; congruence. Qed.
Lemma quick_tables f : within quick (on_tables f).
Proof. by intros w. Qed.
Lemma quick_tables_res {A} (f : Z → Observations → res A * Observations) : within quick (on_tables_res f).
Proof. intros w. unfold on_tables_res. by destruct (f _ _). Qed.
Lemma quick_read {A} (f : Observations → A) : within quick (read_tables f).
Proof. by intros w. Qed.
Lemma quick_query {A} (f : Z → DB → A) : within quick (query f).
Proof. by intros w. Qed.
Lemma quick_cluster {A} (m : M C A) : within quick (on_cluster m).
Proof.
  intros w. unfold on_cluster, on_rest, on_kube, zoom. by destruct (m _).
Qed.
Lemma cluster_tables {A} (m : M C A) w : tables (on_cluster m w).2 = tables w.
Proof. unfold on_cluster, on_rest, on_kube, zoom. by destruct (m _). Qed.
Hint Resolve quick_tables quick_tables_res quick_read quick_query quick_cluster : within.

Lemma store_quick binding snapshot events at_ms : within quick (store random_uuid binding snapshot events at_ms).
Proof. unfold store, insert_change, insert_kubernetes. within_solve. Qed.
Lemma transaction_quick binding snapshot events at_ms :
  within quick (save_transaction random_uuid binding snapshot events at_ms).
Proof. pose proof store_quick. unfold save_transaction. within_solve. Qed.

Lemma insert_change_Ok binding snapshot w u w' :
  insert_change random_uuid binding snapshot w = (Ok u, w') →
  adds binding (tables w) (tables w') ∧ w_now w' = w_now w ∧ ∃ id, ob_events (tables w) !! id = None ∧
    tables w' = tables w <| ob_events ::= <[id := observed_row binding (w_now w) snapshot]> |>.
Proof.
  unfold insert_change. intros (id & w1 & E1 & E2)%bind_Ok_inv.
  pose proof (cluster_tables random_uuid w) as Ht. pose proof (quick_cluster random_uuid w) as (_ & Hn & _).
  rewrite E1 in Ht, Hn. simpl in *. unfold on_tables_res in E2. rewrite Ht, Hn in E2.
  destruct (insert_event _ _ _) as [r t] eqn:E. injection E2 as -> <-. simpl. destruct u.
  pose proof E as E'. eapply insert_event_adds in E as (Ha & Hid & _); [|done..]. split; [done|]. split; [done|]. exists id.
  split; [done|]. unfold insert_event in E'. case_bool_decide; [done|]. by injection E' as <-.
Qed.
Lemma insert_kubernetes_Ok binding e w u w' :
  insert_kubernetes random_uuid binding e w = (Ok u, w') →
  adds binding (tables w) (tables w') ∧ w_now w' = w_now w ∧ reported binding (w_now w) [e] (tables w) (tables w').
Proof.
  unfold insert_kubernetes. intros (id & w1 & E1 & E2)%bind_Ok_inv.
  pose proof (cluster_tables random_uuid w) as Ht. pose proof (quick_cluster random_uuid w) as (_ & Hn & _).
  rewrite E1 in Ht, Hn. simpl in *. unfold on_tables_res in E2. rewrite Ht, Hn in E2.
  destruct (upsert_event _ _ _ _ _) as [r t] eqn:E. injection E2 as -> <-. simpl. destruct u.
  pose proof (upsert_event_rows _ _ _ _ _ _ E) as [Hold Hnew].
  eapply upsert_event_adds in E as (Ha & (j & r & Hr & Hs & Hd) & _); [|done..]. split_and!; [done..|].
  assert (e ∈ [e]) as He by by left. split.
  - intros i q (q' & Hq' & D)%Hold. exists q'. split; [done|]. destruct D as [->|(Hu & Hso & ->)]; [by left|right].
    by exists e.
  - intros i q Hq Hi. exists e. split; [done|]. left. by apply (Hnew i).
  - intros e' ->%list_elem_of_singleton. exists j, r, e. split_and!; try done; unfold same_source, oeq in Hs; boolify; by split.
Qed.
Lemma reported_app binding now all events events' t t1 t2 :
  (∀ e, e ∈ events → e ∈ all) → (∀ e, e ∈ events' → e ∈ all) →
  reported binding now events t t1 → reported binding now events' t1 t2 →
  (∀ e, e ∈ all → e ∈ events ++ events') → reported binding now all t t2.
Proof.
  intros H1 H2 R1 R2 Hall.
  assert (∀ events r r', (∀ e, e ∈ events → e ∈ all) → refreshed binding now events r r' → refreshed binding now all r r') as Hmono.
  { intros l r r' Hl [->|(e & He & ?)]; [by left|right]. exists e. split; [by apply Hl|done]. }
  split.
  - intros id r (r1 & Hr1 & D1)%(rp_old _ _ _ _ _ R1). apply (rp_old _ _ _ _ _ R2) in Hr1 as (r2 & Hr2 & D2).
    exists r2. split; [done|]. exact (refreshed_trans _ _ _ _ _ _ (Hmono _ _ _ H1 D1) (Hmono _ _ _ H2 D2)).
  - intros id r Hr Hn. destruct (ob_events t1 !! id) as [r1|] eqn:E1.
    + destruct (rp_new _ _ _ _ _ R1 _ _ E1 Hn) as (e & He & D1). destruct (rp_old _ _ _ _ _ R2 _ _ E1) as (r2 & Hr2 & D2).
      assert (r2 = r) as -> by congruence. exists e. split; [by apply H1|]. exact (refreshed_trans _ _ _ _ _ _ (Hmono _ _ _ H1 D1) (Hmono _ _ _ H2 D2)).
    + destruct (rp_new _ _ _ _ _ R2 _ _ Hr E1) as (e & He & D). exists e. split; [by apply H2|]. by eapply Hmono.
  - intros e [He|He]%Hall%elem_of_app.
    + destruct (rp_events _ _ _ _ _ R1 _ He) as (id & r & e' & Hr & [Hu Hs] & He' & Eu & Hd).
      destruct (rp_old _ _ _ _ _ R2 _ _ Hr) as (r2 & Hr2 & [->|(e2 & He2 & [_ Hs2] & ->)]).
      * exists id, r, e'. split_and!; try done. by apply H1.
      * exists id. eexists _, e2. split; [done|]. split; [done|]. split; [by apply H2|]. split; [congruence|done].
    + destruct (rp_events _ _ _ _ _ R2 _ He) as (id & r & e' & Hr & Hs & He' & ?). exists id, r, e'.
      split_and!; try done; [by apply H2|naive_solver..].
Qed.
Lemma insert_all_Ok binding events w u w' :
  for_each events (insert_kubernetes random_uuid binding) w = (Ok u, w') →
  adds binding (tables w) (tables w') ∧ reported binding (w_now w) events (tables w) (tables w').
Proof.
  revert w. induction events as [|x events IH]; intros w; simpl.
  { intros [= _ <-]. split; [reflexivity|]. split.
    - intros id r Hr. exists r. split; [done|by left].
    - congruence.
    - by intros e He%not_elem_of_nil. }
  intros ([] & w1 & E1 & E2)%bind_Ok_inv. apply insert_kubernetes_Ok in E1 as (Ha1 & Hn & R1).
  apply IH in E2 as [Ha2 R2]. rewrite Hn in R2. split; [by etransitivity|].
  eapply (reported_app _ _ _ [x] events); [set_solver..|exact R1|exact R2|done].
Qed.
Lemma store_Ok binding snapshot events at_ms w u w' :
  store random_uuid binding snapshot events at_ms w = (Ok u, w') →
  saved binding snapshot events at_ms (w_now w) (tables w) (tables w').
Proof.
  unfold store. intros (old & w1 & [= <- <-] & E)%bind_Ok_inv.
  apply bind_Ok_inv in E as ([] & w1 & E1 & E). apply bind_Ok_inv in E as ([] & w2 & E2 & E).
  apply insert_all_Ok in E2 as [Ha2 Hrec]. injection E as _ <-. simpl.
  assert (adds binding (tables w) (tables w1) ∧ w_now w1 = w_now w ∧ noted binding snapshot (w_now w) (tables w) (tables w1))
    as (Ha1 & Hn & Hnoted).
  { destruct (unchanged_snapshot _ _ _) eqn:Eu; simpl in E1.
    - injection E1 as <-. split_and!; [done..|]. left. split; [by apply unchanged_same_state|done].
    - apply insert_change_Ok in E1 as (? & ? & ?). split_and!; [done..|]. right. split; [|done].
      intros [Hs Hnd]. by rewrite same_state_unchanged in Eu. }
  exists (tables w1), (tables w2). rewrite <- Hn. rewrite <- Hn in Hnoted. split_and!; [done..|by etransitivity|done].
Qed.

(** ** Saving *)
Lemma client_query_eq {A} client (m : M (World (Beside C)) A) w :
  client_query client m w =
    let w1 := after_yield w in
    if leads client (memory w1) then m w1 else (Throw (JsError "Client was closed and is not queryable"), w1).
Proof.
  unfold client_query. rewrite (bind_Ok _ _ _ _ _ (yield_eq w)). cbv zeta. unfold mbind, M_bind, memory_now, gets. simpl.
  by destruct (leads client _).
Qed.

(** Why storing fails: no identifier could be drawn, or it is taken. *)
Definition no_identifier (e : exn) : Prop :=
  e = PgUnique "observation_events_pkey" ∨ ∃ c, (random_uuid c).1 = Throw e.
Definition throws_only {A} (P : exn → Prop) (m : M (World (Beside C)) A) : Prop :=
  ∀ w e w', m w = (Throw e, w') → P e.
Lemma throws_bind {A B} P (m : M (World (Beside C)) A) (k : A → M (World (Beside C)) B) :
  throws_only P m → (∀ a, throws_only P (k a)) → throws_only P (m ≫= k).
Proof.
  intros Hm Hk w e w'. unfold mbind, M_bind. destruct (m w) as [[a|e1] w1] eqn:E; [apply Hk|].
  intros [= <- <-]. by eapply Hm.
Qed.
Lemma throws_uuid : throws_only no_identifier (on_cluster random_uuid).
Proof.
  intros w e w'. unfold on_cluster, on_rest, on_kube, zoom. destruct (random_uuid _) as [r c] eqn:E. simpl.
  intros [= -> _]. right. eexists. by rewrite E.
Qed.
Lemma throws_insert id row t e t' : insert_event id row t = (Throw e, t') → no_identifier e.
Proof. unfold insert_event. case_bool_decide; [|done]. intros [= <- _]. by left. Qed.
Lemma throws_store binding snapshot events at_ms :
  throws_only no_identifier (store random_uuid binding snapshot events at_ms).
Proof.
  assert (∀ e, throws_only no_identifier (insert_kubernetes random_uuid binding e)) as Hk.
  { intros e. apply throws_bind; [apply throws_uuid|]. intros id w e' w'. unfold on_tables_res.
    destruct (upsert_event _ _ _ _ _) as [r t] eqn:E. intros [= -> _]. unfold upsert_event in E.
    destruct (js_find _ _) as [[j old]|]; [done|]. by apply throws_insert in E. }
  assert (∀ f, throws_only no_identifier (on_tables (S:=Memory * C) f)) as Ht by by intros f w e w'.
  unfold store. apply throws_bind; [by intros w e w'|intros old].
  apply throws_bind; [|intros []; apply throws_bind; [|intros []; by apply throws_bind]].
  - unfold when. destruct (negb _); [|by intros w e w' [=]]. apply throws_bind; [apply throws_uuid|].
    intros id w e' w'. unfold on_tables_res. destruct (insert_event _ _ _) as [r t] eqn:E. intros [= -> _].
    by apply throws_insert in E.
  - induction events as [|x events IH]; simpl; [by intros w e w' [=]|]. by apply throws_bind.
Qed.

(** A transaction that fails has changed nothing but what the cluster was
    asked; one that commits has stored the observation, or found another
    identity. *)
Lemma save_transaction_cases binding snapshot events at_ms w r w' :
  atomically_tables (save_transaction random_uuid binding snapshot events at_ms) w = (r, w') →
  quick w w' ∧
  match r with
  | Throw e => still_observed binding (w_db w) ∧ tables w' = tables w ∧ no_identifier e
  | Ok false => ¬ still_observed binding (w_db w) ∧ w' = w
  | Ok true => still_observed binding (w_db w) ∧
      saved binding snapshot events at_ms (w_now w) (tables w) (tables w')
  end.
Proof.
  unfold atomically_tables. pose proof (transaction_quick binding snapshot events at_ms w) as Hq.
  destruct (save_transaction _ _ _ _ _ w) as [r1 w1] eqn:E. simpl in Hq. pose proof (current_identity_spec binding (w_db w)) as Hspec.
  assert (current_identity binding (w_db w) = false ∧ r1 = Ok false ∧ w1 = w ∨
    current_identity binding (w_db w) = true ∧ (store random_uuid binding snapshot events at_ms ;; mret true) w = (r1, w1)) as Hc.
  { revert E. unfold save_transaction, query, mbind, M_bind. destruct (current_identity _ _); [by right|].
    intros [= <- <-]. by left. }
  destruct Hc as [(Hc & -> & ->)|[Hc Hs]]; [intros [= <- <-]; rewrite <- Hspec, Hc; by split_and!|].
  apply Hspec in Hc.
  destruct r1 as [b|e].
  - intros [= <- <-]. apply bind_Ok_inv in Hs as (u & w2 & Hs & [= <- <-]). apply store_Ok in Hs. by split_and!.
  - intros [= <- <-]. split; [by destruct Hq as (? & ? & ? & ?)|]. split_and!; [done..|].
    eapply (throws_bind no_identifier); [apply throws_store| |exact Hs]. by intros [] ??? [=].
Qed.

Definition items_of (events : option DiagnosticEvents) : list DiagnosticEvent :=
  match events with Some e => dg_items e | None => [] end.

Lemma keep_sample_spec client id s (m : Memory) :
  keep_sample client id s m =
    if decide (me_leader m = Some client ∧ (Z.of_nat (size (me_samples m)) < 10000 ∨ is_Some (me_samples m !! id)))
    then m <| me_samples ::= <[id := s]> |> else m.
Proof.
  unfold keep_sample, leads, oeq. case_decide as Hd.
  - rewrite (bool_decide_eq_true_2 (me_leader m = Some client)) by apply Hd.
    destruct Hd as [_ [Hs%Z.ltb_lt|Hs]]; [by rewrite Hs|]. by rewrite (bool_decide_eq_true_2 (is_Some _)), orb_true_r.
  - destruct (_ && _) eqn:E; [|done]. destruct Hd. apply andb_true_iff in E as [E1%bool_decide_eq_true E2%orb_true_iff].
    split; [done|]. rewrite Z.ltb_lt, bool_decide_eq_true in E2. done.
Qed.

(** C24. What the collector stores of an instance is exact.  Once the process
    has lost its connection, it writes nothing.  If the binding has meanwhile
    become another instance's, is gone or is no longer live, nothing is
    written, and the instance leaves the scrape view.  Otherwise the
    transaction either fails for want of an identifier, and has changed
    nothing; or leaves this very observation as the snapshot of the instance,
    with its time and identity, whatever was stored before; one new event
    exactly when its state differs from the one stored before (if no type of
    condition occurs twice); one row per event of the cluster, with its latest
    details; of that instance's rows the newest thousand, and everything else
    as it was.  The sample is only published while the process still leads. *)
Theorem save_exact client binding snapshot events w r w' :
  save random_uuid client binding snapshot events w = (r, w') →
  let w1 := after_yield w in let at_ms := js_date (w_now w) in
  (me_leader (memory w1) ≠ Some client → is_ok r = false ∧ w' = w1) ∧
  (me_leader (memory w1) = Some client → ¬ still_observed binding (w_db w1) →
    r = Ok tt ∧ w_db w' = w_db (after_yield w1) ∧ tables w' = tables (after_yield w1) ∧
    memory w' = (memory (after_yield w1)) <| me_samples ::= delete (bb_id binding) |>) ∧
  (me_leader (memory w1) = Some client → still_observed binding (w_db w1) →
    (∃ e, r = Throw e ∧ no_identifier e ∧ w_db w' = w_db w1 ∧ tables w' = tables w1 ∧ memory w' = memory w1) ∨
    r = Ok tt ∧ ∃ w2, quick w1 w2 ∧
      stored binding snapshot (items_of events) at_ms (w_now w1) (tables w1) (tables w2) ∧
      w_db w' = w_db (after_yield w2) ∧ tables w' = tables (after_yield w2) ∧
      let m := memory (after_yield w2) in
      memory w' = if decide (me_leader m = Some client ∧
                             (Z.of_nat (size (me_samples m)) < 10000 ∨ is_Some (me_samples m !! bb_id binding)))
                  then m <| me_samples ::= <[bb_id binding := sample_of binding snapshot at_ms]> |> else m).
Proof.
  unfold save. cbv zeta. intros E. unfold mbind at 1, M_bind at 1, date_now, gets in E. cbn [fst snd] in E.
  unfold mbind at 1, M_bind at 1 in E. rewrite client_query_eq in E. cbv zeta in E.
  assert (leads client (memory (after_yield w)) = true ↔ me_leader (memory (after_yield w)) = Some client) as Hl
    by apply bool_decide_eq_true.
  destruct (leads client (memory (after_yield w))); [|assert (me_leader (memory (after_yield w)) ≠ Some client) by (by rewrite <- Hl); by injection E as <- <-].
  rewrite <- Hl. split; [done|]. destruct (atomically_tables _ _) as [r1 w2] eqn:Et in E.
  apply save_transaction_cases in Et as [Hq Ht]. destruct r1 as [[]|e].
  - destruct Ht as [Hc Hs%saved_stored]. unfold mbind, M_bind in E. rewrite yield_eq in E. injection E as <- <-.
    split; [done|]. intros _ _. right. split; [done|]. exists w2. split_and!; try done.
    apply keep_sample_spec.
  - destruct Ht as [Hc ->]. unfold mbind, M_bind in E. rewrite yield_eq in E. injection E as <- <-. by split_and!.
  - destruct Ht as (Hc & Ht & Hno). injection E as <- <-. split; [done|]. intros _ _. left.
    destruct Hq as (_ & _ & ? & ?). by exists e.
Qed.

(** ** What a process keeps *)

(** Only the leader has samples, and no more than ten thousand. *)
Definition scrape_ok (m : Memory) : Prop :=
  (me_leader m = None → me_samples m = ∅) ∧ Z.of_nat (size (me_samples m)) ≤ 10000.
Definition memory_kept (s s' : Memory * C) : Prop := scrape_ok s.1 → scrape_ok s'.1.
#[export] Instance memory_kept_preorder : PreOrder memory_kept.
Proof. split; unfold Reflexive, Transitive, memory_kept; auto. Qed.
#[warnings="-notation-for-abbreviation"]
Notation moved := (kube_rel (beside tables_kept memory_kept)).

Lemma scrape_subset (f : gmap string Sample → gmap string Sample) m :
  (∀ s, f s ⊆ s) → scrape_ok m → scrape_ok (m <| me_samples ::= f |>).
Proof.
  intros Hf [Hn Hs]. split; simpl.
  - intros Hl. specialize (Hf (me_samples m)). rewrite (Hn Hl) in Hf |- *. apply map_eq. intros i.
    destruct (f ∅ !! i) as [x|] eqn:E; [|by rewrite lookup_empty]. eapply lookup_weaken in E; [|exact Hf]. by rewrite lookup_empty in E.
  - transitivity (Z.of_nat (size (me_samples m))); [|exact Hs]. apply Nat2Z.inj_le, size_le_size.
    intros i [x Hx]. exists x. by eapply lookup_weaken, Hf.
Qed.
Lemma scrape_keep client id s m : scrape_ok m → scrape_ok (keep_sample client id s m).
Proof.
  intros [Hn Hs]. unfold keep_sample. destruct (leads client m) eqn:Hl; simpl; [|by split].
  unfold leads, oeq in Hl. boolify. destruct (_ || _) eqn:E; [|by split]. split; simpl; [by rewrite Hl|].
  destruct (decide (is_Some (me_samples m !! id))) as [[x Hx]|Hi].
  - by rewrite map_size_insert_Some by by exists x.
  - apply orb_true_iff in E as [E|E]; boolify; [|by destruct Hi]. rewrite map_size_insert_None by by apply eq_None_not_Some. lia.
Qed.
Lemma scrape_lost m : scrape_ok (lost_leadership m).
Proof. split; [done|]. simpl. rewrite map_size_empty. lia. Qed.

Lemma moved_memory f : (∀ m, scrape_ok m → scrape_ok (f m)) → within moved (on_memory (C:=C) f).
Proof. intros Hf. apply beside_rest; [typeclasses eauto..|]. intros s. unfold memory_kept. simpl. apply Hf. Qed.
Lemma moved_now : within moved (memory_now (C:=C)).
Proof. intros w Hw. by split. Qed.
Lemma moved_await {A} (m : M C A) : within moved (await_cluster m).
Proof.
  unfold await_cluster. apply within_bind; [typeclasses eauto|apply kube_rel_yield; typeclasses eauto|intros _].
  apply beside_rest; [typeclasses eauto..|]. intros s. unfold zoom, memory_kept. by destruct (m s.2).
Qed.
Hint Resolve moved_now moved_await : within.
Lemma moved_tables f : (∀ now t id r, ob_events (f now t) !! id = Some r → ob_events t !! id = Some r) →
  within moved (on_tables (S:=Memory * C) f).
Proof. intros Hf. apply beside_tables; [typeclasses eauto..|]. intros now t. apply sub_kept, Hf. Qed.
Lemma moved_client_query {A} client (m : M (World (Beside C)) A) : within moved m → within moved (client_query client m).
Proof. intros Hm. unfold client_query. within_solve. Qed.

Lemma moved_save client binding snapshot events : within moved (save random_uuid client binding snapshot events).
Proof.
  unfold save, publish. cbv zeta.
  apply within_bind; [typeclasses eauto|by auto with within typeclass_instances|intros at_ms].
  apply within_bind; [typeclasses eauto| |intros stored].
  - apply moved_client_query. intros w Hw. destruct (atomically_tables _ w) as [r w'] eqn:E.
    apply save_transaction_cases in E as [(He & _ & _ & Hm) Ht]. simpl. unfold kube_moves. rewrite He. split; [|done].
    split; [|unfold memory_kept; by rewrite Hm]. destruct r as [[]|e].
    + destruct Ht as [_ Ht]. by eapply saved_kept.
    + by destruct Ht as [_ ->].
    + by destruct Ht as (_ & -> & _).
  - within_solve. apply moved_memory. intros m. destruct stored; [apply scrape_keep|].
    apply scrape_subset. intros s. apply delete_subseteq.
Qed.

Lemma moved_cleanup client : within moved (cleanup (C:=C) client).
Proof.
  unfold cleanup. within_solve; apply moved_client_query, moved_tables; intros now t id r; simpl; [|done].
  by intros [? _]%map_lookup_filter_Some.
Qed.
Lemma moved_lead client : within moved (lead random_uuid client).
Proof.
  pose proof moved_save. pose proof moved_cleanup.
  unfold lead, collect_batch, observe_instance, own_object, read_events, read_statistics.
  within_solve; try (apply moved_client_query; by auto with within typeclass_instances); try by apply moved_memory.
  apply moved_memory. intros m. apply scrape_subset. intros s. apply map_filter_subseteq.
Qed.

(** The cleanup only deletes what is old. *)
Lemma old_events_deleted now t id r : ob_events t !! id = Some r →
  ob_events (delete_old_events now t) !! id = Some r ∨ oe_observed_at r < month_ago now.
Proof.
  intros Hr. unfold delete_old_events. simpl. rewrite map_lookup_filter_Some. simpl.
  destruct (includes _ id) eqn:E; [right|left; by split].
  apply includes_spec, list_elem_of_fmap in E as ([i q] & -> & (j & Hq%list_elem_of_lookup_2 & _)%elem_of_take).
  rewrite stable_sort_perm in Hq. apply list_elem_of_filter in Hq as [Hold Hq%elem_of_map_to_list]. simpl in *.
  rewrite Hq in Hr. injection Hr as <-. by boolify.
Qed.
Lemma old_alerts_deleted now t key r : ob_alerts t !! key = Some r →
  ob_alerts (delete_old_alerts now t) !! key = Some r ∨ ar_state r = Resolved ∧ ar_received_at r < month_ago now.
Proof.
  intros Hr. unfold delete_old_alerts. simpl. rewrite map_lookup_filter_Some. simpl. rewrite bool_decide_eq_true.
  destruct (decide (key ∈ (take 1000 (filter (λ e : AlertKey * AlertRow, old_alert now e.2 = true) (map_to_list (ob_alerts t)))).*1))
    as [Hin|Hin]; [right|by left].
  apply list_elem_of_fmap in Hin as ([i q] & -> & (j & Hq%list_elem_of_lookup_2 & _)%elem_of_take).
  apply list_elem_of_filter in Hq as [Hold Hq%elem_of_map_to_list]. simpl in *.
  rewrite Hq in Hr. injection Hr as <-. unfold old_alert in Hold. by boolify.
Qed.

Definition stays_bounded (s s' : Beside C) : Prop :=
  (bounded_events s.1 → bounded_events s'.1) ∧ (unique_sources s.1 → unique_sources s'.1) ∧
  (scrape_ok s.2.1 → scrape_ok s'.2.1 ∧
     (me_leader s'.2.1 = None → leader_gauge s'.2.1 = 0 ∧ ∀ name now, collect_gauge name now s'.2.1 = [])).
Lemma moved_bounded {A} (m : M (World (Beside C)) A) w :
  within moved m → kube_moves (beside tables_kept memory_kept) w → stays_bounded (w_kube w) (w_kube (m w).2).
Proof.
  intros Hm Hw. destruct (Hm w Hw) as [[[Hb Hu] Hs] _]. split_and!; [done|done|].
  intros Hok%Hs. split; [exact Hok|]. intros Hl. destruct Hok as [Hn _]. unfold leader_gauge, collect_gauge.
  rewrite Hl, (Hn Hl). split; [done|]. intros name now. unfold rows. by rewrite map_to_list_empty.
Qed.

(** The observations stay bounded, whatever the cluster answers, whatever
    other replicas do that keep them bounded, and however the connection of the
    collector breaks: a cycle, or the end of the process, keeps at most a
    thousand events of every instance and no event of the cluster twice, and
    the process has samples only while it leads, at most ten thousand: without
    the lock its gauges are empty.  The hourly cleanup deletes only rows of
    more than thirty days, and of the alerts only resolved ones. *)
Theorem collector_is_bounded w :
  kube_moves (beside tables_kept memory_kept) w →
  (∀ candidate lock, stays_bounded (w_kube w) (w_kube (collector_tick random_uuid candidate lock w).2)) ∧
  stays_bounded (w_kube w) (w_kube (close_collector w).2) ∧
  ∀ now t, (∀ id r, ob_events t !! id = Some r → ob_events (delete_old_events now t) !! id = Some r ∨
                      oe_observed_at r < month_ago now) ∧
           ∀ key r, ob_alerts t !! key = Some r → ob_alerts (delete_old_alerts now t) !! key = Some r ∨
                      ar_state r = Resolved ∧ ar_received_at r < month_ago now.
Proof.
  intros Hw. split; [intros candidate lock; apply moved_bounded; [|done]|split; [apply moved_bounded; [|done]|]].
  - pose proof moved_lead. unfold collector_tick. within_solve; apply moved_memory;
      [intros ? _; apply scrape_lost|intros m [_ Hs]; by split..].
  - unfold close_collector. within_solve. apply moved_memory. intros m _. split; [done|]. simpl. rewrite map_size_empty. lia.
  - intros now t. split; [apply old_events_deleted|apply old_alerts_deleted].
Qed.

(** ** A cycle without interference *)

(** The live instances as a cycle sees them. *)
Definition live_instance (db : DB) (r : ObservedBinding) : Prop :=
  ∃ b p, db_bindings db !! bb_id r = Some b ∧ (bi_lifecycle b = LActive ∨ bi_lifecycle b = LDeleting) ∧
    bi_kubernetes_uid b = Some (bb_kubernetes_uid r) ∧ db_projects db !! bi_project_id b = Some p ∧
    r = MkObservedBinding (bb_id r) (bi_project_id b) (bb_kubernetes_uid r) (bi_template_name b)
          (bi_template_version b) (pr_namespace p) (bi_resource_name b).
Lemma live_lifecycle_spec l : live_lifecycle l = true ↔ l = LActive ∨ l = LDeleting.
Proof. destruct l; simpl; split; intros; destruct_or?; by auto. Qed.
Lemma live_binding_spec db id b r :
  db_bindings db !! id = Some b → live_binding db (id, b) = Some r ↔ bb_id r = id ∧ live_instance db r.
Proof.
  intros Hb. unfold live_binding. split.
  - intros (uid & Hu & (p & Hp & E)%bind_Some)%bind_Some.
    destruct (live_lifecycle (bi_lifecycle b)) eqn:El; [|done]. injection E as <-. split; [done|].
    exists b, p. split_and!; try done. by apply live_lifecycle_spec.
  - intros (<- & b' & p & Hb' & Hl%live_lifecycle_spec & Hu & Hp & E). assert (b' = b) as -> by congruence.
    rewrite Hu. simpl. rewrite Hp. simpl. by rewrite Hl, <- E.
Qed.
Lemma live_current db r : live_instance db r → current_identity r db = true.
Proof. intros (b & p & Hb & Hl & Hu & _). apply current_identity_spec. by exists b. Qed.

Lemma live_instance_unique db x y : live_instance db x → live_instance db y → bb_id x = bb_id y → x = y.
Proof.
  intros (b & p & Hb & _ & Hu & Hp & ->) (b' & p' & Hb' & _ & Hu' & Hp' & ->) E. simpl in *. rewrite E in Hb. congruence.
Qed.

(** The rows of a cycle, in the order it observes them. *)
Definition all_live (cursor : string) (db : DB) : list ObservedBinding :=
  stable_sort (λ a b, String.leb (bb_id a) (bb_id b))
    (filter (λ b, after_cursor cursor (bb_id b) = true) (omap (live_binding db) (map_to_list (db_bindings db)))).
Lemma all_live_elem cursor db r : r ∈ all_live cursor db ↔ live_instance db r ∧ str_before cursor (bb_id r).
Proof.
  unfold all_live, after_cursor. rewrite stable_sort_perm, list_elem_of_filter, negb_true_iff, leb_before, list_elem_of_omap.
  split.
  - intros (Hc & [id b] & Hb%elem_of_map_to_list & E). apply (live_binding_spec db id b r Hb) in E as [_ ?]. done.
  - intros [Hl Hc]. split; [done|]. pose proof Hl as (b & p & Hb & _). exists (bb_id r, b).
    split; [by apply elem_of_map_to_list|]. by apply live_binding_spec.
Qed.
Lemma omap_live_ids db l :
  (∀ r, r ∈ l → db_bindings db !! r.1 = Some r.2) → sublist (bb_id <$> omap (live_binding db) l) l.*1.
Proof.
  induction l as [|[id b] l IH]; intros Hl; [done|].
  specialize (IH (λ r Hr, Hl r (list_elem_of_further _ _ _ Hr))).
  pose proof (Hl _ (list_elem_of_here _ _)) as Hb. cbn [omap list_omap fmap list_fmap fst].
  destruct (live_binding db (id, b)) as [r|] eqn:E; [|by constructor].
  apply (live_binding_spec db id b r Hb) in E as [<- _]. by constructor.
Qed.
Lemma all_live_sorted cursor db : StronglySorted (λ a b, str_before (bb_id a) (bb_id b)) (all_live cursor db).
Proof.
  apply StronglySorted_strict.
  - apply stable_sort_by.
  - unfold all_live. rewrite stable_sort_perm. eapply sublist_NoDup; [apply (NoDup_fst_map_to_list (db_bindings db))|].
    etransitivity; [apply fmap_sublist, sublist_filter|]. apply omap_live_ids. intros [id b] Hr. by apply elem_of_map_to_list.
Qed.

(** What the twenty due rows are. *)
Definition next_rows (cursor : string) (db : DB) (rows : list ObservedBinding) : Prop :=
  (length rows ≤ 20)%nat ∧ StronglySorted (λ a b, str_before (bb_id a) (bb_id b)) rows ∧
  (∀ r, r ∈ rows → live_instance db r ∧ str_before cursor (bb_id r)) ∧
  ∀ r, live_instance db r → str_before cursor (bb_id r) →
    r ∈ rows ∨ length rows = 20%nat ∧ ∀ q, q ∈ rows → str_before (bb_id q) (bb_id r).
Lemma due_bindings_next cursor db : next_rows cursor db (due_bindings cursor db).
Proof.
  change (due_bindings cursor db) with (take 20 (all_live cursor db)).
  pose proof (all_live_sorted cursor db) as Hs. pose proof (all_live_elem cursor db) as Hl. set (l := all_live cursor db) in *.
  split_and!; [rewrite length_take; lia|by apply StronglySorted_take|..].
  - intros r (i & Hr%list_elem_of_lookup_2 & _)%elem_of_take. by apply Hl.
  - intros r Hr Hc. assert (r ∈ l) as Hin by by apply Hl. rewrite <- (take_drop 20 l) in Hin, Hs.
    apply elem_of_app in Hin as [Hin|Hin]; [by left|right]. split.
    + assert (length (drop 20 l) ≠ 0%nat) as Hd
        by (intros E%nil_length_inv; rewrite E in Hin; by apply not_elem_of_nil in Hin).
      rewrite length_drop in Hd. rewrite length_take. lia.
    + intros q Hq. exact (StronglySorted_app_1_elem_of _ _ _ _ _ Hs Hq Hin).
Qed.

Lemma next_rows_unique cursor db rows rows' : next_rows cursor db rows → next_rows cursor db rows' → rows = rows'.
Proof.
  set (R := λ a b : ObservedBinding, str_before (bb_id a) (bb_id b)).
  assert (Irreflexive R) as Hirr by (intros x; unfold R; apply (irreflexivity str_before)).
  assert (∀ x y, R x y → R y x → False) as Hasym.
  { unfold R. intros x y Hxy Hyx. apply (irreflexivity str_before (bb_id x)). by transitivity (bb_id y). }
  assert (∀ l l', next_rows cursor db l → next_rows cursor db l' → l ⊆ l') as Hsub.
  { intros l l' (Hlen & Hs & Hl & Hall) (_ & Hs' & Hl' & Hall') r Hr. destruct (Hl r Hr) as [Hlive Hc].
    destruct (Hall' r Hlive Hc) as [?|[H20 Hbefore]]; [done|exfalso].
    assert (r :: l' ⊆+ l) as Hle%submseteq_length; [|simpl in Hle; lia].
    apply NoDup_submseteq; [constructor; [|by eapply StronglySorted_NoDup]|].
    - intros Hr'. by apply (irreflexivity R r), Hbefore.
    - intros q [->|Hq]%elem_of_cons; [done|]. destruct (Hl' q Hq) as [Hlq Hcq].
      destruct (Hall q Hlq Hcq) as [?|[_ Hb]]; [done|]. exfalso. by apply (Hasym r q); [apply Hb|apply Hbefore]. }
  intros H1 H2. pose proof H1 as (_ & Hs1 & _). pose proof H2 as (_ & Hs2 & _).
  apply (StronglySorted_unique_strong R); [intros x y _ _ Hxy Hyx; by destruct (Hasym x y)|done..|].
  apply NoDup_Permutation; [by eapply StronglySorted_NoDup..|]. intros x. split; by apply Hsub.
Qed.

(** The instance's snapshot is this one, taken at that time, of that identity. *)
Definition stored_at (binding : ObservedBinding) (snapshot : Snapshot) (at_ms : Z) (t : Observations) : Prop :=
  ∃ project, ob_snapshots t !! bb_id binding =
    Some (MkSnapshotRow project (bb_kubernetes_uid binding) (at_ms * 1000) snapshot).

(** What the cluster, in the state [c], shows of an instance: its own object,
    where that can be read; the statistics and what became of reading them and
    the events come from other requests. *)
Definition shows (binding : ObservedBinding) (c : C) (snapshot : Snapshot) : Prop :=
  match (getInstance (bb_namespace binding) (bb_resource_name binding) c).1 with
  | Ok (Some object) =>
      match ownedSnapshot object binding with
      | Ok s => snapshot = s <| sn_statistics := sn_statistics snapshot |> <| sn_collection := sn_collection snapshot |>
                             <| sn_eventsCollection := sn_eventsCollection snapshot |>
      | Throw _ => snapshot = unknown_snapshot
      end
  | _ => snapshot = unknown_snapshot
  end.
Definition seen (binding : ObservedBinding) (snapshot : Snapshot) : Prop :=
  ∃ wi wo events, observe_instance binding wi = (Ok (binding, snapshot, events), wo) ∧
    shows binding (snd (snd (w_kube (after_yield wi)))) snapshot.
Lemma own_object_shows binding w :
  let c := snd (snd (w_kube (after_yield w))) in
  ∃ w', own_object binding w =
    (Ok (match (getInstance (bb_namespace binding) (bb_resource_name binding) c).1 with
         | Ok (Some object) => match ownedSnapshot object binding with Ok s => Some (object, s) | Throw _ => None end
         | _ => None
         end), w').
Proof.
  cbv zeta. unfold own_object, try_catch, await_cluster. unfold mbind at 1, M_bind at 1.
  unfold mbind at 1, M_bind at 1. rewrite yield_eq. unfold on_cluster, on_rest, on_kube, zoom.
  destruct (getInstance _ _ _) as [[[object|]|e] c] eqn:E; simpl; [|by eexists..].
  unfold mbind, M_bind, lift. destruct (ownedSnapshot object binding); by eexists.
Qed.
Lemma observe_seen binding w o w' :
  observe_instance binding w = (Ok o, w') → o.1.1 = binding ∧ seen binding o.1.2.
Proof.
  intros E. assert (o.1.1 = binding ∧ shows binding (snd (snd (w_kube (after_yield w)))) o.1.2) as [Hb Hs].
  { unfold observe_instance in E. destruct (own_object_shows binding w) as [w1 E1]. cbv zeta in E1.
    rewrite (bind_Ok _ _ _ _ _ E1) in E. unfold shows.
    destruct (getInstance _ _ _).1 as [[object|]|e]; [destruct (ownedSnapshot object binding) as [s|]|..];
      try by injection E as <- _.
    apply bind_Ok_inv in E as ([state events] & w2 & _ & E). cbv zeta in E.
    apply bind_Ok_inv in E as (s' & w3 & Es & [= <- _]). split; [done|]. simpl.
    destruct (running _ && _); [|by injection Es as <- _].
    unfold read_statistics, try_catch in Es.
    unfold mbind, M_bind in Es.
    by destruct (await_cluster (port_readStatistics object) w2) as [[st|e] w4]; injection Es as <- _. }
  split; [done|]. destruct o as [[b s] ev]. simpl in *. subst b. by exists w, w', ev.
Qed.

Definition alone w w' : Prop := w_env w = [] →
  w_env w' = [] ∧ w_now w' = w_now w ∧ w_db w' = w_db w ∧ me_cursor (memory w') = me_cursor (memory w) ∧
  me_leader (memory w') = me_leader (memory w).
#[export] Instance alone_preorder : PreOrder alone.
Proof.
  split; [by intros w Hw|]. intros w1 w2 w3 H12 H23 H1. destruct (H12 H1) as (E & ? & ? & ? & ?).
  destruct (H23 E) as (? & ? & ? & ? & ?). split_and!; congruence.
Qed.
Lemma after_yield_alone w : w_env w = [] → after_yield w = w.
Proof. unfold after_yield, yield. by intros ->. Qed.
Lemma alone_yield : within alone yield.
Proof. intros w Hw. fold (after_yield w). by rewrite after_yield_alone. Qed.
Lemma alone_quick {A} (m : M (World (Beside C)) A) : within quick m → within alone m.
Proof. intros Hm w Hw. destruct (Hm w) as (-> & -> & -> & ->). done. Qed.
Lemma alone_memory f : (∀ m, me_cursor (f m) = me_cursor m ∧ me_leader (f m) = me_leader m) →
  within alone (on_memory (C:=C) f).
Proof. intros Hf w Hw. simpl. destruct (Hf (memory w)) as [-> ->]. done. Qed.
Lemma alone_await {A} (m : M C A) : within alone (await_cluster m).
Proof.
  apply within_bind; [typeclasses eauto|apply alone_yield|]. intros _. apply alone_quick, quick_cluster.
Qed.

(** Observing an instance leaves the tables alone. *)
Definition aside w w' : Prop := alone w w' ∧ (w_env w = [] → tables w' = tables w).
#[export] Instance aside_preorder : PreOrder aside.
Proof.
  split; [by intros w|]. intros w1 w2 w3 [A1 T1] [A2 T2]. split; [by etransitivity|].
  intros Hw. destruct (A1 Hw) as [Hw' _]. by rewrite (T2 Hw'), (T1 Hw).
Qed.
Lemma aside_await {A} (m : M C A) : within aside (await_cluster m).
Proof.
  intros w. split; [apply alone_await|]. intros Hw. unfold await_cluster.
  rewrite (bind_Ok _ _ _ _ _ (yield_eq w)), after_yield_alone by done. apply cluster_tables.
Qed.
Hint Resolve aside_await : within.
Lemma observe_aside binding : within aside (observe_instance binding).
Proof. unfold observe_instance, own_object, read_events, read_statistics. within_solve. Qed.
Lemma save_alone client binding snapshot events : within alone (save random_uuid client binding snapshot events).
Proof.
  unfold save, publish. cbv zeta.
  apply within_bind; [typeclasses eauto|by intros w Hw|intros at_ms].
  apply within_bind; [typeclasses eauto| |intros stored].
  - intros w Hw. rewrite client_query_eq, after_yield_alone by done. cbv zeta. destruct (leads _ _); [|done].
    destruct (atomically_tables _ w) as [r w'] eqn:E. apply save_transaction_cases in E as [(H1 & H2 & H3 & H4) _]. cbn [snd]. by rewrite H1, H2, H3, H4.
  - apply within_bind; [typeclasses eauto|apply alone_yield|intros _]. apply alone_memory. intros m.
    destruct stored; [|done]. unfold keep_sample. by destruct (_ && _).
Qed.
Lemma save_stores client binding snapshot events w u w' :
  w_env w = [] → current_identity binding (w_db w) = true →
  save random_uuid client binding snapshot events w = (Ok u, w') →
  stored_at binding snapshot (js_date (w_now w)) (tables w') ∧
  ∀ other, other ≠ bb_id binding → ob_snapshots (tables w') !! other = ob_snapshots (tables w) !! other.
Proof.
  intros Hw Hc%current_identity_spec. unfold save. cbv zeta. intros (at_ms & w1 & [= <- <-] & E)%bind_Ok_inv.
  apply bind_Ok_inv in E as (stored & w1 & E1 & E). rewrite client_query_eq, after_yield_alone in E1 by done. cbv zeta in E1.
  destruct (leads _ _); [|done]. apply save_transaction_cases in E1 as [(Hw1 & _) Ht].
  assert (tables w' = tables w1) as ->.
  { unfold mbind, M_bind in E. rewrite yield_eq, after_yield_alone in E by congruence. by injection E as _ <-. }
  destruct stored; [|by destruct Ht]. destruct Ht as [_ (Ht & _)%saved_stored]. unfold stored_at. rewrite Ht. split.
  - eexists. by rewrite lookup_insert_eq.
  - intros other Hne. by rewrite lookup_insert_ne.
Qed.
End facts.

Lemma elem_of_batches {A} (y : A) l : y ∈ l ↔ ∃ b, b ∈ batches l ∧ y ∈ b.
Proof.
  rewrite <- (concat_batches l) at 1. rewrite list_elem_of_In, in_concat. by setoid_rewrite list_elem_of_In.
Qed.
(** What every step of a loop adds and no step takes away holds of all of it. *)
Lemma for_each_all {S A} (I : S → Prop) (P : A → S → Prop) (body : A → M S ()) l s u s' :
  (∀ x s u s', x ∈ l → I s → body x s = (Ok u, s') → I s' ∧ P x s' ∧ ∀ y, P y s → P y s') →
  I s → for_each l body s = (Ok u, s') → I s' ∧ (∀ y, y ∈ l ∨ P y s → P y s').
Proof.
  revert s. induction l as [|x l IH]; intros s Hb Hs; simpl.
  { intros [= _ <-]. split; [done|]. intros y [Hy|?]; [by apply not_elem_of_nil in Hy|done]. }
  intros ([] & s1 & E1 & E2)%bind_Ok_inv. destruct (Hb x s tt s1 (list_elem_of_here _ _) Hs E1) as (H1 & Hx & Hk).
  destruct (IH s1 (λ y s u s' Hy, Hb y s u s' (list_elem_of_further _ _ _ Hy)) H1 E2) as [HI HP].
  split; [done|]. intros y [[->|Hy]%elem_of_cons|Hy]; apply HP; auto.
Qed.

Section serves.
Context {C : Type} `{KubernetesPort C} `{CollectorPort C} (random_uuid : M C string).
Implicit Types (w : World (Beside C)) (binding : ObservedBinding).
#[warnings="-notation-for-abbreviation"]
Notation tables w := (fst (w_kube w)).
#[warnings="-notation-for-abbreviation"]
Notation memory w := (fst (snd (w_kube w))).

(** The cycle goes on from [w0], with nobody else running. *)
Definition going_on (w0 w : World (Beside C)) : Prop := alone w0 w ∧ w_env w = [] ∧ w_now w = w_now w0 ∧ w_db w = w_db w0.
Lemma going_on_run {A} (m : M (World (Beside C)) A) w0 w r w' :
  within alone m → going_on w0 w → m w = (r, w') → going_on w0 w'.
Proof.
  intros Hm (Ha & He & Hn & Hd) E. specialize (Hm w). rewrite E in Hm.
  cbn [snd] in Hm. destruct (Hm He) as (? & ? & ? & _). split; [by etransitivity|]. split_and!; congruence.
Qed.

Lemma mapM_observe rows w observed w' :
  mapM observe_instance rows w = (Ok observed, w') →
  (λ o, o.1.1) <$> observed = rows ∧ ∀ o, o ∈ observed → seen o.1.1 o.1.2.
Proof.
  intros E%mapM_M. induction E as [|b o rows observed (w1 & w2 & Eo) _ [IH Hs]]; [split; [done|by intros o Ho%not_elem_of_nil]|].
  apply observe_seen in Eo as [Eb Ho]. csimpl. rewrite IH, Eb. split; [done|].
  intros o' [->|?]%elem_of_cons; [by rewrite Eb|by apply Hs].
Qed.

Context (w0 : World (Beside C)) (all : list ObservedBinding).
Context (all_current : ∀ b, b ∈ all → current_identity b (w_db w0) = true).
Context (all_distinct : ∀ a b, a ∈ all → b ∈ all → bb_id a = bb_id b → a = b).
Definition done_at (b : ObservedBinding) w : Prop :=
  b ∈ all ∧ ∃ snapshot, seen b snapshot ∧ stored_at b snapshot (js_date (w_now w0)) (tables w).

Lemma save_done client b snapshot events w u w' :
  b ∈ all → seen b snapshot → going_on w0 w → save random_uuid client b snapshot events w = (Ok u, w') →
  going_on w0 w' ∧ done_at b w' ∧ ∀ y, done_at y w → done_at y w'.
Proof using all_current all_distinct.
  intros Hb Hseen Hg E. split; [by eapply going_on_run; [apply save_alone| |]|]. destruct Hg as (_ & He & Hn & Hd).
  apply save_stores in E as [Hs Hother]; [|done|rewrite Hd; by apply all_current]. rewrite Hn in Hs.
  assert (done_at b w') as Hdone by (split; [done|by exists snapshot]).
  split; [done|]. intros y (Hy & s & Hseen' & Hst). destruct (decide (bb_id y = bb_id b)) as [Eid|Hne].
  - by rewrite (all_distinct _ _ Hy Hb Eid).
  - split; [done|]. exists s. split; [done|]. unfold stored_at. by rewrite Hother.
Qed.
Lemma batch_done client batch w u w' :
  (∀ b, b ∈ batch → b ∈ all) → going_on w0 w → collect_batch random_uuid client batch w = (Ok u, w') →
  going_on w0 w' ∧ ∀ y, y ∈ batch ∨ done_at y w → done_at y w'.
Proof using all_current all_distinct.
  intros Hin Hg. unfold collect_batch. intros (observed & w1 & E1 & E2)%bind_Ok_inv.
  assert (within aside (mapM observe_instance batch)) as Ha.
  { apply within_mapM; [typeclasses eauto|]. apply observe_aside. }
  specialize (Ha w). rewrite E1 in Ha. destruct Ha as [Ha Ht]. specialize (Ht (proj1 (proj2 Hg))). simpl in Ht.
  assert (going_on w0 w1) as Hg1.
  { destruct Hg as (Ha0 & He & Hn & Hd). destruct (Ha He) as (? & ? & ? & _). split; [by etransitivity|]. simpl in *. split_and!; congruence. }
  apply mapM_observe in E1 as [E1 Hseen].
  eapply (for_each_all (going_on w0) (λ o w, done_at o.1.1 w)) in E2 as [Hg2 Hd]; [|intros [[b s] e] w2 [] w3 Ho Hg2 E|done].
  - split; [done|]. intros y [Hy|[Hy Hs]].
    + rewrite <- E1 in Hy. apply list_elem_of_fmap in Hy as (o & -> & Ho). apply Hd. by left.
    + apply (Hd (y, unknown_snapshot, None)). right. split; [done|]. simpl. by rewrite Ht.
  - simpl in *. apply save_done in E; [|apply Hin; rewrite <- E1; apply list_elem_of_fmap; by exists (b, s, e)|by apply (Hseen _ Ho)|done].
    destruct E as (? & ? & Hk). split_and!; [done|done|]. intros [[y ?] ?]. apply Hk.
Qed.
Lemma batches_done client rows w u w' :
  (∀ b, b ∈ rows → b ∈ all) → going_on w0 w →
  for_each (batches rows) (collect_batch random_uuid client) w = (Ok u, w') →
  going_on w0 w' ∧ ∀ y, y ∈ rows → done_at y w'.
Proof using all_current all_distinct.
  intros Hin Hg E.
  eapply (for_each_all (going_on w0) (λ b w, ∀ y, y ∈ b → done_at y w)) in E as [Hg' Hd]; [|intros b w1 [] w2 Hb Hg1 E1|done].
  - split; [done|]. intros y (b & Hb & Hy)%elem_of_batches.
    eapply Hd; [by left|done].
  - apply batch_done in E1 as [Hg2 Hk]; [|intros y Hy; apply Hin, elem_of_batches; by exists b|done].
    split_and!; [done|intros y Hy; apply Hk; by left|]. intros b' Hb' y Hy. apply Hk. right. by apply Hb'.
Qed.
End serves.

Section tick.
Context {C : Type} `{KubernetesPort C} `{CollectorPort C} (random_uuid : M C string).
Implicit Types (w : World (Beside C)) (binding : ObservedBinding).
#[warnings="-notation-for-abbreviation"]
Notation tables w := (fst (w_kube w)).
#[warnings="-notation-for-abbreviation"]
Notation memory w := (fst (snd (w_kube w))).

(** The end of a cycle leaves the snapshots alone. *)
Definition closing w w' : Prop := alone w w' ∧ (w_env w = [] → ob_snapshots (tables w') = ob_snapshots (tables w)).
#[export] Instance closing_preorder : PreOrder closing.
Proof.
  split; [by intros w|]. intros w1 w2 w3 [A1 T1] [A2 T2]. split; [by etransitivity|].
  intros Hw. destruct (A1 Hw) as [Hw' _]. by rewrite (T2 Hw'), (T1 Hw).
Qed.
Lemma closing_memory f : (∀ m, me_cursor (f m) = me_cursor m ∧ me_leader (f m) = me_leader m) →
  within closing (on_memory (C:=C) f).
Proof. intros Hf w. split; [by apply alone_memory|done]. Qed.
Lemma closing_tables client f : (∀ now t, ob_snapshots (f now t) = ob_snapshots t) →
  within closing (client_query client (on_tables (S:=Memory * C) f)).
Proof.
  intros Hf w. rewrite client_query_eq. cbv zeta. split.
  - intros Hw. rewrite after_yield_alone by done. destruct (leads _ _); [|by split_and!]. by apply alone_quick; [apply quick_tables|].
  - intros Hw. rewrite after_yield_alone by done. destruct (leads _ _); [apply Hf|done].
Qed.
Lemma closing_now : within closing (date_now (K:=Beside C)) ∧ within closing (memory_now (C:=C)).
Proof. by split; intros w. Qed.

Lemma lead_alone client w b w' :
  w_env w = [] → lead random_uuid client w = (Ok b, w') →
  let rows := due_bindings (me_cursor (memory w)) (w_db w) in
  b = (length rows =? 20)%nat ∧ me_leader (memory w') = me_leader (memory w) ∧
  me_cursor (memory w') = match last rows with Some r => bb_id r | None => first_instance end ∧
  ∀ r, r ∈ rows → ∃ snapshot, seen r snapshot ∧ stored_at r snapshot (js_date (w_now w)) (tables w').
Proof.
  intros Hw E. unfold lead in E. apply bind_Ok_inv in E as (u & w1 & E1 & E).
  rewrite client_query_eq, after_yield_alone in E1 by done. cbv zeta in E1. destruct (leads client _) eqn:Hl; [|done].
  injection E1 as _ <-. apply bind_Ok_inv in E as (m & w1 & [= <- <-] & E).
  apply bind_Ok_inv in E as (rows & w1 & E1 & E). rewrite client_query_eq, after_yield_alone in E1 by done.
  cbv zeta in E1. rewrite Hl in E1. injection E1 as <- <-. cbv zeta. set (rows := due_bindings _ _) in *.
  apply bind_Ok_inv in E as ([] & w1 & E1 & E).
  assert (w_env w1 = [] ∧ w_now w1 = w_now w ∧ w_db w1 = w_db w ∧ me_leader (memory w1) = me_leader (memory w) ∧
    (rows = [] → me_cursor (memory w1) = first_instance)) as (He1 & Hn1 & Hd1 & Hl1 & Hc1).
  { revert E1. unfold when. case_bool_decide; intros [= <-]; by split_and!. }
  clear E1. apply bind_Ok_inv in E as ([] & w2 & E2 & E).
  assert (going_on w1 w1) as Hg by by split_and!.
  destruct (batches_done random_uuid w1 rows) with (client := client) (rows := rows) (w := w1) (u := tt) (w' := w2)
    as [(Ha2 & He2 & Hn2 & Hd2) Hdone]; try done.
  { intros r [Hr _]%(proj1 (proj2 (proj2 (due_bindings_next _ _)))). rewrite Hd1. by apply live_current. }
  { intros x y [Hx _]%(proj1 (proj2 (proj2 (due_bindings_next _ _)))) [Hy _]%(proj1 (proj2 (proj2 (due_bindings_next _ _)))) Eid.
    by eapply live_instance_unique. }
  destruct (Ha2 He1) as (_ & _ & _ & Hcur2 & Hlead2).
  apply bind_Ok_inv in E as ([] & w3 & E3 & E).
  assert (w_env w3 = [] ∧ me_leader (memory w3) = me_leader (memory w) ∧ tables w3 = tables w2 ∧
    me_cursor (memory w3) = match last rows with Some r => bb_id r | None => first_instance end) as (He3 & Hl3 & Ht3 & Hc3).
  { destruct (last rows) eqn:El; injection E3 as <-; simpl; split_and!; try congruence.
    apply last_None in El. by rewrite Hcur2, Hc1. }
  clear E3.
  match type of E with ?m w3 = _ => assert (within closing m) as Hrest end.
  { destruct closing_now as [Hd Hm]. unfold cleanup. within_solve; try done; try by apply closing_memory.
    all: by apply closing_tables. }
  specialize (Hrest w3). rewrite E in Hrest. destruct Hrest as [Ha Hs]. destruct (Ha He3) as (_ & _ & _ & Hc' & Hl').
  specialize (Hs He3). cbn [snd] in *. split_and!.
  - apply bind_Ok_inv in E as (n1 & w4 & _ & E). apply bind_Ok_inv in E as (u1 & w5 & _ & E).
    apply bind_Ok_inv in E as (n2 & w6 & _ & E). apply bind_Ok_inv in E as (m2 & w7 & _ & E).
    apply bind_Ok_inv in E as (u2 & w8 & _ & E). by injection E as <- _.
  - congruence.
  - congruence.
  - intros r Hr. destruct (Hdone r Hr) as (_ & snapshot & Hseen & Hrow). exists snapshot. split; [done|].
    unfold stored_at. by rewrite Hs, Ht3, <- Hn1.
Qed.

(** C25. The instances are observed in turn.  Let a cycle run alone, nothing else
    changing the database, the cluster or the memory of the process while it
    waits, and let it return (it throws where storing fails, see C24).  Either
    the process does not lead, another one holds the lock, and nothing has
    changed; or it leads, and there is exactly one list of [rows] as follows: the
    instances active or being deleted, with an identity in the cluster and a
    project, whose identifiers follow the cursor strictly, the least twenty
    of them if there are more, in ascending order; every other such instance
    comes after them.  Of each of these the stored snapshot is the one observed
    in this cycle, at its time and of its identity: what the cluster then showed
    of the object, or that it could not be read.  The cursor moves to the last
    of them, back to the start if there was none, and the answer says whether
    there may be more. *)
Theorem tick_serves candidate lock w b w' :
  w_env w = [] → collector_tick random_uuid candidate lock w = (Ok b, w') →
  me_leader (memory w) = None ∧ lock = Some false ∧ b = false ∧ w' = w ∨
  (me_leader (memory w) = None → lock = Some true) ∧ is_Some (me_leader (memory w')) ∧
  ∃ rows, next_rows (me_cursor (memory w)) (w_db w) rows ∧
    (∀ other, next_rows (me_cursor (memory w)) (w_db w) other → other = rows) ∧
    (b = true ↔ length rows = 20%nat) ∧
    me_cursor (memory w') =
      match last rows with Some r => bb_id r | None => "00000000-0000-0000-0000-000000000000"%string end ∧
    ∀ r, r ∈ rows → ∃ project snapshot, seen r snapshot ∧
      ob_snapshots (tables w') !! bb_id r =
        Some (MkSnapshotRow project (bb_kubernetes_uid r) (js_date (w_now w) * 1000) snapshot).
Proof.
  intros Hw. unfold collector_tick. intros (m & w1 & [= <- <-] & E)%bind_Ok_inv. cbv zeta in E.
  match goal with |- _ ∨ ?P => assert (∀ client w1, w_env w1 = [] → w_db w1 = w_db w → w_now w1 = w_now w →
    me_cursor (memory w1) = me_cursor (memory w) → is_Some (me_leader (memory w1)) →
    (me_leader (memory w) = None → lock = Some true) →
    try_catch (lead random_uuid client) (λ e, m ← memory_now; when (leads client m) (on_memory lost_leadership) ;; throw e) w1 = (Ok b, w') →
    P) as Hlead end.
  { intros client w1 He Hd Hn Hc Hsome Hlock Et. split; [done|]. unfold try_catch in Et.
    destruct (lead random_uuid client w1) as [[x|e] w2] eqn:El.
    - injection Et as -> ->. apply lead_alone in El as (-> & Hl & Hcur & Hs); [|done]. rewrite Hd, Hc, Hn in *.
      split; [by rewrite Hl|]. pose proof (due_bindings_next (me_cursor (memory w)) (w_db w)) as Hnext.
      exists (due_bindings (me_cursor (memory w)) (w_db w)). split; [done|].
      split; [intros other Hother; by eapply next_rows_unique|]. split; [apply Nat.eqb_eq|]. split; [done|].
      intros r (s & Hseen & project & Hrow)%Hs. by exists project, s.
    - apply bind_Ok_inv in Et as (m & w3 & _ & Et). by apply bind_Ok_inv in Et as (u & w4 & _ & [=]). }
  destruct (me_leader (memory w)) as [client|] eqn:Hm.
  - right. by eapply Hlead.
  - unfold mbind at 1, M_bind at 1 in E. rewrite yield_eq, after_yield_alone in E by done.
    unfold mbind at 1, M_bind at 1 in E. rewrite yield_eq, after_yield_alone in E by done.
    destruct lock as [[]|]; [|by left; injection E as <- <-|done]. right.
    apply bind_Ok_inv in E as (u & w1 & [= _ <-] & E). eapply Hlead; [..|exact E]; done.
Qed.
End tick.

(** ** Witnesses

    One instance of one project, collected by a process that has just started. *)
Definition collected_binding : Binding :=
  MkBinding "p" "c-i" (Some "u"%string) LActive "admin" 0 "cache" "bazel-remote" (Some "0.1.0"%string) None None None.
Definition collected_project : Project :=
  MkProject "Project" "expbuild-p" PReady "admin" 0 JNull 1 None None None 0 None None 0 None None.
Definition sample_binding : ObservedBinding :=
  MkObservedBinding "i" "p" "u" "bazel-remote" (Some "0.1.0"%string) "expbuild-p" "c-i".
Definition sample_statistics : InstanceStatistics :=
  MkStatistics (ObservedNow 7) BazelRemoteStatus 10 100 2 None None None.
Definition sample_collector : CollectorPort memory :=
  {| port_readDiagnosticEvents := None; port_readStatistics := λ _, mret sample_statistics |}.
Definition sample_uuid : M memory string := mret "e"%string.
Definition collector_world (leader : option nat) : World (Beside memory) :=
  MkWorld (empty_db <| db_bindings := {[ "i"%string := collected_binding ]} |>
                    <| db_projects := {[ "p"%string := collected_project ]} |>)
    (no_observations, (started <| me_leader := leader |>, {[ "c-i"%string := sample_object ]})) 5000 [] [].

Lemma ownedSnapshot_exact_witness : ∃ s, ownedSnapshot sample_object sample_binding = Ok s ∧ sn_generation s = Some 1.
Proof.
  destruct (ownedSnapshot sample_object sample_binding) as [s|e] eqn:E; [|vm_compute in E; discriminate E].
  exists s. split; [reflexivity|]. apply (ownedSnapshot_exact sample_object sample_binding). exact E.
Defined.

(** The instance was observed str_before, ready. *)
Definition observed_before : World (Beside memory) :=
  collector_world (Some 3%nat) <| w_kube ::= λ k, (fst k <| ob_snapshots := {[ "i"%string :=
    MkSnapshotRow "p" "u" 1000 (unknown_snapshot <| sn_phase := Ready |>) ]} |>, snd k) |>.
Lemma save_exact_witness : ∃ (w' : World (Beside memory)) id,
  @save memory sample_uuid 3 sample_binding unknown_snapshot None observed_before = (Ok tt, w') ∧
  ob_snapshots (w_kube w').1 !! "i"%string = Some (MkSnapshotRow "p" "u" 5000 unknown_snapshot) ∧
  oe_code <$> ob_events (w_kube w').1 !! id = Some "instance.observed"%string.
Proof.
  destruct (@save memory sample_uuid 3 sample_binding unknown_snapshot None observed_before) as [r w'] eqn:E.
  pose proof (@save_exact memory sample_uuid 3 sample_binding unknown_snapshot None observed_before r w' E) as (_ & _ & Hs).
  assert (r = Ok tt) as -> by (apply (f_equal fst) in E; vm_compute in E; exact (eq_sym E)).
  destruct Hs as [(e & [=] & _)|(_ & w2 & (He & _) & (Hs & _) & _ & Ht & _)]; [reflexivity|by exists collected_binding; split_and!; [| |left]|].
  exists w', "e"%string. split; [reflexivity|]. split.
  - unfold after_yield, yield in Ht. rewrite He in Ht. change (w_env (after_yield observed_before)) with (@nil (Interference (Beside memory))) in Ht.
    cbn [snd w_kube] in Ht. rewrite Ht, Hs. vm_compute. reflexivity.
  - apply (f_equal (λ x, oe_code <$> ob_events (w_kube x.2).1 !! "e"%string)) in E. cbv beta in E. cbn [snd] in E.
    rewrite <- E. vm_compute. reflexivity.
Defined.

Lemma collector_is_bounded_witness :
  scrape_ok (w_kube (@collector_tick memory memory_port sample_collector sample_uuid 3 (Some true) (collector_world None)).2).2.1.
Proof.
  destruct (@collector_is_bounded memory memory_port sample_collector sample_uuid (collector_world None) (Forall_nil_2 _)) as [Ht _].
  apply (Ht 3%nat (Some true)). split; [reflexivity|]. vm_compute. intros Hc. discriminate Hc.
Defined.

Lemma tick_serves_witness : ∃ w' project snapshot,
  @collector_tick memory memory_port sample_collector sample_uuid 3 (Some true) (collector_world None) = (Ok false, w') ∧
  ob_snapshots (w_kube w').1 !! "i"%string = Some (MkSnapshotRow project "u" 5000 snapshot).
Proof.
  destruct (@collector_tick memory memory_port sample_collector sample_uuid 3 (Some true) (collector_world None)) as [r w'] eqn:E.
  assert (r = Ok false) as -> by (apply (f_equal (λ x, x.1)) in E; vm_compute in E; exact (eq_sym E)).
  destruct (@tick_serves memory memory_port sample_collector sample_uuid 3 (Some true) (collector_world None) false w' eq_refl E)
    as [(_ & Hf & _)|(_ & _ & rows & (_ & _ & _ & Hall) & _ & Hb & _ & Hs)]; [discriminate Hf|].
  destruct (Hall sample_binding) as [Hin|[H20 _]].
  - exists collected_binding, collected_project. split_and!; [reflexivity|by left|reflexivity..].
  - vm_compute. reflexivity.
  - destruct (Hs _ Hin) as (project & snapshot & _ & Hrow). by exists w', project, snapshot.
  - apply Hb in H20. discriminate H20.
Defined.
