(* ===== verification/Routes.v ===== *)
(** * The instance routes

    [apps/admin-api/src/instance-routes.ts]: every handler, one definition per
    route, in the order of the file.  A handler is a computation on the world
    that returns the body of the reply (with its entity tag where the code
    sets one) or throws; random values arrive as the record [Fresh]. *)
From Stdlib Require Import ZArith Lia Ascii Init.Byte.
From stdpp Require Import base tactics list option strings gmap sorting.
From S2P Require Import Prelude Regex Numbers Effects Quantities Catalog Json JsNumber Contract Database Quotas.
From S2P Require Import Secrets Security Accounts Kubernetes.

(** [/Gi$/] removed, and the quotes around an entity tag. *)
Definition drop_Gi (s : string) : string :=
  let l := chars s in
  let n := (length l - 2)%nat in
  if bool_decide (drop n l = chars "Gi") then of_chars (take n l) else s.
Definition strip_quotes (s : string) : string :=
  let l := match chars s with c :: r => if Ascii.eqb c quote then r else c :: r | [] => [] end in
  of_chars (match last l with
            | Some c => if Ascii.eqb c quote then removelast l else l
            | None => l
            end).

(** ** Requests and replies *)
Record Fresh := MkFresh {
  fr_instance : string; fr_operation : string; fr_credential : string; fr_password : string;
  fr_probe : string; fr_nonce : list byte }.

(** The columns of [opSummary]. *)
Record OpSummary := MkSummary {
  su_id : string; su_project_id : string; su_instance_id : option string; su_kind : Kind;
  su_state : OpState; su_target_generation : option Z; su_error_code : option string;
  su_created_at : Z; su_updated_at : Z }.
Definition summary (op : Operation) : OpSummary :=
  {| su_id := op_id op; su_project_id := op_project_id op; su_instance_id := op_instance_id op;
     su_kind := op_kind op; su_state := op_state op; su_target_generation := op_target_generation op;
     su_error_code := op_error_code op; su_created_at := js_date (op_created_at op);
     su_updated_at := js_date (op_updated_at op) |}.

(** [{ operation, replayed?, credentials? }]; the credentials are the user
    [cache] and this password. *)
Record Accepted := MkAccepted {
  acc_operation : OpSummary; acc_replayed : option bool; acc_password : option string }.

Record InstanceOptions := MkInstanceOptions {
  io_kube : bool; io_encryptionKey : option (list byte); io_storageClass : option string;
  io_templates : TemplateOptions }.

(** [z.string().min(8).max(128).regex(/^[a-zA-Z0-9._:-]+$/)] and the entity
    tag [z.string().min(lo).max(200)] without its quotes. *)
Definition idempotencyKey (request : Request) : res string :=
  match hd_idempotency_key request with
  | Some s => if (8 <=? js_length s) && (js_length s <=? 128) &&
                 test (rplus (RChr (λ c, is_alnum c || one_of "._:-" c))) s
              then Ok s else Throw ZodError
  | None => Throw ZodError
  end.
Definition ifMatch (lo : Z) (request : Request) : res string :=
  match hd_if_match request with
  | Some s => if (lo <=? js_length s) && (js_length s <=? 200) then Ok (strip_quotes s) else Throw ZodError
  | None => Throw ZodError
  end.

(** The parsed input as [JSON.stringify] prints it. *)
Definition input_json (i : InstanceInput) : json :=
  JObj ([("name", JStr (in_name i)); ("storageGiB", JInt (in_storageGiB i));
         ("cpuMillis", JInt (in_cpuMillis i)); ("memoryMiB", JInt (in_memoryMiB i));
         ("exposure", JStr (exposure_str (in_exposure i)));
         ("desiredState", JStr (desiredState_str (in_desiredState i)));
         ("deletionPolicy", JStr (deletionPolicy_str (in_deletionPolicy i)));
         ("template", JStr (template_str (in_template i)))] ++
        match in_readOnly i with Some b => [("readOnly", JBool b)] | None => [] end ++
        [("cacheGiB", JInt (in_cacheGiB i))])%list.

(** ** Statements *)
Definition newline : string := of_chars [ascii_of_nat 10].

Definition insert_binding (id : string) (b : Binding) (db : DB) : res () * DB :=
  if bool_decide (is_Some (db_bindings db !! id)) then (Throw (PgUnique "instance_bindings_pkey"), db)
  else if existsb (λ o, String.eqb (bi_project_id o) (bi_project_id b) &&
                        String.eqb (bi_resource_name o) (bi_resource_name b)) (rows (db_bindings db))
  then (Throw (PgUnique "instance_bindings_project_id_resource_name_key"), db)
  else (Ok tt, db <| db_bindings ::= <[id := b]> |>).

Definition insert_credential (id : string) (c : Credential) (db : DB) : res () * DB :=
  if bool_decide (is_Some (db_credentials db !! id)) then (Throw (PgUnique "instance_credentials_pkey"), db)
  else if existsb (λ o, String.eqb (cr_instance_id o) (cr_instance_id c) &&
                        String.eqb (cr_secret_name o) (cr_secret_name c)) (rows (db_credentials db))
  then (Throw (PgUnique "instance_credentials_instance_id_secret_name_key"), db)
  else (Ok tt, db <| db_credentials ::= <[id := c]> |>).

(** [coalesce(max(revision),0)+1] over the instance's credentials. *)
Definition next_revision (instance : string) (db : DB) : Z :=
  foldr (λ c acc, Z.max (cr_revision c) acc) 0
    (filter (λ c, cr_instance_id c = instance) (rows (db_credentials db))) + 1.

Definition binding_of (projectId instanceId : string) (db : DB) : option (Binding * Project) :=
  b ← db_bindings db !! instanceId;
  p ← db_projects db !! bi_project_id b;
  if String.eqb (bi_project_id b) projectId then Some (b, p) else None.

(** ** The handlers *)
Section routes.
Context {K : Type} `{KubernetesPort K} `{Aead} `{Digests}.
(** The options of the process, the uuid check of zod, the password hash of
    bcryptjs (cost 10) and the access check the application passes in. *)
Context (options : InstanceOptions) (is_uuid : string → bool) (bcrypt : string → string).
Context (projectAccess : Request → string → list Role → M (World K) Actor).
Context (user : Request → M (World K) Actor).

Definition all_roles : list Role := [RAdmin; RMaintainer; RViewer].

Definition ids (l : list string) : M (World K) () := throw_if (negb (forallb is_uuid l)) ZodError.
Definition require_kube : M (World K) () :=
  throw_if (negb (io_kube options)) (HttpError 503 "Kubernetes connection is not configured").

Definition binding (projectId instanceId : string) : M (World K) (Binding * Project) :=
  found ← pool (query (λ _, binding_of projectId instanceId));
  lift (of_option (HttpError 404 "Instance not found") found).

Definition foreign (instanceId : string) (b : Binding) (c : CacheObject) : bool :=
  negb (String.eqb (sp_instanceId (co_spec c)) instanceId) ||
  negb (String.eqb (sp_projectId (co_spec c)) (bi_project_id b)) ||
  negb (String.eqb (tr_name (sp_templateRef (co_spec c))) (bi_template_name b)) ||
  match bi_template_version b with
  | Some v => negb (String.eqb (tr_version (sp_templateRef (co_spec c))) v)
  | None => false
  end ||
  truthy (bi_kubernetes_uid b) && negb (oeq (md_uid (co_metadata c)) (bi_kubernetes_uid b)).

Definition readOwned (instanceId : string) (row : Binding * Project) : M (World K) (option CacheObject) :=
  let '(b, p) := row in
  c ← try_catch (require_kube ;; kube (getInstance (pr_namespace p) (bi_resource_name b)))
        (λ _, throw (HttpError 503 "Kubernetes state is temporarily unavailable"));
  match c with
  | Some c => throw_if (foreign instanceId b c) (HttpError 409 "Kubernetes resource identity conflict") ;;
              mret (Some c)
  | None => mret None
  end.

Definition same_request_key (projectId : string) (kind : Kind) (key : string) (op : Operation) : bool :=
  String.eqb (op_project_id op) projectId && bool_decide (op_kind op = kind) &&
  String.eqb (op_idempotency_key op) key.

Definition replay (projectId : string) (kind : Kind) (key requestHash : string) :
    M (World K) (option OpSummary) :=
  found ← query (λ _ db, js_find (same_request_key projectId kind key) (rows (db_operations db)));
  match found with
  | None => mret None
  | Some op =>
      throw_if (negb (String.eqb (op_request_hash op) requestHash))
        (HttpError 409 "Idempotency key was already used for another request") ;;
      mret (Some (summary op))
  end.

Definition permitted (actor : Actor) (projectId : string) (roles : list Role) (db : DB) : bool :=
  match db_users db !! at_id actor with
  | Some u => us_active u &&
      (us_platform_admin u ||
       match db_members db !! (projectId, at_id actor) with
       | Some r => bool_decide (r ∈ roles)
       | None => false
       end)
  | None => false
  end.

Definition lockProject (projectId : string) (actor : Actor) (roles : list Role) : M (World K) Project :=
  p ← query (λ _ db, db_projects db !! projectId);
  fresh ← query (λ _, permitted actor projectId roles);
  throw_if (negb fresh) (HttpError 403 "Permission denied") ;;
  lift (of_option (HttpError 404 "Project not found") p).

(** The operation a handler inserts, and its reply. *)
Definition accept (id projectId : string) (instanceId : string) (kind : Kind) (key requestHash : string)
    (request : OpRequest) (secret : option (list byte)) (actor : Actor) : M (World K) OpSummary :=
  execute_res (λ now, insert_operation
    (new_operation now id projectId (Some instanceId) kind key requestHash request secret (at_id actor))) ;;
  query (λ now _, summary
    (new_operation now id projectId (Some instanceId) kind key requestHash request secret (at_id actor))).

Definition audit (actor : Actor) (projectId instanceId operationId action : string)
    (details : list (string * json)) : M (World K) () :=
  execute_sql (λ _, add_audit (MkAudit (Some (at_id actor)) (Some projectId) (Some instanceId)
    (Some operationId) action details)).

(** [GET /v1/templates] *)
Definition get_templates (request : Request) : M (World K) (list CatalogItem) :=
  user request ;; mret (templateCatalog (io_templates options)).

(** [GET .../instances]: newest first, at most 200. *)
Definition newest_first (a b : string * Binding) : Prop := bi_created_at b.2 ≤ bi_created_at a.2.
#[local] Instance newest_first_dec a b : Decision (newest_first a b).
Proof. unfold newest_first. apply _. Defined.
Definition get_instances (request : Request) (projectId : string) :
    M (World K) (list (string * Binding)) :=
  ids [projectId] ;;
  projectAccess request projectId all_roles ;;
  pool (query (λ _ db, take 200 (merge_sort newest_first
    (filter (λ r, bi_project_id r.2 = projectId) (map_to_list (db_bindings db)))))).

(** [GET .../instances/:instanceId] *)
Record InstanceDetail := MkDetail {
  de_id : string; de_name : string; de_template : string; de_templateVersion : option string;
  de_capabilities : option Capabilities; de_clientProfiles : list ClientProfile;
  de_lifecycle : Lifecycle; de_revision : option string; de_spec : option Spec;
  de_status : option Status; de_observedAt : Z; de_etag : option string }.
Definition get_instance (request : Request) (projectId instanceId : string) : M (World K) InstanceDetail :=
  ids [projectId; instanceId] ;;
  projectAccess request projectId all_roles ;;
  row ← binding projectId instanceId;
  c ← readOwned instanceId row;
  now ← date_now;
  let b := row.1 in
  let '(name, version) := match c with
    | Some c => (tr_name (sp_templateRef (co_spec c)), Some (tr_version (sp_templateRef (co_spec c))))
    | None => (bi_template_name b, bi_template_version b)
    end in
  mret {|
    de_id := instanceId; de_name := bi_display_name b; de_template := bi_template_name b;
    de_templateVersion := match c with
                          | Some c => Some (tr_version (sp_templateRef (co_spec c)))
                          | None => bi_template_version b
                          end;
    de_capabilities := instanceCapabilities name version;
    de_clientProfiles := clientProfiles name version;
    de_lifecycle := bi_lifecycle b; de_revision := revision <$> c; de_spec := co_spec <$> c;
    de_status := c ≫= co_status; de_observedAt := now; de_etag := revision <$> c |}.

Definition retained (b : Binding) : bool :=
  bool_decide (bi_lifecycle b ∈ [LDetached; LFailed]) && truthy (bi_kubernetes_uid b).

(** A storage observation that fails: a conflict the port names, or unavailable. *)
Definition storage_error {A} (e : exn) : M (World K) A :=
  match e with
  | OperationError code _ => throw (HttpError 409 code)
  | _ => throw (HttpError 503 "Storage observation is temporarily unavailable")
  end.
Definition volume_identity (projectId instanceId : string) (row : Binding * Project) : RetainedVolumeIdentity :=
  MkVolumeIdentity (pr_namespace row.2) (bi_resource_name row.1) projectId instanceId
    (nullish (bi_kubernetes_uid row.1) "").
Definition observe_instance (row : Binding * Project) : M (World K) (option CacheObject) :=
  try_catch (require_kube ;; kube (getInstance (pr_namespace row.2) (bi_resource_name row.1)))
    (λ _, throw (HttpError 503 "Kubernetes instance observation is unavailable")).

(** [GET .../retained-volume] *)
Definition get_retained_volume (request : Request) (projectId instanceId : string) :
    M (World K) RetainedVolume :=
  ids [projectId; instanceId] ;;
  projectAccess request projectId all_roles ;;
  row ← binding projectId instanceId;
  throw_if (negb (retained row.1)) (HttpError 409 "Instance does not have retained storage") ;;
  current ← observe_instance row;
  throw_if (bool_decide (is_Some current))
    (HttpError 409 "An instance still exists; recover or remove it before managing retained storage") ;;
  require_kube ;;
  volume ← try_catch (kube (getRetainedVolume (volume_identity projectId instanceId row))) storage_error;
  lift (of_option (HttpError 404 "Retained volume no longer exists") volume).

(** [DELETE .../retained-volume] *)
Definition delete_retained_volume (fresh : Fresh) (request : Request) (projectId instanceId : string) :
    M (World K) Accepted :=
  ids [projectId; instanceId] ;;
  actor ← projectAccess request projectId [RAdmin];
  require_kube ;;
  uid ← lift (ifMatch 1 request);
  key ← lift (idempotencyKey request);
  let requestHash := digest (stringify (JObj [("instanceId", JStr instanceId); ("uid", JStr uid)])) in
  result ← transaction
    (lockProject projectId actor [RAdmin] ;;
     previous ← replay projectId VolumeDelete key requestHash;
     match previous with
     | Some previous => mret previous
     | None =>
         row ← query (λ _, binding_of projectId instanceId);
         row ← lift (of_option (HttpError 404 "Instance not found") row);
         let b := row.1 in
         throw_if (negb (retained b)) (HttpError 409 "Instance does not have retained storage") ;;
         inserted ← accept (fr_operation fresh) projectId instanceId VolumeDelete key requestHash
           (empty_request <| rq_namespace := Some (pr_namespace row.2) |>
                          <| rq_name := Some (bi_resource_name b) |>
                          <| rq_instanceUid := bi_kubernetes_uid b |> <| rq_uid := Some uid |>) None actor;
         audit actor projectId instanceId (fr_operation fresh) "volume.delete" [("volumeUid", JStr uid)] ;;
         mret inserted
     end);
  mret (MkAccepted result None None).

(** The sealed credentials of an instance: the engine's user with a new
    password, and the health probe. *)
Definition credentials (password probePassword : string) : json :=
  credential_json ("cache:" +:+ bcrypt password +:+ newline +:+ "health:" +:+ bcrypt probePassword +:+ newline)
    "health" probePassword.

(** The provisioning options a handler needs. *)
Definition provisioning : M (World K) (list byte * string) :=
  match io_encryptionKey options, io_storageClass options with
  | Some key, Some class =>
      throw_if (String.eqb class "") (HttpError 503 "Instance provisioning is not configured") ;;
      mret (key, class)
  | _, _ => throw (HttpError 503 "Instance provisioning is not configured")
  end.

(** An instance may be reclaimed: detached or failed, of the same template. *)
Definition reclaimable (input : InstanceInput) (b : Binding) : bool :=
  retained b && String.eqb (bi_template_name b) (template_str (in_template input)) &&
  truthy (bi_template_version b) &&
  bool_decide (templateEnabled (template_str (in_template input)) (io_templates options) = Ok true) &&
  bool_decide (is_Some (instanceCapabilities (template_str (in_template input)) (bi_template_version b))).

(** The reclaimed size covers the volume and the historical reservation. *)
Definition covers (input : InstanceInput) (volume : RetainedVolume) (b : Binding) : bool :=
  match quantityCeil (vo_capacity volume) "1Gi", quantityCeil (vo_allocatedCapacity volume) "1Gi" with
  | Ok c, Ok a => negb (in_storageGiB input <? Z.max c a) &&
                  negb (in_storageGiB input <? nullish (bi_reserved_storage_gib b) 0)
  | _, _ => false
  end.

(** [current] is the binding the preparation has seen. *)
Definition unchanged (input : InstanceInput) (projectId : string) (b current : Binding) : bool :=
  String.eqb (bi_project_id current) projectId &&
  bool_decide (bi_lifecycle current ∈ [LDetached; LFailed]) &&
  oeq (bi_kubernetes_uid current) (bi_kubernetes_uid b) &&
  String.eqb (bi_template_name current) (template_str (in_template input)) &&
  oeq (bi_template_version current) (bi_template_version b) &&
  oeq (bi_reserved_storage_gib current) (bi_reserved_storage_gib b) &&
  oeq (bi_reserved_cpu_millis current) (bi_reserved_cpu_millis b) &&
  oeq (bi_reserved_memory_mib current) (bi_reserved_memory_mib b).

(** The object that takes over the retained volume. *)
Definition reclaim_object (operationId previous volumeUid version : string) (desired : CacheObject) :
    CacheObject :=
  desired <| co_spec ::= λ s,
    s <| sp_templateRef ::= λ t, t <| tr_version := version |> |>
      <| sp_storage ::= λ st, st <| st_reclaim := Some (MkReclaim previous volumeUid) |> |>
      <| sp_access ::= λ a, a <| ac_credentialsSecretRef := "auth-" +:+ operationId |> |> |>.

Definition check_project_quota (projectId : string) : M (World K) () :=
  snapshot ← quotaSnapshot projectId;
  lift (checkQuota (sn_limits snapshot) (sn_reserved snapshot) (sn_unknownReservations snapshot)).

(** [POST .../retained-volume/reclaim] *)
Definition reclaim_retained_volume (fresh : Fresh) (request : Request) (projectId instanceId : string) :
    M (World K) Accepted :=
  ids [projectId; instanceId] ;;
  actor ← projectAccess request projectId [RAdmin];
  '(encryptionKey, storageClass) ← provisioning;
  input ← lift (of_option ZodError (instanceInput (hd_body request)));
  volumeUid ← lift (ifMatch 1 request);
  key ← lift (idempotencyKey request);
  let requestHash := digest (stringify (JObj [("instanceId", JStr instanceId);
    ("volumeUid", JStr volumeUid); ("input", input_json input)])) in
  old ← transaction (lockProject projectId actor [RAdmin] ;;
                     replay projectId InstanceReclaim key requestHash);
  match old with
  | Some old => mret (MkAccepted old (Some true) None)
  | None =>
      row ← binding projectId instanceId;
      let b := row.1 in
      throw_if (negb (reclaimable input b))
        (HttpError 409 "Instance is not eligible for retained volume reclaim") ;;
      volume ← try_catch (require_kube ;; kube (getRetainedVolume (volume_identity projectId instanceId row)))
                 storage_error;
      volume ← lift (of_option (HttpError 409 "Retained volume changed or is not ready") volume);
      throw_if (negb (String.eqb (vo_uid volume) volumeUid) || vo_deleting volume ||
                negb (String.eqb (vo_phase volume) "Bound") ||
                negb (String.eqb (vo_storageClass volume) storageClass))
        (HttpError 409 "Retained volume changed or is not ready") ;;
      throw_if (negb (covers input volume b))
        (HttpError 409 "Reclaim storage must cover the retained volume and historical reservation") ;;
      existing ← observe_instance row;
      throw_if (bool_decide (is_Some existing))
        (HttpError 409 "An instance already exists for this retained volume") ;;
      let operationId := fr_operation fresh in
      let previous := nullish (bi_kubernetes_uid b) "" in
      desired ← lift (desiredObject input projectId (pr_namespace row.2) instanceId storageClass
                        operationId requestHash);
      let desired := reclaim_object operationId previous volumeUid (nullish (bi_template_version b) "") desired in
      transaction
        (lockProject projectId actor [RAdmin] ;;
         previous_operation ← replay projectId InstanceReclaim key requestHash;
         match previous_operation with
         | Some op => mret (MkAccepted op (Some true) None)
         | None =>
             current ← query (λ _ db, db_bindings db !! instanceId);
             throw_if (match current with
                       | Some current => negb (unchanged input projectId b current)
                       | None => true
                       end) (HttpError 409 "Instance changed during reclaim preparation") ;;
             execute_sql (λ _ db, db <| db_bindings ::= update_row always
               (λ r, raise_reservation (resources_of input) r <| bi_lifecycle := LPending |>) instanceId |>) ;;
             check_project_quota projectId ;;
             inserted ← accept operationId projectId instanceId InstanceReclaim key requestHash
               (empty_request <| rq_desired := Some desired |> <| rq_previousInstanceUID := Some previous |>
                              <| rq_volumeUid := Some volumeUid |>)
               (Some (seal (fr_nonce fresh) encryptionKey operationId
                        (credentials (fr_password fresh) (fr_probe fresh)))) actor;
             execute_res (λ _ db, insert_credential (fr_credential fresh)
               (MkCredential instanceId "default" (ac_credentialsSecretRef (sp_access (co_spec desired)))
                  (next_revision instanceId db) CPending) db) ;;
             audit actor projectId instanceId operationId "volume.reclaim"
               [("previousInstanceUID", JStr previous); ("volumeUid", JStr volumeUid)] ;;
             mret (MkAccepted inserted (Some false) (Some (fr_password fresh)))
         end)
  end.

Definition gateway_refused (input : InstanceInput) : bool :=
  bool_decide (in_exposure input = Gateway) && negb (gatewayEnabled (io_templates options)).

(** The row of a new instance. *)
Definition new_binding (now : Z) (projectId : string) (actor : Actor) (input : InstanceInput)
    (desired : CacheObject) : Binding :=
  {| bi_project_id := projectId; bi_resource_name := md_name (co_metadata desired);
     bi_kubernetes_uid := None; bi_lifecycle := LPending; bi_created_by := at_id actor;
     bi_created_at := now; bi_display_name := in_name input;
     bi_template_name := template_str (in_template input);
     bi_template_version := Some (tr_version (sp_templateRef (co_spec desired)));
     bi_reserved_storage_gib := None; bi_reserved_cpu_millis := None; bi_reserved_memory_mib := None |}.

(** [POST .../instances] *)
Definition create_instance (fresh : Fresh) (request : Request) (projectId : string) : M (World K) Accepted :=
  ids [projectId] ;;
  actor ← projectAccess request projectId [RAdmin; RMaintainer];
  require_kube ;;
  '(encryptionKey, storageClass) ← provisioning;
  input ← lift (of_option ZodError (instanceInput (hd_body request)));
  key ← lift (idempotencyKey request);
  let requestHash := digest (stringify (input_json input)) in
  let id := fr_instance fresh in
  let operationId := fr_operation fresh in
  transaction
    (project ← lockProject projectId actor [RAdmin; RMaintainer];
     existing ← replay projectId InstanceCreate key requestHash;
     match existing with
     | Some existing => mret (MkAccepted existing (Some true) None)
     | None =>
         throw_if (gateway_refused input) (HttpError 409 "Gateway exposure is not enabled") ;;
         enabled ← lift (templateEnabled (template_str (in_template input)) (io_templates options));
         throw_if (negb enabled) (HttpError 409 "Template is not enabled") ;;
         throw_if (negb (bool_decide (pr_state project = PReady)))
           (HttpError 409 "Project initialization is not complete") ;;
         desired ← lift (desiredObject input projectId (pr_namespace project) id storageClass
                           operationId requestHash);
         execute_res (λ now, insert_binding id (new_binding now projectId actor input desired)) ;;
         reserveResources projectId id (resources_of input) true ;;
         execute_res (λ _, insert_credential (fr_credential fresh)
           (MkCredential id "default" (ac_credentialsSecretRef (sp_access (co_spec desired))) 1 CPending)) ;;
         inserted ← accept operationId projectId id InstanceCreate key requestHash
           (empty_request <| rq_desired := Some desired |>)
           (Some (seal (fr_nonce fresh) encryptionKey operationId
                    (credentials (fr_password fresh) (fr_probe fresh)))) actor;
         audit actor projectId id operationId "instance.create" [] ;;
         role ← query (λ _ db, db_members db !! (projectId, at_id actor));
         mret (MkAccepted inserted (Some false)
           (if at_platform_admin actor || oeq role (Some RAdmin) then Some (fr_password fresh) else None))
     end).

(** The object an update asks for: the input rendered on the current storage
    class, keeping the credentials, the template, the image binding and a
    reclaim of the current object. *)
Definition update_object (current desired : CacheObject) : CacheObject :=
  let spec := co_spec current in
  desired <| co_spec ::= λ s,
    s <| sp_access ::= λ a, a <| ac_credentialsSecretRef := ac_credentialsSecretRef (sp_access spec) |> |>
      <| sp_templateRef := sp_templateRef spec |>
      <| sp_imageBindingMode := if truthy (sp_imageBindingMode spec) then sp_imageBindingMode spec else None |>
      <| sp_storage ::= λ st, match st_reclaim (sp_storage spec) with
                              | Some r => st <| st_reclaim := Some r |>
                              | None => st
                              end |> |>.

(** [PATCH .../instances/:instanceId] *)
Definition update_instance (fresh : Fresh) (request : Request) (projectId instanceId : string) :
    M (World K) Accepted :=
  ids [projectId; instanceId] ;;
  actor ← projectAccess request projectId [RAdmin; RMaintainer];
  input ← lift (of_option ZodError (instanceInput (hd_body request)));
  key ← lift (idempotencyKey request);
  expected ← lift (ifMatch 3 request);
  let requestHash := digest (stringify (JObj [("instanceId", JStr instanceId);
    ("input", input_json input); ("expected", JStr expected)])) in
  result ← transaction (lockProject projectId actor [RAdmin; RMaintainer] ;;
                        replay projectId InstanceUpdate key requestHash);
  match result with
  | Some result => mret (MkAccepted result (Some true) None)
  | None =>
      throw_if (gateway_refused input) (HttpError 409 "Gateway exposure is not enabled") ;;
      row ← binding projectId instanceId;
      current ← readOwned instanceId row;
      match current with
      | None => throw (HttpError 409 "Instance is not available for update")
      | Some current =>
          throw_if (truthy (md_deletionTimestamp (co_metadata current)) ||
                    negb (truthy (bi_kubernetes_uid row.1)))
            (HttpError 409 "Instance is not available for update") ;;
          throw_if (negb (String.eqb (tr_name (sp_templateRef (co_spec current))) (template_str (in_template input))))
            (HttpError 400 "Instance template cannot be changed") ;;
          throw_if (negb (String.eqb (revision current) expected)) (HttpError 409 "Instance configuration changed") ;;
          throw_if (below_number (in_storageGiB input)
                      (js_Number (drop_Gi (st_capacity (sp_storage (co_spec current))))))
            (HttpError 400 "Storage shrinking is not supported") ;;
          let operationId := fr_operation fresh in
          desired ← lift (desiredObject input projectId (pr_namespace row.2) instanceId
            (st_className (sp_storage (co_spec current))) operationId requestHash);
          let desired := update_object current desired in
          accepted ← transaction
            (lockProject projectId actor [RAdmin; RMaintainer] ;;
             existing ← replay projectId InstanceUpdate key requestHash;
             match existing with
             | Some existing => mret existing
             | None =>
                 reserveResources projectId instanceId (resources_of input) false ;;
                 row ← accept operationId projectId instanceId InstanceUpdate key requestHash
                   (empty_request <| rq_desired := Some desired |> <| rq_expectedRevision := Some expected |>)
                   None actor;
                 audit actor projectId instanceId operationId "instance.update" [] ;;
                 mret row
             end);
          mret (MkAccepted accepted None None)
      end
  end.

(** The object a rotation asks for: the current one under a new secret. *)
Definition rotate_object (operationId requestHash : string) (current : CacheObject) : CacheObject :=
  {| co_apiVersion := co_apiVersion current; co_kind := co_kind current;
     co_metadata := {|
       md_name := md_name (co_metadata current); md_namespace := md_namespace (co_metadata current);
       md_uid := None; md_generation := None; md_resourceVersion := None; md_labels := None;
       md_annotations := Some (<[request_hash_key := requestHash]> (<[operation_key := operationId]>
         (nullish (md_annotations (co_metadata current)) ∅)));
       md_deletionTimestamp := None |};
     co_spec := co_spec current <| sp_access ::= λ a, a <| ac_credentialsSecretRef := "auth-" +:+ operationId |> |>;
     co_status := None |}.

(** [POST .../credentials/rotate] *)
Definition rotate_credentials (fresh : Fresh) (request : Request) (projectId instanceId : string) :
    M (World K) Accepted :=
  ids [projectId; instanceId] ;;
  actor ← projectAccess request projectId [RAdmin];
  require_kube ;;
  encryptionKey ← lift (of_option (HttpError 503 "Credential provisioning is not configured")
                          (io_encryptionKey options));
  key ← lift (idempotencyKey request);
  expected ← lift (ifMatch 3 request);
  let requestHash := digest (stringify (JObj [("instanceId", JStr instanceId); ("expected", JStr expected)])) in
  existing ← transaction (lockProject projectId actor [RAdmin] ;;
                          replay projectId InstanceRotate key requestHash);
  match existing with
  | Some existing => mret (MkAccepted existing (Some true) None)
  | None =>
      row ← binding projectId instanceId;
      current ← readOwned instanceId row;
      current ← lift (of_option (HttpError 409 "Instance configuration changed or is unavailable") current);
      throw_if (truthy (md_deletionTimestamp (co_metadata current)) ||
                negb (truthy (bi_kubernetes_uid row.1)) ||
                negb (String.eqb (revision current) expected))
        (HttpError 409 "Instance configuration changed or is unavailable") ;;
      let operationId := fr_operation fresh in
      let desired := rotate_object operationId requestHash current in
      transaction
        (lockProject projectId actor [RAdmin] ;;
         replayed ← replay projectId InstanceRotate key requestHash;
         match replayed with
         | Some replayed => mret (MkAccepted replayed (Some true) None)
         | None =>
             inserted ← accept operationId projectId instanceId InstanceRotate key requestHash
               (empty_request <| rq_desired := Some desired |> <| rq_expectedRevision := Some expected |>)
               (Some (seal (fr_nonce fresh) encryptionKey operationId
                        (credentials (fr_password fresh) (fr_probe fresh)))) actor;
             execute_res (λ _ db, insert_credential (fr_credential fresh)
               (MkCredential instanceId "default" ("auth-" +:+ operationId) (next_revision instanceId db) CPending) db) ;;
             audit actor projectId instanceId operationId "credential.rotate" [] ;;
             mret (MkAccepted inserted (Some false) (Some (fr_password fresh)))
         end)
  end.

(** [DELETE .../instances/:instanceId] *)
Definition delete_instance (fresh : Fresh) (request : Request) (projectId instanceId : string) :
    M (World K) Accepted :=
  ids [projectId; instanceId] ;;
  actor ← projectAccess request projectId [RAdmin];
  key ← lift (idempotencyKey request);
  let requestHash := digest (stringify (JObj [("instanceId", JStr instanceId)])) in
  let operationId := fr_operation fresh in
  result ← transaction
    (lockProject projectId actor [RAdmin] ;;
     existing ← replay projectId InstanceDelete key requestHash;
     match existing with
     | Some existing => mret existing
     | None =>
         row ← query (λ _, binding_of projectId instanceId);
         row ← lift (of_option (HttpError 404 "Instance not found") row);
         let b := row.1 in
         throw_if (negb (truthy (bi_kubernetes_uid b)) || bool_decide (bi_lifecycle b ∈ [LDeleted; LDetached]))
           (HttpError 409 "Instance has no active Kubernetes binding") ;;
         inserted ← accept operationId projectId instanceId InstanceDelete key requestHash
           (empty_request <| rq_uid := bi_kubernetes_uid b |> <| rq_namespace := Some (pr_namespace row.2) |>
                          <| rq_name := Some (bi_resource_name b) |>) None actor;
         execute_sql (λ _ db, db <| db_bindings ::=
           update_row always (λ r, r <| bi_lifecycle := LDeleting |>) instanceId |>) ;;
         audit actor projectId instanceId operationId "instance.delete" [] ;;
         mret inserted
     end);
  mret (MkAccepted result None None).

(** A failed operation that can be resumed. *)
Definition resumable (op : Operation) : bool :=
  let deleting := bool_decide (op_kind op = InstanceDelete) in
  let recoveringCreate := bool_decide (op_kind op ∈ [InstanceCreate; InstanceReclaim]) &&
                          oeq (op_target_generation op) None in
  bool_decide (op_state op = Failed) &&
  (deleting || recoveringCreate ||
   bool_decide (op_kind op ∈ [InstanceCreate; InstanceReclaim; InstanceUpdate; InstanceRotate]) &&
   negb (oeq (op_target_generation op) None)).

Definition still_available (op : Operation) (b : Binding) : bool :=
  let deleting := bool_decide (op_kind op = InstanceDelete) in
  let recoveringCreate := bool_decide (op_kind op ∈ [InstanceCreate; InstanceReclaim]) &&
                          oeq (op_target_generation op) None in
  (recoveringCreate || truthy (bi_kubernetes_uid b)) &&
  (if deleting
   then bool_decide (bi_lifecycle b = LDeleting) && oeq (rq_uid (op_request op)) (bi_kubernetes_uid b)
   else negb (bool_decide (bi_lifecycle b ∈ [LDeleting; LDeleted; LDetached]))).

(** [created_at >= $3] against a JavaScript date: whole milliseconds. *)
Definition newer (op other : Operation) : bool :=
  oeq (op_instance_id other) (op_instance_id op) && negb (oeq (op_instance_id op) None) &&
  negb (String.eqb (op_id other) (op_id op)) &&
  (js_date (op_created_at op) * 1000 <=? op_created_at other).

Definition resume_row (now : Z) (op : Operation) : Operation :=
  op <| op_state := Reconciling |> <| op_error_code := None |> <| op_worker_id := None |>
     <| op_lease_until := None |> <| op_next_attempt_at := now |>
     <| op_deadline_at := now + seconds (20 * 60) |> <| op_updated_at := now |>.

(** The unique index on active operations, when an update makes one active. *)
Definition resume_operation (operationId : string) (now : Z) (db : DB) : res () * DB :=
  match db_operations db !! operationId with
  | None => (Ok tt, db)
  | Some op =>
      if existsb (λ o, negb (String.eqb (op_id o) operationId) && both_active (resume_row now op) o)
           (rows (db_operations db))
      then (Throw (PgUnique "operations_one_active"), db)
      else (Ok tt, db <| db_operations ::= <[operationId := resume_row now op]> |>)
  end.
Definition insert_retry (projectId key operationId : string) (db : DB) : res () * DB :=
  if bool_decide (is_Some (db_retries db !! (projectId, key))) then (Throw (PgUnique "operation_retries_pkey"), db)
  else (Ok tt, db <| db_retries ::= <[(projectId, key) := operationId]> |>).

(** [POST .../operations/:operationId/retry]: its transaction, and the handler. *)
Definition retry_transaction (actor : Actor) (projectId operationId key : string) : M (World K) Accepted :=
  lockProject projectId actor [RAdmin] ;;
  replayed ← query (λ _ db, db_retries db !! (projectId, key));
  throw_if (match replayed with Some o => negb (String.eqb o operationId) | None => false end)
    (HttpError 409 "Idempotency key was already used for another request") ;;
  found ← query (λ _ db, db_operations db !! operationId);
  operation ← lift (of_option (HttpError 404 "Operation not found") found);
  throw_if (negb (String.eqb (op_project_id operation) projectId)) (HttpError 404 "Operation not found") ;;
  when (oeq replayed None)
    (throw_if (negb (resumable operation))
       (HttpError 409 "Only failed instance operations with a recoverable request can be resumed") ;;
     bound ← query (λ _ db, lookup_opt (db_bindings db) (op_instance_id operation));
     throw_if (match bound with Some b => negb (still_available operation b) | None => true end)
       (HttpError 409 "Instance is no longer available for reconciliation") ;;
     newer_exists ← query (λ _ db, existsb (newer operation) (rows (db_operations db)));
     throw_if newer_exists (HttpError 409 "A newer instance operation exists") ;;
     execute_res (λ _, insert_retry projectId key operationId) ;;
     execute_res (resume_operation operationId) ;;
     when (bool_decide (op_kind operation ∈ [InstanceCreate; InstanceReclaim]))
       (execute_sql (λ _ db, db <| db_bindings ::=
          update_opt always (λ r, r <| bi_lifecycle := LPending |>) (op_instance_id operation) |>)) ;;
     execute_sql (λ _, add_audit (MkAudit (Some (at_id actor)) (Some projectId) (op_instance_id operation)
       (Some operationId) "operation.retry" [("previousError", json_nullable JStr (op_error_code operation))]))) ;;
  row ← query (λ _ db, db_operations db !! operationId);
  row ← lift (of_option (HttpError 404 "Operation not found") row);
  mret (MkAccepted (summary row) (Some (negb (oeq replayed None))) None).

Definition retry_operation (request : Request) (projectId operationId : string) : M (World K) Accepted :=
  ids [projectId; operationId] ;;
  actor ← projectAccess request projectId [RAdmin];
  key ← lift (idempotencyKey request);
  transaction (retry_transaction actor projectId operationId key).

(** [GET .../operations] and [GET .../operations/:operationId] *)
Definition latest_first (a b : Operation) : Prop := op_created_at b ≤ op_created_at a.
#[local] Instance latest_first_dec a b : Decision (latest_first a b).
Proof. unfold latest_first. apply _. Defined.
Definition get_operations (request : Request) (projectId : string) : M (World K) (list OpSummary) :=
  ids [projectId] ;;
  projectAccess request projectId all_roles ;;
  pool (query (λ _ db, summary <$> take 100 (merge_sort latest_first
    (filter (λ op, op_project_id op = projectId) (rows (db_operations db)))))).
Definition get_operation (request : Request) (projectId operationId : string) : M (World K) OpSummary :=
  ids [projectId; operationId] ;;
  projectAccess request projectId all_roles ;;
  row ← pool (query (λ _ db,
    op ← db_operations db !! operationId;
    if String.eqb (op_project_id op) projectId then Some (summary op) else None));
  lift (of_option (HttpError 404 "Operation not found") row).

(** The window of a history query: [z.object({ window }).strict()] with the
    default of one hour. *)
Definition history_query (j : json) : option string :=
  match j with
  | JObj fs => if only_keys ["window"] fs
               then defaulted "1h"%string (z_enum ["1h"; "6h"; "24h"] id) (field "window" fs) else None
  | _ => None
  end.

(** [GET .../statistics/history] and [GET .../statistics], over the readers the
    process may have been given. *)
Definition get_history {A} (history : option (string → string → string → M (World K) A))
    (request : Request) (projectId instanceId : string) : M (World K) A :=
  ids [projectId; instanceId] ;;
  projectAccess request projectId all_roles ;;
  window ← lift (of_option ZodError (history_query (hd_query request)));
  row ← binding projectId instanceId;
  throw_if (negb (truthy (bi_kubernetes_uid row.1))) (HttpError 409 "Instance identity has not been established") ;;
  throw_if (negb (match instanceCapabilities (bi_template_name row.1) (bi_template_version row.1) with
                  | Some c => cap_lookupHistory c
                  | None => false
                  end)) (HttpError 409 "This template does not support lookup history") ;;
  match history with
  | None => throw (HttpError 503 "Prometheus history is not configured")
  | Some read => try_catch (read projectId (nullish (bi_kubernetes_uid row.1) "") window)
                   (λ _, throw (HttpError 503 "Lookup history is temporarily unavailable"))
  end.

Definition get_statistics {A} (statistics : option (CacheObject → M (World K) A))
    (request : Request) (projectId instanceId : string) : M (World K) A :=
  ids [projectId; instanceId] ;;
  projectAccess request projectId all_roles ;;
  row ← binding projectId instanceId;
  current ← readOwned instanceId row;
  current ← lift (of_option (HttpError 409 "Instance is not available") current);
  throw_if (truthy (md_deletionTimestamp (co_metadata current))) (HttpError 409 "Instance is not available") ;;
  throw_if (negb (String.eqb (sp_desiredState (co_spec current)) "Running"))
    (HttpError 409 "Statistics are unavailable while the instance is suspended") ;;
  let template := sp_templateRef (co_spec current) in
  throw_if (negb (match instanceCapabilities (tr_name template) (Some (tr_version template)) with
                  | Some c => cap_statistics c
                  | None => false
                  end)) (HttpError 409 "This template does not support engine statistics") ;;
  match statistics with
  | None => throw (HttpError 503 "Statistics collection is not configured")
  | Some read => try_catch (read current)
                   (λ _, throw (HttpError 503 "Engine statistics are temporarily unavailable"))
  end.
End routes.
