(* ===== verification/RoutesFacts.v ===== *)
(** * The guarantees of the instance routes

    Theorems on [Routes]: a failed request changes nothing, a repeated request
    is answered with the operation it already has, what an accepted creation,
    update and retry write, and what the request digest identifies. *)
From Stdlib Require Import ZArith Lia Ascii Init.Byte.
From stdpp Require Import base tactics list option strings gmap sorting relations.
From S2P Require Import Prelude Regex Numbers Effects Quantities Catalog Json JsNumber Contract Database Quotas.
From S2P Require Import Secrets Security Accounts Kubernetes Worker WorkerLease WorkerSafety Routes.

(** ** Failures *)
Section failures.
Context {K : Type} (R : relation DB) `{!PreOrder R}.

(** A run that throws has moved the database only as far as the other
    processes did. *)
Definition fails_clean {A} (m : M (World K) A) : Prop := ∀ w e w',
  env_moves R w → m w = (Throw e, w') → R (w_db w) (w_db w').

Lemma clean_within {A} (m : M (World K) A) : within (world_rel R) m → fails_clean m.
Proof. intros Hm w e w' Hw E. destruct (Hm w Hw) as [HR _]. by rewrite E in HR. Qed.

Lemma clean_bind {A B} (m : M (World K) A) (k : A → M (World K) B) :
  within (world_rel R) m → (∀ a, fails_clean (k a)) → fails_clean (m ≫= k).
Proof.
  intros Hm Hk w e w' Hw E. destruct (Hm w Hw) as [HR Hw1].
  apply bind_Throw_inv in E as [E|(a & w1 & E1 & E)].
  - by rewrite E in HR.
  - rewrite E1 in *. simpl in *. etransitivity; [exact HR|]. by eapply Hk.
Qed.

Lemma clean_transaction {A} (m : M (World K) A) : fails_clean (transaction m).
Proof.
  intros w e w' Hw. rewrite transaction_eq. unfold atomically.
  destruct (m (after_yield w)) as [[a|e'] w1]; [done|]. intros [= _ <-]. simpl.
  by destruct (world_yield R w Hw).
Qed.

(** The reply after the last transaction cannot fail. *)
Lemma clean_reply {A B} (m : M (World K) A) (f : A → B) :
  fails_clean m → fails_clean (a ← m; mret (f a)).
Proof.
  intros Hm w e w' Hw E. apply bind_Throw_inv in E as [E|(a & w1 & _ & [=])]. by eapply Hm.
Qed.
End failures.

Ltac clean_step :=
  match goal with
  | |- fails_clean _ (transaction _) => apply clean_transaction; typeclasses eauto
  | |- fails_clean _ (_ ← transaction _; mret _) => apply clean_reply, clean_transaction; typeclasses eauto
  | |- fails_clean _ (throw _) => apply clean_within; auto with within typeclass_instances
  | |- fails_clean _ (mret _) => apply clean_within; auto with within typeclass_instances
  | |- fails_clean _ (_ ≫= _) => apply clean_bind; [typeclasses eauto|solve [world_solve]|intros ?]
  | |- fails_clean _ (match ?x with _ => _ end) => destruct x
  | |- fails_clean _ (let _ := _ in _) => cbv zeta
  end.

Section routes.
Context {K : Type} `{KubernetesPort K} `{Aead} `{Digests}.
Context (options : InstanceOptions) (is_uuid : string → bool) (bcrypt : string → string).
Context (projectAccess : Request → string → list Role → M (World K) Actor).
Context (R : relation DB) `{!PreOrder R}.
Context (Haccess : ∀ request projectId roles, within (world_rel R) (projectAccess request projectId roles)).

Lemma ids_within l : within (world_rel (K:=K) R) (ids is_uuid l).
Proof. unfold ids. world_solve. Qed.
Lemma require_kube_within : within (world_rel (K:=K) R) (require_kube options).
Proof. unfold require_kube. world_solve. Qed.
Lemma provisioning_within : within (world_rel (K:=K) R) (provisioning options).
Proof. unfold provisioning. world_solve. Qed.
Lemma binding_within projectId id : within (world_rel (K:=K) R) (binding projectId id).
Proof. unfold binding. world_solve. Qed.
Hint Resolve ids_within require_kube_within provisioning_within binding_within : within.
Lemma readOwned_within id row : within (world_rel (K:=K) R) (readOwned options id row).
Proof. unfold readOwned. destruct row as [b p]. world_solve. Qed.
Lemma observe_within row : within (world_rel (K:=K) R) (observe_instance options row).
Proof. unfold observe_instance. world_solve. Qed.
Lemma storage_error_within {A} e : within (world_rel (K:=K) R) (storage_error (A:=A) e).
Proof. unfold storage_error. world_solve. Qed.
Lemma replay_within projectId kind key hash : within (world_rel (K:=K) R) (replay projectId kind key hash).
Proof. unfold replay. world_solve. Qed.
Lemma lockProject_within projectId actor roles : within (world_rel (K:=K) R) (lockProject projectId actor roles).
Proof. unfold lockProject. world_solve. Qed.
Hint Resolve readOwned_within observe_within storage_error_within replay_within lockProject_within : within.

Lemma create_clean fresh request projectId :
  fails_clean R (create_instance options is_uuid bcrypt projectAccess fresh request projectId).
Proof. unfold create_instance. repeat clean_step. Qed.
Lemma update_clean fresh request projectId id :
  fails_clean R (update_instance options is_uuid projectAccess fresh request projectId id).
Proof. unfold update_instance. repeat clean_step. Qed.
Lemma rotate_clean fresh request projectId id :
  fails_clean R (rotate_credentials options is_uuid bcrypt projectAccess fresh request projectId id).
Proof. unfold rotate_credentials. repeat clean_step. Qed.
Lemma delete_clean fresh request projectId id :
  fails_clean R (delete_instance is_uuid projectAccess fresh request projectId id).
Proof. unfold delete_instance. repeat clean_step. Qed.
Lemma reclaim_clean fresh request projectId id :
  fails_clean R (reclaim_retained_volume options is_uuid bcrypt projectAccess fresh request projectId id).
Proof. unfold reclaim_retained_volume. repeat clean_step. Qed.
Lemma delete_volume_clean fresh request projectId id :
  fails_clean R (delete_retained_volume options is_uuid projectAccess fresh request projectId id).
Proof. unfold delete_retained_volume. repeat clean_step. Qed.
Lemma retry_clean request projectId id :
  fails_clean R (retry_operation is_uuid projectAccess request projectId id).
Proof. unfold retry_operation. repeat clean_step. Qed.
End routes.

(** ** Requests that are repeated *)
Definition unique_keys (db : DB) : Prop := ∀ id1 op1 id2 op2,
  db_operations db !! id1 = Some op1 → db_operations db !! id2 = Some op2 →
  same_key op1 op2 = true → op1 = op2.

Section quiet.
Context {K : Type} (w : World K) (Hquiet : w_env w = []).

Lemma quiet_yield : after_yield w = w.
Proof. clear -Hquiet. destruct w; simpl in *. by subst. Qed.

Lemma quiet_transaction {A} (m : M (World K) A) r w' : m w = (Ok r, w') → transaction m w = (Ok r, w').
Proof. intros E. rewrite transaction_eq, quiet_yield. unfold atomically. by rewrite E. Qed.
Lemma quiet_transaction_throw {A} (m : M (World K) A) e :
  m w = (Throw e, w) → transaction m w = (Throw e, w).
Proof.
  intros E. rewrite transaction_eq, quiet_yield. unfold atomically. rewrite E. by rewrite with_same_db.
Qed.
End quiet.

Section replays.
Context {K : Type} `{KubernetesPort K} `{Aead} `{Digests}.
Context (options : InstanceOptions) (is_uuid : string → bool) (bcrypt : string → string).
Context (projectAccess : Request → string → list Role → M (World K) Actor).
Context (w : World K) (request : Request) (projectId : string) (actor : Actor) (project : Project).

(** The caller is let in, and has one of the roles in the project. *)
Definition admitted (roles : list Role) : Prop :=
  projectAccess request projectId roles w = (Ok actor, w) ∧
  db_projects (w_db w) !! projectId = Some project ∧ permitted actor projectId roles (w_db w) = true.

Lemma lockProject_Ok roles :
  permitted actor projectId roles (w_db w) = true → db_projects (w_db w) !! projectId = Some project →
  lockProject projectId actor roles w = (Ok project, w).
Proof.
  intros Hp Hpr. unfold lockProject, mbind, M_bind, query. rewrite Hp. simpl. unfold lift. by rewrite Hpr.
Qed.

Lemma lock_admitted roles : admitted roles → lockProject projectId actor roles w = (Ok project, w).
Proof. intros (_ & Hpr & Hp). by apply lockProject_Ok. Qed.

Context (id key : string) (op : Operation).
Context (Hunique : unique_keys (w_db w)) (Hop : db_operations (w_db w) !! id = Some op)
  (Hproject : op_project_id op = projectId) (Hkey : op_idempotency_key op = key).

Lemma find_request :
  js_find (same_request_key projectId (op_kind op) key) (rows (db_operations (w_db w))) = Some op.
Proof.
  assert (same_request_key projectId (op_kind op) key op = true) as Hs.
  { unfold same_request_key. by rewrite Hproject, Hkey, !String.eqb_refl, bool_decide_true. }
  destruct (js_find _ _) as [o|] eqn:E.
  - apply js_find_Some in E as [(j & Hj)%rows_elem Ho]. f_equal. apply (Hunique j o id op Hj Hop).
    unfold same_request_key in Ho. boolify. unfold same_key.
    by rewrite Hproject, Hkey, H2, H4, H3, !String.eqb_refl, bool_decide_true.
  - exfalso. unfold js_find in E. apply head_None in E.
    assert (op ∈ filter (λ o, same_request_key projectId (op_kind op) key o = true)
      (rows (db_operations (w_db w)))) as Hin by (apply list_elem_of_filter; split; [done|]; apply rows_elem; eauto).
    by rewrite E in Hin; apply not_elem_of_nil in Hin.
Qed.

Definition key_reused : exn := HttpError 409 "Idempotency key was already used for another request".

Lemma replay_found hash :
  replay projectId (op_kind op) key hash w =
    if String.eqb (op_request_hash op) hash then (Ok (Some (summary op)), w) else (Throw key_reused, w).
Proof.
  unfold replay, mbind, M_bind, query. rewrite find_request.
  by destruct (String.eqb (op_request_hash op) hash).
Qed.

(** The documents the handlers hash, and their digests. *)
Definition create_doc (input : InstanceInput) : json := input_json input.
Definition update_doc (instanceId : string) (input : InstanceInput) (expected : string) : json :=
  JObj [("instanceId", JStr instanceId); ("input", input_json input); ("expected", JStr expected)].
Definition reclaim_doc (instanceId volumeUid : string) (input : InstanceInput) : json :=
  JObj [("instanceId", JStr instanceId); ("volumeUid", JStr volumeUid); ("input", input_json input)].
Definition rotate_doc (instanceId expected : string) : json :=
  JObj [("instanceId", JStr instanceId); ("expected", JStr expected)].
Definition volume_doc (instanceId uid : string) : json :=
  JObj [("instanceId", JStr instanceId); ("uid", JStr uid)].
Definition delete_doc (instanceId : string) : json := JObj [("instanceId", JStr instanceId)].

Definition create_hash (input : InstanceInput) : string := digest (stringify (create_doc input)).
Definition update_hash (instanceId : string) (input : InstanceInput) (expected : string) : string :=
  digest (stringify (update_doc instanceId input expected)).
Definition reclaim_hash (instanceId volumeUid : string) (input : InstanceInput) : string :=
  digest (stringify (reclaim_doc instanceId volumeUid input)).
Definition rotate_hash (instanceId expected : string) : string :=
  digest (stringify (rotate_doc instanceId expected)).
Definition volume_hash (instanceId uid : string) : string := digest (stringify (volume_doc instanceId uid)).
Definition delete_hash (instanceId : string) : string := digest (stringify (delete_doc instanceId)).

(** The request carries the stored key again. *)
Definition answered_again {A} (m : M (World K) A) (hash : string) (reply : A) : Prop :=
  m w = if String.eqb (op_request_hash op) hash then (Ok reply, w) else (Throw key_reused, w).

Context (Hquiet : w_env w = []).

(** The first statements of every transaction. *)
Lemma lock_replay {A} roles hash (f : option OpSummary → M (World K) A) :
  admitted roles →
  (lockProject projectId actor roles ;; (o ← replay projectId (op_kind op) key hash; f o)) w =
    if String.eqb (op_request_hash op) hash then f (Some (summary op)) w else (Throw key_reused, w).
Proof.
  intros Hr. rewrite (bind_Ok _ _ _ _ _ (lock_admitted _ Hr)).
  unfold mbind, M_bind. rewrite replay_found. by destruct (String.eqb _ hash).
Qed.
Lemma lock_replay_with {A} roles hash (f : Project → option OpSummary → M (World K) A) :
  admitted roles →
  (p ← lockProject projectId actor roles; o ← replay projectId (op_kind op) key hash; f p o) w =
    if String.eqb (op_request_hash op) hash then f project (Some (summary op)) w else (Throw key_reused, w).
Proof.
  intros Hr. rewrite (bind_Ok _ _ _ _ _ (lock_admitted _ Hr)).
  unfold mbind, M_bind. rewrite replay_found. by destruct (String.eqb _ hash).
Qed.
Lemma lock_replay_alone roles hash :
  admitted roles →
  (lockProject projectId actor roles ;; replay projectId (op_kind op) key hash) w =
    if String.eqb (op_request_hash op) hash then (Ok (Some (summary op)), w) else (Throw key_reused, w).
Proof. intros Hr. rewrite (bind_Ok _ _ _ _ _ (lock_admitted _ Hr)). apply replay_found. Qed.

(** A transaction that answers from the stored operation. *)
Lemma answer_transaction {A} (m : M (World K) A) hash reply :
  m w = (if String.eqb (op_request_hash op) hash then (Ok reply, w) else (Throw key_reused, w)) →
  transaction m w = if String.eqb (op_request_hash op) hash then (Ok reply, w) else (Throw key_reused, w).
Proof.
  intros E. destruct (String.eqb _ hash).
  - by apply quiet_transaction.
  - by apply quiet_transaction_throw.
Qed.
End replays.

Section answers.
Context {K : Type} `{KubernetesPort K} `{Aead} `{Digests}.
Context (options : InstanceOptions) (is_uuid : string → bool) (bcrypt : string → string).
Context (projectAccess : Request → string → list Role → M (World K) Actor).
Context (w : World K) (request : Request) (projectId : string) (actor : Actor) (project : Project).
Context (id key : string) (op : Operation).
#[warnings="-notation-for-abbreviation"]
Notation may := (admitted projectAccess w request projectId actor project).

(** A request to a project that has used its idempotency key before. *)
Record repeated : Prop := {
  rep_quiet : w_env w = [];
  rep_unique : unique_keys (w_db w);
  rep_stored : db_operations (w_db w) !! id = Some op;
  rep_project : op_project_id op = projectId;
  rep_same_key : op_idempotency_key op = key;
  rep_id : is_uuid projectId = true;
  rep_key : idempotencyKey request = Ok key }.
(** The service can provision instances. *)
Definition provisioned : Prop :=
  is_Some (io_encryptionKey options) ∧ ∃ class, io_storageClass options = Some class ∧ class ≠ ""%string.

Context (Hr : repeated).

Lemma ids_Ok l : Forall (λ i, is_uuid i = true) l → ids is_uuid l w = (Ok tt, w).
Proof.
  intros Hl. unfold ids. replace (forallb is_uuid l) with true; [done|]. symmetry.
  apply forallb_forall. intros i Hi%list_elem_of_In. by eapply Forall_forall in Hl.
Qed.
Lemma both_ids instanceId : is_uuid instanceId = true → ids is_uuid [projectId; instanceId] w = (Ok tt, w).
Proof. intros Hi. pose proof (rep_id Hr). apply ids_Ok. by repeat constructor. Qed.
Lemma access_Ok roles : may roles → projectAccess request projectId roles w = (Ok actor, w).
Proof. by intros [? _]. Qed.
Lemma require_kube_Ok : io_kube options = true → require_kube options w = (Ok tt, w).
Proof. unfold require_kube. by intros ->. Qed.
Lemma provisioning_Ok : provisioned → ∃ k class, provisioning options w = (Ok (k, class), w).
Proof.
  intros ([k Hk] & class & Hc & Hne). exists k, class. unfold provisioning. rewrite Hk, Hc.
  by rewrite (proj2 (String.eqb_neq _ _) Hne).
Qed.
Lemma lift_Ok {A} (r : res A) a : r = Ok a → lift r w = (Ok a, w).
Proof. by intros ->. Qed.

(** Walk the statements before the first transaction. *)
Ltac prelude_step :=
  match goal with
  | H : is_uuid ?i = true |- context [ids is_uuid [projectId; ?i]] => rewrite (bind_Ok _ _ _ _ _ (both_ids _ H))
  | H : may ?roles |- context [projectAccess request projectId ?roles] => rewrite (bind_Ok _ _ _ _ _ (access_Ok _ H))
  | H : io_kube options = true |- context [require_kube options] => rewrite (bind_Ok _ _ _ _ _ (require_kube_Ok H))
  | H : provisioning options w = _ |- context [provisioning options] => rewrite (bind_Ok _ _ _ _ _ H)
  | H : ?r = Ok _ |- context [lift ?r] => rewrite (bind_Ok _ _ _ _ _ (lift_Ok _ _ H))
  | H : ?o = Some ?a |- context [lift (of_option ?e ?o)] =>
      rewrite (bind_Ok _ _ _ _ _ (lift_Ok (of_option e o) a ltac:(by rewrite H)))
  end.
Ltac prelude := pose proof (rep_key Hr) as Hkey; repeat prelude_step; cbv beta zeta iota.

(** The reply after a transaction that was answered. *)
Lemma after_answer {A B} (m : M (World K) A) (f : A → M (World K) B) hash (a : A) (reply : B) :
  m w = (if String.eqb (op_request_hash op) hash then (Ok a, w) else (Throw key_reused, w)) →
  f a w = (Ok reply, w) →
  (m ≫= f) w = if String.eqb (op_request_hash op) hash then (Ok reply, w) else (Throw key_reused, w).
Proof. intros E Hf. unfold mbind, M_bind. rewrite E. by destruct (String.eqb _ hash). Qed.

(** The two forms of a transaction that begins with the lock and the replay. *)
Lemma answer_lookup roles hash :
  may roles →
  transaction (lockProject projectId actor roles ;; replay projectId (op_kind op) key hash) w =
    if String.eqb (op_request_hash op) hash then (Ok (Some (summary op)), w) else (Throw key_reused, w).
Proof.
  intros Hroles. apply answer_transaction; [apply (rep_quiet Hr)|].
  apply (lock_replay_alone projectAccess w request projectId actor project id key op); by try apply Hr.
Qed.
Lemma answer_write {A} roles hash (f : option OpSummary → M (World K) A) reply :
  may roles → f (Some (summary op)) w = (Ok reply, w) →
  transaction (lockProject projectId actor roles ;; (o ← replay projectId (op_kind op) key hash; f o)) w =
    if String.eqb (op_request_hash op) hash then (Ok reply, w) else (Throw key_reused, w).
Proof.
  intros Hroles Hf. apply answer_transaction; [apply (rep_quiet Hr)|].
  rewrite (lock_replay projectAccess w request projectId actor project id key op); try apply Hr; [|done].
  by rewrite Hf.
Qed.

(** The handlers, each with what it reads of the request before its key. *)
Context (fresh : Fresh) (instanceId : string).
Lemma create_again input :
  op_kind op = InstanceCreate → may [RAdmin; RMaintainer] → io_kube options = true → provisioned →
  instanceInput (hd_body request) = Some input →
  answered_again w op (create_instance options is_uuid bcrypt projectAccess fresh request projectId)
    (create_hash input) (MkAccepted (summary op) (Some true) None).
Proof.
  intros Hk Hm Hkube (k & class & Hprov)%provisioning_Ok Hb. pose proof (rep_id Hr). unfold answered_again, create_instance.
  rewrite (bind_Ok _ _ w tt w) by (apply ids_Ok; by repeat constructor). prelude. rewrite <- Hk.
  apply answer_transaction; [apply (rep_quiet Hr)|].
  by rewrite (lock_replay_with projectAccess w request projectId actor project id key op); try apply Hr.
Qed.
Lemma update_again input tag :
  op_kind op = InstanceUpdate → is_uuid instanceId = true → may [RAdmin; RMaintainer] →
  instanceInput (hd_body request) = Some input → ifMatch 3 request = Ok tag →
  answered_again w op (update_instance options is_uuid projectAccess fresh request projectId instanceId)
    (update_hash instanceId input tag) (MkAccepted (summary op) (Some true) None).
Proof.
  intros Hk Hi Hm Hb Ht. unfold answered_again, update_instance. prelude. rewrite <- Hk.
  by eapply after_answer; [apply answer_lookup|].
Qed.
Lemma rotate_again tag :
  op_kind op = InstanceRotate → is_uuid instanceId = true → may [RAdmin] → io_kube options = true →
  is_Some (io_encryptionKey options) → ifMatch 3 request = Ok tag →
  answered_again w op (rotate_credentials options is_uuid bcrypt projectAccess fresh request projectId instanceId)
    (rotate_hash instanceId tag) (MkAccepted (summary op) (Some true) None).
Proof.
  intros Hk Hi Hm Hkube [k Hek] Ht. unfold answered_again, rotate_credentials. prelude. rewrite <- Hk.
  by eapply after_answer; [apply answer_lookup|].
Qed.
Lemma reclaim_again input tag :
  op_kind op = InstanceReclaim → is_uuid instanceId = true → may [RAdmin] → provisioned →
  instanceInput (hd_body request) = Some input → ifMatch 1 request = Ok tag →
  answered_again w op (reclaim_retained_volume options is_uuid bcrypt projectAccess fresh request projectId instanceId)
    (reclaim_hash instanceId tag input) (MkAccepted (summary op) (Some true) None).
Proof.
  intros Hk Hi Hm (k & class & Hprov)%provisioning_Ok Hb Ht. unfold answered_again, reclaim_retained_volume. prelude.
  rewrite <- Hk. by eapply after_answer; [apply answer_lookup|].
Qed.
Lemma delete_again :
  op_kind op = InstanceDelete → is_uuid instanceId = true → may [RAdmin] →
  answered_again w op (delete_instance is_uuid projectAccess fresh request projectId instanceId)
    (delete_hash instanceId) (MkAccepted (summary op) None None).
Proof.
  intros Hk Hi Hm. unfold answered_again, delete_instance. prelude.
  rewrite <- Hk. by eapply after_answer; [apply answer_write|].
Qed.
Lemma delete_volume_again tag :
  op_kind op = VolumeDelete → is_uuid instanceId = true → may [RAdmin] → io_kube options = true →
  ifMatch 1 request = Ok tag →
  answered_again w op (delete_retained_volume options is_uuid projectAccess fresh request projectId instanceId)
    (volume_hash instanceId tag) (MkAccepted (summary op) None None).
Proof.
  intros Hk Hi Hm Hkube Ht. unfold answered_again, delete_retained_volume. prelude.
  rewrite <- Hk. by eapply after_answer; [apply answer_write|].
Qed.
End answers.

(** ** What an accepted creation writes *)
Section inversions.
Context {K : Type}.
Implicit Types (w : World K).

Lemma transaction_Ok_inv {A} (m : M (World K) A) w a w' :
  w_env w = [] → transaction m w = (Ok a, w') → m w = (Ok a, w').
Proof.
  intros Hq E%committed. by rewrite quiet_yield in E.
Qed.
Lemma insert_binding_Ok id b db u db' :
  insert_binding id b db = (Ok u, db') →
  db_bindings db !! id = None ∧ db' = db <| db_bindings ::= <[id := b]> |>.
Proof.
  unfold insert_binding. case_bool_decide as E; [done|]. destruct (existsb _ _); [done|].
  intros [= _ <-]. by apply eq_None_not_Some in E.
Qed.
Lemma insert_credential_Ok id c db u db' :
  insert_credential id c db = (Ok u, db') → db' = db <| db_credentials ::= <[id := c]> |>.
Proof. unfold insert_credential. case_bool_decide; [done|]. by destruct (existsb _ _); [|intros [= _ <-]]. Qed.
Lemma lockProject_Ok_inv projectId actor roles w p w' :
  lockProject projectId actor roles w = (Ok p, w') →
  w' = w ∧ permitted actor projectId roles (w_db w) = true ∧ db_projects (w_db w) !! projectId = Some p.
Proof.
  unfold lockProject. intros (p' & w1 & [-> ->]%query_Ok_inv & E)%bind_Ok_inv.
  apply bind_Ok_inv in E as (f & w1 & [-> ->]%query_Ok_inv & E).
  apply throw_if_bind in E as [Hp E]. apply lift_inv in E as [E%of_option_Ok ->].
  by apply negb_false_iff in Hp.
Qed.
Lemma replay_Ok_inv projectId kind key hash w o w' :
  replay projectId kind key hash w = (Ok o, w') → w' = w ∧
  match o with
  | Some s => ∃ id op, db_operations (w_db w) !! id = Some op ∧ s = summary op ∧
      op_project_id op = projectId ∧ op_kind op = kind ∧ op_idempotency_key op = key ∧
      op_request_hash op = hash
  | None => True
  end.
Proof.
  unfold replay. intros (f & w1 & [-> ->]%query_Ok_inv & E)%bind_Ok_inv.
  destruct (js_find _ _) as [op|] eqn:Ef; [|by injection E as <- <-].
  apply throw_if_bind in E as [Hh E]. injection E as <- <-. split; [done|].
  apply js_find_Some in Ef as [(id & Hid)%rows_elem Hs]. unfold same_request_key in Hs. boolify.
  exists id, op. by split_and!.
Qed.
Lemma accept_Ok_inv id projectId instanceId kind key hash request secret actor w s w' :
  accept id projectId instanceId kind key hash request secret actor w = (Ok s, w') →
  let op := new_operation (w_now w) id projectId (Some instanceId) kind key hash request secret (at_id actor) in
  s = summary op ∧ db_operations (w_db w) !! id = None ∧
  w' = w <| w_db ::= λ db, db <| db_operations ::= <[id := op]> |> |> ∧
  ∀ j o, db_operations (w_db w) !! j = Some o → same_key op o = false ∧ both_active op o = false.
Proof.
  unfold accept. intros (u & w1 & E1 & E2)%bind_Ok_inv.
  apply execute_res_Ok_inv in E1 as (db' & (Hn & -> & Ho)%insert_operation_Ok & ->).
  apply query_Ok_inv in E2 as [-> ->]. by split_and!.
Qed.
End inversions.

Section creation.
Context {K : Type} `{KubernetesPort K} `{AeadLaws} `{Digests}.
Context (options : InstanceOptions) (is_uuid : string → bool) (bcrypt : string → string).
Context (projectAccess : Request → string → list Role → M (World K) Actor).

(** What a request for an instance has to satisfy in the database [db]. *)
Record creatable (request : Request) (projectId : string) (actor : Actor) (db : DB)
    (input : InstanceInput) (key : string) (project : Project) : Prop := {
  cr_body : instanceInput (hd_body request) = Some input;
  cr_key : idempotencyKey request = Ok key;
  cr_permitted : permitted actor projectId [RAdmin; RMaintainer] db = true;
  cr_project : db_projects db !! projectId = Some project;
  cr_ready : pr_state project = PReady;
  cr_enabled : templateEnabled (template_str (in_template input)) (io_templates options) = Ok true;
  cr_gateway : gateway_refused options input = false }.

(** What is written when it is accepted: the binding with its reservation, the
    pending operation with the sealed credentials, the credential's row and
    the audit event. *)
Definition created_db (fresh : Fresh) (projectId key secret_name : string) (actor : Actor) (now : Z)
    (input : InstanceInput) (desired : CacheObject) (secret : list byte) (db : DB) : DB :=
  let id := fr_instance fresh in
  db <| db_bindings ::= <[id := raise_reservation (resources_of input)
                                  (new_binding now projectId actor input desired)]> |>
     <| db_credentials ::= <[fr_credential fresh := MkCredential id "default" secret_name 1 CPending]> |>
     <| db_operations ::= <[fr_operation fresh :=
          new_operation now (fr_operation fresh) projectId (Some id) InstanceCreate key (create_hash input)
            (empty_request <| rq_desired := Some desired |>) (Some secret) (at_id actor)]> |>
     <| db_audit ::= λ l, l ++ [MkAudit (Some (at_id actor)) (Some projectId) (Some id)
                                  (Some (fr_operation fresh)) "instance.create" []] |>.

Lemma credential_json_printable h u p : printable (credential_json h u p).
Proof.
  apply printable_obj. split; [|by repeat constructor]. apply (bool_decide_unpack _). by vm_compute.
Qed.

Lemma provisioning_Ok_inv (w : World K) r w' :
  provisioning options w = (Ok r, w') → w' = w ∧ io_encryptionKey options = Some r.1 ∧
    io_storageClass options = Some r.2.
Proof.
  unfold provisioning. destruct (io_encryptionKey options), (io_storageClass options); try done.
  intros [_ E]%throw_if_bind. by injection E as <- <-.
Qed.

Lemma create_instance_inv fresh request projectId (w : World K) actor reply w' :
  w_env w = [] → (∀ roles, projectAccess request projectId roles w = (Ok actor, w)) →
  create_instance options is_uuid bcrypt projectAccess fresh request projectId w = (Ok reply, w') →
  (w' = w ∧ acc_replayed reply = Some true ∧ acc_password reply = None) ∨
  ∃ input key project desired secret encryptionKey class,
    creatable request projectId actor (w_db w) input key project ∧
    io_encryptionKey options = Some encryptionKey ∧ io_storageClass options = Some class ∧
    desiredObject input projectId (pr_namespace project) (fr_instance fresh) class
      (fr_operation fresh) (create_hash input) = Ok desired ∧
    secret = seal (fr_nonce fresh) encryptionKey (fr_operation fresh)
      (credentials bcrypt (fr_password fresh) (fr_probe fresh)) ∧
    db_bindings (w_db w) !! fr_instance fresh = None ∧
    db_operations (w_db w) !! fr_operation fresh = None ∧
    w' = w <| w_db := created_db fresh projectId key (ac_credentialsSecretRef (sp_access (co_spec desired)))
      actor (w_now w) input desired secret (w_db w) |> ∧
    within_quota projectId (w_db w') ∧
    acc_replayed reply = Some false ∧
    acc_password reply = (if at_platform_admin actor || oeq (db_members (w_db w) !! (projectId, at_id actor)) (Some RAdmin)
                          then Some (fr_password fresh) else None).
Proof.
  intros Hq Hacc. unfold create_instance. intros E.
  apply bind_Ok_inv in E as (? & w1 & E1 & E). unfold ids in E1. apply throw_if_Ok in E1 as [_ ->].
  apply bind_Ok_inv in E as (a & w1 & E1 & E). rewrite Hacc in E1. injection E1 as <- <-.
  apply bind_Ok_inv in E as (? & w1 & E1 & E). apply throw_if_Ok in E1 as [_ ->].
  apply bind_Ok_inv in E as ([encryptionKey class] & w1 & (-> & Hk & Hc)%provisioning_Ok_inv & E).
  apply bind_Ok_inv in E as (input & w1 & [Hi%of_option_Ok ->]%lift_inv & E).
  apply bind_Ok_inv in E as (key & w1 & [Hkey ->]%lift_inv & E). cbv zeta in E.
  apply transaction_Ok_inv in E; [|done].
  apply bind_Ok_inv in E as (project & w1 & (-> & Hp & Hpr)%lockProject_Ok_inv & E).
  apply bind_Ok_inv in E as (o & w1 & [-> _]%replay_Ok_inv & E).
  destruct o as [o|]; [left; by injection E as <- <-|right].
  apply throw_if_bind in E as [Hg E].
  apply bind_Ok_inv in E as (enabled & w1 & [He ->]%lift_inv & E).
  apply throw_if_bind in E as [Hen E]. apply negb_false_iff in Hen as ->.
  apply throw_if_bind in E as [Hst E]. apply negb_false_iff, bool_decide_eq_true in Hst.
  apply bind_Ok_inv in E as (desired & w1 & [Hd ->]%lift_inv & E).
  apply bind_Ok_inv in E as (u1 & w1 & E1 & E).
  apply execute_res_Ok_inv in E1 as (db1 & [Hb ->]%insert_binding_Ok & ->).
  apply bind_Ok_inv in E as ([] & w1 & E1 & E).
  apply reserve_Ok in E1 as (b & Hb' & Hr & _ & Hw & ->). simpl in Hb'.
  rewrite lookup_insert_eq in Hb'. injection Hb' as <-.
  match type of Hw with within_quota _ ?d => set (db1 := d) in * end.
  assert (db1 = w_db w <| db_bindings ::= <[fr_instance fresh := raise_reservation (resources_of input)
    (new_binding (w_now w) projectId actor input desired)]> |>) as Hdb1.
  { subst db1. erewrite reserved_db_Some; [|apply lookup_insert_eq|exact Hr].
    simpl. by rewrite insert_insert_eq. }
  clearbody db1.
  apply bind_Ok_inv in E as (u2 & w1 & E1 & E).
  apply execute_res_Ok_inv in E1 as (db2 & ->%insert_credential_Ok & ->).
  apply bind_Ok_inv in E as (s & w1 & E1 & E). apply accept_Ok_inv in E1 as (-> & Ho & -> & _).
  apply bind_Ok_inv in E as (u3 & w1 & ->%execute_sql_Ok_inv & E).
  apply bind_Ok_inv in E as (role & w1 & [-> ->]%query_Ok_inv & E). injection E as <- <-.
  exists input, key, project, desired, (seal (fr_nonce fresh) encryptionKey (fr_operation fresh)
    (credentials bcrypt (fr_password fresh) (fr_probe fresh))), encryptionKey, class.
  split_and!; try done; by subst db1.
Qed.
End creation.

(** ** What an accepted update and retry write *)
Section updates.
Context {K : Type} `{KubernetesPort K} `{Aead} `{Digests}.
Context (options : InstanceOptions) (is_uuid : string → bool).
Context (projectAccess : Request → string → list Role → M (World K) Actor).

Definition updated_db (fresh : Fresh) (projectId id key hash expected : string) (actor : Actor) (now : Z)
    (input : InstanceInput) (b : Binding) (desired : CacheObject) (db : DB) : DB :=
  db <| db_bindings ::= <[id := raise_reservation (resources_of input) b]> |>
     <| db_operations ::= <[fr_operation fresh :=
          new_operation now (fr_operation fresh) projectId (Some id) InstanceUpdate key hash
            (empty_request <| rq_desired := Some desired |> <| rq_expectedRevision := Some expected |>)
            None (at_id actor)]> |>
     <| db_audit ::= λ l, l ++ [MkAudit (Some (at_id actor)) (Some projectId) (Some id)
                                  (Some (fr_operation fresh)) "instance.update" []] |>.

Lemma try_read_db {A} (m : M K A) (e : exn) (w : World K) a w' :
  w_env w = [] →
  try_catch (require_kube options ;; kube m) (λ _, throw e) w = (Ok a, w') →
  w_db w' = w_db w ∧ w_now w' = w_now w ∧ w_env w' = [] ∧ answered m a.
Proof.
  intros Hq E. unfold try_catch, mbind, M_bind, require_kube in E.
  destruct (negb (io_kube options)); [done|]. cbn in E. rewrite kube_eq, quiet_yield in E by done.
  unfold on_kube, zoom in E. destruct (m (w_kube w)) as [[x|x] k] eqn:Em; [|done].
  injection E as <- <-. split_and!; try done. by eexists _, _.
Qed.

Lemma binding_Ok_inv projectId id (w : World K) row w' :
  w_env w = [] → binding projectId id w = (Ok row, w') →
  w' = w ∧ binding_of projectId id (w_db w) = Some row.
Proof.
  intros Hq. unfold binding. intros (f & w1 & E1 & E)%bind_Ok_inv.
  rewrite pool_eq, quiet_yield in E1 by done. apply query_Ok_inv in E1 as [-> ->].
  by apply lift_inv in E as [E%of_option_Ok ->].
Qed.

Lemma readOwned_Ok_inv id row (w : World K) c w' :
  w_env w = [] → readOwned options id row w = (Ok (Some c), w') →
  w_db w' = w_db w ∧ w_now w' = w_now w ∧ w_env w' = [] ∧ foreign id row.1 c = false ∧
  answered (getInstance (pr_namespace row.2) (bi_resource_name row.1)) (Some c).
Proof.
  intros Hq. unfold readOwned. destruct row as [b p].
  intros (o & w1 & E1 & E)%bind_Ok_inv. apply try_read_db in E1 as (Hd & Hn & He & Ha); [|done].
  destruct o as [c'|]; [|done]. apply throw_if_bind in E as [Hf E]. injection E as <- <-. done.
Qed.

Lemma update_instance_inv fresh request projectId id (w : World K) actor reply w' :
  w_env w = [] →
  (∀ w roles, projectAccess request projectId roles w = (Ok actor, w)) →
  update_instance options is_uuid projectAccess fresh request projectId id w = (Ok reply, w') →
  (w_db w' = w_db w ∧ ∃ oid op, db_operations (w_db w) !! oid = Some op ∧ op_kind op = InstanceUpdate ∧
     acc_operation reply = summary op) ∨
  ∃ input key expected b p current desired,
    instanceInput (hd_body request) = Some input ∧ idempotencyKey request = Ok key ∧
    ifMatch 3 request = Ok expected ∧
    permitted actor projectId [RAdmin; RMaintainer] (w_db w) = true ∧
    binding_of projectId id (w_db w) = Some (b, p) ∧
    answered (getInstance (pr_namespace p) (bi_resource_name b)) (Some current) ∧
    foreign id b current = false ∧ revision current = expected ∧
    md_deletionTimestamp (co_metadata current) ∈ [None; Some ""%string] ∧
    tr_name (sp_templateRef (co_spec current)) = template_str (in_template input) ∧
    below_number (in_storageGiB input) (js_Number (drop_Gi (st_capacity (sp_storage (co_spec current))))) = false ∧
    desiredObject input projectId (pr_namespace p) id (st_className (sp_storage (co_spec current)))
      (fr_operation fresh) (update_hash id input expected) = Ok desired ∧
    reservable projectId b = true ∧ has_reservation b = true ∧
    w_db w' = updated_db fresh projectId id key (update_hash id input expected) expected actor (w_now w) input b
      (update_object current desired) (w_db w) ∧
    within_quota projectId (w_db w').
Proof.
  intros Hq Hacc. unfold update_instance. intros E.
  apply bind_Ok_inv in E as (? & w1 & E1 & E). unfold ids in E1. apply throw_if_Ok in E1 as [_ ->].
  apply bind_Ok_inv in E as (a & w1 & E1 & E). rewrite Hacc in E1. injection E1 as <- <-.
  apply bind_Ok_inv in E as (input & w1 & [Hi%of_option_Ok ->]%lift_inv & E).
  apply bind_Ok_inv in E as (key & w1 & [Hkey ->]%lift_inv & E).
  apply bind_Ok_inv in E as (expected & w1 & [Htag ->]%lift_inv & E). cbv zeta in E.
  apply bind_Ok_inv in E as (o & w1 & E1 & E). apply transaction_Ok_inv in E1; [|done].
  apply bind_Ok_inv in E1 as (project & w2 & (-> & Hp & _)%lockProject_Ok_inv & E1).
  apply replay_Ok_inv in E1 as [-> Ho]. destruct o as [o|].
  { left. injection E as <- <-. split; [done|].
    destruct Ho as (oid & op & Hop & -> & _ & Hk & _). by exists oid, op. }
  apply throw_if_bind in E as [_ E].
  apply bind_Ok_inv in E as ([b p] & w1 & [-> Hb]%binding_Ok_inv & E); [|done].
  apply bind_Ok_inv in E as (c & w1 & E1 & E). destruct c as [current|]; [|done].
  apply readOwned_Ok_inv in E1 as (Hdb & Hnow & Henv & Hf & Hget); [|done].
  apply throw_if_bind in E as [Hdel E]. apply throw_if_bind in E as [Ht E].
  apply throw_if_bind in E as [Hrev E]. apply throw_if_bind in E as [Hst E].
  apply bind_Ok_inv in E as (desired & w2 & [Hd ->]%lift_inv & E).
  apply bind_Ok_inv in E as (acc & w2 & E1 & E). injection E as <- <-.
  apply transaction_Ok_inv in E1; [|done].
  apply bind_Ok_inv in E1 as (project' & w3 & (-> & Hp' & Hpr)%lockProject_Ok_inv & E1).
  apply bind_Ok_inv in E1 as (o & w3 & [-> Ho']%replay_Ok_inv & E1). destruct o as [o|].
  { left. injection E1 as <- <-. split; [done|].
    destruct Ho' as (oid & op & Hop & -> & _ & Hk & _). rewrite Hdb in Hop. by exists oid, op. }
  right.
  apply bind_Ok_inv in E1 as ([] & w3 & E2 & E1).
  apply reserve_Ok in E2 as (b' & Hb' & Hr & Hc & Hw & ->).
  pose proof Hb as Hbo. unfold binding_of in Hbo. apply bind_Some in Hbo as (b0 & Hb0 & Hbo).
  apply bind_Some in Hbo as (p0 & _ & Hbo). split_if_in Hbo; [|done]. injection Hbo as -> ->.
  rewrite Hdb, Hb0 in Hb'. injection Hb' as <-.
  destruct Hc as [|Hc]; [done|]. pose proof (reserved_db_Some projectId id (resources_of input) (w_db w) b Hb0 Hr) as Er.
  rewrite Hdb in *. rewrite Er in *. clear Er.
  apply bind_Ok_inv in E1 as (s & w3 & E2 & E1). apply accept_Ok_inv in E2 as (-> & Hno & -> & _).
  apply bind_Ok_inv in E1 as (u3 & w3 & ->%execute_sql_Ok_inv & E1). injection E1 as <- <-.
  boolify. exists input, key, expected, b, p, current, desired. split_and!; try done.
  - unfold truthy in *. destruct (md_deletionTimestamp _) as [s|]; [|set_solver].
    boolify. subst. set_solver.
  - unfold updated_db. by rewrite <- Hnow, <- Hdb.
Qed.
End updates.

Section retries.
Context {K : Type} `{KubernetesPort K}.
Context (is_uuid : string → bool).
Context (projectAccess : Request → string → list Role → M (World K) Actor).

(** The lifecycle of the instance after a retry. *)
Definition retried_db (projectId key operationId : string) (actor : Actor) (now : Z) (op : Operation) (db : DB) : DB :=
  let db := db <| db_retries ::= <[(projectId, key) := operationId]> |>
               <| db_operations ::= <[operationId := resume_row now op]> |> in
  let db := if bool_decide (op_kind op ∈ [InstanceCreate; InstanceReclaim])
            then db <| db_bindings ::= update_opt always (λ r, r <| bi_lifecycle := LPending |>) (op_instance_id op) |>
            else db in
  add_audit (MkAudit (Some (at_id actor)) (Some projectId) (op_instance_id op) (Some operationId)
    "operation.retry" [("previousError", json_nullable JStr (op_error_code op))]) db.

Lemma when_true (b : bool) (m : M (World K) ()) (w : World K) u w' :
  b = true → when b m w = (Ok u, w') → m w = (Ok u, w').
Proof. by intros ->. Qed.

Lemma resume_operation_Ok operationId now db op u db' :
  db_operations db !! operationId = Some op →
  resume_operation operationId now db = (Ok u, db') →
  db' = db <| db_operations ::= <[operationId := resume_row now op]> |> ∧
  ∀ id o, db_operations db !! id = Some o → op_id o ≠ operationId → both_active (resume_row now op) o = false.
Proof.
  intros Hop. unfold resume_operation. rewrite Hop. destruct (existsb _ _) eqn:E; [done|].
  intros [= _ <-]. split; [done|]. intros id o Ho Hne. apply not_true_iff_false. intros Ht.
  apply not_true_iff_false in E. apply E, existsb_exists. exists o.
  split; [apply list_elem_of_In, rows_elem; eauto|]. by rewrite (proj2 (String.eqb_neq _ _) Hne), Ht.
Qed.

Lemma retry_transaction_inv actor projectId operationId key (w : World K) reply w' :
  retry_transaction actor projectId operationId key w = (Ok reply, w') →
  ∃ op, db_operations (w_db w) !! operationId = Some op ∧
    op_project_id op = projectId ∧ permitted actor projectId [RAdmin] (w_db w) = true ∧
    (db_retries (w_db w) !! (projectId, key) = Some operationId ∧ w' = w ∧
       acc_operation reply = summary op ∧ acc_replayed reply = Some true ∨
     db_retries (w_db w) !! (projectId, key) = None ∧ resumable op = true ∧
       (∃ b, lookup_opt (db_bindings (w_db w)) (op_instance_id op) = Some b ∧ still_available op b = true) ∧
       (∀ id o, db_operations (w_db w) !! id = Some o → newer op o = false) ∧
       (∀ id o, db_operations (w_db w) !! id = Some o → op_id o ≠ operationId →
          both_active (resume_row (w_now w) op) o = false) ∧
       w' = w <| w_db := retried_db projectId key operationId actor (w_now w) op (w_db w) |> ∧
       acc_operation reply = summary (resume_row (w_now w) op) ∧ acc_replayed reply = Some false).
Proof.
  unfold retry_transaction. intros E.
  apply bind_Ok_inv in E as (project & w1 & (-> & Hp & _)%lockProject_Ok_inv & E).
  apply bind_Ok_inv in E as (replayed & w1 & [-> ->]%query_Ok_inv & E).
  apply throw_if_bind in E as [Hrep E].
  apply bind_Ok_inv in E as (found & w1 & [-> ->]%query_Ok_inv & E).
  apply bind_Ok_inv in E as (op & w1 & [Hop%of_option_Ok ->]%lift_inv & E).
  apply throw_if_bind in E as [Hpr%negb_false_iff%String.eqb_eq E].
  exists op. split_and!; try done.
  destruct (db_retries (w_db w) !! (projectId, key)) as [o|] eqn:Er; [left|right].
  - apply negb_false_iff, String.eqb_eq in Hrep as ->.
    apply bind_Ok_inv in E as (u & w1 & E1 & E). injection E1 as _ <-.
    apply bind_Ok_inv in E as (r & w1 & [-> ->]%query_Ok_inv & E). rewrite Hop in E.
    apply bind_Ok_inv in E as (r & w1 & [[= <-] ->]%lift_inv & E). by injection E as <- <-.
  - apply bind_Ok_inv in E as (u & w1 & E1 & E). apply when_true in E1; [|done].
    apply throw_if_bind in E1 as [Hres%negb_false_iff E1].
    apply bind_Ok_inv in E1 as (bound & w2 & [-> ->]%query_Ok_inv & E1).
    apply throw_if_bind in E1 as [Hb E1].
    apply bind_Ok_inv in E1 as (nw & w2 & [-> ->]%query_Ok_inv & E1).
    apply throw_if_bind in E1 as [Hn E1].
    apply bind_Ok_inv in E1 as (u1 & w2 & E2 & E1). apply execute_res_Ok_inv in E2 as (db1 & E2 & ->).
    unfold insert_retry in E2. rewrite Er, bool_decide_false in E2 by (by intros []). injection E2 as _ <-.
    apply bind_Ok_inv in E1 as (u2 & w2 & E2 & E1).
    apply execute_res_Ok_inv in E2 as (db2 & [-> Hfree]%(resume_operation_Ok _ _ _ op) & ->); [|exact Hop].
    split; [done|]. split; [done|]. split.
    { destruct (lookup_opt _ _) as [b|]; [|done]. exists b. by apply negb_false_iff in Hb. }
    split.
    { intros id o Ho. apply not_true_iff_false. intros Ht. apply not_true_iff_false in Hn.
      apply Hn, existsb_exists. exists o. split; [apply list_elem_of_In, rows_elem; eauto|done]. }
    split; [exact Hfree|].
    apply bind_Ok_inv in E1 as (u3 & w2 & E2 & E1). apply execute_sql_Ok_inv in E1 as ->.
    apply bind_Ok_inv in E as (r & w3 & [-> ->]%query_Ok_inv & E).
    unfold retried_db. unfold when in E2. destruct (bool_decide (op_kind op ∈ _)).
    + apply execute_sql_Ok_inv in E2 as ->. simpl in E. rewrite lookup_insert_eq in E.
      apply bind_Ok_inv in E as (r & w3 & [[= <-] ->]%lift_inv & E). by injection E as <- <-.
    + injection E2 as _ <-. simpl in E. rewrite lookup_insert_eq in E.
      apply bind_Ok_inv in E as (r & w3 & [[= <-] ->]%lift_inv & E). by injection E as <- <-.
Qed.

Lemma retry_operation_inv request projectId operationId (w : World K) actor reply w' :
  w_env w = [] → (∀ roles, projectAccess request projectId roles w = (Ok actor, w)) →
  retry_operation is_uuid projectAccess request projectId operationId w = (Ok reply, w') →
  ∃ key, idempotencyKey request = Ok key ∧ retry_transaction actor projectId operationId key w = (Ok reply, w').
Proof.
  intros Hq Hacc. unfold retry_operation. intros E.
  apply bind_Ok_inv in E as (? & w1 & E1 & E). unfold ids in E1. apply throw_if_Ok in E1 as [_ ->].
  apply bind_Ok_inv in E as (a & w1 & E1 & E). rewrite Hacc in E1. injection E1 as <- <-.
  apply bind_Ok_inv in E as (key & w1 & [Hkey ->]%lift_inv & E).
  apply transaction_Ok_inv in E; [|done]. by exists key.
Qed.
End retries.

(** ** What a digest identifies *)
Section digests.
Context `{Digests}.

Lemma input_json_printable i : valid_input i → printable (input_json i).
Proof.
  intros ((_ & _) & ? & ? & ? & Hc & _). apply printable_obj.
  assert (0 ≤ in_cacheGiB i < 2 ^ 53) as Hb.
  { unfold valid_cache in Hc. destruct (in_template i); lia. }
  destruct (in_readOnly i); simpl; (split; [apply (bool_decide_unpack _); by vm_compute|]);
    repeat constructor; simpl; lia.
Qed.

Lemma input_json_inj i j : input_json i = input_json j → i = j.
Proof.
  assert (∀ a b, exposure_str a = exposure_str b → a = b) as He by (by intros [] []).
  assert (∀ a b, desiredState_str a = desiredState_str b → a = b) as Hd by (by intros [] []).
  assert (∀ a b, deletionPolicy_str a = deletionPolicy_str b → a = b) as Hp by (by intros [] []).
  destruct i as [t n s c m e d p g r], j as [t' n' s' c' m' e' d' p' g' r'].
  unfold input_json. simpl. destruct r as [r|], r' as [r'|]; simpl; intros [=]; try done;
    f_equal; auto using template_str_inj; congruence.
Qed.

(** The documents that are hashed. *)
Inductive json_request : json → Prop :=
| request_create i : valid_input i → json_request (create_doc i)
| request_update id i tag : valid_input i → json_request (update_doc id i tag)
| request_reclaim id tag i : valid_input i → json_request (reclaim_doc id tag i)
| request_rotate id tag : json_request (rotate_doc id tag)
| request_volume id tag : json_request (volume_doc id tag)
| request_delete id : json_request (delete_doc id).

Ltac all_printable :=
  [> apply (bool_decide_unpack _); by vm_compute | reflexivity
   | repeat first [exact I | by apply input_json_printable | apply Forall_nil_2 | apply Forall_cons_2] ].

Lemma request_printable a : json_request a → printable a.
Proof.
  destruct 1 as [i Hi|id i tag Hi|id tag i Hi|id tag|id tag|id].
  - by apply input_json_printable.
  - apply (fields_printable ["instanceId"; "input"; "expected"] [_; _; _]); all_printable.
  - apply (fields_printable ["instanceId"; "volumeUid"; "input"] [_; _; _]); all_printable.
  - apply (fields_printable ["instanceId"; "expected"] [_; _]); all_printable.
  - apply (fields_printable ["instanceId"; "uid"] [_; _]); all_printable.
  - apply (fields_printable ["instanceId"] [_]); all_printable.
Qed.

(** The value of a key. *)
Definition json_get (k : string) (j : json) : option json :=
  match j with JObj fs => field k fs | _ => None end.

(** Equal digests: equal documents, or a collision. *)
Lemma request_digest a b :
  json_request a → json_request b → digest (stringify a) = digest (stringify b) → a = b ∨ collide a b.
Proof. intros Ha Hb. apply document_digest_inj; by apply request_printable. Qed.
End digests.

(** ** Properties *)

(** C10. A request that fails changes nothing.  Whatever the other processes
    do meanwhile (any relation [R] they keep to), when creating, updating,
    rotating, deleting, reclaiming or resuming an instance, or deleting its
    volume, ends in an error, the database has only moved along [R]; with no
    interference it is unchanged. *)
Theorem failed_requests_change_nothing {K} `{KubernetesPort K} `{Aead} `{Digests}
    (options : InstanceOptions) (is_uuid : string → bool) (bcrypt : string → string)
    (projectAccess : Request → string → list Role → M (World K) Actor)
    (R : relation DB) `{!PreOrder R} (fresh : Fresh) (request : Request) (projectId id : string) :
  (∀ request projectId roles, within (world_rel R) (projectAccess request projectId roles)) →
  fails_clean R (create_instance options is_uuid bcrypt projectAccess fresh request projectId) ∧
  fails_clean R (update_instance options is_uuid projectAccess fresh request projectId id) ∧
  fails_clean R (rotate_credentials options is_uuid bcrypt projectAccess fresh request projectId id) ∧
  fails_clean R (delete_instance is_uuid projectAccess fresh request projectId id) ∧
  fails_clean R (reclaim_retained_volume options is_uuid bcrypt projectAccess fresh request projectId id) ∧
  fails_clean R (delete_retained_volume options is_uuid projectAccess fresh request projectId id) ∧
  fails_clean R (retry_operation is_uuid projectAccess request projectId id).
Proof.
  intros Ha. split_and!; [by apply create_clean|by apply update_clean|by apply rotate_clean|by apply delete_clean
    |by apply reclaim_clean|by apply delete_volume_clean|by apply retry_clean].
Qed.

(** C9. A repeated request is answered, not executed again.  When the project
    has already used the idempotency key for this kind of request, each of
    the six handlers answers with the stored operation and changes nothing if
    the request's digest is the stored one, and refuses with 409 (again
    changing nothing) otherwise.  Of the request only that is supposed which
    the handler reads before it looks for the key: a creation and an update
    come from an administrator or a maintainer with a body that is a valid
    input, the other four from an administrator; an update, a rotation and the
    two requests on a retained volume bear the [If-Match] of what they are
    about; a creation has none, a rotation and the deletions have no body. *)
Theorem repeated_requests_are_answered {K} `{KubernetesPort K} `{Aead} `{Digests}
    (options : InstanceOptions) (is_uuid : string → bool) (bcrypt : string → string)
    (projectAccess : Request → string → list Role → M (World K) Actor)
    (w : World K) (request : Request) (projectId instanceId : string) (actor : Actor) (project : Project)
    (id key : string) (op : Operation) (fresh : Fresh) :
  repeated is_uuid w request projectId id key op →
  let may := admitted projectAccess w request projectId actor project in
  let again := MkAccepted (summary op) (Some true) None in
  (∀ input, op_kind op = InstanceCreate → may [RAdmin; RMaintainer] → io_kube options = true → provisioned options →
     instanceInput (hd_body request) = Some input →
     answered_again w op (create_instance options is_uuid bcrypt projectAccess fresh request projectId)
       (create_hash input) again) ∧
  (is_uuid instanceId = true →
   (∀ input tag, op_kind op = InstanceUpdate → may [RAdmin; RMaintainer] →
      instanceInput (hd_body request) = Some input → ifMatch 3 request = Ok tag →
      answered_again w op (update_instance options is_uuid projectAccess fresh request projectId instanceId)
        (update_hash instanceId input tag) again) ∧
   (∀ tag, op_kind op = InstanceRotate → may [RAdmin] → io_kube options = true → is_Some (io_encryptionKey options) →
      ifMatch 3 request = Ok tag →
      answered_again w op (rotate_credentials options is_uuid bcrypt projectAccess fresh request projectId instanceId)
        (rotate_hash instanceId tag) again) ∧
   (∀ input tag, op_kind op = InstanceReclaim → may [RAdmin] → provisioned options →
      instanceInput (hd_body request) = Some input → ifMatch 1 request = Ok tag →
      answered_again w op (reclaim_retained_volume options is_uuid bcrypt projectAccess fresh request projectId instanceId)
        (reclaim_hash instanceId tag input) again) ∧
   (op_kind op = InstanceDelete → may [RAdmin] →
      answered_again w op (delete_instance is_uuid projectAccess fresh request projectId instanceId)
        (delete_hash instanceId) (MkAccepted (summary op) None None)) ∧
   (∀ tag, op_kind op = VolumeDelete → may [RAdmin] → io_kube options = true → ifMatch 1 request = Ok tag →
      answered_again w op (delete_retained_volume options is_uuid projectAccess fresh request projectId instanceId)
        (volume_hash instanceId tag) (MkAccepted (summary op) None None))).
Proof.
  intros Hr may again. split; [intros; by eapply create_again|]. intros Hi. split_and!; intros.
  - by eapply update_again.
  - by eapply rotate_again.
  - by eapply reclaim_again.
  - by eapply delete_again.
  - by eapply delete_volume_again.
Qed.

(** The stored digest identifies the request: two accepted requests of one
    kind with the same digest are the same request - body, instance, entity tag
    and volume - or the two texts that were hashed are a collision of SHA-256;
    an idempotency key therefore only ever replays the request it was used
    for. *)
Theorem digest_identifies_request `{Digests} (i i' : InstanceInput) (id id' tag tag' : string) :
  valid_input i → valid_input i' →
  (create_hash i = create_hash i' → i = i' ∨ collide (create_doc i) (create_doc i')) ∧
  (update_hash id i tag = update_hash id' i' tag' →
     (id = id' ∧ i = i' ∧ tag = tag') ∨ collide (update_doc id i tag) (update_doc id' i' tag')) ∧
  (reclaim_hash id tag i = reclaim_hash id' tag' i' →
     (id = id' ∧ tag = tag' ∧ i = i') ∨ collide (reclaim_doc id tag i) (reclaim_doc id' tag' i')) ∧
  (rotate_hash id tag = rotate_hash id' tag' →
     (id = id' ∧ tag = tag') ∨ collide (rotate_doc id tag) (rotate_doc id' tag')) ∧
  (volume_hash id tag = volume_hash id' tag' →
     (id = id' ∧ tag = tag') ∨ collide (volume_doc id tag) (volume_doc id' tag')) ∧
  (delete_hash id = delete_hash id' → id = id' ∨ collide (delete_doc id) (delete_doc id')).
Proof.
  intros Hi Hi'. split_and!; (intros [E|]%request_digest; [left|by right|by constructor..]).
  - by apply input_json_inj.
  - split_and!; [by injection E| |by injection E].
    apply (f_equal (json_get "input")), (inj Some) in E. by apply input_json_inj.
  - split_and!; [by injection E..|].
    apply (f_equal (json_get "input")), (inj Some) in E. by apply input_json_inj.
  - unfold rotate_doc in E. injection E as E1 E2. auto.
  - unfold volume_doc in E. injection E as E1 E2. auto.
  - unfold delete_doc in E. by injection E.
Qed.

(** C8. What an accepted creation is.  A successful [POST .../instances] is
    either the answer to a repeated request, which changes nothing and shows no
    password, or: the body is a valid input, the caller may write, the project
    is ready, the template and the exposure are enabled; the new state is
    exactly [created_db] (a pending binding that reserves the input, its
    credential, the pending operation, the audit event); the project is within
    its quota; the worker will unseal the very credentials; and the password
    is shown to administrators only. *)
Theorem create_instance_exact {K} `{KubernetesPort K} `{AeadLaws} `{Digests}
    (options : InstanceOptions) (is_uuid : string → bool) (bcrypt : string → string)
    (projectAccess : Request → string → list Role → M (World K) Actor)
    (fresh : Fresh) (request : Request) (projectId : string) (w : World K) (actor : Actor)
    (reply : Accepted) (w' : World K) :
  w_env w = [] → (∀ roles, projectAccess request projectId roles w = (Ok actor, w)) →
  length (fr_nonce fresh) = 12%nat →
  create_instance options is_uuid bcrypt projectAccess fresh request projectId w = (Ok reply, w') →
  (w' = w ∧ acc_replayed reply = Some true ∧ acc_password reply = None) ∨
  ∃ input key project desired secret encryptionKey,
    creatable options request projectId actor (w_db w) input key project ∧ valid_input input ∧
    io_encryptionKey options = Some encryptionKey ∧
    db_bindings (w_db w) !! fr_instance fresh = None ∧ db_operations (w_db w) !! fr_operation fresh = None ∧
    w' = w <| w_db := created_db fresh projectId key ("c-" +:+ fr_instance fresh +:+ "-auth") actor (w_now w)
                        input desired secret (w_db w) |> ∧
    within_quota projectId (w_db w') ∧
    unseal encryptionKey (fr_operation fresh) secret =
      Ok (credentials bcrypt (fr_password fresh) (fr_probe fresh)) ∧
    acc_replayed reply = Some false ∧
    (acc_password reply = Some (fr_password fresh) ↔
     at_platform_admin actor = true ∨ db_members (w_db w) !! (projectId, at_id actor) = Some RAdmin).
Proof.
  intros Hq Hacc Hnonce E.
  destruct (create_instance_inv options is_uuid bcrypt projectAccess fresh request projectId w actor reply w' Hq Hacc E)
    as [?|(input & key & project & desired & secret & ek & class & Hc & Hek & Hcl & Hd & Hs & Hb & Ho & Hw & Hqu & Hr & Hpw)];
    [by left|right].
  exists input, key, project, desired, secret, ek. split_and!; try done.
  - pose proof (cr_body _ _ _ _ _ _ _ _ Hc) as Hb0. by apply instanceInput_Some in Hb0 as [_ ?].
  - rewrite Hw. do 3 f_equal. unfold desiredObject in Hd.
    destruct (templateDefinition_input (in_template input)) as (d & Et & _). rewrite Et in Hd.
    by injection Hd as <-.
  - subst secret. by apply unseal_seal, credential_json_printable.
  - rewrite Hpw. unfold oeq. destruct (at_platform_admin actor); simpl; [by split; [left|]|].
    case_bool_decide as Er; split; intros; try done; [by right|by destruct_or!].
Qed.

(** C11. What an accepted update is.  A successful [PATCH] either answers with
    an operation already stored, changing nothing, or has read the current
    object at exactly the revision the caller expects and recorded one pending
    operation whose object keeps the storage class, the template, the secret
    and any reclaim of the current one and does not ask for less storage than
    it has, with the reservation raised within the quota. *)
Theorem update_instance_exact {K} `{KubernetesPort K} `{Aead} `{Digests}
    (options : InstanceOptions) (is_uuid : string → bool)
    (projectAccess : Request → string → list Role → M (World K) Actor)
    (fresh : Fresh) (request : Request) (projectId id : string) (w : World K) (actor : Actor)
    (reply : Accepted) (w' : World K) :
  w_env w = [] → (∀ w roles, projectAccess request projectId roles w = (Ok actor, w)) →
  update_instance options is_uuid projectAccess fresh request projectId id w = (Ok reply, w') →
  (w_db w' = w_db w ∧ ∃ oid op, db_operations (w_db w) !! oid = Some op ∧ op_kind op = InstanceUpdate ∧
     acc_operation reply = summary op) ∨
  ∃ input key expected b p current desired,
    instanceInput (hd_body request) = Some input ∧ ifMatch 3 request = Ok expected ∧
    permitted actor projectId [RAdmin; RMaintainer] (w_db w) = true ∧
    binding_of projectId id (w_db w) = Some (b, p) ∧
    answered (getInstance (pr_namespace p) (bi_resource_name b)) (Some current) ∧
    foreign id b current = false ∧ revision current = expected ∧
    w_db w' = updated_db fresh projectId id key (update_hash id input expected) expected actor (w_now w)
                input b desired (w_db w) ∧
    within_quota projectId (w_db w') ∧
    (let old := co_spec current in let new := co_spec desired in
     st_className (sp_storage new) = st_className (sp_storage old) ∧
     sp_templateRef new = sp_templateRef old ∧
     ac_credentialsSecretRef (sp_access new) = ac_credentialsSecretRef (sp_access old) ∧
     (∀ r, st_reclaim (sp_storage old) = Some r → st_reclaim (sp_storage new) = Some r) ∧
     st_capacity (sp_storage new) = dec_str (in_storageGiB input) +:+ "Gi" ∧
     below_number (in_storageGiB input) (js_Number (drop_Gi (st_capacity (sp_storage old)))) = false).
Proof.
  intros Hq Hacc E.
  destruct (update_instance_inv options is_uuid projectAccess fresh request projectId id w actor reply w' Hq Hacc E)
    as [?|(input & key & expected & b & p & current & desired & Hi & Hk & Ht & Hp & Hb & Hg & Hf & Hrev & _ & _ &
           Hst & Hd & _ & _ & Hw & Hqu)]; [by left|right].
  exists input, key, expected, b, p, current, (update_object current desired).
  apply desiredObject_fields in Hd as (_&_&_&_&_&_&_&_&_& Ec & Ecl &_).
  split_and!; try done; simpl; first [by destruct (st_reclaim _) | by intros r ->].
Qed.

(** What a retry is.  A successful retry of an operation is either the
    repetition of one recorded under the same key, which changes nothing, or
    the operation had failed, can be resumed, is the newest of its instance
    and its instance is still there; exactly that operation is resumed (under
    a new deadline, unleased) and the retry recorded, so that the same key is
    answered without effect from then on. *)
Theorem retry_operation_exact {K} `{KubernetesPort K} (is_uuid : string → bool)
    (projectAccess : Request → string → list Role → M (World K) Actor)
    (request : Request) (projectId operationId : string) (w : World K) (actor : Actor)
    (reply : Accepted) (w' : World K) :
  w_env w = [] → (∀ w roles, projectAccess request projectId roles w = (Ok actor, w)) →
  retry_operation is_uuid projectAccess request projectId operationId w = (Ok reply, w') →
  ∃ key op, idempotencyKey request = Ok key ∧ db_operations (w_db w) !! operationId = Some op ∧
    op_project_id op = projectId ∧ permitted actor projectId [RAdmin] (w_db w) = true ∧
    (w' = w ∧ db_retries (w_db w) !! (projectId, key) = Some operationId ∨
     op_state op = Failed ∧ resumable op = true ∧
     (∃ b, lookup_opt (db_bindings (w_db w)) (op_instance_id op) = Some b ∧ still_available op b = true) ∧
     (∀ id o, db_operations (w_db w) !! id = Some o → newer op o = false) ∧
     w' = w <| w_db := retried_db projectId key operationId actor (w_now w) op (w_db w) |> ∧
     db_operations (w_db w') !! operationId = Some (resume_row (w_now w) op) ∧
     db_retries (w_db w') !! (projectId, key) = Some operationId).
Proof.
  intros Hq Hacc E.
  destruct (retry_operation_inv is_uuid projectAccess request projectId operationId w actor reply w' Hq (Hacc w) E)
    as (key & Hk & Et).
  destruct (retry_transaction_inv actor projectId operationId key w reply w' Et)
    as (op & Hop & Hpr & Hp & [(Hr & -> & _)|(Hr & Hres & Hb & Hn & _ & -> & _)]);
    exists key, op; split_and!; try done; [by left|right].
  split_and!; try done.
  - unfold resumable in Hres. apply andb_true_iff in Hres as [Hs _]. by apply bool_decide_eq_true in Hs.
  - unfold retried_db. simpl. destruct (bool_decide (op_kind op ∈ _)); simpl; apply lookup_insert_eq.
  - unfold retried_db. simpl. destruct (bool_decide (op_kind op ∈ _)); simpl; apply lookup_insert_eq.
Qed.

(** ** Witnesses *)
Definition sample_options : InstanceOptions :=
  MkInstanceOptions true (Some [x07]) (Some "standard"%string) (MkOptions false false false false false false).
Definition sample_actor : Actor := MkActor "u" "u@example.com" true.
Definition sample_access : Request → string → list Role → M (World memory) Actor := λ _ _ _ w, (Ok sample_actor, w).
Definition sample_fresh : Fresh := MkFresh "n" "o1" "c1" "secret" "probe" (repeat x02 12).
Definition sample_request : Request :=
  MkHttpRequest "POST" "127.0.0.1" None None None (Some "key-0001"%string) (Some "uid-c-i:1"%string) (to_json sample_input) (JObj []).

(** The sample project with an administrator, and with or without its instance. *)
Definition routes_world (bindings : gmap string Binding) (operations : gmap string Operation)
    (cluster : memory) : World memory :=
  MkWorld (sample_db <| db_users := {[ "u" := MkUser "u@example.com" "" true true 0 ]} |>
                     <| db_bindings := bindings |> <| db_operations := operations |>) cluster 7 [] [].
Definition empty_routes_world : World memory := routes_world ∅ ∅ ∅.

Definition bound_binding : Binding := sample_binding <| bi_kubernetes_uid := Some "uid-c-i"%string |>
  <| bi_lifecycle := LActive |>.
Definition running_cluster : memory :=
  match desiredObject sample_input "p" "ns" "i" "sc" "o" "h" with
  | Ok c => {[ "c-i"%string := reconciled "uid-c-i" 1
                 (c <| co_metadata ::= λ m, m <| md_name := "c-i"%string |> |>) ]}
  | Throw _ => ∅
  end.
Definition running_world : World memory := routes_world {[ "i"%string := bound_binding ]} ∅ running_cluster.

(** The creation the project has recorded, and its failed form. *)
Definition recorded_operation : Operation :=
  new_operation 0 "op" "p" (Some "i"%string) InstanceCreate "key-0001"
    (@create_hash plain_digests sample_input) empty_request None "u".
Definition recorded_world (op : Operation) : World memory :=
  routes_world {[ "i"%string := bound_binding ]} {[ "op"%string := op ]} ∅.

Lemma failed_requests_change_nothing_witness : ∃ e w',
  @delete_instance memory plain_digests (λ _, true) sample_access sample_fresh sample_request "p" "absent"
    running_world = (Throw e, w') ∧ w_db w' = w_db running_world.
Proof.
  destruct (@failed_requests_change_nothing memory memory_port plain_aead plain_digests sample_options
    (λ _, true) id sample_access eq _ sample_fresh sample_request "p" "absent") as (_ & _ & _ & Hd & _).
  - intros request projectId roles w Hw. split; [reflexivity|exact Hw].
  - destruct (@delete_instance memory plain_digests (λ _, true) sample_access sample_fresh sample_request
      "p" "absent" running_world) as [[a|e] w'] eqn:E; [by vm_compute in E|].
    exists e, w'. split; [reflexivity|]. symmetry. apply (Hd running_world e w'); [constructor|exact E].
Defined.

(** As a client sends them: a creation has no [If-Match], a deletion neither
    that nor a body. *)
Definition creation : Request :=
  MkHttpRequest "POST" "127.0.0.1" None None None (Some "key-0001"%string) None (to_json sample_input) (JObj []).
Definition deletion : Request :=
  MkHttpRequest "DELETE" "127.0.0.1" None None None (Some "key-0001"%string) None JNull (JObj []).
Definition recorded_deletion : Operation :=
  new_operation 0 "op" "p" (Some "i"%string) InstanceDelete "key-0001"
    (@delete_hash plain_digests "i") empty_request None "u".
Lemma recorded_unique op : unique_keys (w_db (recorded_world op)).
Proof.
  intros id1 op1 id2 op2.
  change (({[ "op"%string := op ]} : gmap string Operation) !! id1 = Some op1 →
          ({[ "op"%string := op ]} : gmap string Operation) !! id2 = Some op2 → same_key op1 op2 = true → op1 = op2).
  intros [<- <-]%lookup_singleton_Some [<- <-]%lookup_singleton_Some. reflexivity.
Qed.

Lemma repeated_requests_are_answered_witness :
  answered_again (recorded_world recorded_operation) recorded_operation
    (@create_instance memory plain_aead plain_digests sample_options (λ _, true) id sample_access
       sample_fresh creation "p")
    (@create_hash plain_digests sample_input) (MkAccepted (summary recorded_operation) (Some true) None) ∧
  answered_again (recorded_world recorded_deletion) recorded_deletion
    (@delete_instance memory plain_digests (λ _, true) sample_access sample_fresh deletion "p" "i")
    (@delete_hash plain_digests "i") (MkAccepted (summary recorded_deletion) None None).
Proof.
  split.
  - destruct (@repeated_requests_are_answered memory memory_port plain_aead plain_digests sample_options
      (λ _, true) id sample_access (recorded_world recorded_operation) creation "p" "i" sample_actor
      sample_project "op" "key-0001" recorded_operation sample_fresh) as [Hc _].
    + split; try reflexivity. apply recorded_unique.
    + apply Hc; try reflexivity.
      * split_and!; vm_compute; reflexivity.
      * split; [by eexists|]. exists "standard"%string. split; [reflexivity|discriminate].
  - destruct (@repeated_requests_are_answered memory memory_port plain_aead plain_digests sample_options
      (λ _, true) id sample_access (recorded_world recorded_deletion) deletion "p" "i" sample_actor
      sample_project "op" "key-0001" recorded_deletion sample_fresh) as (_ & Ho).
    + split; try reflexivity. apply recorded_unique.
    + destruct (Ho eq_refl) as (_ & _ & _ & Hd & _). apply Hd; [reflexivity|]. split_and!; vm_compute; reflexivity.
Defined.

(** The same request for more storage. *)
Definition larger_input : InstanceInput :=
  {| in_template := BazelRemote; in_name := "cache"; in_storageGiB := 30; in_cpuMillis := 250;
     in_memoryMiB := 512; in_exposure := ClusterInternal; in_desiredState := Running;
     in_deletionPolicy := Retain; in_cacheGiB := 10; in_readOnly := None |}.

Lemma digest_identifies_request_witness :
  @create_hash plain_digests sample_input ≠ @create_hash plain_digests larger_input.
Proof.
  intros E.
  assert (valid_input sample_input ∧ valid_input larger_input) as [Hi Hl].
  { split; [apply (instanceInput_Some (to_json sample_input))|apply (instanceInput_Some (to_json larger_input))];
      vm_compute; reflexivity. }
  destruct (@digest_identifies_request plain_digests sample_input larger_input "" "" "" "" Hi Hl) as [Hd _].
  destruct (Hd E) as [[=]|[Hne Hc]]. apply Hne, utf8_inj. exact Hc.
Defined.

Lemma create_instance_exact_witness : ∃ reply w',
  @create_instance memory plain_aead plain_digests sample_options (λ _, true) id sample_access sample_fresh
    sample_request "p" empty_routes_world = (Ok reply, w') ∧
  acc_password reply = Some "secret"%string ∧ within_quota "p" (w_db w').
Proof.
  destruct (@create_instance memory plain_aead plain_digests sample_options (λ _, true) id sample_access
    sample_fresh sample_request "p" empty_routes_world) as [[reply|e] w'] eqn:E; [|by vm_compute in E].
  exists reply, w'. split; [reflexivity|].
  destruct (@create_instance_exact memory memory_port plain_aead plain_laws plain_digests sample_options
    (λ _, true) id sample_access sample_fresh sample_request "p" empty_routes_world sample_actor reply w'
    eq_refl (λ _, eq_refl) eq_refl E) as [(_ & Hr & _)|(? & ? & ? & ? & ? & ? & _ & _ & _ & _ & _ & _ & Hq & _ & _ & Hp)].
  - vm_compute in E. injection E as <- _. discriminate Hr.
  - split; [|exact Hq]. apply Hp. by left.
Defined.

Lemma update_instance_exact_witness : ∃ reply w',
  @update_instance memory memory_port plain_digests sample_options (λ _, true) sample_access sample_fresh
    sample_request "p" "i" running_world = (Ok reply, w') ∧ within_quota "p" (w_db w').
Proof.
  destruct (@update_instance memory memory_port plain_digests sample_options (λ _, true) sample_access
    sample_fresh sample_request "p" "i" running_world) as [[reply|e] w'] eqn:E; [|by vm_compute in E].
  exists reply, w'. split; [reflexivity|].
  destruct (@update_instance_exact memory memory_port plain_aead plain_digests sample_options
    (λ _, true) sample_access sample_fresh sample_request "p" "i" running_world sample_actor reply w'
    eq_refl (λ _ _, eq_refl) E) as [(_ & oid & op & Hop & _)|(? & ? & ? & ? & ? & ? & ? & _ & _ & _ & _ & _ & _ & _ & _ & Hq & _)].
  - vm_compute in Hop. discriminate Hop.
  - exact Hq.
Defined.

Definition failed_operation : Operation := close_row Failed (Some "deadline_exceeded"%string) 5 recorded_operation.

Lemma retry_operation_exact_witness : ∃ reply w',
  @retry_operation memory (λ _, true) sample_access sample_request "p" "op" (recorded_world failed_operation) =
    (Ok reply, w') ∧
  db_operations (w_db w') !! "op"%string = Some (resume_row 7 failed_operation).
Proof.
  destruct (@retry_operation memory (λ _, true) sample_access sample_request "p" "op"
    (recorded_world failed_operation)) as [[reply|e] w'] eqn:E; [|by vm_compute in E].
  exists reply, w'. split; [reflexivity|].
  destruct (@retry_operation_exact memory memory_port (λ _, true) sample_access sample_request "p" "op"
    (recorded_world failed_operation) sample_actor reply w' eq_refl (λ _ _, eq_refl) E)
    as (key & op & Hkey & Hop & _ & _ & [[_ Hr]|(_ & _ & _ & _ & _ & Hw & _)]).
  - vm_compute in Hr. discriminate Hr.
  - rewrite Hw. vm_compute in Hop. injection Hop as <-. reflexivity.
Defined.
