(* ===== verification/Observability.v ===== *)
(** * The observability routes and the history of alerts

    [apps/admin-api/src/observability.ts], the tokens of [telemetry.ts] and
    [alert-reconciliation.ts]: what an account may read about an instance, the
    silences it may ask for, the webhook that stores the alerts of the
    monitoring stack, and the cycle that compares them with the active ones.

    The state beside the database is the tables of the observations, the active
    requests of the client and the service.  PostgreSQL's reading of a time is
    a parameter. *)
From Stdlib Require Import ZArith Lia Ascii Init.Byte.
From stdpp Require Import base tactics list option strings gmap sorting relations.
From S2P Require Import Prelude Regex Numbers Effects Catalog Json JsNumber Contract Database Secrets Security Http.
From S2P Require Import Statistics Series History Backends Logs Alerts Observations Accounts Inventory Routes.

(** ** Tokens *)
Definition validToken (token : string) : bool :=
  (32 <=? js_length token) && (js_length token <=? 8192) && test token_pattern token.
(** [authorizedToken]: the comparison takes the same time for every token. *)
Definition authorizedToken (actual expected : option string) : bool :=
  match actual, expected with
  | Some a, Some e => truthy actual && truthy expected &&
      bool_decide (utf8 (chars a) = utf8 (chars ("Bearer " +:+ e)))
  | _, _ => false
  end.

(** ** The table *)
Definition history_state_str (s : HistoryState) : string := match s with Firing => "firing" | Resolved => "resolved" end.
(** [INSERT ... ON CONFLICT ... DO UPDATE] *)
Definition upsert_alert (now : Z) (key : AlertKey) (state : HistoryState) (ends_at : option Z) (payload : json)
    (t : AlertTable) : AlertTable :=
  <[key := match t !! key with
           | None => MkAlertRow state ends_at now payload None None
           | Some row => MkAlertRow
               (if bool_decide (ar_state row = Resolved) then Resolved else state)
               (if bool_decide (state = Resolved) then ends_at else ar_ends_at row)
               now payload (ar_active_confirmed row) (ar_checked_at row)
           end]> t.
(** [UPDATE ... SET active_confirmed=...,checked_at=now() WHERE project_id=$1 AND state='firing'] *)
Definition confirm_alerts (now : Z) (project : string) (keys : list string) (key_text : AlertKey → string)
    (t : AlertTable) : AlertTable :=
  map_imap (λ key row,
    Some (if String.eqb key.1.1.1 project && bool_decide (ar_state row = Firing)
          then MkAlertRow (ar_state row) (ar_ends_at row) (ar_received_at row) (ar_payload row)
                 (Some (includes keys (key_text key))) (Some now)
          else row)) t.

Inductive Reply (A : Type) := NotConfigured | Failure | Answer (a : A).
Arguments NotConfigured {A}.
Arguments Failure {A}.
Arguments Answer {A} _.

(** The tables, the active requests of the client, and the service. *)
#[warnings="-notation-for-abbreviation"]
Notation Rest S := (Observations * (Z * S))%type.

Section observability.
Context {S : Type} `{Fetcher S} (clock : M S Z) `{Digests}.
Context (is_uuid : string → bool) (iso_datetime : string → option (option Z)) (timestamptz : string → option Z).
Context (cluster : string).

Definition on_client {A} (m : M (Z * S) A) : M (World (Rest S)) A := yield ;; on_rest m.
Definition on_alerts (f : Z → AlertTable → AlertTable) : M (World (Rest S)) () :=
  on_tables (λ now t, t <| ob_alerts ::= f now |>).
Definition read_alerts {A} (f : AlertTable → A) : M (World (Rest S)) A := read_tables (λ t, f (ob_alerts t)).

(** [target(projectId, instanceId)] *)
Definition observed_target (projectId instanceId : string) : M (World (Rest S)) Target :=
  found ← pool (query (λ _, binding_of projectId instanceId));
  '(b, p) ← lift (of_option (HttpError 404 "Instance not found") found);
  match bi_kubernetes_uid b with
  | Some uid =>
      throw_if (String.eqb uid "") (HttpError 409 "Instance identity has not been established") ;;
      mret (MkTarget projectId uid (pr_namespace p) (bi_template_name b) (default "" (bi_template_version b)))
  | None => throw (HttpError 409 "Instance identity has not been established")
  end.

(** [try { return await m } catch { return {state: "error"} }] *)
Definition guarded {A} (client : option (M (Z * S) A)) : M (World (Rest S)) (Reply A) :=
  match client with
  | None => mret NotConfigured
  | Some m => try_catch (a ← on_client m; mret (Answer a)) (λ _, mret Failure)
  end.
Definition parse_params (ids : list string) : M (World (Rest S)) () := throw_if (negb (forallb is_uuid ids)) ZodError.

(** *** [GET .../observability/metrics] *)
Definition z_group : json → option Group := z_enum [GCapacity; GLookups; GResources; GPerformance] group_str.
Definition metrics_query_schema : json → option (Window * Group) :=
  strict ["window"; "group"] (λ fs,
    window ← defaulted W1h z_window (field "window" fs);
    group ← defaulted GCapacity z_group (field "group" fs);
    Some (window, group)).
Definition get_metrics (metrics : option Backend) (request : Request) (projectId instanceId : string) :
    M (World (Rest S)) (Reply Metrics) :=
  parse_params [projectId; instanceId] ;;
  projectAccess request projectId [RAdmin; RMaintainer; RViewer] ;;
  '(window, group) ← lift (of_option ZodError (metrics_query_schema (hd_query request)));
  owned ← observed_target projectId instanceId;
  guarded ((λ this, metrics_read clock this cluster owned group window) <$> metrics).

(** *** [GET .../observability/logs] *)

(** [z.coerce.number().int().min(1).max(60)]: a parameter is a text. *)
Definition z_minutes (j : json) : option Z :=
  match j with
  | JStr s => match js_Number s with
              | Finite n d => if (n mod d =? 0) && (1 <=? n / d) && (n / d <=? 60) then Some (n / d) else None
              | _ => None
              end
  | _ => None
  end.
Definition z_level (j : json) : option string := z_enum ["info"; "warn"; "error"]%string id j.
Definition logs_query_schema : json → option (Z * option string) :=
  strict ["minutes"; "level"] (λ fs,
    minutes ← defaulted 15 z_minutes (field "minutes" fs);
    level ← optional z_level (field "level" fs);
    Some (minutes, level)).
Definition get_logs (logs : option Backend) (request : Request) (projectId instanceId : string) :
    M (World (Rest S)) (Reply Logs) :=
  parse_params [projectId; instanceId] ;;
  projectAccess request projectId [RAdmin; RMaintainer] ;;
  '(minutes, level) ← lift (of_option ZodError (logs_query_schema (hd_query request)));
  owned ← observed_target projectId instanceId;
  guarded ((λ this, logs_read clock this cluster owned minutes level) <$> logs).

(** *** [GET .../observability/alerts] *)

(** The instance of an alert: the last of the bindings with its identity. *)
Definition alert_instance (bindings : list (string * Binding)) (a : ObservedAlert) : option (string * Binding) :=
  if truthy (oa_instanceUID a) then js_find (λ r, oeq (bi_kubernetes_uid r.2) (oa_instanceUID a)) (reverse bindings)
  else None.
Definition get_alerts (alerts : option Backend) (request : Request) (projectId : string) :
    M (World (Rest S)) (Reply (Z * list (ObservedAlert * string * string))) :=
  parse_params [projectId] ;;
  projectAccess request projectId [RAdmin; RMaintainer; RViewer] ;;
  lift (of_option ZodError (strict [] (λ _, Some tt) (hd_query request))) ;;
  match alerts with
  | None => mret NotConfigured
  | Some this => try_catch
      (active ← on_client (alerts_read iso_datetime this cluster projectId None);
       bindings ← pool (query (λ _ db, filter (λ r, bi_project_id r.2 = projectId ∧
                          includes (omap oa_instanceUID active) (default "" (bi_kubernetes_uid r.2)) = true)
                          (map_to_list (db_bindings db))));
       now ← date_now;
       mret (Answer (now, omap (λ a, r ← alert_instance bindings a; Some (a, r.1, bi_display_name r.2)) active)))
      (λ _, mret Failure)
  end.

(** *** [POST .../observability/silences] *)
Definition silence_schema : json → option (string * Z) :=
  strict ["fingerprint"; "minutes"] (λ fs,
    fingerprint ← required z_fingerprint (field "fingerprint" fs);
    minutes ← required (z_int 5 1440) (field "minutes" fs);
    Some (fingerprint, minutes)).
Definition audit_silence (actor projectId instanceId action : string) (details : list (string * json)) :
    M (World (Rest S)) () :=
  pool (execute_sql (λ _, add_audit (MkAudit (Some actor) (Some projectId) (Some instanceId) None action details))).
Definition post_silence (alerts : option Backend) (id : string) (request : Request) (projectId instanceId : string) :
    M (World (Rest S)) string :=
  parse_params [projectId; instanceId] ;;
  actor ← projectAccess request projectId [RAdmin; RMaintainer];
  '(fingerprint, minutes) ← lift (of_option ZodError (silence_schema (hd_body request)));
  owned ← observed_target projectId instanceId;
  this ← lift (of_option (HttpError 503 "Alerting is not configured") alerts);
  audit_silence (at_id actor) projectId instanceId "alert.silence.requested"
    [("fingerprint", JStr fingerprint); ("minutes", JInt minutes)] ;;
  result ← try_catch
    (on_client (silence clock iso_datetime is_uuid this cluster projectId (tg_instanceUID owned) fingerprint minutes))
    (λ _, throw (HttpError 503 "Silence outcome unavailable; check active alerts before retrying"));
  audit_silence (at_id actor) projectId instanceId "alert.silence.created"
    [("silenceID", JStr result); ("requestId", JStr id)] ;;
  mret result.

(** ** The webhook *)
Record WebhookAlert := MkWebhookAlert {
  wa_status : HistoryState; wa_fingerprint : string; wa_startsAt : IsoTime; wa_endsAt : IsoTime;
  wa_labels : list (string * string); wa_annotations : option (list (string * string)) }.
Definition short_keys {A} (r : list (string * A)) : option (list (string * A)) :=
  if forallb (λ e : string * A, js_length e.1 <=? 128) r then Some r else None.
Definition webhook_schema : json → option (list WebhookAlert) := z_object (λ fs,
  required (z_array (z_object (λ a,
    status ← required (z_enum [Firing; Resolved] history_state_str) (field "status" a);
    fingerprint ← required z_fingerprint (field "fingerprint" a);
    startsAt ← required (z_iso iso_datetime) (field "startsAt" a);
    endsAt ← required (z_iso iso_datetime) (field "endsAt" a);
    labels ← required (λ j, z_record (z_max 512) j ≫= short_keys) (field "labels" a);
    annotations ← optional (λ j, z_record (z_max 4096) j ≫= short_keys) (field "annotations" a);
    Some (MkWebhookAlert status fingerprint startsAt endsAt labels annotations))) 50) (field "alerts" fs)).

(** The project and the instance an alert of this cluster is labelled with. *)
Definition webhook_identity (a : WebhookAlert) : option (string * string) :=
  if bool_decide (entry "expbuild_cluster_id" (wa_labels a) = Some cluster) then
    project ← entry "expbuild_project_id" (wa_labels a);
    uid ← entry "expbuild_instance_uid" (wa_labels a);
    if is_uuid project && test identity uid then Some (project, uid) else None
  else None.
Definition webhook_summary (a : WebhookAlert) : json :=
  JObj [("name", JStr (sanitizeLog (default "Unknown" (entry "alertname" (wa_labels a)))));
        ("severity", JStr (severity (wa_labels a)));
        ("summary", JStr (sanitizeLog (default "" (wa_annotations a ≫= entry "summary"))))].
Definition known_instance (project uid : string) (db : DB) : bool :=
  existsb (λ b, String.eqb (bi_project_id b) project && oeq (bi_kubernetes_uid b) (Some uid)) (rows (db_bindings db)).

Definition store_alert (a : WebhookAlert) : M (World (Rest S)) () :=
  match webhook_identity a with
  | None => mret tt
  | Some (project, uid) =>
      known ← pool (query (λ _, known_instance project uid));
      when known (
        let invalid := JsError "invalid input syntax for type timestamp with time zone" in
        startsAt ← lift (of_option invalid (timestamptz (wa_startsAt a).1));
        endsAt ← lift (match wa_status a with
                       | Resolved => t ← of_option invalid (timestamptz (wa_endsAt a).1); mret (Some t)
                       | Firing => mret None
                       end);
        pool (on_alerts (λ now, upsert_alert now (project, uid, wa_fingerprint a, startsAt) (wa_status a) endsAt
                                  (webhook_summary a))))
  end.
(** [POST /internal/alerts] *)
Definition post_alerts (webhookToken authorization : option string) (body : json) : M (World (Rest S)) () :=
  throw_if (negb (authorizedToken authorization webhookToken)) (HttpError 401 "Alert authentication required") ;;
  payload ← lift (of_option ZodError (webhook_schema body));
  for_each payload store_alert.

(** ** [AlertReconciliation] *)
Definition first_project : string := "00000000-0000-0000-0000-000000000000".
Definition firing_projects (cursor : string) (t : AlertTable) : list string :=
  take 10 (merge_sort string_le (remove_dups (omap (λ e : AlertKey * AlertRow,
    if bool_decide (ar_state e.2 = Firing) && bool_decide (string_le cursor e.1.1.1.1) &&
       negb (String.eqb cursor e.1.1.1.1) then Some e.1.1.1.1 else None) (map_to_list t)))).

(** The text of a key, as the code and as the statement build it. *)
Definition active_key (a : ObservedAlert) : res string :=
  startsAt ← of_option (JsError "Invalid time value") (oa_startsAt a).2;
  text ← iso_string startsAt;
  mret (default "null" (oa_instanceUID a) +:+ "/" +:+ oa_fingerprint a +:+ "/" +:+ text).
Definition stored_key (key : AlertKey) : string :=
  key.1.1.2 +:+ "/" +:+ key.1.2 +:+ "/" +:+ match iso_string (key.2 / 1000) with Ok t => t | Throw _ => "" end.

Definition confirm_project (this : Backend) (project : string) : M (World (Rest S)) () :=
  try_catch
    (active ← on_client (alerts_read iso_datetime this cluster project None);
     keys ← lift (mapM active_key active);
     pool (on_alerts (λ now, confirm_alerts now project keys stored_key)))
    (λ _, mret tt).
(** [tick()]: [acquired] is the answer of the session lock; the cursor of the
    next cycle is returned. *)
Definition alerts_tick (this : Backend) (acquired : bool) (cursor : string) : M (World (Rest S)) string :=
  if acquired then
    projects ← pool (read_alerts (firing_projects cursor));
    for_each projects (confirm_project this) ;;
    mret (if (length projects =? 10)%nat then default first_project (last projects) else first_project)
  else yield ;; mret cursor.
End observability.

(** ** The history is kept *)

(** A row is never lost, one that is resolved stays resolved, and exactly the
    resolved ones have an end. *)
Definition consistent (t : AlertTable) : Prop := ∀ key row, t !! key = Some row →
  (ar_state row = Resolved ↔ is_Some (ar_ends_at row)).
Record history_kept (t t' : AlertTable) : Prop := {
  hk_rows key row : t !! key = Some row →
    ∃ row', t' !! key = Some row' ∧ (ar_state row = Resolved → ar_state row' = Resolved);
  hk_consistent : consistent t → consistent t' }.
#[export] Instance history_kept_preorder : PreOrder history_kept.
Proof.
  split; [by split; eauto|]. intros t1 t2 t3 [H12 C12] [H23 C23]. split; [|by auto].
  intros key row Hrow. destruct (H12 _ _ Hrow) as (r2 & Hr2 & E2). destruct (H23 _ _ Hr2) as (r3 & Hr3 & E3).
  exists r3. auto.
Qed.

Lemma upsert_kept now key state ends_at payload t :
  (state = Resolved ↔ is_Some ends_at) → history_kept t (upsert_alert now key state ends_at payload t).
Proof.
  intros Hs. unfold upsert_alert. split.
  - intros key' row Hrow. destruct (decide (key = key')) as [<-|]; [|exists row; by rewrite lookup_insert_ne].
    rewrite lookup_insert_eq, Hrow. eexists. split; [done|]. simpl. intros ->. by rewrite bool_decide_true.
  - intros Hc key' row'. destruct (decide (key = key')) as [<-|]; [|rewrite lookup_insert_ne by done; by apply Hc].
    rewrite lookup_insert_eq. destruct (t !! key) as [row|] eqn:E; intros [= <-]; simpl; [|done].
    specialize (Hc _ _ E). destruct (ar_state row), state; simpl in *; try done; by rewrite Hc, Hs || idtac.
Qed.
Lemma confirm_kept now project keys key_text t : history_kept t (confirm_alerts now project keys key_text t).
Proof.
  unfold confirm_alerts. split.
  - intros key row Hrow. rewrite map_lookup_imap, Hrow. simpl. eexists. split; [done|]. by destruct (_ && _).
  - intros Hc key row'. rewrite map_lookup_imap. destruct (t !! key) as [row|] eqn:E; [|done].
    specialize (Hc _ _ E). simpl. intros [= <-]. by destruct (_ && _).
Qed.

Section kept.
Context {S : Type} `{Fetcher S} (clock : M S Z).
Context (is_uuid : string → bool) (iso_datetime : string → option (option Z)) (timestamptz : string → option Z).
Context (cluster : string).

Definition table_kept (r r' : Rest S) : Prop := history_kept (ob_alerts r.1) (ob_alerts r'.1).
#[export] Instance table_kept_preorder : PreOrder table_kept.
Proof. split; [intros r; unfold table_kept; reflexivity|]. intros r1 r2 r3 H1 H2. unfold table_kept in *. by transitivity (ob_alerts r2.1). Qed.
#[warnings="-notation-for-abbreviation"]
Notation moved := (kube_rel table_kept).

Lemma moved_client {A} (m : M (Z * S) A) : within moved (on_client m).
Proof.
  apply kube_rel_kube; [typeclasses eauto|]. intros r. unfold zoom, table_kept. destruct (m r.2). simpl. reflexivity.
Qed.
Lemma moved_alerts f : (∀ now t, history_kept t (f now t)) → within moved (on_alerts (S:=S) f).
Proof. intros Hf w Hw. split; [unfold table_kept; simpl; apply Hf|done]. Qed.
Lemma moved_read {A} (f : AlertTable → A) : within moved (read_alerts (S:=S) f).
Proof. intros w Hw. split; [reflexivity|done]. Qed.
Hint Resolve moved_client moved_read kube_rel_pool : within.

Lemma moved_store a : within moved (store_alert is_uuid timestamptz cluster a).
Proof.
  unfold store_alert. destruct (webhook_identity _ _ _) as [[project uid]|]; [|apply within_ret; typeclasses eauto].
  apply within_bind; [typeclasses eauto|by auto with within typeclass_instances|]. intros known.
  apply within_when; [typeclasses eauto|]. cbv zeta.
  apply within_bind; [typeclasses eauto|apply within_lift; typeclasses eauto|]. intros startsAt.
  intros w Hw. unfold mbind, M_bind, lift.
  destruct (match wa_status a with Firing => _ | Resolved => _ end) as [endsAt|e] eqn:Ee; [|by split].
  refine (kube_rel_pool _ _ (moved_alerts _ _) w Hw). intros now t. apply upsert_kept.
  destruct (wa_status a); [by injection Ee as <-; split; [|intros []]|].
  apply res_bind_Ok in Ee as (t' & _ & [= <-]). by split.
Qed.

(** C23. The history of alerts is kept.  Whatever the webhook is sent and
    whatever Alertmanager answers to the reconciliation, with other replicas
    doing the same meanwhile, no stored alert is lost or moved to another
    instance, one that was resolved never fires again, and exactly the resolved
    ones have an end. *)
Theorem alert_history_is_kept (w : World (Rest S)) :
  let alerts (w : World (Rest S)) := ob_alerts (w_kube w).1 in
  kube_moves table_kept w →
  (∀ webhookToken authorization body, history_kept (alerts w)
     (alerts (post_alerts is_uuid iso_datetime timestamptz cluster webhookToken authorization body w).2)) ∧
  (∀ this acquired cursor, history_kept (alerts w)
     (alerts (alerts_tick iso_datetime cluster this acquired cursor w).2)).
Proof.
  intros alerts Hw. split.
  - intros webhookToken authorization body.
    assert (within moved (post_alerts is_uuid iso_datetime timestamptz cluster webhookToken authorization body)) as Hm.
    { unfold post_alerts. within_solve. apply moved_store. }
    by destruct (Hm w Hw).
  - intros this acquired cursor.
    assert (within moved (alerts_tick iso_datetime cluster this acquired cursor)) as Hm.
    { unfold alerts_tick. destruct acquired; [|within_solve]. unfold confirm_project. within_solve.
      apply kube_rel_pool; [typeclasses eauto|]. apply moved_alerts. intros now t. apply confirm_kept. }
    by destruct (Hm w Hw).
Qed.
End kept.

Definition webhook_token : string := "0123456789abcdef0123456789abcdef".
Definition webhook_body : json := JObj [("alerts", JArr [JObj
  [("status", JStr "firing"); ("fingerprint", JStr "ab12"); ("startsAt", JStr "t"); ("endsAt", JStr "t");
   ("labels", JObj [("expbuild_cluster_id", JStr "primary"); ("expbuild_project_id", JStr "p");
                    ("expbuild_instance_uid", JStr "u"); ("alertname", JStr "CacheDown")])]])].
Definition observed_binding : Binding :=
  MkBinding "p" "c-i" (Some "u"%string) LActive "admin" 0 "cache" "bazel-remote" (Some "0.1.0"%string) None None None.
Definition resolved_row : AlertRow := MkAlertRow Resolved (Some 7) 3 JNull None None.
Definition webhook_world : World (Rest ()) :=
  MkWorld (empty_db <| db_bindings := {[ "i"%string := observed_binding ]} |>)
    (no_observations <| ob_alerts := {[ ("p", "u", "ab12", 5)%string := resolved_row ]} |>, (0, tt)) 9 [] [].

(** A late notice of an alert that has been resolved is recorded, but it does
    not fire again. *)
Lemma alert_history_is_kept_witness :
  let w' := (@post_alerts () (λ _, true) (λ _, Some (Some 0)) (λ _, Some 5) "primary" (Some webhook_token)
    (Some ("Bearer " +:+ webhook_token)) webhook_body webhook_world).2 in
  ar_received_at <$> (ob_alerts (w_kube w').1 !! ("p", "u", "ab12", 5)%string) = Some 9 ∧
  ∃ row, ob_alerts (w_kube w').1 !! ("p", "u", "ab12", 5)%string = Some row ∧ ar_state row = Resolved.
Proof.
  intros w'. split; [vm_compute; reflexivity|].
  destruct (@alert_history_is_kept () (answering JNull) (λ _, true) (λ _, Some (Some 0)) (λ _, Some 5) "primary"
    webhook_world (Forall_nil_2 _)) as [Hp _].
  destruct (hk_rows _ _ (Hp (Some webhook_token) (Some ("Bearer " +:+ webhook_token)) webhook_body)
    ("p", "u", "ab12", 5)%string resolved_row) as (row & Hrow & Hr); [reflexivity|].
  exists row. split; [exact Hrow|by apply Hr].
Defined.
