(* ===== verification/Telemetry.v ===== *)
(** * Telemetry of requests

    [Telemetry] of [apps/admin-api/src/telemetry.ts]: its construction, the hooks
    that count the requests of the web framework, and the route that serves the
    registry.  The registry of the metrics library is what was counted: a
    counter is a number per label, a histogram the list of what it observed, a
    gauge a number.  Times of [performance.now()] are in microseconds. *)
From Stdlib Require Import ZArith Lia Ascii.
From stdpp Require Import base tactics list option strings gmap.
From S2P Require Import Prelude Regex Numbers Effects Catalog Json Accounts Observability.

(** ** The constructor *)
Definition cluster_id_pattern : re :=
  RSeq (RChr is_alnum) (rupto 62 (RChr (λ c, is_alnum c || Ascii.eqb c "-"))).

(** What is counted of requests; [tm_starts] is the weak map of [attach], by
    the request object. *)
Record Telemetry := MkTelemetry {
  tm_clusterId : string; tm_requests : gmap (string * string * string) Z; tm_duration : gmap (string * string) (list Z);
  tm_inflight : Z; tm_starts : gmap nat Z }.
#[export] Instance eta_Telemetry : Eta Telemetry := λ t,
  MkTelemetry (tm_clusterId t) (tm_requests t) (tm_duration t) (tm_inflight t) (tm_starts t).
Definition new_telemetry (clusterId : string) : res Telemetry :=
  if test cluster_id_pattern clusterId then Ok (MkTelemetry clusterId ∅ ∅ 0 ∅)
  else Throw (JsError "Invalid observability cluster ID").
(** The guard of [attach]. *)
Definition attach_guard (scrapeToken : option string) : res () :=
  match scrapeToken with
  | Some token => if validToken token then Ok () else Throw (JsError "Invalid metrics scrape token")
  | None => Ok ()
  end.

(** ** The hooks *)
Inductive HookEvent :=
  | OnRequest (request : nat) (now : Z)
  | OnResponse (request : nat) (now : Z) (url : option string) (method : string) (status : Z)
  | OnRequestAbort (request : nat).
(** An entry of the log. *)
Record Logged := MkLogged {
  lg_error : bool; lg_request : nat; lg_route : string; lg_method : string; lg_status : Z; lg_duration_ms : Z }.

Definition known_methods : list string := ["GET"; "POST"; "PUT"; "PATCH"; "DELETE"; "HEAD"; "OPTIONS"].
Definition method_label (method : string) : string := if includes known_methods method then method else "OTHER".
Definition route_label (url : option string) : string := nullish url "unmatched".
Definition status_class (status : Z) : string := dec_str (status / 100) +:+ "xx".

Definition finish_request (request : nat) (t : Telemetry) : Telemetry :=
  match tm_starts t !! request with
  | Some _ => t <| tm_inflight ::= Z.pred |> <| tm_starts ::= delete request |>
  | None => t
  end.
(** A request that is not known any more took no time. *)
Definition elapsed (t : Telemetry) (request : nat) (now : Z) : Z := Z.max 0 (now - default now (tm_starts t !! request)).
(** [Math.round] of milliseconds. *)
Definition rounded_ms (us : Z) : Z := (2 * us + 1000) / 2000.
Definition count_request (route method class : string) (us : Z) (t : Telemetry) : Telemetry :=
  if String.eqb route "/internal/metrics" then t
  else t <| tm_requests ::= λ m, <[(route, method, class) := default 0 (m !! (route, method, class)) + 1]> m |>
         <| tm_duration ::= λ m, <[(route, method) := default [] (m !! (route, method)) ++ [us]]> m |>.
Definition response_log (request : nat) (route method : string) (status us : Z) : option Logged :=
  if 500 <=? status then Some (MkLogged true request route method status (rounded_ms us))
  else if negb (includes ["/healthz"; "/readyz"; "/internal/metrics"] route)
  then Some (MkLogged false request route method status (rounded_ms us)) else None.
Definition hook (t : Telemetry) (e : HookEvent) : Telemetry * option Logged :=
  match e with
  | OnRequest request now => (t <| tm_starts ::= insert request now |> <| tm_inflight ::= Z.succ |>, None)
  | OnResponse request now url method status =>
      let us := elapsed t request now in
      let route := route_label url in
      let method := method_label method in
      (count_request route method (status_class status) us (finish_request request t),
       response_log request route method status us)
  | OnRequestAbort request => (finish_request request t, None)
  end.

(** ** [GET /internal/metrics] *)
Definition get_internal_metrics (metrics : Telemetry → string) (scrapeToken authorization : option string) (t : Telemetry) :
    res string :=
  if authorizedToken authorization scrapeToken then Ok (metrics t)
  else Throw (HttpError 401 "Metrics authentication required").

(** * What is counted *)
Definition hooks (t : Telemetry) (es : list HookEvent) : Telemetry := fold_left (λ t e, (hook t e).1) es t.
Definition request_of (e : HookEvent) : nat :=
  match e with OnRequest r _ | OnResponse r _ _ _ _ | OnRequestAbort r => r end.
Definition is_start (e : HookEvent) : bool := match e with OnRequest _ _ => true | _ => false end.
(** The framework starts a request before anything else of it. *)
Definition ordered (es : list HookEvent) : Prop :=
  ∀ a b e, es = a ++ e :: b → is_start e = true → request_of e ∉ request_of <$> a.
(** Requests that were started, and neither answered nor aborted. *)
Definition in_flight (es : list HookEvent) (r : nat) : Prop :=
  r ∈ request_of <$> filter (λ e, is_start e = true) es ∧ r ∉ request_of <$> filter (λ e, is_start e = false) es.
(** The labels a response is counted under. *)
Definition counted (e : HookEvent) : option (string * string * string) :=
  match e with
  | OnResponse _ _ url method status =>
      if String.eqb (route_label url) "/internal/metrics" then None
      else Some (route_label url, method_label method, status_class status)
  | _ => None
  end.
Definition times {A} `{EqDecision A} (x : A) (l : list A) : Z := Z.of_nat (length (filter (λ y, y = x) l)).

Record counts (es : list HookEvent) (t : Telemetry) : Prop := {
  cn_inflight : tm_inflight t = Z.of_nat (size (tm_starts t));
  cn_starts : ∀ r, is_Some (tm_starts t !! r) ↔ in_flight es r;
  cn_requests : ∀ k, default 0 (tm_requests t !! k) = times k (omap counted es);
  cn_labels : ∀ k n, tm_requests t !! k = Some n → k ∈ omap counted es;
  cn_duration : ∀ k, Z.of_nat (length (default [] (tm_duration t !! k))) = times k (fst <$> omap counted es);
  cn_positive : ∀ k l, tm_duration t !! k = Some l → Forall (λ us, 0 <= us) l }.

Lemma times_app {A} `{EqDecision A} (x : A) l k : times x (l ++ k) = times x l + times x k.
Proof. unfold times. rewrite filter_app, length_app. lia. Qed.
Lemma times_one {A} `{EqDecision A} (x y : A) : times x [y] = if decide (y = x) then 1 else 0.
Proof. unfold times. rewrite filter_cons. by case_decide. Qed.

Lemma in_flight_app es e r : in_flight (es ++ [e]) r ↔
  if is_start e then (r = request_of e ∧ r ∉ request_of <$> filter (λ e, is_start e = false) es) ∨ in_flight es r
  else in_flight es r ∧ r ≠ request_of e.
Proof.
  unfold in_flight. rewrite !filter_app, !fmap_app, !elem_of_app, !filter_cons.
  destruct (is_start e) eqn:E; simpl; rewrite ?list_elem_of_singleton, ?elem_of_nil; [|tauto].
  destruct (decide (r = request_of e)); tauto.
Qed.

(** The finished requests leave the map and the gauge together. *)
Lemma finish_counts es e t : is_start e = false → counted e = None → counts es t →
  counts (es ++ [e]) (finish_request (request_of e) t).
Proof.
  intros He Hn [Hi Hs Hr Hl Hd Hp]. assert (omap counted (es ++ [e]) = omap counted es) as Eo
    by (rewrite omap_app; simpl; rewrite Hn; by rewrite app_nil_r).
  unfold finish_request. destruct (tm_starts t !! request_of e) as [x|] eqn:Ex; split; rewrite ?Eo; simpl; try done.
  - rewrite map_size_delete_Some by done. rewrite Hi. assert (size (tm_starts t) ≠ 0%nat)
      by (apply map_size_ne_0_lookup; by exists (request_of e), x). lia.
  - intros r. rewrite in_flight_app, He, <-Hs. destruct (decide (r = request_of e)) as [->|Hne].
    + rewrite lookup_delete_eq. by split; [intros []|intros []].
    + rewrite lookup_delete_ne by done. tauto.
  - intros r. rewrite in_flight_app, He, <-Hs. destruct (decide (r = request_of e)) as [->|Hne]; [|tauto].
    rewrite Ex. by split; [intros []|intros []].
Qed.
Lemma start_counts es r now t : r ∉ request_of <$> es → counts es t →
  counts (es ++ [OnRequest r now]) (hook t (OnRequest r now)).1.
Proof.
  intros Hr [Hi Hs Hq Hl Hd Hp]. assert (omap counted (es ++ [OnRequest r now]) = omap counted es) as Eo
    by (rewrite omap_app; simpl; by rewrite app_nil_r).
  assert (∀ P `{∀ x, Decision (P x)}, r ∉ request_of <$> filter P es) as Hf.
  { intros P HP (e & -> & [_ He]%list_elem_of_filter)%list_elem_of_fmap. apply Hr. apply list_elem_of_fmap. eauto. }
  assert (tm_starts t !! r = None) as En.
  { apply eq_None_not_Some. rewrite Hs. intros [Hin _]. by apply Hf in Hin. }
  split; rewrite ?Eo; simpl; try done.
  - rewrite map_size_insert_None by done. lia.
  - intros r'. rewrite in_flight_app. simpl. rewrite <-Hs. destruct (decide (r' = r)) as [->|Hne].
    + rewrite lookup_insert_eq. split; [|by eexists]. intros _. left. split; [done|apply Hf].
    + rewrite lookup_insert_ne by done. split; [by right|by intros [[]|]].
Qed.
Lemma response_counts es r now url method status us t : 0 <= us →
  counts (es ++ [OnRequestAbort r]) t →
  counts (es ++ [OnResponse r now url method status])
    (count_request (route_label url) (method_label method) (status_class status) us t).
Proof.
  intros Hus [Hi Hs Hr Hl Hd Hp]. rewrite omap_app in Hr, Hl, Hd. simpl in Hr, Hl, Hd. rewrite app_nil_r in Hr, Hl, Hd.
  assert (∀ r', in_flight (es ++ [OnResponse r now url method status]) r' ↔ in_flight (es ++ [OnRequestAbort r]) r') as Hf
    by (intros r'; by rewrite !in_flight_app).
  unfold count_request. destruct (String.eqb (route_label url) "/internal/metrics") eqn:E.
  { split; rewrite ?omap_app; simpl; rewrite ?E, ?app_nil_r; try done. intros r'. by rewrite Hf. }
  split; rewrite ?omap_app; simpl; rewrite ?E; try done.
  - intros r'. by rewrite Hf.
  - intros k. rewrite times_app, times_one, <-Hr.
    case_decide as Ek; [subst; by rewrite lookup_insert_eq|]. rewrite lookup_insert_ne by done. lia.
  - intros k n. destruct (decide (k = (route_label url, method_label method, status_class status))) as [->|Hk].
    + intros _. apply elem_of_app. right. by left.
    + rewrite lookup_insert_ne by done. intros Hn%Hl. apply elem_of_app. by left.
  - intros k. rewrite fmap_app, times_app. simpl. rewrite times_one, <-Hd.
    case_decide as Ek; [subst; rewrite lookup_insert_eq; simpl; rewrite length_app; simpl; lia|].
    rewrite lookup_insert_ne by done. lia.
  - intros k l. destruct (decide (k = (route_label url, method_label method))) as [->|Hk].
    + rewrite lookup_insert_eq. intros [= <-]. apply Forall_app. split; [|by apply Forall_singleton].
      destruct (tm_duration t !! _) as [l|] eqn:El; [by eapply Hp|apply Forall_nil_2].
    + rewrite lookup_insert_ne by done. apply Hp.
Qed.

Lemma hooks_counts t es : tm_requests t = ∅ → tm_duration t = ∅ → tm_inflight t = 0 → tm_starts t = ∅ →
  ordered es → counts es (hooks t es).
Proof.
  intros E1 E2 E3 E4. induction es as [|e es IH] using rev_ind; intros Ho.
  { split; simpl; rewrite ?E1, ?E2, ?E3, ?E4; try done.
    intros r. rewrite lookup_empty. split; [by intros []|]. by intros [[]%elem_of_nil _]. }
  assert (counts es (hooks t es)) as Hc.
  { apply IH. intros a b x -> . apply (Ho a (b ++ [e]) x). by rewrite <-app_assoc. }
  unfold hooks. rewrite fold_left_app. simpl. fold (hooks t es). destruct e as [r now|r now url method status|r].
  - apply start_counts; [|done]. by apply (Ho es [] (OnRequest r now)).
  - simpl. apply (response_counts es r); [unfold elapsed; lia|]. by apply (finish_counts es (OnRequestAbort r)).
  - by apply (finish_counts es (OnRequestAbort r)).
Qed.

(** The metrics of requests tell what happened.  Whatever requests are answered
    and aborted, in any order and more than once: the gauge is the number of
    requests that are neither, so it never falls below zero and returns to it;
    every response but those of the scrape is counted once, under its route, its
    method and the class of its status, and timed once; no label is ever made
    of an unknown path or method; and every response but the successful ones of
    the probes and the scrape is logged, failures as errors. *)
Theorem request_metrics_exact clusterId t es :
  new_telemetry clusterId = Ok t → ordered es →
  let t' := hooks t es in
  (tm_inflight t' = Z.of_nat (size (tm_starts t')) ∧ ∀ r, is_Some (tm_starts t' !! r) ↔ in_flight es r) ∧
  (∀ k, default 0 (tm_requests t' !! k) = times k (omap counted es)) ∧
  (∀ k, Z.of_nat (length (default [] (tm_duration t' !! k))) = times k (fst <$> omap counted es)) ∧
  (∀ route method class n, tm_requests t' !! (route, method, class) = Some n →
     (method = "OTHER" ∨ method ∈ known_methods) ∧
     (route = "unmatched" ∨ ∃ r now m status, OnResponse r now (Some route) m status ∈ es)) ∧
  (∀ r now url method status,
     match (hook t' (OnResponse r now url method status)).2 with
     | Some entry => lg_error entry = (500 <=? status) ∧ lg_status entry = status ∧ 0 <= lg_duration_ms entry
     | None => status < 500 ∧ ∃ route, url = Some route ∧ route ∈ ["/healthz"; "/readyz"; "/internal/metrics"]
     end).
Proof.
  intros Ht Ho t'. unfold new_telemetry in Ht. destruct (test _ _); [|done]. injection Ht as <-.
  destruct (hooks_counts (MkTelemetry clusterId ∅ ∅ 0 ∅) es eq_refl eq_refl eq_refl eq_refl Ho) as [Hi Hs Hr Hl Hd Hp].
  split_and!; try done.
  - intros route method class n (e & He & Hc)%Hl%list_elem_of_omap. destruct e as [|r now url m status|]; try done.
    simpl in Hc. destruct (String.eqb _ _); [done|]. injection Hc as <- <- <-. split.
    + unfold method_label. destruct (includes known_methods m) eqn:E; [right; by apply includes_spec|by left].
    + destruct url as [url|]; [right; by exists r, now, m, status|by left].
  - intros r now url method status. cbn [hook snd]. unfold response_log. destruct (500 <=? status) eqn:E; cbn [lg_error lg_status lg_duration_ms].
    + split_and!; try done. unfold rounded_ms, elapsed. apply Z.div_pos; lia.
    + destruct (includes _ _) eqn:Ei; cbn [negb lg_error lg_status lg_duration_ms].
      * split; [lia|]. apply includes_spec in Ei. destruct url as [route|]; [by exists route|].
        exfalso. revert Ei. vm_compute. set_solver.
      * split_and!; try done. unfold rounded_ms, elapsed. apply Z.div_pos; lia.
Qed.

(** Two requests, one of them aborted before it is answered. *)
Definition sample_hooks : list HookEvent :=
  [OnRequest 1 0; OnRequest 2 500; OnRequestAbort 2; OnResponse 1 1500 (Some "/v1/users"%string) "GET" 200;
   OnResponse 2 2000 None "BREW" 404; OnRequest 3 3000].
Lemma request_metrics_exact_witness : ∃ t, new_telemetry "primary" = Ok t ∧
  tm_inflight (hooks t sample_hooks) = 1 ∧
  tm_requests (hooks t sample_hooks) !! ("unmatched", "OTHER", "4xx")%string = Some 1 ∧
  default 0 (tm_requests (hooks t sample_hooks) !! ("/v1/users", "GET", "2xx")%string) =
    times ("/v1/users", "GET", "2xx")%string (omap counted sample_hooks).
Proof.
  destruct (new_telemetry "primary") as [t|e] eqn:Et; [|vm_compute in Et; discriminate Et].
  assert (ordered sample_hooks) as Ho.
  { unfold sample_hooks. intros a b e E He. destruct a as [|x1 [|x2 [|x3 [|x4 [|x5 [|x6 a]]]]]]; simplify_eq/=;
      try (refine (bool_decide_unpack _ _); vm_compute; exact I). by destruct a. }
  destruct (request_metrics_exact "primary" t sample_hooks Et Ho) as (_ & Hr & _).
  exists t. split; [reflexivity|]. split; [|split; [|apply Hr]]; injection Et as <-; vm_compute; reflexivity.
Defined.
