(* ===== verification/Views.v ===== *)
(** * What the console reads

    The routes of [apps/admin-api/src/observability.ts] that read the tables of
    the observations ([Observations]): the overview of the platform, the state
    of a project's instances, the events of an instance and the history of
    alerts; the audit listing of [app.ts]; and the runs of the background
    processes that [telemetry.ts] counts.

    [ORDER BY] over texts is the order of their code units. *)
From Stdlib Require Import ZArith Lia Sorted.
From stdpp Require Import base tactics list option strings gmap relations sorting.
From S2P Require Import Prelude Effects Catalog Json Contract Database Http Statistics Series History Backends Secrets.
From S2P Require Import Security Kubernetes Worker Diagnostics Observations Accounts Inventory Routes Observability.

(** ** Columns *)
Definition kind_text (k : Kind) : string :=
  match k with
  | ProjectCreate => "project.create" | InstanceCreate => "instance.create" | InstanceReclaim => "instance.reclaim"
  | InstanceUpdate => "instance.update" | InstanceRotate => "instance.rotate" | InstanceDelete => "instance.delete"
  | VolumeDelete => "volume.delete" | OtherKind s => s
  end.

(** [SELECT kind,state,count,now()-min(created_at) ... GROUP BY kind,state]:
    the age of the oldest in microseconds. *)
Record QueueRow := MkQueueRow { qu_kind : string; qu_state : string; qu_count : Z; qu_oldest : Z }.
Definition queue_group (op : Operation) : string * string := (kind_text (op_kind op), state_str (op_state op)).
Definition group_le (a b : string * string) : bool :=
  if String.eqb a.1 b.1 then String.leb a.2 b.2 else String.leb a.1 b.1.
Definition queue_row (now : Z) (ops : list Operation) (g : string * string) : QueueRow :=
  let group := filter (λ op, queue_group op = g) ops in
  MkQueueRow g.1 g.2 (Z.of_nat (length group))
    (match min_by op_created_at group with Some op => now - op_created_at op | None => 0 end).
Definition unfinished (db : DB) : list Operation :=
  filter (λ op, active_state (op_state op) = true) (rows (db_operations db)).
Definition queue_rows (now : Z) (db : DB) : list QueueRow :=
  queue_row now (unfinished db) <$> stable_sort group_le (remove_dups (queue_group <$> unfinished db)).

(** The times of a background process. *)
Record WorkerState := MkWorkerState { wk_lastSuccess : option Z; wk_lastFailure : option Z }.
Record PlatformOverview := MkOverview {
  ov_observedAt : Z; ov_clusterId : string; ov_workers : list (string * WorkerState); ov_queues : list QueueRow;
  ov_connections : Z * Z * Z; ov_integrations : bool * bool * bool * bool; ov_metricsEndpoint : bool }.

Inductive DataState := NoData | Stale | DataError | DataOk.
#[export] Instance DataState_eq_dec : EqDecision DataState.
Proof. solve_decision. Defined.
Record ProjectItem := MkProjectItem {
  it_id : string; it_binding : Binding; it_snapshot : option SnapshotRow; it_dataState : DataState }.
Record ProjectOverview := MkProjectOverview {
  pv_observedAt : Z; pv_total : Z; pv_covered : Z; pv_truncated : bool; pv_items : list ProjectItem }.

(** An event of an instance: one of the collector, or an operation. *)
Inductive TimelineDetails :=
  | StoredDetails (details : EventDetails)
  | OperationDetails (state : OpState) (error_code : option string) (generation : option Z).
Record TimelineItem := MkTimelineItem {
  tl_id : string; tl_time : Z; tl_code : string; tl_details : TimelineDetails }.
Inductive CollectionState := CollectionNoData | CollectionStale | CollectionState_ (c : EventsCollection).
Record Timeline := MkTimeline {
  tm_ok : bool; tm_collection : CollectionState; tm_truncated : bool; tm_items : list TimelineItem }.

Record AlertHistoryItem := MkAlertHistoryItem {
  ah_fingerprint : string; ah_starts_at : Z; ah_row : AlertRow; ah_instance_id : string; ah_display_name : string }.

(** ** Queries *)

(** [ORDER BY i.created_at,i.id] *)
Definition older_binding (a b : string * Binding) : bool :=
  (bi_created_at a.2 <? bi_created_at b.2) || (bi_created_at a.2 =? bi_created_at b.2) && String.leb a.1 b.1.
Definition listed (projectId : string) (r : string * Binding) : bool :=
  String.eqb (bi_project_id r.2) projectId &&
  match bi_lifecycle r.2 with LDeleted | LDetached => false | _ => true end.
Definition listed_bindings (projectId : string) (db : DB) : list (string * Binding) :=
  stable_sort older_binding (filter (λ r, listed projectId r = true) (map_to_list (db_bindings db))).
(** [LEFT JOIN observation_snapshots s ON ... AND s.instance_uid=i.kubernetes_uid] *)
Definition own_snapshot (r : string * Binding) (t : Observations) : option SnapshotRow :=
  row ← ob_snapshots t !! r.1;
  if sql_eq (Some (sr_instance_uid row)) (bi_kubernetes_uid r.2) then Some row else None.
Definition stale (now observed_at : Z) : bool := 120000 <? now - js_date observed_at.
Definition data_state (now : Z) (row : option SnapshotRow) : DataState :=
  match row with
  | None => NoData
  | Some row => if stale now (sr_observed_at row) then Stale
                else if bool_decide (sn_collection (sr_payload row) = CollectionError) then DataError else DataOk
  end.

Definition later_item (a b : TimelineItem) : bool := tl_time b <=? tl_time a.
Definition timeline_rows (projectId uid instanceId : string) (db : DB) (t : Observations) : list TimelineItem :=
  take 101 (stable_sort later_item (
    ((λ e : string * EventRow, MkTimelineItem e.1 (oe_observed_at e.2) (oe_code e.2) (StoredDetails (oe_details e.2))) <$>
      filter (λ e : string * EventRow, oe_project_id e.2 = projectId ∧ oe_instance_uid e.2 = uid ∧ oe_instance_id e.2 = instanceId)
        (map_to_list (ob_events t))) ++
    ((λ e : string * Operation, MkTimelineItem e.1 (op_updated_at e.2) (kind_text (op_kind e.2))
        (OperationDetails (op_state e.2) (op_error_code e.2) (op_target_generation e.2))) <$>
      filter (λ e : string * Operation, op_project_id e.2 = projectId ∧ op_instance_id e.2 = Some instanceId)
        (map_to_list (db_operations db))))).

Definition history_rows (projectId : string) (db : DB) (t : Observations) : list AlertHistoryItem :=
  take 101 (stable_sort (λ a b, ar_received_at (ah_row b) <=? ar_received_at (ah_row a)) (
    a ← filter (λ a : AlertKey * AlertRow, a.1.1.1.1 = projectId) (map_to_list (ob_alerts t));
    r ← filter (λ r : string * Binding, bi_project_id r.2 = projectId ∧ bi_kubernetes_uid r.2 = Some a.1.1.1.2)
          (map_to_list (db_bindings db));
    [MkAlertHistoryItem a.1.1.2 a.1.2 a.2 r.1 (bi_display_name r.2)])).

Section views.
Context {S : Type} `{Digests} (is_uuid : string → bool).

(** A query over both. *)
Definition select {A} (f : Z → DB → Observations → A) : M (World (Rest S)) A :=
  pool (gets (λ w, f (w_now w) (w_db w) (w_kube w).1)).
(** [z.object({}).strict().parse(request.query)] *)
Definition no_query (request : Request) : M (World (Rest S)) () :=
  lift (of_option ZodError (strict [] (λ _, Some tt) (hd_query request))).
Definition any_role : list Role := [RAdmin; RMaintainer; RViewer].

(** [GET /v1/platform/observability], given the counts of the pool, the state of
    the processes and what is configured. *)
Definition get_platform_observability (clusterId : option string) (workers : list (string * WorkerState))
    (connections : Z * Z * Z) (integrations : bool * bool * bool * bool) (metricsEndpoint : bool) (request : Request) :
    M (World (Rest S)) PlatformOverview :=
  actor ← user request;
  throw_if (negb (at_platform_admin actor)) (HttpError 403 "Platform administrator required") ;;
  queues ← select (λ now db _, queue_rows now db);
  now ← date_now;
  mret (MkOverview now (nullish clusterId "primary") workers queues connections integrations metricsEndpoint).

(** [GET /v1/projects/:projectId/observability] *)
Definition project_item (now : Z) (t : Observations) (r : string * Binding) : ProjectItem :=
  let row := own_snapshot r t in MkProjectItem r.1 r.2 row (data_state now row).
Definition get_project_observability (request : Request) (projectId : string) : M (World (Rest S)) ProjectOverview :=
  parse_params is_uuid [projectId] ;;
  projectAccess request projectId any_role ;;
  no_query request ;;
  '(listed, t) ← select (λ _ db t, (listed_bindings projectId db, t));
  now ← date_now;
  let items := project_item now t <$> take 500 listed in
  let total := Z.of_nat (length listed) in
  mret (MkProjectOverview now total (Z.of_nat (length (filter (λ i, it_dataState i = DataOk) items)))
          (Z.of_nat (length items) <? total) items).

(** [GET .../observability/events] *)
Definition get_events (request : Request) (projectId instanceId : string) : M (World (Rest S)) Timeline :=
  parse_params is_uuid [projectId; instanceId] ;;
  projectAccess request projectId any_role ;;
  no_query request ;;
  owned ← observed_target projectId instanceId;
  found ← select (λ _, timeline_rows projectId (tg_instanceUID owned) instanceId);
  snapshot ← select (λ _ _ t, row ← ob_snapshots t !! instanceId;
                              if String.eqb (sr_instance_uid row) (tg_instanceUID owned) then Some row else None);
  now ← date_now;
  mret {| tm_ok := negb (bool_decide (found = []));
          tm_collection := match snapshot with
                           | None => CollectionNoData
                           | Some row => if stale now (sr_observed_at row) then CollectionStale
                                         else CollectionState_ (default EventsUnsupported (sn_eventsCollection (sr_payload row)))
                           end;
          tm_truncated := (100 <? length found)%nat; tm_items := take 100 found |}.

(** [GET .../observability/alert-history]: whether a webhook is configured, whether
    there is more, and the items. *)
Definition get_alert_history (webhookToken : option string) (request : Request) (projectId : string) :
    M (World (Rest S)) (bool * bool * list AlertHistoryItem) :=
  parse_params is_uuid [projectId] ;;
  projectAccess request projectId any_role ;;
  no_query request ;;
  found ← select (λ _, history_rows projectId);
  mret (truthy webhookToken, (100 <? length found)%nat, take 100 found).
End views.

(** [GET /v1/projects/:projectId/audit]: the log is in the order of its times. *)
Definition get_audit {K} `{Digests} (is_uuid : string → bool) (request : Request) (projectId : string) :
    M (World K) (list AuditEvent) :=
  throw_if (negb (is_uuid projectId)) ZodError ;;
  projectAccess request projectId [RAdmin] ;;
  pool (query (λ _ db, take 100 (reverse (filter (λ e, ae_project e = Some projectId) (db_audit db))))).

(** ** The telemetry of a process *)
Section telemetry.
Context {K : Type}.

(** [Telemetry.run(worker, fn)]: the times of the workers are part of the state. *)
Definition no_runs : WorkerState := MkWorkerState None None.
Definition note_success (worker : string) (now : Z) (ws : gmap string WorkerState) : gmap string WorkerState :=
  <[worker := MkWorkerState (Some now) (wk_lastFailure (default no_runs (ws !! worker)))]> ws.
Definition note_failure (worker : string) (now : Z) (ws : gmap string WorkerState) : gmap string WorkerState :=
  <[worker := MkWorkerState (wk_lastSuccess (default no_runs (ws !! worker))) (Some now)]> ws.
Definition on_world {A} (m : M (World K) A) : M (gmap string WorkerState * World K) A := zoom snd (λ w s, (s.1, w)) m.
Definition telemetry_run {A} (worker : string) (fn : M (World K) A) : M (gmap string WorkerState * World K) A :=
  modify (λ s, (<[worker := default no_runs (s.1 !! worker)]> s.1, s.2)) ;;
  try_catch
    (result ← on_world fn;
     now ← on_world date_now;
     modify (λ s, (note_success worker now s.1, s.2)) ;;
     mret result)
    (λ e, now ← on_world date_now;
          modify (λ s, (note_failure worker now s.1, s.2)) ;;
          throw e).

(** The run of a worker is counted and otherwise left as it is: the result or
    the exception is that of the worker, and only the time of its last success,
    or of its last failure, changes. *)
Lemma telemetry_run_exact {A} worker (fn : M (World K) A) ws w :
  let '(r, w') := fn w in let now := js_date (w_now w') in
  let '(r', (ws', w'')) := telemetry_run worker fn (ws, w) in
  r' = r ∧ w'' = w' ∧ (∀ other, other ≠ worker → ws' !! other = ws !! other) ∧
  let old := default no_runs (ws !! worker) in
  ws' !! worker = Some (match r with
                        | Ok _ => MkWorkerState (Some now) (wk_lastFailure old)
                        | Throw _ => MkWorkerState (wk_lastSuccess old) (Some now)
                        end).
Proof.
  unfold telemetry_run, try_catch, mbind, M_bind, modify, on_world, zoom, date_now, gets, note_success, note_failure. simpl.
  destruct (fn w) as [[a|e] w']; simpl; rewrite lookup_insert_eq; simpl;
    (split_and!; [done|done|intros other Hne; by rewrite !lookup_insert_ne|by rewrite lookup_insert_eq]).
Qed.

(** The gauges of [observeControlPlane]: the count and the age of the oldest of
    every kind and state; a kind the platform does not write counts as other,
    and a later row of the same labels replaces an earlier one. *)
Definition known_kinds : list string :=
  ["project.create"; "instance.create"; "instance.update"; "instance.delete"; "instance.rotate"; "instance.reclaim";
   "volume.delete"].
Definition queue_gauges (queues : list QueueRow) : list ((string * string) * (Z * Z)) :=
  fold_left (λ g q, map_set (if includes known_kinds (qu_kind q) then qu_kind q else "other"%string, qu_state q)
                      (qu_count q, Z.max 0 (qu_oldest q)) g) queues [].
End telemetry.

(** ** Who reads *)
Section facts.
Context {S : Type} `{Digests} (is_uuid : string → bool).
Implicit Types w : World (Rest S).

(** The caller is a platform administrator, or a member of the project with one
    of the roles. *)
Definition may_read (allowed : list Role) (projectId : string) (a : Actor) (db : DB) : Prop :=
  is_Some (db_projects db !! projectId) ∧
  (at_platform_admin a = true ∨ ∃ r, db_members db !! (projectId, at_id a) = Some r ∧ r ∈ allowed).
Lemma projectAccess_Ok request projectId allowed w a w' :
  projectAccess request projectId allowed w = (Ok a, w') → may_read allowed projectId a (w_db w').
Proof.
  unfold projectAccess. intros (actor & w1 & _ & E)%bind_Ok_inv. apply bind_Ok_inv in E as (found & w2 & Eq & E).
  rewrite pool_eq in Eq. injection Eq as <- <-.
  destruct (db_projects (w_db (after_yield w1)) !! projectId) as [p|] eqn:Ep; simpl in E; [|done].
  apply throw_if_bind in E as [_ E]. apply throw_if_bind in E as [Hr [= <- <-]]. split; [by eexists|].
  destruct (at_platform_admin actor); [by left|right]. simpl in Hr.
  destruct (db_members _ !! _) as [r|]; [|done]. exists r. split; [done|]. by boolify.
Qed.

Lemma select_Ok {A} (f : Z → DB → Observations → A) w x w' :
  select f w = (Ok x, w') → x = f (w_now w') (w_db w') (w_kube w').1.
Proof. unfold select. rewrite pool_eq. by intros [= <- <-]. Qed.
Lemma no_query_Ok request w u w' : no_query request w = (Ok u, w') → w' = w.
Proof. by intros [_ ->]%lift_inv. Qed.
Lemma date_now_Ok w t w' : date_now w = (Ok t, w') → t = js_date (w_now w') ∧ w' = w.
Proof. by intros [= <- <-]. Qed.

Lemma listed_bindings_elem projectId db id b :
  (id, b) ∈ listed_bindings projectId db ↔
    db_bindings db !! id = Some b ∧ bi_project_id b = projectId ∧ bi_lifecycle b ≠ LDeleted ∧ bi_lifecycle b ≠ LDetached.
Proof.
  unfold listed_bindings. rewrite stable_sort_perm, list_elem_of_filter, elem_of_map_to_list. unfold listed. simpl.
  rewrite andb_true_iff, String.eqb_eq. destruct (bi_lifecycle b); naive_solver.
Qed.

(** Of two bindings the one that was created first comes first, by identifier at
    the same time. *)
Definition older (a b : string * Binding) : Prop :=
  bi_created_at a.2 < bi_created_at b.2 ∨ bi_created_at a.2 = bi_created_at b.2 ∧ String.le a.1 b.1.
Lemma listed_bindings_sorted projectId db : StronglySorted older (listed_bindings projectId db).
Proof.
  apply stable_sort_sorted.
  - unfold older. intros a b c [?|[? ?]] [?|[? ?]]; [left; lia..|right]. split; [lia|]. by transitivity b.1.
  - unfold older, older_binding. intros a b [E|[E1 E2]%andb_true_iff]%orb_true_iff; boolify; [by left|right].
    split; [done|]. unfold String.le. by rewrite E2.
  - unfold older, older_binding. intros a b [E1 E2]%orb_false_iff. boolify.
    destruct (Z.eqb_spec (bi_created_at a.2) (bi_created_at b.2)) as [E|E]; [right|left; lia]. split; [done|].
    destruct (String.leb_total a.1 b.1) as [E'|E']; [simpl in E2; congruence|]. unfold String.le. by rewrite E'.
Qed.
Lemma listed_bindings_NoDup projectId db : NoDup (listed_bindings projectId db).*1.
Proof.
  unfold listed_bindings. rewrite stable_sort_perm. eapply sublist_NoDup; [apply (NoDup_fst_map_to_list (db_bindings db))|].
  apply fmap_sublist, sublist_filter.
Qed.

(** C26. The state of a project's instances is current and the project's own.
    The caller has access.  The items are the first five hundred of all bindings
    of the project that are neither deleted nor detached, the oldest first, and
    all of them are counted.  An item shows the snapshot of its own identity
    only.  Its data are missing without a snapshot, stale if that is older than
    two minutes, failed if the statistics of a recent one could not be read,
    and fine otherwise; the fine ones are counted as covered. *)
Theorem project_observability_exact request projectId w o w' :
  get_project_observability is_uuid request projectId w = (Ok o, w') →
  let db := w_db w' in let t := (w_kube w').1 in let now := js_date (w_now w') in
  (∃ a w1, projectAccess request projectId any_role w = (Ok a, w1) ∧ may_read any_role projectId a (w_db w1)) ∧
  (∃ all, NoDup all.*1 ∧ StronglySorted older all ∧
     (∀ id b, (id, b) ∈ all ↔ db_bindings db !! id = Some b ∧ bi_project_id b = projectId ∧
                              bi_lifecycle b ≠ LDeleted ∧ bi_lifecycle b ≠ LDetached) ∧
     (λ i, (it_id i, it_binding i)) <$> pv_items o = take 500 all ∧
     pv_total o = Z.of_nat (length all) ∧ (pv_truncated o = true ↔ (500 < length all)%nat)) ∧
  pv_observedAt o = now ∧
  pv_covered o = Z.of_nat (length (filter (λ i, it_dataState i = DataOk) (pv_items o))) ∧
  ∀ i, i ∈ pv_items o →
    (∀ row, it_snapshot i = Some row ↔
       ob_snapshots t !! it_id i = Some row ∧ bi_kubernetes_uid (it_binding i) = Some (sr_instance_uid row)) ∧
    it_dataState i = match it_snapshot i with
      | None => NoData
      | Some row =>
          if decide (120000 < now - js_date (sr_observed_at row)) then Stale
          else if decide (sn_collection (sr_payload row) = CollectionError) then DataError
          else DataOk
      end.
Proof.
  unfold get_project_observability. intros (u & w0 & [_ ->]%throw_if_Ok & E)%bind_Ok_inv.
  apply bind_Ok_inv in E as (a & w1 & Ea & E). apply bind_Ok_inv in E as (u2 & w2 & ->%no_query_Ok & E).
  apply bind_Ok_inv in E as ([listed t] & w3 & Es%select_Ok & E). injection Es as -> ->.
  apply bind_Ok_inv in E as (now & w4 & [-> ->]%date_now_Ok & [= <- <-]). simpl.
  split; [exists a, w1; split; [done|by eapply projectAccess_Ok]|].
  set (l := listed_bindings projectId (w_db w3)). set (item := project_item _ _). split; [|split_and!; [done..|]].
  - exists l. split; [apply listed_bindings_NoDup|]. split; [apply listed_bindings_sorted|].
    split; [intros; apply listed_bindings_elem|]. split; [|split; [done|]].
    + rewrite <- list_fmap_compose. rewrite <- (list_fmap_id (take 500 l)) at 2. apply list_fmap_ext. by intros ? [].
    + rewrite length_fmap, length_take, Z.ltb_lt. lia.
  - intros i ([id b] & -> & _)%list_elem_of_fmap. subst item. simpl. split.
    + intros row. unfold own_snapshot. simpl. destruct (ob_snapshots _ !! id) as [row'|]; simpl; [|naive_solver].
      destruct (bi_kubernetes_uid b) as [uid|]; simpl; [|naive_solver].
      destruct (String.eqb_spec (sr_instance_uid row') uid); naive_solver.
    + unfold data_state. destruct (own_snapshot _ _) as [row|]; [|done]. unfold stale.
      destruct (120000 <? _) eqn:Ez; boolify; [by rewrite decide_True|]. rewrite decide_False by lia.
      case_decide; by case_bool_decide.
Qed.

Lemma timeline_rows_spec projectId uid instanceId db t :
  let found := timeline_rows projectId uid instanceId db t in
  StronglySorted (λ x y, tl_time y ≤ tl_time x) found ∧
  ((length found ≤ 100)%nat → ∀ id op, db_operations db !! id = Some op → op_project_id op = projectId →
     op_instance_id op = Some instanceId → ∃ x, x ∈ found ∧ tl_id x = id ∧ tl_time x = op_updated_at op) ∧
  ∀ x, x ∈ found →
    (∃ e, ob_events t !! tl_id x = Some e ∧ oe_project_id e = projectId ∧ oe_instance_id e = instanceId ∧
       oe_instance_uid e = uid ∧ tl_time x = oe_observed_at e ∧ tl_details x = StoredDetails (oe_details e)) ∨
    (∃ op, db_operations db !! tl_id x = Some op ∧ op_project_id op = projectId ∧ op_instance_id op = Some instanceId ∧
       tl_time x = op_updated_at op ∧ tl_details x = OperationDetails (op_state op) (op_error_code op) (op_target_generation op)).
Proof.
  cbv zeta. unfold timeline_rows. set (l := _ ++ _). split_and!.
  - apply StronglySorted_take, stable_sort_sorted; unfold later_item; [intros x y z; lia|intros x y E; boolify; lia..].
  - intros Hl id op Hop Hp Hi. rewrite length_take in Hl. rewrite take_ge by lia.
    exists (MkTimelineItem id (op_updated_at op) (kind_text (op_kind op))
             (OperationDetails (op_state op) (op_error_code op) (op_target_generation op))).
    split; [|done]. rewrite stable_sort_perm. apply elem_of_app. right. apply list_elem_of_fmap. exists (id, op).
    split; [done|]. apply list_elem_of_filter. split; [done|by apply elem_of_map_to_list].
  - intros x (j & Hx%list_elem_of_lookup_2 & _)%elem_of_take. rewrite stable_sort_perm in Hx.
    apply elem_of_app in Hx as [Hx|Hx]; apply list_elem_of_fmap in Hx as ([id r] & -> & [Hf Hr%elem_of_map_to_list]%list_elem_of_filter);
      simpl in *; [left|right]; exists r; naive_solver.
Qed.

(** The events of an instance are its own.  The caller has access, and
    everything listed is an event stored for this project, this instance and
    its present identity, or an operation of this instance; the newest hundred
    of them, in order, and reported as complete exactly when there are no
    more. *)
Theorem events_exact request projectId instanceId w tl w' :
  get_events is_uuid request projectId instanceId w = (Ok tl, w') →
  ∃ a w1 w2 w3 uid b,
    projectAccess request projectId any_role w = (Ok a, w1) ∧ may_read any_role projectId a (w_db w1) ∧
    db_bindings (w_db w2) !! instanceId = Some b ∧ bi_project_id b = projectId ∧ bi_kubernetes_uid b = Some uid ∧
    let db := w_db w3 in let events := ob_events (w_kube w3).1 in
    StronglySorted (λ x y, tl_time y ≤ tl_time x) (tm_items tl) ∧ (length (tm_items tl) ≤ 100)%nat ∧
    (tm_truncated tl = false → ∀ id op, db_operations db !! id = Some op → op_project_id op = projectId →
       op_instance_id op = Some instanceId → ∃ x, x ∈ tm_items tl ∧ tl_id x = id ∧ tl_time x = op_updated_at op) ∧
    ∀ x, x ∈ tm_items tl →
      (∃ e, events !! tl_id x = Some e ∧ oe_project_id e = projectId ∧ oe_instance_id e = instanceId ∧
         oe_instance_uid e = uid ∧ tl_time x = oe_observed_at e ∧ tl_details x = StoredDetails (oe_details e)) ∨
      (∃ op, db_operations db !! tl_id x = Some op ∧ op_project_id op = projectId ∧ op_instance_id op = Some instanceId ∧
         tl_time x = op_updated_at op ∧ tl_details x = OperationDetails (op_state op) (op_error_code op) (op_target_generation op)).
Proof.
  unfold get_events. intros (u & w0 & [_ ->]%throw_if_Ok & E)%bind_Ok_inv.
  apply bind_Ok_inv in E as (a & w1 & Ea & E). apply bind_Ok_inv in E as (u2 & w2 & ->%no_query_Ok & E).
  apply bind_Ok_inv in E as (owned & w2 & Eo & E). apply bind_Ok_inv in E as (found & w3 & ->%select_Ok & E).
  apply bind_Ok_inv in E as (snapshot & w4 & _ & E). apply bind_Ok_inv in E as (now & w5 & _ & [= <- <-]). simpl.
  assert (∃ b uid, db_bindings (w_db w2) !! instanceId = Some b ∧ bi_project_id b = projectId ∧
    bi_kubernetes_uid b = Some uid ∧ tg_instanceUID owned = uid) as (b & uid & Hb & Hp & Hu & ->).
  { unfold observed_target in Eo. apply bind_Ok_inv in Eo as (f & w6 & Ef & Eo). rewrite pool_eq in Ef. injection Ef as <- <-.
    apply bind_Ok_inv in Eo as ([b p] & w6 & [Eb%of_option_Ok ->]%lift_inv & Eo).
    destruct (bi_kubernetes_uid b) as [uid|] eqn:Eu; [|done]. apply throw_if_bind in Eo as [_ [= <- <-]].
    unfold binding_of in Eb. apply bind_Some in Eb as (b' & Hb & (p' & _ & Eb)%bind_Some).
    split_if_in Eb; simplify_eq. boolify. by exists b, uid. }
  exists a, w1, w2, w3, uid, b. split; [done|]. split; [by eapply projectAccess_Ok|]. do 3 (split; [done|]).
  destruct (timeline_rows_spec projectId uid instanceId (w_db w3) (w_kube w3).1) as (Hs & Hc & Hi).
  split_and!.
  - by apply StronglySorted_take.
  - rewrite length_take. lia.
  - intros Ht%Nat.ltb_ge id op Hop Hpr Hin. rewrite take_ge by done. by eapply Hc.
  - intros x (j & Hx%list_elem_of_lookup_2 & _)%elem_of_take. by apply Hi.
Qed.
End facts.

(** ** Witnesses *)
Definition reader_request : Request :=
  MkHttpRequest "GET" "127.0.0.1" None (Some "token"%string) None None None (JObj []) (JObj []).
Definition read_binding : Binding :=
  MkBinding "p" "c-i" (Some "u"%string) LActive "r" 0 "cache" "bazel-remote" (Some "0.1.0"%string) None None None.
Definition read_project : Project :=
  MkProject "Project" "expbuild-p" PReady "r" 0 JNull 1 None None None 0 None None 0 None None.
Definition read_snapshot : Snapshot := MkSnapshot Ready CollectionOk (Some 1) [] None (Some EventsOk).
Definition reader_world : World (Rest ()) :=
  MkWorld (empty_db <| db_users := {[ "r"%string := MkUser "r@example.com" "" false true 0 ]} |>
             <| db_sessions := {[ @digest_of plain_digests "token" := MkSession "r" "csrf" 9000000 ]} |>
             <| db_projects := {[ "p"%string := read_project ]} |>
             <| db_members := {[ ("p", "r")%string := RViewer ]} |>
             <| db_bindings := {[ "i"%string := read_binding ]} |>)
    (no_observations <| ob_snapshots := {[ "i"%string := MkSnapshotRow "p" "u" 3000000 read_snapshot ]} |>
                     <| ob_events := {[ "e"%string := MkEventRow "p" "i" "u" 7 "instance.observed" None
                                          (InstanceObserved Ready (Some 1) []) ]} |>, (0, tt)) 5000000 [] [].

Lemma project_observability_exact_witness : ∃ o w',
  @get_project_observability () plain_digests (λ _, true) reader_request "p" reader_world = (Ok o, w') ∧
  pv_covered o = 1 ∧ pv_truncated o = false.
Proof.
  destruct (@get_project_observability () plain_digests (λ _, true) reader_request "p" reader_world) as [[o|e] w'] eqn:E;
    [|apply (f_equal (λ x, is_ok x.1)) in E; vm_compute in E; discriminate E].
  exists o, w'. split; [reflexivity|].
  destruct (@project_observability_exact () plain_digests (λ _, true) reader_request "p" reader_world o w' E)
    as (_ & (all & _ & _ & _ & _ & Ht & Htr) & _).
  assert (pv_covered o = 1 ∧ pv_total o = 1) as [-> Ht'] by (vm_compute in E; by injection E as <- _).
  split; [done|]. apply not_true_iff_false. intros Hlt%Htr. lia.
Defined.

Lemma events_exact_witness : ∃ tl w',
  @get_events () plain_digests (λ _, true) reader_request "p" "i" reader_world = (Ok tl, w') ∧
  tl_id <$> tm_items tl = ["e"%string] ∧ StronglySorted (λ x y, tl_time y ≤ tl_time x) (tm_items tl).
Proof.
  destruct (@get_events () plain_digests (λ _, true) reader_request "p" "i" reader_world) as [[tl|e] w'] eqn:E;
    [|apply (f_equal (λ x, is_ok x.1)) in E; vm_compute in E; discriminate E].
  exists tl, w'. split; [reflexivity|].
  destruct (@events_exact () plain_digests (λ _, true) reader_request "p" "i" reader_world tl w' E)
    as (a & w1 & w2 & w3 & uid & b & _ & _ & _ & _ & _ & Hs & _).
  split; [|exact Hs]. vm_compute in E. injection E as <- _. reflexivity.
Defined.
