(* ===== verification/Projects.v ===== *)
(** * Projects, quotas and members

    [apps/admin-api/src/app.ts]: creating and listing projects, the inventory
    status, reading and changing a quota, retrying a failed initialisation,
    and the members of a project. *)
From Stdlib Require Import ZArith Lia Ascii Init.Byte.
From stdpp Require Import base tactics list option strings gmap sorting.
From S2P Require Import Prelude Regex Numbers Effects Catalog Json Contract Database Quotas Secrets Security.
From S2P Require Import Accounts Kubernetes Routes.

(** ** Statements *)

(** [INSERT INTO projects]: the primary key and the namespace of the (only)
    cluster are unique. *)
Definition insert_project (id : string) (p : Project) (db : DB) : res () * DB :=
  if bool_decide (is_Some (db_projects db !! id)) then (Throw (PgUnique "projects_pkey"), db)
  else if existsb (λ o, String.eqb (pr_namespace o) (pr_namespace p)) (rows (db_projects db))
  then (Throw (PgUnique "projects_cluster_id_namespace_key"), db)
  else (Ok tt, db <| db_projects ::= <[id := p]> |>).

(** The row of a new project, with the column defaults of the schema. *)
Definition new_project (now : Z) (name namespace actor : string) : Project :=
  {| pr_name := name; pr_namespace := namespace; pr_state := PPending; pr_created_by := actor;
     pr_created_at := now; pr_quota_limits := quota_json (MkQuota None None None None);
     pr_quota_revision := 1; pr_quota_observed_revision := None; pr_quota_checked_at := None;
     pr_quota_sync_error := None; pr_quota_next_sync := now; pr_inventory_result := None;
     pr_inventory_checked_at := None; pr_inventory_next_scan := now;
     pr_inventory_worker_id := None; pr_inventory_lease_until := None |}.

Definition insert_member (projectId userId : string) (r : Role) (db : DB) : res () * DB :=
  if bool_decide (is_Some (db_members db !! (projectId, userId)))
  then (Throw (PgUnique "project_members_pkey"), db)
  else (Ok tt, db <| db_members ::= <[(projectId, userId) := r]> |>).

(** [least(inventory_next_scan, greatest(now(), coalesce(checked, now() - 10 s) + 10 s))] *)
Definition refresh_row (now : Z) (p : Project) : Project :=
  p <| pr_inventory_next_scan ::= λ next, Z.min next
         (Z.max now (nullish (pr_inventory_checked_at p) (now - seconds 10) + seconds 10)) |>.

(** The limits of the next revision, to be synchronised at once. *)
Definition quota_row (limits : Quota) (now : Z) (p : Project) : Project :=
  p <| pr_quota_limits := quota_json limits |> <| pr_quota_revision ::= Z.add 1 |>
    <| pr_quota_observed_revision := None |> <| pr_quota_sync_error := None |>
    <| pr_quota_next_sync := now |>.

(** [/^"?[1-9][0-9]*"?$/] without its quotes. *)
Definition quota_revision (request : Request) : res string :=
  let quotes := ropt (RChr (Ascii.eqb quote)) in
  match hd_if_match request with
  | Some s =>
      if test (RSeq quotes (RSeq (RChr (λ c, is_digit c && negb (Ascii.eqb c "0")))
                (RSeq (RStar rdigit) quotes))) s
      then Ok (of_chars (filter (λ c, c ≠ quote) (chars s))) else Throw ZodError
  | None => Throw ZodError
  end.

Definition role_str (r : Role) : string :=
  match r with RAdmin => "admin" | RMaintainer => "maintainer" | RViewer => "viewer" end.
Definition z_role : json → option Role := z_enum [RAdmin; RMaintainer; RViewer] role_str.

(** ** Request bodies *)
Definition project_body : json → option string :=
  strict ["name"] (λ fs, required (z_trimmed 1 100) (field "name" fs)).
Definition member_body (is_email : string → bool) : json → option (string * Role) :=
  strict ["email"; "role"] (λ fs,
    email ← required (z_email is_email) (field "email" fs);
    role ← required z_role (field "role" fs);
    Some (email, role)).
Definition role_body : json → option Role :=
  strict ["role"] (λ fs, required z_role (field "role" fs)).

(** ** Handlers *)
Section projects.
Context {K : Type} `{KubernetesPort K} `{Digests}.
Context (is_uuid is_email : string → bool).
(** The collation of the database, for [ORDER BY email]. *)
Context (email_le : relation string) `{!RelDecision email_le}.

Definition audit_project (actor projectId : string) (operationId : option string) (action : string)
    (details : list (string * json)) : M (World K) () :=
  execute_sql (λ _, add_audit (MkAudit (Some actor) (Some projectId) None operationId action details)).

(** The platform administrator's own row, read again under the lock. *)
Definition platform_admin (actor : Actor) (db : DB) : bool :=
  match db_users db !! at_id actor with Some u => us_active u && us_platform_admin u | None => false end.

(** [GET /v1/projects]: newest first, with the caller's role unless he is a
    platform administrator. *)
Definition newest_project (a b : string * Project * option Role) : Prop :=
  pr_created_at b.1.2 ≤ pr_created_at a.1.2.
#[local] Instance newest_project_dec a b : Decision (newest_project a b).
Proof. unfold newest_project. apply _. Defined.
Definition get_projects (request : Request) : M (World K) (list (string * Project * option Role)) :=
  actor ← user request;
  pool (query (λ _ db, take 200 (merge_sort newest_project
    (if at_platform_admin actor then (λ r, (r, None)) <$> map_to_list (db_projects db)
     else omap (λ r, role ← db_members db !! (r.1, at_id actor); Some (r, Some role))
            (map_to_list (db_projects db)))))).

(** [POST /v1/projects] *)
Definition create_project (id operationId : string) (request : Request) : M (World K) (string * string) :=
  actor ← user request;
  throw_if (negb (at_platform_admin actor)) (HttpError 403 "Platform administrator required") ;;
  name ← lift (of_option ZodError (project_body (hd_body request)));
  let namespace := "expbuild-" +:+ id in
  transaction
    (execute_res (λ now, insert_project id (new_project now name namespace (at_id actor))) ;;
     execute_res (λ _, insert_member id (at_id actor) RAdmin) ;;
     execute_res (λ now, insert_operation (new_operation now operationId id None ProjectCreate id
       (digest_of namespace) (empty_request <| rq_namespace := Some namespace |>) None (at_id actor))) ;;
     audit_project (at_id actor) id None "project.create" []) ;;
  mret (id, namespace).

(** [GET .../inventory] and [POST .../inventory/refresh] *)
Definition get_inventory (request : Request) (projectId : string) :
    M (World K) (option InventoryResult * option Z) :=
  ids is_uuid [projectId] ;;
  projectAccess request projectId all_roles ;;
  row ← pool (query (λ _ db, db_projects db !! projectId));
  p ← lift (of_option (JsError "Cannot read properties of undefined") row);
  mret (pr_inventory_result p, js_date <$> pr_inventory_checked_at p).
Definition refresh_inventory (request : Request) (projectId : string) : M (World K) () :=
  ids is_uuid [projectId] ;;
  projectAccess request projectId all_roles ;;
  pool (execute_sql (λ now db, db <| db_projects ::= update_row always (refresh_row now) projectId |>)).

(** [GET .../quota] *)
Definition get_quota (request : Request) (projectId : string) : M (World K) Snapshot :=
  ids is_uuid [projectId] ;;
  projectAccess request projectId all_roles ;;
  transaction (quotaSnapshot projectId).

(** [PUT .../quota] *)
Definition put_quota (request : Request) (projectId : string) : M (World K) Snapshot :=
  ids is_uuid [projectId] ;;
  actor ← projectAccess request projectId [RAdmin];
  throw_if (negb (at_platform_admin actor)) (HttpError 403 "Platform administrator required") ;;
  limits ← lift (of_option ZodError (quotaInput (hd_body request)));
  expected ← lift (quota_revision request);
  transaction
    (fresh ← query (λ _, platform_admin actor);
     throw_if (negb fresh) (HttpError 403 "Platform administrator required") ;;
     current ← quotaSnapshot projectId;
     throw_if (negb (String.eqb (dec_str (sn_revision current)) expected))
       (HttpError 409 "Project quota changed") ;;
     lift (checkQuota limits (sn_reserved current) (sn_unknownReservations current)) ;;
     execute_sql (λ now db, db <| db_projects ::= update_row always (quota_row limits now) projectId |>) ;;
     audit_project (at_id actor) projectId None "quota.update"
       [("before", quota_json (sn_limits current)); ("after", quota_json limits)] ;;
     quotaSnapshot projectId).

(** [POST .../retry]: the reply is the operation's id, state and error. *)
Definition retry_project (id : string) (request : Request) (projectId : string) :
    M (World K) (string * OpState * option string) :=
  throw_if (negb (is_uuid projectId)) ZodError ;;
  actor ← projectAccess request projectId [RAdmin];
  key ← lift (idempotencyKey request);
  transaction
    (project ← query (λ _ db, db_projects db !! projectId);
     fresh ← query (λ _, permitted actor projectId [RAdmin]);
     throw_if (negb fresh) (HttpError 403 "Permission denied") ;;
     project ← lift (of_option (HttpError 404 "Project not found") project);
     previous ← query (λ _ db, js_find (same_request_key projectId ProjectCreate key) (rows (db_operations db)));
     match previous with
     | Some op => mret (op_id op, op_state op, op_error_code op)
     | None =>
         throw_if (negb (bool_decide (pr_state project = PFailed)))
           (HttpError 409 "Only failed project initialization can be retried") ;;
         execute_res (λ now, insert_operation (new_operation now id projectId None ProjectCreate key
           (digest_of (pr_namespace project)) (empty_request <| rq_namespace := Some (pr_namespace project) |>)
           None (at_id actor))) ;;
         execute_sql (λ _ db, db <| db_projects ::=
           update_row always (λ p, p <| pr_state := PPending |>) projectId |>) ;;
         audit_project (at_id actor) projectId (Some id) "project.retry" [] ;;
         mret (id, Pending, None)
     end).

(** [GET .../members] *)
Definition by_email (a b : string * string * Role) : Prop := email_le a.1.2 b.1.2.
#[local] Instance by_email_dec a b : Decision (by_email a b).
Proof. unfold by_email. apply _. Defined.
Definition get_members (request : Request) (projectId : string) : M (World K) (list (string * string * Role)) :=
  throw_if (negb (is_uuid projectId)) ZodError ;;
  projectAccess request projectId [RAdmin] ;;
  pool (query (λ _ db, merge_sort by_email
    (omap (λ r : (string * string) * Role,
       if String.eqb r.1.1 projectId
       then u ← db_users db !! r.1.2; Some (r.1.2, us_email u, r.2) else None)
      (map_to_list (db_members db))))).

(** The member a change is about: by identifier or by address. *)
Inductive Target := ById (id : string) | ByEmail (email : string).
Definition find_target (t : Target) (db : DB) : option (string * User) :=
  match t with
  | ById id => u ← db_users db !! id; Some (id, u)
  | ByEmail email => user_by_email email db
  end.

(** [changeMember]; no role removes the member. *)
Definition changeMember (request : Request) (projectId : string) (target : Target) (role : option Role) :
    M (World K) () :=
  actor ← projectAccess request projectId [RAdmin];
  transaction
    (fresh ← query (λ _, permitted actor projectId [RAdmin]);
     throw_if (negb fresh) (HttpError 403 "Permission denied") ;;
     member ← query (λ _, find_target target);
     throw_if (match member with
               | Some (_, u) => negb (oeq role None) && negb (us_active u)
               | None => true
               end) (HttpError 404 "Active user not found") ;;
     let id := match member with Some (id, _) => id | None => "" end in
     admins ← query (λ _, project_admins projectId);
     throw_if (negb (oeq role (Some RAdmin)) && bool_decide (admins = [id]))
       (HttpError 409 "Project must retain an administrator") ;;
     execute_sql (λ _ db, db <| db_members ::= match role with
       | None => delete (projectId, id)
       | Some r => <[(projectId, id) := r]>
       end |>) ;;
     audit_project (at_id actor) projectId None
       (if oeq role None then "member.remove" else "member.update")
       [("userId", JStr id); ("role", json_nullable (λ r, JStr (role_str r)) role)]).

(** [POST .../members], [PUT .../members/:userId], [DELETE .../members/:userId] *)
Definition add_member (request : Request) (projectId : string) : M (World K) () :=
  throw_if (negb (is_uuid projectId)) ZodError ;;
  '(email, role) ← lift (of_option ZodError (member_body is_email (hd_body request)));
  changeMember request projectId (ByEmail email) (Some role).
Definition set_member (request : Request) (projectId userId : string) : M (World K) () :=
  ids is_uuid [projectId; userId] ;;
  role ← lift (of_option ZodError (role_body (hd_body request)));
  changeMember request projectId (ById userId) (Some role).
Definition remove_member (request : Request) (projectId userId : string) : M (World K) () :=
  ids is_uuid [projectId; userId] ;;
  changeMember request projectId (ById userId) None.
End projects.
