(* ===== verification/Documented.v ===== *)
(** * The document and the handlers

    What the OpenAPI document of [openapi.ts] says about the bodies of requests,
    against what the handlers accept: a validator of the fragment of JSON Schema
    the document uses, the two schemas the schema library generated as they are
    published in [docs/k8s-platform/openapi.json], and where they agree with the
    schemas of the handlers and where they do not. *)
From Stdlib Require Import ZArith Lia Ascii Init.Byte.
From stdpp Require Import base tactics list option strings gmap sets.
From S2P Require Import Prelude Regex Numbers Effects Catalog Json Contract Database Quotas Secrets Security Http Statistics Series Backends Alerts.
From S2P Require Import Accounts Kubernetes Routes Observations Observability Projects OpenApi.

(** ** Validation

    [formats] and [patterns] are the engine of the validator for the keywords
    [format] and [pattern].  A keyword that is not known is refused, an
    annotation is skipped. *)
Section validator.
Context (formats patterns : string → string → bool) (defs : list (string * json)).

Definition has_type (t : string) (j : json) : bool :=
  match j with
  | JNull => String.eqb t "null" | JBool _ => String.eqb t "boolean"
  | JInt _ => includes ["integer"; "number"] t | JFrac _ _ => String.eqb t "number"
  | JStr _ => String.eqb t "string" | JArr _ => String.eqb t "array" | JObj _ => String.eqb t "object"
  end.
Definition same_scalar (a b : json) : bool :=
  match a, b with
  | JNull, JNull => true
  | JBool a, JBool b => Bool.eqb a b
  | JInt a, JInt b => a =? b
  | JStr a, JStr b => String.eqb a b
  | _, _ => false
  end.
Definition at_least (n : json) (j : json) : bool :=
  match n, j with
  | JInt n, JInt z => n <=? z
  | JInt n, JFrac a d => n * d <=? a
  | _, (JInt _ | JFrac _ _) => false
  | _, _ => true
  end.
Definition at_most (n : json) (j : json) : bool :=
  match n, j with
  | JInt n, JInt z => z <=? n
  | JInt n, JFrac a d => a <=? n * d
  | _, (JInt _ | JFrac _ _) => false
  | _, _ => true
  end.
(** A keyword on texts, on objects. *)
Definition on_text (f : string → bool) (j : json) : bool := match j with JStr s => f s | _ => true end.
Definition on_object (f : list (string * json) → bool) (j : json) : bool := match j with JObj fs => f fs | _ => true end.
Definition on_array (f : list json → bool) (j : json) : bool := match j with JArr l => f l | _ => true end.
Definition present (fs : list (string * json)) (key : json) : bool :=
  match key with JStr k => negb (oeq (const tt <$> field k fs) None) | _ => false end.
Definition property (valid : json → json → bool) (fs : list (string * json)) (p : string * json) : bool :=
  match field p.1 fs with Some x => valid p.2 x | None => true end.
Definition definition_of (r : string) : option json :=
  snd <$> head (filter (λ d, "#/components/schemas/" +:+ d.1 = r) defs).

Definition keyword (valid : json → json → bool) (all : list (string * json)) (j : json) (p : string * json) : bool :=
  let '(k, v) := p in
  let named := String.eqb k in
  if named "type" then
    existsb (λ t, match t with JStr t => has_type t j | _ => false end) (match v with JArr ts => ts | _ => [v] end)
  else if named "const" then same_scalar v j
  else if named "enum" then existsb (λ v, same_scalar v j) (elements (Some v))
  else if named "minLength" then on_text (λ s, at_least v (JInt (js_length s))) j
  else if named "maxLength" then on_text (λ s, at_most v (JInt (js_length s))) j
  else if named "minimum" then at_least v j
  else if named "maximum" then at_most v j
  else if named "format" then on_text (λ s, match v with JStr f => formats f s | _ => false end) j
  else if named "pattern" then on_text (λ s, match v with JStr f => patterns f s | _ => false end) j
  else if named "anyOf" then existsb (λ s, valid s j) (elements (Some v))
  else if named "$ref" then
    match v with JStr r => match definition_of r with Some s => valid s j | None => false end | _ => false end
  else if named "properties" then on_object (λ fs, forallb (property valid fs) (entries (Some v))) j
  else if named "required" then on_object (λ fs, forallb (present fs) (elements (Some v))) j
  else if named "additionalProperties" then
    let known := (entries (field "properties" all)).*1 in
    match v with
    | JBool false => on_object (only_keys known) j
    | JObj _ => on_object (forallb (λ e : string * json, includes known e.1 || valid v e.2)) j
    | _ => false
    end
  else if named "items" then on_array (forallb (valid v)) j
  else if named "maxItems" then on_array (λ l, at_most v (JInt (Z.of_nat (length l)))) j
  else includes ["description"; "default"; "writeOnly"; "$schema"] k.

Fixpoint valid (depth : nat) (schema j : json) : bool :=
  match depth with
  | O => false
  | S depth => match schema with JObj all => forallb (keyword (valid depth) all j) all | _ => false end
  end.
End validator.

(** The schema of the body of an operation, and of one of its headers. *)
Definition operation_named (id : string) (doc : json) : option json :=
  snd <$> head (filter (λ o, operation_id o = id) (operations doc)).
Definition body_schema (id : string) (doc : json) : option json :=
  op ← operation_named id doc; body ← member "requestBody" op; content ← member "content" body;
  media ← member "application/json" content; member "schema" media.
Definition header_schema (id name : string) (doc : json) : option json :=
  op ← operation_named id doc;
  p ← head (filter (λ p, text_is name (member "name" p) = true) (elements (member "parameters" op)));
  member "schema" p.
(** The schemas of the document are less than ten levels deep. *)
Definition document_accepts (formats patterns : string → string → bool) (doc : json) (schema : option json) (j : json) : bool :=
  match schema with Some s => valid formats patterns (defined_schemas doc) 10 s j | None => false end.

(** ** The generated schemas *)
Definition integer_schema (lo hi : Z) : json :=
  JObj [("type", JStr "integer"); ("minimum", JInt lo); ("maximum", JInt hi)].
Definition limit_schema : json := JObj [("anyOf", JArr [integer_schema 0 2147483647; JObj [("type", JStr "null")]])].
Definition quota_properties : list (string * json) :=
  [("instances", limit_schema); ("storageGiB", limit_schema); ("cpuMillis", limit_schema); ("memoryMiB", limit_schema)].
Definition published_quota : list (string * json) :=
  [("$schema", JStr "https://json-schema.org/draft/2020-12/schema"); ("type", JStr "object");
   ("properties", JObj quota_properties);
   ("required", JArr [JStr "instances"; JStr "storageGiB"; JStr "cpuMillis"; JStr "memoryMiB"]);
   ("additionalProperties", JBool false)].

Definition defaulted_integer (d lo hi : Z) : json :=
  JObj [("default", JInt d); ("type", JStr "integer"); ("minimum", JInt lo); ("maximum", JInt hi)].
Definition defaulted_enum (d : string) (members : list string) : json :=
  JObj [("default", JStr d); ("type", JStr "string"); ("enum", JArr (JStr <$> members))].
Definition common_properties : list (string * json) :=
  [("name", JObj [("type", JStr "string"); ("minLength", JInt 1); ("maxLength", JInt 100)]);
   ("storageGiB", integer_schema 2 1048576); ("cpuMillis", defaulted_integer 500 100 64000);
   ("memoryMiB", defaulted_integer 512 128 262144);
   ("exposure", defaulted_enum "ClusterInternal" ["ClusterInternal"; "Gateway"]);
   ("desiredState", defaulted_enum "Running" ["Running"; "Suspended"]);
   ("deletionPolicy", defaulted_enum "Retain" ["Retain"; "Delete"])].
Definition template_const (t : Template) : json :=
  JObj ((match t with BazelRemote => [("default", JStr (template_str t))] | _ => [] end)
        ++ [("type", JStr "string"); ("const", JStr (template_str t))]).
Definition readOnly_properties (t : Template) : list (string * json) :=
  match t with GoCacheprog => [("readOnly", JObj [("default", JBool true); ("type", JStr "boolean")])] | _ => [] end.
Definition cache_schema (t : Template) : json :=
  match t with WebdavApache => JObj [("type", JStr "number"); ("const", JInt 0)] | _ => integer_schema 1 1048575 end.
Definition variant (t : Template) : json :=
  object_with (common_properties ++ [("template", template_const t)] ++ readOnly_properties t ++ [("cacheGiB", cache_schema t)])
    (["name"; "storageGiB"] ++ (match t with BazelRemote => [] | _ => ["template"] end) ++ ["cacheGiB"]) true.
Definition published_instance : list (string * json) :=
  [("$schema", JStr "https://json-schema.org/draft/2020-12/schema"); ("anyOf", JArr (variant <$> all_templates))].
(** The document as it is published. *)
Definition published : json := openapi published_instance published_quota.

(** * The agreement *)

(** A schema of the code takes a value. *)
Definition takes {A} (o : option A) : bool := match o with Some _ => true | None => false end.
Lemma takes_bind {A B} (o : option A) (f : A → option B) :
  takes (o ≫= f) = takes o && match o with Some a => takes (f a) | None => false end.
Proof. by destruct o. Qed.

Section agreement.
Context (formats patterns : string → string → bool) (defs : list (string * json)).
#[warnings="-notation-for-abbreviation"] Notation valid := (valid formats patterns defs).

(** A property that describes what a field of the code takes. *)
Definition describes {A} (n : nat) (schema : json) (p : json → option A) : Prop := ∀ x, valid n schema x = takes (p x).

Lemma text_described n lo hi extra : (∀ k v, (k, v) ∈ extra → k = "writeOnly") →
  describes (S n) (JObj ([("type", JStr "string"); ("minLength", JInt lo); ("maxLength", JInt hi)] ++ extra)) (z_text lo hi).
Proof.
  intros Hx x. cbn -[js_length forallb includes app]. rewrite forallb_app.
  assert (forallb (keyword formats patterns defs (valid n) ([("type", JStr "string"); ("minLength", JInt lo); ("maxLength", JInt hi)] ++ extra) x) extra = true) as ->.
  { apply forallb_forall. intros [k v] ->%list_elem_of_In%Hx. done. }
  rewrite andb_true_r. destruct x; try done. unfold z_text. cbn. rewrite andb_true_r. by destruct (_ && _).
Qed.
Lemma integer_described n lo hi : describes (S n) (integer_schema lo hi) (z_int lo hi).
Proof. intros x. destruct x; try done. cbn. rewrite andb_true_r. by destruct (_ && _). Qed.
Lemma defaulted_integer_described n d lo hi : describes (S n) (defaulted_integer d lo hi) (z_int lo hi).
Proof. intros x. destruct x; try done. cbn. rewrite andb_true_r. by destruct (_ && _). Qed.
Lemma bool_described n : describes (S n) bool_schema z_bool.
Proof. intros x. by destruct x. Qed.
Lemma email_described n : describes (S n) email_schema (z_email (formats "email")).
Proof. intros x. destruct x; try done. unfold z_email. cbn. rewrite andb_true_r. by destruct (_ && _). Qed.
Lemma limit_described n : describes (S (S n)) limit_schema limit.
Proof.
  intros x. destruct x; try done. cbn. rewrite !andb_true_r, orb_false_r. by destruct (_ && _).
Qed.

(** ** Strict objects *)
Lemma valid_object n ps req fs :
  valid (S n) (object_with ps req true) (JObj fs) =
  forallb (property (valid n) fs) ps && forallb (present fs) (JStr <$> req) && only_keys ps.*1 fs.
Proof. cbn. by rewrite andb_true_r, andb_assoc. Qed.
Lemma valid_object_generated n dialect ps req fs :
  valid (S n) (JObj [("$schema", dialect); ("type", JStr "object"); ("properties", JObj ps);
                     ("required", JArr (JStr <$> req)); ("additionalProperties", JBool false)]) (JObj fs) =
  forallb (property (valid n) fs) ps && forallb (present fs) (JStr <$> req) && only_keys ps.*1 fs.
Proof. cbn. by rewrite andb_true_r, andb_assoc. Qed.
Lemma valid_no_object n ps req j : match j with JObj _ => False | _ => True end →
  valid (S n) (object_with ps req true) j = false.
Proof. by destruct j. Qed.

Lemma required_described {A} n fs k schema (p : json → option A) : describes n schema p →
  property (valid n) fs (k, schema) && present fs (JStr k) = takes (required p (field k fs)).
Proof.
  intros Hp. unfold property, present, required. simpl. destruct (field k fs) as [x|]; [|done].
  cbn. by rewrite Hp, andb_true_r.
Qed.
Lemma defaulted_described {A} n fs k schema d (p : json → option A) : describes n schema p →
  property (valid n) fs (k, schema) = takes (defaulted d p (field k fs)).
Proof. intros Hp. unfold property, defaulted. simpl. by destruct (field k fs). Qed.

Lemma one_field_described {A} n k schema (p : json → option A) : describes n schema p →
  describes (S n) (strict_object [(k, schema)]) (strict [k] (λ fs, required p (field k fs))).
Proof.
  intros Hp j. destruct j as [| | | | | |fs]; try done. unfold strict_object, strict. rewrite valid_object.
  pose proof (required_described n fs k schema p Hp) as E. revert E. cbn [forallb fst fmap list_fmap].
  rewrite !andb_true_r. destruct (only_keys _ _); [|by rewrite andb_false_r]. by rewrite andb_true_r.
Qed.
Lemma two_fields_described {A B} n k1 k2 schema1 schema2 (p1 : json → option A) (p2 : json → option B) :
  describes n schema1 p1 → describes n schema2 p2 →
  describes (S n) (strict_object [(k1, schema1); (k2, schema2)])
    (strict [k1; k2] (λ fs, a ← required p1 (field k1 fs); b ← required p2 (field k2 fs); Some (a, b))).
Proof.
  intros H1 H2 j. destruct j as [| | | | | |fs]; try done. unfold strict_object, strict. rewrite valid_object.
  pose proof (required_described n fs k1 schema1 p1 H1) as E1.
  pose proof (required_described n fs k2 schema2 p2 H2) as E2. revert E1 E2. cbn [forallb fst fmap list_fmap].
  generalize (property (valid n) fs (k1, schema1)), (property (valid n) fs (k2, schema2)),
    (present fs (JStr k1)), (present fs (JStr k2)). intros a1 a2 b1 b2.
  destruct (only_keys _ fs); [|by rewrite andb_false_r].
  destruct (required p1 _), (required p2 _), a1, a2, b1, b2; simpl; congruence.
Qed.
End agreement.

(** ** Enumerations and trimmed names *)
Lemma find_takes {A} (members : list A) (show : A → string) s :
  existsb (λ v, same_scalar v (JStr s)) (JStr <$> (show <$> members)) =
  takes (list_find (λ a, show a = s) members ≫= λ '(_, a), Some a).
Proof.
  induction members as [|a members IH]; [done|]. cbn [fmap list_fmap existsb list_find].
  change (list_fmap _ _ ?f ?l) with (f <$> l). rewrite IH. simpl. case_decide as E.
  - apply String.eqb_eq in E. by rewrite E.
  - apply String.eqb_neq in E. rewrite E. simpl. by destruct (list_find _ _) as [[]|].
Qed.

Definition trim_text (v : json) : json := match v with JStr s => JStr (trim s) | _ => v end.
Definition trim_field (p : string * json) : string * json :=
  if String.eqb p.1 "name" then (p.1, trim_text p.2) else p.
(** A body with its name trimmed. *)
Definition trim_name (j : json) : json := match j with JObj fs => JObj (trim_field <$> fs) | _ => j end.

Lemma field_trim k fs : field k (trim_field <$> fs) = (if String.eqb k "name" then trim_text else id) <$> field k fs.
Proof.
  induction fs as [|[k' v] fs IH]; [done|]. cbn [fmap list_fmap field].
  change (list_fmap _ _ ?f ?l) with (f <$> l). unfold trim_field at 1. simpl.
  destruct (String.eqb k' "name") eqn:Hn; simpl; destruct (String.eqb k' k) eqn:E; try exact IH;
    apply String.eqb_eq in E as <-; by rewrite Hn.
Qed.
Lemma only_keys_trim keys fs : only_keys keys (trim_field <$> fs) = only_keys keys fs.
Proof.
  induction fs as [|[k v] fs IH]; [done|]. cbn [fmap list_fmap]. change (list_fmap _ _ ?f ?l) with (f <$> l).
  unfold only_keys in *. simpl. rewrite IH. unfold trim_field. simpl. by destruct (String.eqb k "name").
Qed.
Lemma only_keys_same keys keys' fs : (∀ k, k ∈ keys ↔ k ∈ keys') → only_keys keys fs = only_keys keys' fs.
Proof.
  intros Hk. unfold only_keys. induction fs as [|[k v] fs IH]; [done|]. simpl. rewrite IH. f_equal.
  apply eq_true_iff_eq. by rewrite !includes_spec.
Qed.

Section variants.
Context (formats patterns : string → string → bool) (defs : list (string * json)).
#[warnings="-notation-for-abbreviation"] Notation valid := (valid formats patterns defs).
#[warnings="-notation-for-abbreviation"] Notation describes := (describes formats patterns defs).

Lemma enum_described {A} n (members : list A) (show : A → string) :
  describes (S n) (JObj [("type", JStr "string"); ("enum", JArr (JStr <$> (show <$> members)))]) (z_enum members show).
Proof.
  intros x. unfold z_enum. destruct x; try done. simpl. rewrite <-find_takes. by rewrite andb_true_r.
Qed.
Lemma defaulted_enum_described {A} n d (members : list A) (show : A → string) :
  describes (S n) (defaulted_enum d (show <$> members)) (z_enum members show).
Proof.
  intros x. unfold z_enum. destruct x; try done. simpl. rewrite <-find_takes. by rewrite andb_true_r.
Qed.
Lemma template_described n t : describes (S n) (template_const t) (z_template t).
Proof.
  intros x. unfold z_template, z_enum. destruct x as [| | | |s| |]; try by destruct t.
  change (takes _) with (takes (list_find (λ a, template_str a = s) [t] ≫= λ '(_, a), Some a)).
  rewrite <-find_takes. destruct t; cbn -[String.eqb]; by rewrite ?orb_false_r, ?andb_true_r.
Qed.
Definition cache_parser (t : Template) : json → option Z :=
  match t with WebdavApache => z_zero | _ => z_int 1 1048575 end.
Lemma cache_described n t : describes (S n) (cache_schema t) (cache_parser t).
Proof.
  destruct t; try apply integer_described. intros x. by destruct x as [| |[]| | | |].
Qed.
Lemma name_described n lo hi x :
  valid (S n) (JObj [("type", JStr "string"); ("minLength", JInt lo); ("maxLength", JInt hi)]) (trim_text x) =
  takes (z_trimmed lo hi x).
Proof. destruct x as [| | | |s| |]; try done. unfold z_trimmed. cbn. rewrite andb_true_r. by destruct (_ && _). Qed.

(** The parts of the schema of a template. *)
Definition template_field (t : Template) : option json → option Template :=
  match t with BazelRemote => defaulted BazelRemote (z_template t) | _ => required (z_template t) end.
Definition readOnly_field (t : Template) : option json → option (option bool) :=
  match t with GoCacheprog => λ o, Some <$> defaulted true z_bool o | _ => no_readOnly end.
Definition extra_keys (t : Template) : list string := match t with GoCacheprog => ["readOnly"] | _ => [] end.
Definition template_input (t : Template) : json → option InstanceInput :=
  extended (extra_keys t) (template_field t) (cache_parser t) (readOnly_field t).
Lemma schema_template_input t j :
  schema t j = match t with WebdavApache => template_input t j | _ => leaves_space (template_input t j) end.
Proof. by destruct t. Qed.

Lemma extended_takes extra template cache readOnly fs :
  takes (extended extra template cache readOnly (JObj fs)) =
  only_keys (common_keys ++ ["template"; "cacheGiB"] ++ extra) fs &&
  (takes (required (z_trimmed 1 100) (field "name" fs)) && takes (required (z_int 2 1048576) (field "storageGiB" fs)) &&
   takes (defaulted 500 (z_int 100 64000) (field "cpuMillis" fs)) &&
   takes (defaulted 512 (z_int 128 262144) (field "memoryMiB" fs)) &&
   takes (defaulted ClusterInternal (z_enum [ClusterInternal; Gateway] exposure_str) (field "exposure" fs)) &&
   takes (defaulted Running (z_enum [Running; Catalog.Suspended] desiredState_str) (field "desiredState" fs)) &&
   takes (defaulted Retain (z_enum [Retain; Delete] deletionPolicy_str) (field "deletionPolicy" fs)) &&
   takes (template (field "template" fs)) && takes (required cache (field "cacheGiB" fs)) &&
   takes (readOnly (field "readOnly" fs))).
Proof.
  unfold extended, commonInput. destruct (only_keys _ fs); [|done].
  destruct (required (z_trimmed 1 100) _); simpl; [|done].
  destruct (required (z_int 2 1048576) _); simpl; [|done].
  destruct (defaulted 500 _ _); simpl; [|done]. destruct (defaulted 512 _ _); simpl; [|done].
  destruct (defaulted ClusterInternal _ _); simpl; [|done]. destruct (defaulted Running _ _); simpl; [|done].
  destruct (defaulted Retain _ _); simpl; [|done]. destruct (template _); simpl; [|done].
  destruct (required cache _); simpl; [|done]. by destruct (readOnly _).
Qed.

(** The fields of a body with a trimmed name. *)
Lemma trimmed_property n fs k schema : k ≠ "name" →
  property (valid n) (trim_field <$> fs) (k, schema) = property (valid n) fs (k, schema).
Proof.
  intros Hk%String.eqb_neq. unfold property. simpl. rewrite field_trim, Hk. by destruct (field k fs).
Qed.
Lemma trimmed_present fs k : present (trim_field <$> fs) (JStr k) = present fs (JStr k).
Proof. unfold present. rewrite field_trim. by destruct (field k fs). Qed.
Lemma trimmed_name n fs lo hi :
  property (valid (S n)) (trim_field <$> fs) ("name", JObj [("type", JStr "string"); ("minLength", JInt lo); ("maxLength", JInt hi)])
    && present fs (JStr "name") = takes (required (z_trimmed lo hi) (field "name" fs)).
Proof.
  unfold property, present, required. simpl. rewrite field_trim. destruct (field "name" fs) as [x|]; [|done].
  change (takes (Some x ≫= z_trimmed lo hi)) with (takes (z_trimmed lo hi x)).
  rewrite <-(name_described n lo hi x). simpl. by rewrite !andb_true_r.
Qed.

Lemma template_takes n t fs :
  takes (template_field t (field "template" fs)) =
  property (valid (S n)) fs ("template", template_const t) &&
  match t with BazelRemote => true | _ => present fs (JStr "template") end.
Proof.
  destruct t; cbn [template_field];
    try (symmetry; apply required_described, template_described).
  rewrite andb_true_r. symmetry. apply defaulted_described, template_described.
Qed.
Lemma readOnly_takes n t fs :
  takes (readOnly_field t (field "readOnly" fs)) = forallb (property (valid (S n)) fs) (readOnly_properties t).
Proof.
  destruct t; try done. cbn [readOnly_field readOnly_properties forallb]. rewrite andb_true_r.
  unfold property, defaulted. simpl. destruct (field "readOnly" fs) as [x|]; [|done]. by destruct x.
Qed.
Lemma variant_keys t fs :
  only_keys (common_properties ++ [("template", template_const t)] ++ readOnly_properties t ++ [("cacheGiB", cache_schema t)]).*1 fs
  = only_keys (common_keys ++ ["template"; "cacheGiB"] ++ extra_keys t) fs.
Proof. apply only_keys_same. intros k. destruct t; vm_compute; set_solver. Qed.

Lemma variant_template_input n t fs :
  valid (S (S n)) (variant t) (trim_name (JObj fs)) = takes (template_input t (JObj fs)).
Proof.
  unfold template_input. rewrite extended_takes. unfold variant. cbn [trim_name]. rewrite valid_object, only_keys_trim.
  rewrite <-(trimmed_name n fs 1 100).
  rewrite <-(required_described formats patterns defs (S n) fs "storageGiB" _ _ (integer_described _ _ _ n 2 1048576)).
  rewrite <-(required_described formats patterns defs (S n) fs "cacheGiB" _ _ (cache_described n t)).
  rewrite <-(defaulted_described formats patterns defs (S n) fs "cpuMillis" _ 500 _ (defaulted_integer_described _ _ _ n 500 100 64000)).
  rewrite <-(defaulted_described formats patterns defs (S n) fs "memoryMiB" _ 512 _ (defaulted_integer_described _ _ _ n 512 128 262144)).
  rewrite <-(defaulted_described formats patterns defs (S n) fs "exposure" _ ClusterInternal _
    (defaulted_enum_described n "ClusterInternal" [ClusterInternal; Gateway] exposure_str)).
  rewrite <-(defaulted_described formats patterns defs (S n) fs "desiredState" _ Running _
    (defaulted_enum_described n "Running" [Running; Catalog.Suspended] desiredState_str)).
  rewrite <-(defaulted_described formats patterns defs (S n) fs "deletionPolicy" _ Retain _
    (defaulted_enum_described n "Retain" [Retain; Delete] deletionPolicy_str)).
  rewrite (template_takes n), (readOnly_takes n), variant_keys.
  rewrite (andb_comm (_ && _) (only_keys _ _)). f_equal. unfold common_properties.
  rewrite !forallb_app. cbn [forallb]. generalize (property (valid (S n)) (trim_field <$> fs)
    ("name", JObj [("type", JStr "string"); ("minLength", JInt 1); ("maxLength", JInt 100)])).
  intros name. destruct t;
    cbn [forallb app fmap list_fmap readOnly_properties exposure_str desiredState_str deletionPolicy_str];
    rewrite !trimmed_property by done; rewrite !trimmed_present; apply eq_true_iff_eq; rewrite !andb_true_iff; tauto.
Qed.

(** ** The sizes *)
Definition small_cache (j : json) : bool :=
  match j with
  | JObj fs => match field "cacheGiB" fs, field "storageGiB" fs with Some (JInt c), Some (JInt s) => c <? s | _, _ => false end
  | _ => false
  end.
Lemma template_input_sizes t fs i : template_input t (JObj fs) = Some i →
  required (z_int 2 1048576) (field "storageGiB" fs) = Some (in_storageGiB i) ∧
  required (cache_parser t) (field "cacheGiB" fs) = Some (in_cacheGiB i).
Proof.
  unfold template_input, extended, commonInput. intros E. destruct (only_keys _ fs); [|done].
  repeat match type of E with mbind _ ?o = Some _ => let x := fresh "x" in
    apply bind_Some in E as (x & ? & E) end.
  injection E as <-.
  repeat match goal with H : mbind _ _ = Some _ |- _ => apply bind_Some in H as (? & ? & H); simpl in H end.
  by simplify_eq/=.
Qed.
Lemma z_int_number lo hi o z : required (z_int lo hi) o = Some z → o = Some (JInt z) ∧ lo ≤ z.
Proof.
  unfold required. intros (j & -> & E)%bind_Some. destruct j; try done. simpl in E.
  destruct (_ && _) eqn:Eb; [|done]. injection E as <-. boolify. done.
Qed.
Lemma schema_takes t fs : takes (schema t (JObj fs)) = takes (template_input t (JObj fs)) && small_cache (JObj fs).
Proof.
  rewrite schema_template_input. destruct (template_input t (JObj fs)) as [i|] eqn:E; [|by destruct t].
  apply template_input_sizes in E as [[Hs Hlo]%z_int_number Hc]. cbn [small_cache]. rewrite Hs.
  destruct t; cbn [cache_parser] in Hc; try (apply z_int_number in Hc as [-> _]; simpl; by destruct (_ <? _)).
  unfold required in Hc. apply bind_Some in Hc as (j & -> & Hc). destruct j as [| |[]| | | |]; try done.
  simpl in *. symmetry. apply Z.ltb_lt. lia.
Qed.
Lemma instance_takes n j :
  existsb (λ s, valid (S (S n)) s (trim_name j)) (variant <$> all_templates) && small_cache j = takes (instanceInput j).
Proof.
  destruct j as [| | | | | |fs]; try done.
  assert (takes (instanceInput (JObj fs)) = existsb (λ t, takes (schema t (JObj fs))) all_templates) as ->.
  { unfold instanceInput, z_union. simpl. repeat match goal with |- context [match ?o with Some _ => _ | None => _ end] => destruct o; [done|] end. done. }
  unfold all_templates. cbn [fmap list_fmap existsb]. rewrite !variant_template_input, !schema_takes.
  by destruct (small_cache _); rewrite ?andb_true_r, ?andb_false_r.
Qed.

End variants.

(** ** The bodies of the document *)
Section documented.
Context (formats patterns : string → string → bool).
(** [pattern] searches the text for the expression, as [RegExp.prototype.test]
    does; both patterns of the document are anchored. *)
Hypothesis fingerprint_search : ∀ s, patterns "^[a-fA-F0-9]{1,128}$" s = test fingerprint_pattern s.
Hypothesis key_search : ∀ s, patterns "^[a-zA-Z0-9._:-]+$" s = test (rplus (RChr (λ c, is_alnum c || one_of "._:-" c))) s.
(** The format of a time is that of the schema library. *)
Context (iso_datetime : string → option (option Z)).
Hypothesis date_time : ∀ s, formats "date-time" s = takes (iso_datetime s).

(** The published document accepts a body of an operation. *)
Definition accepts (id : string) (j : json) : bool :=
  document_accepts formats patterns published (body_schema id published) j.

Lemma accepts_body id schema j : body_schema id published = Some schema →
  accepts id j = valid formats patterns (defined_schemas published) 10 schema j.
Proof. unfold accepts, document_accepts. by intros ->. Qed.
Lemma valid_ref defs n r j :
  valid formats patterns defs (S n) (JObj [("$ref", JStr r)]) j =
  match definition_of defs r with Some s => valid formats patterns defs n s j | None => false end.
Proof. cbn. by rewrite andb_true_r. Qed.
Lemma accepts_ref id name schema j : body_schema id published = Some (ref name) →
  definition_of (defined_schemas published) ("#/components/schemas/" +:+ name) = Some schema →
  accepts id j = valid formats patterns (defined_schemas published) 9 schema j.
Proof.
  intros Hb Hd. rewrite (accepts_body id (ref name) j Hb). unfold ref. rewrite valid_ref. by rewrite Hd.
Qed.

Lemma role_described n : describes formats patterns (defined_schemas published) (S n) role_schema z_role.
Proof. exact (enum_described _ _ _ n [RAdmin; RMaintainer; RViewer] role_str). Qed.
Lemma fingerprint_described n : describes formats patterns (defined_schemas published) (S n)
  (JObj [("type", JStr "string"); ("pattern", JStr "^[a-fA-F0-9]{1,128}$")]) z_fingerprint.
Proof. intros x. destruct x; try done. unfold z_fingerprint. cbn. rewrite fingerprint_search, andb_true_r. by destruct (test _ _). Qed.
Lemma password_described n lo : describes formats patterns (defined_schemas published) (S n)
  (JObj [("type", JStr "string"); ("minLength", JInt lo); ("maxLength", JInt 1024); ("writeOnly", JBool true)]) (z_text lo 1024).
Proof. apply (text_described _ _ _ n lo 1024 [("writeOnly", JBool true)]). intros k v [= -> _]%list_elem_of_singleton. done. Qed.

Lemma valid_anyOf defs n schemas text j :
  valid formats patterns defs (S n) (JObj [("anyOf", JArr schemas); ("description", JStr text)]) j =
  existsb (λ s, valid formats patterns defs n s j) schemas.
Proof. cbn. by rewrite andb_true_r. Qed.

Lemma quota_described n j :
  valid formats patterns (defined_schemas published) (S (S (S n))) (JObj published_quota) j = takes (quotaInput j).
Proof.
  destruct j as [| | | | | |fs]; try done. unfold quotaInput.
  change (JObj published_quota) with (JObj [("$schema", JStr "https://json-schema.org/draft/2020-12/schema");
    ("type", JStr "object"); ("properties", JObj quota_properties);
    ("required", JArr (JStr <$> quota_properties.*1)); ("additionalProperties", JBool false)]).
  rewrite valid_object_generated.
  pose proof (λ k, required_described formats patterns (defined_schemas published) (S (S n)) fs k limit_schema limit
    (limit_described _ _ _ n)) as Hl.
  change quota_properties.*1 with ["instances"; "storageGiB"; "cpuMillis"; "memoryMiB"].
  destruct (only_keys _ fs); [|by rewrite andb_false_r]. rewrite !takes_bind.
  transitivity (takes (required limit (field "instances" fs)) && takes (required limit (field "storageGiB" fs)) &&
    takes (required limit (field "cpuMillis" fs)) && takes (required limit (field "memoryMiB" fs))).
  { rewrite <-!Hl. unfold quota_properties. cbn [forallb fmap list_fmap]. apply eq_true_iff_eq. rewrite !andb_true_iff. tauto. }
  destruct (required limit (field "instances" fs)); simpl; [|done].
  destruct (required limit (field "storageGiB" fs)); simpl; [|done].
  destruct (required limit (field "cpuMillis" fs)); simpl; [|done].
  by destruct (required limit (field "memoryMiB" fs)).
Qed.

(** The names of the bodies, the schema of the code behind each. *)
Lemma name_body_described n j :
  valid formats patterns (defined_schemas published) (S (S n))
    (strict_object [("name", JObj [("type", JStr "string"); ("minLength", JInt 1); ("maxLength", JInt 100)])]) (trim_name j)
  = takes (project_body j).
Proof.
  destruct j as [| | | | | |fs]; try done. cbn [trim_name]. unfold strict_object, project_body, strict.
  rewrite valid_object, only_keys_trim.
  pose proof (trimmed_name formats patterns (defined_schemas published) n fs 1 100) as E. revert E.
  cbn [forallb fmap list_fmap fst]. rewrite trimmed_present, !andb_true_r.
  destruct (only_keys _ fs); [|by rewrite andb_false_r]. by rewrite andb_true_r.
Qed.
Lemma instance_body_described n j :
  valid formats patterns (defined_schemas published) (S (S (S n))) (InstanceInput_schema published_instance) (trim_name j)
    && small_cache j = takes (instanceInput j).
Proof.
  rewrite <-(instance_takes formats patterns (defined_schemas published) n). f_equal.
  assert (∃ text, InstanceInput_schema published_instance =
    JObj [("anyOf", JArr (variant <$> all_templates)); ("description", JStr text)]) as [text ->]
    by (eexists; reflexivity).
  apply valid_anyOf.
Qed.

(** *** The webhook of the alerts *)

(** What the document leaves out of the handler's schema: the form of the
    fingerprint, and the lengths of names and texts. *)
Definition bounded_texts (hi : Z) (o : option json) : bool :=
  match o with
  | Some (JObj fs) =>
      forallb (λ e : string * json, (js_length e.1 <=? 128) && match e.2 with JStr s => js_length s <=? hi | _ => true end) fs
  | _ => true
  end.
Definition alert_limits (j : json) : bool :=
  match j with
  | JObj a => match field "fingerprint" a with Some (JStr s) => test fingerprint_pattern s | _ => true end &&
              bounded_texts 512 (field "labels" a) && bounded_texts 4096 (field "annotations" a)
  | _ => true
  end.
Definition webhook_limits (j : json) : bool :=
  match j with
  | JObj fs => match field "alerts" fs with Some (JArr l) => forallb alert_limits l | _ => true end
  | _ => true
  end.

Section webhook.
Context (defs : list (string * json)).
#[warnings="-notation-for-abbreviation"] Notation valid := (valid formats patterns defs).
#[warnings="-notation-for-abbreviation"] Notation described := (describes formats patterns defs).

Lemma valid_open_object n ps req fs :
  valid (S n) (object_with ps req false) (JObj fs) =
  forallb (property (valid n) fs) ps && forallb (present fs) (JStr <$> req).
Proof. cbn. by rewrite andb_true_r. Qed.
Lemma takes_mapM {A B} (p : A → option B) l : takes (mapM p l) = forallb (λ x, takes (p x)) l.
Proof.
  induction l as [|x l IH]; [done|]. simpl. rewrite <- IH. destruct (p x); simpl; [|done]. by destruct (mapM p l).
Qed.
Lemma status_described n :
  described (S n) (JObj [("enum", JArr [JStr "firing"; JStr "resolved"])]) (z_enum [Firing; Resolved] history_state_str).
Proof.
  intros x. unfold z_enum. destruct x as [| | | |s| |]; try done.
  transitivity (existsb (λ v, same_scalar v (JStr s)) (JStr <$> (history_state_str <$> [Firing; Resolved])));
    [cbn; by rewrite andb_true_r|apply find_takes].
Qed.
Lemma time_described n : described (S n) timestamp (z_iso iso_datetime).
Proof using date_time.
  intros x. destruct x; try done. unfold z_iso. cbn. rewrite date_time, andb_true_r. by destruct (iso_datetime s).
Qed.
Lemma fingerprint_limited n x :
  valid (S n) string_schema x && match x with JStr s => test fingerprint_pattern s | _ => true end = takes (z_fingerprint x).
Proof. destruct x; try done. unfold z_fingerprint. cbn. by destruct (test _ _). Qed.
Lemma forallb_andb {A} (f g : A → bool) l : forallb (λ x, f x && g x) l = forallb f l && forallb g l.
Proof. induction l as [|x l IH]; [done|]. simpl. rewrite IH. by destruct (f x), (g x), (forallb f l). Qed.
Lemma takes_record {A} (p : json → option A) fs :
  takes (z_record p (JObj fs) ≫= short_keys) =
  forallb (λ e : string * json, takes (p e.2)) fs && forallb (λ e : string * json, js_length e.1 <=? 128) fs.
Proof.
  unfold z_record. pose proof (takes_mapM (λ e : string * json, v ← p e.2; Some (e.1, v)) fs) as Ht.
  assert (forallb (λ e : string * json, takes (p e.2)) fs =
    forallb (λ e : string * json, takes (v ← p e.2; Some (e.1, v))) fs) as ->
    by (clear; induction fs as [|[k v] fs IH]; [done|]; simpl; rewrite IH; by destruct (p v)).
  rewrite <- Ht. destruct (mapM _ fs) as [l|] eqn:E; [|done]. apply mapM_Some in E. clear Ht. simpl. unfold short_keys.
  assert (forallb (λ e : string * A, js_length e.1 <=? 128) l = forallb (λ e : string * json, js_length e.1 <=? 128) fs) as <-.
  { induction E as [|e r fs l He _ IH]; [done|]. simpl. rewrite IH. by apply bind_Some in He as (v & _ & [= <-]). }
  by destruct (forallb _ l).
Qed.
Lemma texts_limited n hi x :
  valid (S (S n)) (JObj [("type", JStr "object"); ("additionalProperties", string_schema)]) x && bounded_texts hi (Some x) =
  takes (z_record (z_max hi) x ≫= short_keys).
Proof.
  destruct x as [| | | | | |fs]; try done. rewrite takes_record.
  assert (valid (S (S n)) (JObj [("type", JStr "object"); ("additionalProperties", string_schema)]) (JObj fs) =
    forallb (λ e : string * json, valid (S n) string_schema e.2) fs) as ->.
  { change (forallb (λ e : string * json, valid (S n) string_schema e.2) fs && true =
            forallb (λ e : string * json, valid (S n) string_schema e.2) fs). by rewrite andb_true_r. }
  cbn [bounded_texts]. rewrite <- !forallb_andb. induction fs as [|[k v] fs IH]; [done|]. cbn [forallb fst snd]. rewrite <- IH.
  simpl. f_equal. destruct v as [| | | |s| |]; try done.
  unfold z_max. cbn. by destruct (js_length s <=? hi), (js_length k <=? 128).
Qed.
Lemma alert_described n a :
  valid (S (S (S (S n)))) (object_with [("status", JObj [("enum", JArr [JStr "firing"; JStr "resolved"])]);
       ("fingerprint", string_schema); ("startsAt", timestamp); ("endsAt", timestamp);
       ("labels", JObj [("type", JStr "object"); ("additionalProperties", string_schema)]);
       ("annotations", JObj [("type", JStr "object"); ("additionalProperties", string_schema)])]
       ["status"; "fingerprint"; "startsAt"; "endsAt"; "labels"] false) a && alert_limits a =
  takes (z_object (λ a,
    status ← required (z_enum [Firing; Resolved] history_state_str) (field "status" a);
    fingerprint ← required z_fingerprint (field "fingerprint" a);
    startsAt ← required (z_iso iso_datetime) (field "startsAt" a);
    endsAt ← required (z_iso iso_datetime) (field "endsAt" a);
    labels ← required (λ j, z_record (z_max 512) j ≫= short_keys) (field "labels" a);
    annotations ← optional (λ j, z_record (z_max 4096) j ≫= short_keys) (field "annotations" a);
    Some (MkWebhookAlert status fingerprint startsAt endsAt labels annotations)) a).
Proof using date_time.
  destruct a as [| | | | | |fs]; try done. rewrite valid_open_object. cbn [z_object alert_limits].
  assert (property (valid (S (S (S n)))) fs ("fingerprint", string_schema) && present fs (JStr "fingerprint") &&
    match field "fingerprint" fs with Some (JStr s) => test fingerprint_pattern s | _ => true end =
    takes (required z_fingerprint (field "fingerprint" fs))) as Hf.
  { unfold property, present, required. cbn [fst snd]. destruct (field "fingerprint" fs) as [x|]; [|done].
    cbn [option_bind mbind]. rewrite <- (fingerprint_limited (S (S n))). cbn. rewrite andb_true_r. by destruct x. }
  assert (∀ hi, property (valid (S (S (S n)))) fs ("labels", JObj [("type", JStr "object"); ("additionalProperties", string_schema)])
    && present fs (JStr "labels") && bounded_texts hi (field "labels" fs) =
    takes (required (λ j, z_record (z_max hi) j ≫= short_keys) (field "labels" fs))) as Hl.
  { intros hi. unfold property, present, required. cbn [fst snd]. destruct (field "labels" fs) as [x|]; [|done].
    cbn [option_bind mbind]. rewrite <- (texts_limited (S n)). cbn -[bounded_texts Documented.valid]. by rewrite andb_true_r. }
  assert (∀ hi, property (valid (S (S (S n)))) fs ("annotations", JObj [("type", JStr "object"); ("additionalProperties", string_schema)])
    && bounded_texts hi (field "annotations" fs) =
    takes (optional (λ j, z_record (z_max hi) j ≫= short_keys) (field "annotations" fs))) as Ha.
  { intros hi. unfold property, optional. cbn [fst snd]. destruct (field "annotations" fs) as [x|]; [|done].
    rewrite (texts_limited (S n)). by destruct (z_record _ _ ≫= _). }
  pose proof (required_described _ _ _ _ fs "status" _ _ (status_described (S (S n)))) as Hst.
  pose proof (required_described _ _ _ _ fs "startsAt" _ _ (time_described (S (S n)))) as Hs.
  pose proof (required_described _ _ _ _ fs "endsAt" _ _ (time_described (S (S n)))) as He.
  transitivity (takes (required (z_enum [Firing; Resolved] history_state_str) (field "status" fs)) &&
    takes (required z_fingerprint (field "fingerprint" fs)) && takes (required (z_iso iso_datetime) (field "startsAt" fs)) &&
    takes (required (z_iso iso_datetime) (field "endsAt" fs)) &&
    takes (required (λ j, z_record (z_max 512) j ≫= short_keys) (field "labels" fs)) &&
    takes (optional (λ j, z_record (z_max 4096) j ≫= short_keys) (field "annotations" fs))).
  { rewrite <- Hst, <- Hf, <- Hs, <- He, <- Hl, <- Ha. cbn [forallb fmap list_fmap]. apply eq_true_iff_eq. rewrite !andb_true_iff. tauto. }
  destruct (required (z_enum _ _) _); simpl; [|done]. destruct (required z_fingerprint _); simpl; [|done].
  destruct (required _ (field "startsAt" fs)); simpl; [|done]. destruct (required _ (field "endsAt" fs)); simpl; [|done].
  destruct (required _ (field "labels" fs)); simpl; [|done]. by destruct (optional _ _).
Qed.
Lemma webhook_described n j :
  valid (S (S (S (S (S (S n)))))) (object [("alerts", JObj [("type", JStr "array"); ("maxItems", JInt 50);
       ("items", object_with [("status", JObj [("enum", JArr [JStr "firing"; JStr "resolved"])]);
       ("fingerprint", string_schema); ("startsAt", timestamp); ("endsAt", timestamp);
       ("labels", JObj [("type", JStr "object"); ("additionalProperties", string_schema)]);
       ("annotations", JObj [("type", JStr "object"); ("additionalProperties", string_schema)])]
       ["status"; "fingerprint"; "startsAt"; "endsAt"; "labels"] false)])]) j && webhook_limits j =
  takes (webhook_schema iso_datetime j).
Proof using date_time.
  destruct j as [| | | | | |fs]; try done. unfold webhook_schema, object. rewrite valid_open_object. cbn [z_object webhook_limits].
  unfold property, present, required. cbn [forallb fst snd fmap list_fmap]. destruct (field "alerts" fs) as [x|]; [|done].
  cbn [option_bind mbind]. destruct x as [| | | | |l|]; try done. unfold z_array. rewrite !andb_true_r.
  match goal with |- context [forallb alert_limits l] => idtac end.
  set (item := object_with _ _ false).
  assert (valid (S (S (S (S (S n))))) (JObj [("type", JStr "array"); ("maxItems", JInt 50); ("items", item)]) (JArr l) =
    (Z.of_nat (length l) <=? 50) && forallb (valid (S (S (S (S n)))) item) l) as ->.
  { change ((Z.of_nat (length l) <=? 50) && (forallb (valid (S (S (S (S n)))) item) l && true) =
            (Z.of_nat (length l) <=? 50) && forallb (valid (S (S (S (S n)))) item) l). by rewrite andb_true_r. }
  destruct (_ <=? 50); [|done]. rewrite takes_mapM. cbn [andb]. rewrite <- forallb_andb.
  induction l as [|a l IH]; [done|]. cbn [forallb]. rewrite IH. f_equal. apply alert_described.
Qed.
End webhook.

Definition blank_name : json := JObj [("name", JStr " ")].
Definition full_cache : json :=
  JObj [("name", JStr "cache"); ("template", JStr "bazel-remote"); ("storageGiB", JInt 4); ("cacheGiB", JInt 4)].

End documented.

(** ** Witness *)
Definition sample_formats (format s : string) : bool := negb (String.eqb s "").
Definition sample_times (s : string) : option (option Z) := if String.eqb s "" then None else Some (Some 0).
Lemma sample_dated s : sample_formats "date-time" s = takes (sample_times s).
Proof. unfold sample_formats, sample_times. by destruct (String.eqb s ""). Qed.
Definition sample_patterns (pattern s : string) : bool :=
  if String.eqb pattern "^[a-fA-F0-9]{1,128}$" then test fingerprint_pattern s
  else test (rplus (RChr (λ c, is_alnum c || one_of "._:-" c))) s.
Definition sample_project : json := JObj [("name", JStr "  builds  ")].
Definition keyed_request : Request :=
  MkHttpRequest "POST" "192.0.2.1" None None None (Some "request-1") None sample_project (JObj []).
