(* ===== verification/Reservation.v ===== *)
(** * Reconciling a reservation with the cluster

    [apps/admin-api/src/reservation-reconcile.ts] and the route of
    [apps/admin-api/src/app.ts] that applies it: the reservation of an
    instance is raised to what the cluster shows it uses. *)
From Stdlib Require Import ZArith Lia Ascii Init.Byte QArith.
From stdpp Require Import base tactics list option strings gmap.
From S2P Require Import Prelude Regex Numbers Effects Quantities Catalog Json Contract Database Quotas.
From S2P Require Import Secrets Security Accounts Kubernetes Worker Inventory InventoryFacts Routes Projects.
#[local] Open Scope Z_scope.

(** [Reservation] *)
Record Reservation := MkReservation { storageGiB : Z; cpuMillis : Z; memoryMiB : Z }.

(** [Math.max(...values.map(v => quantityCeil(v, unit)))] of one value or more; a
    ceiling is never negative. *)
Definition max_ceil (unit : string) (values : list string) : res Z :=
  ns ← mapM (λ v, quantityCeil v unit) values; mret (foldr Z.max 0 ns).

Definition reconcilable (code : string) : bool :=
  includes ["ResourceReservationUnknown"; "ResourceReservationInsufficient"] code.

(** [values.some(v => !v)] *)
Definition some_missing (values : list (option string)) : bool := existsb (λ v, negb (truthy v)) values.

(** The [try] block. *)
Definition observed_floor (cr : option CacheObject) (pvc : Volume) : res Reservation :=
  let storage := [pv_requested pvc; pv_capacity pvc] in
  when_throw (some_missing storage) (JsError "Missing volume capacity") ;;
  storageGiB ← max_ceil "1Gi"
    (omap id storage ++ match cr with Some cr => [st_capacity (sp_storage (co_spec cr))] | None => [] end);
  match cr with
  | None => mret (MkReservation storageGiB 0 0)
  | Some cr =>
      let requests := rs_requests (sp_resources (co_spec cr)) in
      let limits := rs_limits (sp_resources (co_spec cr)) in
      let cpu := [requests !! "cpu"; limits !! "cpu"] in
      let memory := [requests !! "memory"; limits !! "memory"] in
      when_throw (some_missing cpu || some_missing memory) (JsError "Missing compute request or limit") ;;
      cpuMillis ← max_ceil "1m" (omap id cpu);
      memoryMiB ← max_ceil "1Mi" (omap id memory);
      mret (MkReservation storageGiB cpuMillis memoryMiB)
  end.

Definition reservationFloor (projectId : string) (binding : InventoryBinding) (resources : InventoryResources) :
    res Reservation :=
  when_throw (ib_busy binding || negb (bool_decide (ib_lifecycle binding ∈ [LActive; LDetached])))
    (HttpError 409 "Instance is not stable enough to reconcile") ;;
  let issues := filter (λ issue, is_instanceId issue = Some (ib_id binding))
                  (ir_issues (compareInventory projectId [binding] resources)) in
  when_throw (existsb (λ issue, negb (reconcilable (is_code issue))) issues)
    (HttpError 409 "Resolve instance identity or configuration drift first") ;;
  let cr := js_find (λ item, oeq (instance_name item) (Some (ib_resource_name binding))) (ir_instances resources) in
  let pvc := js_find (λ item, oeq (volume_name item) (Some (data_name binding))) (ir_volumes resources) in
  let missing := HttpError 409 "Instance or volume is missing or unexpected" in
  match pvc with
  | None => Throw missing
  | Some pvc =>
      when_throw (bool_decide (ib_lifecycle binding = LActive) && negb (bool_decide (is_Some cr)) ||
                  bool_decide (ib_lifecycle binding = LDetached) && bool_decide (is_Some cr)) missing ;;
      match observed_floor cr pvc with
      | Ok floor => Ok floor
      | Throw _ => Throw (HttpError 409 "Observed resource quantity cannot be safely reconciled")
      end
  end.

(** ** [POST .../reservations/reconcile] *)

(** The new reservations of the row: never lowered, and of a detached instance
    only its storage. *)
Definition raise_row (floor : Reservation) (b : Binding) : Binding :=
  let raise o v := greatest (Some (nullish o 0)) v in
  let detached := bool_decide (bi_lifecycle b = LDetached) in
  b <| bi_reserved_storage_gib ::= λ o, raise o (storageGiB floor) |>
    <| bi_reserved_cpu_millis ::= λ o, if detached then o else raise o (cpuMillis floor) |>
    <| bi_reserved_memory_mib ::= λ o, if detached then o else raise o (memoryMiB floor) |>.
Definition raisable (projectId : string) (b : Binding) : bool :=
  String.eqb (bi_project_id b) projectId && bool_decide (bi_lifecycle b ∈ [LActive; LDetached]).

(** [UPDATE ... RETURNING]: the updated row, if there is one. *)
Definition raise_reservations (projectId instanceId : string) (floor : Reservation) (db : DB) :
    res (option Binding) * DB :=
  match db_bindings db !! instanceId with
  | Some b => if raisable projectId b
              then (Ok (Some (raise_row floor b)),
                    db <| db_bindings ::= <[instanceId := raise_row floor b]> |>)
              else (Ok None, db)
  | None => (Ok None, db)
  end.

Definition amounts_json (storage cpu memory : json) : json :=
  JObj [("storageGiB", storage); ("cpuMillis", cpu); ("memoryMiB", memory)].

Section reconcile.
Context {K : Type} `{InventoryPort K} `{KubernetesPort K} `{Digests}.
Context (is_uuid : string → bool) (timestamp_text : Z → string) (spec_json : Spec → json).
(** Whether the cluster connection offers [inspectProjectResources]. *)
Context (inspects : bool).

Definition reconcile_transaction (actor : Actor) (projectId instanceId : string) (project : Project)
    (before : list InventoryBinding) (binding : InventoryBinding) (floor : Reservation) :
    M (World K) (option Z * option Z * option Z) :=
  transaction
    (locked ← query (λ _ db, db_projects db !! projectId);
     fresh ← query (λ _, platform_admin actor);
     throw_if (negb fresh) (HttpError 403 "Platform administrator required") ;;
     let project_changed := HttpError 409 "Project changed during resource scan" in
     throw_if (match locked with
               | Some p => negb (String.eqb (pr_namespace p) (pr_namespace project)) ||
                           negb (bool_decide (pr_state p = PReady))
               | None => true
               end) project_changed ;;
     current ← query (λ _, binding_rows timestamp_text projectId);
     throw_if ((1000 <? Z.of_nat (length current)) ||
               negb (String.eqb (fingerprint spec_json current) (fingerprint spec_json before))) project_changed ;;
     updated ← execute_res (λ _, raise_reservations projectId instanceId floor);
     updated ← lift (of_option (HttpError 409 "Instance changed during resource scan") updated);
     execute_sql (λ now db, db <| db_projects ::=
       update_row always (λ p, p <| pr_inventory_next_scan := now |>) projectId |>) ;;
     execute_sql (λ _, add_audit (MkAudit (Some (at_id actor)) (Some projectId) (Some instanceId) None
       "reservation.reconcile"
       [("before", amounts_json (json_nullable amount_json (ib_reserved_storage_gib binding))
                     (json_nullable amount_json (ib_reserved_cpu_millis binding))
                     (json_nullable amount_json (ib_reserved_memory_mib binding)));
        ("floor", amounts_json (JInt (storageGiB floor)) (JInt (cpuMillis floor)) (JInt (memoryMiB floor)));
        ("after", let text o := json_nullable (λ n, JStr (dec_str n)) o in
                  amounts_json (text (bi_reserved_storage_gib updated)) (text (bi_reserved_cpu_millis updated))
                    (text (bi_reserved_memory_mib updated)))])) ;;
     mret (bi_reserved_storage_gib updated, bi_reserved_cpu_millis updated, bi_reserved_memory_mib updated)).

Definition reconcile (request : Request) (projectId instanceId : string) :
    M (World K) (option Z * option Z * option Z) :=
  ids is_uuid [projectId; instanceId] ;;
  actor ← projectAccess request projectId [RAdmin];
  throw_if (negb (at_platform_admin actor)) (HttpError 403 "Platform administrator required") ;;
  throw_if (negb inspects) (HttpError 503 "Resource inventory is not configured") ;;
  found ← pool (query (λ _ db, db_projects db !! projectId));
  project ← lift (of_option (HttpError 409 "Project is not ready") found);
  throw_if (negb (bool_decide (pr_state project = PReady))) (HttpError 409 "Project is not ready") ;;
  before ← pool (query (λ _, binding_rows timestamp_text projectId));
  throw_if (1000 <? Z.of_nat (length before)) (HttpError 409 "Project inventory exceeds the scan limit") ;;
  binding ← lift (of_option (HttpError 404 "Instance not found")
    (js_find (λ item, String.eqb (ib_id item) instanceId) before));
  observed ← try_catch (kube (inspectProjectResources (pr_namespace project) projectId))
    (λ _, throw (HttpError 503 "Kubernetes resource inventory is unavailable"));
  floor ← lift (reservationFloor projectId binding observed);
  reconcile_transaction actor projectId instanceId project before binding floor.
End reconcile.

(** ** What the floor guarantees *)

(** [s] units cover the quantity. *)
Definition covers_quantity (u : string) (s : Z) (v : string) : Prop :=
  ∃ qa qr, denotes v qa ∧ denotes (dec_str s +:+ u) qr ∧ (qa <= qr)%Q.

(** A ceiling is the least number of units that covers the quantity. *)
Lemma quantityCeil_covers u v n s :
  platform_unit u → quantityCeil v ("1" +:+ u) = Ok n → 0 ≤ s < 2 ^ 63 → covers_quantity u s v ↔ n ≤ s.
Proof.
  intros (k & d & Hk & Hd & Hr)%platform_rational E Hs.
  unfold quantityCeil in E. rewrite <- dec_str_1, (Hr 1) in E by lia.
  apply res_bind_Ok in E as ([a ad] & Ea & E). cbn in E. rewrite Z.mul_1_l in E.
  rewrite (proj2 (Z.leb_gt _ _)) in E by done. cbn in E.
  destruct (2147483647 <? _) eqn:El; [done|]. injection E as En.
  pose proof (rational_pos _ _ _ Ea) as Had. pose proof (rational_nonneg _ _ _ Ea) as Ha.
  destruct (ceil_least a ad k d Ha Had Hk Hd) as [_ Hle]. rewrite <- En, <- Hle.
  pose proof (rational_sound _ _ Ea) as Da. pose proof (rational_sound _ _ (Hr s Hs)) as Ds.
  replace (s * (ad * k)) with (s * k * ad) by lia. rewrite <- frac_le by done. split.
  - intros (qa & qr & Hqa & Hqr & Hq).
    by rewrite (denotes_unique _ _ _ Da Hqa), (denotes_unique _ _ _ Ds Hqr).
  - intros Hq. eexists _, _. by split_and!.
Qed.

Lemma max_ceil_covers u values n s :
  platform_unit u → max_ceil ("1" +:+ u) values = Ok n → 0 ≤ s < 2 ^ 63 →
  (∀ v, v ∈ values → covers_quantity u s v) ↔ n ≤ s.
Proof.
  unfold max_ceil. intros Hu (ns & E & [= <-])%res_bind_Ok Hs. revert ns E.
  induction values as [|x values IH]; intros ns E.
  { injection E as <-. simpl. split; [lia|]. by intros _ v Hv%not_elem_of_nil. }
  apply res_bind_Ok in E as (m & Em & (ms & Ems & [= <-])%res_bind_Ok).
  setoid_rewrite elem_of_cons. pose proof (quantityCeil_covers u x m s Hu Em Hs) as Hx.
  pose proof (IH ms Ems) as Hms. simpl. rewrite Z.max_lub_iff, <- Hx, <- Hms. naive_solver.
Qed.

(** *** The issues of one binding *)
Lemma once_elem {A} `{EqDecision A} (l : list A) x : x ∈ once l ↔ x ∈ l.
Proof.
  unfold once. enough (∀ acc, x ∈ fold_left (λ acc x, if bool_decide (x ∈ acc) then acc else acc ++ [x]) l acc ↔
    x ∈ acc ∨ x ∈ l) as H by (rewrite H; set_solver).
  induction l as [|y l IH]; intros acc; simpl; [set_solver|]. rewrite IH. case_bool_decide; set_solver.
Qed.

Lemma once_length {A} `{EqDecision A} (l : list A) : (length (once l) ≤ length l)%nat.
Proof.
  unfold once. enough (∀ acc, length (fold_left (λ acc x, if bool_decide (x ∈ acc) then acc else acc ++ [x]) l acc) ≤
    length acc + length l)%nat as H by apply (H []).
  induction l as [|y l IH]; intros acc; simpl; [lia|]. etransitivity; [apply IH|].
  case_bool_decide; rewrite ?length_app; simpl; lia.
Qed.

Lemma omap_id_length {A} (l : list (option A)) : (length (omap id l) ≤ length l)%nat.
Proof. induction l as [|[x|] l IH]; csimpl; lia. Qed.

Lemma binding_issues_length project b instance volume :
  (length (binding_issues project b instance volume) ≤ 6)%nat.
Proof.
  unfold binding_issues. rewrite length_app, !length_fmap.
  assert (length (instance_issues project b instance) ≤ 4)%nat.
  { unfold instance_issues. repeat case_match; try (simpl; lia);
      (etransitivity; [apply omap_id_length|simpl; lia]). }
  assert (length (volume_issues project b volume) ≤ 2)%nat.
  { unfold volume_issues. repeat case_match; try (simpl; lia);
      (etransitivity; [apply omap_id_length|simpl; lia]). }
  pose proof (once_length (instance_issues project b instance)).
  pose proof (once_length (volume_issues project b volume)). lia.
Qed.

(** The comparison of one binding reports all of its issues. *)
Lemma own_issues project b found issue :
  NoDup (instance_name <$> ir_instances found) → NoDup (volume_name <$> ir_volumes found) →
  ib_busy b = false →
  issue ∈ binding_issues project b (instance_of b found) (volume_of b found) →
  issue ∈ filter (λ issue, is_instanceId issue = Some (ib_id b)) (ir_issues (compareInventory project [b] found)).
Proof.
  intros Hi Hv Hq Hin. unfold compareInventory, all_issues. rewrite !map_of_distinct by done.
  cbn [compare_bindings]. rewrite Hq, !map_get_list. cbn [ir_issues].
  apply list_elem_of_filter. split.
  - unfold binding_issues in Hin. apply elem_of_app in Hin as [Hin|Hin];
      by apply list_elem_of_fmap in Hin as (code & -> & _).
  - rewrite app_nil_r, take_app_ge.
    + apply elem_of_app. by left.
    + etransitivity; [apply binding_issues_length|lia].
Qed.

(** *** A binding with given reservations *)
Definition with_reservations (s c m : Z) (b : InventoryBinding) : InventoryBinding :=
  {| ib_id := ib_id b; ib_resource_name := ib_resource_name b; ib_kubernetes_uid := ib_kubernetes_uid b;
     ib_lifecycle := ib_lifecycle b; ib_template_name := ib_template_name b;
     ib_template_version := ib_template_version b;
     ib_reserved_storage_gib := Some (AText (dec_str s)); ib_reserved_cpu_millis := Some (AText (dec_str c));
     ib_reserved_memory_mib := Some (AText (dec_str m)); ib_busy := ib_busy b;
     ib_expected_spec := ib_expected_spec b; ib_operation_stamp := ib_operation_stamp b |}.

Lemma reserved_text_printed s : 0 ≤ s → reserved_text (Some (AText (dec_str s))) = Some (dec_str s).
Proof.
  intros Hs. unfold reserved_text. cbv zeta. unfold test. rewrite (proj2 (matches_spec _ _)); [done|].
  apply lang_alt_inv. destruct (dec_str_head s Hs) as (c & l & E & Hc).
  pose proof (dec_str_digits s Hs) as Hd. rewrite E in Hd |- *. apply Forall_cons in Hd as [Hc' Hl].
  destruct (decide (c = "0"%char)) as [->|Hne].
  - left. destruct Hc as [->|?]; [|done]. apply lang_chr_inv. by exists "0"%char.
  - right. apply lang_seq_inv. exists [c], l. split_and!; [done| |by apply lang_star_chr].
    apply lang_chr_inv. exists c. split; [done|]. rewrite Hc'. apply negb_true_iff, Ascii.eqb_neq. done.
Qed.

Lemma covered_printed actual s u :
  0 ≤ s → covered actual (Some (AText (dec_str s))) u ↔ ∀ v, v ∈ omap id actual → covers_quantity u s v.
Proof.
  intros Hs. unfold covered. rewrite reserved_text_printed by done. setoid_rewrite list_elem_of_omap.
  unfold covers_quantity, id. split.
  - intros (t & [= <-] & H) v (o & Ho & ->). by apply H.
  - intros H. exists (dec_str s). split; [done|]. intros v Hv. apply H. by exists (Some v).
Qed.

(** What the guards of [reservationFloor] leave. *)
Lemma reservationFloor_inv project b found f :
  NoDup (instance_name <$> ir_instances found) → NoDup (volume_name <$> ir_volumes found) →
  reservationFloor project b found = Ok f →
  ib_busy b = false ∧
  (∀ issue, issue ∈ binding_issues project b (instance_of b found) (volume_of b found) →
     reconcilable (is_code issue) = true) ∧
  ∃ pvc, volume_of b found = Some pvc ∧ observed_floor (instance_of b found) pvc = Ok f ∧
    (ib_lifecycle b = LActive ∧ is_Some (instance_of b found) ∨
     ib_lifecycle b = LDetached ∧ instance_of b found = None).
Proof.
  intros Hi Hv. unfold reservationFloor. cbv zeta.
  rewrite res_seq_Ok, when_throw_Ok, orb_false_iff, negb_false_iff, bool_decide_eq_true.
  intros [[Hq Hl] E]. apply res_seq_Ok in E as [He%when_throw_Ok E].
  split; [done|]. split.
  - intros issue Hin. pose proof (own_issues _ _ _ _ Hi Hv Hq Hin) as Ho%list_elem_of_In.
    apply not_false_iff_true. intros Hf. apply not_true_iff_false in He. apply He, existsb_exists.
    exists issue. by rewrite Hf.
  - fold (volume_of b found) in E. fold (instance_of b found) in E.
    destruct (volume_of b found) as [pvc|]; [|done]. exists pvc. split; [done|].
    apply res_seq_Ok in E as [[E1 E2]%when_throw_Ok%orb_false_iff E].
    destruct (observed_floor _ _) as [f'|]; [|done]. injection E as ->. split; [done|].
    apply elem_of_cons in Hl as [El|El%list_elem_of_singleton]; rewrite El in E1, E2 |- *; simpl in *.
    + left. split; [done|]. apply negb_false_iff in E1. by apply bool_decide_eq_true in E1.
    + right. split; [done|]. apply bool_decide_eq_false in E2. by apply eq_None_not_Some.
Qed.

(** What only reconcilable issues say about the objects. *)
Lemma issue_codes project b instance volume :
  (∀ issue, issue ∈ binding_issues project b instance volume → reconcilable (is_code issue) = true) →
  (∀ code, code ∈ instance_issues project b instance → reconcilable code = true) ∧
  (∀ code, code ∈ volume_issues project b volume → reconcilable code = true).
Proof.
  unfold binding_issues. intros H. split; intros code Hc%once_elem.
  - eapply (H (MkIssue code _ _ _)), elem_of_app. left. apply list_elem_of_fmap. by eexists.
  - eapply (H (MkIssue code _ _ _)), elem_of_app. right. apply list_elem_of_fmap. by eexists.
Qed.

Lemma instance_matching project b c :
  ib_lifecycle b = LActive → (∀ code, code ∈ instance_issues project b (Some c) → reconcilable code = true) →
  matching project b c.
Proof.
  intros Hl H. apply (instance_state_None project b c). destruct (instance_state project b c) as [code|] eqn:E; [|done].
  exfalso. assert (reconcilable code = true) as Hr.
  { apply H. unfold instance_issues. rewrite E. apply list_elem_of_here. }
  revert E Hr. unfold instance_state. cbv zeta. repeat case_match; intros [= <-]; by vm_compute.
Qed.

Definition fits (project : string) (b : InventoryBinding) (v : Volume) : Prop :=
  foreign_volume project b v = false ∧ (∀ m, pv_metadata v = Some m → om_deletionTimestamp m = false) ∧
  pv_phase v = Some "Bound"%string.

Lemma volume_fits project b v :
  (∀ code, code ∈ volume_issues project b (Some v) → reconcilable code = true) → fits project b v.
Proof.
  unfold volume_issues, fits. intros H.
  destruct (foreign_volume project b v). { by specialize (H _ (list_elem_of_here _ _)). }
  case_bool_decide. { by specialize (H _ (list_elem_of_here _ _)). }
  destruct (match pv_metadata v with Some m => om_deletionTimestamp m | None => false end) eqn:Ed.
  { by specialize (H _ (list_elem_of_here _ _)). }
  destruct (oeq (pv_phase v) (Some "Bound"%string)) eqn:Ep.
  - split_and!; [done| |unfold oeq in Ep; by boolify]. intros m Em. by rewrite Em in Ed.
  - exfalso. by specialize (H _ (list_elem_of_here _ _)).
Qed.

Lemma fits_fitting project b v :
  fits project b v →
  fitting project b v ↔ covered [pv_requested v; pv_capacity v] (ib_reserved_storage_gib b) "Gi".
Proof.
  intros (((?&?)&?&?)%foreign_volume_false & ? & ?). split; [by intros []|]. intros. split; try done.
Qed.

(** The floor against the quantities of the objects. *)
Lemma observed_floor_Ok cr pvc f s c m :
  observed_floor cr pvc = Ok f → 0 ≤ s < 2 ^ 63 → 0 ≤ c < 2 ^ 63 → 0 ≤ m < 2 ^ 63 →
  ((∀ v, v ∈ omap id [pv_requested pvc; pv_capacity pvc] → covers_quantity "Gi" s v) ∧
   match cr with
   | Some cr => (∀ v, v ∈ omap id [Some (st_capacity (sp_storage (co_spec cr)))] → covers_quantity "Gi" s v) ∧
       (∀ v, v ∈ omap id [rs_requests (sp_resources (co_spec cr)) !! "cpu"; rs_limits (sp_resources (co_spec cr)) !! "cpu"] →
          covers_quantity "m" c v) ∧
       (∀ v, v ∈ omap id [rs_requests (sp_resources (co_spec cr)) !! "memory";
                          rs_limits (sp_resources (co_spec cr)) !! "memory"] → covers_quantity "Mi" m v)
   | None => True
   end) ↔
  storageGiB f ≤ s ∧ (is_Some cr → cpuMillis f ≤ c ∧ memoryMiB f ≤ m).
Proof.
  intros E Hs Hc Hm. unfold observed_floor in E. cbv zeta in E.
  apply res_seq_Ok in E as [_ (sg & Es & E)%res_bind_Ok].
  pose proof (max_ceil_covers "Gi" _ sg s (or_introl eq_refl) Es Hs) as Hsg.
  setoid_rewrite elem_of_app in Hsg. destruct cr as [cr|].
  - apply res_seq_Ok in E as [_ (cm & Ec & (mm & Em & [= <-])%res_bind_Ok)%res_bind_Ok]. simpl storageGiB.
    rewrite <- Hsg, <- (max_ceil_covers "m" _ cm c (or_intror (or_introl eq_refl)) Ec Hc),
      <- (max_ceil_covers "Mi" _ mm m (or_intror (or_intror eq_refl)) Em Hm).
    split; [intros (H1 & H2 & H3 & H4); split; [intros v [?|?]; auto|done]|].
    intros [H1 H2]. destruct (H2 (ex_intro _ _ eq_refl)). split_and!; auto.
  - injection E as <-. simpl storageGiB. rewrite <- Hsg. split.
    + intros [H _]. split; [intros v [?|?%not_elem_of_nil]; auto; done|by intros []].
    + intros [H _]. auto.
Qed.

(** C18. Where [reservationFloor] answers, its floor is exactly what the
    inventory asks for: with reservations [s], [c] and [m], the scan finds
    nothing wrong with the instance and its volume if and only if [s] is at
    least the floor's storage and, for an instance that runs, [c] and [m] are
    at least its processor and memory. *)
Theorem floor_is_least project b found f s c m :
  NoDup (instance_name <$> ir_instances found) → NoDup (volume_name <$> ir_volumes found) →
  reservationFloor project b found = Ok f →
  0 ≤ s < 2 ^ 63 → 0 ≤ c < 2 ^ 63 → 0 ≤ m < 2 ^ 63 →
  binding_issues project (with_reservations s c m b) (instance_of b found) (volume_of b found) = [] ↔
  storageGiB f ≤ s ∧ (ib_lifecycle b = LActive → cpuMillis f ≤ c ∧ memoryMiB f ≤ m).
Proof.
  intros Hi Hv (_ & [Hci Hcv]%issue_codes & pvc & Ev & Ef & Hl)%reservationFloor_inv Hs Hc Hm; [|done..].
  rewrite binding_issues_nil. rewrite Ev in Hcv |- *. apply volume_fits in Hcv.
  assert (is_Some (instance_of b found) ↔ ib_lifecycle b = LActive) as Ha.
  { destruct Hl as [[El ?]|[El ->]]; rewrite El; [done|]. split; [by intros []|done]. }
  rewrite <- Ha, <- (observed_floor_Ok _ _ _ s c m Ef Hs Hc Hm).
  assert (ib_lifecycle b ≠ LDeleted) as Hnd by (by destruct Hl as [[El ?]|[El ?]]; rewrite El).
  assert (volume_sound project (with_reservations s c m b) (Some pvc) ↔
    ∀ v, v ∈ omap id [pv_requested pvc; pv_capacity pvc] → covers_quantity "Gi" s v) as Hvol.
  { unfold volume_sound. rewrite (fits_fitting project (with_reservations s c m b) pvc Hcv).
    rewrite <- covered_printed by lia. simpl. tauto. }
  rewrite Hvol. destruct Hl as [[El [cr Ecr]]|[El Ecr]]; rewrite Ecr in Hci |- *; simpl instance_sound.
  - apply instance_matching in Hci; [|done]. rewrite <- !covered_printed by lia. rewrite El.
    split; [intros [(_ & _ & _ & []) ?]; by split_and!|]. intros (? & ? & ? & ?).
    split; [split_and!; [done|done|by destruct Hci; split|by split]|done].
  - rewrite El. tauto.
Qed.

Lemma floor_is_least_witness :
  reservationFloor "p" sample_row sample_found = Ok (MkReservation 10 500 1024) ∧
  binding_issues "p" (with_reservations 12 500 2048 sample_row) (instance_of sample_row sample_found)
    (volume_of sample_row sample_found) = [].
Proof.
  split; [vm_compute; reflexivity|].
  apply (floor_is_least "p" sample_row sample_found (MkReservation 10 500 1024) 12 500 2048);
    [apply NoDup_singleton|apply NoDup_singleton|vm_compute; reflexivity|lia|lia|lia|].
  simpl. split; [lia|]. intros _. split; lia.
Defined.

(** ** What the route writes *)
Section written.
Context {K : Type} `{InventoryPort K} `{KubernetesPort K} `{Digests}.
Context (is_uuid : string → bool) (timestamp_text : Z → string) (spec_json : Spec → json) (inspects : bool).
Implicit Types (w : World K).

(** The larger of a reservation, if there is one, and the floor. *)
Definition raised (o : option Z) (floor : Z) (o' : option Z) : Prop :=
  ∃ n, o' = Some n ∧ floor ≤ n ∧ (n = floor ∨ n = nullish o 0) ∧ ∀ m, o = Some m → m ≤ n.
Lemma greatest_raised o floor : raised o floor (greatest (Some (nullish o 0)) floor).
Proof. exists (Z.max (nullish o 0) floor). destruct o; simpl; split_and!; try done; try lia; naive_solver lia. Qed.

Lemma raise_reservations_Ok projectId instanceId floor db b db' :
  raise_reservations projectId instanceId floor db = (Ok (Some b), db') →
  ∃ b0, db_bindings db !! instanceId = Some b0 ∧ raisable projectId b0 = true ∧ b = raise_row floor b0 ∧
    db' = db <| db_bindings ::= <[instanceId := b]> |>.
Proof.
  unfold raise_reservations. destruct (db_bindings db !! instanceId) as [b0|]; [|done].
  destruct (raisable projectId b0) eqn:Er; [|done]. intros [= <- <-]. by exists b0.
Qed.

(** The audit event of a reconciliation. *)
Definition reconciled_event (actor : Actor) (projectId instanceId : string) (item : InventoryBinding)
    (floor : Reservation) (storage cpu memory : option Z) : AuditEvent :=
  let text o := json_nullable (λ n, JStr (dec_str n)) o in
  MkAudit (Some (at_id actor)) (Some projectId) (Some instanceId) None "reservation.reconcile"
    [("before", amounts_json (json_nullable amount_json (ib_reserved_storage_gib item))
                  (json_nullable amount_json (ib_reserved_cpu_millis item))
                  (json_nullable amount_json (ib_reserved_memory_mib item)));
     ("floor", amounts_json (JInt (storageGiB floor)) (JInt (cpuMillis floor)) (JInt (memoryMiB floor)));
     ("after", amounts_json (text storage) (text cpu) (text memory))]%string.

(** What the row of the instance becomes: the amounts, and nothing else. *)
Definition with_amounts (storage cpu memory : option Z) (b : Binding) : Binding :=
  b <| bi_reserved_storage_gib := storage |> <| bi_reserved_cpu_millis := cpu |> <| bi_reserved_memory_mib := memory |>.

(** The transaction, where it commits: [w1] is the world it starts in. *)
Lemma reconcile_transaction_inv actor projectId instanceId project before item floor w r w' :
  reconcile_transaction timestamp_text spec_json actor projectId instanceId project before item floor w = (Ok r, w') →
  let w1 := after_yield w in let db := w_db w1 in
  ∃ p b, platform_admin actor db = true ∧ db_projects db !! projectId = Some p ∧
    pr_namespace p = pr_namespace project ∧ pr_state p = PReady ∧
    fingerprint spec_json (binding_rows timestamp_text projectId db) = fingerprint spec_json before ∧
    db_bindings db !! instanceId = Some b ∧ raisable projectId b = true ∧
    r = (let b' := raise_row floor b in
         (bi_reserved_storage_gib b', bi_reserved_cpu_millis b', bi_reserved_memory_mib b')) ∧
    w' = w1 <| w_db := db <| db_bindings := <[instanceId := with_amounts r.1.1 r.1.2 r.2 b]> (db_bindings db) |>
                          <| db_projects := <[projectId := p <| pr_inventory_next_scan := w_now w1 |>]> (db_projects db) |>
                          <| db_audit := db_audit db ++
                               [reconciled_event actor projectId instanceId item floor r.1.1 r.1.2 r.2] |> |>.
Proof.
  unfold reconcile_transaction. intros E%committed. cbv zeta. set (w1 := after_yield w) in *.
  apply bind_Ok_inv in E as (locked & w3 & [-> ->]%query_Ok_inv & E).
  apply bind_Ok_inv in E as (fresh & w3 & [-> ->]%query_Ok_inv & E).
  apply throw_if_bind in E as [Ef%negb_false_iff E]. apply throw_if_bind in E as [Ep E].
  destruct (db_projects (w_db w1) !! projectId) as [p|] eqn:Hp; [|done].
  apply orb_false_iff in Ep as [En%negb_false_iff%String.eqb_eq Est%negb_false_iff%bool_decide_eq_true].
  apply bind_Ok_inv in E as (current & w3 & [-> ->]%query_Ok_inv & E).
  apply throw_if_bind in E as [[_ Efp%negb_false_iff%String.eqb_eq]%orb_false_iff E].
  apply bind_Ok_inv in E as (updated & w3 & (db' & Eu & ->)%execute_res_Ok_inv & E).
  apply bind_Ok_inv in E as (b' & w3 & [->%of_option_Ok ->]%lift_inv & E).
  apply raise_reservations_Ok in Eu as (b & Hb & Hr & -> & ->).
  apply bind_Ok_inv in E as (? & w3 & ->%execute_sql_Ok_inv & E).
  apply bind_Ok_inv in E as (? & w3 & ->%execute_sql_Ok_inv & E). injection E as <- <-.
  exists p, b. split_and!; try done. unfold update_row, add_audit. simpl. by rewrite Hp.
Qed.

(** The steps of the handler before its transaction, along a relation that the
    environment keeps. *)
Section along.
Context (R : relation DB) `{!PreOrder R}.
Lemma moved {A} (m : M (World K) A) w a w' :
  within (world_rel R) m → env_moves R w → m w = (Ok a, w') → R (w_db w) (w_db w') ∧ env_moves R w'.
Proof. intros Hm Hw E. specialize (Hm w Hw). by rewrite E in Hm. Qed.
Lemma moved_yield w : env_moves R w → R (w_db w) (w_db (after_yield w)).
Proof. intros Hw. by destruct (world_yield R w Hw) as [? _]. Qed.
Lemma projectAccess_signed request projectId roles w actor w' :
  env_moves R w → projectAccess request projectId roles w = (Ok actor, w') →
  env_moves R w' ∧ ∃ now db, R (w_db w) db ∧ R db (w_db w') ∧ signed_in request actor now db.
Proof.
  intros Hw E. unfold projectAccess in E. apply bind_Ok_inv in E as (a & w1 & Eu & E).
  pose proof (moved _ _ _ _ (user_within R request) Hw Eu) as [HR1 Hw1]. apply user_Ok in Eu as [_ Hs].
  assert (R (w_db w1) (w_db w') ∧ env_moves R w' ∧ actor = a) as (HR2 & Hw2 & ->); [|split; [done|by exists (w_now w1), (w_db w1)]].
  apply bind_Ok_inv in E as (found & w2 & Eq & E).
  assert (within (world_rel R) (pool (query (K:=K) (λ _ db, _ ← db_projects db !! projectId;
    Some (db_members db !! (projectId, at_id a)))))) as Hm by world_solve.
  pose proof (moved _ _ _ _ Hm Hw1 Eq) as [HR2 Hw2]. destruct found; [|done].
  apply throw_if_bind in E as [_ E]. by apply throw_if_bind in E as [_ [= <- <-]].
Qed.
End along.

(** C19. A reconciliation that succeeds was asked for, in a live session, by an
    account that still is an active platform administrator when the database
    changes; it found the namespace of a ready project answering, and the rows
    of the project unchanged since it read them (or SHA-256 collides); and the
    database it leaves is the one it found but for the three reserved amounts of
    that one instance, raised to the floor of the answer and never lowered (of
    a detached instance only its storage), the time of the next scan and one
    audit event with the amounts before, of the floor and after.  The database
    it found is the one at the start, moved only by the environment: along any
    preorder [R] that every interference keeps.  The quota is not asked. *)
Theorem reconcile_exact (R : relation DB) `{!PreOrder R} request projectId instanceId w r w' :
  (∀ s, printable (spec_json s)) → env_moves R w →
  reconcile is_uuid timestamp_text spec_json inspects request projectId instanceId w = (Ok r, w') →
  ∃ actor now signed read db p b item found k k' floor storage cpu memory,
    R (w_db w) signed ∧ signed_in request actor now signed ∧ R signed read ∧ R read db ∧
    (∃ u, db_users db !! at_id actor = Some u ∧ us_active u = true ∧ us_platform_admin u = true) ∧
    db_projects db !! projectId = Some p ∧ pr_state p = PReady ∧
    inspectProjectResources (pr_namespace p) projectId k = (Ok found, k') ∧
    same_rows spec_json (binding_rows timestamp_text projectId read) (binding_rows timestamp_text projectId db) ∧
    item ∈ binding_rows timestamp_text projectId read ∧ ib_id item = instanceId ∧
    reservationFloor projectId item found = Ok floor ∧
    db_bindings db !! instanceId = Some b ∧ bi_project_id b = projectId ∧
    (bi_lifecycle b = LActive ∨ bi_lifecycle b = LDetached) ∧
    r = (storage, cpu, memory) ∧ raised (bi_reserved_storage_gib b) (storageGiB floor) storage ∧
    (if decide (bi_lifecycle b = LDetached)
     then cpu = bi_reserved_cpu_millis b ∧ memory = bi_reserved_memory_mib b
     else raised (bi_reserved_cpu_millis b) (cpuMillis floor) cpu ∧
          raised (bi_reserved_memory_mib b) (memoryMiB floor) memory) ∧
    w_db w' = db
      <| db_bindings := <[instanceId := b <| bi_reserved_storage_gib := storage |> <| bi_reserved_cpu_millis := cpu |>
                                          <| bi_reserved_memory_mib := memory |>]> (db_bindings db) |>
      <| db_projects := <[projectId := p <| pr_inventory_next_scan := w_now w' |>]> (db_projects db) |>
      <| db_audit := db_audit db ++ [reconciled_event actor projectId instanceId item floor storage cpu memory] |>.
Proof.
  intros Hs Hw E. unfold reconcile in E.
  apply bind_Ok_inv in E as (? & w1 & [_ ->]%throw_if_Ok & E). apply bind_Ok_inv in E as (actor & w2 & Ea & E).
  apply (projectAccess_signed R) in Ea as (Hw2 & now & signed & HR1 & HR2 & Hsigned); [|done].
  apply throw_if_bind in E as [_ E]. apply throw_if_bind in E as [_ E].
  apply bind_Ok_inv in E as (project0 & w3 & Ep & E).
  apply (moved R) in Ep as [HR3 Hw3]; [|world_solve|done].
  apply bind_Ok_inv in E as (project & w4 & [_ ->]%lift_inv & E). apply throw_if_bind in E as [_ E].
  apply bind_Ok_inv in E as (rows & w5 & Erows & E). rewrite pool_eq in Erows.
  apply query_Ok_inv in Erows as [-> ->]. pose proof (moved_yield R w3 Hw3) as HR4.
  assert (env_moves R (after_yield w3)) as Hw4 by (by destruct (world_yield R w3 Hw3)).
  set (w4 := after_yield w3) in *. apply throw_if_bind in E as [_ E].
  apply bind_Ok_inv in E as (item & w6 & [[Hin Hid%String.eqb_eq]%of_option_Ok%js_find_Some ->]%lift_inv & E).
  apply bind_Ok_inv in E as (observed & w7 & Eo & E). pose proof Eo as Eo'.
  apply (moved R) in Eo' as [HR5 Hw5]; [|world_solve|done].
  apply bind_Ok_inv in E as (floor & w8 & [Ef ->]%lift_inv & E). pose proof (moved_yield R w7 Hw5) as HR6.
  apply reconcile_transaction_inv in E as (p & b & Ha & Hp & Hn & Hst & Hfp & Hb & Hr & -> & ->).
  unfold try_catch in Eo. rewrite kube_eq in Eo. unfold on_kube, zoom in Eo.
  destruct (inspectProjectResources _ _ _) as [[o|e] k'] eqn:Ei; [|done]. injection Eo as -> _. rewrite <- Hn in Ei.
  apply andb_true_iff in Hr as [Hpr%String.eqb_eq Hl%bool_decide_eq_true].
  exists actor, now, signed, (w_db w4), (w_db (after_yield w7)), p, b, item, observed. eexists _, k', floor, _, _, _.
  assert (bi_lifecycle b = LActive ∨ bi_lifecycle b = LDetached) as Hlife by set_solver.
  assert (R (w_db w4) (w_db (after_yield w7))) by (by etransitivity).
  assert (R signed (w_db w4)) by (do 2 (etransitivity; [done|]); done).
  symmetry in Hfp. apply fingerprint_same in Hfp as Hsame; [|done]. unfold platform_admin in Ha.
  destruct (db_users _ !! at_id actor) as [u|] eqn:Eu; [|done]. apply andb_true_iff in Ha as [Hact Hadm].
  split_and!; try done; [by exists u|apply greatest_raised|]. simpl.
  destruct (decide (bi_lifecycle b = LDetached)) as [El|El]; [by rewrite !bool_decide_eq_true_2|].
  rewrite !bool_decide_eq_false_2 by done. split; apply greatest_raised.
Qed.
End written.

(** A deployment with a platform administrator, a ready project and a running
    instance without reservations, on a cluster that holds the sample. *)
Definition sample_inventory : InventoryPort memory := {| inspectProjectResources := λ _ _, mret sample_found |}.
Definition reconciled_binding : Binding :=
  MkBinding "p" "cache" (Some "u"%string) LActive "a" 0 "Cache" "bazel-remote" (Some "1"%string) None None None.
Definition reconcile_request : Request :=
  MkHttpRequest "POST" "127.0.0.1" None (Some "token"%string) (Some "csrf"%string) None None (JObj []) (JObj []).
Definition reconcile_world : World memory :=
  MkWorld (empty_db <| db_projects := {[ "p"%string := scanned_project ]} |>
             <| db_users := {[ "a"%string := MkUser "a@example.com" "" true true 0 ]} |>
             <| db_sessions := {[ @digest_of plain_digests "token" :=
                  MkSession "a" (@digest_of plain_digests "csrf") 100 ]} |>
             <| db_bindings := {[ "i"%string := reconciled_binding ]} |>) ∅ 5 [] [].

Lemma reconcile_exact_witness : ∃ w' b storage, let reconciled := @reconcile memory sample_inventory plain_digests
    (λ _, true) (λ _, ""%string) (λ _, JNull) true reconcile_request "p" "i" in
  reconciled reconcile_world = (Ok (Some 10, Some 500, Some 1024), w') ∧
  raised (bi_reserved_storage_gib reconciled_binding) 10 storage ∧
  db_bindings (w_db w') !! "i"%string = Some b ∧ bi_reserved_storage_gib b = storage ∧
  bi_kubernetes_uid b = Some "u"%string ∧ bi_lifecycle b = LActive.
Proof.
  destruct (@reconcile memory sample_inventory plain_digests (λ _, true) (λ _, ""%string) (λ _, JNull) true
    reconcile_request "p" "i" reconcile_world) as [r w'] eqn:E.
  assert (r = Ok (Some 10, Some 500, Some 1024)) as -> by (vm_compute in E; by injection E as <- _).
  destruct (@reconcile_exact memory sample_inventory plain_digests (λ _, true) (λ _, ""%string) (λ _, JNull) true eq _
    reconcile_request "p" "i" reconcile_world _ w' (λ _, I) (Forall_nil_2 _) E)
    as (actor & now & signed & read & db & p & b & item & found & k & k' & floor & storage & cpu & memory & <- & _ & <- & <- &
        _ & _ & _ & _ & _ & _ & _ & _ & Hb & _ & _ & [= <- _ _] & Hraised & _ & Hdb).
  injection Hb as <-. eexists w', _, (Some 10). split; [done|].
  split; [exists 10; split_and!; [done|lia|by left|done]|].
  assert (∀ d m q a, db_bindings (d <| db_bindings := m |> <| db_projects := q |> <| db_audit := a |>) = m) as Hm by done.
  rewrite Hdb, Hm, lookup_insert_eq. split_and!; reflexivity.
Defined.
