(* ===== verification/Console.v ===== *)
(** * The console: requests, session, permissions and lists

    [apps/admin-web/src]: the client of the API ([api.ts]), the session of a
    page and the project pages ([App.tsx]), the address of a page
    ([ui.tsx]), the password form ([PasswordForm.tsx]) and what the resource
    inventory offers ([ResourceInventory.tsx]).

    A page is its state and what the user and the replies do to it; rendering
    is not modelled.  An answer of the service is the parsed body, already in
    the type the page expects. *)
From Stdlib Require Import ZArith Lia Ascii Init.Byte.
From stdpp Require Import base tactics list option strings gmap.
From S2P Require Import Prelude Regex Numbers Effects Messages I18n Catalog Json Contract Database Secrets Security.
From S2P Require Import Accounts Kubernetes Worker Inventory InventoryFacts Routes Views Projects Reservation.

(** ** [api] *)
Record Call := MkCall {
  ca_method : option string; ca_path : string; ca_headers : list (string * string);
  ca_body : option (list ascii) }.
Record Sent := MkSent {
  st_method : string; st_url : string; st_headers : list (string * string); st_body : option (list ascii) }.

(** [headers.set(name, value)]: a name is compared in lower case. *)
Definition set_header (name value : string) (headers : list (string * string)) : list (string * string) :=
  map_set (to_lower name) value headers.
Definition headers_of (options : list (string * string)) : list (string * string) :=
  fold_left (λ headers e, set_header e.1 e.2 headers) options [].

(** The request [fetch] sends, with the token of [sessionStorage]. *)
Definition api_request (csrf : option string) (call : Call) : Sent :=
  let headers := headers_of (ca_headers call) in
  let headers := match ca_body call with
                 | Some (_ :: _) => set_header "Content-Type" "application/json" headers
                 | _ => headers
                 end in
  let headers := match csrf, ca_method call with
                 | Some token, Some m => if truthy csrf && negb (String.eqb m "") && negb (String.eqb m "GET")
                                         then set_header "x-csrf-token" token headers else headers
                 | _, _ => headers
                 end in
  MkSent (nullish (ca_method call) "GET") ("/v1" +:+ ca_path call) headers (ca_body call).

(** The body of an error: [issues] of the schema library, or [error]. *)
Record SchemaIssue := MkSchemaIssue { sc_path : list string; sc_message : string }.
Record ErrorBody := MkErrorBody { er_issues : option (list SchemaIssue); er_error : option string }.
(** [fetch] fails, or the service answers with a status and a body. *)
Inductive Response (A : Type) :=
  | NetworkError (message : string)
  | Responded (body : A)
  | Rejected (status : Z) (body : ErrorBody).
Arguments NetworkError {A} _.
Arguments Responded {A} _.
Arguments Rejected {A} _ _.

(** The value [api] resolves to or the error it throws. *)
Inductive Outcome (A : Type) := Done (a : A) | APIError (status : Z) (message : string) | Thrown (message : string).
Arguments Done {A} _.
Arguments APIError {A} _ _.
Arguments Thrown {A} _.

Definition issue_text (i : SchemaIssue) : string := join "." (sc_path i) +:+ ": " +:+ sc_message i.
Definition api_outcome {A} (locale : Locale) (r : Response A) : Outcome A :=
  match r with
  | NetworkError m => Thrown m
  | Responded a => Done a
  | Rejected status body =>
      let details := (λ issues, join "; " (issue_text <$> issues)) <$> er_issues body in
      APIError status
        (if truthy details then nullish details ""
         else if truthy (er_error body) then nullish (er_error body) ""
         else t locale "请求失败（{value0}）" [("value0", show_opt_num (Some status))])
  end.

(** ** The session of a page *)

(** The token in [sessionStorage] and the user [App] keeps. *)
Record Page := MkPage { pg_csrf : option string; pg_user : option Actor }.
#[export] Instance eta_Page : Eta Page := λ p, MkPage (pg_csrf p) (pg_user p).
Definition signed_out : Page := MkPage None None.

(** The listener of the event [api] dispatches on a 401. *)
Definition heard {A} (o : Outcome A) (p : Page) : Page :=
  match o with APIError status _ => if status =? 401 then signed_out else p | _ => p end.

(** [App]'s effect on mounting, with the answer of [/auth/me]. *)
Definition restore (me : Outcome Actor) (p : Page) : Page :=
  if truthy (pg_csrf p) then match me with Done u => p <| pg_user := Some u |> | _ => heard me p end else p.
(** [Login]'s submit: the token is kept, then the account is read. *)
Definition login_submit (login : Outcome string) (me : Outcome Actor) (p : Page) : Page :=
  match login with
  | Done csrf =>
      let p := p <| pg_csrf := Some csrf |> in
      match me with Done u => p <| pg_user := Some u |> | _ => heard me p end
  | _ => heard login p
  end.
(** The button that signs out, and the form of the own password. *)
Definition logout_click (o : Outcome ()) (p : Page) : Page :=
  match o with Done _ => signed_out | _ => heard o p end.

(** [PasswordForm]'s submit: the request, if the two entries agree, and what
    its answer does to the page; [target] is absent for the own password. *)
Definition password_call (target : option string) (password confirm currentPassword : string) : option Call :=
  if negb (String.eqb password confirm) then None
  else Some (MkCall (Some "POST"%string)
    (match target with Some id => "/users/" +:+ id +:+ "/password" | None => "/auth/password" end) []
    (Some (stringify (JObj (("password", JStr password) ::
       match target with None => [("currentPassword", JStr currentPassword)] | Some _ => [] end)%list)))).
Definition password_done (target : option string) (o : Outcome ()) (p : Page) : Page :=
  match o with
  | Done _ => if bool_decide (is_Some target) then p else signed_out
  | _ => heard o p
  end.

(** Everything that changes the session of a page. *)
Inductive page_step : Page → Page → Prop :=
  | page_restore me p : page_step p (restore me p)
  | page_login csrf me p : truthy (Some csrf) = true → page_step p (login_submit (Done csrf) me p)
  | page_login_failed login me p : (∀ csrf, login ≠ Done csrf) → page_step p (login_submit login me p)
  | page_logout o p : page_step p (logout_click o p)
  | page_password target o p : page_step p (password_done target o p)
  | page_heard {A} (o : Outcome A) p : page_step p (heard o p).

(** ** Permissions *)

(** The role of a listed project; none is listed for a platform administrator. *)
Definition canWrite (user : Actor) (role : option Role) : bool :=
  at_platform_admin user || match role with Some r => includes ["admin"; "maintainer"] (role_str r) | None => false end.
Definition canAdmin (user : Actor) (role : option Role) : bool :=
  at_platform_admin user || match role with Some r => String.eqb (role_str r) "admin" | None => false end.

(** [section] of [Console]: pages of an administrator lead to the instances. *)
Definition shown_section (admin : bool) (section : string) : string :=
  if negb admin && includes ["members"; "audit"] section then "instances" else section.
Definition shown_links (admin : bool) : list Section :=
  filter (λ s, (negb (sec_admin s) || admin) = true) sections.

(** The project shown after the list was read: the current one while it is
    listed. *)
Definition choose_project (current : string) (ids : list string) : string :=
  if includes ids current then current else nullish (head ids) "".

(** An operation a project administrator may resume from the list. *)
Definition offers_retry (admin : bool) (o : OpSummary) : bool :=
  admin && String.eqb (state_str (su_state o)) "failed" &&
  (String.eqb (kind_text (su_kind o)) "instance.delete" || String.eqb (kind_text (su_kind o)) "instance.create" ||
   String.eqb (kind_text (su_kind o)) "instance.reclaim" ||
   (bool_decide (is_Some (su_target_generation o)) &&
    includes ["instance.create"; "instance.reclaim"; "instance.update"; "instance.rotate"] (kind_text (su_kind o)))).

(** A difference whose reservation the inventory offers to correct. *)
Definition offers_reconcile (admin stale : bool) (result : InventoryResult) (issue : InventoryIssue) : bool :=
  admin && truthy (is_instanceId issue) && negb stale && negb (ir_truncated result) &&
  reconcilable (is_code issue) &&
  negb (existsb (λ other, oeq (is_instanceId other) (is_instanceId issue) && negb (reconcilable (is_code other)))
    (ir_issues result)).
(** Older than five minutes; times in milliseconds. *)
Definition stale_inventory (now : Z) (checkedAt : option Z) : bool :=
  match checkedAt with Some c => 5 * 60000 <? now - c | None => false end.

(** ** Lists *)

(** [a.includes(b)] of two strings. *)
Fixpoint contains (needle hay : list ascii) : bool :=
  bool_decide (take (length needle) hay = needle) ||
  match hay with [] => false | _ :: hay => contains needle hay end.

Record ListedInstance := MkListed {
  li_id : string; li_display_name : string; li_lifecycle : string; li_resource_name : string; li_template_name : string }.
Record Filters := MkFilters { fl_search : string; fl_protocol : string; fl_lifecycle : string }.
Definition no_filters : Filters := MkFilters "" "all" "all".
Definition visible (f : Filters) (i : ListedInstance) : bool :=
  (String.eqb (fl_protocol f) "all" || String.eqb (li_template_name i) (fl_protocol f)) &&
  (String.eqb (fl_lifecycle f) "all" || String.eqb (li_lifecycle i) (fl_lifecycle f)) &&
  contains (chars (trim (to_lower (fl_search f))))
    (chars (to_lower (li_display_name i +:+ " " +:+ li_resource_name i))).
Definition visibleInstances (f : Filters) (l : list ListedInstance) : list ListedInstance :=
  filter (λ i, visible f i = true) l.

(** The four numbers of the summary. *)
Definition is_current (i : ListedInstance) : bool := negb (includes ["deleted"; "detached"] (li_lifecycle i)).
Definition summary_numbers (instances : list ListedInstance) (operations : list OpSummary) : Z * Z * Z * Z :=
  (Z.of_nat (length (filter (λ i, is_current i = true) instances)),
   Z.of_nat (length (filter (λ o, includes ["pending"; "applying"; "reconciling"] (state_str (su_state o)) = true)
     operations)),
   Z.of_nat (length (filter (λ o, state_str (su_state o) = "failed"%string) operations)),
   Z.of_nat (length (remove_dups (li_template_name <$> filter (λ i, is_current i = true) instances)))).

(** ** [useRoute] *)
Record Route := MkRoute { ro_project : string; ro_section : string; ro_users : bool; ro_health : bool }.

(** [/^#\/projects\/([^/]+)\/(\w+)$/.exec(hash)] *)
Definition route_match (hash : string) : option (string * string) :=
  let prefix := chars "#/projects/" in
  if bool_decide (take (length prefix) (chars hash) = prefix) then
    match split_on "/" (drop (length prefix) (chars hash)) with
    | [id; section] => if bool_decide (id = []) || bool_decide (section = []) || negb (forallb is_word section)
                       then None else Some (of_chars id, of_chars section)
    | _ => None
    end
  else None.
Definition read_route (hash : string) : Route :=
  let found := route_match hash in
  MkRoute (match found with Some (id, _) => id | None => "" end)
    (match found with
     | Some (_, s) => if includes (sec_id <$> sections) s then s else "instances"%string
     | None => "instances"
     end)
    (String.eqb hash "#/users") (String.eqb hash "#/health").
Definition project_link (id section : string) : string := "#/projects/" +:+ id +:+ "/" +:+ section.

(** ** The request as the service reads it *)

(** The browser adds the session cookie and the origin; the body is parsed. *)
Definition received (ip : string) (origin session : option string) (s : Sent) : Request :=
  MkHttpRequest (st_method s) ip origin session (named (st_headers s) "x-csrf-token")
    (named (st_headers s) "idempotency-key") (named (st_headers s) "if-match")
    (match st_body s with Some text => default JNull (json_parse text) | None => JNull end) (JObj []).

Lemma named_set (k v j : string) m : named (map_set k v m) j = if decide (j = k) then Some v else named m j.
Proof.
  unfold named. induction m as [|[x y] m IH].
  { simpl. rewrite filter_cons, filter_nil. simpl. repeat case_decide; by subst. }
  simpl. destruct (decide (x = k)) as [->|Hx]; rewrite !filter_cons; simpl; destruct (decide (j = k)) as [->|Hj];
    repeat case_decide; simpl; congruence.
Qed.
Lemma named_set_header name v j m :
  named (set_header name v m) j = if decide (j = to_lower name) then Some v else named m j.
Proof. apply named_set. Qed.

(** The header of a call is sent unless the client sets it itself. *)
Lemma api_header csrf call j :
  j ≠ "content-type"%string → j ≠ "x-csrf-token"%string →
  named (st_headers (api_request csrf call)) j = named (headers_of (ca_headers call)) j.
Proof.
  intros H1 H2. unfold api_request. simpl.
  set (h := match ca_body call with Some (_ :: _) => _ | _ => _ end).
  assert (named h j = named (headers_of (ca_headers call)) j) as <-.
  { subst h. destruct (ca_body call) as [[]|]; [done| |done]. rewrite named_set_header. by rewrite decide_False. }
  destruct csrf as [token|]; [|done]. destruct (ca_method call) as [m|]; [|done].
  destruct (_ && _ && _); [|done]. rewrite named_set_header. by rewrite decide_False.
Qed.

(** A request that changes something carries the token. *)
Lemma api_token token call :
  truthy (Some token) = true → ca_method call ≠ Some "" →
  safe_method (st_method (api_request (Some token) call)) = false →
  named (st_headers (api_request (Some token) call)) "x-csrf-token" = Some token.
Proof.
  intros Ht Hm Hs. unfold api_request in *. simpl in *. destruct (ca_method call) as [m|]; [|done]. simpl in *.
  destruct (String.eqb_spec m "") as [->|_]; [done|]. destruct (String.eqb_spec m "GET") as [->|_]; [done|].
  rewrite Ht. simpl. by rewrite named_set_header, decide_True.
Qed.

Section sessions.
Context {K : Type} `{Digests} (is_email : string → bool).
Implicit Types w : World K.

(** A session with the digest of the token lets the request through. *)
Lemma user_passes request token session (s : Session) (u : User) w :
  hd_session request = Some session → truthy (Some session) = true → js_length session ≤ 128 →
  live_session (w_now (after_yield w)) (digest_of session) (w_db (after_yield w)) = Some (s, u) →
  se_csrf_hash s = digest_of token → js_length token ≤ 128 →
  (safe_method (hd_method request) = false → hd_csrf_token request = Some token) →
  user request w = (Ok (MkActor (se_user_id s) (us_email u) (us_platform_admin u)), after_yield w).
Proof.
  intros Hse Ht Hl Hlive Hs Hlt Hc. unfold user. rewrite Hse. rewrite Ht. simpl nullish.
  destruct (Z.ltb_spec 128 (js_length session)); [lia|]. simpl throw_if.
  erewrite bind_Ok by done. rewrite (bind_Ok _ _ _ (Some (s, u)) (after_yield w)).
  2:{ rewrite pool_eq. unfold query. by rewrite Hlive. }
  destruct (safe_method _) eqn:Em; simpl; [done|]. rewrite Hc by done.
  rewrite Hs, String.eqb_refl. destruct (Z.ltb_spec 128 (js_length token)); [lia|done].
Qed.

(** Logging in stores the digest of the token it answers with. *)
Lemma login_opens dummyHash sessionToken csrf request attempts w token a' w' :
  login is_email dummyHash sessionToken csrf request (attempts, w) = (Ok token, (a', w')) →
  token = csrf ∧ ∃ id expires, db_sessions (w_db w') !! digest_of sessionToken = Some (MkSession id (digest_of csrf) expires).
Proof.
  unfold login. intros ([email password] & s1 & [_ ->]%lift_inv & E)%bind_Ok_inv.
  apply bind_Ok_inv in E as (now & s2 & _ & E). apply bind_Ok_inv in E as (x & [a3 w3] & _ & E).
  unfold zoom in E. simpl in E. destruct (authenticate _ _ _ _ _ _ w3) as [r w4] eqn:Ea. injection E as -> _ ->.
  unfold authenticate in Ea. apply bind_Ok_inv in Ea as (found & w5 & _ & Ea).
  destruct found as [[id u]|]; [|done]. apply throw_if_bind in Ea as [_ Ea].
  apply bind_Ok_inv in Ea as (v & w6 & Et & [= <- <-]). split; [done|]. exists id.
  apply committed in Et as (f & w7 & _ & Et)%bind_Ok_inv. apply throw_if_bind in Et as [_ Et].
  apply bind_Ok_inv in Et as (y & w8 & _ & Et).
  apply bind_Ok_inv in Et as (z & w9 & (db & Ei & ->)%execute_res_Ok_inv & ->%execute_sql_Ok_inv).
  unfold insert_session in Ei. case_bool_decide; [done|]. injection Ei as _ <-.
  eexists. simpl. by rewrite lookup_insert_eq.
Qed.
End sessions.

(** Only a page with a token shows an account. *)
Definition signed_in (p : Page) : Prop := is_Some (pg_user p) → truthy (pg_csrf p) = true.
Lemma heard_signed_in {A} (o : Outcome A) p : signed_in p → signed_in (heard o p).
Proof. destruct o as [| status m|]; simpl; try done. destruct (_ =? _); [|done]. by intros _ [? ?]. Qed.
Lemma step_signed_in p p' : page_step p p' → signed_in p → signed_in p'.
Proof.
  destruct 1 as [me p|csrf me p Hc|login me p Hn|o p|target o p|A o p]; intros Hp;
    try by apply heard_signed_in.
  - unfold restore. destruct (truthy _) eqn:Ht; [|done]. destruct me; try by apply heard_signed_in. by intros _.
  - simpl. destruct me; [by intros _|by apply heard_signed_in; intros _..].
  - destruct login as [csrf| |]; [by destruct (Hn csrf)|by apply heard_signed_in..].
  - destruct o; [by intros [? ?]|by apply heard_signed_in..].
  - destruct o; [|by apply heard_signed_in..]. simpl. case_bool_decide; [done|]. by intros [? ?].
Qed.

(** [Login]'s request. *)
Definition login_call (email password : string) : Call :=
  MkCall (Some "POST"%string) "/auth/login" []
    (Some (stringify (JObj [("email", JStr email); ("password", JStr password)]))).

(** C32. A page that has signed in can work: when the service has answered the
    login form, the page keeps a token with which every later request of the
    client passes the service's session and CSRF checks, whatever its method,
    for as long as the session is live and the cookie is the one the login set;
    a page only shows an account while it has a token, however it is used; and
    any answer 401 signs it out. *)
Theorem console_session_works {K} `{Digests} (is_email : string → bool) (dummyHash sessionToken csrf ip : string)
    (origin cookie : option string) (email password : string) (me : Actor) (page : Page)
    (attempts a' : gmap string Attempt) (w w' : World K) (token : string) :
  truthy (Some csrf) = true → js_length csrf ≤ 128 →
  truthy (Some sessionToken) = true → js_length sessionToken ≤ 128 →
  login is_email dummyHash sessionToken csrf
    (received ip origin cookie (api_request (pg_csrf page) (login_call email password))) (attempts, w) =
    (Ok token, (a', w')) →
  let page' := login_submit (Done token) (Done me) page in
  page' = MkPage (Some token) (Some me) ∧
  (∀ call (w2 : World K) s u,
     ca_method call ≠ Some "" →
     db_sessions (w_db w') !! digest_of sessionToken = Some s →
     live_session (w_now (after_yield w2)) (digest_of sessionToken) (w_db (after_yield w2)) = Some (s, u) →
     user (received ip origin (Some sessionToken) (api_request (pg_csrf page') call)) w2 =
       (Ok (MkActor (se_user_id s) (us_email u) (us_platform_admin u)), after_yield w2)) ∧
  (∀ stored p, rtc page_step (MkPage stored None) p → signed_in p) ∧
  (∀ message p, heard (APIError (A:=()) 401 message) p = signed_out).
Proof.
  intros Hc Hcl Hs Hsl E page'. apply login_opens in E as [-> (id & expires & Hse)]. split_and!.
  - done.
  - intros call w2 s u Hm Hs' Hlive. rewrite Hse in Hs'. injection Hs' as <-.
    eapply user_passes; [done|done|done|exact Hlive|done|done|]. intros Hsafe. by apply api_token.
  - intros stored p Hr. remember (MkPage stored None) as p0 eqn:E0. assert (signed_in p0) as H0 by (by subst; intros [? ?]).
    clear E0. induction Hr as [|p1 p2 p3 Hst _ IH]; [done|]. by apply IH, (step_signed_in p1).
  - done.
Qed.

Definition sample_user : User :=
  MkUser "a@example.com" (@hashPassword plain_digests [x00] "correct horse") false true 0.
Definition login_world : World () := MkWorld (empty_db <| db_users := {[ "a"%string := sample_user ]} |>) tt 5000000 [] [].
Definition signing_in : res string * (gmap string Attempt * World ()) :=
  @login () plain_digests (λ _, true) "" "session" "csrf"
    (received "192.0.2.1" None None (api_request None (login_call "a@example.com" "correct horse"))) (∅, login_world).
Lemma console_session_works_witness :
  signing_in.1 = Ok "csrf"%string ∧
  (@user () plain_digests (received "192.0.2.1" None (Some "session"%string)
      (api_request (Some "csrf"%string) (MkCall (Some "POST"%string) "/auth/logout" [] None))) signing_in.2.2).1 =
    Ok (MkActor "a" "a@example.com" false).
Proof.
  assert (signing_in.1 = Ok "csrf"%string) as Hr by (vm_compute; reflexivity). split; [exact Hr|].
  assert (signing_in = (Ok "csrf"%string, (signing_in.2.1, signing_in.2.2))) as E
    by (rewrite <- Hr; destruct signing_in as [? [? ?]]; reflexivity).
  destruct (@console_session_works () plain_digests (λ _, true) "" "session" "csrf" "192.0.2.1" None None
    "a@example.com" "correct horse" (MkActor "a" "a@example.com" false) signed_out ∅ _ login_world _ "csrf"
    eq_refl ltac:(vm_compute; discriminate) eq_refl ltac:(vm_compute; discriminate) E) as (_ & H & _).
  refine (f_equal fst (H (MkCall (Some "POST"%string) "/auth/logout" [] None) _
    (MkSession "a" (@digest_of plain_digests "csrf") 86405000000) sample_user _ _ _));
    [discriminate|vm_compute; reflexivity..].
Defined.

(** ** What the pages offer *)

(** The role [GET /v1/projects] lists with a project. *)
Definition listed_role (actor : Actor) (projectId : string) (db : DB) : option Role :=
  if at_platform_admin actor then None else db_members db !! (projectId, at_id actor).

(** The differences of one instance, compared alone, are among those of the
    whole project. *)
Lemma listed_own_issues project bindings found b i :
  NoDup (ib_resource_name <$> bindings) → b ∈ bindings →
  i ∈ (all_issues project [b] found).1 → is_instanceId i = Some (ib_id b) →
  i ∈ (all_issues project bindings found).1.
Proof.
  intros Hn Hb. unfold all_issues.
  destruct (compare_bindings project [b] _ _) as [[[is1 n1] I1] V1] eqn:E1.
  destruct (compare_bindings project bindings _ _) as [[[is2 n2] I2] V2] eqn:E2.
  apply compare_bindings_spec in E1 as (-> & _); [|apply NoDup_singleton].
  apply compare_bindings_spec in E2 as (-> & _); [|done]. simpl. rewrite app_nil_r.
  intros [Hi|Hi]%elem_of_app Hid.
  - apply elem_of_app. left. apply list_elem_of_In, in_concat. eexists. rewrite <-!list_elem_of_In. split; [|exact Hi].
    apply list_elem_of_fmap. by exists b.
  - unfold untracked in Hi. apply elem_of_app in Hi as [(e & -> & _)%list_elem_of_fmap|(e & -> & _)%list_elem_of_fmap];
      discriminate Hid.
Qed.

(** A comparison that is not cut lists every difference. *)
Lemma untruncated project bindings found :
  ir_truncated (compareInventory project bindings found) = false →
  ir_issues (compareInventory project bindings found) = (all_issues project bindings found).1.
Proof.
  unfold compareInventory. destruct (all_issues _ _ _) as [l n]. simpl. intros H%Z.ltb_ge.
  apply take_ge. rewrite length_take in H. lia.
Qed.

(** C33. The pages offer what the service lets through.  For an active account,
    with the role listed for it, the page shows the write and the
    administration controls exactly when the service's check of the project
    passes for the writing and the administering roles; an administrator is
    offered to resume exactly the failed operations the service takes as
    resumable; the pages for administrators are shown to no one else; and where
    the inventory offers to correct the reservation of an instance, the
    service's own comparison of the same resources finds nothing that stops the
    correction. *)
Theorem console_offers_exact (actor : Actor) (account : User) (projectId : string) (db : DB) (op : Operation)
    (admin stale : bool) (section : string) (bindings : list InventoryBinding) (found : InventoryResources)
    (b : InventoryBinding) (issue : InventoryIssue) :
  db_users db !! at_id actor = Some account → us_active account = true →
  us_platform_admin account = at_platform_admin actor → (∀ kind, op_kind op ≠ OtherKind kind) →
  canWrite actor (listed_role actor projectId db) = permitted actor projectId [RAdmin; RMaintainer] db ∧
  canAdmin actor (listed_role actor projectId db) = permitted actor projectId [RAdmin] db ∧
  offers_retry admin (summary op) = admin && resumable op ∧
  (shown_section admin section ∈ sec_id <$> filter (λ s, sec_admin s = true) sections → admin = true) ∧
  (shown_links true = sections ∧ Forall (λ s, sec_admin s = false) (shown_links false)) ∧
  (NoDup (ib_resource_name <$> bindings) → b ∈ bindings → is_instanceId issue = Some (ib_id b) →
   offers_reconcile admin stale (compareInventory projectId bindings found) issue = true →
   admin = true ∧ stale = false ∧ reconcilable (is_code issue) = true ∧
   existsb (λ i, negb (reconcilable (is_code i)))
     (filter (λ i, is_instanceId i = Some (ib_id b)) (ir_issues (compareInventory projectId [b] found))) = false).
Proof.
  intros Hu Ha Hp Hk. unfold canWrite, canAdmin, listed_role, permitted. rewrite Hu, Ha, Hp. simpl. split_and!.
  - destruct (at_platform_admin actor); [done|]. simpl. by destruct (db_members _ !! _) as [[]|].
  - destruct (at_platform_admin actor); [done|]. simpl. by destruct (db_members _ !! _) as [[]|].
  - unfold offers_retry, resumable, summary. simpl. rewrite <-andb_assoc. f_equal.
    destruct (op_state op); try done; simpl.
    destruct (op_kind op) as [| | | | | | |s]; [..|by destruct (Hk s)]; by destruct (op_target_generation op).
  - change (sec_id <$> filter (λ s, sec_admin s = true) sections) with ["members"; "audit"]%string.
    unfold shown_section. destruct admin; [done|]. simpl negb. cbn [andb]. destruct (includes _ section) eqn:E; intros H%(includes_spec ["members"; "audit"]);
      [discriminate H|congruence].
  - done.
  - by repeat constructor.
  - intros Hn Hb Hi Ho. unfold offers_reconcile in Ho. boolify.
    split_and!; [done..|]. apply not_true_iff_false. intros (i & Hin & Hr)%existsb_exists.
    apply list_elem_of_In, list_elem_of_filter in Hin as [Hid Hin].
    match goal with H : existsb _ _ = false |- _ => apply not_true_iff_false in H; apply H end.
    apply existsb_exists. exists i. rewrite <-list_elem_of_In. split.
    + rewrite (untruncated projectId bindings) by done. eapply listed_own_issues; [done|done| |done].
      revert Hin. unfold compareInventory. destruct (all_issues _ [b] _) as [l n]. simpl. apply subseteq_take.
    + unfold oeq. by rewrite Hid, Hi, bool_decide_true.
Qed.

Definition unreserved : InventoryBinding := binding_row (λ _, ""%string) "i" reconciled_binding empty_db.
Definition failed_update : Operation :=
  new_operation 0 "op" "p" (Some "i"%string) InstanceUpdate "key-0001" "" empty_request None "a"
    <| op_state := Failed |> <| op_target_generation := Some 2 |>.
Definition maintained_db : DB :=
  empty_db <| db_users := {[ "a"%string := sample_user ]} |> <| db_members := {[ ("p", "a")%string := RMaintainer ]} |>.
Lemma console_offers_exact_witness :
  let actor := MkActor "a" "a@example.com" false in
  canWrite actor (listed_role actor "p" maintained_db) = true ∧
  canWrite actor (listed_role actor "p" maintained_db) = permitted actor "p" [RAdmin; RMaintainer] maintained_db ∧
  offers_retry true (summary failed_update) = true ∧
  ∃ issue, offers_reconcile true false (compareInventory "p" [unreserved] sample_found) issue = true ∧
    reconcilable (is_code issue) = true.
Proof.
  pose proof (λ issue, console_offers_exact (MkActor "a" "a@example.com" false) sample_user "p" maintained_db failed_update true
    false "audit" [unreserved] sample_found unreserved issue eq_refl eq_refl eq_refl ltac:(intros s; discriminate)) as H.
  split; [vm_compute; reflexivity|].
  split; [exact (proj1 (H (MkIssue "" IKInstance "" None)))|]. split; [vm_compute; reflexivity|].
  set (issue := MkIssue "ResourceReservationUnknown" IKInstance "cache" (Some "i"%string)).
  exists issue. assert (offers_reconcile true false (compareInventory "p" [unreserved] sample_found) issue = true) as E
    by (vm_compute; reflexivity).
  split; [exact E|]. destruct (H issue) as (_ & _ & _ & _ & _ & Hr). apply Hr; [..|exact E].
  - apply NoDup_singleton.
  - by apply list_elem_of_singleton.
  - reflexivity.
Defined.
