(* ===== verification/ConsoleForms.v ===== *)
(** * The console: forms and keyed submissions

    [apps/admin-web/src]: the form of an instance ([InstanceForm] of
    [App.tsx]), the form of a quota ([ProjectQuota.tsx]), and the components
    that submit a request under an idempotency key: rotating, deleting and
    retrying ([RotateCredential.tsx], [InstanceDetail] and [ProjectView] of
    [App.tsx], [RetryOperation.tsx]) and the retained volume
    ([RetainedVolume.tsx]).

    A component is a record of its state and a function of an event: what the
    user does, and the answers of the service.  The value of [randomUUID] is part
    of the event that draws it.  The constraints of the input elements belong to
    the browser and are not modelled. *)
From Stdlib Require Import ZArith Lia Ascii Init.Byte QArith.
From stdpp Require Import base tactics list option strings gmap.
From S2P Require Import Prelude Regex Numbers Effects Quantities Messages I18n Catalog Json JsNumber Contract Database.
From S2P Require Import Quotas Secrets Security Accounts Kubernetes Worker Routes Views Projects Console.
#[local] Open Scope Z_scope.

(** ** Numbers of the form *)

(** [parseInt(text)]: the longest literal the text begins with. *)
Definition parseInt (text : string) : jsnum :=
  let l := trim_start (chars text) in
  let '(negative, l) := match l with
    | c :: r => if Ascii.eqb c "-" then (true, r) else if Ascii.eqb c "+" then (false, r) else (false, l)
    | [] => (false, [])
    end in
  let '(radix, l) := match l with
    | z :: x :: r => if Ascii.eqb z "0" && one_of "xX" x then (16, r) else (10, l)
    | _ => (10, l)
    end in
  let digit c := if radix =? 16 then bool_decide (is_Some (hex_val c)) else is_digit c in
  let '(digits, _) := span digit l in
  match digits with
  | [] => NaN
  | _ => let n := fold_left (λ acc c, acc * radix + default 0 (hex_val c)) digits 0 in
         if is_finite (Finite n 1) then Finite (if negative then - js_number n else js_number n) 1
         else Infinite negative
  end.

(** The double nearest to a quotient, ties to even; a magnitude below the normal
    range keeps its 53 bits. *)
Definition to_double (v : jsnum) : jsnum :=
  match v with
  | Finite n d =>
      if n =? 0 then Finite 0 1
      else if negb (is_finite v) then Infinite (n <? 0)
      else
        let scaled e := (Z.abs n * 2 ^ Z.max 0 (- e), d * 2 ^ Z.max 0 e) in
        let e := Z.log2 (Z.abs n) - Z.log2 d - 53 in
        let e := if 2 ^ 53 <=? (scaled e).1 / (scaled e).2 then e + 1 else e in
        let m := round_even (scaled e).1 (scaled e).2 in
        let m := if n <? 0 then - m else m in
        if 0 <=? e then Finite (m * 2 ^ e) 1 else Finite m (2 ^ (- e))
  | _ => v
  end.
(** [Number(cpu) * 1000] *)
Definition thousandfold (v : jsnum) : jsnum :=
  match to_double v with Finite n d => to_double (Finite (n * 1000) d) | v => v end.

(** [a >= b] of two doubles. *)
Definition js_ge (a b : jsnum) : bool :=
  match a, b with
  | NaN, _ | _, NaN => false
  | Infinite s, Infinite t => negb s || t
  | Infinite s, Finite _ _ => negb s
  | Finite _ _, Infinite t => t
  | Finite n d, Finite m e => m * d <=? n * e
  end.
(** [Math.min(a, b - 1)] of an integer [a] and a double [b]. *)
Definition min_pred (a : Z) (b : jsnum) : jsnum :=
  match b with
  | NaN => NaN
  | Infinite negative => if negative then b else Finite a 1
  | Finite n d => if (a + 1) * d <=? n then Finite a 1 else to_double (Finite (n - d) d)
  end.
(** A number as [JSON.stringify] prints it. *)
Definition num_json (v : jsnum) : json :=
  match v with
  | Finite n d => if n mod d =? 0 then JInt (n / d) else JFrac n d
  | _ => JNull
  end.

(** [volumeGiB]: [/^(\d+)(Ki|Mi|Gi|Ti)$/], in whole GiB. *)
Definition binary_factor (suffix : string) : option Z :=
  if String.eqb suffix "Ki" then Some 1024
  else if String.eqb suffix "Mi" then Some (1024 ^ 2)
  else if String.eqb suffix "Gi" then Some (1024 ^ 3)
  else if String.eqb suffix "Ti" then Some (1024 ^ 4) else None.
Definition volumeGiB (quantity : string) : option Z :=
  let l := chars quantity in
  let digits := take (length l - 2) l in
  factor ← binary_factor (of_chars (drop (length l - 2) l));
  if bool_decide (digits = []) || negb (forallb is_digit digits) then None
  else
    let gib := (dec_val digits * factor + 1024 ^ 3 - 1) / 1024 ^ 3 in
    if gib <=? 1048576 then Some gib else None.

(** ** The input of the form *)
Record Input := MkForm {
  f_template : string; f_exposure : string; f_name : string; f_storageGiB : jsnum; f_cacheGiB : jsnum;
  f_cpuMillis : jsnum; f_memoryMiB : jsnum; f_desiredState : string; f_deletionPolicy : string;
  f_readOnly : option bool }.
#[export] Instance eta_Input : Eta Input := λ r,
  MkForm (f_template r) (f_exposure r) (f_name r) (f_storageGiB r) (f_cacheGiB r) (f_cpuMillis r) (f_memoryMiB r)
    (f_desiredState r) (f_deletionPolicy r) (f_readOnly r).

Definition defaults : Input :=
  MkForm "bazel-remote" "ClusterInternal" "" (Finite 20 1) (Finite 16 1) (Finite 500 1) (Finite 512 1) "Running" "Retain" None.

Record ReclaimTarget := MkReclaimTarget {
  rt_path : string; rt_volume : RetainedVolume; rt_name : string; rt_template : string; rt_templateVersion : option string }.

(** The input prefilled from the object of an instance: reading the processor
    limit of an object without one throws. *)
Definition spec_input (name : string) (spec : Spec) : res Input :=
  let limits := rs_limits (sp_resources spec) in
  let template := tr_name (sp_templateRef spec) in
  cpu ← of_option (JsError "Cannot read properties of undefined") (limits !! "cpu");
  mret (MkForm template (ac_exposure (sp_access spec)) name
    (parseInt (st_capacity (sp_storage spec))) (Finite (ev_maxCacheGiB (sp_eviction spec)) 1)
    (if bool_decide (last (chars cpu) = Some "m"%char) then parseInt cpu else thousandfold (js_Number cpu))
    (match limits !! "memory" with Some memory => parseInt memory | None => NaN end)
    (sp_desiredState spec) (st_deletionPolicy (sp_storage spec))
    (if String.eqb template "go-cacheprog" then Some (nullish (ac_readOnly (sp_access spec)) false) else None)).

(** The input proposed for a retained volume. *)
Definition reclaim_minimum (volume : RetainedVolume) : Z :=
  Z.max (Z.max (nullish (volumeGiB (vo_capacity volume)) 0) (nullish (volumeGiB (vo_allocatedCapacity volume)) 0)) 2.
Definition reclaim_input (r : ReclaimTarget) : Input :=
  let minimum := reclaim_minimum (rt_volume r) in
  defaults <| f_name := rt_name r |> <| f_template := rt_template r |> <| f_storageGiB := Finite minimum 1 |>
    <| f_cacheGiB := if String.eqb (rt_template r) "webdav-apache" then Finite 0 1
                     else Finite (Z.max 1 (Z.min 16 (minimum - 1))) 1 |>.

Definition spec_of (detail : option InstanceDetail) : option Spec := detail ≫= de_spec.
Definition initial_input (detail : option InstanceDetail) (reclaim : option ReclaimTarget) : res Input :=
  match spec_of detail with
  | Some spec => spec_input (match detail with Some d => de_name d | None => "" end) spec
  | None => mret (match reclaim with Some r => reclaim_input r | None => defaults end)
  end.

(** The body: the entries in the order of the object they were made in, with
    [readOnly] for the Go template only. *)
Definition body_fields (from_spec : bool) (i : Input) : list (string * json) :=
  (if from_spec
   then [("template", JStr (f_template i)); ("exposure", JStr (f_exposure i)); ("name", JStr (f_name i))]
   else [("exposure", JStr (f_exposure i)); ("template", JStr (f_template i)); ("name", JStr (f_name i))]) ++
  [("storageGiB", num_json (f_storageGiB i)); ("cacheGiB", num_json (f_cacheGiB i));
   ("cpuMillis", num_json (f_cpuMillis i)); ("memoryMiB", num_json (f_memoryMiB i));
   ("desiredState", JStr (f_desiredState i)); ("deletionPolicy", JStr (f_deletionPolicy i))] ++
  if String.eqb (f_template i) "go-cacheprog" then [("readOnly", JBool (nullish (f_readOnly i) true))] else [].
Definition input_body (from_spec : bool) (i : Input) : json := JObj (body_fields from_spec i).

(** ** [InstanceForm] *)
Record Form := MkInstanceForm {
  fo_detail : option InstanceDetail; fo_reclaim : option ReclaimTarget; fo_input : Input;
  fo_templates : list CatalogItem; fo_error : string; fo_catalogError : string; fo_busy : bool;
  fo_last : list ascii * string }.
#[export] Instance eta_Form : Eta Form := λ r,
  MkInstanceForm (fo_detail r) (fo_reclaim r) (fo_input r) (fo_templates r) (fo_error r) (fo_catalogError r)
    (fo_busy r) (fo_last r).

Definition open_form (detail : option InstanceDetail) (reclaim : option ReclaimTarget) : res Form :=
  input ← initial_input detail reclaim;
  mret (MkInstanceForm detail reclaim input [] "" "" false ([], ""%string)).

Definition legacyWebDAV (reclaim : option ReclaimTarget) (templates : list CatalogItem) : bool :=
  match reclaim with
  | Some r => String.eqb (rt_template r) "webdav-apache" && oeq (rt_templateVersion r) (Some "0.1.0"%string) &&
              existsb (λ t, String.eqb (ci_name t) "webdav-apache") templates
  | None => false
  end.
Definition selectedTemplate (f : Form) : option CatalogItem :=
  js_find (λ t, String.eqb (ci_name t) (f_template (fo_input f)) &&
                match spec_of (fo_detail f) with
                | Some spec => String.eqb (ci_version t) (tr_version (sp_templateRef spec))
                | None => true
                end &&
                match fo_reclaim f with Some r => oeq (Some (ci_version t)) (rt_templateVersion r) | None => true end)
    (fo_templates f).
Definition supportsCapacity (f : Form) : bool :=
  match selectedTemplate f with
  | Some t => cap_capacity (ci_capabilities t)
  | None => match spec_of (fo_detail f) with Some spec => 0 <? ev_maxCacheGiB (sp_eviction spec) | None => false end
  end.
Definition canSubmit (f : Form) : bool :=
  bool_decide (is_Some (fo_detail f)) || bool_decide (is_Some (selectedTemplate f)) ||
  legacyWebDAV (fo_reclaim f) (fo_templates f).

(** The request of a body under a key. *)
Definition form_call (base : string) (detail : option InstanceDetail) (reclaim : option ReclaimTarget)
    (body : list ascii) (key : string) : Call :=
  MkCall (Some (if bool_decide (is_Some detail) then "PATCH" else "POST")%string)
    (match reclaim with
     | Some r => rt_path r +:+ "/reclaim"
     | None => base +:+ "/instances" +:+ match detail with Some d => "/" +:+ de_id d | None => "" end
     end)
    (("Idempotency-Key"%string, key) ::
     match detail, reclaim with
     | Some d, _ => [("If-Match", of_chars [quote] +:+ nullish (de_revision d) "null" +:+ of_chars [quote])%string]
     | None, Some r => [("If-Match"%string, vo_uid (rt_volume r))]
     | None, None => []
     end)
    (Some body).

(** What the user does and what the service answers. *)
Inductive FormEvent :=
  | FLoaded (items : list CatalogItem) | FLoadFailed (message : string)
  | FTemplate (name : string) | FExposure (exposure : string) | FName (name : string)
  | FStorage (v : jsnum) | FCache (v : jsnum) | FCpu (v : jsnum) | FMemory (v : jsnum)
  | FDesired (state : string) | FReadOnly (b : bool) | FPolicy (policy : string)
  | FSubmit (fresh : string) | FSettled (error : option string).

Section form.
Context (locale : Locale) (base : string).

(** [selected.exposures?.includes(exposure) ? exposure : "ClusterInternal"] *)
Definition kept_exposure (t : CatalogItem) (exposure : string) : string :=
  if includes (ci_exposures t) exposure then exposure else "ClusterInternal".

(** The catalog has been read. *)
Definition form_loaded (items : list CatalogItem) (f : Form) : Form :=
  let f := f <| fo_templates := items |> in
  match fo_reclaim f with
  | Some r =>
      if negb (legacyWebDAV (Some r) items) &&
         negb (existsb (λ t, String.eqb (ci_name t) (rt_template r) && oeq (Some (ci_version t)) (rt_templateVersion r)) items)
      then f <| fo_catalogError := t locale "原协议模板版本当前不可用，无法领回该实例。" [] |> else f
  | None =>
      if bool_decide (is_Some (fo_detail f)) then f
      else match items with
           | [] => f <| fo_catalogError := t locale "当前没有可创建的模板。" [] |>
           | first :: _ =>
               let selected := nullish (js_find (λ t, String.eqb (ci_name t) (f_template (fo_input f))) items) first in
               f <| fo_input ::= λ i,
                 i <| f_template := ci_name selected |> <| f_exposure ::= kept_exposure selected |>
                   <| f_cacheGiB ::= λ c, if cap_capacity (ci_capabilities selected) then c else Finite 0 1 |> |>
           end
  end.

(** The user chooses a template of the list. *)
Definition form_template (name : string) (f : Form) : Form :=
  match js_find (λ t, String.eqb (ci_name t) name) (fo_templates f) with
  | Some selected =>
      f <| fo_input ::= λ i,
        i <| f_template := ci_name selected |> <| f_exposure ::= kept_exposure selected |>
          <| f_cacheGiB := if cap_capacity (ci_capabilities selected) then min_pred 16 (f_storageGiB i) else Finite 0 1 |> |>
  | None => f
  end.

Definition form_submit (fresh : string) (f : Form) : Form * option Call :=
  let f := f <| fo_error := ""%string |> in
  if negb (canSubmit f) then (f, None)
  else if supportsCapacity f && js_ge (f_cacheGiB (fo_input f)) (f_storageGiB (fo_input f))
  then (f <| fo_error := t locale "缓存容量必须小于存储卷容量，以预留运行空间。" [] |>, None)
  else
    let body := stringify (input_body (bool_decide (is_Some (spec_of (fo_detail f)))) (fo_input f)) in
    let f := f <| fo_busy := true |> in
    let f := if bool_decide ((fo_last f).1 = body) then f else f <| fo_last := (body, fresh) |> in
    (f, Some (form_call base (fo_detail f) (fo_reclaim f) body (fo_last f).2)).

Definition form_step (f : Form) (e : FormEvent) : Form * option Call :=
  let set g := (f <| fo_input ::= g |>, None) in
  match e with
  | FLoaded items => (form_loaded items f, None)
  | FLoadFailed m => (f <| fo_catalogError := m |>, None)
  | FTemplate name => (form_template name f, None)
  | FExposure x => set (λ i, i <| f_exposure := x |>)
  | FName x => set (λ i, i <| f_name := x |>)
  | FStorage v => set (λ i, i <| f_storageGiB := v |>)
  | FCache v => set (λ i, i <| f_cacheGiB := v |>)
  | FCpu v => set (λ i, i <| f_cpuMillis := v |>)
  | FMemory v => set (λ i, i <| f_memoryMiB := v |>)
  | FDesired x => set (λ i, i <| f_desiredState := x |>)
  | FReadOnly b => set (λ i, i <| f_readOnly := Some b |>)
  | FPolicy x => set (λ i, i <| f_deletionPolicy := x |>)
  | FSubmit fresh => form_submit fresh f
  | FSettled error => (f <| fo_error ::= λ old, nullish error old |> <| fo_busy := false |>, None)
  end.
End form.

(** ** Facts about numbers *)
Lemma small_finite n : 0 ≤ n < 2 ^ 53 → is_finite (Finite n 1) = true.
Proof.
  intros Hn. unfold is_finite. apply Z.ltb_lt. rewrite Z.mul_1_l, Z.abs_eq by lia.
  apply Z.lt_trans with (2 ^ 53); [lia|]. vm_compute. reflexivity.
Qed.

Lemma fold_hex l a : digits l → fold_left (λ acc c, acc * 10 + default 0 (hex_val c)) l a =
  a * 10 ^ Z.of_nat (length l) + dec_val l.
Proof.
  intros Hl. rewrite <-fold_digits. revert a. induction Hl as [|c l Hc _ IH]; intros a; [done|]. simpl.
  rewrite IH. f_equal. apply is_digit_spec in Hc. unfold hex_val. change (code c) with (Z.of_nat (nat_of_ascii c)).
  unfold digit_val in *. rewrite !(proj2 (Z.leb_le _ _)) by lia. simpl. lia.
Qed.

(** A printed number followed by a unit is read back. *)
Lemma parseInt_printed n c suffix :
  0 ≤ n < 2 ^ 53 → is_digit c = false → one_of "xX" c = false →
  parseInt (dec_str n +:+ String c suffix) = Finite n 1.
Proof.
  intros Hn Hc Hx. unfold parseInt. rewrite chars_app. simpl chars.
  destruct (dec_str_spec n ltac:(lia)) as (Hd & Hne & Hv).
  set (l := chars (dec_str n)) in *. destruct l as [|d l'] eqn:El; [done|].
  pose proof (Forall_cons_1 _ _ _ Hd) as [Hdd Hd'].
  assert (is_space d = false ∧ Ascii.eqb d "-" = false ∧ Ascii.eqb d "+" = false) as (Hs & Hm & Hp).
  { clear -Hdd. destruct d as [[] [] [] [] [] [] [] []]; try done; by cbv in Hdd. }
  simpl. rewrite Hs, Hm, Hp.
  assert (∀ x, is_digit x = true → one_of "xX" x = false) as Hdx by (by intros [[] [] [] [] [] [] [] []]).
  assert ((match (l' ++ c :: chars suffix)%list with
           | x :: r => if (d =? "0")%char && one_of "xX" x then (16, r) else (10, d :: l' ++ c :: chars suffix)
           | [] => (10, d :: l' ++ c :: chars suffix)
           end) = (10, d :: l' ++ c :: chars suffix)) as ->.
  { destruct l' as [|x l'']; simpl; [by rewrite Hx, andb_false_r|].
    rewrite Hdx, andb_false_r; [done|]. by inversion Hd'. }
  change (10 =? 16) with false. cbv iota.
  change (d :: l' ++ c :: chars suffix) with ((d :: l') ++ c :: chars suffix)%list.
  rewrite span_all by done. cbv iota zeta. rewrite fold_hex by done. rewrite Hv.
  rewrite Z.mul_0_l, Z.add_0_l. pose proof (small_finite n Hn) as Hf. unfold is_finite in Hf.
  by rewrite Hf, js_number_exact by lia.
Qed.

#[local] Arguments num_json : simpl never.
Lemma num_json_int n : num_json (Finite n 1) = JInt n.
Proof. unfold num_json. by rewrite Z.mod_1_r, Z.div_1_r. Qed.

(** ** The body and the schema of the service *)

(** The form that shows an input. *)
Definition form_of (i : InstanceInput) : Input :=
  MkForm (template_str (in_template i)) (exposure_str (in_exposure i)) (in_name i)
    (Finite (in_storageGiB i) 1) (Finite (in_cacheGiB i) 1) (Finite (in_cpuMillis i) 1) (Finite (in_memoryMiB i) 1)
    (desiredState_str (in_desiredState i)) (deletionPolicy_str (in_deletionPolicy i)) (in_readOnly i).

Lemma field_elem k v fs : NoDup fs.*1 → field k fs = Some v ↔ (k, v) ∈ fs.
Proof.
  induction fs as [|[k' v'] fs IH]; csimpl; [by split; [|intros []%not_elem_of_nil]|].
  intros [Hk Hn]%NoDup_cons. rewrite elem_of_cons. destruct (String.eqb_spec k' k) as [->|Hne].
  - split; [by intros [= ->]; left|]. intros [[= ->]|Hin]; [done|]. destruct Hk. by apply (list_elem_of_fmap_2 fst _ (k, v)).
  - rewrite IH by done. naive_solver.
Qed.

(** A schema does not see the order of the fields. *)
Lemma instanceInput_perm fs fs' : NoDup fs.*1 → fs ≡ₚ fs' → instanceInput (JObj fs) = instanceInput (JObj fs').
Proof.
  intros Hn Hp.
  assert (∀ k, field k fs = field k fs') as Hf.
  { intros k. apply option_eq. intros v. rewrite !field_elem; [by rewrite Hp|by rewrite <-Hp|done]. }
  assert (∀ keys, only_keys keys fs = only_keys keys fs') as Hk.
  { intros keys. unfold only_keys. clear Hn Hf. induction Hp as [|[] ? ? ? IH|[] [] ?|? ? ? ? IH1 ? IH2]; simpl; try congruence.
    by rewrite !andb_assoc, (andb_comm (includes _ _)). }
  assert (commonInput fs = commonInput fs') as Hc by (unfold commonInput; by rewrite !Hf).
  assert (∀ extra t c r, extended extra t c r (JObj fs) = extended extra t c r (JObj fs')) as He
    by (intros; unfold extended; by rewrite Hk, Hc, !Hf).
  unfold instanceInput, bazelInput, webdavInput, gradleInput, turborepoInput, nxInput, goCacheInput, z_union.
  cbn [foldr]. by rewrite !He.
Qed.

Lemma form_keys from_spec i : NoDup (body_fields from_spec i).*1.
Proof.
  unfold body_fields. destruct from_spec, (String.eqb _ _); apply (bool_decide_unpack _); vm_compute; exact I.
Qed.

Lemma form_fields_read from_spec i : valid_input i →
  instanceInput (input_body from_spec (form_of i)) = Some i ∧ printable (input_body from_spec (form_of i)).
Proof.
  intros Hv. split.
  - rewrite <-(instanceInput_complete (to_json i) i) by (by apply schema_to_json).
    apply instanceInput_perm; [apply form_keys|]. unfold body_fields, form_of. simpl. rewrite !num_json_int.
    destruct Hv as (_ & _ & _ & _ & _ & Hr). unfold valid_readOnly in Hr.
    destruct (in_template i); simpl;
      [rewrite Hr; destruct from_spec; simpl; solve_Permutation..|].
    destruct Hr as [b ->]. destruct from_spec; simpl; solve_Permutation.
  - apply printable_obj. split; [apply form_keys|]. unfold body_fields, form_of. simpl. rewrite !num_json_int.
    destruct Hv as (_ & Hs & Hc & Hm & Hcache & _).
    assert (0 ≤ in_cacheGiB i ≤ 1048575) by (unfold valid_cache in Hcache; destruct (in_template i); lia).
    destruct from_spec, (String.eqb _ _); repeat constructor; simpl; lia.
Qed.

(** The headers of a call reach the service. *)
Lemma received_if_match ip origin session csrf call :
  hd_if_match (received ip origin session (api_request csrf call)) = named (headers_of (ca_headers call)) "if-match".
Proof. by apply (api_header csrf call "if-match"). Qed.
Lemma received_key ip origin session csrf call :
  hd_idempotency_key (received ip origin session (api_request csrf call)) =
    named (headers_of (ca_headers call)) "idempotency-key".
Proof. by apply (api_header csrf call "idempotency-key"). Qed.

(** A text of [randomUUID] is a key the service takes. *)
Definition uuid_text (key : string) : bool :=
  (js_length key =? 36) && forallb (λ c, is_digit c || in_range "a" "f" c || Ascii.eqb c "-") (chars key).
Lemma uuid_accepted request key :
  uuid_text key = true → hd_idempotency_key request = Some key → idempotencyKey request = Ok key.
Proof.
  intros Hk Hr. unfold uuid_text in Hk. boolify. unfold idempotencyKey. rewrite Hr.
  assert (test (rplus (RChr (λ c, is_alnum c || one_of "._:-" c))) key = true) as ->.
  { apply matches_spec, lang_plus_chr. split.
    - intros E. rewrite js_length_chars, E in *. by simpl in *.
    - match goal with H : forallb _ _ = true |- _ => revert H end. rewrite forallb_forall, Forall_forall.
      intros Hf c Hc%list_elem_of_In. specialize (Hf c Hc). clear -Hf. by destruct c as [[] [] [] [] [] [] [] []]. }
  replace (js_length key) with 36. done.
Qed.

(** The quotes of an entity tag are taken off again. *)
Definition quoted_tag (tag : string) : string := (of_chars [quote] +:+ tag +:+ of_chars [quote])%string.
Lemma strip_quoted tag : strip_quotes (quoted_tag tag) = tag.
Proof.
  unfold strip_quotes, quoted_tag. rewrite !chars_app, !chars_of_chars. cbn [app].
  rewrite Ascii.eqb_refl, last_snoc, Ascii.eqb_refl, removelast_last. apply of_chars_chars.
Qed.
Lemma quoted_length tag : js_length (quoted_tag tag) = js_length tag + 2.
Proof. rewrite !js_length_chars. unfold quoted_tag. rewrite !chars_app, !length_app. simpl. lia. Qed.

Lemma quoted_accepted request tag lo :
  hd_if_match request = Some (quoted_tag tag) → lo ≤ js_length tag + 2 ≤ 200 → ifMatch lo request = Ok tag.
Proof.
  intros Hr Hl. unfold ifMatch. rewrite Hr, quoted_length.
  rewrite !(proj2 (Z.leb_le _ _)) by lia. simpl. by rewrite strip_quoted.
Qed.

(** The form opened on the object of an input shows the input. *)
Lemma opened_on_object i projectId namespace id class op hash c :
  valid_input i → desiredObject i projectId namespace id class op hash = Ok c →
  spec_input (in_name i) (co_spec c) = Ok (form_of i).
Proof.
  intros (_ & Hs & Hc & Hm & _ & Hr) E. unfold desiredObject in E.
  destruct (templateDefinition_input (in_template i)) as (d & Ed & Hd). rewrite Ed in E. injection E as <-.
  unfold spec_input, form_of. simpl. rewrite Hd, lookup_insert_eq, lookup_insert_ne, lookup_singleton_eq by done. simpl.
  assert (last (chars (dec_str (in_cpuMillis i) +:+ "m")) = Some "m"%char) as Hl.
  { rewrite chars_app. apply last_snoc. }
  rewrite Hl, bool_decide_true by done. rewrite !parseInt_printed by (done || lia).
  f_equal. f_equal. unfold valid_readOnly in Hr. destruct (in_template i); simpl; [by rewrite Hr..|].
  destruct Hr as [b ->]. done.
Qed.

(** Nothing the form reads is changed when an update is based on the object of
    the same template. *)
Lemma opened_on_update name current c :
  tr_name (sp_templateRef (co_spec current)) = tr_name (sp_templateRef (co_spec c)) →
  spec_input name (co_spec (update_object current c)) = spec_input name (co_spec c).
Proof.
  intros E. unfold spec_input, update_object. simpl. rewrite E. by destruct (st_reclaim _).
Qed.

(** A valid input always leaves space in the volume. *)
Lemma leaves_space_form i : valid_input i →
  js_ge (f_cacheGiB (form_of i)) (f_storageGiB (form_of i)) = false.
Proof.
  intros (_ & Hs & _ & _ & Hc & _). simpl. apply Z.leb_gt. unfold valid_cache in Hc. destruct (in_template i); lia.
Qed.

Lemma submitted locale base fresh f i :
  canSubmit f = true → valid_input i → (fo_last f).1 = [] →
  f_storageGiB (fo_input f) = f_storageGiB (form_of i) → f_cacheGiB (fo_input f) = f_cacheGiB (form_of i) →
  (∀ from_spec, input_body from_spec (fo_input f) = input_body from_spec (form_of i)) →
  ∃ f', form_submit locale base fresh f = (f', Some (form_call base (fo_detail f) (fo_reclaim f)
    (stringify (input_body (bool_decide (is_Some (spec_of (fo_detail f)))) (form_of i))) fresh)) ∧
    (fo_last f').2 = fresh.
Proof.
  intros Hc Hv Hl Hs Hg Hb. unfold form_submit.
  change (canSubmit (f <| fo_error := ""%string |>)) with (canSubmit f). rewrite Hc.
  change (fo_input (f <| fo_error := ""%string |>)) with (fo_input f).
  rewrite Hs, Hg, Hb, leaves_space_form, andb_false_r by done. cbn [negb]. cbv zeta.
  rewrite bool_decide_false; [by eexists|]. simpl. by rewrite Hl.
Qed.

(** C30. Editing starts from the instance as it is.  The form opened on the
    object rendered from a valid input - at its creation, or by an update of an
    object of the same template - and submitted without a change posts exactly
    that input, whatever the catalog has answered meanwhile: the service's schema
    reads the body back as the input, the entity tag as the revision the form
    was opened at, and the key as the one drawn. *)
Theorem edit_form_roundtrip (locale : Locale) (base : string) (i : InstanceInput)
    (projectId namespace id class op hash : string) (current c : CacheObject) (d : InstanceDetail)
    (tag key : string) (items : list CatalogItem) (csrf : option string) (ip : string) (origin session : option string) :
  valid_input i → desiredObject i projectId namespace id class op hash = Ok c →
  de_name d = in_name i →
  de_spec d = Some (co_spec c) ∨
    (tr_name (sp_templateRef (co_spec current)) = tr_name (sp_templateRef (co_spec c)) ∧
     de_spec d = Some (co_spec (update_object current c))) →
  de_revision d = Some tag → 1 ≤ js_length tag ≤ 198 → uuid_text key = true →
  ∃ f f' call, open_form (Some d) None = Ok f ∧ fo_input f = form_of i ∧
    form_step locale base (form_step locale base f (FLoaded items)).1 (FSubmit key) = (f', Some call) ∧
    ca_method call = Some "PATCH"%string ∧ ca_path call = (base +:+ "/instances/" +:+ de_id d)%string ∧
    let request := received ip origin session (api_request csrf call) in
    instanceInput (hd_body request) = Some i ∧ ifMatch 3 request = Ok tag ∧ idempotencyKey request = Ok key.
Proof.
  intros Hv Hc Hn Hspec Ht Hl Hk.
  assert (∃ s, de_spec d = Some s ∧ spec_input (in_name i) s = Ok (form_of i)) as (s & Es & Hs).
  { pose proof (opened_on_object _ _ _ _ _ _ _ _ Hv Hc). destruct Hspec as [E|[Hr E]]; eexists; (split; [exact E|done || by rewrite opened_on_update]). }
  unfold open_form, initial_input, spec_of. simpl. rewrite Es, Hn, Hs. eexists.
  destruct (submitted locale base key (MkInstanceForm (Some d) None (form_of i) items "" "" false ([], ""%string))
    i) as (f' & E & _); [done..|]. cbn [fo_detail fo_reclaim] in E. eexists f', _. split; [done|]. split; [done|]. split; [exact E|].
  split; [done|]. split; [done|]. cbv zeta.
  destruct (form_fields_read (bool_decide (is_Some (spec_of (Some d)))) i Hv) as [Hi Hp].
  split_and!.
  - change (instanceInput (default JNull (json_parse (stringify
      (input_body (bool_decide (is_Some (spec_of (Some d)))) (form_of i))))) = Some i).
    by rewrite (json_parse_stringify _ Hp).
  - apply quoted_accepted; [|lia]. rewrite received_if_match. simpl. by rewrite Ht.
  - apply uuid_accepted; [done|]. by rewrite received_key.
Qed.

(** ** A retained volume *)

(** The size the form computes is the one the service computes. *)
Lemma volumeGiB_ceil q n : js_length q ≤ 128 → volumeGiB q = Some n → quantityCeil q "1Gi" = Ok n ∧ 0 ≤ n ≤ 1048576.
Proof.
  intros Hl E. unfold volumeGiB in E. set (l := chars q) in *. set (digs := take (length l - 2) l) in *.
  apply bind_Some in E as (factor & Ef & E). split_if_in E; [done|].
  split_if_in E; [|done]. injection E as <-. boolify.
  assert (digits digs) as Hd.
  { match goal with H : forallb _ _ = true |- _ => rewrite forallb_forall in H; apply Forall_forall;
      intros c Hc%list_elem_of_In; by apply H end. }
  pose proof (dec_val_bounds _ Hd) as Hb.
  set (suffix := of_chars (drop (length l - 2) l)) in *.
  assert (l = digs ++ chars suffix)%list as Hl' by (unfold suffix, digs; by rewrite chars_of_chars, take_drop).
  clearbody suffix.
  assert (∃ k, factor = 1024 ^ k ∧ 1 ≤ k ∧ scale_of suffix = Some (SBinary k) ∧ lang quantity_suffix (chars suffix))
    as (k & -> & Hk & Hsc & Hla).
  { unfold binary_factor in Ef. repeat (case_match; [|]); simplify_eq; boolify; subst suffix;
      [exists 1|exists 2|exists 3|exists 4]; (split_and!; [done..|apply quantity_suffix_binary; set_solver]). }
  assert (rational q = Ok (dec_val digs * 1024 ^ k, 1)) as Hr.
  { rewrite (rational_parts false digs [] false suffix); try done; [rewrite Hsc; by rewrite app_nil_r|constructor|by left]. }
  unfold quantityCeil. rewrite Hr. change (rational "1Gi") with (Ok (1024 ^ 3, 1)). unfold mbind, res_bind.
  assert (0 < 1024 ^ k) by (apply Z.pow_pos_nonneg; lia).
  assert (0 ≤ (dec_val digs * 1024 ^ k + 1024 ^ 3 - 1) / 1024 ^ 3) by (apply Z.div_pos; lia).
  split; [|lia]. change (1024 ^ 3 <=? 0) with false. cbv zeta. rewrite !Z.mul_1_l, !Z.mul_1_r.
  unfold when_throw. rewrite (proj2 (Z.ltb_ge _ _)) by lia. done.
Qed.

(** The form that takes over a retained volume proposes what the service
    can accept.  For a volume whose sizes are binary quantities the platform can
    hold, the proposal is the least size the schema allows that covers both; with
    the cache it proposes it is, for every template, a valid input, which the
    form submits and the service's schema reads as proposed; and the request
    carries the identity of the volume that was seen. *)
Theorem reclaim_form_proposes (locale : Locale) (base : string) (r : ReclaimTarget) (template : Template)
    (item : CatalogItem) (capacity allocated : Z) (key csrf : string) (ip : string) (origin session : option string) :
  let volume := rt_volume r in
  volumeGiB (vo_capacity volume) = Some capacity → volumeGiB (vo_allocatedCapacity volume) = Some allocated →
  js_length (vo_capacity volume) ≤ 128 → js_length (vo_allocatedCapacity volume) ≤ 128 →
  rt_template r = template_str template → ci_name item = rt_template r → Some (ci_version item) = rt_templateVersion r →
  trim (rt_name r) = rt_name r → 1 ≤ js_length (rt_name r) ≤ 100 →
  1 ≤ js_length (vo_uid volume) ≤ 200 → strip_quotes (vo_uid volume) = vo_uid volume → uuid_text key = true →
  ∃ i f f' call, open_form None (Some r) = Ok f ∧ valid_input i ∧
    in_template i = template ∧ in_name i = rt_name r ∧
    quantityCeil (vo_capacity volume) "1Gi" = Ok capacity ∧
    quantityCeil (vo_allocatedCapacity volume) "1Gi" = Ok allocated ∧
    in_storageGiB i = Z.max (Z.max capacity allocated) 2 ∧
    form_step locale base (form_step locale base f (FLoaded [item])).1 (FSubmit key) = (f', Some call) ∧
    ca_method call = Some "POST"%string ∧ ca_path call = (rt_path r +:+ "/reclaim")%string ∧
    let request := received ip origin session (api_request (Some csrf) call) in
    instanceInput (hd_body request) = Some i ∧ ifMatch 1 request = Ok (vo_uid volume) ∧ idempotencyKey request = Ok key.
Proof.
  intros volume Hc Ha Hlc Hla Ht Hin Hiv Hn Hnl Hu Hq Hk.
  destruct (volumeGiB_ceil _ _ Hlc Hc) as [Hqc Hcb]. destruct (volumeGiB_ceil _ _ Hla Ha) as [Hqa Hab].
  set (size := Z.max (Z.max capacity allocated) 2).
  set (ro := match template with GoCacheprog => Some true | _ => None end).
  set (cache := match template with WebdavApache => 0 | _ => Z.max 1 (Z.min 16 (size - 1)) end).
  set (i := MkInput template (rt_name r) size 500 512 ClusterInternal Running Retain cache ro).
  assert (valid_input i) as Hv.
  { unfold valid_input, valid_cache, valid_readOnly, i, cache, ro, size. simpl.
    destruct template; split_and!; try done; try lia; by eexists. }
  assert (oeq (Some (ci_version item)) (rt_templateVersion r) = true) as Hx by (by apply bool_decide_eq_true).
  assert (reclaim_minimum (rt_volume r) = size) as Hmin.
  { unfold reclaim_minimum. fold volume. by rewrite Hc, Ha. }
  destruct (submitted locale base key (MkInstanceForm None (Some r) (reclaim_input r) [item] "" "" false ([], ""%string)) i)
    as (f' & E & _); [|done|done|..].
  { unfold canSubmit, selectedTemplate, js_find. cbn -[oeq filter legacyWebDAV]. rewrite filter_cons, decide_True; [done|].
    by rewrite Hin, Hx, String.eqb_refl. }
  { unfold reclaim_input, form_of, i. simpl. by rewrite Hmin. }
  { unfold reclaim_input, form_of, i, cache. simpl. rewrite Ht, Hmin. by destruct template. }
  { intros b. unfold input_body, body_fields, reclaim_input, form_of, i, cache, ro. simpl. rewrite Ht, Hmin. by destruct template. }
  cbn [fo_detail fo_reclaim] in E.
  exists i, (MkInstanceForm None (Some r) (reclaim_input r) [] "" "" false ([], ""%string)), f'. eexists.
  do 7 (split; [done|]). split.
  { rewrite <-E. unfold form_step. cbn [fst]. f_equal. unfold form_loaded. cbn [fo_reclaim].
    cbn -[legacyWebDAV oeq]. by rewrite Hin, Hx, String.eqb_refl, andb_false_r. }
  split; [done|]. split; [done|]. cbv zeta.
  destruct (form_fields_read (bool_decide (is_Some (spec_of None))) i Hv) as [Hi Hp]. split_and!.
  - change (instanceInput (default JNull (json_parse (stringify
      (input_body (bool_decide (is_Some (spec_of None))) (form_of i))))) = Some i).
    by rewrite (json_parse_stringify _ Hp).
  - unfold ifMatch. rewrite received_if_match. change (named _ _) with (Some (vo_uid volume)). cbv iota beta.
    rewrite !(proj2 (Z.leb_le _ _)) by lia. cbn [andb]. by rewrite Hq.
  - apply uuid_accepted; [done|]. by rewrite received_key.
Qed.

(** ** [ProjectQuota] *)
Record Draft := MkDraft { dr_instances : string; dr_storageGiB : string; dr_cpuMillis : string; dr_memoryMiB : string }.
Definition limit_text (l : option Z) : string := match l with None => "" | Some z => show_opt_num (Some z) end.
(** [accept]: the draft shows the limits. *)
Definition draft_of (q : Quota) : Draft :=
  MkDraft (limit_text (q_instances q)) (limit_text (q_storageGiB q)) (limit_text (q_cpuMillis q)) (limit_text (q_memoryMiB q)).

(** [draft.trim() === "" ? null : Number(draft)] *)
Definition draft_value (text : string) : option jsnum :=
  if String.eqb (trim text) "" then None else Some (to_double (js_Number text)).
(** [value !== null && (!Number.isSafeInteger(value) || value < 0 || value > 2147483647)] *)
Definition refused_value (v : option jsnum) : bool :=
  match v with
  | None => false
  | Some (Finite n d) => negb (n mod d =? 0) || (max_safe_integer <? Z.abs (n / d)) || (n <? 0) || (2147483647 * d <? n)
  | Some _ => true
  end.
Definition draft_values (d : Draft) : list (option jsnum) :=
  draft_value <$> [dr_instances d; dr_storageGiB d; dr_cpuMillis d; dr_memoryMiB d].
Definition value_json (v : option jsnum) : json := json_nullable num_json v.
Definition draft_body (d : Draft) : json :=
  JObj [("instances", value_json (draft_value (dr_instances d))); ("storageGiB", value_json (draft_value (dr_storageGiB d)));
        ("cpuMillis", value_json (draft_value (dr_cpuMillis d))); ("memoryMiB", value_json (draft_value (dr_memoryMiB d)))].

Record QuotaForm := MkQuotaForm {
  qf_snapshot : option Snapshot; qf_draft : Draft; qf_loading : bool; qf_saving : bool; qf_error : string; qf_saved : bool }.
#[export] Instance eta_QuotaForm : Eta QuotaForm := λ r,
  MkQuotaForm (qf_snapshot r) (qf_draft r) (qf_loading r) (qf_saving r) (qf_error r) (qf_saved r).
Definition quota_accept (s : Snapshot) (f : QuotaForm) : QuotaForm :=
  f <| qf_snapshot := Some s |> <| qf_draft := draft_of (sn_limits s) |>.
(** The effect that reads the quota, and its answer. *)
Definition quota_open (f : QuotaForm) : QuotaForm :=
  f <| qf_loading := true |> <| qf_error := ""%string |> <| qf_saved := false |> <| qf_snapshot := None |>.
Definition quota_loaded (r : Snapshot + string) (f : QuotaForm) : QuotaForm :=
  match r with inl s => quota_accept s f | inr e => f <| qf_error := e |> end <| qf_loading := false |>.
Definition quota_save (locale : Locale) (base : string) (f : QuotaForm) : QuotaForm * option Call :=
  match qf_snapshot f with
  | None => (f, None)
  | Some s =>
      if qf_loading f || qf_saving f then (f, None)
      else if existsb refused_value (draft_values (qf_draft f))
      then (f <| qf_error := t locale "配额请输入 0 到 2147483647 的整数，或留空表示不限。" [] |>, None)
      else (f <| qf_saving := true |> <| qf_error := ""%string |> <| qf_saved := false |>,
            Some (MkCall (Some "PUT"%string) (base +:+ "/quota") [("If-Match"%string, dec_str (sn_revision s))]
                    (Some (stringify (draft_body (qf_draft f))))))
  end.
Definition quota_settled (r : Snapshot + string) (f : QuotaForm) : QuotaForm :=
  match r with inl s => quota_accept s f <| qf_saved := true |> | inr e => f <| qf_error := e |> end <| qf_saving := false |>.

(** The limit a field asks for. *)
Definition asks (text : string) (l : option Z) : Prop :=
  match l with
  | None => trim text = ""
  | Some z => trim text ≠ "" ∧ 0 ≤ z ≤ 2147483647 ∧ ∃ d, 0 < d ∧ to_double (js_Number text) = Finite (z * d) d
  end.
Definition asks_quota (d : Draft) (q : Quota) : Prop :=
  asks (dr_instances d) (q_instances q) ∧ asks (dr_storageGiB d) (q_storageGiB q) ∧
  asks (dr_cpuMillis d) (q_cpuMillis q) ∧ asks (dr_memoryMiB d) (q_memoryMiB q).

(** ** Facts about the draft *)
Lemma digit_plain c : is_digit c = true →
  is_space c = false ∧ Ascii.eqb c "-" = false ∧ Ascii.eqb c "+" = false ∧ Ascii.eqb c "I" = false ∧
  one_of "xX" c = false ∧ one_of "oO" c = false ∧ one_of "bB" c = false.
Proof. destruct c as [[] [] [] [] [] [] [] []]; intros H; try discriminate H; by split_and!. Qed.

Lemma trim_digits l : digits l → trim_start l = l.
Proof. intros Hl. apply trim_start_id. destruct Hl as [|c l Hc _]; [done|]. by apply digit_plain. Qed.
Lemma trim_dec_str n : 0 ≤ n → trim (dec_str n) = dec_str n ∧ trim (dec_str n) ≠ "".
Proof.
  intros Hn. destruct (dec_str_spec n Hn) as (Hd & Hne & _).
  assert (trim (dec_str n) = dec_str n) as E.
  { unfold trim. rewrite (trim_digits _ Hd), trim_digits, reverse_involutive by (by apply Forall_reverse).
    apply of_chars_chars. }
  split; [done|]. rewrite E. intros E'. by rewrite E' in Hne.
Qed.

(** [Number(String(n))] *)
Lemma js_Number_dec_str n : 0 ≤ n → js_Number (dec_str n) = Finite n 1.
Proof.
  intros Hn. destruct (dec_str_spec n Hn) as (Hd & Hne & Hv). destruct (trim_dec_str n Hn) as [Ht _].
  unfold js_Number. rewrite Ht. destruct (chars (dec_str n)) as [|c r] eqn:El; [done|].
  destruct (digit_plain c ltac:(by inversion Hd)) as (_ & Hm & Hp & HI & _).
  assert (match r with
          | x :: ds => if Ascii.eqb c "0" then if one_of "xX" x then Some (16, ds) else if one_of "oO" x then Some (8, ds)
                       else if one_of "bB" x then Some (2, ds) else None else None
          | [] => None end = @None (Z * list ascii)) as ->.
  { destruct r as [|x ds]; [done|]. destruct (digit_plain x) as (_ & _ & _ & _ & -> & -> & ->); [by inversion Hd as [|? ? ? Hd']; inversion Hd'|].
    by destruct (Ascii.eqb c "0"). }
  rewrite Hm, Hp. rewrite bool_decide_false.
  2:{ intros E. injection E as -> _. done. }
  unfold decimal_literal. rewrite <-(app_nil_r (c :: r)), (span_all is_digit (c :: r) []) by done. cbn -[dec_val].
  rewrite !app_nil_r. rewrite Hv. f_equal. lia.
Qed.

(** A double holds an integer of 53 bits, and its quotients have a positive
    denominator. *)
Lemma round_even_one n : round_even n 1 = n.
Proof. unfold round_even. rewrite Z.div_1_r, Z.mod_1_r. done. Qed.
Lemma to_double_int n : 0 ≤ n < 2 ^ 53 → ∃ d, 0 < d ∧ to_double (Finite n 1) = Finite (n * d) d.
Proof.
  intros Hn. unfold to_double. rewrite small_finite by done. simpl negb. cbv iota.
  destruct (Z.eqb_spec n 0) as [->|Hz]; [by exists 1|]. rewrite Z.abs_eq by lia. change (Z.log2 1) with 0.
  pose proof (Z.log2_spec n ltac:(lia)) as [Hl1 Hl2]. set (L := Z.log2 n) in *.
  assert (0 ≤ L < 53) as HL by (split; [apply Z.log2_nonneg|apply Z.log2_lt_pow2; lia]).
  replace (L - 0 - 53) with (- (53 - L)) by lia. cbv zeta. cbn [fst snd].
  rewrite Z.opp_involutive, (Z.max_r 0 (53 - L)), (Z.max_l 0 (- (53 - L))) by lia.
  rewrite Z.pow_0_r, Z.mul_1_r, Z.div_1_r.
  assert (2 ^ 53 <= n * 2 ^ (53 - L)) as Hq.
  { replace (2 ^ 53) with (2 ^ L * 2 ^ (53 - L)) by (rewrite <-Z.pow_add_r by lia; f_equal; lia). nia. }
  rewrite (proj2 (Z.leb_le (2 ^ 53) (n * 2 ^ (53 - L))) Hq).
  replace (- (53 - L) + 1) with (- (52 - L)) by lia.
  rewrite Z.opp_involutive, (Z.max_r 0 (52 - L)), (Z.max_l 0 (- (52 - L))) by lia.
  rewrite Z.pow_0_r, !Z.mul_1_r, round_even_one, (proj2 (Z.ltb_ge n 0)) by lia.
  destruct (Z.leb_spec 0 (- (52 - L))).
  - replace (52 - L) with 0 by lia. exists 1. split; [lia|]. by rewrite !Z.mul_1_r.
  - exists (2 ^ (52 - L)). split; [apply Z.pow_pos_nonneg; lia|done].
Qed.
Lemma to_double_pos v n d : to_double v = Finite n d → 0 < d.
Proof.
  unfold to_double. destruct v as [| |m e]; try done. repeat case_match; intros [= <- <-]; try lia.
Qed.

(** What a field is read as. *)
Lemma field_read text :
  (refused_value (draft_value text) = false ↔ ∃ l, asks text l) ∧
  (∀ l, asks text l → value_json (draft_value text) = limit_json l ∧ valid_limit l).
Proof.
  unfold draft_value, asks. destruct (String.eqb_spec (trim text) "") as [Ht|Ht].
  { split; [split; [by exists None|done]|]. intros [z|]; [by intros [? _]|by intros _]. }
  assert (∀ z d, 0 < d → (z * d) mod d = 0 ∧ z * d / d = z) as Hd.
  { intros z d Hd. by rewrite Z.mod_mul, Z.div_mul by lia. }
  split; [split|].
  - destruct (to_double (js_Number text)) as [| |n d] eqn:E; simpl; try done. intros H.
    pose proof (to_double_pos _ _ _ E) as Hp. boolify.
    match goal with H : n mod d = 0 |- _ => apply Z.div_exact in H; [|lia]; rename H into Hn end.
    exists (Some (n / d)). split; [done|]. split; [|exists d; split; [done|by rewrite Z.mul_comm, <-Hn]].
    assert (0 ≤ n / d) by (apply Z.div_pos; lia). nia.
  - intros [[z|] Hz]; [|done]. destruct Hz as (_ & Hr & d & Hp & ->). simpl. destruct (Hd z d Hp) as [-> ->]. simpl.
    unfold max_safe_integer. rewrite !(proj2 (Z.ltb_ge _ _)) by nia. done.
  - intros [z|] Hz; [|done]. destruct Hz as (_ & Hr & d & Hp & ->). split; [|done]. simpl. unfold num_json.
    by destruct (Hd z d Hp) as [-> ->].
Qed.

(** A revision is a number the service takes as an entity tag. *)
Lemma revision_accepted request n :
  0 < n → hd_if_match request = Some (dec_str n) → quota_revision request = Ok (dec_str n).
Proof.
  intros Hn Hr. unfold quota_revision. rewrite Hr. destruct (dec_str_spec n ltac:(lia)) as (Hd & _ & _).
  assert (∃ c l, chars (dec_str n) = c :: l ∧ Ascii.eqb c "0" = false) as (c & l & El & Hc).
  { unfold dec_str. rewrite chars_of_chars. destruct (dec_digits_head (dec_fuel n) n []) as (c & l & -> & Hc).
    - split; [done|]. unfold dec_fuel. rewrite Nat2Z.inj_succ, Z2Nat.id by apply Z.log2_nonneg. by apply Z.log2_spec.
    - exists c, l. split; [done|]. by apply Ascii.eqb_neq. }
  assert (Forall (λ c, c ≠ quote) (chars (dec_str n))) as Hq.
  { eapply Forall_impl; [exact Hd|]. by intros [[] [] [] [] [] [] [] []]. }
  assert (filter (λ c, c ≠ quote) (chars (dec_str n)) = chars (dec_str n)) as ->.
  { clear -Hq. induction Hq as [|x l Hx _ IH]; [done|]. rewrite filter_cons, decide_True by done. by rewrite IH. }
  rewrite El in Hd. apply Forall_cons in Hd as [Hdc Hdl].
  match goal with |- context [test ?r _] => assert (test r (dec_str n) = true) as -> end; [|by rewrite of_chars_chars].
  apply matches_spec. rewrite El. apply lang_seq_inv. exists [], (c :: l). split; [done|]. split; [by apply lang_opt; left|].
  apply lang_seq_inv. exists [c], l. split; [done|]. split; [apply lang_chr_inv; exists c; by rewrite Hdc, Hc|].
  apply lang_seq_inv. exists l, []. rewrite app_nil_r. split; [done|]. split; [by apply lang_star_chr|by apply lang_opt; left].
Qed.

Lemma draft_body_read d q : asks_quota d q → valid_quota q ∧ draft_body d = quota_json q.
Proof.
  intros (A1 & A2 & A3 & A4). unfold draft_body, quota_json.
  destruct (proj2 (field_read _) _ A1) as [-> V1]. destruct (proj2 (field_read _) _ A2) as [-> V2].
  destruct (proj2 (field_read _) _ A3) as [-> V3]. by destruct (proj2 (field_read _) _ A4) as [-> V4].
Qed.
Lemma quota_printable q : valid_quota q → printable (quota_json q).
Proof.
  intros (V1 & V2 & V3 & V4). apply printable_obj. split; [apply (bool_decide_unpack _); vm_compute; exact I|].
  assert (∀ l, valid_limit l → printable (limit_json l)) as H by (intros [z|] Hz; simpl in *; lia || done).
  repeat constructor; by apply H.
Qed.

(** C31. The form of a quota asks for what its fields say.  It sends a request
    exactly when every field is blank or the text of an integer the schema
    admits - in any notation of [Number] - and then the service reads the limits
    the fields denote, blank being unlimited, and the revision that was shown;
    limits that were accepted are shown by fields that ask for them. *)
Theorem quota_form_exact (locale : Locale) (base : string) (f : QuotaForm) (s : Snapshot)
    (csrf : option string) (ip : string) (origin session : option string) :
  qf_snapshot f = Some s → qf_loading f = false → qf_saving f = false → 0 < sn_revision s →
  (is_Some (quota_save locale base f).2 ↔ ∃ q, asks_quota (qf_draft f) q) ∧
  (∀ q, asks_quota (qf_draft f) q →
     ∃ f' call, quota_save locale base f = (f', Some call) ∧ valid_quota q ∧
       ca_method call = Some "PUT"%string ∧ ca_path call = (base +:+ "/quota")%string ∧
       let request := received ip origin session (api_request csrf call) in
       quotaInput (hd_body request) = Some q ∧ quota_revision request = Ok (dec_str (sn_revision s))) ∧
  (∀ s', valid_quota (sn_limits s') → asks_quota (qf_draft (quota_accept s' f)) (sn_limits s')).
Proof.
  intros Hs Hl Hv Hr. unfold quota_save. rewrite Hs, Hl, Hv. cbn [orb].
  assert (existsb refused_value (draft_values (qf_draft f)) = false ↔ ∃ q, asks_quota (qf_draft f) q) as Hx.
  { unfold draft_values. simpl. rewrite !orb_false.
    split; [intros (H1 & H2 & H3 & H4 & _)|intros (q & H1 & H2 & H3 & H4)].
    - apply (proj1 (field_read _)) in H1 as [l1 ?], H2 as [l2 ?], H3 as [l3 ?], H4 as [l4 ?].
      by exists (MkQuota l1 l2 l3 l4).
    - split_and!; try done; apply (proj1 (field_read _)); eauto. }
  split_and!.
  - rewrite <-Hx. destruct (existsb _ _); simpl; [|done]. by split; [intros []|].
  - intros q Hq. rewrite (proj2 Hx) by eauto. destruct (draft_body_read _ _ Hq) as [Hval Hb].
    eexists _, _. split; [done|]. split; [done|]. split; [done|]. split; [done|]. cbv zeta. rewrite Hb. split.
    + change (quotaInput (default JNull (json_parse (stringify (quota_json q)))) = Some q).
      rewrite json_parse_stringify by (by apply quota_printable).
      exact (proj2 (proj1 (quota_roundtrip q JNull)) Hval).
    + apply revision_accepted; [done|]. by rewrite received_if_match.
  - intros s' (V1 & V2 & V3 & V4). assert (∀ l, valid_limit l → asks (limit_text l) l) as H.
    { intros [z|]; [|done]. intros Hz. unfold limit_text, show_opt_num. rewrite (proj2 (Z.ltb_ge z 0)) by (simpl in Hz; lia).
      simpl in Hz. split; [exact (proj2 (trim_dec_str z ltac:(lia)))|]. split; [done|]. rewrite js_Number_dec_str by lia.
      destruct (to_double_int z) as (d & ? & ->); [lia|]. by exists d. }
    split_and!; by apply H.
Qed.

(** ** Witnesses *)
Definition shown_volume : RetainedVolume :=
  MkVolume "c-i-data" "ns" "uid-1" "20Gi" "25600Mi" "standard" "Bound" false.
Definition shown_reclaim : ReclaimTarget := MkReclaimTarget "/projects/p/instances/i/retained-volume" shown_volume
  "Cache" "gradle-http" (Some "0.2.0"%string).
Definition shown_key : string := "0b9f6a3e-58a1-4f0c-9c0d-7d1f2e3a4b5c".
Definition shown_detail (c : CacheObject) : InstanceDetail :=
  MkDetail "i" (in_name sample_input) "bazel-remote" (Some "0.1.0"%string) None [] LActive (Some "uid:7"%string)
    (Some (co_spec c)) None 0 None.

Lemma edit_form_roundtrip_witness : ∃ c f f' call,
  desiredObject sample_input "p" "ns" "i" "sc" "o" "h" = Ok c ∧
  open_form (Some (shown_detail c)) None = Ok f ∧
  form_step En "/projects/p" (form_step En "/projects/p" f (FLoaded [])).1 (FSubmit shown_key) = (f', Some call) ∧
  instanceInput (hd_body (received "192.0.2.1" None None (api_request None call))) = Some sample_input.
Proof.
  destruct (desiredObject_total sample_input "p" "ns" "i" "sc" "o" "h") as [c Hc].
  destruct (edit_form_roundtrip En "/projects/p" sample_input "p" "ns" "i" "sc" "o" "h" c c (shown_detail c) "uid:7" shown_key
    [] None "192.0.2.1" None None) as (f & f' & call & Hf & _ & Hs & _ & _ & Hi & _);
    [apply (instanceInput_Some (to_json sample_input)); vm_compute; reflexivity|exact Hc|reflexivity|left; reflexivity|reflexivity
    |vm_compute; split; discriminate|vm_compute; reflexivity|].
  exists c, f, f', call. split; [exact Hc|]. split; [exact Hf|]. split; [exact Hs|exact Hi].
Defined.

Lemma reclaim_form_proposes_witness : ∃ i item,
  item ∈ templateCatalog (MkOptions false true false false false false) ∧ valid_input i ∧ in_storageGiB i = 25 ∧
  quantityCeil "25600Mi" "1Gi" = Ok 25.
Proof.
  set (item := nullish (templateCatalog (MkOptions false true false false false false) !! 1%nat) (MkItem "" "" [] [] []
    (MkCapabilities false false false false false 0 "" "") GradleHttp)).
  destruct (reclaim_form_proposes En "/projects/p" shown_reclaim GradleHttp item 20 25 shown_key "csrf" "192.0.2.1" None None)
    as (i & f & f' & call & _ & Hv & _ & _ & _ & Hq & Hs & _);
    [reflexivity|reflexivity|vm_compute; discriminate|vm_compute; discriminate|reflexivity|reflexivity|reflexivity|vm_compute; reflexivity
    |vm_compute; split; discriminate|vm_compute; split; discriminate|vm_compute; reflexivity|vm_compute; reflexivity|].
  exists i, item. split; [apply (list_elem_of_lookup_2 _ 1); reflexivity|]. split; [exact Hv|]. split; [exact Hs|exact Hq].
Defined.

Definition shown_quota : Snapshot :=
  MkSnapshot (MkSync "Applied" (Some 3) (Some 0) None) (MkQuota (Some 5) None None (Some 4096)) 3 (MkReserved 0 0 0 0) 0.
Definition edited_quota : QuotaForm :=
  MkQuotaForm (Some shown_quota) (MkDraft " 7 " "" "1e3" "4096.0") false false "" false.
Lemma quota_form_exact_witness : ∃ f' call,
  quota_save En "/projects/p" edited_quota = (f', Some call) ∧
  quotaInput (hd_body (received "192.0.2.1" None None (api_request None call))) =
    Some (MkQuota (Some 7) None (Some 1000) (Some 4096)).
Proof.
  destruct (quota_form_exact En "/projects/p" edited_quota shown_quota None "192.0.2.1" None None) as (_ & H & _);
    [reflexivity..|].
  destruct (H (MkQuota (Some 7) None (Some 1000) (Some 4096))) as (f' & call & E & _ & _ & _ & Hq & _).
  - split; [|split; [reflexivity|split]]; (split; [vm_compute; discriminate|]; split; [vm_compute; split; discriminate|]).
    + exists (2 ^ 50). split; [reflexivity|vm_compute; reflexivity].
    + exists (2 ^ 43). split; [reflexivity|vm_compute; reflexivity].
    + exists (2 ^ 40). split; [reflexivity|vm_compute; reflexivity].
  - exists f', call. split; [exact E|exact Hq].
Defined.
