(* ===== verification/ConsoleKeys.v ===== *)
(** * The console: submissions under an idempotency key

    [apps/admin-web/src]: rotating credentials ([RotateCredential.tsx]),
    deleting an instance ([InstanceDetail] of [App.tsx]), retrying an operation
    ([RetryOperation.tsx]) and the initialisation of a project ([ProjectView] of
    [App.tsx]), and managing a retained volume ([RetainedVolume.tsx]); with the
    form of an instance, what they promise the service: a key only ever
    accompanies one request.

    [Keyed] is the interface of a component that submits under a key, and
    [KeyedLaws] what makes the promise hold. *)
From Stdlib Require Import ZArith Lia Ascii.
From stdpp Require Import base tactics list option strings.
From S2P Require Import Prelude Effects Messages I18n Catalog Json JsNumber Contract Database Kubernetes Worker Routes.
From S2P Require Import Console ConsoleForms.

(** ** The interface *)

(** The key of a call. *)
Definition call_key (c : Call) : option string := named (ca_headers c) "Idempotency-Key".

(** [react]: the next state and the request sent, if any; [current] and [bound]:
    the key in use and the request it stands for, once there is one; [draws]:
    the values of [randomUUID] an event brings. *)
Class Keyed (S E : Type) := {
  react : S → E → S * option Call;
  current : S → string;
  bound : S → option Call;
  draws : E → list string;
  sane : S → Prop }.
Class KeyedLaws (S E : Type) `{Keyed S E} := {
  react_sane s e : sane s → sane (react s e).1;
  sent_bound s e s' c : sane s → react s e = (s', Some c) → bound s' = Some c ∧ call_key c = Some (current s');
  bound_kept s e : sane s → current (react s e).1 = current s →
    bound s = None ∨ bound s = bound (react s e).1 ∨ current s ∈ draws e;
  key_drawn s e : sane s → current (react s e).1 ≠ current s → current (react s e).1 ∈ draws e }.

Section keyed.
Context {S E : Type} `{KeyedLaws S E}.

(** The requests a run of events sends. *)
Fixpoint sends (s : S) (es : list E) : list Call :=
  match es with
  | [] => []
  | e :: es => let '(s', o) := react s e in
               match o with Some c => c :: sends s' es | None => sends s' es end
  end.

Lemma sends_keys s es : sane s → NoDup (current s :: (es ≫= draws)) →
  (∀ c, c ∈ sends s es → ∃ k, call_key c = Some k ∧ (k = current s ∨ k ∈ es ≫= draws) ∧
     (k = current s → bound s = None ∨ bound s = Some c)) ∧
  (∀ a b, a ∈ sends s es → b ∈ sends s es → call_key a = call_key b → a = b).
Proof.
  revert s. induction es as [|e es IH]; intros s Hs Hn; [split; [by intros c ?%not_elem_of_nil|by intros a b ?%not_elem_of_nil]|].
  rewrite !bind_cons in *. simpl.
  pose proof (sent_bound s e) as Hb. pose proof (bound_kept s e Hs) as Hk. pose proof (key_drawn s e Hs) as Hd.
  pose proof (react_sane s e Hs) as Hs'. destruct (react s e) as [s' o]. simpl in *.
  apply NoDup_cons in Hn as [Hc Hn].
  assert (current s' = current s → bound s = None ∨ bound s = bound s') as Hk'.
  { intros E'. destruct (Hk E') as [|[|Hin]]; [by left|by right|]. destruct Hc. apply elem_of_app. by left. }
  clear Hk. rename Hk' into Hk.
  assert (NoDup (current s' :: (es ≫= draws)) ∧ (current s' = current s ∨ current s' ∈ draws e)) as [Hn' Hc'].
  { apply NoDup_app in Hn as (Hn1 & Hn2 & Hn3). destruct (decide (current s' = current s)) as [E'|E'].
    - split; [|by left]. rewrite E'. constructor; [|done]. intros Hin. apply Hc, elem_of_app. by right.
    - split; [|by right; apply Hd]. constructor; [|done]. apply Hn2. by apply Hd. }
  destruct (IH s' Hs' Hn') as [IHk IHu].
  assert (∀ c, c ∈ sends s' es → ∃ k, call_key c = Some k ∧ (k = current s ∨ k ∈ draws e ++ (es ≫= draws)) ∧
     (k = current s → bound s = None ∨ bound s = Some c)) as Hrest.
  { intros c Hin. destruct (IHk c Hin) as (k & Ek & Hor & Hbd). exists k. split; [done|]. split.
    - rewrite elem_of_app. destruct Hor as [->|]; [|by right; right]. destruct Hc' as [->|]; [by left|by right; left].
    - intros ->. destruct (decide (current s' = current s)) as [E'|E'].
      + destruct (Hk E') as [|E2]; [by left|]. rewrite E2. by apply Hbd.
      + destruct Hor as [E2|Hin2]; [by rewrite E2 in E'|]. destruct Hc. apply elem_of_app. by right. }
  destruct o as [c|]; [|by split].
  destruct (Hb s' c Hs eq_refl) as [Hb' Hck]. split.
  - intros x [->|Hin]%elem_of_cons; [|by apply Hrest]. exists (current s'). split; [done|]. split.
    + rewrite elem_of_app. destruct Hc' as [->|]; [by left|by right; left].
    + intros E'. destruct (Hk E') as [|E2]; [by left|]. right. by rewrite E2.
  - assert (∀ b, b ∈ sends s' es → call_key c = call_key b → c = b) as Hone.
    { intros b Hin Ekb. destruct (IHk b Hin) as (k & Ek & _ & Hbd).
      assert (k = current s') as -> by congruence. destruct (Hbd eq_refl); congruence. }
    intros a b [->|Ha]%elem_of_cons [->|Hb2]%elem_of_cons Ek; auto; symmetry; auto.
Qed.
End keyed.

(** ** The components *)

(** [RotateCredential] *)
Record Rotate := MkRotate {
  rk_attempt : string * string; rk_busy : bool; rk_error : string; rk_done : bool; rk_credentials : option (string * string) }.
#[export] Instance eta_Rotate : Eta Rotate := λ r,
  MkRotate (rk_attempt r) (rk_busy r) (rk_error r) (rk_done r) (rk_credentials r).
Inductive RotateEvent := RotateClick | RotateSettled (r : option (string * string) + string).
Definition rotate_call (base id : string) (attempt : string * string) : Call :=
  MkCall (Some "POST"%string) (base +:+ "/instances/" +:+ id +:+ "/credentials/rotate")
    [("Idempotency-Key", attempt.1); ("If-Match", quoted_tag attempt.2)]%string None.
Definition rotate_step (base id : string) (s : Rotate) (e : RotateEvent) : Rotate * option Call :=
  match e with
  | RotateClick => (s <| rk_busy := true |> <| rk_error := ""%string |>, Some (rotate_call base id (rk_attempt s)))
  | RotateSettled (inl credentials) =>
      (s <| rk_credentials := credentials |> <| rk_done := true |> <| rk_busy := false |>, None)
  | RotateSettled (inr error) => (s <| rk_error := error |> <| rk_busy := false |>, None)
  end.

(** The confirmed deletion of [InstanceDetail]. *)
Record Deletion := MkDeletion { dk_key : string; dk_confirm : bool; dk_busy : bool; dk_error : string }.
#[export] Instance eta_Deletion : Eta Deletion := λ r, MkDeletion (dk_key r) (dk_confirm r) (dk_busy r) (dk_error r).
Inductive DeletionEvent := DeleteAsk | DeleteCancel | DeleteConfirm | DeleteSettled (error : option string).
Definition delete_call (base id key : string) : Call :=
  MkCall (Some "DELETE"%string) (base +:+ "/instances/" +:+ id) [("Idempotency-Key"%string, key)] None.
Definition delete_step (base id : string) (s : Deletion) (e : DeletionEvent) : Deletion * option Call :=
  match e with
  | DeleteAsk => (s <| dk_confirm := true |>, None)
  | DeleteCancel => (s <| dk_confirm := false |>, None)
  | DeleteConfirm => (s <| dk_busy := true |>, Some (delete_call base id (dk_key s)))
  | DeleteSettled None => (s <| dk_confirm := false |> <| dk_busy := false |>, None)
  | DeleteSettled (Some error) => (s <| dk_error := error |> <| dk_busy := false |>, None)
  end.

(** [RetryOperation] *)
Record Retry := MkRetry { ry_key : string; ry_confirming : bool; ry_busy : bool; ry_accepted : bool; ry_error : string }.
#[export] Instance eta_Retry : Eta Retry := λ r,
  MkRetry (ry_key r) (ry_confirming r) (ry_busy r) (ry_accepted r) (ry_error r).
Inductive RetryEvent := RetryAsk | RetryCancel | RetryConfirm | RetrySettled (error : option string).
Definition retry_call (base operation key : string) : Call :=
  MkCall (Some "POST"%string) (base +:+ "/operations/" +:+ operation +:+ "/retry") [("Idempotency-Key"%string, key)] None.
Definition retry_step (base operation : string) (s : Retry) (e : RetryEvent) : Retry * option Call :=
  match e with
  | RetryAsk => (s <| ry_confirming := true |>, None)
  | RetryCancel => (s <| ry_confirming := false |>, None)
  | RetryConfirm =>
      if ry_busy s || ry_accepted s then (s, None)
      else (s <| ry_busy := true |> <| ry_error := ""%string |>, Some (retry_call base operation (ry_key s)))
  | RetrySettled None => (s <| ry_accepted := true |> <| ry_busy := false |>, None)
  | RetrySettled (Some error) => (s <| ry_error := error |> <| ry_busy := false |>, None)
  end.

(** [retryProject] of [ProjectView] and the effect that watches the operations. *)
Record ProjectRetry := MkProjectRetry {
  pr_retryKey : string; pr_retryOperation : string; pr_retryBusy : bool; pr_retryError : string }.
#[export] Instance eta_ProjectRetry : Eta ProjectRetry := λ r,
  MkProjectRetry (pr_retryKey r) (pr_retryOperation r) (pr_retryBusy r) (pr_retryError r).
Inductive ProjectRetryEvent :=
  | ProjectRetryClick | ProjectRetrySettled (r : string + string)
  | ProjectOperations (operations : list OpSummary) (fresh : string).
Definition project_retry_call (base key : string) : Call :=
  MkCall (Some "POST"%string) (base +:+ "/retry") [("Idempotency-Key"%string, key)] None.
Definition project_retry_step (locale : Locale) (base : string) (s : ProjectRetry) (e : ProjectRetryEvent) :
    ProjectRetry * option Call :=
  match e with
  | ProjectRetryClick =>
      (s <| pr_retryBusy := true |> <| pr_retryError := ""%string |>, Some (project_retry_call base (pr_retryKey s)))
  | ProjectRetrySettled (inl operation) => (s <| pr_retryOperation := operation |> <| pr_retryBusy := false |>, None)
  | ProjectRetrySettled (inr error) => (s <| pr_retryError := error |> <| pr_retryBusy := false |>, None)
  | ProjectOperations operations fresh =>
      if negb (String.eqb (pr_retryOperation s) "") &&
         existsb (λ o, String.eqb (su_id o) (pr_retryOperation s) && String.eqb (state_str (su_state o)) "failed") operations
      then (s <| pr_retryKey := fresh |> <| pr_retryOperation := ""%string |>
              <| pr_retryError := t locale "初始化再次失败，请查看操作记录，修复后可继续重试。" [] |>, None)
      else (s, None)
  end.

(** [RetainedVolume]; [vk_loading]: the effect has asked for the volume and was
    not answered yet. *)
Record VolumePanel := MkVolumePanel {
  vk_volume : option RetainedVolume; vk_error : string; vk_confirm : string; vk_busy : bool;
  vk_operation : option OpSummary; vk_key : string; vk_loading : bool }.
#[export] Instance eta_VolumePanel : Eta VolumePanel := λ r,
  MkVolumePanel (vk_volume r) (vk_error r) (vk_confirm r) (vk_busy r) (vk_operation r) (vk_key r) (vk_loading r).
Inductive VolumeEvent :=
  | VLoaded (r : RetainedVolume + string) | VConfirm (text : string) | VRemove
  | VSettled (r : OpSummary + string) | VPolled (r : OpSummary + string) | VReload (fresh : string).
Definition remove_call (path uid key : string) : Call :=
  MkCall (Some "DELETE"%string) path [("If-Match", uid); ("Idempotency-Key", key)]%string None.
Definition finished_op (o : OpSummary) : bool := includes ["succeeded"; "failed"; "superseded"] (state_str (su_state o)).
Definition volume_step (path : string) (s : VolumePanel) (e : VolumeEvent) : VolumePanel * option Call :=
  match e with
  | VLoaded r =>
      if negb (vk_loading s) then (s, None)
      else (match r with inl v => s <| vk_volume := Some v |> | inr error => s <| vk_error := error |> end
              <| vk_loading := false |>, None)
  | VConfirm text => (s <| vk_confirm := text |>, None)
  | VRemove =>
      match vk_volume s with
      | Some v =>
          if vk_busy s || bool_decide (is_Some (vk_operation s)) || negb (String.eqb (vk_confirm s) (vo_name v)) then (s, None)
          else (s <| vk_busy := true |> <| vk_error := ""%string |>, Some (remove_call path (vo_uid v) (vk_key s)))
      | None => (s, None)
      end
  | VSettled (inl operation) => (s <| vk_operation := Some operation |> <| vk_busy := false |>, None)
  | VSettled (inr error) => (s <| vk_error := error |> <| vk_busy := false |>, None)
  | VPolled r =>
      match vk_operation s with
      | Some o => if finished_op o then (s, None)
                  else match r with
                       | inl o' => (s <| vk_operation := Some o' |> <| vk_error := ""%string |>, None)
                       | inr error => (s <| vk_error := error |>, None)
                       end
      | None => (s, None)
      end
  | VReload fresh =>
      (s <| vk_key := fresh |> <| vk_operation := None |> <| vk_confirm := ""%string |>
         <| vk_volume := None |> <| vk_error := ""%string |> <| vk_loading := true |>, None)
  end.

(** ** The instances *)

#[export] Instance Keyed_form (locale : Locale) (base : string) : Keyed Form FormEvent := {|
  react := form_step locale base;
  current f := (fo_last f).2;
  bound f := if bool_decide ((fo_last f).1 = []) then None
             else Some (form_call base (fo_detail f) (fo_reclaim f) (fo_last f).1 (fo_last f).2);
  draws e := match e with FSubmit fresh => [fresh] | _ => [] end;
  sane _ := True |}.
#[export] Instance Keyed_rotate (base id : string) : Keyed Rotate RotateEvent := {|
  react := rotate_step base id;
  current s := (rk_attempt s).1;
  bound s := Some (rotate_call base id (rk_attempt s));
  draws _ := [];
  sane _ := True |}.
#[export] Instance Keyed_delete (base id : string) : Keyed Deletion DeletionEvent := {|
  react := delete_step base id;
  current := dk_key;
  bound s := Some (delete_call base id (dk_key s));
  draws _ := [];
  sane _ := True |}.
#[export] Instance Keyed_retry (base operation : string) : Keyed Retry RetryEvent := {|
  react := retry_step base operation;
  current := ry_key;
  bound s := Some (retry_call base operation (ry_key s));
  draws _ := [];
  sane _ := True |}.
#[export] Instance Keyed_project (locale : Locale) (base : string) : Keyed ProjectRetry ProjectRetryEvent := {|
  react := project_retry_step locale base;
  current := pr_retryKey;
  bound s := Some (project_retry_call base (pr_retryKey s));
  draws e := match e with ProjectOperations _ fresh => [fresh] | _ => [] end;
  sane _ := True |}.
(** A panel that waits for its volume shows none. *)
#[export] Instance Keyed_volume (path : string) : Keyed VolumePanel VolumeEvent := {|
  react := volume_step path;
  current := vk_key;
  bound s := v ← vk_volume s; Some (remove_call path (vo_uid v) (vk_key s));
  draws e := match e with VReload fresh => [fresh] | _ => [] end;
  sane s := vk_loading s = true → vk_volume s = None |}.

#[export] Instance KeyedLaws_rotate base id : KeyedLaws Rotate RotateEvent (H := Keyed_rotate base id).
Proof.
  split; simpl; [done|intros s e s' c _|intros s e _ _; right; left|intros s e _]; destruct e as [|[]]; simpl; try done.
  by intros [= <- <-].
Qed.
#[export] Instance KeyedLaws_delete base id : KeyedLaws Deletion DeletionEvent (H := Keyed_delete base id).
Proof.
  split; simpl; [done|intros s e s' c _|intros s e _ _; right; left|intros s e _]; destruct e as [| | |[]]; simpl; try done.
  by intros [= <- <-].
Qed.
#[export] Instance KeyedLaws_retry base operation : KeyedLaws Retry RetryEvent (H := Keyed_retry base operation).
Proof.
  split; simpl; [done|intros s e s' c _|intros s e _ _; right; left|intros s e _]; destruct e as [| | |[]]; simpl; try done;
    try (destruct (_ || _); done).
  destruct (_ || _); [done|]. by intros [= <- <-].
Qed.
#[export] Instance KeyedLaws_project locale base :
  KeyedLaws ProjectRetry ProjectRetryEvent (H := Keyed_project locale base).
Proof.
  split; simpl; [done|intros s e s' c _|intros s e _|intros s e _]; destruct e as [|[]|ops fresh]; simpl; try done.
  - by intros [= <- <-].
  - by destruct (_ && _).
  - by right; left.
  - by right; left.
  - by right; left.
  - right. destruct (_ && _); [right|by left]. simpl in *. subst. by left.
  - destruct (_ && _); simpl; [by left|done].
Qed.
#[export] Instance KeyedLaws_volume path : KeyedLaws VolumePanel VolumeEvent (H := Keyed_volume path).
Proof.
  split; simpl.
  - intros s e Hs. destruct e as [r|t| |[]|r|fresh]; simpl; try done.
    + destruct (vk_loading s) eqn:El; simpl; [by destruct r|by rewrite El].
    + destruct (vk_volume s) eqn:Ev; simpl; [|by rewrite Ev]. destruct (_ || _); simpl; by rewrite ?Ev.
    + destruct (vk_operation s); simpl; [|done]. destruct (finished_op _); [done|]. by destruct r.
  - intros s e s' c Hs. destruct e as [r|t| |[]|r|fresh]; simpl; try done.
    + by destruct (vk_loading s).
    + destruct (vk_volume s) eqn:Ev; [|done]. destruct (_ || _); [done|]. intros [= <- <-]. simpl. by rewrite ?Ev.
    + destruct (vk_operation s); [|done]. destruct (finished_op _); [done|]. by destruct r.
  - intros s e Hs. destruct e as [r|t| |[]|r|fresh]; simpl; try (intros _; by right; left).
    + intros _. destruct (vk_loading s) eqn:El; simpl; [left; by rewrite Hs|by right; left].
    + intros _. right; left. destruct (vk_volume s) eqn:Ev; [|simpl; by rewrite ?Ev]. destruct (_ || _); simpl; by rewrite ?Ev.
    + intros _. right; left. destruct (vk_operation s); [|done]. destruct (finished_op _); [done|]. by destruct r.
    + intros ->. right; right. by left.
  - intros s e Hs. destruct e as [r|t| |[]|r|fresh]; simpl; try done.
    + destruct (vk_loading s); [|done]. by destruct r.
    + destruct (vk_volume s); [|done]. by destruct (_ || _).
    + destruct (vk_operation s); [|done]. destruct (finished_op _); [done|]. by destruct r.
    + by left.
Qed.

(** A submission, apart from its body. *)
Lemma form_submit_cases locale base fresh f :
  (∃ error, form_submit locale base fresh f = (f <| fo_error := error |>, None)) ∨
  ∃ body, body ≠ [] ∧ body = stringify (input_body (bool_decide (is_Some (spec_of (fo_detail f)))) (fo_input f)) ∧
    form_submit locale base fresh f =
      let f' := f <| fo_error := ""%string |> <| fo_busy := true |> in
      let f' := if bool_decide ((fo_last f).1 = body) then f' else f' <| fo_last := (body, fresh) |> in
      (f', Some (form_call base (fo_detail f) (fo_reclaim f) body (fo_last f').2)).
Proof.
  unfold form_submit. cbv zeta. destruct (negb _); [left; by eexists|]. destruct (_ && _); [left; by eexists|]. right.
  eexists. split; [|split; [reflexivity|]]; [done|]. simpl. by case_bool_decide.
Qed.

(** What the other events keep. *)
Definition same_form (f f' : Form) : Prop :=
  fo_last f' = fo_last f ∧ fo_detail f' = fo_detail f ∧ fo_reclaim f' = fo_reclaim f.
Lemma form_loaded_same locale items f : same_form f (form_loaded locale items f).
Proof.
  unfold form_loaded. destruct (fo_reclaim f) as [r|] eqn:Er.
  - cbn [fo_reclaim]. simpl. rewrite Er. by destruct (_ && _).
  - simpl. rewrite Er. destruct (bool_decide _); [done|]. by destruct items.
Qed.
Lemma form_template_same name f : same_form f (form_template name f).
Proof. unfold form_template. by destruct (js_find _ _). Qed.

#[export] Instance KeyedLaws_form locale base : KeyedLaws Form FormEvent (H := Keyed_form locale base).
Proof.
  split; simpl; [done|intros f e f' c _|intros f e _|intros f e _].
  - destruct e as [| | | | | | | | | | | |fresh|]; try done. simpl.
    destruct (form_submit_cases locale base fresh f) as [[error ->]|(body & Hb & _ & ->)]; [done|]. simpl.
    case_bool_decide as El; intros [= <- <-]; simpl; [rewrite El|]; by rewrite bool_decide_false.
  - destruct e as [| | | | | | | | | | | |fresh|]; simpl; try (intros _; by right; left).
    + intros _. right; left. by destruct (form_loaded_same locale items f) as (-> & -> & ->).
    + intros _. right; left. by destruct (form_template_same name f) as (-> & -> & ->).
    + destruct (form_submit_cases locale base fresh f) as [[error ->]|(body & Hb & _ & ->)]; [by right; left|]. simpl.
      case_bool_decide as El; simpl; [by right; left|]. intros ->. right; right. by left.
  - destruct e as [| | | | | | | | | | | |fresh|]; simpl; try done.
    + by destruct (form_loaded_same locale items f) as (-> & _).
    + by destruct (form_template_same name f) as (-> & _).
    + destruct (form_submit_cases locale base fresh f) as [[error ->]|(body & Hb & _ & ->)]; [done|]. simpl.
      case_bool_decide; simpl; [done|by left].
Qed.

(** ** Properties *)

(** The request of a submission. *)
Definition form_body (f : Form) : list ascii :=
  stringify (input_body (bool_decide (is_Some (spec_of (fo_detail f)))) (fo_input f)).
Definition form_allows (f : Form) : bool :=
  canSubmit f && negb (supportsCapacity f && js_ge (f_cacheGiB (fo_input f)) (f_storageGiB (fo_input f))).
Lemma form_submit_call locale base fresh f :
  (form_submit locale base fresh f).2 =
    if form_allows f
    then Some (form_call base (fo_detail f) (fo_reclaim f) (form_body f)
                 (if bool_decide ((fo_last f).1 = form_body f) then (fo_last f).2 else fresh))
    else None.
Proof.
  unfold form_submit, form_allows. cbv zeta. change (canSubmit (f <| fo_error := ""%string |>)) with (canSubmit f).
  change (supportsCapacity (f <| fo_error := ""%string |>)) with (supportsCapacity f). destruct (canSubmit f); [|done].
  cbn [negb andb]. change (fo_input (f <| fo_error := ""%string |>)) with (fo_input f).
  destruct (_ && _); [done|]. unfold form_body. simpl. by case_bool_decide.
Qed.

(** Submitting again what was submitted: the same key, the same request. *)
Lemma form_resubmit locale base fresh fresh' error f f1 c :
  form_submit locale base fresh f = (f1, Some c) →
  (form_submit locale base fresh' (form_step locale base f1 (FSettled error)).1).2 = Some c.
Proof.
  intros E. pose proof (form_submit_call locale base fresh f) as Ec. rewrite E in Ec. simpl in Ec.
  destruct (form_allows f) eqn:Ea; [|done]. injection Ec as Ec.
  destruct (form_submit_cases locale base fresh f) as [[e E']|(body & Hb & Eb & E')]; rewrite E' in E; [done|].
  fold (form_body f) in Eb. injection E as <- _. rewrite form_submit_call. rewrite <-Eb in Ec.
  set (f2 := (form_step _ _ _ _).1).
  assert (fo_last f2 = if bool_decide ((fo_last f).1 = body) then fo_last f else (body, fresh)) as El
    by (subst f2; simpl; by case_bool_decide).
  assert (form_allows f2 = true ∧ form_body f2 = body ∧ fo_detail f2 = fo_detail f ∧ fo_reclaim f2 = fo_reclaim f)
    as (-> & -> & -> & ->).
  { rewrite Eb, <-Ea. subst f2. simpl. by case_bool_decide. }
  rewrite El, Ec. case_bool_decide as Ef; [by rewrite bool_decide_true|]. by rewrite bool_decide_true.
Qed.

Definition once_per_key {S E : Type} `{Keyed S E} (s : S) : Prop :=
  ∀ es a b, NoDup (current s :: (es ≫= draws)) → a ∈ sends s es → b ∈ sends s es → call_key a = call_key b → a = b.
Lemma once {S E : Type} `{KeyedLaws S E} s : sane s → once_per_key s.
Proof. intros Hs es a b Hn. by apply sends_keys. Qed.

(** C29. A key of the console stands for one request.  Whatever the user does and
    the service answers, the requests a component sends under one key - saving
    the form of an instance, rotating, deleting, retrying an operation or the
    initialisation of a project, removing a retained volume - are the same
    request, provided [randomUUID] does not repeat itself; what failed and is
    submitted again unchanged is sent under the same key, so that the service
    repeats its answer instead of refusing or executing it twice; an accepted
    retry sends nothing more; and a volume is only removed by its identity, under
    the name that was typed. *)
Theorem one_request_per_key (locale : Locale) (base path id operation : string) :
  (∀ detail reclaim f, open_form detail reclaim = Ok f → once_per_key (H := Keyed_form locale base) f) ∧
  (∀ key revision, once_per_key (H := Keyed_rotate base id) (MkRotate (key, revision) false "" false None)) ∧
  (∀ key, once_per_key (H := Keyed_delete base id) (MkDeletion key false false "")) ∧
  (∀ key, once_per_key (H := Keyed_retry base operation) (MkRetry key false false false "")) ∧
  (∀ key, once_per_key (H := Keyed_project locale base) (MkProjectRetry key "" false "")) ∧
  (∀ key, once_per_key (H := Keyed_volume path) (MkVolumePanel None "" "" false None key true)) ∧
  (∀ f f1 fresh fresh' error c, form_submit locale base fresh f = (f1, Some c) →
     (form_submit locale base fresh' (form_step locale base f1 (FSettled error)).1).2 = Some c) ∧
  (∀ s es, ry_accepted s = true → sends (H := Keyed_retry base operation) s es = []) ∧
  (∀ s s' c, volume_step path s VRemove = (s', Some c) → ∃ v, vk_volume s = Some v ∧ vk_confirm s = vo_name v ∧
     vk_operation s = None ∧ c = remove_call path (vo_uid v) (vk_key s)).
Proof.
  split_and!; try (intros; by apply once).
  - intros f f1 fresh fresh' error c. apply form_resubmit.
  - intros s es. revert s. induction es as [|e es IH]; intros s Hs; [done|]. simpl.
    destruct e as [| | |[]]; simpl; try (by apply IH). by rewrite Hs, orb_true_r, IH.
  - intros s s' c. simpl. destruct (vk_volume s) as [v|]; [|done]. destruct (_ || _) eqn:E; [done|]. boolify.
    intros [= _ <-]. exists v. split_and!; try done. by apply eq_None_not_Some.
Qed.

Lemma one_request_per_key_witness : ∃ f a b,
  open_form None None = Ok f ∧
  sends (H := Keyed_form En "/projects/p") f
    [FLoaded (templateCatalog (MkOptions false false false false false false)); FName "Cache"; FSubmit "k1";
     FSettled (Some "timeout"%string); FSubmit "k2"; FName "Other"; FSubmit "k3"] = [a; a; b] ∧
  call_key a = Some "k1"%string ∧ call_key b = Some "k3"%string.
Proof.
  destruct (one_request_per_key En "/projects/p" "" "" "") as (H & _).
  set (f := MkInstanceForm None None defaults [] "" "" false ([], ""%string)).
  set (es := [FLoaded (templateCatalog (MkOptions false false false false false false)); FName "Cache"; FSubmit "k1";
     FSettled (Some "timeout"%string); FSubmit "k2"; FName "Other"; FSubmit "k3"]).
  assert (∃ a b c, sends (H := Keyed_form En "/projects/p") f es = [a; b; c] ∧ call_key a = Some "k1"%string ∧
    call_key b = Some "k1"%string ∧ call_key c = Some "k3"%string) as (a & b & c & E & Ka & Kb & Kc)
    by (eexists _, _, _; vm_compute; split_and!; reflexivity).
  exists f, a, c. split; [reflexivity|]. split; [|split; [exact Ka|exact Kc]].
  rewrite E. assert (a = b) as <-; [|reflexivity].
  apply (H None None f eq_refl es); [refine (bool_decide_unpack _ _); vm_compute; exact I|..|by rewrite Ka, Kb];
    rewrite E; [left|right; left].
Defined.
