(* ===== verification/ConsoleGuides.v ===== *)
(** * The console: connection guides

    [apps/admin-web/src/ConnectionInfo.tsx]: the commands the page of an instance
    shows for its endpoints, beside the recipes of [ClientRecipes].  [new URL] is
    a parameter; markup is not modelled. *)
From Stdlib Require Import ZArith Lia Ascii Sorted.
From stdpp Require Import base tactics list option strings.
From S2P Require Import Prelude Regex Numbers Effects Messages I18n Catalog Json JsNumber Contract Database Secrets Security.
From S2P Require Import Http ClientRecipes Series History Backends Kubernetes Worker Accounts Inventory Routes RoutesFacts Quotas.

(** ** [connectionExample] *)

Inductive Guide := BazelGuide | WebdavGuide | GradleGuide.
Definition guide_of (protocol : string) : option Guide :=
  if String.eqb protocol "reapi" || String.eqb protocol "bazel-http" then Some BazelGuide
  else if String.eqb protocol "webdav" then Some WebdavGuide
  else if String.eqb protocol "gradle-http" then Some GradleGuide else None.

Definition guide_lines (locale : Locale) (guide : Guide) (endpoint : string) : list string :=
  let address := quote endpoint in
  match guide with
  | BazelGuide =>
      [ t locale "read -r -p '缓存用户名：' CACHE_USER" [];
        t locale "read -r -s -p '缓存密码：' CACHE_PASSWORD" [];
        "printf '\n'";
        dq "CACHE_AUTH=`$(printf '%s:%s' `$CACHE_USER` `$CACHE_PASSWORD` | base64 | tr -d '\r\n')`";
        "bazel build //... --remote_cache=" +:+ address +:+ dq " --remote_header=`Authorization=Basic $CACHE_AUTH`";
        "unset CACHE_USER CACHE_PASSWORD CACHE_AUTH" ]
  | WebdavGuide =>
      [ t locale "read -r -p '缓存用户名：' CACHE_USER" [];
        t locale "# curl 将提示输入密码；此请求只查询目录信息。" [];
        dq "curl --fail --show-error --user `$CACHE_USER` --request PROPFIND --header 'Depth: 0' " +:+ address;
        "unset CACHE_USER" ]
  | GradleGuide =>
      [ "export EXPBUILD_CACHE_URL=" +:+ address;
        t locale "read -r -p '缓存用户名：' EXPBUILD_CACHE_USER" [];
        t locale "read -r -s -p '缓存密码：' EXPBUILD_CACHE_PASSWORD" [];
        "printf '\n'";
        "export EXPBUILD_CACHE_USER EXPBUILD_CACHE_PASSWORD";
        dq "CACHE_INIT=`$(mktemp)`";
        dq "trap 'rm -f `$CACHE_INIT`; unset EXPBUILD_CACHE_URL EXPBUILD_CACHE_USER EXPBUILD_CACHE_PASSWORD CACHE_INIT' EXIT";
        dq "cat >`$CACHE_INIT` <<'GRADLE_INIT'";
        "import org.gradle.caching.http.HttpBuildCache";
        "gradle.settingsEvaluated {";
        "  buildCache {";
        "    remote<HttpBuildCache> {";
        dq "      url = uri(System.getenv(`EXPBUILD_CACHE_URL`))";
        "      credentials {";
        dq "        username = System.getenv(`EXPBUILD_CACHE_USER`)";
        dq "        password = System.getenv(`EXPBUILD_CACHE_PASSWORD`)";
        "      }";
        dq "      isPush = System.getenv(`CI`) == `true`";
        "    }";
        "  }";
        "}";
        "GRADLE_INIT";
        dq "gradle -I `$CACHE_INIT` --build-cache build" ]
  end.

(** An address without credentials, query, fragment or blank.  The host name of
    a URL is empty exactly when its host is. *)
Definition safe_address (address : string) (url : Url) : bool :=
  negb (String.eqb (url_host url) "" || negb (String.eqb (url_username url) "") ||
        negb (String.eqb (url_password url) "") || negb (String.eqb (url_search url) "") ||
        negb (String.eqb (url_hash url) "") || existsb is_space (chars address)).
(** What the protocol asks of the scheme and the path. *)
Definition fitting_address (protocol : string) (url : Url) : bool :=
  let reapi := String.eqb protocol "reapi" in
  includes (if reapi then grpc_schemes else http_schemes) (url_protocol url) &&
  negb (reapi && negb (String.eqb (url_pathname url) "") && negb (String.eqb (url_pathname url) "/")) &&
  negb (String.eqb protocol "gradle-http" && negb (String.eqb (url_pathname url) "/cache/")).

Section connection.
Context (locale : Locale) (parse_url : string → option Url).

Definition connectionExample (endpoint : Contract.Endpoint) : option string :=
  let address := Contract.ep_url endpoint in
  let protocol := Contract.ep_protocol endpoint in
  url ← parse_url address;
  if negb (safe_address address url) || negb (fitting_address protocol url) then None
  else guide ← guide_of protocol; Some (join newline (guide_lines locale guide address)).

(** ** [ConnectionInfo] *)

(** [text.split(":").at(-1)] *)
Definition after_colon (text : string) : string :=
  of_chars (reverse (span (λ c, negb (Ascii.eqb c ":")) (reverse (chars text))).1).

Definition current_ready (revision : option string) (c : Condition) : bool :=
  String.eqb (cd_type c) "Ready" && String.eqb (cd_status c) "True" &&
  match cd_observedGeneration c, revision with
  | Some g, Some r => String.eqb (show_opt_num (Some g)) (after_colon r)
  | _, _ => false
  end.
Definition connection_ready (d : InstanceDetail) : bool :=
  existsb (current_ready (de_revision d)) (default [] (de_status d ≫= ss_conditions)).
Definition connection_available (d : InstanceDetail) : bool :=
  match de_spec d with Some spec => String.eqb (sp_desiredState spec) "Running" | None => false end &&
  connection_ready d &&
  negb (includes ["deleted"; "detached"; "deleting"; "pending"] (lifecycle_str (de_lifecycle d))).

Definition reported_endpoints (d : InstanceDetail) : list Contract.Endpoint := default [] (de_status d ≫= ss_endpoints).
Definition guides (d : InstanceDetail) : list (Contract.Endpoint * string) :=
  if connection_available d
  then omap (λ e, pair e <$> (s ← connectionExample e; if String.eqb s "" then None else Some s)) (reported_endpoints d)
  else [].
Definition recipe_of (d : InstanceDetail) (p : ClientProfile) (e : Contract.Endpoint) : option string :=
  clientProfileExample parse_url (p_id p) (ClientRecipes.MkEndpoint (Contract.ep_protocol e) (Contract.ep_url e))
    (Some (p_version p)) (Some (de_id d)).
Definition recipes (d : InstanceDetail) : list (ClientProfile * string) :=
  if connection_available d
  then p ← de_clientProfiles d;
       if negb (String.eqb (p_status p) "experimental") then []
       else omap (λ e,
         if negb (String.eqb (Contract.ep_protocol e) (p_protocol p)) then None
         else pair p <$> (s ← recipe_of d p e; if String.eqb s "" then None else Some s)) (reported_endpoints d)
  else [].
End connection.

(** ** The text of a guide *)

(** The line that holds the address, with the address as a word of the shell. *)
Definition guide_hole (guide : Guide) (address : string) : nat * list Piece :=
  match guide with
  | BazelGuide => (4%nat, [Text "bazel build //... --remote_cache="; Word address;
                           Text (dq " --remote_header=`Authorization=Basic $CACHE_AUTH`")])
  | WebdavGuide => (2%nat, [Text (dq "curl --fail --show-error --user `$CACHE_USER` --request PROPFIND --header 'Depth: 0' ");
                            Word address])
  | GradleGuide => (0%nat, [Text "export EXPBUILD_CACHE_URL="; Word address])
  end.
Definition guide_pieces (locale : Locale) (guide : Guide) (address : string) : list Piece :=
  let hole := guide_hole guide address in
  on_lines (<[hole.1 := hole.2]> ((λ s, [Text s]) <$> guide_lines locale guide "")).
Definition guide_skeleton (locale : Locale) (guide : Guide) : list Piece :=
  skeleton <$> guide_pieces locale guide "".

Lemma guide_pieces_text locale guide address :
  render (guide_pieces locale guide address) = join newline (guide_lines locale guide address).
Proof. unfold guide_pieces. cbv zeta. rewrite render_lines. f_equal. by destruct guide. Qed.
Lemma guide_pieces_skeleton locale guide address :
  skeleton <$> guide_pieces locale guide address = guide_skeleton locale guide.
Proof. destruct guide; reflexivity. Qed.
Lemma guide_pieces_bounded locale guide address : bounded (guide_pieces locale guide address) = true.
Proof. destruct guide, locale; vm_compute; reflexivity. Qed.
Lemma guide_pieces_filled locale guide address : filled (guide_pieces locale guide address) = [address].
Proof. destruct guide; reflexivity. Qed.

Lemma connectionExample_spec locale parse_url e s :
  connectionExample locale parse_url e = Some s →
  ∃ guide url ps, guide_of (Contract.ep_protocol e) = Some guide ∧ parse_url (Contract.ep_url e) = Some url ∧
    safe_address (Contract.ep_url e) url = true ∧ fitting_address (Contract.ep_protocol e) url = true ∧
    s = render ps ∧ skeleton <$> ps = guide_skeleton locale guide ∧ reads ps ∧ filled ps = [Contract.ep_url e].
Proof.
  intros (url & Eu & E)%bind_Some. split_if_in E; [done|]. boolify. apply bind_Some in E as (guide & Eg & [= <-]).
  exists guide, url, (guide_pieces locale guide (Contract.ep_url e)). split_and!; try done.
  - by rewrite guide_pieces_text.
  - apply guide_pieces_skeleton.
  - apply bounded_reads, guide_pieces_bounded.
  - apply guide_pieces_filled.
Qed.

(** ** The generation of a revision *)
Lemma span_stop p l c r : Forall (λ c, p c = true) l → p c = false → span p (l ++ c :: r) = (l, c :: r).
Proof. intros Hl Hc. induction Hl as [|x l Hx _ IH]; simpl; [by rewrite Hc|]. by rewrite Hx, IH. Qed.
Lemma after_colon_app a b : Forall (λ c, c ≠ ":"%char) (chars b) → after_colon (a +:+ ":" +:+ b) = b.
Proof.
  intros Hb. unfold after_colon. rewrite !chars_app, reverse_app, reverse_app, <-app_assoc.
  change (reverse (chars ":") ++ reverse (chars a)) with (":"%char :: reverse (chars a)).
  rewrite span_stop; [simpl; by rewrite reverse_involutive, of_chars_chars| |done].
  apply Forall_reverse. eapply Forall_impl; [exact Hb|]. intros c Hc. by rewrite (proj2 (Ascii.eqb_neq _ _) Hc).
Qed.

Lemma dec_str_plain n : 0 ≤ n → Forall (λ c, c ≠ ":"%char ∧ c ≠ "-"%char) (chars (dec_str n)).
Proof.
  intros Hn. eapply Forall_impl; [by apply dec_str_digits|]. simpl. intros c Hc. by split; intros ->.
Qed.
Lemma show_num_plain z : Forall (λ c, c ≠ ":"%char) (chars (show_opt_num (Some z))).
Proof.
  unfold show_opt_num. destruct (Z.ltb_spec z 0).
  - rewrite chars_app. constructor; [done|]. eapply Forall_impl; [apply dec_str_plain; lia|by intros ? []].
  - eapply Forall_impl; [by apply dec_str_plain|by intros ? []].
Qed.
Lemma show_num_inj x y : show_opt_num (Some x) = show_opt_num (Some y) → x = y.
Proof.
  unfold show_opt_num. intros E%(f_equal chars).
  assert (∀ a b, 0 ≤ b → chars ("-" +:+ a) ≠ chars (dec_str b)) as Hm.
  { intros a b Hb Ea. pose proof (dec_str_plain b Hb) as H. rewrite <-Ea in H. by apply Forall_cons in H as [[_ ?] _]. }
  destruct (Z.ltb_spec x 0), (Z.ltb_spec y 0).
  - injection E as E%(f_equal of_chars). rewrite !of_chars_chars in E. apply dec_str_inj in E; lia.
  - by apply Hm in E; [|done].
  - symmetry in E. by apply Hm in E; [|done].
  - apply (f_equal of_chars) in E. rewrite !of_chars_chars in E. by apply dec_str_inj in E.
Qed.

(** The condition was observed at the generation the revision names. *)
Lemma current_ready_spec c x : current_ready (Some (revision c)) x = true ↔
  cd_type x = "Ready" ∧ cd_status x = "True" ∧
  ∃ g, cd_observedGeneration x = Some g ∧ md_generation (co_metadata c) = Some g.
Proof.
  unfold current_ready. rewrite !andb_true_iff, !String.eqb_eq. destruct (cd_observedGeneration x) as [g|]; [|naive_solver].
  rewrite String.eqb_eq. unfold revision. rewrite after_colon_app.
  2:{ destruct (md_generation _); [apply show_num_plain|]. by repeat constructor. }
  split.
  - intros ([Ht Hs] & E). split_and!; try done. exists g. split; [done|]. destruct (md_generation _) as [g'|].
    + by apply show_num_inj in E as ->.
    + exfalso. unfold show_opt_num in E. destruct (Z.ltb_spec g 0); [done|].
      pose proof (dec_str_digits g ltac:(done)) as Hd. rewrite E in Hd. by apply Forall_cons in Hd as [? _].
  - intros (Ht & Hs & g' & [= <-] & ->). done.
Qed.

(** ** What is shown *)
Section shown.
Context {K : Type} `{KubernetesPort K} (options : InstanceOptions) (is_uuid : string → bool).
Context (projectAccess : Request → string → list Role → M (World K) Actor).
Implicit Types w : World K.

(** The parts of a detail come from one reading of the object, or there is none. *)
Lemma get_instance_Ok request projectId instanceId w d w' :
  get_instance options is_uuid projectAccess request projectId instanceId w = (Ok d, w') →
  de_id d = instanceId ∧ ∃ c : option CacheObject,
    de_revision d = revision <$> c ∧ de_spec d = co_spec <$> c ∧ de_status d = c ≫= co_status ∧
    (∀ o, c = Some o → sp_instanceId (co_spec o) = instanceId) ∧
    ∃ name version, de_clientProfiles d = clientProfiles name version.
Proof.
  unfold get_instance. intros (? & w1 & _ & E)%bind_Ok_inv. apply bind_Ok_inv in E as (? & w2 & _ & E).
  apply bind_Ok_inv in E as ([b p] & w3 & _ & E). apply bind_Ok_inv in E as (c & w4 & Ec & E).
  apply bind_Ok_inv in E as (now & w5 & _ & E). cbn [fst] in E.
  assert (∀ o, c = Some o → sp_instanceId (co_spec o) = instanceId) as Hc.
  { intros o ->. unfold readOwned in Ec. apply bind_Ok_inv in Ec as (c' & w6 & _ & Ec).
    destruct c' as [c'|]; [|done]. apply throw_if_bind in Ec as [Ef Ec]. injection Ec as <- _.
    unfold foreign in Ef. by boolify. }
  destruct c as [o|]; injection E as <- _; (split; [done|]); [exists (Some o)|exists None]; split_and!;
    try done; by eexists _, _.
Qed.
End shown.

Lemma omap_pair_elem {A B} (f : A → option B) (l : list A) x y :
  (x, y) ∈ omap (λ a, pair a <$> f a) l → x ∈ l ∧ f x = Some y.
Proof.
  intros (a & Ha & E)%list_elem_of_omap. destruct (f a) eqn:Ef; [|done]. by injection E as -> ->.
Qed.
Lemma nonempty_text (o : option string) s :
  (s ← o; if String.eqb s "" then None else Some s) = Some s → o = Some s.
Proof. intros (s' & -> & E)%bind_Some. by destruct (String.eqb s' ""); [|injection E as ->]. Qed.

Lemma connection_available_spec d c :
  de_revision d = revision <$> c → de_spec d = co_spec <$> c → de_status d = c ≫= co_status →
  connection_available d = true ↔
    ∃ o x g, c = Some o ∧ sp_desiredState (co_spec o) = "Running" ∧
      x ∈ default [] (co_status o ≫= ss_conditions) ∧ cd_type x = "Ready" ∧ cd_status x = "True" ∧
      cd_observedGeneration x = Some g ∧ md_generation (co_metadata o) = Some g ∧
      de_lifecycle d ∈ [LActive; LFailed].
Proof.
  intros Hr Hs Ht. unfold connection_available, connection_ready. rewrite Hr, Hs, Ht.
  destruct c as [o|]; simpl; [|split; [done|by intros (? & ? & ? & ? & _)]].
  rewrite !andb_true_iff, String.eqb_eq, existsb_exists.
  assert (negb (includes ["deleted"; "detached"; "deleting"; "pending"]%string (lifecycle_str (de_lifecycle d))) = true ↔
    de_lifecycle d ∈ [LActive; LFailed]) as Hl.
  { destruct (de_lifecycle d); simpl; split; intros Hx; try done; try (by left); try (by right; left);
      exfalso; by (repeat (apply elem_of_cons in Hx as [?|Hx]; [done|])); apply elem_of_nil in Hx. }
  simpl in Hl. rewrite Hl. split.
  - intros [[Hd (x & Hx & (Hty & Hst & g & Hg & Hm)%current_ready_spec)] Hlc]. rewrite <-list_elem_of_In in Hx.
    by exists o, x, g.
  - intros (o' & x & g & [= <-] & Hd & Hx & Hty & Hst & Hg & Hm & Hlc). split; [|done]. split; [done|]. exists x.
    rewrite <-list_elem_of_In. split; [done|]. apply current_ready_spec. split_and!; try done. by exists g.
Qed.

(** Every protocol of the catalog but plain [http] has a guide or a client. *)
Lemma protocols_are_served options item protocol :
  item ∈ templateCatalog options → protocol ∈ ci_protocols item → protocol ≠ "http" →
  is_Some (guide_of protocol) ∨ ∃ p, p ∈ ci_clientProfiles item ∧ p_protocol p = protocol.
Proof.
  set (served := λ (t : TemplateDef) protocol, String.eqb protocol "http" || bool_decide (is_Some (guide_of protocol)) ||
    existsb (λ p, String.eqb (p_protocol p) protocol) (clientProfiles (t_name t) (Some (t_version t)))).
  assert (forallb (λ t, forallb (served t) (t_protocols t)) templates = true) as Hs by reflexivity.
  unfold templateCatalog. intros (t & <- & Ht)%list_elem_of_In%in_map_iff Hp%list_elem_of_In Hh%String.eqb_neq.
  apply list_elem_of_In, list_elem_of_filter in Ht as [_ Ht%list_elem_of_In]. rewrite forallb_forall in Hs.
  pose proof (proj1 (forallb_forall _ _) (Hs t Ht) protocol Hp) as Hx.
  unfold served in Hx. rewrite Hh in Hx. apply orb_true_iff in Hx as [Hx%bool_decide_eq_true|(p & Hin & Hx)%existsb_exists]; [by left|].
  right. exists p. rewrite list_elem_of_In. split; [done|]. by apply String.eqb_eq.
Qed.

Section guides.
Context {K : Type} `{KubernetesPort K} (options : InstanceOptions) (is_uuid : string → bool).
Context (projectAccess : Request → string → list Role → M (World K) Actor) (locale : Locale).
Context (parse_url : string → option Url).
Implicit Types w : World K.

(** C36. The page of an instance explains how to connect only while the service
    says that the configuration in force is the one that answers.  For a detail
    the service has read: examples and recipes are shown exactly when the object
    is to run, is neither on its way nor gone, and a [Ready] condition is true
    for the very generation of the revision; every example is a fixed text of
    its protocol in which the reported address, free of credentials, queries and
    blanks, is read back by the shell as one word; every recipe is the one of a
    published client for an address of its protocol and for this instance; and
    no protocol of the catalog but plain [http], which has no client of its own,
    is left without either. *)
Theorem connection_guides_exact request projectId instanceId w d w' :
  get_instance options is_uuid projectAccess request projectId instanceId w = (Ok d, w') →
  (∃ c, de_revision d = revision <$> c ∧ de_status d = c ≫= co_status ∧
    (∀ o, c = Some o → sp_instanceId (co_spec o) = instanceId) ∧
    (connection_available d = true ↔
      ∃ o x g, c = Some o ∧ sp_desiredState (co_spec o) = "Running" ∧
        x ∈ default [] (co_status o ≫= ss_conditions) ∧ cd_type x = "Ready" ∧ cd_status x = "True" ∧
        cd_observedGeneration x = Some g ∧ md_generation (co_metadata o) = Some g ∧
        de_lifecycle d ∈ [LActive; LFailed])) ∧
  (∀ e s, (e, s) ∈ guides locale parse_url d → connection_available d = true ∧ e ∈ reported_endpoints d ∧
     ∃ guide url ps, guide_of (Contract.ep_protocol e) = Some guide ∧ parse_url (Contract.ep_url e) = Some url ∧
       safe_address (Contract.ep_url e) url = true ∧ fitting_address (Contract.ep_protocol e) url = true ∧
       s = render ps ∧ skeleton <$> ps = guide_skeleton locale guide ∧ reads ps ∧ filled ps = [Contract.ep_url e]) ∧
  (∀ p s, (p, s) ∈ recipes parse_url d → connection_available d = true ∧
     (∃ name version, p ∈ clientProfiles name version) ∧
     ∃ e, e ∈ reported_endpoints d ∧ Contract.ep_protocol e = p_protocol p ∧
       clientProfileExample parse_url (p_id p) (ClientRecipes.MkEndpoint (Contract.ep_protocol e) (Contract.ep_url e))
         (Some (p_version p)) (Some instanceId) = Some s) ∧
  (∀ catalog item protocol, item ∈ templateCatalog catalog → protocol ∈ ci_protocols item → protocol ≠ "http" →
     is_Some (guide_of protocol) ∨ ∃ p, p ∈ ci_clientProfiles item ∧ p_protocol p = protocol).
Proof.
  intros (Hid & c & Hr & Hs & Ht & Hc & name & version & Hp)%get_instance_Ok. split_and!.
  - exists c. split_and!; try done. by apply connection_available_spec.
  - intros e s. unfold guides. destruct (connection_available d); [|by intros []%elem_of_nil].
    intros [He E%nonempty_text%connectionExample_spec]%omap_pair_elem. by split_and!.
  - intros p s. unfold recipes. destruct (connection_available d); [|by intros []%elem_of_nil].
    intros (p' & Hx & Hin)%list_elem_of_bind. destruct (negb _); [by apply elem_of_nil in Hx|].
    apply list_elem_of_omap in Hx as (e & He & E). split_if_in E; [done|]. boolify.
    destruct (s' ← recipe_of _ _ _ _; _) as [s'|] eqn:Es; [|done]. injection E as -> ->.
    apply nonempty_text in Es. split; [done|]. split; [exists name, version; by rewrite <-Hp|].
    exists e. split_and!; try done. unfold recipe_of in Es. by rewrite Hid in Es.
  - intros catalog item protocol. apply protocols_are_served.
Qed.
End guides.

Definition served_address : string := "grpc://cache.example.test".
Definition served_url : Url := MkUrl "grpc:" "" "" "cache.example.test" "" "" "".
Definition served_parse (s : string) : option Url := if String.eqb s served_address then Some served_url else None.
Definition served_cluster : memory :=
  (λ c, c <| co_status ::= fmap (λ s, MkStatus (ss_observedGeneration s) (ss_credentialRevision s)
     (Some [Contract.MkEndpoint "reapi" served_address]) (ss_conditions s)) |>) <$> running_cluster.
Definition served_world : World memory := routes_world {[ "i"%string := bound_binding ]} ∅ served_cluster.
Definition served_answer : res InstanceDetail * World memory :=
  @get_instance memory memory_port sample_options (λ _, true) sample_access sample_request "p" "i" served_world.
Definition served_detail : option InstanceDetail := match served_answer.1 with Ok d => Some d | Throw _ => None end.
Lemma connection_guides_exact_witness : ∃ d w' s,
  @get_instance memory memory_port sample_options (λ _, true) sample_access sample_request "p" "i" served_world =
    (Ok d, w') ∧
  guides En served_parse d = [(Contract.MkEndpoint "reapi" served_address, s)] ∧
  length (recipes served_parse d) = 2%nat ∧
  ∃ ps, s = render ps ∧ filled ps = [served_address].
Proof.
  assert (∃ e s, (guides En served_parse <$> served_detail) = Some [(e, s)] ∧ Contract.ep_url e = served_address ∧
    Contract.ep_protocol e = "reapi" ∧ (length ∘ recipes served_parse <$> served_detail) = Some 2%nat) as (e & s & Hg & Hu & Hp & Hr)
    by (eexists _, _; vm_compute; split_and!; reflexivity).
  unfold served_detail in *. destruct served_answer as [[d|x] w'] eqn:E; [|discriminate Hg]. simpl in Hg, Hr.
  injection Hg as Hg. injection Hr as Hr. destruct e as [protocol url]. simpl in Hu, Hp. subst protocol url.
  exists d, w', s. split; [exact E|]. split; [exact Hg|]. split; [exact Hr|].
  destruct (@connection_guides_exact memory memory_port sample_options (λ _, true) sample_access En served_parse
    sample_request "p" "i" served_world d w' E) as (_ & H & _).
  destruct (H (Contract.MkEndpoint "reapi" served_address) s) as (_ & _ & guide & url & ps & _ & _ & _ & _ & Ht & _ & _ & Hf).
  - rewrite Hg. left.
  - exists ps. split; [exact Ht|exact Hf].
Defined.
