(* ===== verification/ConsoleCharts.v ===== *)
(** * The console: observed values

    [apps/admin-web/src]: the table of the history of lookups
    ([LookupHistory.tsx]), the lines of a chart, the state of a panel that reads
    observations and the rows of a project ([Observability.tsx]).

    The coordinates of a chart, and the formats of numbers and dates, are not
    modelled. *)
From Stdlib Require Import ZArith Lia Ascii Sorted QArith Qreduction.
From stdpp Require Import base tactics list option strings sets.
From S2P Require Import Prelude Regex Numbers Effects Messages I18n Catalog Json JsNumber Contract Database Secrets Security.
From S2P Require Import Http Statistics Series History Backends Alerts Accounts Kubernetes Worker Routes Observations Observability Views.
#[local] Open Scope Z_scope.

(** ** [LookupHistory] *)

(** [new Map(points)] and [map.get(time)]: a later entry replaces the value. *)
Fixpoint time_set (time : Time) (v : option jsnum) (m : list (Time * option jsnum)) : list (Time * option jsnum) :=
  match m with
  | [] => [(time, v)]
  | (time', v') :: m => if time_eq time' time then (time', v) :: m else (time', v') :: time_set time v m
  end.
Definition time_map (points : list (Time * option jsnum)) : list (Time * option jsnum) :=
  fold_left (λ m p, time_set p.1 p.2 m) points [].
Definition time_get (m : list (Time * option jsnum)) (time : Time) : option jsnum :=
  match js_find (λ p, time_eq p.1 time) m with Some (_, v) => v | None => None end.

(** [[...new Set(times)]] *)
Definition add_time (l : list Time) (time : Time) : list Time :=
  if existsb (λ x, time_eq x time) l then l else l ++ [time].
Definition time_list (l : list Time) : list Time := fold_left add_time l [].

Definition selected_series (kind : LookupKind) (method : LookupMethod) (h : History) : list HistorySeries :=
  filter (λ s, (hs_lookup s).1 = (kind, method)) (hi_series h).
Definition outcome_points (outcome : LookupOutcome) (l : list HistorySeries) : list (Time * option jsnum) :=
  match js_find (λ s, bool_decide ((hs_lookup s).2 = outcome)) l with Some s => hs_points s | None => [] end.

(** The rows, newest first: a time, the hits and the misses. *)
Definition lookup_rows (kind : LookupKind) (method : LookupMethod) (h : History) :
    list (Time * option jsnum * option jsnum) :=
  let selected := selected_series kind method h in
  let hits := time_map (outcome_points Hit selected) in
  let misses := time_map (outcome_points Miss selected) in
  let times := stable_sort (λ a b, time_le b a) (time_list (hits.*1 ++ misses.*1)) in
  (λ time, (time, time_get hits time, time_get misses time)) <$> times.

(** ** Times as rationals *)
Definition quot (a : Time) : Q := Qred (Qmake a.1 (Z.to_pos a.2)).
Lemma quot_eq a b : 0 < a.2 → 0 < b.2 → time_eq a b = true ↔ quot a = quot b.
Proof.
  intros Ha Hb. unfold time_eq. rewrite Z.eqb_eq.
  assert (quot a = quot b ↔ (Qmake a.1 (Z.to_pos a.2) == Qmake b.1 (Z.to_pos b.2))%Q) as ->.
  { split; [|apply Qred_complete]. intros E. rewrite <-(Qred_correct (Qmake a.1 _)), <-(Qred_correct (Qmake b.1 _)).
    unfold quot in E. by rewrite E. }
  unfold Qeq. simpl. by rewrite !Z2Pos.id.
Qed.
Lemma quot_le a b : 0 < a.2 → 0 < b.2 → time_le a b = Qle_bool (quot a) (quot b).
Proof.
  intros Ha Hb. apply eq_true_iff_eq. rewrite Qle_bool_iff. unfold quot. rewrite !Qred_correct.
  unfold time_le, Qle. simpl. by rewrite !Z2Pos.id, Z.leb_le.
Qed.

Lemma stable_sort_ext {A} (le le' : A → A → bool) l :
  (∀ a b, a ∈ l → b ∈ l → le a b = le' a b) → stable_sort le l = stable_sort le' l.
Proof.
  induction l as [|x l IH]; intros H; [done|]. simpl. rewrite <-IH by (intros; apply H; by right).
  assert (∀ k, (∀ y, y ∈ k → le x y = le' x y) → insert_by le x k = insert_by le' x k) as Hi.
  { induction k as [|y k IHk]; intros Hk; [done|]. simpl. rewrite Hk by left. rewrite IHk; [done|].
    intros z Hz. apply Hk. by right. }
  apply Hi. intros y Hy. apply H; [left|]. right. by rewrite stable_sort_perm in Hy.
Qed.

Definition before (a b : Time) : Prop := (quot b < quot a)%Q.
Lemma sorted_times l : Forall (λ a, 0 < a.2) l → NoDup (quot <$> l) →
  StronglySorted before (stable_sort (λ a b, time_le b a) l).
Proof.
  intros Hp Hn. rewrite Forall_forall in Hp.
  rewrite (stable_sort_ext _ (λ a b, Qle_bool (quot b) (quot a))) by (intros; apply quot_le; auto).
  set (le := λ a b, Qle_bool (quot b) (quot a)). set (k := stable_sort le l).
  assert (NoDup (quot <$> k)) as Hk by (subst k; by rewrite stable_sort_perm).
  assert (StronglySorted (λ a b, (quot b <= quot a)%Q) k) as Hs.
  { assert (Transitive (λ a b : Time, (quot b <= quot a)%Q)) by (intros a b c H1 H2; by eapply Qle_trans).
    apply (stable_sort_sorted le (λ a b, (quot b <= quot a)%Q)).
    - intros a b. apply Qle_bool_iff.
    - intros a b Hf. destruct (Qlt_le_dec (quot a) (quot b)) as [Hl|Hl]; [by apply Qlt_le_weak|].
      apply Qle_bool_iff in Hl. unfold le in Hf. congruence. }
  clearbody k. induction Hs as [|a k Hs IH Ha]; [constructor|]. apply NoDup_cons in Hk as [Hx Hk].
  constructor; [by apply IH|]. rewrite Forall_forall in Ha |- *. intros b Hb. unfold before.
  destruct (Qlt_le_dec (quot b) (quot a)) as [?|Hl]; [done|]. exfalso. apply Hx. apply list_elem_of_fmap.
  exists b. split; [|done].
  assert (quot a == quot b)%Q as E%Qred_complete by (apply Qle_antisym; [done|by apply Ha]).
  unfold quot in *. by rewrite !(Qred_complete _ _ (Qred_correct _)) in E.
Qed.

(** ** Sets and maps of times *)
Lemma time_list_elem l acc : Forall (λ a, 0 < a.2) (acc ++ l) → NoDup (quot <$> acc) →
  let r := fold_left add_time l acc in
  NoDup (quot <$> r) ∧ (∀ t, t ∈ r → t ∈ acc ++ l) ∧ (∀ t, t ∈ acc ++ l → quot t ∈ quot <$> r).
Proof.
  revert acc. induction l as [|x l IH]; intros acc Hp Hn; simpl.
  { rewrite app_nil_r. split_and!; [done..|]. intros t Ht. by apply list_elem_of_fmap_2. }
  rewrite Forall_forall in Hp. destruct (existsb (λ y, time_eq y x) acc) eqn:E.
  - assert (add_time acc x = acc) as -> by (unfold add_time; by rewrite E). apply existsb_exists in E as (y & Hy%list_elem_of_In & E).
    apply quot_eq in E; [|apply Hp; set_solver..].
    destruct (IH acc) as (H1 & H2 & H3); [rewrite Forall_forall; intros; apply Hp; set_solver|done|].
    split_and!; [done|intros; set_solver|]. intros t [Ht|[->|Ht]%elem_of_cons]%elem_of_app; [apply H3; set_solver| |apply H3; set_solver].
    rewrite <-E. apply H3. set_solver.
  - assert (add_time acc x = acc ++ [x]) as -> by (unfold add_time; by rewrite E).
    destruct (IH (acc ++ [x])) as (H1 & H2 & H3).
    + rewrite Forall_forall. intros; apply Hp. set_solver.
    + rewrite fmap_app, NoDup_app. split_and!; [done| |apply NoDup_singleton].
      intros q (y & -> & Hy)%list_elem_of_fmap Hq%list_elem_of_singleton.
      apply not_true_iff_false in E. apply E, existsb_exists. exists y. rewrite <-list_elem_of_In. split; [done|].
      apply quot_eq; [apply Hp; set_solver..|done].
    + split_and!; [done|intros; set_solver|intros; apply H3; set_solver].
Qed.

Lemma time_set_new time v m : Forall (λ p, time_eq p.1 time = false) m → time_set time v m = m ++ [(time, v)].
Proof. induction 1 as [|[t' v'] m Hx _ IH]; simpl in *; [done|]. by rewrite Hx, IH. Qed.
Lemma time_map_sorted points : StronglySorted time_lt points.*1 → time_map points = points.
Proof.
  unfold time_map. enough (∀ acc, StronglySorted time_lt (acc ++ points).*1 →
    fold_left (λ m p, time_set p.1 p.2 m) points acc = acc ++ points) as H by (intros; by apply (H [])).
  induction points as [|[t v] points IH]; intros acc Hs; simpl; [by rewrite app_nil_r|].
  rewrite time_set_new.
  - rewrite IH; [by rewrite <-app_assoc|]. by rewrite <-app_assoc.
  - rewrite fmap_app in Hs. simpl in Hs. rewrite Forall_forall. intros p Hp. apply not_true_iff_false. intros E.
    apply time_eq_sym_lt in E as [E _]. apply E. clear -Hs Hp. induction acc as [|a acc IH]; [by apply not_elem_of_nil in Hp|].
    simpl in Hs. apply StronglySorted_inv in Hs as [Hs Ha]. apply elem_of_cons in Hp as [->|Hp]; [|by apply IH].
    rewrite Forall_forall in Ha. apply Ha. set_solver.
Qed.

Lemma time_get_spec points t v : Forall (λ a, 0 < a.2) points.*1 → 0 < t.2 → StronglySorted time_lt points.*1 →
  time_get points t = Some v ↔ ∃ t', (t', Some v) ∈ points ∧ time_eq t' t = true.
Proof.
  intros Hp Ht. unfold time_get. induction points as [|[t' o] points IH]; intros Hs.
  { split; [done|]. by intros (? & []%not_elem_of_nil & _). }
  simpl in Hp, Hs. apply Forall_cons in Hp as [Hp' Hp]. apply StronglySorted_inv in Hs as [Hs Hall].
  unfold js_find. cbn [filter list_filter]. destruct (decide _) as [He|He]; simpl in He; cbn [head].
  - split; [intros ->; exists t'; split; [left|done]|]. intros (t2 & [[= -> <-]|Hin]%elem_of_cons & E); [done|].
    exfalso. assert (time_lt t' t2) as Hlt.
    { rewrite Forall_forall in Hall. apply Hall. by apply (list_elem_of_fmap_2 fst _ (t2, Some v)). }
    destruct (time_eq_sym_lt t' t2) as [Hc _]; [|done]. by apply (time_eq_trans _ _ t).
  - fold (js_find (λ p, time_eq p.1 t) points). rewrite IH by done. split.
    + intros (t2 & Hin & E). exists t2. split; [by right|done].
    + intros (t2 & [[= -> <-]|Hin]%elem_of_cons & E); [done|]. by exists t2.
Qed.

(** The points of the outcome, as the history has them. *)
Lemma outcome_points_spec kind method outcome h :
  NoDup (hs_lookup <$> hi_series h) →
  let points := outcome_points outcome (selected_series kind method h) in
  (points ≠ [] → ∃ s, s ∈ hi_series h ∧ hs_lookup s = (kind, method, outcome) ∧ points = hs_points s) ∧
  (∀ s, s ∈ hi_series h → hs_lookup s = (kind, method, outcome) → points = hs_points s).
Proof.
  intros Hn. cbv zeta. unfold outcome_points. destruct (js_find _ _) as [s|] eqn:E.
  - apply js_find_Some in E as [Hin Ho%bool_decide_eq_true]. apply list_elem_of_filter in Hin as [Hk Hin].
    assert (hs_lookup s = (kind, method, outcome)) as Hs by (destruct (hs_lookup s) as [[??]?]; simpl in *; congruence).
    split; [intros _; by exists s|]. intros s' Hin' Hs'. f_equal.
    apply list_elem_of_lookup_1 in Hin as [i Hi]. apply list_elem_of_lookup_1 in Hin' as [j Hj].
    assert (i = j) as ->; [|congruence]. eapply (NoDup_lookup (hs_lookup <$> hi_series h)); [done|..];
      rewrite list_lookup_fmap; [by rewrite Hi|]. rewrite Hj. simpl. by rewrite Hs, Hs'.
  - split; [done|]. intros s Hin Hs. exfalso.
    destruct (js_find_elem (λ s, bool_decide ((hs_lookup s).2 = outcome)) (selected_series kind method h) s) as (y & Hy & _).
    + apply list_elem_of_filter. by rewrite Hs.
    + by rewrite Hs, bool_decide_true.
    + congruence.
Qed.

(** What makes the points of an outcome a table of its own. *)
Lemma outcome_points_good kind method outcome h :
  NoDup (hs_lookup <$> hi_series h) →
  (∀ s, s ∈ hi_series h → good_points (hi_start h) (hi_end h) (hs_points s)) →
  (∀ s, s ∈ hi_series h → Forall (λ t, 0 < t.2) (hs_points s).*1) →
  let points := outcome_points outcome (selected_series kind method h) in
  StronglySorted time_lt points.*1 ∧ Forall (λ t, 0 < t.2) points.*1 ∧
  ∀ time, 0 < time.2 → ∀ v, time_get (time_map points) time = Some v ↔
    ∃ s t, s ∈ hi_series h ∧ hs_lookup s = (kind, method, outcome) ∧ (t, Some v) ∈ hs_points s ∧ time_eq t time = true.
Proof.
  intros Hn Hg Hp. destruct (outcome_points_spec kind method outcome h Hn) as [H1 H2]. cbv zeta.
  set (points := outcome_points _ _) in *.
  assert (StronglySorted time_lt points.*1 ∧ Forall (λ t, 0 < t.2) points.*1) as [Hs Hpos].
  { destruct (decide (points = [])) as [->|Hne]; [split; constructor|]. destruct (H1 Hne) as (s & Hin & _ & ->).
    split; [apply (gp_order _ _ _ (Hg s Hin))|by apply Hp]. }
  split_and!; [done..|]. intros time Ht v. rewrite time_map_sorted by done. rewrite time_get_spec by done. split.
  - intros (t & Hin & E). destruct H1 as (s & Hs1 & Hs2 & Hs3); [by intros Hnil; rewrite Hnil in Hin; apply not_elem_of_nil in Hin|].
    exists s, t. rewrite <-Hs3. done.
  - intros (s & t & Hs1 & Hs2 & Hin & E). exists t. by rewrite (H2 s Hs1 Hs2).
Qed.

Section table.
Context {K : Type} `{Fetcher K} (clock : M K Z) (parse_url : string → option Url).

(** The table of lookups shows the history that was read, and nothing else.
    For an answer of the service, the rows are strictly newest first, one per
    time at which a series of the chosen kind and method has a point; the
    number of hits, and of misses, is the sample of that series at that time,
    and a dash where the service has none - a missing sample never becomes a
    zero, and the two outcomes never mix. *)
Theorem history_table_exact this target window k h k' kind method :
  history_read clock this target window k = (Ok h, k') →
  let rows := lookup_rows kind method h in
  StronglySorted before rows.*1.*1 ∧
  (∀ time hits misses, (time, hits, misses) ∈ rows →
     (∃ s, s ∈ hi_series h ∧ (hs_lookup s).1 = (kind, method) ∧ time ∈ (hs_points s).*1) ∧
     (∀ v, hits = Some v ↔ ∃ s t, s ∈ hi_series h ∧ hs_lookup s = (kind, method, Hit) ∧
        (t, Some v) ∈ hs_points s ∧ time_eq t time = true) ∧
     (∀ v, misses = Some v ↔ ∃ s t, s ∈ hi_series h ∧ hs_lookup s = (kind, method, Miss) ∧
        (t, Some v) ∈ hs_points s ∧ time_eq t time = true)) ∧
  (∀ s t, s ∈ hi_series h → (hs_lookup s).1 = (kind, method) → t ∈ (hs_points s).*1 →
     ∃ row, row ∈ rows ∧ time_eq row.1.1 t = true).
Proof.
  intros E. pose proof (history_read_pos _ _ _ _ _ _ _ E) as Hp.
  apply history_exact in E as (_ & _ & now & k1 & response & _ & _ & _ & _ & _ & _ & _ & _ & Hn & Hg).
  assert (∀ o, _) as Hg' by exact (λ o, outcome_points_good kind method o h Hn (λ s Hs, proj2 (Hg s Hs)) Hp).
  cbv zeta. unfold lookup_rows. cbv zeta.
  set (hits := outcome_points Hit _) in *. set (misses := outcome_points Miss _) in *.
  destruct (Hg' Hit) as (Sh & Ph & Gh), (Hg' Miss) as (Sm & Pm & Gm). fold hits in Sh, Ph, Gh. fold misses in Sm, Pm, Gm.
  assert (Forall (λ a, 0 < a.2) (hits.*1 ++ misses.*1)) as Hall by (by apply Forall_app).
  destruct (time_list_elem (hits.*1 ++ misses.*1) [] Hall ltac:(constructor)) as (N & I1 & I2).
  rewrite !time_map_sorted in * by done. fold (time_list (hits.*1 ++ misses.*1)) in N, I1, I2.
  simpl app in I1, I2. set (times := time_list _) in *. assert (Forall (λ a, 0 < a.2) times) as Ht.
  { rewrite Forall_forall in Hall |- *. intros a Ha. by apply Hall, (I1 a). }
  assert (∀ o t, t ∈ (outcome_points o (selected_series kind method h)).*1 →
    ∃ s, s ∈ hi_series h ∧ hs_lookup s = (kind, method, o) ∧ t ∈ (hs_points s).*1) as Hin.
  { intros o t Hx. destruct (outcome_points_spec kind method o h Hn) as [H1 _].
    destruct H1 as (s & Hs1 & Hs2 & Hs3); [by intros Hnil; rewrite Hnil in Hx; apply not_elem_of_nil in Hx|].
    exists s. by rewrite <-Hs3. }
  split_and!.
  - rewrite <-!list_fmap_compose. unfold compose. simpl. rewrite list_fmap_id. by apply sorted_times.
  - intros time x y (time' & [= -> -> ->] & Hx)%list_elem_of_fmap. rewrite stable_sort_perm in Hx.
    rewrite Forall_forall in Ht. split_and!; [|by apply Gh, Ht|by apply Gm, Ht].
    apply I1, elem_of_app in Hx as [(s & ? & E' & ?)%(Hin Hit)|(s & ? & E' & ?)%(Hin Miss)]; exists s; by rewrite E'.
  - intros s t Hs Hk Hx. assert (t ∈ hits.*1 ++ misses.*1) as Hu.
    { apply elem_of_app. destruct (hs_lookup s) as [km o] eqn:El. simpl in Hk. subst km.
      destruct o; [left|right]; [destruct (outcome_points_spec kind method Hit h Hn) as [_ H2]
                                |destruct (outcome_points_spec kind method Miss h Hn) as [_ H2]];
        specialize (H2 s Hs El); [fold hits in H2; by rewrite H2|fold misses in H2; by rewrite H2]. }
    pose proof (I2 t Hu) as (t' & Eq & Ht')%list_elem_of_fmap. eexists. split.
    + apply list_elem_of_fmap. exists t'. split; [reflexivity|]. by rewrite stable_sort_perm.
    + simpl. rewrite Forall_forall in Hall, Ht. apply quot_eq; [by apply Ht|by apply Hall|done].
Qed.
End table.

Definition table_history : res History :=
  (@history_read () (answering sample_matrix) (mret 7260123) (MkPrometheusHistory sample_base None)
    (MkHistoryTarget "p" "u") W1h tt).1.
Lemma history_table_exact_witness : ∃ h,
  @history_read () (answering sample_matrix) (mret 7260123) (MkPrometheusHistory sample_base None)
    (MkHistoryTarget "p" "u") W1h tt = (Ok h, tt) ∧
  lookup_rows Ac LGet h = [((3720, 1), None, None); ((3660, 1), Some (Finite 5 10), None)] ∧
  StronglySorted before (lookup_rows Ac LGet h).*1.*1.
Proof.
  destruct (@history_read () (answering sample_matrix) (mret 7260123) (MkPrometheusHistory sample_base None)
    (MkHistoryTarget "p" "u") W1h tt) as [[h|e] []] eqn:E; [|vm_compute in E; discriminate E].
  exists h. split; [reflexivity|]. split; [vm_compute in E; injection E as <-; vm_compute; reflexivity|].
  destruct (@history_table_exact () (answering sample_matrix) (mret 7260123) (MkPrometheusHistory sample_base None)
    (MkHistoryTarget "p" "u") W1h tt h tt Ac LGet E) as (H & _). exact H.
Defined.

(** ** [MetricChart] *)

(** The segments of the line: what [segment] has gathered is pushed at a gap. *)
Fixpoint segments (segment : list (Z * jsnum)) (points : list (Z * option jsnum)) : list (list (Z * jsnum)) :=
  let pushed := match segment with [] => [] | _ => [segment] end in
  match points with
  | [] => pushed
  | (_, None) :: points => pushed ++ segments [] points
  | (time, Some v) :: points => segments (segment ++ [(time, v)]) points
  end.
Definition shown_point (p : Z * option jsnum) : option (Z * jsnum) := v ← p.2; Some (p.1, v).

Record Chart := MkChart {
  ch_label : string; ch_last : option jsnum; ch_unit : option string; ch_from : Z; ch_to : Z;
  ch_segments : list (list (Z * jsnum)); ch_rows : list (Z * option jsnum) }.
Definition metric_chart (locale : Locale) (series : MetricSeries) : Chart :=
  let points := ms_points series in
  {| ch_label := t locale (nullish (named metricNames (ms_name series)) (ms_name series)) [];
     ch_last := snd <$> last (omap shown_point points);
     ch_unit := ms_unit series;
     ch_from := nullish (fst <$> head points) 0; ch_to := nullish (fst <$> last points) 1;
     ch_segments := segments [] points;
     ch_rows := reverse points |}.

(** Neighbours in a list, and neighbours that both have a value. *)
Fixpoint neighbours {A} (l : list A) : list (A * A) :=
  match l with x :: ((y :: _) as l) => (x, y) :: neighbours l | _ => [] end.
Definition joined (p : (Z * option jsnum) * (Z * option jsnum)) : option ((Z * jsnum) * (Z * jsnum)) :=
  a ← shown_point p.1; b ← shown_point p.2; Some (a, b).

Lemma neighbours_snoc {A} (l : list A) x y : neighbours ((l ++ [x]) ++ [y]) = neighbours (l ++ [x]) ++ [(x, y)].
Proof.
  induction l as [|a l IH]; [done|]. destruct l as [|b l]; [done|].
  simpl in IH |- *. by rewrite IH.
Qed.

Lemma segments_spec segment points :
  Forall (λ s, s ≠ []) (segments segment points) ∧
  mjoin (segments segment points) = segment ++ omap shown_point points ∧
  (segments segment points ≫= neighbours) =
    neighbours segment ++ omap joined (neighbours (match last segment with Some (a, v) => [(a, Some v)] | None => [] end ++ points)).
Proof.
  revert segment. induction points as [|[time [v|]] points IH]; intros segment.
  - destruct segment as [|p segment]; [done|]. cbn [segments]. cbv zeta. split; [constructor; [done|constructor]|].
    split; [simpl; by rewrite app_nil_r|]. simpl. rewrite !app_nil_r. destruct (last _) as [[]|]; simpl; by rewrite ?app_nil_r.
  - cbn [segments]. destruct (IH (segment ++ [(time, v)])) as (H1 & H2 & H3). split; [done|]. split.
    { rewrite H2. simpl. by rewrite <-app_assoc. }
    rewrite H3. rewrite last_snoc. destruct segment as [|s0 segment0] eqn:Es; [done|].
    rewrite <-Es. destruct (exists_last (l:=segment)) as (l & [a w] & ->); [by rewrite Es|].
    rewrite neighbours_snoc, last_snoc, <-app_assoc. done.
  - cbn [segments]. destruct (IH []) as (H1 & H2 & H3). cbv zeta.
    destruct segment as [|s0 segment0] eqn:Es.
    { simpl. split; [done|]. split; [done|]. rewrite H3. simpl. destruct points as [|[] points]; done. }
    rewrite <-Es. destruct (exists_last (l:=segment)) as (l & [a w] & E'); [by rewrite Es|].
    simpl. split_and!.
    + constructor; [by rewrite Es|done].
    + by rewrite H2.
    + change (list_bind _ _ neighbours (segments [] points)) with (segments [] points ≫= neighbours).
      rewrite H3, E', last_snoc. f_equal. by destruct points as [|[] points].
Qed.

Lemma neighbours_lookup {A} (l : list A) a b : (a, b) ∈ neighbours l → ∃ i, l !! i = Some a ∧ l !! S i = Some b.
Proof.
  induction l as [|x l IH]; [by intros ?%elem_of_nil|]. destruct l as [|y l]; [by intros ?%elem_of_nil|].
  intros [[= -> ->]|Hin]%elem_of_cons; [by exists 0%nat|]. destruct (IH Hin) as (i & Ha & Hb). by exists (S i).
Qed.
Lemma grid_lookup r i t : grid r !! i = Some t →
  t = rg_start r + Z.of_nat i * rg_step r ∧ (i < Z.to_nat ((rg_end r - rg_start r) / rg_step r + 1))%nat.
Proof.
  unfold grid. rewrite list_lookup_fmap. intros (j & Hj & ->)%fmap_Some. apply lookup_seq in Hj as [-> ?]. by split.
Qed.

(** The window is a whole number of steps. *)
Lemma grid_ends w now : let r := bounds w now in
  head (grid r) = Some (rg_start r) ∧ last (grid r) = Some (rg_end r).
Proof.
  cbv zeta. destruct (bounds_spec w now) as (_ & _ & Hs & _).
  assert (∃ n, grid (bounds w now) = (λ i, rg_start (bounds w now) + Z.of_nat i * rg_step (bounds w now)) <$> seq 0 (S n) ∧
    rg_end (bounds w now) = rg_start (bounds w now) + Z.of_nat n * rg_step (bounds w now)) as (n & -> & ->).
  { unfold grid. replace (rg_end (bounds w now) - rg_start (bounds w now)) with (window_range w).1 by lia.
    exists (match w with W1h => 60 | W6h => 180 | W24h => 288 end)%nat.
    destruct w; (split; [reflexivity|]); unfold bounds; simpl; lia. }
  split; [simpl; f_equal; lia|]. rewrite seq_S, fmap_app. simpl. by rewrite last_snoc.
Qed.

(** Every series the service can name has a label. *)
Definition axis_labelled (e : string * (string * string)) : Prop := is_Some (named metricNames e.1).
Lemma names_labelled d names : d.*1 = names →
  forallb (λ n, bool_decide (is_Some (named metricNames n))) names = true → Forall axis_labelled d.
Proof.
  intros <- H. rewrite Forall_forall. intros e He. rewrite forallb_forall in H.
  apply (bool_decide_eq_true_1 _ (H e.1 (proj1 (list_elem_of_In _ _) (list_elem_of_fmap_2 fst _ _ He)))).
Qed.
(** The names of a list of descriptors, whose queries stay as they are. *)
Ltac names := eapply names_labelled; [reflexivity|vm_compute; reflexivity].
Lemma descriptors_labelled cluster select target group d :
  descriptors cluster select target group = Ok d → Forall axis_labelled d.
Proof.
  destruct group; simpl.
  - intros [= <-]. unfold capacity_descriptors. destruct (engine _ _ _); names.
  - intros [= <-]. unfold lookup_descriptors. destruct (engine _ "bazel-remote" _); [|destruct (engine _ _ _)]; names.
  - intros (ns & _ & (uid & _ & [= <-])%res_bind_Ok)%res_bind_Ok. names.
  - intros [= <-]. unfold performance_descriptors. destruct (engine _ _ _); names.
Qed.

Section charts.
Context {K : Type} `{Fetcher K} (clock : M K Z) (this : Backend) (cluster : string) (locale : Locale).

(** C37. A chart shows the series the service answered with.  Its line passes
    through every sample, in order, and joins two samples exactly when they are
    neighbours on the grid, one step apart: a gap is never bridged; it spans the
    window that was asked for; the value beside its name is the latest sample;
    the table lists every time of the grid, newest first; and a series the group
    names bears a label of its own. *)
Theorem metric_charts_exact target group window s m s' x :
  metrics_read clock this cluster target group window s = (Ok m, s') → x ∈ me_series m →
  let chart := metric_chart locale x in let r := me_range m in
  Forall (λ l, l ≠ []) (ch_segments chart) ∧
  mjoin (ch_segments chart) = omap shown_point (ms_points x) ∧
  (ch_segments chart ≫= neighbours) = omap joined (neighbours (ms_points x)) ∧
  (∀ a b, (a, b) ∈ ch_segments chart ≫= neighbours → b.1 = a.1 + rg_step r) ∧
  ch_from chart = rg_start r ∧ ch_to chart = rg_end r ∧
  ch_last chart = snd <$> last (mjoin (ch_segments chart)) ∧
  (ch_rows chart).*1 = reverse (grid r) ∧
  (ms_name x ∉ object_members →
     ∃ label, (ms_name x, label) ∈ metricNames ∧ ch_label chart = t locale label []).
Proof.
  intros E Hx. apply metrics_read_series in E as (now & select & d & Ed & Hr & Hs).
  destruct (Hs x Hx) as (Hu & Hg). cbv zeta. simpl. rewrite Hr in *.
  destruct (segments_spec [] (ms_points x)) as (H1 & H2 & H3). simpl in H3.
  destruct (grid_ends window now) as [Hh Hl]. cbv zeta in Hh, Hl. rewrite <-Hg in Hh, Hl.
  split_and!.
  - done.
  - done.
  - done.
  - intros a b. rewrite H3. intros ([p q] & Hin & Ej)%list_elem_of_omap.
    apply neighbours_lookup in Hin as (i & Hp & Hq).
    assert (grid (bounds window now) !! i = Some p.1 ∧ grid (bounds window now) !! S i = Some q.1) as [Gp Gq]
      by (by rewrite <-Hg, !list_lookup_fmap, Hp, Hq).
    apply grid_lookup in Gp as [Ep _], Gq as [Eq _]. unfold joined, shown_point in Ej. simpl in Ej.
    apply bind_Some in Ej as (a' & (v & _ & [= <-])%bind_Some & (b' & (v' & _ & [= <-])%bind_Some & [= <- <-])%bind_Some).
    simpl. lia.
  - destruct (ms_points x); simpl in *; congruence.
  - rewrite <-fmap_last, Hl. done.
  - by rewrite H2.
  - by rewrite fmap_reverse, Hg.
  - intros Hn. unfold descriptor_unit in Hu. destruct (js_find _ d) as [e|] eqn:Ee.
    + apply js_find_Some in Ee as [He Hname]. apply String.eqb_eq in Hname.
      apply descriptors_labelled in Ed. rewrite Forall_forall in Ed. destruct (Ed e He) as [label Hlabel].
      rewrite Hname in Hlabel. exists label. rewrite Hlabel. split; [|done].
      by apply named_elem.
    + destruct (includes _ _) eqn:Ei; [|done]. by apply includes_spec in Ei.
Qed.
End charts.

Lemma metric_charts_exact_witness : ∃ m x,
  @metrics_read () (answering sample_metrics) (mret 7260123) (MkBackend sample_base None) "primary" sample_target
    GCapacity W1h (0, tt) = (Ok m, (0, tt)) ∧ me_series m = [x] ∧
  ch_segments (metric_chart En x) = [[(7200, Finite 512 1)]] ∧ ch_from (metric_chart En x) = 3660 ∧
  ∃ label, (ms_name x, label) ∈ metricNames ∧ ch_label (metric_chart En x) = t En label [].
Proof.
  destruct (@metrics_read () (answering sample_metrics) (mret 7260123) (MkBackend sample_base None) "primary"
    sample_target GCapacity W1h (0, tt)) as [[m|e] [n []]] eqn:E; [|vm_compute in E; discriminate E].
  assert (n = 0 ∧ ∃ x, me_series m = [x] ∧ ms_name x = "used_bytes"%string ∧
    ch_segments (metric_chart En x) = [[(7200, Finite 512 1)]] ∧ ch_from (metric_chart En x) = 3660)
    as (-> & x & Hx & Hn & Hc & Hf).
  { vm_compute in E. injection E as <- <-. split; [reflexivity|]. eexists. split; [reflexivity|].
    split; [reflexivity|]. split; vm_compute; reflexivity. }
  exists m, x. split; [reflexivity|]. split; [exact Hx|]. split; [exact Hc|]. split; [exact Hf|].
  destruct (@metric_charts_exact () (answering sample_metrics) (mret 7260123) (MkBackend sample_base None) "primary" En
    sample_target GCapacity W1h (0, tt) m (0, tt) x E ltac:(rewrite Hx; left)) as (_ & _ & _ & _ & _ & _ & _ & _ & H).
  apply H. rewrite Hn. refine (bool_decide_unpack _ _). vm_compute. exact I.
Defined.

(** ** [useObservation] *)

(** The effect of the panel runs for a path, or for none, and aborts the request
    of the run before; a request answers with data or fails. *)
Record Panel (A : Type) := MkPanel {
  pn_asked : option string; pn_run : nat; pn_data : option A; pn_error : bool }.
Arguments MkPanel {A} _ _ _ _.
Arguments pn_asked {A} _. Arguments pn_run {A} _. Arguments pn_data {A} _. Arguments pn_error {A} _.
Inductive PanelEvent (A : Type) := PanelAsk (path : option string) | PanelReply (run : nat) (answer : option A).
Arguments PanelAsk {A} _. Arguments PanelReply {A} _ _.

Definition panel_step {A} (p : Panel A) (e : PanelEvent A) : Panel A :=
  match e with
  | PanelAsk path => MkPanel path (S (pn_run p)) None false
  | PanelReply run answer =>
      if Nat.eqb run (pn_run p) && bool_decide (is_Some (pn_asked p)) then
        match answer with
        | Some data => MkPanel (pn_asked p) (pn_run p) (Some data) (pn_error p)
        | None => MkPanel (pn_asked p) (pn_run p) (pn_data p) true
        end
      else p
  end.
Definition closed_panel {A} : Panel A := MkPanel None 0 None false.
Definition panel_after {A} (es : list (PanelEvent A)) : Panel A := fold_left panel_step es closed_panel.
(** The state a panel reports: of [Empty], without the text. *)
Definition panel_state {A} (state : A → string) (p : Panel A) : option string :=
  if pn_error p then Some "error" else state <$> pn_data p.

(** A trace in which every answer is one the service gave to the path of its run. *)
Fixpoint honest {A} (answers : string → A → Prop) (p : Panel A) (paths : nat → option string) (es : list (PanelEvent A)) : Prop :=
  match es with
  | [] => True
  | e :: es =>
      let p' := panel_step p e in
      match e with
      | PanelAsk path => honest answers p' (λ n, if Nat.eqb n (pn_run p') then path else paths n) es
      | PanelReply run (Some data) => (∃ path, paths run = Some path ∧ answers path data) ∧ honest answers p' paths es
      | PanelReply run None => honest answers p' paths es
      end
  end.

Definition panel_good {A} (answers : string → A → Prop) (paths : nat → option string) (p : Panel A) : Prop :=
  paths (pn_run p) = pn_asked p ∧ ∀ data, pn_data p = Some data → ∃ path, pn_asked p = Some path ∧ answers path data.
Lemma honest_good {A} (answers : string → A → Prop) es : ∀ p paths,
  honest answers p paths es → panel_good answers paths p →
  ∃ paths', panel_good answers paths' (fold_left panel_step es p).
Proof.
  induction es as [|e es IH]; intros p paths Hh Hg; [by exists paths|]. destruct Hg as [Hr Hd]. simpl.
  destruct e as [path|run [data|]]; simpl in Hh.
  - eapply IH; [exact Hh|]. split; simpl; [by rewrite Nat.eqb_refl|done].
  - destruct Hh as [(path & Hp & Ha) Hh]. apply (IH _ _ Hh). destruct (_ && _) eqn:E; [|by split]. boolify.
    apply Nat.eqb_eq in H as ->. split; [done|]. simpl. intros d [= <-]. exists path. by rewrite <-Hr.
  - apply (IH _ _ Hh). destruct (_ && _); by split.
Qed.

(** ** [InstanceObservability] *)

(** What the three panels of a tab ask for: metrics, events and logs. *)
Definition tab_paths (path : string) (canEdit : bool) (tab window : string) :
    option string * option string * option string :=
  (if includes ["capacity"; "lookups"; "resources"; "performance"] tab
   then Some (path +:+ "/observability/metrics?group=" +:+ tab +:+ "&window=" +:+ window) else None,
   if String.eqb tab "events" then Some (path +:+ "/observability/events") else None,
   if String.eqb tab "logs" && canEdit then Some (path +:+ "/observability/logs?minutes=15") else None).
Definition tabs (canEdit : bool) : list (string * string) :=
  [("capacity", "存储趋势"); ("lookups", "缓存效果"); ("performance", "请求性能"); ("resources", "资源趋势");
   ("events", "诊断时间线")] ++ if canEdit then [("logs", "运行日志")] else [].
Definition windows : list string := ["1h"; "6h"; "24h"].
(** [LookupHistory]'s request. *)
Definition lookup_path (path window : string) : string := path +:+ "/statistics/history?window=" +:+ window.

(** ** [ProjectObservability] *)

Definition phase_text (p : Phase) : string :=
  match p with Ready => "ready" | Starting => "starting" | Suspended => "suspended" | Deleting => "deleting"
             | PhaseUnknown => "unknown" end.
Definition data_state_text (s : DataState) : string :=
  match s with NoData => "no_data" | Stale => "stale" | DataError => "error" | DataOk => "ok" end.
Definition unknown_state : string := "状态未知".

(** A row: the service, the data, and the used bytes if they are shown. *)
Definition shown_phase (i : ProjectItem) : string :=
  let state := data_state_text (it_dataState i) in
  if String.eqb state "stale" || String.eqb state "no_data" then "unknown"
  else nullish ((λ row, phase_text (sn_phase (sr_payload row))) <$> it_snapshot i) "unknown".
Definition overview_row (locale : Locale) (i : ProjectItem) : string * string * option Z :=
  (t locale (nullish (named stateText (shown_phase i)) unknown_state) [],
   t locale (nullish (named stateText (data_state_text (it_dataState i))) unknown_state) [],
   if String.eqb (data_state_text (it_dataState i)) "ok"
   then usedBytes <$> (it_snapshot i ≫= λ row, sn_statistics (sr_payload row)) else None).

(** A query of a path. *)
Definition query_text (params : list (string * string)) : string := join "&" ((λ p, p.1 +:+ "=" +:+ p.2) <$> params).
Definition query_json (params : list (string * string)) : json := JObj (prod_map id JStr <$> params).

Lemma tab_metrics path canEdit tab window p :
  window ∈ windows → (tab_paths path canEdit tab window).1.1 = Some p →
  ∃ params w g, p = path +:+ "/observability/metrics?" +:+ query_text params ∧
    metrics_query_schema (query_json params) = Some (w, g) ∧ window_str w = window ∧ group_str g = tab.
Proof.
  intros Hw. unfold tab_paths. cbn [fst]. split_if Ht; [|done]. intros [= <-]. apply includes_spec in Ht.
  exists [("group", tab); ("window", window)]%string.
  assert (∃ w, window_str w = window) as [w <-].
  { repeat (apply elem_of_cons in Hw as [->|Hw]; [first [by exists W1h|by exists W6h|by exists W24h]|]). by apply elem_of_nil in Hw. }
  assert (∃ g, group_str g = tab) as [g <-].
  { repeat (apply elem_of_cons in Ht as [->|Ht];
      [first [by exists GCapacity|by exists GLookups|by exists GResources|by exists GPerformance]|]). by apply elem_of_nil in Ht. }
  exists w, g. split; [|by destruct w, g]. unfold query_text. simpl. by rewrite !text_app_assoc.
Qed.
Lemma tab_logs path canEdit tab window p :
  (tab_paths path canEdit tab window).2 = Some p →
  canEdit = true ∧ ∃ params, p = path +:+ "/observability/logs?" +:+ query_text params ∧
    logs_query_schema (query_json params) = Some (15, None).
Proof.
  simpl. destruct (_ && _) eqn:E; [|done]. boolify. intros [= <-]. split; [done|]. by exists [("minutes", "15")]%string.
Qed.
Lemma tab_one path canEdit tab window : tab ∈ (tabs canEdit).*1 →
  let paths := tab_paths path canEdit tab window in
  length (omap id [paths.1.1; paths.1.2; paths.2]) = 1%nat.
Proof.
  intros H. destruct canEdit; simpl in H;
    (repeat (apply elem_of_cons in H as [->|H]; [reflexivity|])); by apply elem_of_nil in H.
Qed.

Lemma phase_label p : ∃ label, named stateText (phase_text p) = Some label.
Proof. destruct p; by eexists. Qed.
Lemma data_state_label s : ∃ label, named stateText (data_state_text s) = Some label.
Proof. destruct s; by eexists. Qed.

Section rows.
Context {S : Type} `{Digests} (is_uuid : string → bool).
Lemma overview_items request projectId w o w' :
  get_project_observability (S:=S) is_uuid request projectId w = (Ok o, w') →
  ∀ i, i ∈ pv_items o → ∃ r, i = project_item (js_date (w_now w')) (w_kube w').1 r.
Proof.
  unfold get_project_observability. intros (u & w0 & _ & E)%bind_Ok_inv.
  apply bind_Ok_inv in E as (a & w1 & _ & E). apply bind_Ok_inv in E as (u2 & w2 & _ & E).
  apply bind_Ok_inv in E as ([listed t] & w3 & Es%select_Ok & E). injection Es as _ ->.
  apply bind_Ok_inv in E as (now & w4 & [-> ->]%date_now_Ok & [= <- <-]). simpl.
  intros i (r & -> & _)%list_elem_of_fmap. by exists r.
Qed.

Lemma overview_row_state locale now obs r :
  let i := project_item now obs r in let row := overview_row locale i in
  match it_dataState i with
  | NoData | Stale => row.1.1 = t locale unknown_state [] ∧ row.2 = None
  | DataError | DataOk => ∃ s label, it_snapshot i = Some s ∧ now - js_date (sr_observed_at s) ≤ 120000 ∧
      bi_kubernetes_uid (it_binding i) = Some (sr_instance_uid s) ∧
      (phase_text (sn_phase (sr_payload s)), label) ∈ stateText ∧ row.1.1 = t locale label [] ∧
      (∀ b, row.2 = Some b → it_dataState i = DataOk ∧ usedBytes <$> sn_statistics (sr_payload s) = Some b)
  end.
Proof.
  cbv zeta. destruct (it_dataState (project_item now obs r)) eqn:Ed; unfold overview_row, shown_phase; rewrite Ed;
    [by split|by split|..].
  all: destruct r as [id b]; unfold project_item in *; simpl in Ed |- *; unfold data_state in Ed;
    destruct (own_snapshot (id, b) obs) as [s|] eqn:Es; [|done];
    destruct (stale _ _) eqn:Est; [done|]; unfold stale in Est; boolify;
    destruct (phase_label (sn_phase (sr_payload s))) as [label El];
    exists s, label; simpl; rewrite El;
    unfold own_snapshot in Es; apply bind_Some in Es as (s' & _ & Es); split_if_in Es; [|done]; injection Es as ->;
    simpl in E; destruct (bi_kubernetes_uid b) as [uid|]; [|done]; apply String.eqb_eq in E as <-;
    split_and!; try done; by apply named_elem.
Qed.

(** The observation pages show what the service says now.  A panel, however
    its requests overlap, shows no data or an answer to the path it asks for at
    shown_point; every tab asks for exactly one thing, logs only for those who may
    edit, in a query the service reads as the choice of the page.  In the
    overview of a project an instance without a fresh observation is of unknown
    state and shows no usage, one with a fresh observation shows its phase, and
    the usage shown is the one of its own latest observation. *)
Theorem observation_pages_exact (locale : Locale) request projectId w o w' :
  (∀ A (answers : string → A → Prop) es data, honest answers closed_panel (λ _, None) es →
     pn_data (panel_after es) = Some data → ∃ path, pn_asked (panel_after es) = Some path ∧ answers path data) ∧
  (∀ path canEdit tab window, tab ∈ (tabs canEdit).*1 → window ∈ windows →
     let paths := tab_paths path canEdit tab window in
     length (omap id [paths.1.1; paths.1.2; paths.2]) = 1%nat ∧
     (∀ p, paths.1.1 = Some p → ∃ params w g, p = path +:+ "/observability/metrics?" +:+ query_text params ∧
        metrics_query_schema (query_json params) = Some (w, g) ∧ window_str w = window ∧ group_str g = tab) ∧
     (∀ p, paths.2 = Some p → canEdit = true ∧ ∃ params, p = path +:+ "/observability/logs?" +:+ query_text params ∧
        logs_query_schema (query_json params) = Some (15, None))) ∧
  (∀ path window, window ∈ windows → ∃ params,
     lookup_path path window = path +:+ "/statistics/history?" +:+ query_text params ∧
     Routes.history_query (query_json params) = Some window) ∧
  (get_project_observability (S:=S) is_uuid request projectId w = (Ok o, w') →
   ∀ i, i ∈ pv_items o →
     let row := overview_row locale i in
     match it_dataState i with
     | NoData | Stale => row.1.1 = t locale unknown_state [] ∧ row.2 = None
     | DataError | DataOk => ∃ s label, it_snapshot i = Some s ∧
         js_date (w_now w') - js_date (sr_observed_at s) ≤ 120000 ∧
         bi_kubernetes_uid (it_binding i) = Some (sr_instance_uid s) ∧
         (phase_text (sn_phase (sr_payload s)), label) ∈ stateText ∧ row.1.1 = t locale label [] ∧
         (∀ b, row.2 = Some b → it_dataState i = DataOk ∧ usedBytes <$> sn_statistics (sr_payload s) = Some b)
     end ∧
     ∃ label, (data_state_text (it_dataState i), label) ∈ stateText ∧ row.1.2 = t locale label []).
Proof.
  split_and!.
  - intros A answers es data Hh Hd. destruct (honest_good answers es _ _ Hh) as (paths & _ & Hg); [by split|]. by apply Hg.
  - intros path canEdit tab window Ht Hw. cbv zeta. split_and!; [by apply tab_one|intros p; by apply tab_metrics|].
    intros p. apply tab_logs.
  - intros path window Hw. exists [("window", window)]%string. split; [done|].
    repeat (apply elem_of_cons in Hw as [->|Hw]; [done|]). by apply elem_of_nil in Hw.
  - intros E i Hi. destruct (overview_items _ _ _ _ _ E i Hi) as ([id b] & ->). cbv zeta. simpl. split.
    + apply overview_row_state.
    + destruct (data_state_label (data_state (js_date (w_now w')) (own_snapshot (id, b) (w_kube w').1))) as [label El].
      exists label. rewrite El. split; [by apply named_elem|done].
Qed.
End rows.

Definition late_reply : list (PanelEvent Z) :=
  [PanelAsk (Some "a"%string); PanelAsk (Some "b"%string); PanelReply 1 (Some 1); PanelReply 2 (Some 2)].
Definition numbered (path : string) (n : Z) : Prop := path = if n =? 1 then "a"%string else "b"%string.
Definition read_overview : res ProjectOverview * World (Rest ()) :=
  @get_project_observability () plain_digests (λ _, true) reader_request "p" reader_world.
Definition read_item : option ProjectItem := match read_overview.1 with Ok o => head (pv_items o) | Throw _ => None end.
Lemma observation_pages_exact_witness :
  pn_data (panel_after late_reply) = Some 2 ∧
  (∃ path, pn_asked (panel_after late_reply) = Some path ∧ numbered path 2) ∧
  ∃ o w' i s label, read_overview = (Ok o, w') ∧ i ∈ pv_items o ∧ it_snapshot i = Some s ∧
    (phase_text (sn_phase (sr_payload s)), label) ∈ stateText ∧ (overview_row ZhCN i).1.1 = "服务就绪"%string.
Proof.
  assert ((λ i, (match it_dataState i with DataOk => true | _ => false end, (overview_row ZhCN i).1.1)) <$> read_item =
    Some (true, "服务就绪"%string)) as Hc by (vm_compute; reflexivity).
  unfold read_item in Hc. destruct read_overview as [[o|e] w'] eqn:E; [|discriminate Hc]. simpl in Hc.
  destruct (pv_items o) as [|i l] eqn:Hi; [discriminate Hc|]. simpl in Hc.
  destruct (it_dataState i) eqn:Hd; try discriminate Hc. injection Hc as Ht.
  destruct (@observation_pages_exact () plain_digests (λ _, true) ZhCN reader_request "p" reader_world o w')
    as (Hp & _ & _ & Hr).
  split; [reflexivity|]. split.
  { apply (Hp Z numbered late_reply 2); [|reflexivity]. simpl. unfold numbered.
    split; [exists "a"%string; split; reflexivity|]. split; [|exact I]. exists "b"%string. split; reflexivity. }
  destruct (Hr E i ltac:(rewrite Hi; left)) as [H _]. rewrite Hd in H. destruct H as (s & label & Hs & _ & _ & Hl & _).
  exists o, w', i, s, label. split; [reflexivity|]. split; [rewrite Hi; left|]. split; [exact Hs|]. split; [exact Hl|exact Ht].
Defined.
