(* ===== verification/ConsoleAdmin.v ===== *)
(** * The console: accounts, members, inventory and alerts

    [apps/admin-web/src]: the lists and their panels ([useRows], [UsersPanel],
    [Members] and [AuditLog] of [Management.tsx]), the form of a password
    ([PasswordForm.tsx]), the creation of a project
    ([Console] of [App.tsx]), the comparison of resources
    ([ResourceInventory.tsx]) and the silencing of an alert
    ([ProjectObservability] of [Observability.tsx]); and what all requests of the
    console are, put beside the document of the API. *)
From Stdlib Require Import ZArith Lia Ascii Init.Byte.
From stdpp Require Import base tactics list option strings relations.
From S2P Require Import Prelude Regex Numbers Effects Messages I18n Catalog Json JsNumber Contract Database Secrets Security.
From S2P Require Import Accounts Kubernetes Alerts Worker Routes Observability Projects OpenApi Console ConsoleForms ConsoleKeys ConsoleCharts.

(** ** The reads and the other requests *)
Definition logout_call : Call := MkCall (Some "POST"%string) "/auth/logout" [] None.
(** What [App], [Console] and [InstanceForm], and what [ProjectView] read. *)
Definition session_reads : list string := ["/auth/me"; "/projects"; "/templates"].
Definition project_reads (base : string) : list string := [base +:+ "/instances"; base +:+ "/operations"].
Definition instance_path (base id : string) : string := base +:+ "/instances/" +:+ id.
Definition operation_path (base id : string) : string := base +:+ "/operations/" +:+ id.
Definition retained_path (path : string) : string := path +:+ "/retained-volume".
Definition statistics_path (path : string) : string := path +:+ "/statistics".
Definition quota_path (base : string) : string := base +:+ "/quota".
Definition health_path : string := "/platform/observability".
Definition project_base (project : string) : string := "/projects/" +:+ project.

(** ** [useRows] *)

(** [rw_run]: the effect that is not aborted. *)
Record Rows (A : Type) := MkRows { rw_rows : list A; rw_error : string; rw_loading : bool; rw_run : nat }.
Arguments MkRows {A} _ _ _ _.
Arguments rw_rows {A} _.
Arguments rw_error {A} _.
Arguments rw_loading {A} _.
Arguments rw_run {A} _.
Inductive RowsEvent (A : Type) := RowsReload | RowsLoaded (run : nat) (rows : list A) | RowsFailed (run : nat) (message : string).
Arguments RowsReload {A}.
Arguments RowsLoaded {A} _ _.
Arguments RowsFailed {A} _ _.
Definition open_rows {A} : Rows A := MkRows [] "" true 1.
Definition reload {A} (s : Rows A) : Rows A := MkRows (rw_rows s) (rw_error s) true (S (rw_run s)).
(** Only the error and the end of loading ask whether the request was aborted. *)
Definition rows_step {A} (s : Rows A) (e : RowsEvent A) : Rows A :=
  match e with
  | RowsReload => reload s
  | RowsLoaded run rows => MkRows rows "" (if Nat.eqb run (rw_run s) then false else rw_loading s) (rw_run s)
  | RowsFailed run message => if Nat.eqb run (rw_run s) then MkRows (rw_rows s) message false (rw_run s) else s
  end.

(** ** [PasswordForm] *)
Record PasswordForm := MkPasswordForm { pw_error : string; pw_busy : bool; pw_done : bool }.
#[export] Instance eta_PasswordForm : Eta PasswordForm := λ r, MkPasswordForm (pw_error r) (pw_busy r) (pw_done r).
Definition open_password : PasswordForm := MkPasswordForm "" false false.
Inductive PasswordEvent := PSubmit (password confirm current : string) | PSettled (error : option string).
(** [submit], of the form of the account [target] or of the own one; the fields
    are gone once it is done. *)
Definition password_step (locale : Locale) (target : option string) (s : PasswordForm) (e : PasswordEvent) :
    PasswordForm * option Call :=
  match e with
  | PSubmit password confirm current =>
      if pw_busy s || pw_done s then (s, None)
      else match password_call target password confirm current with
           | Some c => (s <| pw_error := ""%string |> <| pw_busy := true |>, Some c)
           | None => (s <| pw_error := t locale "两次输入的新密码不一致。" [] |>, None)
           end
  | PSettled None => (s <| pw_done := true |> <| pw_busy := false |>, None)
  | PSettled (Some error) => (s <| pw_error := error |> <| pw_busy := false |>, None)
  end.

(** ** [UsersPanel] *)
Record Account := MkAccount { ac_id : string; ac_email : string; ac_platform_admin : bool; ac_active : bool }.
(** [up_form] is the password form of the target, [up_mounted] tells the forms of
    different targets apart: a form is mounted for each, by its key. *)
Record UsersPanel := MkUsersPanel {
  up_list : Rows Account; up_error : string; up_busy : bool; up_confirm : option Account; up_passwordTarget : option Account;
  up_form : PasswordForm; up_mounted : nat }.
#[export] Instance eta_UsersPanel : Eta UsersPanel := λ r,
  MkUsersPanel (up_list r) (up_error r) (up_busy r) (up_confirm r) (up_passwordTarget r) (up_form r) (up_mounted r).
Definition open_users : UsersPanel := MkUsersPanel open_rows "" false None None open_password 0.

Definition create_user_call (email password : string) : Call :=
  MkCall (Some "POST"%string) "/users" [] (Some (stringify (JObj [("email", JStr email); ("password", JStr password)]))).
Definition toggle_call (account : Account) : Call :=
  MkCall (Some "PATCH"%string) ("/users/" +:+ ac_id account) []
    (Some (stringify (JObj [("active", JBool (negb (ac_active account)))]))).

(** Rows are clicked by their place; [UForm] is an event of the form that was
    mounted as the given one. *)
Inductive UsersEvent :=
  | URows (e : RowsEvent Account) | UCreate (email password : string) | UToggle (n : nat) | UReset (n : nat)
  | UConfirm | UCancel | UClose | UForm (mounted : nat) (e : PasswordEvent)
  | UCreated (error : option string) | UToggled (error : option string).
Definition toggle (account : Account) (s : UsersPanel) : UsersPanel * option Call :=
  (s <| up_busy := true |> <| up_error := ""%string |>, Some (toggle_call account)).
(** The same target keeps its form, another one has a new one. *)
Definition reset_for (a : Account) (s : UsersPanel) : UsersPanel :=
  if oeq (ac_id <$> up_passwordTarget s) (Some (ac_id a)) then s <| up_passwordTarget := Some a |>
  else s <| up_passwordTarget := Some a |> <| up_form := open_password |> <| up_mounted ::= S |>.
Definition users_step (locale : Locale) (actor : Actor) (s : UsersPanel) (e : UsersEvent) : UsersPanel * option Call :=
  let own a := String.eqb (ac_id a) (at_id actor) in
  match e with
  | URows e => (s <| up_list ::= λ l, rows_step l e |>, None)
  | UCreate email password =>
      if up_busy s then (s, None)
      else (s <| up_busy := true |> <| up_error := ""%string |>, Some (create_user_call email password))
  | UToggle n =>
      match rw_rows (up_list s) !! n with
      | Some a => if up_busy s || own a then (s, None)
                  else if ac_active a then (s <| up_confirm := Some a |>, None) else toggle a s
      | None => (s, None)
      end
  | UReset n =>
      match rw_rows (up_list s) !! n with
      | Some a => if up_busy s || own a then (s, None) else (reset_for a s, None)
      | None => (s, None)
      end
  | UConfirm => match up_confirm s with Some a => if up_busy s then (s, None) else toggle a s | None => (s, None) end
  | UCancel => if up_busy s then (s, None) else (s <| up_confirm := None |>, None)
  | UClose => if pw_busy (up_form s) then (s, None) else (s <| up_passwordTarget := None |>, None)
  | UForm mounted e =>
      match up_passwordTarget s with
      | Some a => if Nat.eqb mounted (up_mounted s)
                  then let '(f, c) := password_step locale (Some (ac_id a)) (up_form s) e in (s <| up_form := f |>, c)
                  else (s, None)
      | None => (s, None)
      end
  | UCreated None => (s <| up_list ::= reload |> <| up_busy := false |>, None)
  | UToggled None => (s <| up_confirm := None |> <| up_list ::= reload |> <| up_busy := false |>, None)
  | UCreated (Some error) | UToggled (Some error) => (s <| up_error := error |> <| up_busy := false |>, None)
  end.

(** ** [Members] *)
Record MemberRow := MkMemberRow { mr_id : string; mr_email : string; mr_role : string }.
Record MembersPanel := MkMembersPanel {
  mp_list : Rows MemberRow; mp_error : string; mp_busy : bool; mp_remove : option MemberRow }.
#[export] Instance eta_MembersPanel : Eta MembersPanel := λ r,
  MkMembersPanel (mp_list r) (mp_error r) (mp_busy r) (mp_remove r).
Definition open_members : MembersPanel := MkMembersPanel open_rows "" false None.

Definition members_path (base : string) : string := base +:+ "/members".
Definition member_path (base : string) (m : MemberRow) : string := base +:+ "/members/" +:+ mr_id m.
Definition write_call (path method : string) (body : option json) : Call :=
  MkCall (Some method) path [] (stringify <$> body).
(** The roles are those a list offers. *)
Inductive MembersEvent :=
  | MRows (e : RowsEvent MemberRow) | MAdd (email role : string) | MRole (n : nat) (role : string) | MAsk (n : nat)
  | MRemove | MCancel | MSettled (error : option string).
Definition members_write (c : Call) (s : MembersPanel) : MembersPanel * option Call :=
  if mp_busy s then (s, None) else (s <| mp_busy := true |> <| mp_error := ""%string |>, Some c).
Definition members_step (base : string) (s : MembersPanel) (e : MembersEvent) : MembersPanel * option Call :=
  match e with
  | MRows e => (s <| mp_list ::= λ l, rows_step l e |>, None)
  | MAdd email role =>
      if negb (includes roles.*1 role) then (s, None)
      else members_write (write_call (members_path base) "POST"
                            (Some (JObj [("email", JStr email); ("role", JStr role)]))) s
  | MRole n role =>
      match rw_rows (mp_list s) !! n with
      | Some m => if negb (includes roles.*1 role) then (s, None)
                  else members_write (write_call (member_path base m) "PUT" (Some (JObj [("role", JStr role)]))) s
      | None => (s, None)
      end
  | MAsk n =>
      match rw_rows (mp_list s) !! n with
      | Some m => if mp_busy s then (s, None) else (s <| mp_remove := Some m |>, None)
      | None => (s, None)
      end
  | MRemove => match mp_remove s with Some m => members_write (write_call (member_path base m) "DELETE" None) s | None => (s, None) end
  | MCancel => if mp_busy s then (s, None) else (s <| mp_remove := None |>, None)
  | MSettled None => (s <| mp_remove := None |> <| mp_list ::= reload |> <| mp_busy := false |>, None)
  | MSettled (Some error) => (s <| mp_error := error |> <| mp_busy := false |>, None)
  end.

(** ** [AuditLog] *)
Definition audit_path (base : string) : string := base +:+ "/audit".
(** [actions[event.action] ?? event.action] *)
Definition audit_action (locale : Locale) (action : string) : string :=
  match named actions action with Some text => t locale text [] | None => action end.
Definition audit_actor (locale : Locale) (actor : option string) : string := nullish actor (t locale "系统" []).

(** ** Creating a project *)

(** The state of [Console] the creation changes; [np_hash] is the address. *)
Record NewProject := MkNewProject {
  np_project : string; np_hash : string; np_creating : bool; np_busy : bool; np_error : string }.
#[export] Instance eta_NewProject : Eta NewProject := λ r,
  MkNewProject (np_project r) (np_hash r) (np_creating r) (np_busy r) (np_error r).
Inductive NewProjectEvent := NAsk | NCancel | NSubmit (name : string) | NSettled (r : string + string).
Definition create_project_call (name : string) : Call :=
  MkCall (Some "POST"%string) "/projects" [] (Some (stringify (JObj [("name", JStr name)]))).
Definition new_project_step (s : NewProject) (e : NewProjectEvent) : NewProject * option Call :=
  match e with
  | NAsk => (s <| np_creating := true |>, None)
  | NCancel => if np_busy s then (s, None) else (s <| np_creating := false |>, None)
  | NSubmit name =>
      if np_busy s || negb (np_creating s) then (s, None)
      else (s <| np_busy := true |> <| np_error := ""%string |>, Some (create_project_call name))
  | NSettled (inl id) =>
      (s <| np_project := id |> <| np_hash := "/projects/" +:+ id +:+ "/instances" |>
         <| np_creating := false |> <| np_busy := false |>, None)
  | NSettled (inr error) => (s <| np_error := error |> <| np_busy := false |>, None)
  end.

(** ** [ResourceInventory] *)

(** [encodeURIComponent] *)
Definition unreserved_char (c : ascii) : bool := is_alnum c || one_of "-_.!~*'()" c.
Definition upper_char (c : ascii) : ascii := if is_lower c then ascii_of_nat (nat_of_ascii c - 32) else c.
Definition percent_byte (b : byte) : list ascii := "%"%char :: map upper_char (hex_pair b).
Definition encodeURIComponent (s : string) : string :=
  of_chars (chars s ≫= λ c, if unreserved_char c then [c] else utf8 [c] ≫= percent_byte).

(** The time of the comparison, in milliseconds, and what it found. *)
Record InventorySnapshot := MkInventorySnapshot { ns_checkedAt : option Z; ns_result : option InventoryResult }.
(** [iv_run]: the effect that is not aborted. *)
Record Inventory := MkInventory {
  iv_open : bool; iv_snapshot : option InventorySnapshot; iv_error : string; iv_busy : bool; iv_scheduled : bool; iv_run : nat }.
#[export] Instance eta_Inventory : Eta Inventory := λ r,
  MkInventory (iv_open r) (iv_snapshot r) (iv_error r) (iv_busy r) (iv_scheduled r) (iv_run r).
Inductive InventoryEvent :=
  | IOpen | IRead (run : nat) (r : InventorySnapshot + string) | ISchedule
  | IReconcile (now : Z) (n : nat) (confirmed : bool) | ISettled (error : option string).
Definition inventory_path (base : string) : string := base +:+ "/inventory".
Definition schedule_call (base : string) : Call := MkCall (Some "POST"%string) (base +:+ "/inventory/refresh") [] None.
Definition reconcile_call (base instanceId : string) : Call :=
  MkCall (Some "POST"%string) (base +:+ "/instances/" +:+ encodeURIComponent instanceId +:+ "/reservations/reconcile") [] None.
(** The effect starts again: the snapshot is dropped. *)
Definition reread (s : Inventory) : Inventory := s <| iv_snapshot := None |> <| iv_run ::= S |>.
Definition inventory_step (base : string) (canReconcile : bool) (s : Inventory) (e : InventoryEvent) : Inventory * option Call :=
  match e with
  | IOpen => if iv_open s then (s, None) else (reread (s <| iv_open := true |>), None)
  | IRead run r =>
      if iv_open s && Nat.eqb run (iv_run s) then
        (match r with
         | inl value => s <| iv_snapshot := Some value |> <| iv_error := ""%string |>
         | inr error => s <| iv_error := error |>
         end, None)
      else (s, None)
  | ISchedule =>
      if negb (iv_open s) || iv_busy s then (s, None)
      else (s <| iv_busy := true |> <| iv_error := ""%string |> <| iv_scheduled := false |>, Some (schedule_call base))
  | IReconcile now n confirmed =>
      match iv_snapshot s ≫= λ x, result ← ns_result x; issue ← ir_issues result !! n; Some (ns_checkedAt x, result, issue) with
      | Some (checkedAt, result, issue) =>
          if negb (iv_open s) || iv_busy s || negb (offers_reconcile canReconcile (stale_inventory now checkedAt) result issue) ||
             negb confirmed
          then (s, None)
          else (s <| iv_busy := true |> <| iv_error := ""%string |>,
                Some (reconcile_call base (nullish (is_instanceId issue) "")))
      | None => (s, None)
      end
  | ISettled None => (reread (s <| iv_scheduled := true |>) <| iv_busy := false |>, None)
  | ISettled (Some error) => (s <| iv_error := error |> <| iv_busy := false |>, None)
  end.

(** ** [ProjectObservability] *)

(** What the panels of the page ask for: the overview, the alerts, the history. *)
Definition overview_paths (base : string) (alertsOnly : bool) : option string * string * option string :=
  (if alertsOnly then None else Some (base +:+ "/observability"), base +:+ "/observability/alerts",
   if alertsOnly then Some (base +:+ "/observability/alert-history") else None).
Record ListedAlert := MkListedAlert { al_fingerprint : string; al_instanceId : string }.
Record SilenceState := MkSilenceState { sl_busy : bool; sl_action : string; sl_refresh : nat }.
#[export] Instance eta_SilenceState : Eta SilenceState := λ r, MkSilenceState (sl_busy r) (sl_action r) (sl_refresh r).
Inductive SilenceEvent := SilenceClick (alert : ListedAlert) | SilenceSettled (ok : bool).
Definition silence_call (base : string) (alert : ListedAlert) : Call :=
  MkCall (Some "POST"%string) (base +:+ "/instances/" +:+ al_instanceId alert +:+ "/observability/silences") []
    (Some (stringify (JObj [("fingerprint", JStr (al_fingerprint alert)); ("minutes", JInt 60)]))).
Definition silence_step (locale : Locale) (base : string) (canEdit : bool) (s : SilenceState) (e : SilenceEvent) :
    SilenceState * option Call :=
  match e with
  | SilenceClick alert =>
      if negb canEdit || sl_busy s then (s, None)
      else (s <| sl_busy := true |> <| sl_action := ""%string |>, Some (silence_call base alert))
  | SilenceSettled true => (MkSilenceState false (t locale "已设置一小时静默。" []) (S (sl_refresh s)), None)
  | SilenceSettled false => (MkSilenceState false (t locale "静默结果暂时无法确认，请刷新告警后检查。" []) (sl_refresh s), None)
  end.

(** * The requests of the console *)

(** A part of a path: the address of a request keeps it apart. *)
Definition plain (s : string) : Prop := s ≠ "" ∧ Forall (λ c, c ≠ "/"%char ∧ c ≠ "?"%char) (chars s).
Definition plain_account (a : Account) : Prop := plain (ac_id a).

Section requests.
(** The address of a project, of an instance of it, and the identifier of the
    instance or of an operation. *)
Context (locale : Locale) (base path id : string).

(** What an address holds of accounts and members. *)
Record plain_users (s : UsersPanel) : Prop := {
  pu_rows : Forall plain_account (rw_rows (up_list s));
  pu_confirm : ∀ a, up_confirm s = Some a → plain_account a;
  pu_target : ∀ a, up_passwordTarget s = Some a → plain_account a }.
Record plain_members (s : MembersPanel) : Prop := {
  pm_rows : Forall (λ m, plain (mr_id m)) (rw_rows (mp_list s));
  pm_remove : ∀ m, mp_remove s = Some m → plain (mr_id m) }.

(** What the components of a page read. *)
Inductive console_reads : string → Prop :=
  | reads_session p : p ∈ session_reads → console_reads p
  | reads_users : console_reads "/users"
  | reads_health : console_reads health_path
  | reads_project p : p ∈ project_reads base ++ [members_path base; audit_path base; quota_path base; inventory_path base] →
      console_reads p
  | reads_overview alertsOnly p :
      p ∈ (overview_paths base alertsOnly).1.2 :: option_list (overview_paths base alertsOnly).1.1 ++
          option_list (overview_paths base alertsOnly).2 → console_reads p
  | reads_instance p : p ∈ [path; operation_path base id; retained_path path; statistics_path path] → console_reads p
  | reads_history window : window ∈ windows → console_reads (lookup_path path window)
  | reads_tab canEdit tab window p : tab ∈ (tabs canEdit).*1 → window ∈ windows →
      p ∈ option_list (tab_paths path canEdit tab window).1.1 ++
          option_list (tab_paths path canEdit tab window).1.2 ++ option_list (tab_paths path canEdit tab window).2 → console_reads p.
(** The requests the components of a page send, in whatever state. *)
Inductive console_sends : Call → Prop :=
  | sends_login email password : console_sends (login_call email password)
  | sends_logout : console_sends logout_call
  | sends_password s e s' c : password_step locale None s e = (s', Some c) → console_sends c
  | sends_users actor s e s' c : plain_users s → users_step locale actor s e = (s', Some c) → console_sends c
  | sends_members s e s' c : plain_members s → members_step base s e = (s', Some c) → console_sends c
  | sends_project s e s' c : new_project_step s e = (s', Some c) → console_sends c
  | sends_project_retry s e s' c : project_retry_step locale base s e = (s', Some c) → console_sends c
  | sends_quota f f' c : quota_save locale base f = (f', Some c) → console_sends c
  | sends_inventory can s e s' c : inventory_step base can s e = (s', Some c) → console_sends c
  | sends_silence can s e s' c :
      (∀ a, e = SilenceClick a → plain (al_instanceId a)) →
      silence_step locale base can s e = (s', Some c) → console_sends c
  | sends_form f e f' c : (fo_reclaim f = None ∧ ∀ d, fo_detail f = Some d → plain (de_id d)) ∨
      (fo_detail f = None ∧ ∃ r, fo_reclaim f = Some r ∧ rt_path r = retained_path path) →
      form_step locale base f e = (f', Some c) → console_sends c
  | sends_rotate s e s' c : rotate_step base id s e = (s', Some c) → console_sends c
  | sends_delete s e s' c : delete_step base id s e = (s', Some c) → console_sends c
  | sends_volume s e s' c : (vk_loading s = true → vk_volume s = None) →
      volume_step (retained_path path) s e = (s', Some c) → console_sends c
  | sends_retry s e s' c : retry_step base id s e = (s', Some c) → console_sends c
  | sends_read p : console_reads p → console_sends (MkCall None p [] None).
End requests.

(** ** The document *)

(** A path template of the document part_fits the parts of a path: [{name}] stands
    for one part. *)
Definition is_hole (part : list ascii) : bool := match part with c :: _ => Ascii.eqb c "{" | [] => false end.
Fixpoint same_part (a b : list ascii) : bool :=
  match a, b with
  | [], [] => true
  | c :: a, d :: b => Ascii.eqb c d && same_part a b
  | _, _ => false
  end.
Definition part_filled (part : list ascii) : bool := match part with [] => false | _ :: _ => true end.
Fixpoint part_fits (template parts : list (list ascii)) : bool :=
  match template, parts with
  | [], [] => true
  | t :: template, p :: parts =>
      (if is_hole t then part_filled p else same_part t p) && part_fits template parts
  | _, _ => false
  end.
Definition parts_of (path : list ascii) : list (list ascii) := split_on "/" path.
Fixpoint before_query (url : list ascii) : list ascii :=
  match url with [] => [] | c :: url => if Ascii.eqb c "?" then [] else c :: before_query url end.

(** The method and the path of a request are those of a route. *)
Definition addressed (r : OpenApi.Route) (s : Sent) : bool :=
  String.eqb (r_method r) (to_lower (st_method s)) &&
  part_fits (parts_of (chars (r_path r))) (parts_of (before_query (chars (st_url s)))).
(** A request brings what the document asks for: a body, an idempotency key, a
    revision and, when it writes, the token. *)
Record documented (csrf : string) (r : OpenApi.Route) (s : Sent) : Prop := {
  dc_addressed : addressed r s = true;
  dc_body : is_Some (o_body (r_options r)) ↔ is_Some (st_body s);
  dc_content : is_Some (st_body s) ↔ named (st_headers s) "content-type" = Some "application/json"%string;
  dc_idempotent : o_idempotent (r_options r) = true ↔ is_Some (named (st_headers s) "idempotency-key");
  dc_revision : o_revision (r_options r) = true ↔ is_Some (named (st_headers s) "if-match");
  dc_csrf : st_method s ≠ "GET" → named (st_headers s) "x-csrf-token" = Some csrf }.

(** ** Routes are told apart *)

(** Some path part_fits both. *)
Fixpoint overlap (a b : list (list ascii)) : bool :=
  match a, b with
  | [], [] => true
  | x :: a, y :: b => (is_hole x || is_hole y || same_part x y) && overlap a b
  | _, _ => false
  end.
Lemma same_part_spec a b : same_part a b = true ↔ a = b.
Proof.
  revert b. induction a as [|c a IH]; intros [|d b]; simpl; try (by split).
  rewrite andb_true_iff, Ascii.eqb_eq, IH. by split; [intros [-> ->]|intros [= -> ->]].
Qed.
Lemma fits_overlap a b p : part_fits a p = true → part_fits b p = true → overlap a b = true.
Proof.
  revert b p. induction a as [|x a IH]; intros [|y b] [|q p] Ha Hb; simpl in *; try done. boolify.
  rewrite (IH b p) by done. rewrite andb_true_r. destruct (is_hole x), (is_hole y); simpl in *; try done.
  apply same_part_spec. by rewrite !same_part_spec in *; congruence.
Qed.
Definition apart (a b : OpenApi.Route) : bool :=
  negb (String.eqb (r_method a) (r_method b)) || negb (overlap (parts_of (chars (r_path a))) (parts_of (chars (r_path b)))).
Fixpoint all_apart (rs : list OpenApi.Route) : bool :=
  match rs with [] => true | r :: rs => forallb (apart r) rs && all_apart rs end.
Lemma routes_apart : all_apart routes = true.
Proof. vm_compute. reflexivity. Qed.
Lemma addressed_apart a b s : addressed a s = true → addressed b s = true → apart a b = false.
Proof.
  unfold addressed, apart. intros Ha Hb. boolify. rewrite (fits_overlap _ _ (parts_of (before_query (chars (st_url s))))) by done.
  rewrite orb_false_r. match goal with H1 : r_method a = _, H2 : r_method b = _ |- _ => rewrite H1, H2 end.
  by rewrite String.eqb_refl.
Qed.
Lemma addressed_once s rs : all_apart rs = true → ∀ a b, a ∈ rs → b ∈ rs →
  addressed a s = true → addressed b s = true → a = b.
Proof.
  induction rs as [|r rs IH]; [intros _ a b ?%not_elem_of_nil; done|]. simpl. intros H a b Ha Hb Aa Ab. boolify.
  match goal with H : forallb _ _ = true |- _ => rewrite forallb_forall in H; rename H into Hr end.
  apply elem_of_cons in Ha as [->|Ha], Hb as [->|Hb]; [done| | |by apply IH].
  - apply list_elem_of_In, Hr in Hb. by rewrite (addressed_apart r b s Aa Ab) in Hb.
  - apply list_elem_of_In, Hr in Ha. by rewrite (addressed_apart r a s Ab Aa) in Ha.
Qed.

(** ** The parts of a path *)
Lemma before_query_plain l k : Forall (λ c, c ≠ "/"%char ∧ c ≠ "?"%char) l → before_query (l ++ k) = l ++ before_query k.
Proof. induction 1 as [|c l [_ Hc] _ IH]; [done|]. simpl. apply Ascii.eqb_neq in Hc. by rewrite Hc, IH. Qed.
Lemma split_plain l k : Forall (λ c, c ≠ "/"%char ∧ c ≠ "?"%char) l →
  split_on "/" (l ++ k) = match split_on "/" k with x :: xs => (l ++ x) :: xs | [] => [l] end.
Proof.
  assert (split_on "/" k ≠ []) as Hk.
  { destruct k as [|c k]; [done|]. simpl. destruct (Ascii.eqb c "/"); [done|]. by destruct (split_on _ k). }
  induction 1 as [|c l [Hc _] _ IH]; simpl; [by destruct (split_on "/" k)|]. apply Ascii.eqb_neq in Hc. rewrite Hc, IH.
  by destruct (split_on "/" k).
Qed.
Lemma before_query_all l : Forall (λ c, c ≠ "/"%char ∧ c ≠ "?"%char) l → before_query l = l.
Proof. intros H. rewrite <-(app_nil_r l) at 1. rewrite before_query_plain by done. by rewrite app_nil_r. Qed.
Lemma split_all l : Forall (λ c, c ≠ "/"%char ∧ c ≠ "?"%char) l → split_on "/" l = [l].
Proof. intros H. rewrite <-(app_nil_r l) at 1. rewrite split_plain by done. simpl. by rewrite app_nil_r. Qed.
Lemma filled_app l k : part_filled l = true → part_filled (l ++ k) = true.
Proof. by destruct l. Qed.
Lemma plain_filled s : plain s → part_filled (chars s) = true.
Proof. intros [Hs _]. destruct s; done. Qed.

Lemma bool_decide_same P Q `{Decision P, Decision Q} : bool_decide P = bool_decide Q → P ↔ Q.
Proof. by repeat case_bool_decide. Qed.
(** What the document asks for in a request, by the name of the operation. *)
Definition shape_of (r : OpenApi.Route) : string * list (list ascii) * bool * bool * bool :=
  (r_method r, parts_of (chars (r_path r)), bool_decide (is_Some (o_body (r_options r))),
   o_idempotent (r_options r), o_revision (r_options r)).
Definition asked_of (op : string) : option (string * list (list ascii) * bool * bool * bool) :=
  shape_of <$> js_find (λ r, String.eqb (r_id r) op) routes.

Definition described (csrf : string) (c : Call) : Prop :=
  let s := api_request (Some csrf) c in
  ∃ r, r ∈ routes ∧ documented csrf r s ∧ ∀ r', r' ∈ routes → addressed r' s = true → r' = r.
Lemma answered_by csrf op c method parts body idempotent revision :
  let s := api_request (Some csrf) c in
  asked_of op = Some (method, parts, body, idempotent, revision) →
  method = to_lower (st_method s) →
  part_fits parts (parts_of (before_query (chars (st_url s)))) = true →
  body = bool_decide (is_Some (st_body s)) →
  (bool_decide (is_Some (st_body s)) = bool_decide (named (st_headers s) "content-type" = Some "application/json"%string)) →
  idempotent = bool_decide (is_Some (named (st_headers s) "idempotency-key")) →
  revision = bool_decide (is_Some (named (st_headers s) "if-match")) →
  (st_method s ≠ "GET" → named (st_headers s) "x-csrf-token" = Some csrf) →
  described csrf c.
Proof.
  intros s (r & Hr & E)%fmap_Some Hm Hp Hb Hc Hi Hv Ht. apply js_find_Some in Hr as [Hr _]. injection E as -> -> -> -> ->.
  assert (addressed r s = true) as Ha by (unfold addressed; by rewrite Hm, String.eqb_refl, Hp).
  exists r. split; [done|]. split.
  - split; [done|..|done].
    + by eapply bool_decide_same.
    + by eapply bool_decide_same.
    + rewrite Hi. apply bool_decide_eq_true.
    + rewrite Hv. apply bool_decide_eq_true.
  - intros r' Hr' Ha'. by apply (addressed_once s routes routes_apart).
Qed.

(** A percent-encoded text is one part of a path. *)
Lemma percent_plain b : Forall (λ c, c ≠ "/"%char ∧ c ≠ "?"%char) (percent_byte b).
Proof.
  assert (forallb (λ c, negb (Ascii.eqb c "/") && negb (Ascii.eqb c "?")) (percent_byte b) = true) as H
    by (destruct b; vm_compute; reflexivity).
  rewrite forallb_forall in H. apply Forall_forall. intros c Hc%list_elem_of_In. apply H in Hc. boolify.
  split; by apply Ascii.eqb_neq.
Qed.
Lemma encode_plain s : s ≠ "" → plain (encodeURIComponent s).
Proof.
  intros Hs. unfold plain, encodeURIComponent. rewrite chars_of_chars. split.
  - intros E%(f_equal chars). rewrite chars_of_chars in E. destruct s as [|c s]; [done|]. simpl in E.
    destruct (unreserved_char c); [done|]. revert E. unfold utf8, utf8_char. simpl. by destruct (N_of_ascii c <? 128)%N.
  - apply Forall_bind, Forall_forall. intros c _. simpl. destruct (unreserved_char c) eqn:Ec.
    + apply Forall_singleton. split; intros ->; vm_compute in Ec; discriminate.
    + apply Forall_bind, Forall_forall. intros b _. apply percent_plain.
Qed.

Ltac each := repeat match goal with
  | H : _ ∈ _ :: _ |- _ => apply elem_of_cons in H as [->|H]
  | H : _ ∈ [] |- _ => by apply not_elem_of_nil in H
  end.
(** Every part of the address that is not literal is a plain one. *)
Ltac plain_parts :=
  repeat match goal with H : plain ?s |- _ =>
    let F := fresh "F" in let part := fresh "part" in
    pose proof (plain_filled s H) as F; destruct H as [_ H]; set (part := chars s) in *; clearbody part
  end.
Ltac walk :=
  cbn -[part_fits part_filled];
  repeat (first [rewrite before_query_plain by eassumption | rewrite before_query_all by eassumption
                |rewrite split_plain by eassumption | rewrite split_all by eassumption]; cbn -[part_fits part_filled]);
  rewrite ?app_nil_r.
Ltac address :=
  unfold api_request; cbn [st_url ca_path st_method ca_method]; rewrite ?chars_app, <-?app_assoc; plain_parts; walk;
  cbn -[part_filled]; repeat match goal with F : part_filled _ = true |- _ => rewrite F end; reflexivity.
Ltac requested_path :=
  unfold toggle_call, write_call, members_path, member_path, project_retry_call, schedule_call, reconcile_call,
     silence_call, form_call, rotate_call, delete_call, remove_call, retry_call, audit_path, quota_path, inventory_path,
     lookup_path, project_base, instance_path, operation_path, retained_path, statistics_path;
  cbn [ac_id mr_id al_instanceId de_id rt_path]; address.
Ltac asks op :=
  eapply (answered_by _ op);
  [vm_compute; reflexivity|reflexivity
  |requested_path
  |reflexivity
  |unfold api_request; cbn [ca_body ca_method ca_headers]; try match goal with H : truthy _ = true |- _ => rewrite H end; reflexivity..
  |unfold api_request; cbn [ca_body ca_method ca_headers]; intros Hm;
   try match goal with H : truthy _ = true |- _ => rewrite H end; done].

Section described.
Context (csrf : string) (Hcsrf : truthy (Some csrf) = true).

Lemma password_answered locale target s e s' c : (∀ id, target = Some id → plain id) →
  password_step locale target s e = (s', Some c) → described csrf c.
Proof.
  intros Ht. destruct e as [pw cf cur|[]]; simpl; try done. destruct (_ || _); [done|].
  unfold password_call. destruct (negb _); [done|]. intros [= _ <-].
  destruct target as [id|]; [specialize (Ht id eq_refl); asks "resetPassword"|asks "changePassword"].
Qed.
Lemma users_answered locale actor s e s' c : plain_users s → users_step locale actor s e = (s', Some c) → described csrf c.
Proof.
  intros [Hr Hc Ht]. rewrite Forall_forall in Hr. destruct e as [|email password|n|n| | | |k e|[]|[]]; cbn [users_step]; try done.
  - destruct (up_busy s); [done|]. intros [= _ <-]. asks "createUser".
  - destruct (_ !! n) as [a|] eqn:Ea; [|done]. destruct (_ || _); [done|]. destruct (ac_active a) eqn:Eb; [done|].
    intros [= _ <-]. apply list_elem_of_lookup_2, Hr in Ea. unfold plain_account in Ea. asks "updateUser".
  - destruct (_ !! n); [|done]. by destruct (_ || _).
  - destruct (up_confirm s) as [a|]; [|done]. destruct (up_busy s); [done|]. intros [= _ <-].
    specialize (Hc a eq_refl). unfold plain_account in Hc. asks "updateUser".
  - by destruct (up_busy s).
  - by destruct (pw_busy (up_form s)).
  - destruct (up_passwordTarget s) as [a|]; [|done]. destruct (Nat.eqb _ _); [|done].
    destruct (password_step _ _ _ _) as [f o] eqn:E. intros [= _ ->].
    eapply password_answered; [|exact E]. intros id [= <-]. by apply Ht.
Qed.

Lemma members_answered project s e s' c : plain project → plain_members s →
  members_step (project_base project) s e = (s', Some c) → described csrf c.
Proof.
  intros Hp [Hr Hd]. rewrite Forall_forall in Hr. destruct e as [|email role|n role|n| | |[]]; simpl; unfold members_write; try done.
  - destruct (negb _); [done|]. destruct (mp_busy s); [done|]. intros [= _ <-]. asks "addMember".
  - destruct (_ !! n) as [m|] eqn:Em; [|done]. destruct (negb _); [done|]. destruct (mp_busy s); [done|]. intros [= _ <-].
    apply list_elem_of_lookup_2, Hr in Em. asks "updateMember".
  - destruct (_ !! n); [|done]. by destruct (mp_busy s).
  - destruct (mp_remove s) as [m|]; [|done]. destruct (mp_busy s); [done|]. intros [= _ <-]. specialize (Hd m eq_refl).
    asks "removeMember".
  - by destruct (mp_busy s).
Qed.
Lemma inventory_answered project can s e s' c : plain project →
  inventory_step (project_base project) can s e = (s', Some c) → described csrf c.
Proof.
  intros Hp. destruct e as [|run r| |now n confirmed|[]]; simpl; try done.
  - by destruct (iv_open s).
  - by destruct (_ && _).
  - destruct (_ || _); [done|]. intros [= _ <-]. asks "refreshProjectInventory".
  - destruct (iv_snapshot s ≫= _) as [[[checked result] issue]|]; [|done]. destruct (_ || _) eqn:E; [done|]. intros [= _ <-].
    boolify. assert (truthy (is_instanceId issue) = true) as Ht by (unfold offers_reconcile in *; by boolify).
    apply truthy_Some in Ht as (id & -> & Hn). apply encode_plain in Hn. simpl. asks "reconcileInstanceReservation".
Qed.
Lemma silence_answered locale project can s e s' c : plain project →
  (∀ a, e = SilenceClick a → plain (al_instanceId a)) →
  silence_step locale (project_base project) can s e = (s', Some c) → described csrf c.
Proof.
  intros Hp Ha. destruct e as [alert|[]]; simpl; try done. destruct (_ || _); [done|]. intros [= _ <-].
  specialize (Ha alert eq_refl). asks "silenceInstanceAlert".
Qed.
Lemma project_answered s e s' c : new_project_step s e = (s', Some c) → described csrf c.
Proof.
  destruct e as [| |name|[]]; simpl; try done; [by destruct (np_busy s)|]. destruct (_ || _); [done|]. intros [= _ <-].
  asks "createProject".
Qed.

Lemma project_retry_answered locale project s e s' c : plain project →
  project_retry_step locale (project_base project) s e = (s', Some c) → described csrf c.
Proof.
  intros Hp. destruct e as [|[]|]; simpl; try done; [|by destruct (_ && _)]. intros [= _ <-]. asks "retryProject".
Qed.
Lemma quota_answered locale project f f' c : plain project →
  quota_save locale (project_base project) f = (f', Some c) → described csrf c.
Proof.
  intros Hp. unfold quota_save. destruct (qf_snapshot f); [|done]. destruct (_ || _); [done|]. destruct (existsb _ _); [done|].
  intros [= _ <-]. asks "updateProjectQuota".
Qed.
Lemma form_answered locale project id f e f' c : plain project → plain id →
  (fo_reclaim f = None ∧ ∀ d, fo_detail f = Some d → plain (de_id d)) ∨
  (fo_detail f = None ∧ ∃ r, fo_reclaim f = Some r ∧ rt_path r = retained_path (instance_path (project_base project) id)) →
  form_step locale (project_base project) f e = (f', Some c) → described csrf c.
Proof.
  intros Hp Hid Hf. destruct e as [| | | | | | | | | | | |fresh|]; simpl; try done. intros Hs.
  destruct (form_submit_cases locale (project_base project) fresh f) as [[error E]|(body & Hb & _ & E)];
    rewrite E in Hs; [done|]. injection Hs as _ <-. destruct body as [|b body]; [done|].
  set (key := (fo_last _).2). clearbody key. clear E.
  destruct Hf as [[-> Hd]|[-> (r & -> & Hr)]].
  - destruct (fo_detail f) as [d|]; unfold form_call; simpl bool_decide; cbv iota.
    + specialize (Hd d eq_refl). asks "updateInstance".
    + asks "createInstance".
  - unfold form_call. rewrite Hr. asks "reclaimRetainedVolume".
Qed.
Lemma rotate_answered project id s e s' c : plain project → plain id →
  rotate_step (project_base project) id s e = (s', Some c) → described csrf c.
Proof. intros Hp Hid. destruct e as [|[]]; simpl; try done. intros [= _ <-]. asks "rotateCredential". Qed.
Lemma delete_answered project id s e s' c : plain project → plain id →
  delete_step (project_base project) id s e = (s', Some c) → described csrf c.
Proof. intros Hp Hid. destruct e as [| | |[]]; simpl; try done. intros [= _ <-]. asks "deleteInstance". Qed.
Lemma retry_answered project id s e s' c : plain project → plain id →
  retry_step (project_base project) id s e = (s', Some c) → described csrf c.
Proof.
  intros Hp Hid. destruct e as [| | |[]]; simpl; try done. destruct (_ || _); [done|]. intros [= _ <-]. asks "retryOperation".
Qed.
Lemma volume_answered project id s e s' c : plain project → plain id → (vk_loading s = true → vk_volume s = None) →
  volume_step (retained_path (instance_path (project_base project) id)) s e = (s', Some c) → described csrf c.
Proof.
  intros Hp Hid Hs E. destruct (sent_bound (KeyedLaws := KeyedLaws_volume _) s e s' c Hs E) as [Hb _]. simpl in Hb.
  apply bind_Some in Hb as (v & _ & [= <-]). asks "deleteRetainedVolume".
Qed.

Lemma reads_answered project id p : plain project → plain id → console_reads (project_base project) (instance_path (project_base project) id) id p → described csrf (MkCall None p [] None).
Proof.
  intros Hp Hid Hr. destruct Hr as [p H| | |p H|[] p H|p H|window H|can tab window p Ht Hw H].
  - unfold session_reads in H. each; [asks "currentUser"|asks "listProjects"|asks "templates"].
  - asks "listUsers".
  - asks "platformObservability".
  - simpl in H. each; [asks "listInstances"|asks "listOperations"|asks "listMembers"|asks "audit"|asks "getProjectQuota"
                      |asks "getProjectInventory"].
  - simpl in H. each; [asks "projectAlerts"|asks "projectAlertHistory"].
  - simpl in H. each; [asks "projectAlerts"|asks "projectObservability"].
  - each; [asks "getInstance"|asks "getOperation"|asks "getRetainedVolume"|asks "statistics"].
  - asks "statisticsHistory".
  - destruct can; simpl in Ht; each; simpl in H; each;
      solve [asks "instanceObservationMetrics"|asks "instanceObservationEvents"|asks "instanceObservationLogs"].
Qed.
End described.

(** ** Every route is used *)

(** A request of the shape of a named route is addressed to it. *)
Lemma addressed_by csrf op c method parts body idempotent revision r :
  let s := api_request (Some csrf) c in
  asked_of op = Some (method, parts, body, idempotent, revision) →
  method = to_lower (st_method s) → part_fits parts (parts_of (before_query (chars (st_url s)))) = true →
  r ∈ routes → r_id r = op → addressed r s = true.
Proof.
  intros s (r' & Hf & E)%fmap_Some Hm Hp Hr Hop. apply js_find_Some in Hf as [Hr' Hid]. apply String.eqb_eq in Hid.
  assert (NoDup (r_id <$> routes)) as Hn by (apply (bool_decide_unpack _); vm_compute; exact I).
  assert (r = r') as <-.
  { apply list_elem_of_lookup in Hr as [i Hi], Hr' as [j Hj].
    assert (i = j) as <-; [|congruence]. eapply NoDup_lookup; [exact Hn| |].
    - rewrite list_lookup_fmap, Hi. simpl. by rewrite Hop.
    - rewrite list_lookup_fmap, Hj. simpl. by rewrite Hid. }
  injection E as -> -> _ _ _. unfold addressed. by rewrite Hm, String.eqb_refl, Hp.
Qed.
(** What changes something for the user of a session. *)
Definition session_writes : list string :=
  r_id <$> filter (λ r, negb (String.eqb (r_method r) "get") && negb (o_bearer (r_options r)) = true) routes.

Section used.
Context (locale : Locale) (project id csrf : string).
Definition used (r : OpenApi.Route) : Prop :=
  ∃ c, console_sends locale (project_base project) (instance_path (project_base project) id) id c ∧ addressed r (api_request (Some csrf) c) = true.
#[local] Ltac uses op c :=
  exists c; split; [|eapply (addressed_by _ op); [vm_compute; reflexivity|reflexivity|repeat match goal with x := _ |- _ => subst x end; requested_path|assumption|assumption]].

Let listed : Account := MkAccount id "a@example.com" false false.
Let users : UsersPanel := MkUsersPanel (MkRows [listed] "" false 1) "" false None (Some listed) open_password 0.
Let member : MemberRow := MkMemberRow id "a@example.com" "viewer".
Let members : MembersPanel := MkMembersPanel (MkRows [member] "" false 1) "" false (Some member).

Lemma users_used r op : plain project → plain id →
  r ∈ routes → r_id r = op → op ∈ ["createUser"; "updateUser"; "resetPassword"] → used r.
Proof.
  intros Hproject Hid Hr Hop Hin. assert (plain_users users) as Hu.
  { split; [by apply Forall_singleton|done|]. by intros a [= <-]. }
  set (actor := MkActor "" "" true). each.
  - uses "createUser" (create_user_call "" ""). by apply (sends_users _ _ _ _ actor users (UCreate "" "") (users_step locale actor users (UCreate "" "")).1).
  - uses "updateUser" (toggle_call listed). apply (sends_users _ _ _ _ actor users (UToggle 0) (users_step locale actor users (UToggle 0)).1); [done|].
    destruct Hid as [Hne _]. apply String.eqb_neq in Hne. simpl. unfold listed. simpl. by rewrite Hne.
  - uses "resetPassword" (MkCall (Some "POST"%string) ("/users/" +:+ id +:+ "/password") []
      (Some (stringify (JObj [("password", JStr "")])))).
    by apply (sends_users _ _ _ _ actor users (UForm 0 (PSubmit "" "" "")) (users_step locale actor users (UForm 0 (PSubmit "" "" ""))).1).
Qed.

Lemma members_used r op : plain project → plain id →
  r ∈ routes → r_id r = op → op ∈ ["addMember"; "updateMember"; "removeMember"] → used r.
Proof.
  intros Hproject Hid Hr Hop Hin. assert (plain_members members) as Hm by (split; [by apply Forall_singleton|by intros m [= <-]]).
  each.
  - uses "addMember" (write_call (members_path (project_base project)) "POST"
      (Some (JObj [("email", JStr ""); ("role", JStr "viewer")]))).
    by apply (sends_members _ _ _ _ members (MAdd "" "viewer") (members_step (project_base project) members (MAdd "" "viewer")).1).
  - uses "updateMember" (write_call (member_path (project_base project) member) "PUT" (Some (JObj [("role", JStr "admin")]))).
    by apply (sends_members _ _ _ _ members (MRole 0 "admin") (members_step (project_base project) members (MRole 0 "admin")).1).
  - uses "removeMember" (write_call (member_path (project_base project) member) "DELETE" None).
    by apply (sends_members _ _ _ _ members MRemove (members_step (project_base project) members MRemove).1).
Qed.
Lemma session_used r op : plain project → plain id →
  r ∈ routes → r_id r = op → op ∈ ["login"; "logout"; "changePassword"; "createProject"; "retryProject"] → used r.
Proof.
  intros Hproject Hid Hr Hop Hin. each.
  - uses "login" (login_call "" ""). constructor.
  - uses "logout" logout_call. constructor.
  - uses "changePassword" (MkCall (Some "POST"%string) "/auth/password" []
      (Some (stringify (JObj [("password", JStr ""); ("currentPassword", JStr "")])))).
    by apply (sends_password _ _ _ _ open_password (PSubmit "" "" "") (password_step locale None open_password (PSubmit "" "" "")).1).
  - uses "createProject" (create_project_call ""). set (s := MkNewProject "" "" true false "").
    by apply (sends_project _ _ _ _ s (NSubmit "") (new_project_step s (NSubmit "")).1).
  - uses "retryProject" (project_retry_call (project_base project) "key"). set (s := MkProjectRetry "key" "" false "").
    by apply (sends_project_retry _ _ _ _ s ProjectRetryClick (project_retry_step locale (project_base project) s ProjectRetryClick).1).
Qed.
Lemma keyed_used r op : plain project → plain id →
  r ∈ routes → r_id r = op →
  op ∈ ["rotateCredential"; "deleteInstance"; "deleteRetainedVolume"; "retryOperation"] → used r.
Proof.
  intros Hproject Hid Hr Hop Hin. set (base := project_base project). set (path := instance_path base id). each.
  - uses "rotateCredential" (rotate_call base id ("key", "tag")%string). set (s := MkRotate ("key", "tag")%string false "" false None).
    by apply (sends_rotate _ _ _ _ s RotateClick (rotate_step base id s RotateClick).1).
  - uses "deleteInstance" (delete_call base id "key"). set (s := MkDeletion "key" true false "").
    by apply (sends_delete _ _ _ _ s DeleteConfirm (delete_step base id s DeleteConfirm).1).
  - uses "deleteRetainedVolume" (remove_call (retained_path path) "uid" "key").
    set (s := MkVolumePanel (Some (MkVolume "v" "" "uid" "" "" "" "" false)) "" "v" false None "key" false).
    by apply (sends_volume _ _ _ _ s VRemove (volume_step (retained_path path) s VRemove).1).
  - uses "retryOperation" (retry_call base id "key"). set (s := MkRetry "key" true false false "").
    by apply (sends_retry _ _ _ _ s RetryConfirm (retry_step base id s RetryConfirm).1).
Qed.
Lemma inventory_used r op : plain project → plain id →
  r ∈ routes → r_id r = op →
  op ∈ ["refreshProjectInventory"; "reconcileInstanceReservation"; "silenceInstanceAlert"; "updateProjectQuota"] → used r.
Proof.
  intros Hproject Hid Hr Hop Hin. set (base := project_base project). each.
  - uses "refreshProjectInventory" (schedule_call base). set (s := MkInventory true None "" false false 1).
    by apply (sends_inventory _ _ _ _ true s ISchedule (inventory_step base true s ISchedule).1).
  - set (issue := MkIssue "ResourceReservationUnknown" IKInstance "r" (Some "i"%string)).
    set (result := MkInventoryResult "Drift" [issue] 1 false 0 None None).
    set (s := MkInventory true (Some (MkInventorySnapshot None (Some result))) "" false false 1).
    uses "reconcileInstanceReservation" (reconcile_call base "i").
    by apply (sends_inventory _ _ _ _ true s (IReconcile 0 0 true) (inventory_step base true s (IReconcile 0 0 true)).1).
  - set (alert := MkListedAlert "f" id). uses "silenceInstanceAlert" (silence_call base alert).
    apply (sends_silence _ _ _ _ true (MkSilenceState false "" 0) (SilenceClick alert) (MkSilenceState true "" 0)); [|done].
    by intros a [= <-].
  - uses "updateProjectQuota" (MkCall (Some "PUT"%string) (quota_path base) [("If-Match"%string, "3"%string)]
      (Some (stringify (draft_body (qf_draft edited_quota))))).
    by apply (sends_quota _ _ _ _ edited_quota (quota_save locale base edited_quota).1).
Qed.

Lemma form_used r op : plain project → plain id → r ∈ routes → r_id r = op →
  op ∈ ["createInstance"; "updateInstance"; "reclaimRetainedVolume"] → used r.
Proof.
  intros Hproject Hid Hr Hop Hin. set (base := project_base project). set (path := retained_path (instance_path base id)).
  set (items := templateCatalog (MkOptions true false false false false false)).
  set (body f := stringify (input_body (bool_decide (is_Some (spec_of (fo_detail f)))) (fo_input f))).
  set (form detail reclaim := MkInstanceForm detail reclaim defaults items "" "" false ([], ""%string)).
  set (detail := MkDetail id "" "" None None [] LActive None None None 0 None).
  set (reclaim := MkReclaimTarget path (MkVolume "v" "" "uid" "" "" "" "" false) "" "webdav-apache" (Some "0.1.0"%string)).
  set (sent f := form_call base (fo_detail f) (fo_reclaim f) (body f) "key").
  assert (∀ f, (form_submit locale base "key" f).2 = Some (sent f) →
    (fo_reclaim f = None ∧ ∀ d, fo_detail f = Some d → plain (de_id d)) ∨
    (fo_detail f = None ∧ ∃ r, fo_reclaim f = Some r ∧ rt_path r = path) →
    console_sends locale base (instance_path base id) id (sent f)) as Hsends.
  { intros f E Hf. apply (sends_form _ _ _ _ f (FSubmit "key") (form_submit locale base "key" f).1); [exact Hf|].
    simpl. by destruct (form_submit locale base "key" f); simpl in *; subst. }
  each.
  - exists (form_call base None None (body (form None None)) "key").
    split; [apply (Hsends (form None None)); [vm_compute; reflexivity|by left]|].
    clear Hsends sent. generalize (body (form None None)). clear form body items. intros body. subst reclaim detail path base.
    eapply (addressed_by _ "createInstance"); [vm_compute; reflexivity|reflexivity|requested_path|done..].
  - exists (form_call base (Some detail) None (body (form (Some detail) None)) "key").
    split; [apply (Hsends (form (Some detail) None)); [vm_compute; reflexivity|left; by split; [|intros d [= <-]]]|].
    clear Hsends sent. generalize (body (form (Some detail) None)). clear form body items. intros body. subst reclaim detail path base.
    eapply (addressed_by _ "updateInstance"); [vm_compute; reflexivity|reflexivity|requested_path|done..].
  - exists (form_call base None (Some reclaim) (body (form None (Some reclaim))) "key").
    split; [apply (Hsends (form None (Some reclaim))); [vm_compute; reflexivity|right; split; [done|by eexists]]|].
    clear Hsends sent. generalize (body (form None (Some reclaim))). clear form body items. intros body. subst reclaim detail path base.
    eapply (addressed_by _ "reclaimRetainedVolume"); [vm_compute; reflexivity|reflexivity|requested_path|done..].
Qed.

(** Every one of these operations is sent by some component. *)
Lemma all_used r : plain project → plain id → r ∈ routes → r_method r ≠ "get" → o_bearer (r_options r) = false → used r.
Proof.
  intros Hp Hi Hr Hm Hb. assert (r_id r ∈ session_writes) as Hin.
  { apply list_elem_of_fmap. exists r. split; [done|]. apply list_elem_of_filter. split; [|done].
    apply String.eqb_neq in Hm. by rewrite Hm, Hb. }
  assert (session_writes ⊆
    ["createUser"; "updateUser"; "resetPassword"] ++ ["addMember"; "updateMember"; "removeMember"] ++
    ["login"; "logout"; "changePassword"; "createProject"; "retryProject"] ++
    ["rotateCredential"; "deleteInstance"; "deleteRetainedVolume"; "retryOperation"] ++
    ["refreshProjectInventory"; "reconcileInstanceReservation"; "silenceInstanceAlert"; "updateProjectQuota"] ++
    ["createInstance"; "updateInstance"; "reclaimRetainedVolume"]) as Hall by (apply (bool_decide_unpack _); vm_compute; exact I).
  apply Hall in Hin. rewrite !elem_of_app in Hin.
  destruct Hin as [H|[H|[H|[H|[H|H]]]]]; eauto using users_used, members_used, session_used, keyed_used, inventory_used, form_used.
Qed.
End used.

(** C34. Every request of the console is one the document of the service
    describes: whatever a component sends in whatever state, and whatever a page
    reads, has the method and the path of exactly one route of the document, and
    brings what that route asks for - a body and its content type where the
    document has a body, an idempotency key and a revision exactly where the
    document demands them, and the token of the session with everything that is
    not a read.  And every route that changes something and is open to a session
    is sent by some component. *)
Theorem console_requests_documented (locale : Locale) (project id csrf : string) :
  plain project → plain id → truthy (Some csrf) = true →
  let sends := console_sends locale (project_base project) (instance_path (project_base project) id) id in
  (∀ c, sends c →
     let s := api_request (Some csrf) c in
     ∃ r, r ∈ routes ∧ documented csrf r s ∧ ∀ r', r' ∈ routes → addressed r' s = true → r' = r) ∧
  (∀ r, r ∈ routes → r_method r ≠ "get" → o_bearer (r_options r) = false →
     ∃ c, sends c ∧ addressed r (api_request (Some csrf) c) = true).
Proof.
  intros Hp Hid Hcsrf sends. split; [|intros r; by apply all_used].
  intros c Hs. change (described csrf c). destruct Hs.
  - asks "login".
  - asks "logout".
  - eapply password_answered; [done| |eassumption]; by intros ? [=].
  - eauto using users_answered.
  - eauto using members_answered.
  - eauto using project_answered.
  - eauto using project_retry_answered.
  - eauto using quota_answered.
  - eauto using inventory_answered.
  - eauto using silence_answered.
  - eauto using form_answered.
  - eauto using rotate_answered.
  - eauto using delete_answered.
  - eauto using volume_answered.
  - eauto using retry_answered.
  - eauto using reads_answered.
Qed.

(** * The panels of an administrator *)

(** The states a component reaches from its opening. *)
Definition next {S E : Type} (step : S → E → S * option Call) (s s' : S) : Prop := ∃ e, s' = (step s e).1.
Definition reaches {S E : Type} (step : S → E → S * option Call) : S → S → Prop := rtc (next step).
Lemma reaches_invariant {S E : Type} (step : S → E → S * option Call) (P : S → Prop) s s' :
  (∀ s e, P s → P (step s e).1) → P s → reaches step s s' → P s'.
Proof. intros Hstep Hs. induction 1 as [|s a b [e ->] _ IH]; [done|]. by apply IH, Hstep. Qed.

(** What is asked about in [UsersPanel] is never the own account. *)
Record others (actor : Actor) (s : UsersPanel) : Prop := {
  ot_confirm : ∀ a, up_confirm s = Some a → ac_id a ≠ at_id actor ∧ ac_active a = true;
  ot_target : ∀ a, up_passwordTarget s = Some a → ac_id a ≠ at_id actor }.
Lemma reset_for_target a s : up_confirm (reset_for a s) = up_confirm s ∧ up_passwordTarget (reset_for a s) = Some a.
Proof. unfold reset_for. by destruct (oeq _ _). Qed.
Lemma users_step_others locale actor s e : others actor s → others actor (users_step locale actor s e).1.
Proof.
  intros Ho. assert (Ho' := Ho). destruct Ho' as [Hc Ht].
  destruct e as [|email password|n|n| | | |k e|[]|[]]; cbn [users_step]; try (by split).
  - by destruct (up_busy s); split.
  - destruct (_ !! n) as [a|]; [|by split]. destruct (_ || _) eqn:E; [by split|]. boolify.
    destruct (ac_active a) eqn:Ea; [|by split]. split; [|done]. simpl. intros x [= <-].
    done.
  - destruct (_ !! n) as [a|]; [|by split]. destruct (_ || _) eqn:E; [by split|]. boolify.
    destruct (reset_for_target a s) as [Ec Et]. split; cbn [fst]; [by rewrite Ec|]. rewrite Et. by intros x [= <-].
  - clear Hc Ht. repeat case_match; destruct Ho; by split.
  - by destruct (up_busy s); split.
  - by destruct (pw_busy _); split.
  - clear Hc Ht. repeat case_match; destruct Ho; by split.
Qed.

(** The body a handler reads of a request with one. *)
Lemma received_body ip origin session csrf method path headers j : printable j →
  hd_body (received ip origin session (api_request csrf (MkCall method path headers (Some (stringify j))))) = j.
Proof. intros Hj. simpl. by rewrite json_parse_stringify. Qed.

Lemma users_others locale actor s : reaches (users_step locale actor) open_users s → others actor s.
Proof. apply reaches_invariant; [intros; by apply users_step_others|by split]. Qed.

(** What [UsersPanel] may send in a state. *)
Inductive users_may (actor : Actor) (s : UsersPanel) : UsersEvent → Call → Prop :=
  | may_create email password : up_busy s = false → users_may actor s (UCreate email password) (create_user_call email password)
  | may_enable n a : up_busy s = false → rw_rows (up_list s) !! n = Some a → ac_id a ≠ at_id actor → ac_active a = false →
      users_may actor s (UToggle n) (toggle_call a)
  | may_disable a : up_busy s = false → up_confirm s = Some a → ac_id a ≠ at_id actor → ac_active a = true →
      users_may actor s UConfirm (toggle_call a)
  | may_reset a password current : up_passwordTarget s = Some a → ac_id a ≠ at_id actor → pw_busy (up_form s) = false →
      users_may actor s (UForm (up_mounted s) (PSubmit password password current))
        (MkCall (Some "POST"%string) ("/users/" +:+ ac_id a +:+ "/password") []
           (Some (stringify (JObj [("password", JStr password)])))).
Lemma users_sent locale actor s e s' c :
  others actor s → users_step locale actor s e = (s', Some c) → users_may actor s e c.
Proof.
  intros [Hc Ht]. destruct e as [|email password|n|n| | | |k e|[]|[]]; cbn [users_step]; try done.
  - destruct (up_busy s) eqn:Eb; [done|]. intros [= _ <-]. by constructor.
  - destruct (_ !! n) as [a|] eqn:Ea; [|done]. destruct (_ || _) eqn:E; [done|]. boolify.
    destruct (ac_active a) eqn:Ev; [done|]. intros [= _ <-]. by constructor.
  - destruct (_ !! n); [|done]. by destruct (_ || _).
  - destruct (up_confirm s) as [a|] eqn:Ea; [|done]. destruct (up_busy s) eqn:Eb; [done|]. intros [= _ <-].
    destruct (Hc a eq_refl). by constructor.
  - by destruct (up_busy s).
  - by destruct (pw_busy _).
  - destruct (up_passwordTarget s) as [a|] eqn:Ea; [|done]. destruct (Nat.eqb_spec k (up_mounted s)) as [->|]; [|done].
    destruct e as [pw cf current|[]]; simpl; [|done..].
    destruct (pw_busy (up_form s)) eqn:Eb; [done|]. destruct (pw_done (up_form s)); [done|]. simpl. unfold password_call.
    destruct (String.eqb pw cf) eqn:E; [|done]. intros [= _ <-]. apply String.eqb_eq in E as <-.
    constructor; [done| |done]. by apply Ht.
Qed.

(** ** One request at a time *)
Section serial.
Context {S E : Type} (step : S → E → S * option Call) (busy : S → bool) (answer : E → bool).
Definition run_of (s : S) (l : list E) : S := foldl (λ s e, (step s e).1) s l.
(** After a request none is sent until the answer is in, whatever happens
    meanwhile. *)
Definition one_request_at_a_time : Prop := ∀ s e l e',
  is_Some (step s e).2 → Forall (λ e, answer e = false) l → (step (run_of (step s e).1 l) e').2 = None.

(** A part of a page sends only while it is idle, is busy then, and stays busy
    until the answer. *)
Definition held_busy : Prop := ∀ s e,
  (is_Some (step s e).2 → busy s = false ∧ busy (step s e).1 = true) ∧
  (busy s = true → answer e = false → busy (step s e).1 = true).
Lemma held_serial : held_busy → one_request_at_a_time.
Proof.
  intros H s e l e' [_ Hb]%H Hl. assert (busy (run_of (step s e).1 l) = true) as Hr.
  { revert Hb. generalize (step s e).1. induction Hl as [|x l Hx _ IH]; intros s'; [done|]. intros Hb. by apply IH, H. }
  destruct (step _ e').2 as [c|] eqn:Ec; [|done]. destruct (H (run_of (step s e).1 l) e') as [[Hi _] _]; [by rewrite Ec|].
  by rewrite Hr in Hi.
Qed.
End serial.

(** The form in the panel of accounts, and the panel without it. *)
Definition own_form (e : UsersEvent) : bool := match e with UForm _ _ => true | _ => false end.
Definition accounts_step (locale : Locale) (actor : Actor) (s : UsersPanel) (e : UsersEvent) : UsersPanel * option Call :=
  let r := users_step locale actor s e in (r.1, if own_form e then None else r.2).
Definition accounts_answer (e : UsersEvent) : bool := match e with UCreated _ | UToggled _ => true | _ => false end.
Definition form_step_of (locale : Locale) (actor : Actor) (s : UsersPanel) (e : UsersEvent) : UsersPanel * option Call :=
  let r := users_step locale actor s e in (r.1, if own_form e then r.2 else None).
(** The answer to the form, or another form in its place. *)
Definition form_answer (e : UsersEvent) : bool := match e with UForm _ (PSettled _) | UReset _ => true | _ => false end.

Ltac one_request :=
  repeat case_match; simpl in *; boolify; simplify_eq/=;
  (split; [intros [? ?]; simplify_eq/=; split; first [done|congruence]|intros; simplify_eq/=; first [done|congruence]]).
Lemma password_one locale target :
  held_busy (password_step locale target) pw_busy (λ e, match e with PSettled _ => true | _ => false end).
Proof. intros s [pw cf current|r]; cbn [password_step]; one_request. Qed.
Lemma users_one locale actor : held_busy (accounts_step locale actor) up_busy accounts_answer.
Proof.
  intros s e. unfold accounts_step. destruct e; cbn [own_form users_step accounts_answer]; unfold toggle, reset_for; one_request.
Qed.
Lemma form_one locale actor : held_busy (form_step_of locale actor) (pw_busy ∘ up_form) form_answer.
Proof.
  intros s e. unfold form_step_of, compose. destruct e as [|email password|n|n| | | |k e|r|r]; cbn [own_form users_step form_answer];
    [unfold toggle, reset_for; one_request..| | |]; [|one_request..].
  destruct (up_passwordTarget s) as [a|]; [|one_request]. destruct (Nat.eqb _ _); [|one_request].
  pose proof (password_one locale (Some (ac_id a)) (up_form s) e) as H. by destruct (password_step _ _ _ _).
Qed.
Lemma members_one base :
  held_busy (members_step base) mp_busy (λ e, match e with MSettled _ => true | _ => false end).
Proof. intros s e. destruct e; cbn [members_step]; unfold members_write; one_request. Qed.
Lemma inventory_one base can :
  held_busy (inventory_step base can) iv_busy (λ e, match e with ISettled _ => true | _ => false end).
Proof. intros s e. destruct e; cbn [inventory_step]; unfold reread; one_request. Qed.
Lemma project_one :
  held_busy new_project_step np_busy (λ e, match e with NSettled _ => true | _ => false end).
Proof. intros s e. destruct e; cbn [new_project_step]; one_request. Qed.
Lemma silence_one locale base can :
  held_busy (silence_step locale base can) sl_busy (λ e, match e with SilenceSettled _ => true | _ => false end).
Proof. intros s e. destruct e; cbn [silence_step]; one_request. Qed.

(** What [Members] may send, and [ResourceInventory]. *)
Inductive members_may (base : string) (s : MembersPanel) : MembersEvent → Call → Prop :=
  | may_add email role : role ∈ roles.*1 → members_may base s (MAdd email role)
      (write_call (members_path base) "POST" (Some (JObj [("email", JStr email); ("role", JStr role)])))
  | may_role n m role : rw_rows (mp_list s) !! n = Some m → role ∈ roles.*1 →
      members_may base s (MRole n role) (write_call (member_path base m) "PUT" (Some (JObj [("role", JStr role)])))
  | may_remove m : mp_remove s = Some m → members_may base s MRemove (write_call (member_path base m) "DELETE" None).
Lemma members_sent base s e s' c : members_step base s e = (s', Some c) →
  mp_busy s = false ∧ mp_busy s' = true ∧ members_may base s e c.
Proof.
  destruct e as [|email role|n role|n| | |[]]; cbn [members_step]; unfold members_write; try done.
  - destruct (includes roles.*1 role) eqn:E; cbn [negb]; [|done]. destruct (mp_busy s) eqn:Eb; [done|]. intros [= <- <-].
    split_and!; try done. constructor. by apply includes_spec.
  - destruct (_ !! n) as [m|] eqn:Em; [|done]. destruct (includes roles.*1 role) eqn:E; cbn [negb]; [|done]. destruct (mp_busy s) eqn:Eb; [done|].
    intros [= <- <-]. split_and!; try done. constructor; [done|]. by apply includes_spec.
  - destruct (_ !! n); [|done]. by destruct (mp_busy s).
  - destruct (mp_remove s) as [m|] eqn:Em; [|done]. destruct (mp_busy s) eqn:Eb; [done|]. intros [= <- <-].
    split_and!; try done. by constructor.
  - by destruct (mp_busy s).
Qed.

Lemma reconcile_sent base can s now n confirmed s' c :
  inventory_step base can s (IReconcile now n confirmed) = (s', Some c) →
  iv_busy s = false ∧ confirmed = true ∧ ∃ x result issue instanceId,
    iv_snapshot s = Some x ∧ ns_result x = Some result ∧ ir_issues result !! n = Some issue ∧
    offers_reconcile can (stale_inventory now (ns_checkedAt x)) result issue = true ∧
    is_instanceId issue = Some instanceId ∧ c = reconcile_call base instanceId.
Proof.
  cbn [inventory_step]. destruct (iv_snapshot s) as [x|]; [|done]. simpl.
  destruct (ns_result x) as [result|] eqn:Er; [|done]. simpl. destruct (ir_issues result !! n) as [issue|] eqn:Ei; [|done]. simpl.
  destruct (_ || _) eqn:E; [done|]. boolify. intros [= _ <-]. split; [done|]. split; [done|].
  assert (truthy (is_instanceId issue) = true) as Ht by (unfold offers_reconcile in *; by boolify).
  apply truthy_Some in Ht as (id & Hid & _). exists x, result, issue, id. rewrite Hid. by split_and!.
Qed.

Ltac small_body := apply printable_obj; split; [apply (bool_decide_unpack _); vm_compute; exact I|by repeat constructor].
Section bodies.
Context (is_email : string → bool) (ip : string) (origin session csrf : option string).
Let read (c : Call) : json := hd_body (received ip origin session (api_request csrf c)).

(** What the handlers read in the bodies of the panels. *)
Lemma create_user_read email password : new_user_body is_email (read (create_user_call email password)) =
  if is_email email && (js_length email <=? 254) && ((12 <=? js_length password) && (js_length password <=? 1024))
  then Some (to_lower email, password) else None.
Proof.
  unfold read, create_user_call. rewrite received_body by small_body.
  unfold new_user_body, strict, z_email, z_text. cbn -[Z.leb js_length to_lower]. destruct (_ && (_ <=? 254)); [|done]. simpl.
  by destruct (_ && (_ <=? 1024)).
Qed.
Lemma toggle_read a : active_body (read (toggle_call a)) = Some (negb (ac_active a)).
Proof.
  unfold read, toggle_call. rewrite received_body by small_body.
  done.
Qed.
Lemma role_read base m text : text ∈ roles.*1 → ∃ role, role_str role = text ∧
  role_body (read (write_call (member_path base m) "PUT" (Some (JObj [("role", JStr text)])))) = Some role ∧
  ∀ email, member_body is_email (read (write_call (members_path base) "POST"
             (Some (JObj [("email", JStr email); ("role", JStr text)])))) =
    if is_email email && (js_length email <=? 254) then Some (to_lower email, role) else None.
Proof.
  intros Ht. assert (∃ role, role_str role = text ∧ z_role (JStr text) = Some role) as (role & Hr & Hz).
  { simpl in Ht. apply elem_of_cons in Ht as [->|Ht]; [by exists RAdmin|].
    apply elem_of_cons in Ht as [->|Ht]; [by exists RMaintainer|]. apply list_elem_of_singleton in Ht as ->. by exists RViewer. }
  exists role. split; [done|]. unfold read, write_call, fmap, option_fmap, option_map. split.
  - rewrite received_body by small_body. exact Hz.
  - intros email. rewrite received_body by small_body.
    unfold member_body, strict, z_email. cbn -[Z.leb js_length to_lower z_role]. destruct (_ && _); [|done]. simpl. by rewrite Hz.
Qed.
Lemma silence_read base alert : silence_schema (read (silence_call base alert)) =
  if test fingerprint_pattern (al_fingerprint alert) then Some (al_fingerprint alert, 60) else None.
Proof.
  unfold read, silence_call. rewrite received_body by small_body.
  unfold silence_schema, strict, z_fingerprint. cbn -[test fingerprint_pattern]. by destruct (test _ _).
Qed.
Lemma project_read name : project_body (read (create_project_call name)) =
  if (1 <=? js_length (trim name)) && (js_length (trim name) <=? 100) then Some (trim name) else None.
Proof.
  unfold read, create_project_call. rewrite received_body by small_body.
  unfold project_body, strict, z_trimmed. cbn -[Z.leb js_length trim]. done.
Qed.
End bodies.

(** C35. The panels of an administrator ask before they act, send one request at
    a time, and their requests are taken.  In any state [UsersPanel] can reach,
    with whatever rows and answers, a request about a listed account is never
    about the own account and an account is only disabled after it was asked
    about; [Members] removes only who was asked about; a reservation is corrected
    only for an issue of the shown comparison that offers it, after a
    confirmation.  In every state of the panel of accounts, of each password form
    in it and of the own one, of [Members], of the comparison, of the creation of
    a project and of the silencing, nothing is sent between a request and its
    answer.  The handlers read the bodies as they are meant: the state of an
    account is the opposite of the listed one, every listed role is a role, a
    silence lasts an hour, and an account, a member or a project is refused
    exactly for its email, its password or its name. *)
Theorem administration_exact (locale : Locale) (actor : Actor) (is_email : string → bool) (ip : string)
    (origin session csrf : option string) (base : string) :
  let read c := hd_body (received ip origin session (api_request csrf c)) in
  (∀ s e s' c, reaches (users_step locale actor) open_users s → users_step locale actor s e = (s', Some c) →
     users_may actor s e c) ∧
  (∀ s e s' c, members_step base s e = (s', Some c) → mp_busy s = false ∧ mp_busy s' = true ∧ members_may base s e c) ∧
  (∀ can s now n confirmed s' c, inventory_step base can s (IReconcile now n confirmed) = (s', Some c) →
     iv_busy s = false ∧ confirmed = true ∧ ∃ x result issue instanceId,
       iv_snapshot s = Some x ∧ ns_result x = Some result ∧ ir_issues result !! n = Some issue ∧
       offers_reconcile can (stale_inventory now (ns_checkedAt x)) result issue = true ∧
       is_instanceId issue = Some instanceId ∧ c = reconcile_call base instanceId) ∧
  one_request_at_a_time (accounts_step locale actor) accounts_answer ∧
  one_request_at_a_time (form_step_of locale actor) form_answer ∧
  (∀ target, one_request_at_a_time (password_step locale target) (λ e, match e with PSettled _ => true | _ => false end)) ∧
  one_request_at_a_time (members_step base) (λ e, match e with MSettled _ => true | _ => false end) ∧
  (∀ can, one_request_at_a_time (inventory_step base can) (λ e, match e with ISettled _ => true | _ => false end)) ∧
  one_request_at_a_time new_project_step (λ e, match e with NSettled _ => true | _ => false end) ∧
  (∀ can, one_request_at_a_time (silence_step locale base can) (λ e, match e with SilenceSettled _ => true | _ => false end)) ∧
  (∀ a, active_body (read (toggle_call a)) = Some (negb (ac_active a))) ∧
  (∀ email password, new_user_body is_email (read (create_user_call email password)) =
     if is_email email && (js_length email <=? 254) && ((12 <=? js_length password) && (js_length password <=? 1024))
     then Some (to_lower email, password) else None) ∧
  (∀ m text, text ∈ roles.*1 → ∃ role, role_str role = text ∧
     role_body (read (write_call (member_path base m) "PUT" (Some (JObj [("role", JStr text)])))) = Some role ∧
     ∀ email, member_body is_email (read (write_call (members_path base) "POST"
                (Some (JObj [("email", JStr email); ("role", JStr text)])))) =
       if is_email email && (js_length email <=? 254) then Some (to_lower email, role) else None) ∧
  (∀ alert, silence_schema (read (silence_call base alert)) =
     if test fingerprint_pattern (al_fingerprint alert) then Some (al_fingerprint alert, 60) else None) ∧
  (∀ name, project_body (read (create_project_call name)) =
     if (1 <=? js_length (trim name)) && (js_length (trim name) <=? 100) then Some (trim name) else None).
Proof.
  intros read. split_and!; intros;
    try by eapply held_serial; first [apply users_one|apply form_one|apply password_one|apply members_one
                                        |apply inventory_one|apply project_one|apply silence_one].
  - eapply users_sent; [by eapply users_others|done].
  - by apply members_sent.
  - by eapply reconcile_sent.
  - apply toggle_read.
  - apply create_user_read.
  - by apply role_read.
  - apply silence_read.
  - apply project_read.
Qed.

(** ** Witnesses *)
Definition own_account : Account := MkAccount "u" "u@example.com" true true.
Definition other_account : Account := MkAccount "v" "v@example.com" false true.
Definition signed_actor : Actor := MkActor "u" "u@example.com" true.
Definition listed_users : UsersPanel :=
  (users_step En signed_actor open_users (URows (RowsLoaded 1 [own_account; other_account]))).1.
Definition asked_users : UsersPanel := (users_step En signed_actor listed_users (UToggle 1)).1.
Lemma asked_users_reached : reaches (users_step En signed_actor) open_users asked_users.
Proof. eapply rtc_l; [by eexists (URows (RowsLoaded 1 [own_account; other_account]))|]. apply rtc_once. by exists (UToggle 1). Qed.

Lemma administration_exact_witness : ∃ s' c,
  users_step En signed_actor asked_users UConfirm = (s', Some c) ∧ users_may signed_actor asked_users UConfirm c ∧
  (users_step En signed_actor listed_users (UToggle 0)).2 = None ∧
  (accounts_step En signed_actor s' UConfirm).2 = None ∧
  active_body (hd_body (received "192.0.2.1" None None (api_request None (toggle_call other_account)))) = Some false.
Proof.
  destruct (administration_exact En signed_actor (λ _, true) "192.0.2.1" None None None "/projects/p")
    as (Hu & _ & _ & Hone & _ & _ & _ & _ & _ & _ & Ha & _).
  eexists _, (toggle_call other_account). split; [reflexivity|]. split; [|split; [reflexivity|split; [|apply (Ha other_account)]]].
  - eapply Hu; [exact asked_users_reached|reflexivity].
  - apply (Hone asked_users UConfirm []); [by eexists|apply Forall_nil_2].
Defined.

Lemma console_requests_documented_witness : ∃ r, r ∈ routes ∧ r_id r = "updateUser" ∧
  documented "token" r (api_request (Some "token"%string) (toggle_call other_account)).
Proof.
  assert (∀ s, s = "p" ∨ s = "i" ∨ s = "u" ∨ s = "v" → plain s) as Hplain.
  { intros s [->|[->|[->| ->]]]; (split; [done|]); simpl; (apply Forall_cons; split; [by split|apply Forall_nil_2]). }
  destruct (console_requests_documented En "p" "i" "token") as [Hsent _];
    [apply Hplain; tauto|apply Hplain; tauto|reflexivity|].
  destruct (Hsent (toggle_call other_account)) as (r & Hr & Hd & Hu).
  - apply (sends_users En _ _ _ signed_actor asked_users UConfirm
      (users_step En signed_actor asked_users UConfirm).1); [|reflexivity]. split.
    + apply Forall_cons; split; [apply Hplain; tauto|]. apply Forall_singleton, Hplain. tauto.
    + intros a [= <-]. apply Hplain. tauto.
    + intros a [=].
  - exists r. split; [exact Hr|]. split; [|exact Hd].
    destruct (js_find (λ r, String.eqb (r_id r) "updateUser") routes) as [r'|] eqn:E; [|vm_compute in E; discriminate E].
    pose proof (js_find_Some _ _ _ E) as [Hin Hid]. apply String.eqb_eq in Hid. rewrite <-Hid. f_equal. symmetry.
    apply Hu; [exact Hin|].
    enough (option_map (λ r, addressed r (api_request (Some "token"%string) (toggle_call other_account))) (Some r') = Some true)
      as [= ->] by reflexivity.
    rewrite <-E. vm_compute. reflexivity.
Defined.
