(* ===== verification/Governance.v ===== *)
(** * Governance: administrators and sessions

    Theorems on [Accounts] and [Projects]: whatever requests run, and however
    they interleave, a project that has an active administrator keeps one, the
    platform keeps one, and sessions belong to active accounts. *)
From Stdlib Require Import ZArith Lia Ascii Init.Byte.
From stdpp Require Import base tactics list option strings gmap sorting relations.
From S2P Require Import Prelude Regex Numbers Effects Catalog Json Contract Database Quotas Secrets Security.
From S2P Require Import Accounts Kubernetes Worker WorkerLease Routes Projects.

(** ** The three promises *)
Definition manned (db : DB) (projectId : string) : Prop := ∃ id u,
  db_members db !! (projectId, id) = Some RAdmin ∧ db_users db !! id = Some u ∧ us_active u = true.
Definition platform_manned (db : DB) : Prop := ∃ id u,
  db_users db !! id = Some u ∧ us_active u = true ∧ us_platform_admin u = true.
Definition sessions_active (db : DB) : Prop := ∀ h s,
  db_sessions db !! h = Some s → ∃ u, db_users db !! se_user_id s = Some u ∧ us_active u = true.

Record governed (db db' : DB) : Prop := {
  gov_project p : manned db p → manned db' p;
  gov_platform : platform_manned db → platform_manned db';
  gov_sessions : sessions_active db → sessions_active db' }.

#[export] Instance governed_preorder : PreOrder governed.
Proof. split; [by split|]. intros d1 d2 d3 [] []. split; auto. Qed.

(** Accounts that stay active, administrators that stay, no stray session. *)
Lemma governed_keep db db' :
  (∀ id u, db_users db !! id = Some u → us_active u = true → ∃ u', db_users db' !! id = Some u' ∧
     us_active u' = true ∧ us_platform_admin u' = us_platform_admin u) →
  (∀ k, db_members db !! k = Some RAdmin → db_members db' !! k = Some RAdmin) →
  (∀ h s, db_sessions db' !! h = Some s → db_sessions db !! h = Some s ∨
     ∃ u, db_users db' !! se_user_id s = Some u ∧ us_active u = true) →
  governed db db'.
Proof.
  intros Hu Hm Hs. split.
  - intros p (id & u & Hk & Hid & Ha). destruct (Hu id u Hid Ha) as (u' & ? & ? & _). exists id, u'. auto.
  - intros (id & u & Hid & Ha & Hp). destruct (Hu id u Hid Ha) as (u' & ? & ? & E). exists id, u'.
    by rewrite E.
  - intros H h s Hh. destruct (Hs h s Hh) as [Hh'|?]; [|done].
    destruct (H h s Hh') as (u & Hid & Ha). destruct (Hu _ u Hid Ha) as (u' & ? & ? & _). eauto.
Qed.

(** Steps that leave accounts, members and sessions alone. *)
Lemma governed_same db db' :
  db_users db' = db_users db → db_members db' = db_members db → db_sessions db' = db_sessions db →
  governed db db'.
Proof. intros Eu Em Es. apply governed_keep; intros *; rewrite ?Eu, ?Em, ?Es; eauto. Qed.

Lemma governed_audit db e : governed db (add_audit e db).
Proof. by apply governed_same. Qed.

Lemma governed_users f db :
  (∀ id u, db_users db !! id = Some u → us_active u = true → ∃ u', f (db_users db) !! id = Some u' ∧
     us_active u' = true ∧ us_platform_admin u' = us_platform_admin u) →
  governed db (db <| db_users ::= f |>).
Proof. intros Hf. apply governed_keep; [exact Hf|done|]. by left. Qed.

Lemma governed_update p f id db :
  (∀ u, us_active u = true → us_active (f u) = true ∧ us_platform_admin (f u) = us_platform_admin u) →
  governed db (db <| db_users ::= update_row p f id |>).
Proof.
  intros Hf. apply governed_users. intros j u Hu Ha. rewrite update_row_lookup, Hu. destruct (Hf u Ha).
  case_decide; [|by exists u]. simpl. destruct (p u); eexists; by split_and!.
Qed.

Lemma governed_sessions (f : gmap string Session → gmap string Session) db :
  (∀ h s, f (db_sessions db) !! h = Some s → db_sessions db !! h = Some s) →
  governed db (db <| db_sessions ::= f |>).
Proof. intros Hf. apply governed_keep; [eauto|done|]. simpl. intros h s Hs. left. by apply Hf. Qed.

Lemma governed_delete_session h db : governed db (db <| db_sessions ::= delete h |>).
Proof. apply governed_sessions. by intros j s [_ ?]%lookup_delete_Some. Qed.
Lemma governed_delete_sessions id db : governed db (delete_sessions id db).
Proof. apply governed_sessions. by intros j s [? _]%map_lookup_filter_Some. Qed.

Lemma governed_insert_session h s db u r db' :
  db_users db !! se_user_id s = Some u → us_active u = true →
  insert_session h s db = (r, db') → governed db db'.
Proof.
  intros Hu Ha. unfold insert_session. case_bool_decide; intros [= _ <-]; [done|].
  apply governed_keep; [eauto|done|]. simpl. intros j t. rewrite lookup_insert.
  case_decide; [intros [= <-]; right; eauto|by left].
Qed.

Lemma governed_insert_user id u db r db' : insert_user id u db = (r, db') → governed db db'.
Proof.
  unfold insert_user. case_bool_decide as Hn; [by intros [= _ <-]|].
  destruct (existsb _ _); intros [= _ <-]; [done|]. apply governed_users. intros j v Hv Ha.
  exists v. rewrite lookup_insert_ne; [done|]. intros ->. apply Hn. eauto.
Qed.

(** ** Disabling an account *)
Lemma project_admins_elem projectId db id :
  id ∈ project_admins projectId db ↔
  db_members db !! (projectId, id) = Some RAdmin ∧ ∃ u, db_users db !! id = Some u ∧ us_active u = true.
Proof.
  unfold project_admins. rewrite list_elem_of_fmap. split.
  - intros ([[p j] r] & -> & [Ha Hin%elem_of_map_to_list]%list_elem_of_filter). simpl in *.
    unfold active_admin in Ha. simpl in Ha. boolify. subst. split; [done|].
    destruct (db_users db !! j) as [u|]; [eauto|done].
  - intros [Hm (u & Hu & Ha)]. exists ((projectId, id), RAdmin). split; [done|].
    apply list_elem_of_filter. split; [|by apply elem_of_map_to_list].
    unfold active_admin. simpl. by rewrite String.eqb_refl, Hu, Ha.
Qed.

Lemma project_admins_NoDup projectId db : NoDup (project_admins projectId db).
Proof.
  unfold project_admins. apply NoDup_fmap_2_strong.
  - intros [[p1 j1] r1] [[p2 j2] r2] [H1 I1%elem_of_map_to_list]%list_elem_of_filter
      [H2 I2%elem_of_map_to_list]%list_elem_of_filter E. simpl in *. subst.
    unfold active_admin in *. simpl in *. boolify. by subst.
  - apply NoDup_filter, NoDup_map_to_list.
Qed.

Lemma orphans_false user db projectId :
  orphans user db = false → db_members db !! (projectId, user) = Some RAdmin →
  ∃ id, id ∈ project_admins projectId db ∧ id ≠ user.
Proof.
  intros Ho Hm. unfold orphans in Ho.
  destruct (existsb (λ a, negb (String.eqb a user)) (project_admins projectId db)) eqn:E.
  - apply existsb_exists in E as (a & Ha%list_elem_of_In & Hne%negb_true_iff%String.eqb_neq). eauto.
  - exfalso. apply not_true_iff_false in Ho. apply Ho, existsb_exists.
    exists ((projectId, user), RAdmin). split; [by apply list_elem_of_In, elem_of_map_to_list|].
    simpl. by rewrite String.eqb_refl, E.
Qed.

Definition disabled_db (user : string) (db : DB) : DB :=
  delete_sessions user db <| db_users ::= update_row always (λ u, u <| us_active := false |>) user |>.

Lemma governed_disable user target db :
  db_users db !! user = Some target → orphans user db = false →
  us_platform_admin target && negb (other_platform_admin user db) = false →
  governed db (disabled_db user db).
Proof.
  intros Ht Ho Hp.
  assert (∀ id, id ≠ user → db_users (disabled_db user db) !! id = db_users db !! id) as Hne.
  { intros id Hid. simpl. rewrite update_row_lookup. by rewrite decide_False. }
  split.
  - intros p (id & u & Hm & Hu & Ha). destruct (decide (id = user)) as [->|Hid].
    + destruct (orphans_false user db p Ho Hm) as (a & [Hma (v & Hv & Hav)]%project_admins_elem & Hna).
      exists a, v. rewrite Hne by done. by split_and!.
    + exists id, u. rewrite Hne by done. by split_and!.
  - intros (id & u & Hu & Ha & Hpa). destruct (decide (id = user)) as [->|Hid].
    + rewrite Ht in Hu. injection Hu as ->. rewrite Hpa in Hp. apply negb_false_iff in Hp.
      unfold other_platform_admin in Hp.
      apply existsb_exists in Hp as ([a v] & Hin%list_elem_of_In%elem_of_map_to_list & Hb). simpl in Hb.
      boolify. exists a, v. by rewrite Hne.
    + exists id, u. by rewrite Hne.
  - intros Hs h s Hh. simpl in Hh. apply map_lookup_filter_Some in Hh as [Hh Hn]. simpl in Hn. boolify.
    destruct (Hs h s Hh) as (u & Hu & Ha). exists u. by rewrite Hne.
Qed.

(** ** Changing members *)
Lemma governed_member projectId id role db :
  negb (oeq role (Some RAdmin)) && bool_decide (project_admins projectId db = [id]) = false →
  governed db (db <| db_members ::= match role with
                     | None => delete (projectId, id)
                     | Some r => <[(projectId, id) := r]>
                     end |>).
Proof.
  intros Hg. split; [|done..].
  intros p (j & u & Hm & Hu & Ha).
  assert ((p, j) ≠ (projectId, id) → manned (db <| db_members ::= match role with
            | None => delete (projectId, id) | Some r => <[(projectId, id) := r]> end |>) p) as Hother.
  { intros Hne. exists j, u. split_and!; [|done..]. simpl.
    destruct role as [r|]; [by rewrite lookup_insert_ne|by rewrite lookup_delete_ne]. }
  destruct (decide ((p, j) = (projectId, id))) as [[= -> ->]|]; [|auto].
  destruct (decide (role = Some RAdmin)) as [->|Hr].
  { exists id, u. split_and!; [|done..]. simpl. by rewrite lookup_insert_eq. }
  unfold oeq in Hg. rewrite bool_decide_false in Hg by done. simpl in Hg. boolify.
  assert (id ∈ project_admins projectId db) as Hin by (apply project_admins_elem; eauto).
  destruct (list_elem_of_split _ _ Hin) as (l1 & l2 & El).
  pose proof (project_admins_NoDup projectId db) as Hnd. rewrite El in Hnd, Hg.
  assert (∃ a, a ∈ l1 ++ l2) as (a & Hal).
  { destruct l1 as [|a l1]; [destruct l2 as [|a l2]|]; [done|exists a; set_solver..]. }
  assert (a ∈ project_admins projectId db) as [Hma (v & Hv & Hav)]%project_admins_elem by (rewrite El; set_solver).
  assert (a ≠ id) as Hne.
  { intros ->. apply NoDup_app in Hnd as (_ & Hd & Hnd2). apply NoDup_cons in Hnd2 as [Hn _].
    apply elem_of_app in Hal as [Hal|Hal]; [|done]. apply (Hd id Hal). set_solver. }
  exists a, v. split_and!; [|done..]. simpl.
  destruct role as [r|]; [rewrite lookup_insert_ne|rewrite lookup_delete_ne]; congruence.
Qed.

Lemma governed_insert_member projectId id db r db' :
  insert_member projectId id RAdmin db = (r, db') → governed db db'.
Proof.
  unfold insert_member. case_bool_decide as Hn; intros [= _ <-]; [done|].
  apply governed_keep; [eauto| |by left]. simpl. intros k Hk. rewrite lookup_insert.
  by case_decide.
Qed.

(** A step of the accounts: the operations are left alone. *)
Definition account_step (db db' : DB) : Prop :=
  db_operations db' = db_operations db ∧ governed db db'.
#[export] Instance account_step_preorder : PreOrder account_step.
Proof.
  split; [by split|]. intros d1 d2 d3 [E1 G1] [E2 G2]. split; [congruence|by etransitivity].
Qed.

Lemma account_same db db' :
  db_operations db' = db_operations db → db_users db' = db_users db → db_members db' = db_members db →
  db_sessions db' = db_sessions db → account_step db db'.
Proof. intros. split; [done|by apply governed_same]. Qed.

(** ** The handlers

    Each moves the database along every relation that has the steps of the
    accounts and admits new operations. *)
Section handlers.
Context {K : Type} `{KubernetesPort K} `{Digests}.
Context (is_uuid is_email : string → bool).
Context (R : relation DB) `{!PreOrder R}.
Context (HR : ∀ db db', account_step db db' → R db db').
Context (Hinsert : ∀ op db, active_state (op_state op) = true → R db (insert_operation op db).2).

Lemma quotaSnapshot_within projectId : within (world_rel (K:=K) R) (quotaSnapshot projectId).
Proof using PreOrder0. unfold quotaSnapshot. world_solve. Qed.
Lemma ids_accounts_within l : within (world_rel (K:=K) R) (ids is_uuid l).
Proof using PreOrder0. unfold ids. world_solve. Qed.
Hint Resolve quotaSnapshot_within ids_accounts_within : within.

Lemma step_other db db' :
  db_operations db' = db_operations db → db_users db' = db_users db → db_members db' = db_members db →
  db_sessions db' = db_sessions db → R db db'.
Proof using HR. intros. by apply HR, account_same. Qed.
Lemma step_governed db db' : db_operations db' = db_operations db → governed db db' → R db db'.
Proof using HR. intros. by apply HR. Qed.

Lemma step_insert_project id p db : R db (insert_project id p db).2.
Proof using HR PreOrder0. unfold insert_project. case_bool_decide; [done|]. by destruct (existsb _ _); apply step_other. Qed.
Lemma step_insert_user id u db : R db (insert_user id u db).2.
Proof using HR.
  destruct (insert_user id u db) as [r db'] eqn:E. apply step_governed; [|by eapply governed_insert_user].
  unfold insert_user in E. repeat case_match; by simplify_eq/=.
Qed.
Lemma step_insert_member projectId id db : R db (insert_member projectId id RAdmin db).2.
Proof using HR.
  destruct (insert_member _ _ _ db) as [r db'] eqn:E. apply step_governed; [|by eapply governed_insert_member].
  unfold insert_member in E. repeat case_match; by simplify_eq/=.
Qed.

Ltac step_solve :=
  world_solve;
  try first [ by apply step_other | apply step_insert_project | apply step_insert_user
            | apply step_insert_member | by apply Hinsert
            | apply step_governed; [reflexivity|apply governed_delete_sessions]
            | apply step_governed; [reflexivity|apply governed_delete_session]
            | apply step_governed; [reflexivity|by apply governed_update] ].

Lemma logout_within request : within (world_rel (K:=K) R) (logout request).
Proof using HR PreOrder0. unfold logout. step_solve. Qed.
Lemma updatePassword_within salt request targetId password current :
  within (world_rel (K:=K) R) (updatePassword salt request targetId password current).
Proof using HR PreOrder0. unfold updatePassword, audit_account. step_solve. Qed.
Hint Resolve updatePassword_within : within.
Lemma change_password_within salt request : within (world_rel (K:=K) R) (change_password salt request).
Proof using HR PreOrder0. unfold change_password. step_solve. Qed.
Lemma reset_password_within salt request id :
  within (world_rel (K:=K) R) (reset_password is_uuid salt request id).
Proof using HR PreOrder0. unfold reset_password. step_solve. Qed.
Lemma create_user_within id salt request :
  within (world_rel (K:=K) R) (create_user is_email id salt request).
Proof using HR PreOrder0. unfold create_user, audit_account. step_solve. Qed.
Lemma bootstrap_within id salt email password :
  within (world_rel (K:=K) R) (bootstrap is_email id salt email password).
Proof using HR PreOrder0. unfold bootstrap. step_solve. Qed.
Lemma create_project_within id oid request :
  within (world_rel (K:=K) R) (create_project id oid request).
Proof using HR Hinsert PreOrder0. unfold create_project, audit_project. step_solve. Qed.
Lemma refresh_within request projectId : within (world_rel (K:=K) R) (refresh_inventory is_uuid request projectId).
Proof using HR PreOrder0. unfold refresh_inventory. step_solve. Qed.
Lemma put_quota_within request projectId : within (world_rel (K:=K) R) (put_quota is_uuid request projectId).
Proof using HR PreOrder0. unfold put_quota, audit_project. step_solve. Qed.
Lemma retry_project_within id request projectId :
  within (world_rel (K:=K) R) (retry_project is_uuid id request projectId).
Proof using HR Hinsert PreOrder0. unfold retry_project, audit_project. step_solve. Qed.

(** *** The transactions with a guard

    [commit_step commit]: as [world_step], a transaction by its lemma [commit]. *)
Ltac commit_step commit :=
  match goal with
  | |- within (world_rel _) (pool _) => apply world_pool; [typeclasses eauto|]
  | |- within (world_rel _) (transaction _) =>
      apply world_committed;
      [ typeclasses eauto | unfold audit_account, audit_project; within_solve
      | intros ? ? ? ?; apply HR; eapply commit; eassumption ]
  | _ => within_step
  end.

Lemma when_bind {A} (b : bool) (m : M (World K) ()) (k : () → M (World K) A) w a w' :
  (when b m ≫= k) w = (Ok a, w') → if b then (m ≫= k) w = (Ok a, w') else k tt w = (Ok a, w').
Proof. by destruct b. Qed.

Lemma patch_commit (actor userId : string) (active : bool) (w : World K) u w' :
  (target ← query (λ _ db, db_users db !! userId);
   target ← lift (of_option (HttpError 404 "User not found") target);
   when (negb active)
     (orphaned ← query (λ _, orphans userId);
      throw_if orphaned (HttpError 409 "Transfer project administration before disabling this account") ;;
      admins ← query (λ _, other_platform_admin userId);
      throw_if (us_platform_admin target && negb admins) (HttpError 409 "Platform must retain an administrator") ;;
      execute_sql (λ _, delete_sessions userId)) ;;
   execute_sql (λ _ db, db <| db_users ::= update_row always (λ u, u <| us_active := active |>) userId |>) ;;
   audit_account actor "user.update" [("userId", JStr userId); ("active", JBool active)]) w = (Ok u, w') →
  account_step (w_db w) (w_db w').
Proof using Type.
  intros (o & w1 & [-> ->]%query_Ok_inv & E)%bind_Ok_inv.
  apply bind_Ok_inv in E as (target & w1 & [Ht%of_option_Ok ->]%lift_inv & E).
  apply when_bind in E. destruct active; simpl in E.
  - apply bind_Ok_inv in E as (u1 & w1 & ->%execute_sql_Ok_inv & ->%execute_sql_Ok_inv).
    split; [done|]. etransitivity; [|apply governed_audit]. by apply governed_update.
  - apply bind_Ok_inv in E as (u1 & w1 & E1 & E).
    apply bind_Ok_inv in E1 as (orphaned & w2 & [-> ->]%query_Ok_inv & E1).
    apply throw_if_bind in E1 as [Ho E1].
    apply bind_Ok_inv in E1 as (admins & w2 & [-> ->]%query_Ok_inv & E1).
    apply throw_if_bind in E1 as [Hp ->%execute_sql_Ok_inv].
    apply bind_Ok_inv in E as (u2 & w1 & ->%execute_sql_Ok_inv & ->%execute_sql_Ok_inv).
    split; [done|]. etransitivity; [|apply governed_audit]. by apply (governed_disable userId target).
Qed.

Lemma patch_user_within request userId : within (world_rel (K:=K) R) (patch_user is_uuid request userId).
Proof using HR PreOrder0.
  unfold patch_user. repeat commit_step patch_commit.
Qed.

Lemma member_commit (actor : Actor) (projectId : string) target role (w : World K) u w' :
  (fresh ← query (λ _, permitted actor projectId [RAdmin]);
   throw_if (negb fresh) (HttpError 403 "Permission denied") ;;
   member ← query (λ _, find_target target);
   throw_if (match member with
             | Some (_, u) => negb (oeq role None) && negb (us_active u)
             | None => true
             end) (HttpError 404 "Active user not found") ;;
   let id := match member with Some (id, _) => id | None => ""%string end in
   admins ← query (λ _, project_admins projectId);
   throw_if (negb (oeq role (Some RAdmin)) && bool_decide (admins = [id]))
     (HttpError 409 "Project must retain an administrator") ;;
   execute_sql (λ _ db, db <| db_members ::= match role with
     | None => delete (projectId, id)
     | Some r => <[(projectId, id) := r]>
     end |>) ;;
   audit_project (at_id actor) projectId None
     (if oeq role None then "member.remove" else "member.update")%string
     [("userId"%string, JStr id); ("role"%string, json_nullable (λ r, JStr (role_str r)) role)]) w = (Ok u, w') →
  account_step (w_db w) (w_db w').
Proof using Type.
  intros (f & w1 & [-> ->]%query_Ok_inv & E)%bind_Ok_inv. apply throw_if_bind in E as [_ E].
  apply bind_Ok_inv in E as (member & w1 & [-> ->]%query_Ok_inv & E).
  apply throw_if_bind in E as [_ E]. cbv zeta in E.
  apply bind_Ok_inv in E as (admins & w1 & [-> ->]%query_Ok_inv & E).
  apply throw_if_bind in E as [Hg E].
  apply bind_Ok_inv in E as (u1 & w1 & ->%execute_sql_Ok_inv & ->%execute_sql_Ok_inv).
  split; [done|]. etransitivity; [|apply governed_audit]. by apply governed_member.
Qed.

Lemma changeMember_within request projectId target role :
  within (world_rel (K:=K) R) (changeMember request projectId target role).
Proof using HR PreOrder0.
  unfold changeMember. repeat commit_step member_commit.
Qed.
Hint Resolve changeMember_within : within.

Lemma add_member_within request projectId :
  within (world_rel (K:=K) R) (add_member is_uuid is_email request projectId).
Proof using HR PreOrder0. unfold add_member. step_solve. Qed.
Lemma set_member_within request projectId userId :
  within (world_rel (K:=K) R) (set_member is_uuid request projectId userId).
Proof using HR PreOrder0. unfold set_member. step_solve. Qed.
Lemma remove_member_within request projectId userId :
  within (world_rel (K:=K) R) (remove_member is_uuid request projectId userId).
Proof using HR PreOrder0. unfold remove_member. step_solve. Qed.

Lemma login_commit (id email_hash sessionHash csrfHash : string) (request : Request) (w : World K) u w' :
  (fresh ← query (λ _ db, db_users db !! id);
   throw_if (match fresh with
             | Some f => negb (us_active f) || negb (String.eqb (us_password_hash f) email_hash)
             | None => true
             end) (HttpError 401 "Credentials changed; sign in again") ;;
   when (truthy (hd_session request))
     (execute_sql (λ _ db, db <| db_sessions ::=
        delete (digest_of (nullish (hd_session request) "")) |>)) ;;
   execute_res (λ now, insert_session sessionHash (MkSession id csrfHash (now + seconds 86400))) ;;
   audit_account id "auth.login" []) w = (Ok u, w') →
  account_step (w_db w) (w_db w').
Proof using Type.
  intros (f & w1 & [-> ->]%query_Ok_inv & E)%bind_Ok_inv. apply throw_if_bind in E as [Hf E].
  destruct (db_users (w_db w) !! id) as [f|] eqn:Hid; [|done]. boolify. apply when_bind in E.
  set (w2 := if truthy (hd_session request) then w <| w_db ::= λ db, db <| db_sessions ::=
        delete (digest_of (nullish (hd_session request) "")) |> |> else w).
  assert (db_users (w_db w2) = db_users (w_db w) ∧ account_step (w_db w) (w_db w2) ∧
    (execute_res (λ now, insert_session sessionHash (MkSession id csrfHash (now + seconds 86400))) ;;
     audit_account id "auth.login" []) w2 = (Ok u, w')) as (Hu & Hg & E2).
  { subst w2. destruct (truthy _); [|done]. split; [done|]. split; [|exact E].
    split; [done|apply governed_delete_session]. }
  apply bind_Ok_inv in E2 as (r & w3 & (db3 & E3 & ->)%execute_res_Ok_inv & ->%execute_sql_Ok_inv).
  etransitivity; [exact Hg|]. simpl. split.
  - unfold insert_session in E3. case_bool_decide; [done|]. by injection E3 as _ <-.
  - etransitivity; [|apply governed_audit].
    apply (governed_insert_session _ _ _ f) in E3; [exact E3|simpl; by rewrite Hu|done].
Qed.

(** Logging in, as a process on the world: the throttle is its own memory. *)
Definition with_attempts {A} (attempts : gmap string Attempt) (m : M (gmap string Attempt * World K) A) :
    M (World K) A := λ w, let '(r, s) := m (attempts, w) in (r, s.2).

Lemma authenticate_within dummyHash sessionToken csrf email password request :
  within (world_rel (K:=K) R) (authenticate dummyHash sessionToken csrf email password request).
Proof using HR PreOrder0.
  unfold authenticate. cbv zeta. repeat commit_step login_commit.
Qed.

Lemma login_within attempts dummyHash sessionToken csrf request :
  within (world_rel (K:=K) R) (with_attempts attempts (login is_email dummyHash sessionToken csrf request)).
Proof using HR PreOrder0.
  intros w. unfold with_attempts, login, mbind, M_bind, lift, zoom, date_now, gets. simpl.
  destruct (of_option ZodError _) as [[email password]|e]; [|done]. simpl.
  destruct (throttle _ _ _) as [[u|e] attempts']; [|done]. simpl.
  pose proof (authenticate_within dummyHash sessionToken csrf email password request w) as Hb.
  by destruct (authenticate _ _ _ _ _ _ w) as [r w'].
Qed.
End handlers.
