(* ===== verification/System.v ===== *)
(** * The system as a whole

    Every process of the control plane - the worker's cycle, the quota
    synchronisation, the inventory scan and each handler of the API - as one family [process], and
    the laws all of them keep under every interleaving: what one process
    relies on is what the others guarantee. *)
From Stdlib Require Import ZArith Lia Ascii Init.Byte.
From stdpp Require Import base tactics list option strings gmap sorting relations.
From S2P Require Import Prelude Regex Numbers Effects Catalog Json Contract Database Quotas Secrets Security.
From S2P Require Import Accounts Kubernetes Worker WorkerLease WorkerSafety QuotaSync Inventory InventoryFacts Routes RoutesFacts.
From S2P Require Import Projects Reservation Governance.

(** ** The operations table *)

(** At most one operation of an instance is active. *)
Definition one_active (db : DB) : Prop := ∀ id1 op1 id2 op2,
  db_operations db !! id1 = Some op1 → db_operations db !! id2 = Some op2 →
  both_active op1 op2 = true → id1 = id2.

Record sane (db : DB) : Prop := {
  sane_orderly : orderly db; sane_keys : unique_keys db; sane_active : one_active db }.

(** What an operation was accepted as. *)
Definition same_intent (a b : Operation) : Prop :=
  op_id a = op_id b ∧ op_project_id a = op_project_id b ∧ op_instance_id a = op_instance_id b ∧
  op_kind a = op_kind b ∧ op_idempotency_key a = op_idempotency_key b ∧
  op_request_hash a = op_request_hash b ∧ op_created_at a = op_created_at b.
Definition settled (op : Operation) : Prop := op_state op = Succeeded ∨ op_state op = Superseded.

(** No operation is lost or becomes another request; what succeeded or was
    superseded stays as it is. *)
Definition kept (db db' : DB) : Prop := ∀ id op, db_operations db !! id = Some op →
  ∃ op', db_operations db' !! id = Some op' ∧ same_intent op op' ∧ (settled op → op' = op).

Definition lawful (db db' : DB) : Prop := sane db → sane db' ∧ kept db db'.

Lemma same_intent_trans a b c : same_intent a b → same_intent b c → same_intent a c.
Proof. intros (?&?&?&?&?&?&?) (?&?&?&?&?&?&?). split_and!; congruence. Qed.

#[export] Instance lawful_preorder : PreOrder lawful.
Proof.
  split.
  - intros db Hs. split; [done|]. intros id op Hop. exists op. by split_and!.
  - intros d1 d2 d3 H12 H23 H1. destruct (H12 H1) as [H2 K12]. destruct (H23 H2) as [H3 K23].
    split; [done|]. intros id op Hop. destruct (K12 id op Hop) as (op2 & Hop2 & S2 & D2).
    destruct (K23 id op2 Hop2) as (op3 & Hop3 & S3 & D3). exists op3.
    split_and!; [done|by eapply same_intent_trans|]. intros Hd. specialize (D2 Hd). subst. auto.
Qed.

Lemma lawful_same db db' : db_operations db' = db_operations db → lawful db db'.
Proof.
  intros E [[Hk Hc] Hu Ha]. split.
  - split; [split|..]; unfold keys_ok, unique_keys, one_active; rewrite E; done.
  - intros id op Hop. exists op. rewrite E. by split_and!.
Qed.

Lemma not_terminal op : terminal (op_state op) = false → active_state (op_state op) = true.
Proof. by destruct (op_state op). Qed.
Lemma terminal_active op : active_state (op_state op) = true → terminal (op_state op) = false.
Proof. by destruct (op_state op). Qed.

(** An active row of the instance is in the way of [op]. *)
Definition unobstructed (id : string) (op : Operation) (db : DB) : Prop := ∀ j o,
  db_operations db !! j = Some o → j ≠ id → both_active op o = false.

Lemma both_active_spec a b :
  both_active a b = true ↔ active_state (op_state a) = true ∧ active_state (op_state b) = true ∧
    ∃ i, op_instance_id a = Some i ∧ op_instance_id b = Some i.
Proof.
  unfold both_active, oeq. rewrite !andb_true_iff.
  destruct (op_instance_id a) as [i|]; [rewrite bool_decide_eq_true|]; naive_solver.
Qed.

Lemma both_active_sym a b : both_active a b = true → both_active b a = true.
Proof. rewrite !both_active_spec. naive_solver. Qed.

Lemma both_active_intent a a' b :
  same_intent a a' → (active_state (op_state a') = true → active_state (op_state a) = true) →
  both_active a' b = true → both_active a b = true.
Proof. intros (_ & _ & Hi & _) Hs. rewrite !both_active_spec, Hi. naive_solver. Qed.

Lemma same_key_spec a b :
  same_key a b = true ↔ op_project_id a = op_project_id b ∧ op_kind a = op_kind b ∧
    op_idempotency_key a = op_idempotency_key b.
Proof. unfold same_key. rewrite !andb_true_iff, !String.eqb_eq, bool_decide_eq_true. naive_solver. Qed.
Lemma same_key_sym a b : same_key a b = true → same_key b a = true.
Proof. rewrite !same_key_spec. naive_solver. Qed.

(** Rewriting one row. *)
Lemma lawful_put id op op' db :
  db_operations db !! id = Some op → same_intent op op' → ¬ settled op →
  (terminal (op_state op') = true → cleared op') →
  (active_state (op_state op) = true ∨ terminal (op_state op') = true ∨ unobstructed id op' db) →
  lawful db (db <| db_operations ::= <[id := op']> |>).
Proof.
  intros Hop Hi Hns Hc Hact [[Hk Hcl] Hu Ha]. split; [split; [split|..]|].
  - intros j o. simpl. rewrite lookup_insert. case_decide; [intros [= <-]; subst j|apply Hk].
    rewrite <- (Hk _ _ Hop). symmetry. apply Hi.
  - intros j o. simpl. rewrite lookup_insert. case_decide; [by intros [= <-]|apply Hcl].
  - assert (∀ j o, j ≠ id → db_operations db !! j = Some o → same_key op' o = true → False) as Hno.
    { intros j o Hj Ho Hs. destruct Hi as (_ & Hp & _ & Hkd & Hky & _).
      apply same_key_spec in Hs. rewrite <- Hp, <- Hkd, <- Hky in Hs. apply same_key_spec in Hs.
      pose proof (Hu _ _ _ _ Hop Ho Hs) as E. subst o. apply Hj.
      by rewrite <- (Hk _ _ Hop), <- (Hk _ _ Ho). }
    intros j1 o1 j2 o2. simpl. rewrite !lookup_insert. repeat case_decide; subst.
    + congruence.
    + intros [= <-] Ho Hs. exfalso. eauto.
    + intros Ho [= <-] Hs%same_key_sym. exfalso. eauto.
    + apply Hu.
  - assert (∀ j o, j ≠ id → db_operations db !! j = Some o → both_active op' o = true → False) as Hno.
    { intros j o Hj Ho Hb. destruct Hact as [Hold|[Ht|Hf]].
      - apply Hj. symmetry. apply (Ha _ _ _ _ Hop Ho). by eapply both_active_intent.
      - apply both_active_spec in Hb as (Hb%terminal_active & _). congruence.
      - by rewrite (Hf j o Ho Hj) in Hb. }
    intros j1 o1 j2 o2. simpl. rewrite !lookup_insert. repeat case_decide; subst.
    + done.
    + intros [= <-] Ho Hb. exfalso. eauto.
    + intros Ho [= <-] Hb%both_active_sym. exfalso. eauto.
    + apply Ha.
  - intros j o Ho. simpl. rewrite lookup_insert. case_decide; [subst j|exists o; by split_and!].
    exists op'. split_and!; [done| |]; assert (o = op) as -> by congruence; done.
Qed.

(** An update of the worker: its guard excludes finished rows. *)
Lemma lawful_update p f id db :
  (∀ op, p op = true → cleared op → False) →
  (∀ op, p op = true → terminal (op_state op) = false →
     same_intent op (f op) ∧ (terminal (op_state (f op)) = true → cleared (f op))) →
  lawful db (db <| db_operations ::= update_row p f id |>).
Proof.
  intros Hp Hf Hs. unfold update_row.
  destruct (db_operations db !! id) as [op|] eqn:Hop; [destruct (p op) eqn:Ep|].
  - assert (terminal (op_state op) = false) as Hn.
    { destruct (terminal (op_state op)) eqn:Ht; [|done]. exfalso. apply (Hp op Ep).
      by apply (proj2 (sane_orderly db Hs) id). }
    destruct (Hf op Ep Hn) as [Hi Hc].
    pose proof (lawful_put id op (f op) db Hop Hi) as Hl.
    replace (db <| db_operations ::= _ |>) with (db <| db_operations ::= <[id := f op]> |>);
      [|by destruct db; simpl in *; rewrite Hop, Ep].
    apply Hl; [|done|by left; apply not_terminal|done]. intros [E|E]; by rewrite E in Hn.
  - apply (lawful_same db); [|done]. simpl. by rewrite Hop, Ep.
  - apply (lawful_same db); [|done]. simpl. by rewrite Hop.
Qed.

Lemma lawful_insert op db : active_state (op_state op) = true → lawful db (insert_operation op db).2.
Proof.
  intros Hact. destruct (insert_operation op db) as [[u|e] db'] eqn:E.
  2: { unfold insert_operation in E. cbv zeta in E. apply lawful_same.
       repeat case_match; simplify_eq/=; done. }
  apply insert_operation_Ok in E as (Hn & -> & Ho). intros [[Hk Hcl] Hu Ha]. simpl.
  assert (∀ j o, db_operations db !! j = Some o → j ≠ op_id op) as Hne by (intros j o Hj ->; congruence).
  split; [split; [split|..]|].
  - intros j o. simpl. rewrite lookup_insert. case_decide; [by intros [= <-]|apply Hk].
  - intros j o. simpl. rewrite lookup_insert. case_decide; [intros [= <-] Ht|apply Hcl].
    apply terminal_active in Hact. congruence.
  - intros j1 o1 j2 o2. simpl. rewrite !lookup_insert. repeat case_decide; subst.
    + congruence.
    + intros [= <-] H2 Hs. by rewrite (proj1 (Ho _ _ H2)) in Hs.
    + intros H1 [= <-] Hs%same_key_sym. by rewrite (proj1 (Ho _ _ H1)) in Hs.
    + apply Hu.
  - intros j1 o1 j2 o2. simpl. rewrite !lookup_insert. repeat case_decide; subst.
    + done.
    + intros [= <-] H2 Hs. by rewrite (proj2 (Ho _ _ H2)) in Hs.
    + intros H1 [= <-] Hs%both_active_sym. by rewrite (proj2 (Ho _ _ H1)) in Hs.
    + apply Ha.
  - intros j o Hj. exists o. simpl. rewrite lookup_insert_ne; [by split_and!|].
    intros <-. by apply (Hne _ _ Hj).
Qed.

(** *** What the processes do to it *)
Lemma lawful_allows {K} `{KubernetesPort K} operation : allows lawful operation.
Proof.
  split; intros; try by apply lawful_same.
  all: apply lawful_update; try apply owned_cleared; try apply held_cleared.
  all: intros op _ Hn; split; [by split_and!|]; simpl; intros Ht; try done; congruence.
Qed.

Lemma lawful_claim claim now old db :
  old ∈ rows (db_operations db) → eligible now old = true →
  lawful db (db <| db_operations ::= update_row always (claim_row claim now) (op_id old) |>).
Proof.
  intros [id Hid]%rows_elem He Hs. pose proof (proj1 (sane_orderly db Hs) _ _ Hid) as Hk. subst id.
  replace (db <| db_operations ::= _ |>) with (db <| db_operations ::= <[op_id old := claim_row claim now old]> |>);
    [|by unfold update_row; destruct db; simpl in *; rewrite Hid].
  assert (active_state (op_state old) = true) as Ha by (unfold eligible in He; by destruct (op_state old)).
  pose proof (claim_row_active claim now old He) as Hn.
  apply (lawful_put (op_id old) old); [done|by split_and!| | |by left|done].
  - intros [E|E]; by rewrite E in Ha.
  - intros Ht. exfalso. apply elem_of_cons in Hn as [Hn|[Hn|[]%not_elem_of_nil]%elem_of_cons];
      by rewrite Hn in Ht.
Qed.

Lemma lawful_resume id now op db :
  db_operations db !! id = Some op → op_state op = Failed → lawful db (resume_operation id now db).2.
Proof.
  intros Hop Hf Hs. unfold resume_operation. rewrite Hop. destruct (existsb _ _) eqn:E; [by apply lawful_same|].
  simpl. apply (lawful_put id op); [done|by split_and!|by intros [E'|E']; rewrite E' in Hf|done| |done].
  right. right. intros j o Ho Hj. apply not_true_iff_false. intros Hb. apply not_true_iff_false in E.
  apply E, existsb_exists. exists o. split; [apply list_elem_of_In, rows_elem; eauto|].
  rewrite Hb, andb_true_r. apply negb_true_iff, String.eqb_neq. intros Eq. apply Hj.
  by rewrite <- Eq, (proj1 (sane_orderly db Hs) _ _ Ho).
Qed.

(** ** Laws and processes *)

(** A law of the system: a relation every single write keeps to. *)
Record law (R : relation DB) : Prop := {
  law_preorder : PreOrder R;
  law_accounts db db' : account_step db db' → R db db';
  law_insert op db : active_state (op_state op) = true → R db (insert_operation op db).2;
  law_claim claim now old db : old ∈ rows (db_operations db) → eligible now old = true →
    R db (db <| db_operations ::= update_row always (claim_row claim now) (op_id old) |>);
  law_resume id now op db : db_operations db !! id = Some op → op_state op = Failed →
    R db (resume_operation id now db).2;
  law_worker {K} `{KubernetesPort K} operation : allows R operation }.

Lemma lawful_law : law lawful.
Proof.
  split; [typeclasses eauto| |apply lawful_insert|apply lawful_claim|apply lawful_resume|intros; apply lawful_allows].
  intros db db' [E _]. by apply lawful_same.
Qed.

Lemma governed_resume id now db : governed db (resume_operation id now db).2.
Proof. unfold resume_operation. repeat case_match; by apply governed_same. Qed.
Lemma governed_insert_operation op db : governed db (insert_operation op db).2.
Proof. unfold insert_operation. cbv zeta. repeat case_match; by apply governed_same. Qed.

Lemma governed_law : law governed.
Proof.
  split; [typeclasses eauto|by intros db db' []|intros; apply governed_insert_operation
    |intros; by apply governed_same|intros; apply governed_resume|].
  intros K ? operation. split; intros; by apply governed_same.
Qed.

(** What a deployment is configured with, and the functions of the libraries
    and of the database it calls. *)
Record Deployment := MkDeployment {
  options : InstanceOptions; key : list byte; telemetry : bool; inspects : bool;
  is_uuid : string → bool; is_email : string → bool; bcrypt : string → string;
  timestamp_text : Z → string; spec_json : Spec → json }.

Section system.
Context {K : Type} `{KubernetesPort K} `{QuotaPort K} `{InventoryPort K} `{Aead} `{Digests}.
Context (d : Deployment).

(** The processes of a deployment, with every argument they may run with. *)
Inductive process : ∀ {A}, M (World K) A → Prop :=
| run_tick claim : process (tick (key d) (Some ensure) (telemetry d) claim)
| run_sync : process sync_tick
| run_inventory worker : process (inventory_tick (timestamp_text d) (spec_json d) worker)
| run_reconcile request projectId id :
    process (reconcile (is_uuid d) (timestamp_text d) (spec_json d) (inspects d) request projectId id)
| run_bootstrap id salt email password : process (bootstrap (is_email d) id salt email password)
| run_login attempts dummyHash sessionToken csrf request :
    process (with_attempts attempts (login (is_email d) dummyHash sessionToken csrf request))
| run_logout request : process (logout request)
| run_change_password salt request : process (change_password salt request)
| run_reset_password salt request id : process (reset_password (is_uuid d) salt request id)
| run_create_user id salt request : process (create_user (is_email d) id salt request)
| run_patch_user request id : process (patch_user (is_uuid d) request id)
| run_create_project id oid request : process (create_project id oid request)
| run_refresh request projectId : process (refresh_inventory (is_uuid d) request projectId)
| run_put_quota request projectId : process (put_quota (is_uuid d) request projectId)
| run_retry_project id request projectId : process (retry_project (is_uuid d) id request projectId)
| run_add_member request projectId : process (add_member (is_uuid d) (is_email d) request projectId)
| run_set_member request projectId userId : process (set_member (is_uuid d) request projectId userId)
| run_remove_member request projectId userId : process (remove_member (is_uuid d) request projectId userId)
| run_create fresh request projectId :
    process (create_instance (options d) (is_uuid d) (bcrypt d) projectAccess fresh request projectId)
| run_update fresh request projectId id :
    process (update_instance (options d) (is_uuid d) projectAccess fresh request projectId id)
| run_rotate fresh request projectId id :
    process (rotate_credentials (options d) (is_uuid d) (bcrypt d) projectAccess fresh request projectId id)
| run_delete fresh request projectId id :
    process (delete_instance (is_uuid d) projectAccess fresh request projectId id)
| run_reclaim fresh request projectId id :
    process (reclaim_retained_volume (options d) (is_uuid d) (bcrypt d) projectAccess fresh request projectId id)
| run_delete_volume fresh request projectId id :
    process (delete_retained_volume (options d) (is_uuid d) projectAccess fresh request projectId id)
| run_retry request projectId id : process (retry_operation (is_uuid d) projectAccess request projectId id).

Context (R : relation DB) (HR : law R).
#[local] Instance R_preorder : PreOrder R := law_preorder R HR.

Lemma law_other db db' :
  db_operations db' = db_operations db → db_users db' = db_users db → db_members db' = db_members db →
  db_sessions db' = db_sessions db → R db db'.
Proof using HR. intros. by apply (law_accounts R HR), account_same. Qed.
Lemma law_insert_binding id b db : R db (insert_binding id b db).2.
Proof using HR. unfold insert_binding. repeat case_match; by apply law_other. Qed.
Lemma law_insert_credential id c db : R db (insert_credential id c db).2.
Proof using HR. unfold insert_credential. repeat case_match; by apply law_other. Qed.
Lemma law_insert_retry p k o db : R db (insert_retry p k o db).2.
Proof using HR. unfold insert_retry. repeat case_match; by apply law_other. Qed.

Lemma law_raise projectId id floor db : R db (raise_reservations projectId id floor db).2.
Proof using HR. unfold raise_reservations. repeat case_match; by apply law_other. Qed.

(** The claim of a cycle. *)
Lemma claim_within claim : within (world_rel (K:=K) R) (claim_operation claim).
Proof using HR.
  unfold claim_operation. apply world_committed; [typeclasses eauto|within_solve|].
  intros w a w' (selected & w1 & [-> ->]%query_Ok_inv & E)%bind_Ok_inv.
  destruct (min_by _ _) as [old|] eqn:Em; [|by injection E as _ <-].
  apply min_by_Some in Em as [[He Hin]%list_elem_of_filter _].
  apply bind_Ok_inv in E as (u & w1 & ->%execute_sql_Ok_inv & [_ ->]%query_Ok_inv).
  by apply (law_claim R HR).
Qed.

Lemma tick_within claim : within (world_rel (K:=K) R) (tick (key d) (Some ensure) (telemetry d) claim).
Proof using HR.
  unfold tick. apply within_bind; [typeclasses eauto|apply claim_within|intros [operation|]].
  - apply within_bind; [typeclasses eauto| |intros ?; auto with within typeclass_instances].
    apply attempt_within; [typeclasses eauto| |apply (law_worker R HR)].
    intros projectId. apply ensure_within; [typeclasses eauto|]. intros db f. by apply law_other.
  - auto with within typeclass_instances.
Qed.

Lemma sync_within : within (world_rel (K:=K) R) sync_tick.
Proof using HR.
  unfold sync_tick, apply_quota. world_solve. by apply law_other.
Qed.

Lemma inventory_within worker :
  within (world_rel (K:=K) R) (inventory_tick (timestamp_text d) (spec_json d) worker).
Proof using HR.
  unfold inventory_tick, claim_project, scan, settle_scan. world_solve; by apply law_other.
Qed.
(** The routes. *)
Lemma access_within request projectId roles : within (world_rel (K:=K) R) (projectAccess request projectId roles).
Proof using HR. apply projectAccess_within. typeclasses eauto. Qed.
Lemma accept_within id projectId instanceId kind k h request secret actor :
  within (world_rel (K:=K) R) (accept id projectId instanceId kind k h request secret actor).
Proof using HR. unfold accept. world_solve. by apply (law_insert R HR). Qed.
Lemma audit_within actor projectId instanceId oid action details :
  within (world_rel (K:=K) R) (audit actor projectId instanceId oid action details).
Proof using HR. unfold audit. world_solve. by apply law_other. Qed.
Lemma reserve_within projectId id input creating :
  within (world_rel (K:=K) R) (reserveResources projectId id input creating).
Proof using HR. unfold reserveResources, quotaSnapshot. world_solve. by apply law_other. Qed.
Lemma check_quota_within projectId : within (world_rel (K:=K) R) (check_project_quota projectId).
Proof using HR. unfold check_project_quota, quotaSnapshot. world_solve. Qed.
Hint Resolve access_within accept_within audit_within reserve_within check_quota_within
  ids_within require_kube_within provisioning_within binding_within readOwned_within observe_within
  storage_error_within replay_within lockProject_within : within.

Ltac route_solve :=
  world_solve; try first [apply law_insert_binding|apply law_insert_credential|by apply law_other].

Lemma reconcile_within request projectId id : within (world_rel (K:=K) R)
  (reconcile (is_uuid d) (timestamp_text d) (spec_json d) (inspects d) request projectId id).
Proof using HR.
  unfold reconcile, reconcile_transaction. world_solve; first [apply law_raise|by apply law_other].
Qed.

Lemma create_within fresh request projectId : within (world_rel (K:=K) R)
  (create_instance (options d) (is_uuid d) (bcrypt d) projectAccess fresh request projectId).
Proof using HR. unfold create_instance. route_solve. Qed.
Lemma update_within fresh request projectId id : within (world_rel (K:=K) R)
  (update_instance (options d) (is_uuid d) projectAccess fresh request projectId id).
Proof using HR. unfold update_instance. route_solve. Qed.
Lemma rotate_within fresh request projectId id : within (world_rel (K:=K) R)
  (rotate_credentials (options d) (is_uuid d) (bcrypt d) projectAccess fresh request projectId id).
Proof using HR. unfold rotate_credentials. route_solve. Qed.
Lemma delete_within fresh request projectId id : within (world_rel (K:=K) R)
  (delete_instance (is_uuid d) projectAccess fresh request projectId id).
Proof using HR. unfold delete_instance. route_solve. Qed.
Lemma reclaim_within fresh request projectId id : within (world_rel (K:=K) R)
  (reclaim_retained_volume (options d) (is_uuid d) (bcrypt d) projectAccess fresh request projectId id).
Proof using HR. unfold reclaim_retained_volume. route_solve. Qed.
Lemma delete_volume_within fresh request projectId id : within (world_rel (K:=K) R)
  (delete_retained_volume (options d) (is_uuid d) projectAccess fresh request projectId id).
Proof using HR. unfold delete_retained_volume. route_solve. Qed.

Lemma retried_step projectId k id actor now op db :
  db_operations db !! id = Some op → op_state op = Failed →
  (∀ j o, db_operations db !! j = Some o → op_id o ≠ id → both_active (resume_row now op) o = false) →
  R db (retried_db projectId k id actor now op db).
Proof using HR.
  intros Hop Hf Hfree.
  transitivity ((resume_operation id now db).2); [by apply (law_resume R HR _ _ op)|].
  unfold resume_operation. rewrite Hop.
  destruct (existsb _ (rows _)) eqn:E; simpl.
  { apply existsb_exists in E as (o & [j Hj]%list_elem_of_In%rows_elem & [Hne Hb]%andb_true_iff).
    apply negb_true_iff, String.eqb_neq in Hne. by rewrite (Hfree j o Hj Hne) in Hb. }
  unfold retried_db. destruct (bool_decide _); by apply law_other.
Qed.

Lemma retry_within request projectId id : within (world_rel (K:=K) R)
  (retry_operation (is_uuid d) projectAccess request projectId id).
Proof using HR.
  unfold retry_operation.
  repeat match goal with
  | |- within _ (transaction _) => apply world_committed
  | _ => within_step
  end.
  - typeclasses eauto.
  - unfold retry_transaction, lockProject. within_solve.
  - intros w r w' (op & Hop & _ & _ & [(_ & -> & _)|(_ & Hres & _ & _ & Hfree & -> & _)])%retry_transaction_inv;
      [done|].
    apply retried_step; [done| |done].
    unfold resumable in Hres. apply andb_true_iff in Hres as [Hs _]. by apply bool_decide_eq_true in Hs.
Qed.

(** Every process keeps every law. *)
Lemma process_within {A} (m : M (World K) A) : process m → within (world_rel R) m.
Proof using HR.
  pose proof (law_accounts R HR) as Hacc. pose proof (law_insert R HR) as Hins.
  pose proof R_preorder as Hpre.
  destruct 1; solve
    [ apply tick_within | apply sync_within | apply inventory_within | apply reconcile_within | apply create_within | apply update_within | apply rotate_within
    | apply delete_within | apply reclaim_within | apply delete_volume_within | apply retry_within
    | by apply bootstrap_within
    | by apply login_within
    | by apply logout_within
    | by apply change_password_within
    | by apply reset_password_within
    | by apply create_user_within
    | by apply patch_user_within
    | by apply create_project_within
    | by apply refresh_within
    | by apply put_quota_within
    | by apply retry_project_within
    | by apply add_member_within
    | by apply set_member_within
    | by apply remove_member_within ].
Qed.
End system.

(** The least law: what the single writes of the processes can do together. *)
Definition wrote (db db' : DB) : Prop := ∀ R, law R → R db db'.
Lemma wrote_law : law wrote.
Proof.
  split.
  - split; [intros db R HR; by apply (law_preorder R HR)|].
    intros d1 d2 d3 H12 H23 R HR. pose proof (law_preorder R HR).
    etransitivity; [by apply H12|by apply H23].
  - intros db db' Ha R HR. by apply (law_accounts R HR).
  - intros op db Ha R HR. by apply (law_insert R HR).
  - intros claim now old db Hin He R HR. by apply (law_claim R HR).
  - intros id now op db Hop Hf R HR. by apply (law_resume R HR id now op).
  - intros K ? operation. split; intros; intros R HR; by apply (law_worker R HR operation).
Qed.

(** The states a deployment can reach: from the empty database, by runs of the
    processes, each interleaved with writes of the others. *)
Section reachable.
Context {K : Type} `{KubernetesPort K} `{QuotaPort K} `{InventoryPort K} `{Aead} `{Digests}.
Context (d : Deployment).

Inductive reachable : DB → Prop :=
| reach_start : reachable empty_db
| reach_run {A} (m : M (World K) A) w :
    reachable (w_db w) → process d m →
    env_moves wrote w → reachable (w_db (m w).2).

Lemma reachable_wrote db : reachable db → wrote empty_db db.
Proof.
  induction 1 as [|A m w _ IH Hm Henv]; [by apply (law_preorder wrote wrote_law)|].
  pose proof (law_preorder wrote wrote_law). etransitivity; [exact IH|].
  by apply (process_within d wrote wrote_law m Hm w Henv).
Qed.
End reachable.

Lemma sane_empty : sane empty_db.
Proof.
  assert (∀ id op, db_operations empty_db !! id = Some op → False) as Hn.
  { intros id op. simpl. by rewrite lookup_empty. }
  split; [split; [intros id op Hop|intros id op Hop]|intros id op j o Hop|intros id op j o Hop]; by apply Hn in Hop.
Qed.
Lemma sessions_empty : sessions_active empty_db.
Proof. intros h s. simpl. by rewrite lookup_empty. Qed.

(** ** Properties *)

(** C5. The operations table is sound in every state a deployment can reach,
    by any interleaving of its processes: rows are stored under their
    identifier, a project never holds two operations of a kind under one
    idempotency key, an instance never has two active operations, and a
    finished operation keeps no worker, lease or sealed secret; and every
    session belongs to an active account. *)
Theorem reachable_sane {K} `{KubernetesPort K} `{QuotaPort K} `{InventoryPort K} `{Aead} `{Digests} (d : Deployment) (db : DB) :
  reachable (K:=K) d db →
  keys_ok db ∧ unique_keys db ∧ one_active db ∧
  (∀ id op, db_operations db !! id = Some op → terminal (op_state op) = true → cleared op) ∧
  sessions_active db.
Proof.
  intros Hr%reachable_wrote. destruct (Hr lawful lawful_law sane_empty) as [[[Hk Hc] Hu Ha] _].
  split_and!; try done. apply (Hr governed governed_law), sessions_empty.
Qed.

(** C6. An accepted operation is never lost, turned into another request, or
    undone.  Whatever process runs in a sound state, with the others
    interleaved, every stored operation is still there with its project,
    instance, kind, idempotency key and digest, and one that succeeded or was
    superseded is exactly as it was; only a failed one can become active
    again. *)
Theorem operations_are_kept {K} `{KubernetesPort K} `{QuotaPort K} `{InventoryPort K} `{Aead} `{Digests} (d : Deployment) {A} (m : M (World K) A)
    (w : World K) (id : string) (op : Operation) :
  process d m → env_moves lawful w → sane (w_db w) →
  db_operations (w_db w) !! id = Some op →
  let db' := w_db (m w).2 in
  sane db' ∧ ∃ op', db_operations db' !! id = Some op' ∧ same_intent op op' ∧
    (op_state op = Succeeded ∨ op_state op = Superseded → op' = op).
Proof.
  intros Hm Henv Hs Hop db'.
  destruct (process_within d lawful lawful_law m Hm w Henv)
    as [Hl _].
  destruct (Hl Hs) as [Hs' Hk]. split; [exact Hs'|]. exact (Hk id op Hop).
Qed.

(** C7. Nobody is locked out.  Whatever process runs, with the others
    interleaved, a project that has an active administrator keeps one, the
    platform keeps an active platform administrator, and sessions go on
    belonging to active accounts only. *)
Theorem governance_is_kept {K} `{KubernetesPort K} `{QuotaPort K} `{InventoryPort K} `{Aead} `{Digests} (d : Deployment) {A} (m : M (World K) A)
    (w : World K) :
  process d m → env_moves governed w →
  let db := w_db w in let db' := w_db (m w).2 in
  (∀ projectId, manned db projectId → manned db' projectId) ∧
  (platform_manned db → platform_manned db') ∧
  (sessions_active db → sessions_active db').
Proof.
  intros Hm Henv db db'.
  destruct (process_within d governed governed_law m Hm w Henv)
    as [[] _]. by split_and!.
Qed.

(** ** Witnesses

    A deployment in memory: its first administrator is bootstrapped, logs in
    and creates a project. *)
Definition sample_deployment : Deployment :=
  MkDeployment sample_options [x07] false true (λ _, true) (λ _, true) id (λ _, ""%string) (λ _, JNull).
Definition empty_world (db : DB) : World memory := MkWorld db ∅ 5 [] [].
Definition boot : M (World memory) () :=
  @bootstrap memory plain_digests (λ _, true) "u" (repeat x01 16) "Root@example.com" "correct horse".
Definition enter : M (World memory) string :=
  with_attempts ∅ (@login memory plain_digests (λ _, true) "" "token" "csrf"
    (MkHttpRequest "POST" "127.0.0.1" None None None None None
       (JObj [("email", JStr "root@example.com"); ("password", JStr "correct horse")]) (JObj []))).
Definition found : M (World memory) (string * string) :=
  @create_project memory plain_digests "p" "o"
    (MkHttpRequest "POST" "127.0.0.1" None (Some "token"%string) (Some "csrf"%string) None None
       (JObj [("name", JStr "Project")]) (JObj [])).

Definition booted_db : DB := w_db (boot (empty_world empty_db)).2.
Definition entered_db : DB := w_db (enter (empty_world booted_db)).2.
Definition founded_db : DB := w_db (found (empty_world entered_db)).2.

Lemma founded_reachable :
  @reachable memory memory_port memory_quota empty_inventory plain_aead plain_digests sample_deployment founded_db.
Proof.
  apply (reach_run _ found (empty_world entered_db)); [|apply run_create_project|constructor].
  apply (reach_run _ enter (empty_world booted_db)); [|apply run_login|constructor].
  apply (reach_run _ boot (empty_world empty_db)); [apply reach_start|apply run_bootstrap|constructor].
Qed.

Lemma reachable_sane_witness :
  keys_ok founded_db ∧ one_active founded_db ∧ sessions_active founded_db ∧
  op_kind <$> (db_operations founded_db !! "o"%string) = Some ProjectCreate ∧
  db_members founded_db !! ("p"%string, "u"%string) = Some RAdmin.
Proof.
  destruct (@reachable_sane memory memory_port memory_quota empty_inventory plain_aead plain_digests sample_deployment founded_db founded_reachable) as (Hk & _ & Ha & _ & Hs).
  split; [exact Hk|split; [exact Ha|split; [exact Hs|split]]]; vm_compute; reflexivity.
Defined.

Lemma operations_are_kept_witness : ∃ op op',
  db_operations founded_db !! "o"%string = Some op ∧
  db_operations (w_db (@sync_tick memory memory_quota (empty_world founded_db)).2) !! "o"%string = Some op' ∧
  same_intent op op'.
Proof.
  destruct (db_operations founded_db !! "o"%string) as [op|] eqn:E; [|vm_compute in E; discriminate E].
  destruct (@operations_are_kept memory memory_port memory_quota empty_inventory plain_aead plain_digests sample_deployment _ sync_tick (empty_world founded_db) "o" op (run_sync _)
    (Forall_nil_2 _)
    (proj1 (reachable_wrote _ _ founded_reachable lawful lawful_law sane_empty)) E)
    as (_ & op' & Hop & Hi & _).
  exists op, op'. split; [reflexivity|]. split; [exact Hop|exact Hi].
Defined.

Lemma governance_is_kept_witness :
  manned founded_db "p" ∧ manned (w_db (@sync_tick memory memory_quota (empty_world founded_db)).2) "p".
Proof.
  assert (manned founded_db "p") as Hm by (eexists "u"%string, _; split; [|split]; vm_compute; reflexivity).
  split; [exact Hm|].
  destruct (@governance_is_kept memory memory_port memory_quota empty_inventory plain_aead plain_digests sample_deployment _ sync_tick (empty_world founded_db) (run_sync _)
    (Forall_nil_2 _)) as (Hp & _).
  exact (Hp "p"%string Hm).
Defined.
